(* ===== verification/_CoqProject ===== *)
-Q . S2P
Prelude.v
PyStr.v
Codec.v
Sha256.v
PyExn.v
PyVal.v
Json.v
Prog.v
Http.v
Url.v
PopVerifier.v
Backend.v
EvidencePath.v
KeycloakPlan.v
KeycloakSync.v
Wp1.v
Schemas.v
Konnect.v
LocalFiles.v
RoleInputs.v
DeckYaml.v
FoundationState.v
ThirdPartyState.v
ApiState.v
DeckReport.v
ApiDiff.v
Sanitize.v
BackendDiff.v
Approvals.v
Manifest.v
RunDeck.v
DemoForward.v
RsaJwk.v
Readiness.v
Layout.v
Writes.v
RuntimeSecrets.v
RuntimeEnv.v
RealmTemplate.v
Pki.v
Reconcile.v
Servers.v
