(* ===== verification/Prelude.v ===== *)
(** * A verification of the Keycloak / Konnect FAPI 2 demo

    The repository deploys a FAPI 2 demonstration: a browser user logs in at a
    third-party gateway (Kong), which calls a business backend, which calls an API
    gateway (Kong), which calls a verifier that documents how the call was
    authenticated.  Its Python code has two halves, both modelled here as pure
    functions over Python values, with exceptions as the error side of a result
    and every effect (HTTP calls, decK processes, looks at files, output) as a
    node of a program tree.

    ** The services

    - the verifier, [src/pop-verifier/app.py], is [PopVerifier]: the pinned TLS
      peer, the forwarded client certificate, the PS256 access token and its
      binding to that certificate, the evidence document, and the handler
      [do_GET]/[send_error];
    - the third-party backend, [src/third-party-backend/app.py], is [Backend]: the
      inbound peer and token checks, the fixed upstream call with its error
      classes, the evidence filter [project_evidence], and the handler;
    - [EvidencePath] composes the two: what the verifier answers is what the
      backend is given;
    - [Readiness] is the rest of the backend: its identity files, its TLS contexts,
      the digest of its public configuration, and the local readiness protocol
      (handler and probe);
    - [Servers] is the start of both services: the TLS context and pin of the
      verifier, and the life of the backend's process from binding to clean-up;
    - [DemoForward] ([src/scripts/wp5-demo-forward.py]) is the forwarder a browser
      on the host goes through: its threads, its lock and its signal handler as a
      transition system.

    Theorems: an evidence answer is only given to the pinned peer for a bound
    token and says exactly that; the backend contacts the upstream only after its
    checks and always answers; its filter accepts exactly the valid documents; a
    token and a document survive the way through both services; the probe succeeds
    exactly for an unchanged configuration; a started service demands the
    certificate of its gateway; the forwarder delivers what it received
    and nothing after [stop] has returned.

    ** The deployment

    - [Wp1], [Url] and [Schemas] ([src/scripts/wp1.py]): selectors, endpoints, the
      target manifest, schema hashes and the paginated schema list;
    - [Konnect] ([src/scripts/wp1_target.py]): the JSON requests to Konnect, the
      remote control plane, checking and synchronizing custom schemas;
    - [LocalFiles], [RoleInputs], [DeckYaml], [FoundationState], [ThirdPartyState]
      and [Manifest] ([src/scripts/wp1_target.py]): files and digests, role
      certificates and keys, the YAML reader, the fixed decK states, the local
      checks of a target and the target command;
    - [ApiState], [DeckReport] and [ApiDiff] ([src/scripts/wp3_runtime.py]): the
      API runtime state, decK's difference reports and the reviewed migration;
    - [Sanitize], [BackendDiff], [Approvals] and [RunDeck]
      ([src/scripts/run-deck.py]): the sanitized output, the third-party reports
      and plans, the approval receipts, and the command that runs decK;
    - [KeycloakPlan] and [KeycloakSync] ([src/scripts/sync-keycloak-demo-data.py]):
      the plans of a reconciliation and the requests that carry them out;
      [Reconcile] is the command around them: its input files, the HTTP message and
      the reply of a request, and what is printed.

    ** The generated inputs

    - [Pki] ([src/scripts/generate-pki.py]): the development certificates;
    - [RsaJwk] ([src/scripts/export-rsa-jwk.py]): the DER reader, and a private key
      as a JWK and as environment entries;
    - [RuntimeSecrets] ([src/scripts/render-runtime-secrets.py]), [RuntimeEnv]
      ([src/scripts/render-runtime-env.py]) and [RealmTemplate]
      ([src/scripts/render-keycloak-realm.py]): the role files and environment
      files, the target manifest and endpoints, and the realm.

    Theorems: what these scripts write is what the deployment accepts
    ([RuntimeSecrets.rendered_roles_accepted], [RuntimeEnv.rendered_manifest_accepted],
    [RuntimeSecrets.exported_jwk_rendered]), and what the reconciliation carries out
    ([Reconcile.rendered_realm_reconciled]); the written texts are read back as the
    values they were made of; existing certificates are never overwritten.

    Theorems on the deployment: each validator accepts exactly, or only, the states, reports and
    receipts it is meant to; a schema synchronization implements the abstract
    update of a registry; plans converge and nothing is changed before all of them
    are made; and [RunDeck.sync_gated]: in every history of the deployment command
    a synchronization is preceded by an approved receipt, an agreeing diff and a
    second reading of its inputs.

    ** The library

    [Prelude] holds automation (the hint database [py], [break], [bool_prop]) and
    lemmas on lists and association lists.  [PyStr], [Codec] and [Sha256] are
    strings, codecs and digests, [PyExn] and [PyVal] exceptions and values, [Json]
    the [json] module, [Http] messages and TLS, and [Prog] programs over calls with
    three logics: [calls] (what can be called at all), [ensures] (and what is
    returned) and [during] (what can be called after which history).  [Layout] is
    [json.dumps] with other separators and indentation, and [Writes] the atomic
    replacement of a file and scripts that write files one after the other.

    ** Strings, numbers and fuel

    A [str] is a list of code points in [Z], a [bytes] a list of bytes; integers
    are unbounded as in Python; floats are [spec_float].  The only fuel is the
    argument [depth] of the JSON reader, which is Python's recursion limit: the
    reader raises [RecursionError] when it is used up, and the theorems hold for
    every value of it.  Every loop of the program that is not structural is shown
    to end: the paginated request after at most a thousand reads
    ([Konnect.request_schema_pages_complete]), the probe after at most 4098 turns
    ([Readiness.check_ready_bounded]).  The threads of the forwarder run for ever;
    what can be said is that a stop can always be completed
    ([DemoForward.shutdown_possible]).

    ** Interfaces

    Code outside the repository is a type class, with its laws in a class of their
    own where a theorem needs them and an instance at every witness: [X509] (the
    certificate library), [PyJWT] (the token library), [Unicode] (the Unicode
    tables), [Yaml] (the YAML parser, up to the node tree), [OpenSSL] (the
    [openssl] command in the checks), [PkiTools] (the same command and the files it
    writes when certificates are made) and [SetOrder] (the order in which Python
    iterates over a set of strings).  Services and decK are the answers of a program's calls and
    are arbitrary in every safety theorem.

    ** Not modelled

    TLS handshakes, and the connections and threads of the two services (only the
    peer certificate and the request reach the handlers); the texts scripts print on
    standard output, but for those of [RunDeck] and [Reconcile]; argument parsing, whose fixed
    choices the theorems do not assume; the modes of rendered files; the clock.
    The Lua plugins of Kong, the decK states and Compose files themselves, the
    Terraform configuration, the Keycloak theme, the browser pages and the shell
    scripts are configuration or code in other languages; the test harnesses under
    [src/tests] exercise the parts above.

    ** Plan

    The Python code is modelled.  What could be added is the code in other
    languages, first of all the two Lua plugins of Kong. *)
From Stdlib Require Export ZArith Lia.
From stdpp Require Export prelude sorting list.

#[export] Set Default Goal Selector "!".

(** ** Automation *)

Create HintDb py discriminated.

(** Case analysis on the scrutinee of a [match] or [if] in a hypothesis or in
    the goal; the equation is kept. *)
Ltac case_match_in H :=
  match type of H with
  | context [match ?x with _ => _ end] => destruct x eqn:?
  end.

(** Break every [if]/[match] of a hypothesis that describes a successful run of
    a guarded computation, closing the branches that fail. *)
Ltac break H :=
  repeat (case_match_in H; try discriminate H; simplify_eq/=).

(** Turn boolean conjunctions, disjunctions and [bool_decide]s in the context
    into propositions. *)
Ltac bool_prop :=
  repeat match goal with
  | H : _ && _ = true |- _ => apply andb_true_iff in H as [? ?]
  | H : _ || _ = false |- _ => apply orb_false_iff in H as [? ?]
  | H : _ || _ = true |- _ => apply orb_true_iff in H
  | H : negb _ = true |- _ => apply negb_true_iff in H
  | H : negb _ = false |- _ => apply negb_false_iff in H
  | H : bool_decide _ = true |- _ => apply bool_decide_eq_true in H
  | H : bool_decide _ = false |- _ => apply bool_decide_eq_false in H
  | H : (_ <=? _)%Z = true |- _ => apply Z.leb_le in H
  | H : (_ <=? _)%Z = false |- _ => apply Z.leb_gt in H
  | H : (_ <? _)%Z = true |- _ => apply Z.ltb_lt in H
  | H : (_ <? _)%Z = false |- _ => apply Z.ltb_ge in H
  | H : (_ =? _)%Z = true |- _ => apply Z.eqb_eq in H
  | H : (_ =? _)%Z = false |- _ => apply Z.eqb_neq in H
  | H : (_ <=? _)%nat = true |- _ => apply Nat.leb_le in H
  | H : (_ <=? _)%nat = false |- _ => apply Nat.leb_gt in H
  | H : (_ <? _)%nat = true |- _ => apply Nat.ltb_lt in H
  | H : (_ <? _)%nat = false |- _ => apply Nat.ltb_ge in H
  | H : (_ =? _)%nat = true |- _ => apply Nat.eqb_eq in H
  | H : (_ =? _)%nat = false |- _ => apply Nat.eqb_neq in H
  end.

(** [enumerate(l)] *)
Definition enumerate {A} (l : list A) : list (nat * A) := zip (seq 0 (length l)) l.

(** ** Boolean tests on lists *)

(** Is some element a repetition of an earlier one? *)
Fixpoint has_dup `{EqDecision A} (l : list A) : bool :=
  match l with
  | [] => false
  | x :: l' => bool_decide (x ∈ l') || has_dup l'
  end.

Lemma has_dup_false `{EqDecision A} (l : list A) :
  has_dup l = false <-> NoDup l.
Proof.
  induction l as [|x l IH]; simpl.
  - split; [constructor | done].
  - rewrite orb_false_iff, bool_decide_eq_false, NoDup_cons, IH. done.
Qed.

Lemma has_dup_true `{EqDecision A} (l : list A) :
  has_dup l = true <-> ~ NoDup l.
Proof.
  rewrite <- has_dup_false. destruct (has_dup l); naive_solver.
Qed.

(** Equality of two lists seen as sets, as Python compares [set(a) == set(b)]. *)
Definition same_set `{EqDecision A} (l k : list A) : bool :=
  bool_decide (l ⊆ k) && bool_decide (k ⊆ l).

Lemma same_set_true `{EqDecision A} (l k : list A) :
  same_set l k = true <-> (forall x, x ∈ l <-> x ∈ k).
Proof.
  unfold same_set. rewrite andb_true_iff, !bool_decide_eq_true.
  split; [intros [H1 H2] x; split; [apply H1|apply H2]
         | intros H; split; intros x; apply H].
Qed.

Lemma same_set_refl `{EqDecision A} (l : list A) : same_set l l = true.
Proof. by apply same_set_true. Qed.

Lemma same_set_permutation `{EqDecision A} (l k : list A) :
  NoDup l -> NoDup k -> same_set l k = true -> l ≡ₚ k.
Proof.
  intros Hl Hk H. apply NoDup_Permutation; [done..|]. by apply same_set_true.
Qed.

(** ** Association lists: the insertion-ordered dictionaries of Python *)

Section assoc.
Context {K V : Type} `{EqDecision K}.
Implicit Types (d : list (K * V)).

Fixpoint alookup (k : K) d : option V :=
  match d with
  | [] => None
  | (k', v) :: d' => if decide (k = k') then Some v else alookup k d'
  end.

(** [d[k] = v]: an existing key keeps its position, a new one goes last. *)
Fixpoint ainsert (k : K) (v : V) d : list (K * V) :=
  match d with
  | [] => [(k, v)]
  | (k', v') :: d' =>
      if decide (k = k') then (k', v) :: d' else (k', v') :: ainsert k v d'
  end.

Lemma alookup_Some_in k v d : alookup k d = Some v -> (k, v) ∈ d.
Proof.
  induction d as [|[k' v'] d IH]; simpl; [done|].
  case_decide; [intros [= ->]; subst; by left | right; auto].
Qed.

Lemma alookup_None k d : alookup k d = None <-> k ∉ d.*1.
Proof.
  induction d as [|[k' v'] d IH]; csimpl; [split; [intros _ []%elem_of_nil|done]|].
  rewrite not_elem_of_cons, <- IH. case_decide; subst; [|tauto].
  split; [done|by intros [? _]].
Qed.

Lemma alookup_is_Some k d : is_Some (alookup k d) <-> k ∈ d.*1.
Proof.
  destruct (alookup k d) as [v|] eqn:E.
  - split; [intros _|by eauto]. apply alookup_Some_in in E.
    apply list_elem_of_fmap. by exists (k, v).
  - apply alookup_None in E. split; [by intros []|done].
Qed.

Lemma alookup_NoDup k v d :
  NoDup d.*1 -> (k, v) ∈ d -> alookup k d = Some v.
Proof.
  induction d as [|[k' v'] d IH]; simpl; [intros _ []%elem_of_nil|].
  rewrite NoDup_cons. intros [Hn Hd] Hin. apply elem_of_cons in Hin as [[= -> ->]|Hin].
  - by rewrite decide_True.
  - case_decide as Hk; [|auto]. subst. destruct Hn.
    apply list_elem_of_fmap. by exists (k', v).
Qed.

Lemma alookup_ainsert k k' v d :
  alookup k (ainsert k' v d) = if decide (k = k') then Some v else alookup k d.
Proof.
  induction d as [|[k0 v0] d IH]; simpl; [repeat case_decide; naive_solver|].
  destruct (decide (k' = k0)) as [->|]; simpl; [repeat case_decide; congruence|].
  rewrite IH. repeat case_decide; congruence.
Qed.

Lemma ainsert_new k v d : k ∉ d.*1 -> ainsert k v d = d ++ [(k, v)].
Proof.
  induction d as [|[k0 v0] d IH]; simpl; [done|]. intros Hn.
  rewrite not_elem_of_cons in Hn. destruct Hn as [Hne Hn].
  rewrite decide_False by done. by rewrite IH.
Qed.

Lemma ainsert_keys k v d :
  (ainsert k v d).*1 = if decide (k ∈ d.*1) then d.*1 else d.*1 ++ [k].
Proof.
  induction d as [|[k0 v0] d IH]; csimpl; [done|].
  destruct (decide (k = k0)) as [->|Hne].
  - rewrite decide_True by (by left). done.
  - csimpl. rewrite IH. destruct (decide (k ∈ d.*1)) as [Hin|Hin].
    + by rewrite decide_True by (by right).
    + rewrite decide_False; [done|]. by rewrite not_elem_of_cons.
Qed.

Lemma ainsert_NoDup k v d : NoDup d.*1 -> NoDup (ainsert k v d).*1.
Proof.
  intros H. rewrite ainsert_keys. case_decide as Hin; [done|].
  apply NoDup_app. split_and!; [done| |apply NoDup_singleton].
  intros x Hx Hx'. apply list_elem_of_singleton in Hx'. by subst.
Qed.

Lemma alookup_app k d d' :
  alookup k (d ++ d') =
    match alookup k d with Some v => Some v | None => alookup k d' end.
Proof.
  induction d as [|[k0 v0] d IH]; simpl; [done|]. case_decide; [done|apply IH].
Qed.
End assoc.

(** ** Boolean quantifiers *)

(** [forallb] and [existsb] as propositions, in the form the guards use. *)
Lemma forallb_Forall {A} (f : A -> bool) (l : list A) :
  forallb f l = true <-> Forall (fun x => f x = true) l.
Proof. rewrite forallb_forall, Forall_forall. setoid_rewrite list_elem_of_In. done. Qed.

Lemma existsb_false {A} (f : A -> bool) (l : list A) :
  existsb f l = false <-> Forall (fun x => f x = false) l.
Proof.
  induction l as [|x l IH]; simpl; [by split; [constructor|]|].
  rewrite orb_false_iff, IH, Forall_cons. done.
Qed.

Lemma filter_nil {A} (f : A -> bool) (l : list A) :
  Forall (fun x => f x = false) l -> List.filter f l = [].
Proof. induction 1 as [|x l Hx _ IH]; simpl; [done|]. by rewrite Hx. Qed.

(** ** Stable sorting, as [sorted] and [list.sort] *)

Section py_sort.
Context {A : Type} (leb : A -> A -> bool).

(** [x] goes before the first element it does not exceed, so that elements
    that compare equal keep their order. *)
Fixpoint sort_insert (x : A) (l : list A) : list A :=
  match l with
  | [] => [x]
  | y :: l' => if leb x y then x :: l else y :: sort_insert x l'
  end.

Definition py_sort (l : list A) : list A := foldr sort_insert [] l.

Lemma sort_insert_perm x l : sort_insert x l ≡ₚ x :: l.
Proof.
  induction l as [|y l IH]; simpl; [done|]. case_match; [done|].
  rewrite IH. apply Permutation_swap.
Qed.

Lemma py_sort_perm l : py_sort l ≡ₚ l.
Proof.
  induction l as [|x l IH]; [done|]. cbn [py_sort foldr].
  rewrite sort_insert_perm. by apply Permutation_skip.
Qed.

Lemma py_sort_length l : length (py_sort l) = length l.
Proof. apply Permutation_length, py_sort_perm. Qed.

Lemma elem_of_py_sort x l : x ∈ py_sort l <-> x ∈ l.
Proof. by rewrite py_sort_perm. Qed.

Definition leb_rel (x y : A) : Prop := leb x y = true.

Context (leb_total : forall x y, leb x y = true \/ leb y x = true).
Context (leb_trans : forall x y z, leb x y = true -> leb y z = true -> leb x z = true).

Lemma sort_insert_sorted x l :
  StronglySorted leb_rel l -> StronglySorted leb_rel (sort_insert x l).
Proof.
  induction 1 as [|y l Hl IH Hy]; simpl; [by repeat constructor|].
  destruct (leb x y) eqn:E.
  - constructor; [by constructor|]. constructor; [done|].
    eapply Forall_impl; [exact Hy|]. intros z. by apply leb_trans.
  - constructor; [done|]. rewrite sort_insert_perm. constructor; [|done].
    destruct (leb_total x y) as [H|H]; [congruence|done].
Qed.

Lemma py_sort_sorted l : StronglySorted leb_rel (py_sort l).
Proof. induction l as [|x l IH]; simpl; [constructor|by apply sort_insert_sorted]. Qed.

(** The result does not depend on the order of the input when elements that
    compare equal are equal. *)
Lemma py_sort_unique l k :
  (forall x y, x ∈ l -> y ∈ l -> leb x y = true -> leb y x = true -> x = y) ->
  l ≡ₚ k -> py_sort l = py_sort k.
Proof.
  intros Hinj Hp. apply (StronglySorted_unique_strong leb_rel).
  - intros x y. rewrite !elem_of_py_sort, <- Hp. apply Hinj.
  - apply py_sort_sorted.
  - apply py_sort_sorted.
  - by rewrite !py_sort_perm.
Qed.

Lemma py_sort_id l : StronglySorted leb_rel l -> py_sort l = l.
Proof.
  induction 1 as [|x l Hl IH Hx]; [done|]. cbn [py_sort foldr]. fold (py_sort l).
  rewrite IH. destruct l as [|y l]; [done|]. simpl.
  apply Forall_cons in Hx as [-> _]. done.
Qed.
End py_sort.

#[export] Instance sort_insert_Permutation {A} (leb : A -> A -> bool) :
  Proper ((=) ==> (≡ₚ) ==> (≡ₚ)) (sort_insert leb).
Proof. intros x ? <- l k H. by rewrite !sort_insert_perm, H. Qed.

#[export] Instance py_sort_Permutation {A} (leb : A -> A -> bool) :
  Proper ((≡ₚ) ==> (≡ₚ)) (py_sort leb).
Proof. intros l k H. by rewrite !py_sort_perm. Qed.

#[export] Hint Resolve py_sort_perm py_sort_length : py.

(** Sorting two lists related element by element, by keys the relation
    preserves, gives related lists. *)
Section sort_Forall2.
Context {A B : Type} (P : A -> B -> Prop) (leb : A -> A -> bool) (leb' : B -> B -> bool).
Context (Hleb : forall x y x' y', P x x' -> P y y' -> leb x y = leb' x' y').

Lemma sort_insert_Forall2 x x' l l' :
  P x x' -> Forall2 P l l' -> Forall2 P (sort_insert leb x l) (sort_insert leb' x' l').
Proof.
  intros Hx. induction 1 as [|y y' l l' Hy Hl IH]; simpl; [by constructor|].
  rewrite (Hleb x y x' y') by done. destruct (leb' x' y'); by repeat constructor.
Qed.

Lemma py_sort_Forall2 l l' :
  Forall2 P l l' -> Forall2 P (py_sort leb l) (py_sort leb' l').
Proof.
  induction 1; simpl; [constructor|]. by apply sort_insert_Forall2.
Qed.
End sort_Forall2.

Lemma Forall2_map_r {A B C} (P : A -> C -> Prop) (f : B -> C) l k :
  Forall2 (fun x y => P x (f y)) l k -> Forall2 P l (map f k).
Proof. induction 1; simpl; by constructor. Qed.

(** The partner of a member of one of two related lists. *)
Lemma Forall2_in_l {A B} (P : A -> B -> Prop) l k x :
  Forall2 P l k -> x ∈ l -> exists y, y ∈ k /\ P x y.
Proof.
  induction 1 as [|x' y l k H _ IH]; [by intros ?%elem_of_nil|].
  intros [->|Hx]%elem_of_cons; [exists y; split; [by left|done]|].
  destruct (IH Hx) as (y' & ? & ?). exists y'. split; [by right|done].
Qed.

Lemma Forall2_in_r {A B} (P : A -> B -> Prop) l k y :
  Forall2 P l k -> y ∈ k -> exists x, x ∈ l /\ P x y.
Proof. intros H%Forall2_flip Hy. by apply (Forall2_in_l (flip P) k l y). Qed.

Lemma Forall2_map_l {A B C} (P : C -> B -> Prop) (f : A -> C) l k :
  Forall2 (fun x y => P (f x) y) l k -> Forall2 P (map f l) k.
Proof. induction 1; simpl; by constructor. Qed.
