(* ===== verification/PyStr.v ===== *)
(** Python strings and bytes.

    A [str] is the list of its code points (surrogates included, as Python
    allows them), a [bytes] object is a list of [Byte.byte].  The file defines
    the string methods the program calls and the UTF-8 codec, each executable,
    with the lemmas the components share. *)
From Stdlib Require Export Ascii.
From Stdlib Require Import Strings.Byte.
From stdpp Require Export strings.
From S2P Require Export Prelude.

Local Open Scope Z_scope.

Abbreviation pystr := (list Z).
Abbreviation bytes := (list Byte.byte).

#[export] Instance byte_eq_dec : EqDecision Byte.byte := Byte.byte_eq_dec.

(** ** Literals *)

Definition code_of_ascii (a : ascii) : Z := Z.of_N (N_of_ascii a).

(** [u"text"] is the Python literal ["text"]. *)
Fixpoint u (s : string) : pystr :=
  match s with
  | EmptyString => []
  | String a s' => code_of_ascii a :: u s'
  end.

(** The code point of the double quote, which literals cannot contain. *)
Definition dquote : Z := 34.

(** [bs"text"] is the Python literal [b"text"]. *)
Fixpoint bs (s : string) : bytes :=
  match s with
  | EmptyString => []
  | String a s' => byte_of_ascii a :: bs s'
  end.

(** ** Bytes as integers *)

Definition Z_of_byte (b : Byte.byte) : Z := Z.of_N (Byte.to_N b).

Definition byte_of_Z (z : Z) : Byte.byte :=
  match Byte.of_N (Z.to_N z) with Some b => b | None => x00 end.

Lemma Z_of_byte_range b : 0 <= Z_of_byte b < 256.
Proof.
  unfold Z_of_byte. pose proof (Byte.to_N_bounded b). lia.
Qed.

Lemma byte_of_Z_of_byte b : byte_of_Z (Z_of_byte b) = b.
Proof. unfold byte_of_Z, Z_of_byte. by rewrite N2Z.id, Byte.of_to_N. Qed.

Lemma Z_of_byte_of_Z z : 0 <= z < 256 -> Z_of_byte (byte_of_Z z) = z.
Proof.
  intros Hz. unfold byte_of_Z, Z_of_byte.
  destruct (Byte.of_N (Z.to_N z)) as [b|] eqn:E.
  - apply Byte.to_of_N in E. lia.
  - apply Byte.of_N_None_iff in E. lia.
Qed.

#[export] Instance Z_of_byte_inj : Inj (=) (=) Z_of_byte.
Proof. intros x y H. by rewrite <- (byte_of_Z_of_byte x), H, byte_of_Z_of_byte. Qed.

(** ** Sublists: [startswith], [endswith], [count], [in], [replace] *)

Section sub.
Context {A : Type} `{EqDecision A}.
Implicit Types (p s : list A).

Fixpoint starts_with p s : bool :=
  match p, s with
  | [], _ => true
  | _ :: _, [] => false
  | x :: p', y :: s' => bool_decide (x = y) && starts_with p' s'
  end.

Definition ends_with p s : bool := starts_with (rev p) (rev s).

(** Non-overlapping occurrences, scanned from the left; [skip] elements of
    the current occurrence are still to be passed. *)
Fixpoint count_from (skip : nat) p s : nat :=
  match s with
  | [] => 0%nat
  | _ :: s' =>
      match skip with
      | S k => count_from k p s'
      | O => if starts_with p s then S (count_from (length p - 1) p s')
             else count_from 0 p s'
      end
  end.

(** [s.count(p)] for a non-empty [p]. *)
Definition count_sub p s : nat := count_from 0 p s.

Fixpoint is_infix p s : bool :=
  starts_with p s || match s with [] => false | _ :: s' => is_infix p s' end.

Fixpoint replace_from (skip : nat) p r s : list A :=
  match s with
  | [] => []
  | x :: s' =>
      match skip with
      | S k => replace_from k p r s'
      | O => if starts_with p s then r ++ replace_from (length p - 1) p r s'
             else x :: replace_from 0 p r s'
      end
  end.

(** [s.replace(p, r)] for a non-empty [p]. *)
Definition replace_sub p r s : list A := replace_from 0 p r s.

Lemma starts_with_spec p s : starts_with p s = true <-> exists t, s = (p ++ t).
Proof.
  revert s. induction p as [|x p IH]; intros s; simpl.
  - split; [by exists s|done].
  - destruct s as [|y s]; [split; [done|by intros [t ?]]|].
    rewrite andb_true_iff, bool_decide_eq_true, IH.
    split; [intros [-> [t ->]]; by exists t|intros [t [= -> ->]]; by eauto].
Qed.

Lemma starts_with_app p t : starts_with p (p ++ t) = true.
Proof. apply starts_with_spec. by exists t. Qed.

Lemma ends_with_spec p s : ends_with p s = true <-> exists t, s = (t ++ p).
Proof.
  unfold ends_with. rewrite starts_with_spec. split.
  - intros [t Ht]. exists (rev t).
    by rewrite <- (rev_involutive s), Ht, rev_app_distr, rev_involutive.
  - intros [t ->]. exists (rev t). by rewrite rev_app_distr.
Qed.

Lemma is_infix_spec p s : is_infix p s = true <-> exists a c, s = (a ++ p ++ c).
Proof.
  induction s as [|x s IH]; simpl; rewrite orb_true_iff, starts_with_spec.
  - split; [intros [[t Ht]|?]; [by exists [], t|done]|].
    intros (a & c & H). left. destruct a; [by exists c|done].
  - rewrite IH. split.
    + intros [[t Ht]|(a & c & ->)]; [by exists [], t|by exists (x :: a), c].
    + intros ([|y a] & c & H); [left; by exists c|].
      right. injection H as -> ->. by exists a, c.
Qed.

Lemma replace_from_none p r s :
  is_infix p s = false -> replace_from 0 p r s = s.
Proof.
  induction s as [|x s IH]; [done|]. cbn [is_infix replace_from].
  intros [H1 H2]%orb_false_iff. by rewrite H1, IH.
Qed.
End sub.

(** ** Splitting *)

(** [s.partition(c)] for a one-character separator: the text before it, the
    separator (empty when absent) and the text after it. *)
Fixpoint partition_on (c : Z) (s : pystr) : pystr * pystr * pystr :=
  match s with
  | [] => ([], [], [])
  | x :: s' =>
      if x =? c then ([], [c], s')
      else let '(a, sep, r) := partition_on c s' in (x :: a, sep, r)
  end.

Lemma partition_on_absent c s : c ∉ s -> partition_on c s = (s, [], []).
Proof.
  induction s as [|x s IH]; simpl; [done|]. rewrite not_elem_of_cons. intros [Hne Hn].
  destruct (x =? c) eqn:E; [apply Z.eqb_eq in E; congruence|]. by rewrite IH.
Qed.

Lemma partition_on_app c a r :
  c ∉ a -> partition_on c (a ++ (c :: r)) = (a, [c], r).
Proof.
  induction a as [|x a IH]; simpl; [by rewrite Z.eqb_refl|].
  rewrite not_elem_of_cons. intros [Hne Hn].
  destruct (x =? c) eqn:E; [apply Z.eqb_eq in E; congruence|]. by rewrite IH.
Qed.

Lemma partition_on_sound c s a sep r :
  partition_on c s = (a, sep, r) -> sep <> [] ->
  s = (a ++ (c :: r)) /\ (c ∉ a) /\ sep = [c].
Proof.
  revert a. induction s as [|x s IH]; simpl; intros a; [by intros [= <- <- <-]|].
  destruct (x =? c) eqn:E.
  - apply Z.eqb_eq in E as ->. intros [= <- <- <-] _. split_and!; [done| |done].
    apply not_elem_of_nil.
  - destruct (partition_on c s) as [[a' sep'] r'] eqn:Ep. intros [= <- -> ->] Hs.
    destruct (IH _ eq_refl Hs) as (-> & Hn & ->). split_and!; [done| |done].
    rewrite not_elem_of_cons. apply Z.eqb_neq in E. auto.
Qed.

(** ** White space *)

(** The code points for which [str.isspace] holds. *)
Definition py_isspace (c : Z) : bool :=
  ((9 <=? c) && (c <=? 13)) || ((28 <=? c) && (c <=? 32)) || (c =? 133) || (c =? 160)
  || (c =? 5760) || ((8192 <=? c) && (c <=? 8202)) || (c =? 8232) || (c =? 8233)
  || (c =? 8239) || (c =? 8287) || (c =? 12288).

Section strip.
Context {A : Type} (f : A -> bool).

Fixpoint lstrip_while (s : list A) : list A :=
  match s with
  | [] => []
  | x :: s' => if f x then lstrip_while s' else s
  end.

Definition rstrip_while (s : list A) : list A := rev (lstrip_while (rev s)).

Definition strip_while (s : list A) : list A := rstrip_while (lstrip_while s).

Lemma lstrip_while_id s :
  match s with [] => True | x :: _ => f x = false end -> lstrip_while s = s.
Proof. destruct s; simpl; [done|]. by intros ->. Qed.

Lemma lstrip_while_suffix s : exists t, s = (t ++ lstrip_while s) /\ Forall (fun x => f x = true) t.
Proof.
  induction s as [|x s (t & Ht & Hf)]; simpl; [by exists []|].
  destruct (f x) eqn:E; [|by exists []].
  exists (x :: t). split; [by rewrite Ht at 1|by constructor].
Qed.
End strip.

Lemma strip_while_id {A} (f : A -> bool) s :
  Forall (fun x => f x = false) s -> strip_while f s = s.
Proof.
  intros Hs. unfold strip_while, rstrip_while. rewrite (lstrip_while_id f s).
  - rewrite lstrip_while_id; [apply rev_involutive|].
    assert (Hr : Forall (fun x => f x = false) (rev s)) by (by apply Forall_rev).
    destruct Hr; done.
  - destruct Hs; done.
Qed.

(** [s.strip()] *)
Definition py_strip (s : pystr) : pystr := strip_while py_isspace s.

(** [s.split()]: the maximal runs of non-blank characters; [acc] is the run
    being read, reversed. *)
Fixpoint split_ws_from (acc : pystr) (s : pystr) : list pystr :=
  match s with
  | [] => match acc with [] => [] | _ => [rev acc] end
  | x :: s' =>
      if py_isspace x
      then match acc with [] => split_ws_from [] s' | _ => rev acc :: split_ws_from [] s' end
      else split_ws_from (x :: acc) s'
  end.

Definition py_split_ws (s : pystr) : list pystr := split_ws_from [] s.

Lemma split_ws_from_nonblank acc s w :
  Forall (fun x => py_isspace x = false) acc ->
  w ∈ split_ws_from acc s -> w <> [] /\ Forall (fun x => py_isspace x = false) w.
Proof.
  revert acc. induction s as [|x s IH]; intros acc Hacc; simpl.
  - destruct acc as [|y acc]; [by intros ?%elem_of_nil|].
    intros ->%list_elem_of_singleton. split; [|by apply Forall_rev].
    simpl. by destruct (rev acc).
  - destruct (py_isspace x) eqn:E; [|apply IH; by constructor].
    destruct acc as [|y acc]; [by apply IH|].
    rewrite elem_of_cons. intros [->|Hin]; [|by apply (IH [])].
    split; [|by apply Forall_rev]. simpl. by destruct (rev acc).
Qed.

(** ** Case folding *)

(** [str.lower] on the code points below 256, the only ones a header value or a
    generated name contains here; other code points are left alone, and none of
    them lower-cases to one of the ASCII words the program compares with, the
    Kelvin sign (to [k]) excepted, which is included. *)
Definition lower_char (c : Z) : Z :=
  if (65 <=? c) && (c <=? 90) then c + 32
  else if (192 <=? c) && (c <=? 222) && negb (c =? 215) then c + 32
  else if c =? 8490 then 107 else c.

Definition py_lower (s : pystr) : pystr := map lower_char s.

(** ** Character classes *)

Definition is_digit (c : Z) : bool := (48 <=? c) && (c <=? 57).
Definition is_upper (c : Z) : bool := (65 <=? c) && (c <=? 90).
Definition is_lower (c : Z) : bool := (97 <=? c) && (c <=? 122).
Definition is_alnum (c : Z) : bool := is_digit c || is_upper c || is_lower c.
Definition is_hex (c : Z) : bool :=
  is_digit c || ((65 <=? c) && (c <=? 70)) || ((97 <=? c) && (c <=? 102)).
Definition is_hex_lower (c : Z) : bool := is_digit c || ((97 <=? c) && (c <=? 102)).
(** [ord(c) < 0x20 or ord(c) == 0x7F] *)
Definition is_control (c : Z) : bool := (c <? 32) || (c =? 127).

Definition hex_value (c : Z) : Z :=
  if is_digit c then c - 48 else if is_upper c then c - 55 else c - 87.
Definition hex_digit (n : Z) : Z := if n <? 10 then 48 + n else 87 + n.

Lemma hex_value_digit n : 0 <= n < 16 -> hex_value (hex_digit n) = n.
Proof.
  intros Hn. unfold hex_value, hex_digit, is_digit, is_upper.
  repeat case_match; bool_prop; try lia;
    repeat match goal with H : _ && _ = false |- _ => apply andb_false_iff in H end; lia.
Qed.

Lemma is_hex_digit n : 0 <= n < 16 -> is_hex (hex_digit n) = true.
Proof.
  intros Hn. unfold is_hex, hex_digit, is_digit.
  rewrite !orb_true_iff, !andb_true_iff, !Z.leb_le. case_match; bool_prop; lia.
Qed.

(** ** Ordering of strings: [s <= t] compares code points *)

Fixpoint str_leb (s t : pystr) : bool :=
  match s, t with
  | [], _ => true
  | _ :: _, [] => false
  | x :: s', y :: t' => (x <? y) || ((x =? y) && str_leb s' t')
  end.

Lemma str_leb_refl s : str_leb s s = true.
Proof. induction s as [|x s IH]; simpl; [done|]. by rewrite Z.eqb_refl, IH, orb_true_r. Qed.

Lemma str_leb_total s t : str_leb s t = true \/ str_leb t s = true.
Proof.
  revert t. induction s as [|x s IH]; intros [|y t]; simpl; [by left..|by right|].
  rewrite !orb_true_iff, !andb_true_iff, !Z.ltb_lt, !Z.eqb_eq.
  destruct (Z.lt_trichotomy x y) as [?|[->|?]]; [tauto| |tauto].
  destruct (IH t); tauto.
Qed.

Lemma str_leb_trans s t r : str_leb s t = true -> str_leb t r = true -> str_leb s r = true.
Proof.
  revert t r. induction s as [|x s IH]; intros [|y t] [|z r]; simpl; try done.
  rewrite !orb_true_iff, !andb_true_iff, !Z.ltb_lt, !Z.eqb_eq.
  intros [H1|[-> H1]] [H2|[-> H2]]; [left; lia..|]. right. split; [done|]. by apply (IH t).
Qed.

Lemma str_leb_antisym s t : str_leb s t = true -> str_leb t s = true -> s = t.
Proof.
  revert t. induction s as [|x s IH]; intros [|y t]; simpl; try done.
  rewrite !orb_true_iff, !andb_true_iff, !Z.ltb_lt, !Z.eqb_eq.
  intros [H1|[-> H1]] [H2|[? H2]]; try lia. f_equal. by apply IH.
Qed.
