(* ===== verification/Codec.v ===== *)
(** Codecs of the Python standard library the program relies on: UTF-8, decimal
    and hexadecimal integers, URL-safe base64 and percent-decoding. *)
From S2P Require Export PyStr.

Local Open Scope Z_scope.

(** ** UTF-8, strict as [str.encode] and [bytes.decode] *)

Definition is_surrogate (c : Z) : bool := (55296 <=? c) && (c <=? 57343).
Definition is_scalar (c : Z) : bool :=
  (0 <=? c) && (c <=? 1114111) && negb (is_surrogate c).
Definition is_ascii (c : Z) : bool := (0 <=? c) && (c <? 128).

(** A code point without its UTF-8 form (a surrogate) is a [UnicodeEncodeError]. *)
Definition utf8_encode_char (c : Z) : option bytes :=
  if negb (is_scalar c) then None
  else if c <? 128 then Some [byte_of_Z c]
  else if c <? 2048 then Some [byte_of_Z (192 + c / 64); byte_of_Z (128 + c mod 64)]
  else if c <? 65536 then
    Some [byte_of_Z (224 + c / 4096); byte_of_Z (128 + c / 64 mod 64);
          byte_of_Z (128 + c mod 64)]
  else
    Some [byte_of_Z (240 + c / 262144); byte_of_Z (128 + c / 4096 mod 64);
          byte_of_Z (128 + c / 64 mod 64); byte_of_Z (128 + c mod 64)].

Fixpoint utf8_encode (s : pystr) : option bytes :=
  match s with
  | [] => Some []
  | c :: s' =>
      match utf8_encode_char c, utf8_encode s' with
      | Some b, Some r => Some (b ++ r)
      | _, _ => None
      end
  end.

Definition is_cont (b : Byte.byte) : bool :=
  (128 <=? Z_of_byte b) && (Z_of_byte b <? 192).
Definition low6 (b : Byte.byte) : Z := Z_of_byte b - 128.

(** Overlong forms, surrogates and values above U+10FFFF are refused. *)
Fixpoint utf8_decode (b : bytes) : option pystr :=
  match b with
  | [] => Some []
  | b0 :: r0 =>
      let z := Z_of_byte b0 in
      if z <? 128 then cons z <$> utf8_decode r0
      else if z <? 194 then None
      else if z <? 224 then
        match r0 with
        | b1 :: r1 =>
            if is_cont b1 then cons ((z - 192) * 64 + low6 b1) <$> utf8_decode r1
            else None
        | _ => None
        end
      else if z <? 240 then
        match r0 with
        | b1 :: b2 :: r2 =>
            let c := (z - 224) * 4096 + low6 b1 * 64 + low6 b2 in
            if is_cont b1 && is_cont b2 && (2048 <=? c) && negb (is_surrogate c)
            then cons c <$> utf8_decode r2 else None
        | _ => None
        end
      else if z <? 245 then
        match r0 with
        | b1 :: b2 :: b3 :: r3 =>
            let c := (z - 240) * 262144 + low6 b1 * 4096 + low6 b2 * 64 + low6 b3 in
            if is_cont b1 && is_cont b2 && is_cont b3 && (65536 <=? c) && (c <=? 1114111)
            then cons c <$> utf8_decode r3 else None
        | _ => None
        end
      else None
  end.

(** [s.encode("ascii")] *)
Definition ascii_encode (s : pystr) : option bytes :=
  if forallb is_ascii s then Some (map byte_of_Z s) else None.

(** [b.decode()] of bytes known to be ASCII. *)
Definition ascii_decode (b : bytes) : pystr := map Z_of_byte b.

Lemma is_scalar_spec c :
  is_scalar c = true <-> 0 <= c <= 1114111 /\ ~ (55296 <= c <= 57343).
Proof. unfold is_scalar, is_surrogate. split; intros; bool_prop; lia. Qed.

Ltac zdm := Z.div_mod_to_equations; lia.

Lemma utf8_decode_encode_char c b r :
  utf8_encode_char c = Some b -> utf8_decode (b ++ r) = cons c <$> utf8_decode r.
Proof.
  unfold utf8_encode_char. destruct (is_scalar c) eqn:Hs; [|done].
  apply is_scalar_spec in Hs as [Hr Hn]. simpl negb; cbv iota.
  assert (0 <= c mod 64 < 64) by (apply Z.mod_pos_bound; lia).
  assert (0 <= c / 64 mod 64 < 64) by (apply Z.mod_pos_bound; lia).
  assert (0 <= c / 4096 mod 64 < 64) by (apply Z.mod_pos_bound; lia).
  assert (0 <= c / 64) by (apply Z.div_pos; lia).
  assert (c / 4096 = c / 64 / 64) by (by rewrite Z.div_div).
  assert (c / 262144 = c / 4096 / 64) by (by rewrite Z.div_div).
  destruct (c <? 128) eqn:E1; [|destruct (c <? 2048) eqn:E2; [|destruct (c <? 65536) eqn:E3]];
    intros [= <-]; bool_prop; cbn [app utf8_decode]; unfold is_cont, low6, is_surrogate;
    rewrite !Z_of_byte_of_Z by zdm.
  - by rewrite (proj2 (Z.ltb_lt _ _)).
  - rewrite (proj2 (Z.ltb_ge _ 128)), (proj2 (Z.ltb_ge _ 194)), (proj2 (Z.ltb_lt _ 224)) by zdm.
    rewrite (proj2 (Z.leb_le 128 _)), (proj2 (Z.ltb_lt _ 192)) by lia. simpl.
    do 2 f_equal. zdm.
  - rewrite (proj2 (Z.ltb_ge _ 128)), (proj2 (Z.ltb_ge _ 194)), (proj2 (Z.ltb_ge _ 224)),
      (proj2 (Z.ltb_lt _ 240)) by zdm.
    replace ((224 + c / 4096 - 224) * 4096 + (128 + c / 64 mod 64 - 128) * 64
             + (128 + c mod 64 - 128)) with c by zdm.
    rewrite !(proj2 (Z.leb_le 128 _)), !(proj2 (Z.ltb_lt _ 192)) by lia. simpl.
    rewrite (proj2 (Z.leb_le 2048 _)) by lia.
    destruct (_ && (c <=? 57343)) eqn:E; [bool_prop; lia|done].
  - rewrite (proj2 (Z.ltb_ge _ 128)), (proj2 (Z.ltb_ge _ 194)), (proj2 (Z.ltb_ge _ 224)),
      (proj2 (Z.ltb_ge _ 240)), (proj2 (Z.ltb_lt _ 245)) by zdm.
    replace ((240 + c / 262144 - 240) * 262144 + (128 + c / 4096 mod 64 - 128) * 4096
             + (128 + c / 64 mod 64 - 128) * 64 + (128 + c mod 64 - 128)) with c by zdm.
    rewrite !(proj2 (Z.leb_le 128 _)), !(proj2 (Z.ltb_lt _ 192)) by lia. simpl.
    by rewrite (proj2 (Z.leb_le 65536 _)), (proj2 (Z.leb_le _ 1114111)) by lia.
Qed.

Lemma utf8_decode_encode s b : utf8_encode s = Some b -> utf8_decode b = Some s.
Proof.
  revert b. induction s as [|c s IH]; simpl; intros b; [by intros [= <-]|].
  destruct (utf8_encode_char c) as [bc|] eqn:Ec; [|done].
  destruct (utf8_encode s) as [r|]; [|done]. intros [= <-].
  rewrite (utf8_decode_encode_char _ _ _ Ec). by rewrite (IH r).
Qed.

Lemma utf8_encode_Some s : Forall (fun c => is_scalar c = true) s <-> is_Some (utf8_encode s).
Proof.
  induction s as [|c s IH]; simpl; [split; [by eexists|constructor]|].
  rewrite Forall_cons, IH.
  assert (is_scalar c = true <-> is_Some (utf8_encode_char c)) as ->.
  { unfold utf8_encode_char. destruct (is_scalar c); simpl.
    - split; [|done]. intros _. repeat case_match; by eexists.
    - by split; [|intros []]. }
  clear IH. unfold is_Some. destruct (utf8_encode_char c), (utf8_encode s); naive_solver.
Qed.

(** ** Decimal integers: [str(n)] and [int(digits)] *)

(** The digits of [n], least significant first. *)
Fixpoint digits_rev (fuel : nat) (n : Z) : list Z :=
  match fuel with
  | O => []
  | S f => if n <? 10 then [n] else n mod 10 :: digits_rev f (n / 10)
  end.

(** [Z.log2 n + 1] binary digits bound the number of decimal ones. *)
Definition dec_digits (n : Z) : pystr :=
  map (fun d => 48 + d) (rev (digits_rev (S (Z.to_nat (Z.log2 n))) n)).

Definition dec_of_Z (n : Z) : pystr :=
  if n <? 0 then 45 :: dec_digits (- n) else dec_digits n.

Definition digits_value (s : pystr) : Z :=
  fold_left (fun acc c => 10 * acc + (c - 48)) s 0.

Definition value_rev (l : list Z) : Z := foldr (fun d acc => d + 10 * acc) 0 l.

Lemma value_rev_digits fuel n :
  0 <= n < 10 ^ Z.of_nat fuel -> value_rev (digits_rev fuel n) = n.
Proof.
  revert n. induction fuel as [|f IH]; intros n Hn; [simpl in *; lia|].
  cbn [digits_rev]. destruct (n <? 10) eqn:E; bool_prop; [simpl; lia|].
  rewrite Nat2Z.inj_succ, Z.pow_succ_r in Hn by lia.
  cbn [value_rev foldr]. fold (value_rev (digits_rev f (n / 10))). rewrite IH; zdm.
Qed.

Lemma digits_value_rev l acc :
  fold_left (fun a c => 10 * a + (c - 48)) (map (fun d => 48 + d) (rev l)) acc
  = acc * 10 ^ Z.of_nat (length l) + value_rev l.
Proof.
  induction l as [|d l IH] in acc |- *; [simpl; lia|].
  simpl rev. rewrite map_app, fold_left_app, IH. cbn [map fold_left length value_rev foldr].
  rewrite Nat2Z.inj_succ, Z.pow_succ_r by lia. fold (value_rev l). lia.
Qed.

Lemma log2_fuel n : 0 <= n -> n < 10 ^ Z.of_nat (S (Z.to_nat (Z.log2 n))).
Proof.
  intros Hn. rewrite Nat2Z.inj_succ, Z2Nat.id by apply Z.log2_nonneg.
  destruct (decide (n = 0)) as [->|Hne]; [done|].
  apply Z.lt_le_trans with (2 ^ Z.succ (Z.log2 n)); [apply Z.log2_spec; lia|].
  apply Z.pow_le_mono_l. lia.
Qed.

Lemma digits_value_dec n : 0 <= n -> digits_value (dec_digits n) = n.
Proof.
  intros Hn. unfold digits_value, dec_digits. rewrite digits_value_rev, value_rev_digits.
  - lia.
  - split; [done|]. by apply log2_fuel.
Qed.

Lemma digits_rev_range fuel n d : 0 <= n -> d ∈ digits_rev fuel n -> 0 <= d < 10.
Proof.
  revert n. induction fuel as [|f IH]; intros n Hn; [by intros ?%elem_of_nil|].
  cbn [digits_rev]. destruct (n <? 10) eqn:E; bool_prop.
  - intros ->%list_elem_of_singleton. lia.
  - intros [->|Hin]%elem_of_cons; [apply Z.mod_pos_bound; lia|].
    apply (IH (n / 10)); [apply Z.div_pos; lia|done].
Qed.

Lemma dec_digits_digit n : 0 <= n -> Forall (fun c => is_digit c = true) (dec_digits n).
Proof.
  intros Hn. apply Forall_forall. intros c Hc. unfold dec_digits in Hc.
  apply list_elem_of_In, in_map_iff in Hc as (d & <- & Hd). apply list_elem_of_In in Hd.
  apply list_elem_of_In, in_rev, list_elem_of_In, digits_rev_range in Hd; [|done].
  unfold is_digit. apply andb_true_iff. split; apply Z.leb_le; lia.
Qed.

(** A positive number has no leading zero. *)
Lemma digits_rev_last fuel n :
  0 < n < 10 ^ Z.of_nat fuel -> exists l d, digits_rev fuel n = l ++ [d] /\ 0 < d < 10.
Proof.
  revert n. induction fuel as [|f IH]; intros n Hn; [simpl in *; lia|].
  cbn [digits_rev]. destruct (n <? 10) eqn:E; bool_prop; [exists [], n; split; [done|lia]|].
  rewrite Nat2Z.inj_succ, Z.pow_succ_r in Hn by lia.
  destruct (IH (n / 10)) as (l & d & Hl & Hd); [zdm|].
  exists (n mod 10 :: l), d. by rewrite Hl.
Qed.

Lemma dec_digits_head n : 0 < n -> exists d l, dec_digits n = (48 + d) :: l /\ 0 < d < 10.
Proof.
  intros Hn. unfold dec_digits.
  destruct (digits_rev_last (S (Z.to_nat (Z.log2 n))) n) as (l & d & -> & Hd).
  - split; [done|]. apply log2_fuel. lia.
  - exists d, (map (fun d => 48 + d) (rev l)). split; [|done]. by rewrite rev_app_distr.
Qed.

(** ** URL-safe base64 *)

Definition b64_char (v : Z) : Z :=
  if v <? 26 then 65 + v else if v <? 52 then 71 + v else if v <? 62 then v - 4
  else if v =? 62 then 45 else 95.

(** [base64.urlsafe_b64encode(b).decode()], padding included. *)
Fixpoint urlsafe_b64encode (b : bytes) : pystr :=
  match b with
  | [] => []
  | [x] =>
      let x := Z_of_byte x in
      [b64_char (x / 4); b64_char (x mod 4 * 16); 61; 61]
  | [x; y] =>
      let x := Z_of_byte x in let y := Z_of_byte y in
      [b64_char (x / 4); b64_char (x mod 4 * 16 + y / 16); b64_char (y mod 16 * 4); 61]
  | x :: y :: z :: r =>
      let x := Z_of_byte x in let y := Z_of_byte y in let z := Z_of_byte z in
      b64_char (x / 4) :: b64_char (x mod 4 * 16 + y / 16)
        :: b64_char (y mod 16 * 4 + z / 64) :: b64_char (z mod 64) :: urlsafe_b64encode r
  end.

(** [base64.urlsafe_b64encode(b).rstrip(b"=").decode()] *)
Definition b64url_nopad (b : bytes) : pystr :=
  rstrip_while (fun c => c =? 61) (urlsafe_b64encode b).

(** [[A-Za-z0-9_-]] *)
Definition is_b64url (c : Z) : bool := is_alnum c || (c =? 95) || (c =? 45).

Lemma b64_char_class v : 0 <= v < 64 -> is_b64url (b64_char v) = true /\ b64_char v <> 61.
Proof.
  intros Hv. unfold is_b64url, is_alnum, is_digit, is_upper, is_lower, b64_char.
  rewrite !orb_true_iff, !andb_true_iff, !Z.leb_le, !Z.eqb_eq.
  repeat case_match; bool_prop; lia.
Qed.

Lemma b64_char_inj v w : 0 <= v < 64 -> 0 <= w < 64 -> b64_char v = b64_char w -> v = w.
Proof. intros Hv Hw. unfold b64_char. repeat case_match; bool_prop; lia. Qed.

(** The encoding without its padding, as a structural function. *)
Fixpoint b64url_raw (b : bytes) : pystr :=
  match b with
  | [] => []
  | [x] => [b64_char (Z_of_byte x / 4); b64_char (Z_of_byte x mod 4 * 16)]
  | [x; y] =>
      [b64_char (Z_of_byte x / 4); b64_char (Z_of_byte x mod 4 * 16 + Z_of_byte y / 16);
       b64_char (Z_of_byte y mod 16 * 4)]
  | x :: y :: z :: r =>
      b64_char (Z_of_byte x / 4) :: b64_char (Z_of_byte x mod 4 * 16 + Z_of_byte y / 16)
        :: b64_char (Z_of_byte y mod 16 * 4 + Z_of_byte z / 64)
        :: b64_char (Z_of_byte z mod 64) :: b64url_raw r
  end.

(** Induction in steps of three bytes. *)
Lemma bytes_ind3 (P : bytes -> Prop) :
  P [] -> (forall x, P [x]) -> (forall x y, P [x; y]) ->
  (forall x y z r, P r -> P (x :: y :: z :: r)) -> forall b, P b.
Proof.
  intros H0 H1 H2 H3. fix IH 1. intros [|x [|y [|z r]]];
    [exact H0 | exact (H1 x) | exact (H2 x y) | exact (H3 x y z r (IH r))].
Qed.

(** Side conditions [0 <= _ < 64] of the sextets of a byte triple. *)
Ltac sextet :=
  repeat match goal with
  | b : Byte.byte |- _ =>
      lazymatch goal with
      | _ : 0 <= Z_of_byte b < 256 |- _ => fail
      | _ => pose proof (Z_of_byte_range b)
      end
  end; zdm.

Lemma b64url_raw_class b :
  Forall (fun c => is_b64url c = true /\ c <> 61) (b64url_raw b).
Proof.
  induction b using bytes_ind3; cbn [b64url_raw];
    repeat (constructor; [apply b64_char_class; sextet|]); done || constructor.
Qed.

Lemma urlsafe_b64encode_raw b :
  exists n, urlsafe_b64encode b = b64url_raw b ++ replicate n 61.
Proof.
  induction b as [| | |x y z r [n IH]] using bytes_ind3; cbn [urlsafe_b64encode b64url_raw].
  - by exists 0%nat.
  - by exists 2%nat.
  - by exists 1%nat.
  - exists n. by rewrite IH.
Qed.

Lemma rstrip_while_replicate (f : Z -> bool) s c n :
  f c = true -> Forall (fun x => f x = false) s ->
  rstrip_while f (s ++ replicate n c) = s.
Proof.
  intros Hc Hs. unfold rstrip_while. rewrite rev_app_distr.
  assert (rev (replicate n c) = replicate n c) as ->.
  { induction n as [|n IH]; [done|]. simpl. rewrite IH.
    change [c] with (replicate 1 c). by rewrite <- replicate_add, Nat.add_comm. }
  assert (lstrip_while f (replicate n c ++ rev s) = rev s) as ->.
  { induction n as [|n IH]; simpl; [|by rewrite Hc].
    apply lstrip_while_id. destruct (rev s) as [|x l] eqn:E; [done|].
    rewrite Forall_forall in Hs. apply Hs, list_elem_of_In, in_rev. rewrite E. by left. }
  apply rev_involutive.
Qed.

Lemma b64url_nopad_raw b : b64url_nopad b = b64url_raw b.
Proof.
  unfold b64url_nopad. destruct (urlsafe_b64encode_raw b) as [n ->].
  apply rstrip_while_replicate; [done|].
  eapply Forall_impl; [apply b64url_raw_class|]. intros c [_ Hc]. by apply Z.eqb_neq.
Qed.

Lemma b64url_raw_inj : forall b c, b64url_raw b = b64url_raw c -> b = c.
Proof.
  intros b. induction b as [| | |x y z r IH] using bytes_ind3;
    intros [|x' [|y' [|z' r']]]; cbn [b64url_raw]; intros H; try discriminate H; try done;
    injection H; intros; clear H;
    repeat match goal with
    | H : b64_char _ = b64_char _ |- _ => apply b64_char_inj in H; [|sextet..]
    end;
    repeat f_equal; try (by apply IH); apply (inj Z_of_byte); sextet.
Qed.

Lemma b64url_nopad_inj b c : b64url_nopad b = b64url_nopad c -> b = c.
Proof. rewrite !b64url_nopad_raw. apply b64url_raw_inj. Qed.

Lemma b64url_raw_length b : (length (b64url_raw b) = (4 * length b + 2) / 3)%nat.
Proof.
  induction b as [| | |x y z r IH] using bytes_ind3; [done..|].
  cbn [b64url_raw length]. rewrite IH. clear.
  replace (4 * S (S (S (length r))) + 2)%nat with (4 * length r + 2 + 4 * 3)%nat by lia.
  rewrite Nat.div_add by lia. lia.
Qed.

(** ** Hexadecimal *)

(** [digest.hexdigest()] *)
Fixpoint hexlify (b : bytes) : pystr :=
  match b with
  | [] => []
  | x :: r => hex_digit (Z_of_byte x / 16) :: hex_digit (Z_of_byte x mod 16) :: hexlify r
  end.

Lemma hexlify_length b : length (hexlify b) = (2 * length b)%nat.
Proof. induction b as [|x b IH]; simpl; [done|]. rewrite IH. lia. Qed.

Lemma hex_digit_class n : 0 <= n < 16 -> is_hex_lower (hex_digit n) = true.
Proof.
  intros Hn. unfold is_hex_lower, hex_digit, is_digit.
  rewrite orb_true_iff, !andb_true_iff, !Z.leb_le. case_match; bool_prop; lia.
Qed.

Lemma hexlify_class b : Forall (fun c => is_hex_lower c = true) (hexlify b).
Proof.
  induction b as [|x b IH]; simpl; [constructor|].
  constructor; [apply hex_digit_class; sextet|].
  constructor; [apply hex_digit_class; sextet|done].
Qed.

(** ** Percent-decoding *)

(** [re.search(rb"%(?![0-9A-Fa-f]{2})", b)]: some [%] is not followed by two
    hexadecimal digits. *)
Fixpoint bad_percent (b : bytes) : bool :=
  match b with
  | [] => false
  | x :: r =>
      (if Z_of_byte x =? 37
       then match r with
            | h :: l :: _ => negb (is_hex (Z_of_byte h) && is_hex (Z_of_byte l))
            | _ => true
            end
       else false) || bad_percent r
  end.

(** [urllib.parse.unquote_to_bytes]: an escape that is not hexadecimal is kept. *)
Fixpoint unquote_to_bytes (b : bytes) : bytes :=
  match b with
  | [] => []
  | x :: r =>
      match r with
      | h :: l :: r' =>
          if (Z_of_byte x =? 37) && is_hex (Z_of_byte h) && is_hex (Z_of_byte l)
          then byte_of_Z (16 * hex_value (Z_of_byte h) + hex_value (Z_of_byte l))
                 :: unquote_to_bytes r'
          else x :: unquote_to_bytes r
      | _ => x :: unquote_to_bytes r
      end
  end.

(** The reference encoder for the header: every byte percent-encoded. *)
Fixpoint percent_encode (b : bytes) : bytes :=
  match b with
  | [] => []
  | x :: r =>
      byte_of_Z 37 :: byte_of_Z (hex_digit (Z_of_byte x / 16))
        :: byte_of_Z (hex_digit (Z_of_byte x mod 16)) :: percent_encode r
  end.

Lemma hex_digit_range n : 0 <= n < 16 -> 48 <= hex_digit n < 103.
Proof. intros Hn. unfold hex_digit. case_match; bool_prop; lia. Qed.

Lemma unquote_percent_encode b : unquote_to_bytes (percent_encode b) = b.
Proof.
  induction b as [|x b IH]; [done|]. cbn [percent_encode unquote_to_bytes].
  pose proof (Z_of_byte_range x) as Hx.
  assert (Hh : 0 <= Z_of_byte x / 16 < 16) by zdm.
  assert (Hl : 0 <= Z_of_byte x mod 16 < 16) by zdm.
  pose proof (hex_digit_range _ Hh). pose proof (hex_digit_range _ Hl).
  rewrite !Z_of_byte_of_Z by lia. rewrite !is_hex_digit, !hex_value_digit by done.
  simpl. rewrite IH. f_equal. apply (inj Z_of_byte). rewrite Z_of_byte_of_Z; zdm.
Qed.

(** The encoder writes ASCII text without commas and without broken escapes. *)
Lemma percent_encode_char b x :
  x ∈ percent_encode b -> 37 <= Z_of_byte x < 103 /\ Z_of_byte x <> 44.
Proof.
  induction b as [|y b IH]; [by intros ?%elem_of_nil|].
  cbn [percent_encode]. rewrite !elem_of_cons. pose proof (Z_of_byte_range y) as Hy.
  pose proof (hex_digit_range (Z_of_byte y / 16) ltac:(zdm)).
  pose proof (hex_digit_range (Z_of_byte y mod 16) ltac:(zdm)).
  intros [->|[->|[->|?]]]; [..|auto]; rewrite Z_of_byte_of_Z; lia.
Qed.

Lemma percent_encode_length b : length (percent_encode b) = (3 * length b)%nat.
Proof. induction b as [|x b IH]; [done|]. cbn [percent_encode length]. rewrite IH. lia. Qed.

Lemma bad_percent_plain x r : Z_of_byte x <> 37 -> bad_percent (x :: r) = bad_percent r.
Proof. intros H. cbn [bad_percent]. by rewrite (proj2 (Z.eqb_neq _ _) H). Qed.

Lemma bad_percent_encode b : bad_percent (percent_encode b) = false.
Proof.
  induction b as [|y b IH]; [done|]. cbn [percent_encode].
  pose proof (Z_of_byte_range y) as Hy.
  assert (Bh : 0 <= Z_of_byte y / 16 < 16) by zdm.
  assert (Bl : 0 <= Z_of_byte y mod 16 < 16) by zdm.
  pose proof (hex_digit_range _ Bh). pose proof (hex_digit_range _ Bl).
  set (h := byte_of_Z (hex_digit (Z_of_byte y / 16))). set (l := byte_of_Z (hex_digit _)).
  assert (Hh : Z_of_byte h = hex_digit (Z_of_byte y / 16)) by (apply Z_of_byte_of_Z; lia).
  assert (Hl : Z_of_byte l = hex_digit (Z_of_byte y mod 16)) by (apply Z_of_byte_of_Z; lia).
  assert (bad_percent (byte_of_Z 37 :: h :: l :: percent_encode b)
          = bad_percent (h :: l :: percent_encode b)) as ->.
  { cbn [bad_percent]. rewrite Z_of_byte_of_Z by lia. cbn [Z.eqb Pos.eqb].
    by rewrite Hh, Hl, !is_hex_digit. }
  rewrite !bad_percent_plain by lia. done.
Qed.

Lemma ascii_encode_bytes b :
  Forall (fun x => Z_of_byte x < 128) b -> ascii_encode (map Z_of_byte b) = Some b.
Proof.
  intros H. unfold ascii_encode.
  assert (forallb is_ascii (map Z_of_byte b) = true) as ->.
  { apply forallb_forall. intros c (x & <- & Hx)%in_map_iff.
    rewrite Forall_forall in H. pose proof (H x (proj2 (list_elem_of_In _ _) Hx)).
    pose proof (Z_of_byte_range x). unfold is_ascii. apply andb_true_iff.
    rewrite Z.leb_le, Z.ltb_lt. lia. }
  f_equal. rewrite map_map. induction b as [|x b IH]; [done|]. simpl.
  apply Forall_cons in H as [_ H]. by rewrite byte_of_Z_of_byte, IH.
Qed.

(** ASCII text is its own UTF-8 form. *)
Lemma utf8_encode_ascii s :
  Forall (fun c => is_ascii c = true) s -> utf8_encode s = Some (map byte_of_Z s).
Proof.
  induction 1 as [|c s Hc _ IH]; [done|]. cbn [utf8_encode map]. rewrite IH.
  unfold is_ascii in Hc. bool_prop. unfold utf8_encode_char.
  rewrite (proj2 (is_scalar_spec c)) by lia. cbn [negb].
  by rewrite (proj2 (Z.ltb_lt _ _)) by lia.
Qed.

(** A number below [10 ^ k] has at most [k] digits. *)
Lemma dec_digits_length n k :
  0 <= n < 10 ^ Z.of_nat k -> (1 <= k)%nat -> (length (dec_digits n) <= k)%nat.
Proof.
  intros Hn Hk. unfold dec_digits. rewrite length_map, length_rev.
  generalize (S (Z.to_nat (Z.log2 n))). intros fuel. revert n k Hn Hk.
  induction fuel as [|f IH]; intros n k Hn Hk; cbn [digits_rev]; [simpl; lia|].
  destruct (n <? 10) eqn:E; bool_prop; [simpl; lia|].
  destruct k as [|[|k]]; [lia|change (10 ^ Z.of_nat 1) with 10 in Hn; lia|].
  cbn [length]. cut (length (digits_rev f (n / 10)) <= S k)%nat; [lia|]. apply IH; [|lia].
  rewrite Nat2Z.inj_succ, Z.pow_succ_r in Hn by lia. zdm.
Qed.
