(* ===== verification/Sha256.v ===== *)
(** SHA-256 (FIPS 180-4), the digest of [hashlib.sha256], on 32-bit words held
    in [Z]. *)
From S2P Require Export Codec.

Local Open Scope Z_scope.

Definition word_max : Z := 4294967296.
Definition add32 (x y : Z) : Z := (x + y) mod word_max.
Definition not32 (x : Z) : Z := word_max - 1 - x.
Definition rotr (n x : Z) : Z :=
  Z.lor (Z.shiftr x n) (Z.shiftl x (32 - n) mod word_max).

Definition xor3 (x y z : Z) : Z := Z.lxor x (Z.lxor y z).
Definition big_sigma0 (x : Z) : Z := xor3 (rotr 2 x) (rotr 13 x) (rotr 22 x).
Definition big_sigma1 (x : Z) : Z := xor3 (rotr 6 x) (rotr 11 x) (rotr 25 x).
Definition small_sigma0 (x : Z) : Z := xor3 (rotr 7 x) (rotr 18 x) (Z.shiftr x 3).
Definition small_sigma1 (x : Z) : Z := xor3 (rotr 17 x) (rotr 19 x) (Z.shiftr x 10).
Definition choose (x y z : Z) : Z := Z.lxor (Z.land x y) (Z.land (not32 x) z).
Definition majority (x y z : Z) : Z := xor3 (Z.land x y) (Z.land x z) (Z.land y z).

(** The first 32 bits of the fractional parts of the cube roots of the first 64
    primes. *)
Definition round_constants : list Z :=
  [1116352408; 1899447441; 3049323471; 3921009573; 961987163; 1508970993;
   2453635748; 2870763221; 3624381080; 310598401; 607225278; 1426881987;
   1925078388; 2162078206; 2614888103; 3248222580; 3835390401; 4022224774;
   264347078; 604807628; 770255983; 1249150122; 1555081692; 1996064986;
   2554220882; 2821834349; 2952996808; 3210313671; 3336571891; 3584528711;
   113926993; 338241895; 666307205; 773529912; 1294757372; 1396182291;
   1695183700; 1986661051; 2177026350; 2456956037; 2730485921; 2820302411;
   3259730800; 3345764771; 3516065817; 3600352804; 4094571909; 275423344;
   430227734; 506948616; 659060556; 883997877; 958139571; 1322822218;
   1537002063; 1747873779; 1955562222; 2024104815; 2227730452; 2361852424;
   2428436474; 2756734187; 3204031479; 3329325298].

Record hash_state := HS { ha : Z; hb : Z; hc : Z; hd : Z; he : Z; hf : Z; hg : Z; hh : Z }.

(** The square roots of the first eight primes. *)
Definition initial_state : hash_state :=
  HS 1779033703 3144134277 1013904242 2773480762
     1359893119 2600822924 528734635 1541459225.

Definition sha_round (s : hash_state) (k w : Z) : hash_state :=
  let t1 := add32 (hh s) (add32 (big_sigma1 (he s))
              (add32 (choose (he s) (hf s) (hg s)) (add32 k w))) in
  let t2 := add32 (big_sigma0 (ha s)) (majority (ha s) (hb s) (hc s)) in
  HS (add32 t1 t2) (ha s) (hb s) (hc s) (add32 (hd s) t1) (he s) (hf s) (hg s).

(** The message schedule kept as a window of sixteen words, advanced one word a
    round. *)
Definition slide (w : list Z) : list Z :=
  drop 1 w ++ [add32 (small_sigma1 (nth 14 w 0))
                 (add32 (nth 9 w 0) (add32 (small_sigma0 (nth 1 w 0)) (nth 0 w 0)))].

Fixpoint rounds (ks : list Z) (w : list Z) (s : hash_state) : hash_state :=
  match ks with
  | [] => s
  | k :: ks' => rounds ks' (slide w) (sha_round s k (nth 0 w 0))
  end.

Definition add_state (s t : hash_state) : hash_state :=
  HS (add32 (ha s) (ha t)) (add32 (hb s) (hb t)) (add32 (hc s) (hc t)) (add32 (hd s) (hd t))
     (add32 (he s) (he t)) (add32 (hf s) (hf t)) (add32 (hg s) (hg t)) (add32 (hh s) (hh t)).

Definition compress (s : hash_state) (w : list Z) : hash_state :=
  add_state s (rounds round_constants w s).

Fixpoint words_be (b : bytes) : list Z :=
  match b with
  | x :: y :: z :: t :: r =>
      (((Z_of_byte x * 256 + Z_of_byte y) * 256 + Z_of_byte z) * 256 + Z_of_byte t)
        :: words_be r
  | _ => []
  end.

(** The [n] low bytes of [x], most significant first. *)
Fixpoint bytes_be (n : nat) (x : Z) : bytes :=
  match n with
  | O => []
  | S n' => bytes_be n' (x / 256) ++ [byte_of_Z (x mod 256)]
  end.

Definition sha_pad (m : bytes) : bytes :=
  let l := Z.of_nat (length m) in
  m ++ byte_of_Z 128 :: replicate (Z.to_nat ((55 - l) mod 64)) (byte_of_Z 0)
    ++ bytes_be 8 (8 * l).

(** [fuel] is the number of words, of which every block consumes sixteen. *)
Fixpoint sha_blocks (fuel : nat) (ws : list Z) (s : hash_state) : hash_state :=
  match fuel, ws with
  | S f, _ :: _ => sha_blocks f (drop 16 ws) (compress s (take 16 ws))
  | _, _ => s
  end.

Definition digest (s : hash_state) : bytes :=
  concat (map (bytes_be 4) [ha s; hb s; hc s; hd s; he s; hf s; hg s; hh s]).

(** [hashlib.sha256(m).digest()] *)
Definition sha256 (m : bytes) : bytes :=
  let ws := words_be (sha_pad m) in
  digest (sha_blocks (length ws) ws initial_state).

Lemma bytes_be_length n x : length (bytes_be n x) = n.
Proof.
  revert x. induction n as [|n IH]; intros x; simpl; [done|].
  rewrite length_app, IH. simpl. lia.
Qed.

Lemma sha256_length m : length (sha256 m) = 32%nat.
Proof.
  unfold sha256. cbv zeta. set (s := sha_blocks _ _ _). unfold digest. cbn [map concat].
  rewrite !length_app, !bytes_be_length. done.
Qed.

(** The padded message is a whole number of 64-byte blocks, so that no word is
    left over. *)
Lemma sha_pad_blocks m : (Z.of_nat (length (sha_pad m)) mod 64 = 0)%Z.
Proof.
  unfold sha_pad. cbv zeta. rewrite length_app. cbn [length].
  rewrite length_app, length_replicate, bytes_be_length.
  pose proof (Z.mod_pos_bound (55 - Z.of_nat (length m)) 64).
  rewrite Nat2Z.inj_add, Nat2Z.inj_succ, Nat2Z.inj_add, Z2Nat.id by lia.
  pose proof (Z.div_mod (55 - Z.of_nat (length m)) 64).
  replace (Z.of_nat (length m) + Z.succ ((55 - Z.of_nat (length m)) mod 64 + Z.of_nat 8))
    with ((1 - (55 - Z.of_nat (length m)) / 64) * 64) by lia.
  apply Z.mod_mul. lia.
Qed.

(** The test vectors of FIPS 180-4. *)
Example sha256_empty :
  hexlify (sha256 []) =
  u"e3b0c44298fc1c149afbf4c8996fb92427ae41e4649b934ca495991b7852b855".
Proof. vm_compute. reflexivity. Qed.

Example sha256_abc :
  hexlify (sha256 (bs"abc")) =
  u"ba7816bf8f01cfea414140de5dae2223b00361a396177a9cb410ff61f20015ad".
Proof. vm_compute. reflexivity. Qed.

Example sha256_two_blocks :
  hexlify (sha256 (bs"abcdbcdecdefdefgefghfghighijhijkijkljklmklmnlmnomnopnopq")) =
  u"248d6a61d20638b8e5c026930c3e6039a33ce45964ff2167f6ecedd419db06c1".
Proof. vm_compute. reflexivity. Qed.
