(* ===== verification/PyExn.v ===== *)
(** Python exceptions and the error monad of the development.

    A fallible Python expression is a [res A]: a value or an exception with its
    class and its message.  [except] clauses test the class with [is_a], which
    follows the subclass relation of the source and of the standard library. *)
From S2P Require Export PyStr.

(** The exception classes the modelled code raises or catches.  [OutOfFuel] is
    not a Python class: it marks a run of a fuelled function that was given too
    little fuel, and the termination theorems show that it never appears. *)
Inductive exn_class :=
  | BaseError
  | ValueError | JSONDecodeError | UnicodeError | RejectedEvidence
  | TokenValidationError
  | RuntimeError | RecursionError
  | LookupError | KeyError | IndexError
  | TypeError | AttributeError
  | OSError | FileNotFoundError | TimeoutError | URLError
  | HTTPException
  | TimeoutExpired | YAMLError | StopIteration
  | ExtensionNotFound
  | OutOfFuel.

#[export] Instance exn_class_eq_dec : EqDecision exn_class.
Proof. solve_decision. Defined.

Definition exn_parent (c : exn_class) : option exn_class :=
  match c with
  | BaseError | OutOfFuel => None
  | JSONDecodeError | UnicodeError | RejectedEvidence => Some ValueError
  | RecursionError => Some RuntimeError
  | KeyError | IndexError => Some LookupError
  | FileNotFoundError | TimeoutError | URLError => Some OSError
  | _ => Some BaseError
  end.

(** [issubclass(c, d)]; the relation is three levels deep. *)
Definition is_a (c d : exn_class) : bool :=
  bool_decide (c = d) ||
  match exn_parent c with
  | None => false
  | Some p => bool_decide (p = d) ||
      match exn_parent p with
      | None => false
      | Some q => bool_decide (q = d)
      end
  end.

Record exn := Exn { exn_cls : exn_class; exn_msg : pystr }.

#[export] Instance exn_eq_dec : EqDecision exn.
Proof. solve_decision. Defined.

Inductive res (A : Type) :=
  | Ok (a : A)
  | Err (e : exn).
Arguments Ok {A} a.
Arguments Err {A} e.

#[export] Instance res_eq_dec `{EqDecision A} : EqDecision (res A).
Proof. solve_decision. Defined.

Definition raise {A} (c : exn_class) (msg : string) : res A := Err (Exn c (u msg)).

Declare Scope py_scope.
Delimit Scope py_scope with py.

Notation "'let*' p ':=' m 'in' k" :=
  (match m with Ok p => k | Err e => Err e end)
  (at level 10, p pattern, m at level 100, k at level 200) : py_scope.

#[export] Set Warnings "-clear-no-such-hyp".
Open Scope py_scope.

Definition is_ok {A} (m : res A) : bool := match m with Ok _ => true | Err _ => false end.

Definition map_res {A B} (f : A -> B) (m : res A) : res B :=
  let* a := m in Ok (f a).

(** [try: m except cs: h]. *)
Definition catch {A} (m : res A) (cs : list exn_class) (h : exn -> res A) : res A :=
  match m with
  | Ok a => Ok a
  | Err e => if existsb (is_a (exn_cls e)) cs then h e else Err e
  end.

Fixpoint mapM_res {A B} (f : A -> res B) (l : list A) : res (list B) :=
  match l with
  | [] => Ok []
  | x :: l' => let* y := f x in let* ys := mapM_res f l' in Ok (y :: ys)
  end.

(** A loop over a list with an accumulator, stopped by the first exception. *)
Fixpoint foldM_res {A B} (f : B -> A -> res B) (l : list A) (b : B) : res B :=
  match l with
  | [] => Ok b
  | x :: l' => let* b' := f b x in foldM_res f l' b'
  end.

Definition res_of_option {A} (e : exn) (o : option A) : res A :=
  match o with Some a => Ok a | None => Err e end.

Lemma mapM_res_Ok {A B} (f : A -> res B) l ys :
  mapM_res f l = Ok ys <-> Forall2 (fun x y => f x = Ok y) l ys.
Proof.
  revert ys. induction l as [|x l IH]; intros ys; simpl.
  - split; [intros [= <-]; constructor|].
    intros H. by inversion H.
  - split.
    + destruct (f x) eqn:Ex; [|done]. destruct (mapM_res f l) eqn:El; [|done].
      intros [= <-]. constructor; [done|]. by apply IH.
    + intros H. inversion H as [|? y ? ys' Hx Hl]; subst. rewrite Hx.
      apply IH in Hl. by rewrite Hl.
Qed.

Lemma foldM_res_app {A B} (f : B -> A -> res B) l l' b :
  foldM_res f (l ++ l') b = let* b' := foldM_res f l b in foldM_res f l' b'.
Proof.
  revert b. induction l as [|x l IH]; intros b; simpl; [done|].
  destruct (f b x); [apply IH|done].
Qed.

(** An invariant of the accumulator is kept by the whole loop. *)
Lemma foldM_res_inv {A B} (P : B -> Prop) (f : B -> A -> res B) l b b' :
  (forall x b b', x ∈ l -> P b -> f b x = Ok b' -> P b') ->
  P b -> foldM_res f l b = Ok b' -> P b'.
Proof.
  revert b. induction l as [|x l IH]; intros b Hf Hb; simpl; [by intros [= <-]|].
  destruct (f b x) as [b1|] eqn:E; [|done]. apply IH.
  - intros y c c' Hy. apply Hf. by right.
  - eapply Hf; [by left|done|done].
Qed.

Lemma Ok_inj {A} (a b : A) : Ok a = Ok b -> a = b.
Proof. congruence. Qed.

Lemma is_a_refl c : is_a c c = true.
Proof. by destruct c. Qed.

(** Peel a successful monadic run: one hypothesis per step. *)
Ltac inv_ok H :=
  repeat match type of H with
  | Ok _ = Ok _ => injection H as H
  | Err _ = Ok _ => discriminate H
  | raise _ _ = Ok _ => discriminate H
  | match ?m with Ok _ => _ | Err _ => _ end = Ok _ =>
      let E := fresh "E" in destruct m eqn:E; [|discriminate H]
  | (if ?b then _ else _) = Ok _ =>
      let E := fresh "E" in destruct b eqn:E; try discriminate H
  end.

(** ** [except] clauses *)

(** A computation whose failures are Python exceptions. *)
Definition python_exn {A} (m : res A) : Prop :=
  forall e, m = Err e -> is_a (exn_cls e) BaseError = true.

Lemma catch_reraise {A} (m : res A) cs c msg a :
  catch m cs (fun _ => raise c msg) = Ok a <-> m = Ok a.
Proof. unfold catch. destruct m; [done|]. case_match; done. Qed.

Lemma python_exn_raise {A} c msg :
  is_a c BaseError = true -> python_exn (raise (A := A) c msg).
Proof. by intros H e [= <-]. Qed.

Lemma python_exn_Ok {A} (a : A) : python_exn (Ok a).
Proof. by intros e. Qed.

Lemma python_exn_bind {A B} (m : res A) (k : A -> res B) :
  python_exn m -> (forall a, m = Ok a -> python_exn (k a)) ->
  python_exn (let* a := m in k a).
Proof.
  intros Hm Hk. destruct m as [a|e]; [by apply Hk|]. intros e' [= <-]. by apply Hm.
Qed.

Lemma python_exn_if {A} (b : bool) (m n : res A) :
  python_exn m -> python_exn n -> python_exn (if b then m else n).
Proof. by destruct b. Qed.

Lemma python_exn_catch {A} (m : res A) cs h :
  python_exn m -> (forall e, python_exn (h e)) -> python_exn (catch m cs h).
Proof. intros Hm Hh. unfold catch. destruct m; [done|]. by case_match. Qed.

(** [except Exception] around a Python computation catches every failure. *)
Lemma catch_all {A} (m : res A) h :
  python_exn m -> catch m [BaseError] h = match m with Ok a => Ok a | Err e => h e end.
Proof.
  intros Hm. unfold catch. destruct m as [a|e]; [done|].
  simpl. by rewrite (Hm e eq_refl).
Qed.

#[export] Hint Resolve python_exn_Ok python_exn_bind python_exn_if python_exn_catch : py.
#[export] Hint Extern 1 (python_exn (raise _ _)) => by apply python_exn_raise : py.

(** A loop that copies named fields into a fresh part of a dictionary, stopping
    at the first field that is not acceptable. *)
Lemma foldM_copy {K V} `{EqDecision K} (f : list (K * V) -> K -> res (list (K * V)))
    (ok : K -> bool) (val : K -> V) (e : exn) names r :
  (forall r n, f r n = if ok n then Ok (ainsert n (val n) r) else Err e) ->
  NoDup (r.*1 ++ names) ->
  foldM_res f names r = if forallb ok names then Ok (r ++ map (fun n => (n, val n)) names)
                        else Err e.
Proof.
  intros Hf. revert r. induction names as [|n names IH]; intros r Hnd; simpl.
  - by rewrite app_nil_r.
  - rewrite Hf. destruct (ok n); [|done]. simpl.
    assert (n ∉ r.*1) as Hn.
    { apply NoDup_app in Hnd as (_ & H & _). intros Hin. apply (H n Hin). by left. }
    rewrite ainsert_new by done. rewrite IH.
    + by rewrite <- app_assoc.
    + rewrite fmap_app, <- app_assoc. done.
Qed.
