(* ===== verification/PyVal.v ===== *)
(** Python values as the program meets them in JSON and in its own literals:
    [None], booleans, unbounded integers, IEEE binary64 floats, strings, lists
    and insertion-ordered dictionaries with string keys; the type tests,
    [dict] operations and [==] the program applies to them. *)
From Stdlib Require Import SpecFloat.
From S2P Require Export PyExn.

Local Open Scope Z_scope.

Inductive pyval :=
  | VNone
  | VBool (b : bool)
  | VInt (z : Z)
  | VFloat (f : spec_float)
  | VStr (s : pystr)
  | VList (l : list pyval)
  | VDict (d : list (pystr * pyval)).

(** A string literal as a value. *)
Definition jstr (s : string) : pyval := VStr (u s).

Abbreviation pydict := (list (pystr * pyval)).

(** The generated principle has no hypothesis for list and dict members. *)
Section pyval_ind.
Context (P : pyval -> Prop).
Hypothesis HNone : P VNone.
Hypothesis HBool : forall b, P (VBool b).
Hypothesis HInt : forall z, P (VInt z).
Hypothesis HFloat : forall f, P (VFloat f).
Hypothesis HStr : forall s, P (VStr s).
Hypothesis HList : forall l, Forall P l -> P (VList l).
Hypothesis HDict : forall d, Forall (fun kv => P (snd kv)) d -> P (VDict d).

Fixpoint pyval_nested_ind (v : pyval) : P v :=
  match v with
  | VNone => HNone
  | VBool b => HBool b
  | VInt z => HInt z
  | VFloat f => HFloat f
  | VStr s => HStr s
  | VList l =>
      HList l ((fix go l : Forall P l :=
        match l with
        | [] => Forall_nil_2 _
        | x :: l' => Forall_cons_2 _ _ _ (pyval_nested_ind x) (go l')
        end) l)
  | VDict d =>
      HDict d ((fix go d : Forall (fun kv => P (snd kv)) d :=
        match d with
        | [] => Forall_nil_2 _
        | kv :: d' => Forall_cons_2 _ _ _ (pyval_nested_ind (snd kv)) (go d')
        end) d)
  end.
End pyval_ind.

(** ** Type tests *)

Definition is_str (v : pyval) : bool := match v with VStr _ => true | _ => false end.
Definition is_list (v : pyval) : bool := match v with VList _ => true | _ => false end.
Definition is_dict (v : pyval) : bool := match v with VDict _ => true | _ => false end.
Definition is_bool (v : pyval) : bool := match v with VBool _ => true | _ => false end.
Definition is_none (v : pyval) : bool := match v with VNone => true | _ => false end.
Definition is_true (v : pyval) : bool := match v with VBool b => b | _ => false end.
(** [type(v) is int], which excludes [bool]. *)
Definition is_int (v : pyval) : bool := match v with VInt _ => true | _ => false end.
(** A non-empty string: [isinstance(v, str) and v]. *)
Definition is_nonempty_str (v : pyval) : bool :=
  match v with VStr (_ :: _) => true | _ => false end.

Lemma is_str_true v : is_str v = true <-> exists s, v = VStr s.
Proof. destruct v; simpl; naive_solver. Qed.
Lemma is_list_true v : is_list v = true <-> exists l, v = VList l.
Proof. destruct v; simpl; naive_solver. Qed.
Lemma is_dict_true v : is_dict v = true <-> exists d, v = VDict d.
Proof. destruct v; simpl; naive_solver. Qed.
Lemma is_int_true v : is_int v = true <-> exists z, v = VInt z.
Proof. destruct v; simpl; naive_solver. Qed.
Lemma is_true_true v : is_true v = true <-> v = VBool true.
Proof. destruct v as [|[]| | | | |]; simpl; naive_solver. Qed.
Lemma is_none_true v : is_none v = true <-> v = VNone.
Proof. destruct v; simpl; naive_solver. Qed.
Lemma is_nonempty_str_true v : is_nonempty_str v = true <-> exists s, v = VStr s /\ s <> [].
Proof. destruct v as [| | | |[|c s]| |]; simpl; naive_solver. Qed.

(** [bool(v)] *)
Definition py_truthy (v : pyval) : bool :=
  match v with
  | VNone => false
  | VBool b => b
  | VInt z => negb (z =? 0)
  | VFloat (S754_zero _) => false
  | VFloat _ => true
  | VStr s => negb (bool_decide (s = []))
  | VList l => match l with [] => false | _ => true end
  | VDict d => match d with [] => false | _ => true end
  end.

(** ** Dictionaries *)

(** [d.get(k)] *)
Definition dict_get (d : pydict) (k : pystr) : pyval :=
  match alookup k d with Some v => v | None => VNone end.

(** [set(d) == {k1, ...}] *)
Definition keys_are (d : pydict) (ks : list pystr) : bool := same_set d.*1 ks.

(** [d[k]], a [KeyError] when absent. *)
Definition dict_item (d : pydict) (k : pystr) : res pyval :=
  res_of_option (Exn KeyError k) (alookup k d).

(** [v.get(k)] on any value: an [AttributeError] unless it is a dict. *)
Definition val_get (v : pyval) (k : pystr) : res pyval :=
  match v with
  | VDict d => Ok (dict_get d k)
  | _ => raise AttributeError "object has no attribute 'get'"
  end.

(** [v[k]] *)
Definition val_item (v : pyval) (k : pystr) : res pyval :=
  match v with
  | VDict d => dict_item d k
  | _ => raise TypeError "indices must be integers or slices, or the object is not subscriptable"
  end.

(** [for x in v] *)
Definition val_iter (v : pyval) : res (list pyval) :=
  match v with
  | VList l => Ok l
  | VDict d => Ok (map (fun kv => VStr (fst kv)) d)
  | VStr s => Ok (map (fun c => VStr [c]) s)
  | _ => raise TypeError "object is not iterable"
  end.

(** Can the value be a member of a set? *)
Definition hashable (v : pyval) : bool := negb (is_list v || is_dict v).

(** [set(v)]: the members in the order of iteration, with repetitions. *)
Definition val_set (v : pyval) : res (list pyval) :=
  let* l := val_iter v in
  if forallb hashable l then Ok l else raise TypeError "unhashable type".

(** [set(l) == {n1, ...}] *)
Definition members_are (l : list pyval) (names : list pystr) : bool :=
  forallb (fun v => match v with VStr s => bool_decide (s ∈ names) | _ => false end) l
  && forallb (fun n => existsb (fun v => match v with VStr s => bool_decide (s = n)
                                         | _ => false end) l) names.
Definition val_set_is (v : pyval) (names : list pystr) : res bool :=
  let* l := val_set v in Ok (members_are l names).

(** [object_pairs_hook=unique_object] of [json.loads]: each of the four copies
    of the function in the source raises its own class and message. *)
Fixpoint unique_pairs (e : exn) (result : pydict) (pairs : pydict) : res pyval :=
  match pairs with
  | [] => Ok (VDict result)
  | (k, v) :: rest =>
      if bool_decide (k ∈ result.*1) then Err e
      else unique_pairs e (ainsert k v result) rest
  end.

(** The default hook: [dict(pairs)], later duplicates win. *)
Definition plain_pairs (pairs : pydict) : res pyval :=
  Ok (VDict (fold_left (fun d kv => ainsert (fst kv) (snd kv) d) pairs [])).

Lemma unique_pairs_spec e pairs result :
  NoDup result.*1 ->
  unique_pairs e result pairs =
    if bool_decide (NoDup (result ++ pairs).*1) then Ok (VDict (result ++ pairs)) else Err e.
Proof.
  revert result. induction pairs as [|[k v] pairs IH]; intros result Hr; simpl.
  - rewrite app_nil_r. by rewrite bool_decide_true.
  - case_bool_decide as Hk.
    + rewrite bool_decide_false; [done|]. rewrite fmap_app. csimpl.
      rewrite NoDup_app. intros (_ & H & _). by apply (H k Hk); left.
    + rewrite ainsert_new by done. rewrite IH.
      * by rewrite <- app_assoc.
      * rewrite <- ainsert_new by done. by apply ainsert_NoDup.
Qed.

Lemma plain_pairs_nodup d : NoDup d.*1 -> plain_pairs d = Ok (VDict d).
Proof.
  intros Hd. unfold plain_pairs. do 2 f_equal.
  enough (H : forall result, NoDup (result ++ d).*1 ->
    fold_left (fun d kv => ainsert (fst kv) (snd kv) d) d result = result ++ d) by by apply H.
  clear Hd. induction d as [|[k v] d IH]; intros result Hnd; [by rewrite app_nil_r|]. cbn [fold_left fst snd].
  rewrite ainsert_new.
  - rewrite IH, <- app_assoc; [done|]. by rewrite <- app_assoc.
  - rewrite fmap_app, NoDup_app in Hnd. destruct Hnd as (_ & Hnd & _). intros Hk. apply (Hnd k Hk). by left.
Qed.

(** ** Equality *)

(** The mathematical value of a finite float, as mantissa and exponent. *)
Definition float_eq_Z (f : spec_float) (z : Z) : bool :=
  match f with
  | S754_zero _ => z =? 0
  | S754_finite s m e =>
      let sm := if s then Z.neg m else Z.pos m in
      if 0 <=? e then sm * 2 ^ e =? z else sm =? z * 2 ^ (- e)
  | _ => false
  end.

(** [a == b] between numbers; booleans are the integers 0 and 1. *)
Definition num_eq (a b : pyval) : bool :=
  match a, b with
  | VFloat f, VFloat g => SFeqb f g
  | VFloat f, VInt z | VInt z, VFloat f => float_eq_Z f z
  | VFloat f, VBool b | VBool b, VFloat f => float_eq_Z f (Z.b2z b)
  | VInt y, VInt z => y =? z
  | VInt z, VBool b | VBool b, VInt z => z =? Z.b2z b
  | VBool b, VBool c => Bool.eqb b c
  | _, _ => false
  end.

(** Members of containers are compared by identity first, and [json.loads]
    returns one and the same NaN object every time. *)
Definition same_nan (a b : pyval) : bool :=
  match a, b with VFloat S754_nan, VFloat S754_nan => true | _, _ => false end.

(** [a == b] *)
Fixpoint py_eq (a b : pyval) : bool :=
  match a, b with
  | VNone, VNone => true
  | VStr s, VStr t => bool_decide (s = t)
  | VList l, VList k =>
      (fix go (l k : list pyval) : bool :=
         match l, k with
         | [], [] => true
         | x :: l', y :: k' => (same_nan x y || py_eq x y) && go l' k'
         | _, _ => false
         end) l k
  | VDict d, VDict e =>
      (length d =? length e)%nat &&
      (fix go (d : pydict) : bool :=
         match d with
         | [] => true
         | (k, x) :: d' =>
             match alookup k e with
             | Some y => same_nan x y || py_eq x y
             | None => false
             end && go d'
         end) d
  | _, _ => num_eq a b
  end.

Lemma py_eq_str v s : py_eq v (VStr s) = true <-> v = VStr s.
Proof.
  destruct v; simpl; try naive_solver.
  rewrite bool_decide_eq_true. naive_solver.
Qed.

Lemma py_eq_none v : py_eq v VNone = true <-> v = VNone.
Proof. destruct v; simpl; naive_solver. Qed.

Lemma py_eq_int z w : py_eq (VInt z) (VInt w) = true <-> z = w.
Proof. apply Z.eqb_eq. Qed.

Lemma py_eq_nil v : py_eq v (VList []) = true <-> v = VList [].
Proof. destruct v as [| | | | |[|x l]|]; simpl; naive_solver. Qed.

Lemma num_eq_refl v :
  match v with VInt _ | VBool _ => num_eq v v = true | _ => True end.
Proof. destruct v as [|[]|z| | | |]; simpl; try done. apply Z.eqb_refl. Qed.

(** Values without floats. *)
Fixpoint no_float (v : pyval) : bool :=
  match v with
  | VFloat _ => false
  | VList l => forallb no_float l
  | VDict d => forallb (fun kv => no_float (snd kv)) d
  | _ => true
  end.

(** Every dictionary inside has pairwise distinct keys. *)
Fixpoint wf_val (v : pyval) : bool :=
  match v with
  | VList l => forallb wf_val l
  | VDict d => negb (has_dup d.*1) && forallb (fun kv => wf_val (snd kv)) d
  | _ => true
  end.

Lemma py_eq_list_cons x l y k :
  py_eq (VList (x :: l)) (VList (y :: k)) =
    (same_nan x y || py_eq x y) && py_eq (VList l) (VList k).
Proof. done. Qed.

Lemma py_eq_dict d e :
  py_eq (VDict d) (VDict e) =
    (length d =? length e)%nat &&
    forallb (fun kv => match alookup (fst kv) e with
                       | Some y => same_nan (snd kv) y || py_eq (snd kv) y
                       | None => false
                       end) d.
Proof.
  cbn [py_eq]. f_equal. induction d as [|[k x] d IH]; [done|]. cbn [forallb fst snd].
  by rewrite IH.
Qed.

Lemma py_eq_refl v : no_float v = true -> wf_val v = true -> py_eq v v = true.
Proof.
  induction v as [| | | | |l IH|d IH] using pyval_nested_ind; intros Hf Hw; try done.
  - by destruct b.
  - apply Z.eqb_refl.
  - simpl. by rewrite bool_decide_true.
  - induction IH as [|x l Hx _ IHl]; [done|]. rewrite py_eq_list_cons.
    cbn [no_float wf_val forallb] in Hf, Hw. bool_prop. rewrite Hx by done.
    rewrite orb_true_r. apply IHl; done.
  - cbn [wf_val no_float] in Hf, Hw. bool_prop. apply has_dup_false in H.
    rewrite py_eq_dict, Nat.eqb_refl, andb_true_l. apply forallb_Forall.
    rewrite forallb_Forall in Hf, H0. rewrite Forall_forall in IH, Hf, H0 |- *.
    intros [k x] Hin. simpl. rewrite (alookup_NoDup k x d) by done.
    change x with (snd (k, x)). rewrite (IH _ Hin); [apply orb_true_r|by apply (Hf (k, x))|by apply (H0 (k, x))].
Qed.

(** Dictionaries with the same items in another order are equal. *)
Lemma py_eq_dict_perm d e :
  d ≡ₚ e -> no_float (VDict d) = true -> wf_val (VDict d) = true ->
  py_eq (VDict d) (VDict e) = true.
Proof.
  intros Hp Hf Hw. rewrite py_eq_dict, (Permutation_length Hp), Nat.eqb_refl, andb_true_l.
  cbn [wf_val no_float] in Hf, Hw. bool_prop. apply has_dup_false in H.
  apply forallb_Forall. rewrite forallb_Forall in Hf, H0.
  rewrite Forall_forall in Hf, H0 |- *. intros [k x] Hin. simpl.
  rewrite (alookup_NoDup k x e).
  - rewrite py_eq_refl; [apply orb_true_r|by apply (Hf (k, x))|by apply (H0 (k, x))].
  - by rewrite <- Hp.
  - by rewrite <- Hp.
Qed.

(** ** Merging dictionaries: [{**a, **b}] *)

Definition dict_merge (a b : pydict) : pydict :=
  fold_left (fun d kv => ainsert (fst kv) (snd kv) d) b a.

Lemma ainsert_same k v (d : pydict) : alookup k d = Some v -> ainsert k v d = d.
Proof.
  induction d as [|[k' v'] d IH]; simpl; [done|]. case_decide as H.
  - by intros [= ->].
  - intros Hl. by rewrite IH.
Qed.

Lemma alookup_merge k (a b : pydict) :
  NoDup b.*1 ->
  alookup k (dict_merge a b) = match alookup k b with Some v => Some v | None => alookup k a end.
Proof.
  revert a. induction b as [|[k' v'] b IH]; intros a; csimpl; [done|].
  intros [Hn Hb]%NoDup_cons. unfold dict_merge in *. cbn [fold_left]. rewrite IH by done.
  simpl. rewrite alookup_ainsert. case_decide as H; [|done]. subst.
  by rewrite (proj2 (alookup_None k' b)).
Qed.

Lemma dict_get_merge k (a b : pydict) :
  NoDup b.*1 -> k ∈ b.*1 -> dict_get (dict_merge a b) k = dict_get b k.
Proof.
  intros Hb Hk. unfold dict_get. rewrite alookup_merge by done.
  apply alookup_is_Some in Hk as [v ->]. done.
Qed.

Lemma dict_get_merge_other k (a b : pydict) :
  NoDup b.*1 -> k ∉ b.*1 -> dict_get (dict_merge a b) k = dict_get a k.
Proof.
  intros Hb Hk. unfold dict_get. rewrite alookup_merge by done.
  by apply alookup_None in Hk as ->.
Qed.

Lemma dict_merge_NoDup (a b : pydict) : NoDup a.*1 -> NoDup (dict_merge a b).*1.
Proof.
  revert a. induction b as [|[k v] b IH]; intros a Ha; [done|].
  apply IH. by apply ainsert_NoDup.
Qed.

Lemma dict_merge_absorb (a b : pydict) :
  Forall (fun kv => alookup (fst kv) a = Some (snd kv)) b -> dict_merge a b = a.
Proof.
  revert a. induction b as [|[k v] b IH]; intros a; [done|].
  intros [H1 H2]%Forall_cons. unfold dict_merge in *. cbn [fold_left fst snd] in *.
  rewrite ainsert_same by done. by apply IH.
Qed.

(** Merging the same entries again changes nothing. *)
Lemma dict_merge_idem (a b : pydict) :
  NoDup b.*1 -> dict_merge (dict_merge a b) b = dict_merge a b.
Proof.
  intros Hb. apply dict_merge_absorb, Forall_forall. intros [k v] Hin. simpl.
  rewrite alookup_merge by done. by rewrite (alookup_NoDup k v b).
Qed.

(** Values that are equal to themselves. *)
Definition good_val (v : pyval) : bool := no_float v && wf_val v.

Lemma py_eq_good v : good_val v = true -> py_eq v v = true.
Proof. intros [? ?]%andb_true_iff. by apply py_eq_refl. Qed.

Lemma good_val_dict d :
  good_val (VDict d) = true <->
  NoDup d.*1 /\ Forall (fun kv => good_val (snd kv) = true) d.
Proof.
  unfold good_val. cbn [no_float wf_val].
  rewrite !andb_true_iff, negb_true_iff, has_dup_false, !forallb_Forall, !Forall_forall.
  split.
  - intros (H1 & H2 & H3). split; [done|]. intros kv Hin. by rewrite H1, H3.
  - intros (H1 & H2). split_and!; [|done|]; intros kv Hin; specialize (H2 kv Hin);
      apply andb_true_iff in H2; tauto.
Qed.

Lemma good_val_list l : good_val (VList l) = true <-> Forall (fun v => good_val v = true) l.
Proof.
  unfold good_val. cbn [no_float wf_val].
  rewrite !andb_true_iff, !forallb_Forall, !Forall_forall.
  split.
  - intros (H1 & H2) v Hin. by rewrite H1, H2.
  - intros H. split; intros v Hin; specialize (H v Hin); apply andb_true_iff in H; tauto.
Qed.

Lemma dict_get_good d k : good_val (VDict d) = true -> good_val (dict_get d k) = true.
Proof.
  intros [_ H]%good_val_dict. unfold dict_get. destruct (alookup k d) as [v|] eqn:E; [|done].
  apply alookup_Some_in in E. rewrite Forall_forall in H. by apply (H (k, v)).
Qed.

(** [{field: d.get(field) for field in fields}] *)
Definition project (fields : list pystr) (d : pydict) : pydict :=
  map (fun f => (f, dict_get d f)) fields.

Lemma project_keys fields d : (project fields d).*1 = fields.
Proof. unfold project. rewrite <- list_fmap_compose. apply list_fmap_id. Qed.

Lemma alookup_project fields d f :
  f ∈ fields -> alookup f (project fields d) = Some (dict_get d f).
Proof.
  induction fields as [|g fields IH]; [by intros ?%elem_of_nil|].
  cbn [project map alookup]. rewrite elem_of_cons. case_decide; [by subst|].
  intros [?|?]; [done|by apply IH].
Qed.

Lemma dict_get_project fields d f : f ∈ fields -> dict_get (project fields d) f = dict_get d f.
Proof. intros H. unfold dict_get at 1. by rewrite alookup_project. Qed.

Lemma py_eq_project fields d e :
  NoDup fields ->
  py_eq (VDict (project fields d)) (VDict (project fields e)) = true <->
  forall f, f ∈ fields -> same_nan (dict_get d f) (dict_get e f) || py_eq (dict_get d f) (dict_get e f) = true.
Proof.
  intros Hn. rewrite py_eq_dict. unfold project at 1 2. rewrite !length_map, Nat.eqb_refl.
  rewrite andb_true_l, forallb_Forall, Forall_forall. split.
  - intros H f Hf. specialize (H (f, dict_get d f)). cbn [fst snd] in H.
    rewrite alookup_project in H by done. apply H.
    apply list_elem_of_In, in_map_iff. exists f. by rewrite <- list_elem_of_In.
  - intros H [f v] (f' & [= <- <-] & Hin%list_elem_of_In)%list_elem_of_In%in_map_iff.
    cbn [fst snd]. rewrite alookup_project by done. by apply H.
Qed.
