(* ===== verification/Json.v ===== *)
(** The [json] module of the Python standard library, as far as the program
    relies on it: [json.loads] with its [object_pairs_hook] and
    [parse_constant] hooks, its recursion limit and its integer-length limit,
    and [json.dumps] with compact separators and ASCII output.

    The reader is the recursive descent of [json.scanner] and [json.decoder].
    Nesting deeper than [depth] is the [RecursionError] of the interpreter, and
    [fuel] bounds the number of calls: [loads] gives it the length of the text,
    which [loads_no_fuel] shows to be enough. *)
From Stdlib Require Import SpecFloat.
From S2P Require Export Codec PyVal.

Local Open Scope Z_scope.

(** ** Numbers *)

(** The largest decimal integer [int()] and [str()] convert. *)
Definition int_max_digits : nat := Z.to_nat 4300.

(** [float(text)] of the decimal [m * 10 ^ e10], correctly rounded; exponents
    outside the range of binary64 are cut off before the powers are computed. *)
Definition float_of_decimal (neg : bool) (m e10 : Z) : spec_float :=
  if m =? 0 then S754_zero neg
  else if 400 <? e10 then S754_infinity neg
  else if e10 <? - 400 - Z.log2 m then S754_zero neg
  else if 0 <=? e10 then
    binary_normalize 53 1024 ((if neg then -1 else 1) * (m * 10 ^ e10)) 0 neg
  else
    let '(q, e, l) := SFdiv_core_binary 53 1024 m 0 (10 ^ (- e10)) 0 in
    binary_round_aux 53 1024 neg q e l.

(** Numerator and denominator of a positive finite float. *)
Definition float_ratio (m : positive) (e : Z) : Z * Z :=
  if 0 <=? e then (Z.pos m * 2 ^ e, 1) else (Z.pos m, 2 ^ (- e)).

(** The least [k] with [n / d < 10 ^ k], searched upwards from [k]. *)
Fixpoint dec_point (fuel : nat) (n d k : Z) : Z :=
  match fuel with
  | O => k
  | S f =>
      let below := if 0 <=? k then n <? 10 ^ k * d else n * 10 ^ (- k) <? d in
      if below then k else dec_point f n d (k + 1)
  end.

(** The shortest digit string that reads back as the float, the nearest one
    among those of that length: digits [q] and exponent [s] of the last. *)
Fixpoint shortest (fuel : nat) (f : spec_float) (n d k p : Z) : Z * Z :=
  let s := k - p in
  let '(num, den) := if 0 <=? s then (n, d * 10 ^ s) else (n * 10 ^ (- s), d) in
  let q := num / den in
  let ok c := SFeqb (float_of_decimal false c s) f in
  match fuel with
  | O => (q, s)
  | S fuel' =>
      if ok q && (negb (ok (q + 1)) || (2 * (num mod den) <=? den)) then (q, s)
      else if ok (q + 1) then (q + 1, s)
      else shortest fuel' f n d k (p + 1)
  end.

Definition zeros (n : Z) : pystr := replicate (Z.to_nat n) 48.

(** [float.__repr__] of a positive finite float from its digits: [decpt] is the
    position of the decimal point. *)
Definition repr_digits (ds : pystr) (decpt : Z) : pystr :=
  let n := Z.of_nat (length ds) in
  if (-4 <? decpt) && (decpt <=? 16) then
    if decpt <=? 0 then u"0." ++ zeros (- decpt) ++ ds
    else if n <=? decpt then ds ++ zeros (decpt - n) ++ u".0"
    else take (Z.to_nat decpt) ds ++ u"." ++ drop (Z.to_nat decpt) ds
  else
    let ex := decpt - 1 in
    let exd := dec_digits (Z.abs ex) in
    take 1 ds ++ (match drop 1 ds with [] => [] | r => u"." ++ r end)
      ++ u"e" ++ (if ex <? 0 then u"-" else u"+")
      ++ (if Z.abs ex <? 10 then u"0" else []) ++ exd.

Definition float_repr (f : spec_float) : pystr :=
  match f with
  | S754_nan => u"NaN"
  | S754_infinity s => if s then u"-Infinity" else u"Infinity"
  | S754_zero s => if s then u"-0.0" else u"0.0"
  | S754_finite s m e =>
      let '(n, d) := float_ratio m e in
      let k := dec_point 8 n d ((Z.log2 n - Z.log2 d) * 30103 / 100000 - 2) in
      let '(q, sc) := shortest 17 (S754_finite false m e) n d k 1 in
      let ds := dec_digits q in
      let decpt := Z.of_nat (length ds) + sc in
      (if s then u"-" else []) ++ repr_digits (rstrip_while (fun c => c =? 48) ds) decpt
  end.

(** ** Reading *)

Definition json_error {A} : res A := raise JSONDecodeError "invalid JSON".

Definition is_ws (c : Z) : bool := (c =? 32) || (c =? 9) || (c =? 10) || (c =? 13).
Definition skip_ws (s : pystr) : pystr := lstrip_while is_ws s.

Definition is_high (c : Z) : bool := (55296 <=? c) && (c <=? 56319).
Definition is_low (c : Z) : bool := (56320 <=? c) && (c <=? 57343).
Definition join_surrogates (h l : Z) : Z := 65536 + (h - 55296) * 1024 + (l - 56320).

Definition hex4 (a b c d : Z) : option Z :=
  if is_hex a && is_hex b && is_hex c && is_hex d
  then Some (((hex_value a * 16 + hex_value b) * 16 + hex_value c) * 16 + hex_value d)
  else None.

Definition simple_escape (c : Z) : option Z :=
  if (c =? 34) || (c =? 92) || (c =? 47) then Some c
  else if c =? 98 then Some 8
  else if c =? 102 then Some 12
  else if c =? 110 then Some 10
  else if c =? 114 then Some 13
  else if c =? 116 then Some 9 else None.

Definition push (c : Z) (o : option (pystr * pystr)) : option (pystr * pystr) :=
  match o with Some (s, r) => Some (c :: s, r) | None => None end.

(** [scanstring] after the opening quote: the string and the text that follows
    its closing quote.  An escaped high surrogate joins an escaped low one. *)
Fixpoint scan_str (s : pystr) : option (pystr * pystr) :=
  match s with
  | [] => None
  | c :: r =>
      if c =? 34 then Some ([], r)
      else if c =? 92 then
        match r with
        | [] => None
        | e :: r1 =>
            if e =? 117 then
              match r1 with
              | h1 :: h2 :: h3 :: h4 :: r2 =>
                  match hex4 h1 h2 h3 h4 with
                  | None => None
                  | Some v =>
                      if is_high v then
                        match r2 with
                        | b :: w :: g1 :: g2 :: g3 :: g4 :: r3 =>
                            if (b =? 92) && (w =? 117) then
                              match hex4 g1 g2 g3 g4 with
                              | None => None
                              | Some v2 =>
                                  if is_low v2 then push (join_surrogates v v2) (scan_str r3)
                                  else push v (scan_str r2)
                              end
                            else push v (scan_str r2)
                        | _ => push v (scan_str r2)
                        end
                      else push v (scan_str r2)
                  end
              | _ => None
              end
            else match simple_escape e with
                 | Some x => push x (scan_str r1)
                 | None => None
                 end
        end
      else if c <? 32 then None
      else push c (scan_str r)
  end.

(** The longest prefix of digits. *)
Fixpoint span_digits (s : pystr) : pystr * pystr :=
  match s with
  | [] => ([], [])
  | c :: r => if is_digit c then let '(d, t) := span_digits r in (c :: d, t) else ([], s)
  end.

(** The text after [c] when it starts with [c]. *)
Definition expect (c : Z) (s : pystr) : option pystr :=
  match s with
  | x :: r => if x =? c then Some r else None
  | [] => None
  end.

(** The optional fraction and exponent of [NUMBER_RE]. *)
Definition scan_frac (s : pystr) : option pystr * pystr :=
  match expect 46 s with
  | Some r => match span_digits r with ([], _) => (None, s) | (d, t) => (Some d, t) end
  | None => (None, s)
  end.

Definition scan_exp (s : pystr) : option Z * pystr :=
  match s with
  | e :: r =>
      if (e =? 101) || (e =? 69) then
        let '(neg, r1) := match expect 45 r, expect 43 r with
                          | Some r1, _ => (true, r1)
                          | _, Some r1 => (false, r1)
                          | _, _ => (false, r)
                          end in
        match span_digits r1 with
        | ([], _) => (None, s)
        | (d, t) => (Some (if neg then - digits_value d else digits_value d), t)
        end
      else (None, s)
  | [] => (None, s)
  end.

(** [int(text)] of a run of digits. *)
Definition int_of_digits (ds : pystr) : res Z :=
  if (int_max_digits <? length ds)%nat
  then raise ValueError "Exceeds the limit (4300 digits) for integer string conversion"
  else Ok (digits_value ds).

(** A number after its sign. *)
Definition scan_number (neg : bool) (s : pystr) : res (pyval * pystr) :=
  let '(ds, r) := match expect 48 s with
                  | Some r => ([48], r)
                  | None => span_digits s
                  end in
  match ds with
  | [] => json_error
  | _ =>
      let '(frac, r1) := scan_frac r in
      let '(ex, r2) := scan_exp r1 in
      match frac, ex with
      | None, None =>
          let* z := int_of_digits ds in Ok (VInt (if neg then - z else z), r2)
      | _, _ =>
          let fd := match frac with Some d => d | None => [] end in
          let x := match ex with Some x => x | None => 0 end in
          Ok (VFloat (float_of_decimal neg (digits_value (ds ++ fd))
                        (x - Z.of_nat (length fd))), r2)
      end
  end.

Section loads.
Context (hook : pydict -> res pyval).
Context (parse_constant : spec_float -> res pyval).

(** Literals and numbers, everything that is not a string or a container. *)
Definition scan_atom (s : pystr) : res (pyval * pystr) :=
  let const f n := let* v := parse_constant f in Ok (v, drop n s) in
  if starts_with (u"null") s then Ok (VNone, drop 4 s)
  else if starts_with (u"true") s then Ok (VBool true, drop 4 s)
  else if starts_with (u"false") s then Ok (VBool false, drop 5 s)
  else if starts_with (u"NaN") s then const S754_nan 3%nat
  else if starts_with (u"Infinity") s then const (S754_infinity false) 8%nat
  else if starts_with (u"-Infinity") s then const (S754_infinity true) 9%nat
  else match expect 45 s with
       | Some r => scan_number true r
       | None => scan_number false s
       end.

Definition out_of_fuel {A} : res A := raise OutOfFuel "".
Definition too_deep {A} : res A :=
  raise RecursionError "maximum recursion depth exceeded while decoding a JSON document".

(** The bodies of [scan_once], [JSONObject] (after an opening quote of a key)
    and [JSONArray] (at the start of an element) over the functions they call. *)
Definition value_step (members : nat -> pydict -> pystr -> res (pyval * pystr))
    (elements : nat -> list pyval -> pystr -> res (pyval * pystr))
    (depth : nat) (s : pystr) : res (pyval * pystr) :=
  match expect 34 s with
  | Some r =>
      match scan_str r with Some (t, r') => Ok (VStr t, r') | None => json_error end
  | None =>
  match expect 123 s with
  | Some r =>
      match depth with
      | O => too_deep
      | S d =>
          let r1 := skip_ws r in
          match expect 125 r1, expect 34 r1 with
          | Some r', _ => let* v := hook [] in Ok (v, r')
          | None, Some r' => members d [] r'
          | None, None => json_error
          end
      end
  | None =>
  match expect 91 s with
  | Some r =>
      match depth with
      | O => too_deep
      | S d =>
          let r1 := skip_ws r in
          match expect 93 r1 with
          | Some r' => Ok (VList [], r')
          | None => elements d [] r1
          end
      end
  | None => scan_atom s
  end end end.

Definition members_step (value : nat -> pystr -> res (pyval * pystr))
    (members : nat -> pydict -> pystr -> res (pyval * pystr))
    (depth : nat) (acc : pydict) (s : pystr) : res (pyval * pystr) :=
  match scan_str s with
  | None => json_error
  | Some (k, r) =>
      match expect 58 (skip_ws r) with
      | None => json_error
      | Some r1 =>
          let* (v, r2) := value depth (skip_ws r1) in
          let r3 := skip_ws r2 in
          match expect 125 r3, expect 44 r3 with
          | Some r4, _ => let* o := hook (acc ++ [(k, v)]) in Ok (o, r4)
          | None, Some r4 =>
              match expect 34 (skip_ws r4) with
              | Some r5 => members depth (acc ++ [(k, v)]) r5
              | None => json_error
              end
          | None, None => json_error
          end
      end
  end.

Definition elements_step (value : nat -> pystr -> res (pyval * pystr))
    (elements : nat -> list pyval -> pystr -> res (pyval * pystr))
    (depth : nat) (acc : list pyval) (s : pystr) : res (pyval * pystr) :=
  let* (v, r) := value depth s in
  let r1 := skip_ws r in
  match expect 93 r1, expect 44 r1 with
  | Some r2, _ => Ok (VList (acc ++ [v]), r2)
  | None, Some r2 => elements depth (acc ++ [v]) (skip_ws r2)
  | None, None => json_error
  end.

Fixpoint scan_value (fuel : nat) : nat -> pystr -> res (pyval * pystr) :=
  match fuel with
  | O => fun _ _ => out_of_fuel
  | S f => fun d s => value_step (scan_members f) (scan_elements f) d s
  end
with scan_members (fuel : nat) : nat -> pydict -> pystr -> res (pyval * pystr) :=
  match fuel with
  | O => fun _ _ _ => out_of_fuel
  | S f => fun d acc s => members_step (scan_value f) (scan_members f) d acc s
  end
with scan_elements (fuel : nat) : nat -> list pyval -> pystr -> res (pyval * pystr) :=
  match fuel with
  | O => fun _ _ _ => out_of_fuel
  | S f => fun d acc s => elements_step (scan_value f) (scan_elements f) d acc s
  end.

Lemma scan_value_S f :
  scan_value (S f) = value_step (scan_members f) (scan_elements f).
Proof. done. Qed.
Lemma scan_members_S f :
  scan_members (S f) = members_step (scan_value f) (scan_members f).
Proof. done. Qed.
Lemma scan_elements_S f :
  scan_elements (S f) = elements_step (scan_value f) (scan_elements f).
Proof. done. Qed.

(** [json.loads(s)]: a leading byte-order mark and text after the value are
    errors. *)
Definition loads (depth : nat) (s : pystr) : res pyval :=
  match expect 65279 s with
  | Some _ => json_error
  | None =>
      let s1 := skip_ws s in
      let* (v, r) := scan_value (S (2 * length s1)) depth s1 in
      match skip_ws r with
      | [] => Ok v
      | _ => json_error
      end
  end.
End loads.

(** Without hooks. *)
Definition default_constant (f : spec_float) : res pyval := Ok (VFloat f).
Definition loads_plain (depth : nat) (s : pystr) : res pyval :=
  loads plain_pairs default_constant depth s.

(** ** Writing *)

Definition hex_pad4 (c : Z) : pystr :=
  [hex_digit (c / 4096 mod 16); hex_digit (c / 256 mod 16);
   hex_digit (c / 16 mod 16); hex_digit (c mod 16)].

(** One character of [py_encode_basestring_ascii]. *)
Definition json_char (c : Z) : pystr :=
  if c =? 34 then [92; 34]
  else if c =? 92 then [92; 92]
  else if c =? 10 then [92; 110]
  else if c =? 13 then [92; 114]
  else if c =? 9 then [92; 116]
  else if c =? 12 then [92; 102]
  else if c =? 8 then [92; 98]
  else if (32 <=? c) && (c <=? 126) then [c]
  else if c <? 65536 then 92 :: 117 :: hex_pad4 c
  else let n := c - 65536 in
       (92 :: 117 :: hex_pad4 (55296 + n / 1024))
         ++ (92 :: 117 :: hex_pad4 (56320 + n mod 1024)).

Definition json_str (s : pystr) : pystr := (34 :: concat (map json_char s)) ++ [34].

(** [sep.join(parts)] *)
Fixpoint join (sep : pystr) (parts : list pystr) : pystr :=
  match parts with
  | [] => []
  | [p] => p
  | p :: rest => p ++ sep ++ join sep rest
  end.

Record dump_opts := { sort_keys : bool; allow_nan : bool }.

Definition int_repr (z : Z) : res pystr :=
  if (int_max_digits <? length (dec_digits (Z.abs z)))%nat
  then raise ValueError "Exceeds the limit (4300 digits) for integer string conversion"
  else Ok (dec_of_Z z).

Definition float_text (o : dump_opts) (f : spec_float) : res pystr :=
  match f with
  | S754_nan | S754_infinity _ =>
      if allow_nan o then Ok (float_repr f)
      else raise ValueError "Out of range float values are not JSON compliant"
  | _ => Ok (float_repr f)
  end.

Definition member_leb {V} (a b : pystr * V) : bool := str_leb (fst a) (fst b).

Definition member_text (kt : pystr * pystr) : pystr := json_str (fst kt) ++ u":" ++ snd kt.

(** [json.dumps(v, separators=(",", ":"), ...)] *)
Fixpoint dumps (o : dump_opts) (v : pyval) : res pystr :=
  match v with
  | VNone => Ok (u"null")
  | VBool b => Ok (if b then u"true" else u"false")
  | VInt z => int_repr z
  | VFloat f => float_text o f
  | VStr s => Ok (json_str s)
  | VList l =>
      let* ts := (fix go l : res (list pystr) :=
        match l with
        | [] => Ok []
        | x :: l' => let* t := dumps o x in let* ts := go l' in Ok (t :: ts)
        end) l in
      Ok (u"[" ++ join (u",") ts ++ u"]")
  | VDict d =>
      let* ms := (fix go d : res (list (pystr * pystr)) :=
        match d with
        | [] => Ok []
        | (k, x) :: d' =>
            let* t := dumps o x in let* ts := go d' in Ok ((k, t) :: ts)
        end) d in
      let ms := if sort_keys o then py_sort member_leb ms else ms in
      Ok (u"{" ++ join (u",") (map member_text ms) ++ u"}")
  end.

(** [str(v)] of a scalar, as an f-string and [urlencode] write it. *)
Definition scalar_text (v : pyval) : res pystr :=
  match v with
  | VStr s => Ok s
  | VInt z => int_repr z
  | VBool b => Ok (if b then u"True" else u"False")
  | VNone => Ok (u"None")
  | VFloat f => Ok (float_repr f)
  | _ => raise TypeError "not a scalar"
  end.

Example float_repr_tenth :
  float_repr (float_of_decimal false 1 (-1)) = u"0.1".
Proof. vm_compute. reflexivity. Qed.

Example float_repr_big :
  float_repr (float_of_decimal false 5 (-324)) = u"5e-324" /\
  float_repr (float_of_decimal true 17976931348623157 292) = u"-1.7976931348623157e+308" /\
  float_repr (float_of_decimal false 1 16) = u"1e+16" /\
  float_repr (float_of_decimal false 123456 (-3)) = u"123.456" /\
  float_repr (float_of_decimal false 9007199254740993 0) = u"9007199254740992.0".
Proof. vm_compute. auto 6. Qed.

(** ** The reader terminates *)

(** A reader result that leaves less than [n] characters, or an exception other
    than running out of fuel. *)
Definition consumes {A} (n : nat) (m : res (A * pystr)) : Prop :=
  match m with
  | Ok (_, t) => (length t < n)%nat
  | Err e => exn_cls e <> OutOfFuel
  end.

Lemma skip_ws_length s : (length (skip_ws s) <= length s)%nat.
Proof.
  unfold skip_ws. destruct (lstrip_while_suffix is_ws s) as (t & Ht & _).
  rewrite Ht at 2. rewrite length_app. lia.
Qed.

Lemma expect_Some c s r : expect c s = Some r -> s = c :: r.
Proof. destruct s as [|x s]; simpl; [done|]. case_match; bool_prop; naive_solver. Qed.

Lemma expect_length c s r : expect c s = Some r -> (length r < length s)%nat.
Proof. intros ->%expect_Some. simpl. lia. Qed.

Lemma expect_skip c s r : expect c (skip_ws s) = Some r -> (length r < length s)%nat.
Proof. intros H%expect_length. pose proof (skip_ws_length s). lia. Qed.

Lemma scan_str_length s t r : scan_str s = Some (t, r) -> (length r < length s)%nat.
Proof.
  revert t r. induction s as [s IH] using (induction_ltof1 _ (@length _)); unfold ltof in IH.
  intros t r. destruct s as [|c s1]; [done|]. cbn [scan_str].
  assert (Hp : forall x o, (forall t r, o = Some (t, r) -> (length r < length (c :: s1))%nat) ->
    push x o = Some (t, r) -> (length r < length (c :: s1))%nat).
  { intros x [[t' r']|] Ho; [|done]. intros [= ? <-]. by eapply Ho. }
  repeat case_match; subst; try done; try (intros [= <- <-]; simpl; lia);
    apply Hp; intros t' r' H'; apply IH in H'; simpl in *; lia.
Qed.

Lemma span_digits_app s d t : span_digits s = (d, t) -> s = d ++ t.
Proof.
  revert d. induction s as [|c s IH]; intros d; simpl; [by intros [= <- <-]|].
  destruct (is_digit c); [|by intros [= <- <-]].
  destruct (span_digits s) as [d' t'] eqn:E. intros [= <- <-]. simpl. f_equal. by apply IH.
Qed.

Lemma span_digits_length s d t : span_digits s = (d, t) -> length s = (length d + length t)%nat.
Proof. intros ->%span_digits_app. apply length_app. Qed.

(** Collect the length facts of the sub-scanners in the context. *)
Ltac scan_lengths :=
  repeat match goal with
  | H : expect _ (skip_ws _) = Some _ |- _ => apply expect_skip in H
  | H : expect _ _ = Some _ |- _ => apply expect_length in H
  | H : scan_str _ = Some _ |- _ => apply scan_str_length in H
  | H : span_digits _ = _ |- _ => apply span_digits_length in H
  | s : pystr |- context [skip_ws ?s] =>
      lazymatch goal with
      | _ : (length (skip_ws s) <= length s)%nat |- _ => fail
      | _ => pose proof (skip_ws_length s)
      end
  end; cbn [length consumes] in *.

Lemma scan_frac_length s f r : scan_frac s = (f, r) -> (length r <= length s)%nat.
Proof. unfold scan_frac. repeat case_match; intros [= <- <-]; scan_lengths; lia. Qed.

Lemma scan_exp_length s x r : scan_exp s = (x, r) -> (length r <= length s)%nat.
Proof.
  unfold scan_exp. repeat case_match; intros [= <- <-]; simplify_eq; scan_lengths; lia.
Qed.

Lemma scan_number_consumes neg s : consumes (length s) (scan_number neg s).
Proof.
  unfold scan_number.
  assert (Hd : forall ds r, match expect 48 s with Some r => ([48], r) | None => span_digits s end
                = (ds, r) -> ds <> [] -> (length r < length s)%nat).
  { intros ds r H Hne. case_match; simplify_eq; scan_lengths; [lia|].
    destruct ds; [done|simpl in *; lia]. }
  destruct (match expect 48 s with Some r => ([48], r) | None => span_digits s end)
    as [ds r] eqn:E.
  specialize (Hd _ _ eq_refl). destruct ds as [|d ds]; [done|]. specialize (Hd ltac:(done)).
  destruct (scan_frac r) as [f r1] eqn:Ef. apply scan_frac_length in Ef.
  destruct (scan_exp r1) as [x r2] eqn:Ex. apply scan_exp_length in Ex.
  unfold int_of_digits. destruct f, x; cbn [consumes]; try lia.
  destruct (int_max_digits <? _)%nat; [done|]. simpl. lia.
Qed.

Lemma consumes_le {A} n m (x : res (A * pystr)) :
  (n <= m)%nat -> consumes n x -> consumes m x.
Proof. destruct x as [[a t]|e]; simpl; [lia|done]. Qed.

Section termination.
Context (hook : pydict -> res pyval) (pc : spec_float -> res pyval).
Context (Hhook : forall d e, hook d = Err e -> exn_cls e <> OutOfFuel).
Context (Hpc : forall f e, pc f = Err e -> exn_cls e <> OutOfFuel).

Lemma scan_atom_consumes s : consumes (length s) (scan_atom pc s).
Proof.
  unfold scan_atom.
  assert (Hdrop : forall p n, starts_with p s = true -> (0 < n <= length p)%nat ->
                         (length (drop n s) < length s)%nat).
  { intros p n [t ->]%starts_with_spec Hn. rewrite length_drop, length_app. lia. }
  repeat match goal with
  | |- context [if starts_with ?p s then _ else _] =>
      destruct (starts_with p s) eqn:?;
        [first [ eapply Hdrop; [eassumption|simpl; lia]
               | destruct (pc _) eqn:Ec; [eapply Hdrop; [eassumption|simpl; lia]|by eapply Hpc] ]|]
  end.
  destruct (expect 45 s) as [r|] eqn:E; [|apply scan_number_consumes].
  apply expect_length in E. eapply consumes_le; [|apply scan_number_consumes]. lia.
Qed.

Lemma scan_consumes fuel :
  (forall depth s, (2 * length s < fuel)%nat ->
     consumes (length s) (scan_value hook pc fuel depth s)) /\
  (forall depth acc s, (2 * length s < fuel)%nat ->
     consumes (length s) (scan_members hook pc fuel depth acc s)) /\
  (forall depth acc s, (2 * length s + 1 < fuel)%nat ->
     consumes (length s) (scan_elements hook pc fuel depth acc s)).
Proof.
  induction fuel as [|f (IHv & IHm & IHe)]; [split_and!; intros; lia|].
  rewrite scan_value_S, scan_members_S, scan_elements_S.
  unfold value_step, members_step, elements_step.
  split_and!; intros depth.
  - intros s Hs. repeat case_match; try done; scan_lengths; try lia; try (by eapply Hhook).
    + eapply consumes_le; [|apply IHm]; lia.
    + eapply consumes_le; [|apply IHe]; lia.
    + apply scan_atom_consumes.
  - intros acc s Hs. destruct (scan_str s) as [[k r]|] eqn:Ek; [|done].
    destruct (expect 58 (skip_ws r)) as [r1|] eqn:E58; [|done]. scan_lengths.
    pose proof (IHv depth (skip_ws r1) ltac:(lia)) as Hv.
    destruct (scan_value _ _ _ _ _) as [[v r2]|e]; [|exact Hv]. cbn [consumes] in Hv.
    repeat case_match; try done; scan_lengths; try lia; try (by eapply Hhook).
    eapply consumes_le; [|apply IHm]; lia.
  - intros acc s Hs. pose proof (IHv depth s ltac:(lia)) as Hv.
    destruct (scan_value _ _ _ _ _) as [[v r]|e]; [|exact Hv]. cbn [consumes] in Hv.
    repeat case_match; try done; scan_lengths; try lia.
    eapply consumes_le; [|apply IHe]; scan_lengths; lia.
Qed.

(** [loads] always has enough fuel. *)
Lemma loads_fuel depth s e : loads hook pc depth s = Err e -> exn_cls e <> OutOfFuel.
Proof.
  unfold loads. destruct (expect 65279 s); [by intros [= <-]|].
  pose proof (proj1 (scan_consumes (S (2 * length (skip_ws s)))) depth (skip_ws s)
    ltac:(lia)) as Hv.
  destruct (scan_value _ _ _ _ _) as [[v r]|e']; [|intros [= <-]; exact Hv].
  destruct (skip_ws r); [done|by intros [= <-]].
Qed.
End termination.

(** ** What the reader returns

    A property of values that the hooks and lists preserve holds of every value
    read, and every exception is one of the reader's or of a hook. *)
Section outcome.
Context (hook : pydict -> res pyval) (pc : spec_float -> res pyval).
Context (P : pyval -> Prop) (E : exn -> Prop).

Definition scalar (v : pyval) : bool :=
  match v with VList _ | VDict _ => false | _ => true end.
Definition reader_exn (e : exn) : Prop :=
  exn_cls e ∈ [JSONDecodeError; RecursionError; OutOfFuel; ValueError].

Definition outcome {A} (Q : A -> Prop) (m : res A) : Prop :=
  match m with Ok a => Q a | Err e => E e end.
Definition read_ok : res (pyval * pystr) -> Prop := outcome (fun vr => P (fst vr)).

Context (Hscalar : forall v, scalar v = true -> P v).
Context (Hlist : forall l, Forall P l -> P (VList l)).
Context (Hhook : forall d, Forall (fun kv => P (snd kv)) d -> outcome P (hook d)).
Context (Hpc : forall f, outcome P (pc f)).
Context (HE : forall e, reader_exn e -> E e).

Lemma reader_raise {A} (Q : A -> Prop) c msg :
  existsb (fun d => bool_decide (c = d)) [JSONDecodeError; RecursionError; OutOfFuel; ValueError]
    = true -> outcome Q (raise c msg).
Proof.
  intros (d & Hd & Hc%bool_decide_eq_true)%existsb_exists. apply HE. unfold reader_exn.
  simpl. subst. by apply list_elem_of_In.
Qed.

Lemma json_error_outcome {A} (Q : A -> Prop) : outcome Q json_error.
Proof. by apply reader_raise. Qed.

Lemma scan_number_outcome neg s : read_ok (scan_number neg s).
Proof.
  unfold scan_number.
  destruct (match expect 48 s with Some r => _ | None => _ end) as [ds r].
  destruct ds as [|c ds]; [apply json_error_outcome|].
  destruct (scan_frac r) as [frac r1]. destruct (scan_exp r1) as [ex r2].
  assert (Hf : forall f (t : pystr), read_ok (Ok (VFloat f, t))) by (intros; by apply Hscalar).
  destruct frac; [apply Hf|]. destruct ex; [apply Hf|].
  unfold int_of_digits. destruct (_ <? _)%nat; [|by apply Hscalar].
  by apply reader_raise.
Qed.

Lemma scan_atom_outcome s : read_ok (scan_atom pc s).
Proof.
  assert (Hc : forall f n, read_ok (let* v := pc f in Ok (v, drop n s))).
  { intros f n. specialize (Hpc f). by destruct (pc f). }
  unfold scan_atom. repeat (case_match; try apply Hc; try apply scan_number_outcome;
    try by apply Hscalar).
Qed.

Lemma scan_outcome fuel :
  (forall depth s, read_ok (scan_value hook pc fuel depth s)) /\
  (forall depth acc s, Forall (fun kv => P (snd kv)) acc ->
     read_ok (scan_members hook pc fuel depth acc s)) /\
  (forall depth acc s, Forall P acc ->
     read_ok (scan_elements hook pc fuel depth acc s)).
Proof.
  assert (Hhook' : forall d (r : pystr), Forall (fun kv => P (snd kv)) d ->
    read_ok (let* v := hook d in Ok (v, r))).
  { intros d r Hd. specialize (Hhook d Hd). by destruct (hook d). }
  induction fuel as [|f (IHv & IHm & IHe)].
  { split_and!; intros; by apply reader_raise. }
  rewrite scan_value_S, scan_members_S, scan_elements_S.
  unfold value_step, members_step, elements_step. split_and!.
  - intros depth s. repeat case_match; try (by apply Hscalar);
      try apply json_error_outcome; try (by apply reader_raise);
      try (by apply Hhook'); try (by apply Hlist); try (by apply IHm); try (by apply IHe);
      try apply scan_atom_outcome.
    all: match goal with H : hook [] = _ |- _ => pose proof (Hhook [] (Forall_nil_2 _)) as H'; by rewrite H in H' end.
  - intros depth acc s Hacc. destruct (scan_str s) as [[k r]|]; [|apply json_error_outcome].
    destruct (expect 58 (skip_ws r)) as [r1|]; [|apply json_error_outcome].
    pose proof (IHv depth (skip_ws r1)) as Hv.
    destruct (scan_value _ _ _ _ _) as [[v r2]|e]; [|exact Hv].
    assert (Hacc' : Forall (fun kv => P (snd kv)) (acc ++ [(k, v)])).
    { apply Forall_app. split; [done|]. by repeat constructor. }
    destruct (expect 125 _); [by apply Hhook'|].
    destruct (expect 44 _); [|apply json_error_outcome].
    destruct (expect 34 _); [by apply IHm|apply json_error_outcome].
  - intros depth acc s Hacc. pose proof (IHv depth s) as Hv.
    destruct (scan_value _ _ _ _ _) as [[v r]|e]; [|exact Hv].
    assert (Hacc' : Forall P (acc ++ [v])) by (apply Forall_app; by repeat constructor).
    destruct (expect 93 _); [by apply Hlist|].
    destruct (expect 44 _); [by apply IHe|apply json_error_outcome].
Qed.

Lemma loads_outcome depth s : outcome P (loads hook pc depth s).
Proof.
  unfold loads. destruct (expect 65279 s); [apply json_error_outcome|].
  pose proof (proj1 (scan_outcome (S (2 * length (skip_ws s)))) depth (skip_ws s)) as Hv.
  destruct (scan_value _ _ _ _ _) as [[v r]|e]; [|exact Hv].
  destruct (skip_ws r); [exact Hv|apply json_error_outcome].
Qed.
End outcome.

(** The default [parse_constant] accepts the three constants. *)
Lemma default_constant_outcome (P : pyval -> Prop) (E : exn -> Prop) f :
  (forall v, scalar v = true -> P v) -> outcome E P (default_constant f).
Proof. intros H. by apply H. Qed.

(** With a hook that refuses repeated keys, every dictionary read has distinct
    keys, at every depth. *)
Lemma loads_unique_wf e pc depth s v :
  (forall f v, pc f = Ok v -> wf_val v = true) ->
  loads (unique_pairs e []) pc depth s = Ok v -> wf_val v = true.
Proof.
  intros Hpc H.
  assert (Ho : outcome (fun _ => True) (fun v => wf_val v = true)
                 (loads (unique_pairs e []) pc depth s)); [|by rewrite H in Ho].
  apply loads_outcome; try done.
  - by intros [].
  - intros l Hl. by apply forallb_Forall.
  - intros d Hd. rewrite unique_pairs_spec by constructor. simpl.
    case_bool_decide as Hn; [|done]. simpl. rewrite (proj2 (has_dup_false _)) by done.
    by apply forallb_Forall.
  - intros f. unfold outcome. destruct (pc f) eqn:Ef; [by eapply Hpc|done].
Qed.

(** Failures of a reader with such a hook. *)
Lemma loads_unique_exn e pc depth s e' :
  (forall f e, pc f = Err e -> exn_cls e = ValueError) ->
  loads (unique_pairs e []) pc depth s = Err e' ->
  e' = e \/ reader_exn e'.
Proof.
  intros Hpc H.
  assert (Ho : outcome (fun e' => e' = e \/ reader_exn e') (fun _ => True)
                 (loads (unique_pairs e []) pc depth s)); [|by rewrite H in Ho].
  apply loads_outcome; try done; [..|by right].
  - intros d _. rewrite unique_pairs_spec by constructor. simpl.
    case_bool_decide; simpl; auto.
  - intros f. unfold outcome. destruct (pc f) eqn:Ef; [done|]. right.
    unfold reader_exn. rewrite (Hpc _ _ Ef). set_solver.
Qed.

(** ** The written text is ASCII, of bounded size *)

Definition ascii_text (t : pystr) : Prop := Forall (fun c => is_ascii c = true) t.

Lemma hex_pad4_ascii c : ascii_text (hex_pad4 c).
Proof.
  assert (H : forall n, is_ascii (hex_digit (n mod 16)) = true).
  { intros n. pose proof (hex_digit_range (n mod 16) (Z.mod_pos_bound n 16 ltac:(lia))).
    unfold is_ascii. apply andb_true_iff. rewrite Z.leb_le, Z.ltb_lt. lia. }
  repeat (constructor; [apply H|]). constructor.
Qed.

Lemma json_char_ascii c : ascii_text (json_char c) /\ (length (json_char c) <= 12)%nat.
Proof.
  unfold json_char. repeat case_match; bool_prop;
    (split; [|simpl; lia]); try (by repeat constructor).
  - constructor; [|constructor]. unfold is_ascii. apply andb_true_iff.
    rewrite Z.leb_le, Z.ltb_lt. lia.
  - do 2 (constructor; [done|]). apply hex_pad4_ascii.
  - apply Forall_app. split; do 2 (constructor; [done|]); apply hex_pad4_ascii.
Qed.

Lemma json_str_ascii s : ascii_text (json_str s) /\ (length (json_str s) <= 12 * length s + 2)%nat.
Proof.
  unfold json_str. rewrite length_app. cbn [length app].
  assert (ascii_text (concat (map json_char s)) /\
          (length (concat (map json_char s)) <= 12 * length s)%nat) as [Ha Hl].
  { induction s as [|c s [IHa IHl]]; [by split; [constructor|]|]. cbn [map concat].
    destruct (json_char_ascii c) as [Hc Hn]. rewrite length_app. split; [by apply Forall_app|].
    cbn [length]. lia. }
  split; [|lia]. constructor; [done|]. apply Forall_app. split; [done|by repeat constructor].
Qed.

(** Characters that are written as themselves. *)
Lemma json_str_plain s :
  Forall (fun c => is_b64url c = true) s -> length (json_str s) = (length s + 2)%nat.
Proof.
  intros H. unfold json_str. rewrite length_app. cbn [length].
  assert (length (concat (map json_char s)) = length s) as ->; [|lia].
  induction H as [|c s Hc _ IH]; [done|]. cbn [map concat]. rewrite length_app, IH.
  cbn [length]. cut (length (json_char c) = 1%nat); [lia|]. unfold json_char, is_b64url, is_alnum,
    is_digit, is_upper, is_lower in *.
  rewrite !orb_true_iff, !andb_true_iff, !Z.leb_le, !Z.eqb_eq in Hc.
  repeat match goal with
  | |- context [c =? ?k] => destruct (Z.eqb_spec c k); [lia|]
  end.
  by rewrite (proj2 (Z.leb_le 32 c)), (proj2 (Z.leb_le c 126)) by lia.
Qed.

Lemma join_ascii sep ps :
  ascii_text sep -> Forall ascii_text ps -> ascii_text (join sep ps).
Proof.
  intros Hs. induction 1 as [|p ps Hp Hps IH]; [constructor|].
  destruct ps; [done|]. apply Forall_app. split; [done|]. by apply Forall_app.
Qed.

Fixpoint total_length (ps : list pystr) : nat :=
  match ps with [] => 0 | p :: r => S (length p) + total_length r end%nat.

Lemma join_comma_length ps : (length (join (u",") ps) <= total_length ps)%nat.
Proof.
  induction ps as [|p ps IH]; [done|]. destruct ps as [|q ps]; [simpl; lia|].
  change (join (u",") (p :: q :: ps)) with (p ++ u"," ++ join (u",") (q :: ps)).
  rewrite !length_app. change (length (u",")) with 1%nat. cbn [total_length] in *. lia.
Qed.

(** ** Round trip: what [dumps] writes, [loads] reads back *)

(** Strings that survive: no escaped high surrogate may be followed by an
    escaped low one, which the reader would join. *)
Fixpoint str_ok (s : pystr) : bool :=
  match s with
  | [] => true
  | c :: r =>
      (0 <=? c) && (c <=? 1114111)
      && negb (is_high c && match r with d :: _ => is_low d | [] => false end)
      && str_ok r
  end.

(** Values without floats whose dictionaries have distinct keys. *)
Fixpoint json_ok (v : pyval) : bool :=
  match v with
  | VFloat _ => false
  | VStr s => str_ok s
  | VList l => forallb json_ok l
  | VDict d =>
      negb (has_dup d.*1)
      && forallb (fun kv => str_ok (fst kv) && json_ok (snd kv)) d
  | _ => true
  end.

(** The value read back: keys are in the order they were written. *)
Fixpoint json_norm (o : dump_opts) (v : pyval) : pyval :=
  match v with
  | VList l => VList (map (json_norm o) l)
  | VDict d =>
      let d' := map (fun kv => (fst kv, json_norm o (snd kv))) d in
      VDict (if sort_keys o then py_sort member_leb d' else d')
  | _ => v
  end.

(** Nesting depth of containers. *)
Fixpoint nesting (v : pyval) : nat :=
  match v with
  | VList l => S (foldr (fun x n => Nat.max (nesting x) n) 0%nat l)
  | VDict d => S (foldr (fun kv n => Nat.max (nesting (snd kv)) n) 0%nat d)
  | _ => 0%nat
  end.

Definition dump_member (o : dump_opts) (kv : pystr * pyval) : res (pystr * pystr) :=
  let* t := dumps o (snd kv) in Ok (fst kv, t).

Lemma dumps_list o l :
  dumps o (VList l) =
    let* ts := mapM_res (dumps o) l in Ok (u"[" ++ join (u",") ts ++ u"]").
Proof.
  cbn [dumps].
  assert (forall m, m = mapM_res (dumps o) l -> (let* ts := m in Ok (u"[" ++ join (u",") ts ++ u"]"))
    = (let* ts := mapM_res (dumps o) l in Ok (u"[" ++ join (u",") ts ++ u"]"))) as H by (by intros m ->).
  apply H. induction l as [|x l IH]; [done|]. cbn [mapM_res]. rewrite IH; [done|].
  by intros m ->.
Qed.

Lemma dumps_dict o d :
  dumps o (VDict d) =
    let* ms := mapM_res (dump_member o) d in
    Ok (u"{" ++ join (u",") (map member_text (if sort_keys o then py_sort member_leb ms else ms))
          ++ u"}").
Proof.
  cbn [dumps].
  set (k := fun m => let* ms := m in Ok (u"{" ++ join (u",")
    (map member_text (if sort_keys o then py_sort member_leb ms else ms)) ++ u"}")).
  change (k ((fix go d := match d with
            | [] => Ok []
            | (k, x) :: d' => let* t := dumps o x in let* ts := go d' in Ok ((k, t) :: ts)
            end) d) = k (mapM_res (dump_member o) d)).
  f_equal. induction d as [|[k' x] d IH]; [done|]. cbn [mapM_res]. unfold dump_member at 1.
  cbn [fst snd]. destruct (dumps o x); [|done]. by rewrite IH.
Qed.

Lemma hex4_pad c : 0 <= c < 65536 ->
  match hex_pad4 c with [a; b; d; e] => hex4 a b d e | _ => None end = Some c.
Proof.
  intros Hc. unfold hex_pad4, hex4.
  assert (H : forall x, 0 <= x mod 16 < 16) by (intros; apply Z.mod_pos_bound; lia).
  rewrite !is_hex_digit, !hex_value_digit by apply H. simpl. f_equal.
  assert (c / 256 = c / 16 / 16) by (by rewrite Z.div_div).
  assert (c / 4096 = c / 16 / 16 / 16) by (by rewrite !Z.div_div).
  zdm.
Qed.

(** Reading an escape that is not a high surrogate. *)
Lemma scan_str_escape c t :
  0 <= c < 65536 -> is_high c = false ->
  scan_str (92 :: 117 :: hex_pad4 c ++ t) = push c (scan_str t).
Proof.
  intros Hc Hh. pose proof (hex4_pad c Hc) as H. unfold hex_pad4 in *.
  cbn [app]. cbn [scan_str Z.eqb Pos.eqb]. by rewrite H, Hh.
Qed.

(** What follows an escaped high surrogate is not an escaped low one. *)
Definition no_low_escape (t : pystr) : Prop :=
  match t with
  | b :: w :: g1 :: g2 :: g3 :: g4 :: _ =>
      b = 92 -> w = 117 ->
      exists v, hex4 g1 g2 g3 g4 = Some v /\ is_low v = false
  | _ => True
  end.

Lemma scan_str_high c t :
  0 <= c < 65536 -> no_low_escape t ->
  scan_str (92 :: 117 :: hex_pad4 c ++ t) = push c (scan_str t).
Proof.
  intros Hc Ht. destruct (is_high c) eqn:Hh; [|by apply scan_str_escape].
  pose proof (hex4_pad c Hc) as H. unfold hex_pad4 in *. cbn [app].
  destruct t as [|b [|w [|g1 [|g2 [|g3 [|g4 t]]]]]];
    cbn [scan_str]; cbn [Z.eqb Pos.eqb]; rewrite H, Hh; try done.
  cbn [no_low_escape] in Ht.
  destruct ((b =? 92) && (w =? 117)) eqn:E; [|done]. bool_prop.
  destruct (Ht H0 H1) as (v & -> & ->). done.
Qed.

Lemma scan_str_pair c t :
  65536 <= c <= 1114111 -> scan_str (json_char c ++ t) = push c (scan_str t).
Proof.
  intros Hc. unfold json_char.
  repeat match goal with
  | |- context [?a =? ?b] => rewrite (proj2 (Z.eqb_neq a b)) by lia
  end.
  destruct ((32 <=? c) && (c <=? 126)) eqn:E; [bool_prop; lia|].
  rewrite (proj2 (Z.ltb_ge c 65536)) by lia.
  set (hi := 55296 + (c - 65536) / 1024). set (lo := 56320 + (c - 65536) mod 1024).
  assert (Hhi : 55296 <= hi <= 56319) by (unfold hi; zdm).
  assert (Hlo : 56320 <= lo <= 57343) by (unfold lo; zdm).
  pose proof (hex4_pad hi ltac:(lia)) as H1. pose proof (hex4_pad lo ltac:(lia)) as H2.
  unfold hex_pad4 in *. cbn [app]. cbn [scan_str]. cbn [Z.eqb Pos.eqb]. rewrite H1.
  assert (is_high hi = true) as ->.
  { unfold is_high. apply andb_true_iff. split; apply Z.leb_le; lia. }
  cbn [andb]. rewrite H2.
  assert (is_low lo = true) as ->.
  { unfold is_low. apply andb_true_iff. split; apply Z.leb_le; lia. }
  replace (join_surrogates hi lo) with c; [done|].
  unfold join_surrogates, hi, lo. zdm.
Qed.

Lemma no_low_escape_head b t : b <> 92 -> no_low_escape (b :: t).
Proof. intros Hb. destruct t as [|w [|? [|? [|? [|? t]]]]]; simpl; done || congruence. Qed.

Lemma no_low_escape_second w t : w <> 117 -> no_low_escape (92 :: w :: t).
Proof. intros Hb. destruct t as [|? [|? [|? [|? t]]]]; simpl; done || congruence. Qed.

Lemma no_low_escape_hex v t :
  0 <= v < 65536 -> is_low v = false -> no_low_escape (92 :: 117 :: hex_pad4 v ++ t).
Proof.
  intros Hv Hl. pose proof (hex4_pad v Hv) as H. unfold hex_pad4 in *. cbn [app no_low_escape].
  intros _ _. by exists v.
Qed.

(** The cases of [json_char], with what each needs. *)
Lemma json_char_cases c :
  0 <= c <= 1114111 ->
  (exists e x, json_char c = [92; e] /\ simple_escape e = Some x /\ x = c /\ e <> 117) \/
  (json_char c = [c] /\ c <> 34 /\ c <> 92 /\ 32 <= c) \/
  (json_char c = 92 :: 117 :: hex_pad4 c /\ c < 65536) \/
  (65536 <= c).
Proof.
  intros Hc. unfold json_char.
  repeat match goal with
  | |- context [c =? ?k] => destruct (Z.eqb_spec c k); [subst; left; by eexists _, _|]
  end.
  destruct ((32 <=? c) && (c <=? 126)) eqn:E; bool_prop; [right; left; split_and!; done || lia|].
  destruct (c <? 65536) eqn:E2; bool_prop; [by right; right; left|by right; right; right].
Qed.

Lemma no_low_escape_text s rest :
  str_ok s = true -> match s with d :: _ => is_low d = false | [] => True end ->
  no_low_escape (concat (map json_char s) ++ 34 :: rest).
Proof.
  destruct s as [|d s]; intros Hok Hd; [by apply no_low_escape_head|].
  cbn [str_ok] in Hok. bool_prop. cbn [map concat]. rewrite <- app_assoc.
  destruct (json_char_cases d) as [(e & x & -> & _ & _ & He)|[(-> & _ & H92 & _)|[(-> & Hlt)|Hge]]];
    [lia|by apply no_low_escape_second|by apply no_low_escape_head| |].
  - cbn [app]. apply no_low_escape_hex; [lia|done].
  - unfold json_char.
    repeat match goal with
    | |- context [d =? ?b] => rewrite (proj2 (Z.eqb_neq d b)) by lia
    end.
    destruct ((32 <=? d) && (d <=? 126)) eqn:E; [bool_prop; lia|].
    rewrite (proj2 (Z.ltb_ge d 65536)) by lia. rewrite <- app_assoc. cbn [app].
    apply no_low_escape_hex; [zdm|]. unfold is_low. apply andb_false_iff. left.
    apply Z.leb_gt. zdm.
Qed.

Lemma scan_str_text s rest :
  str_ok s = true -> scan_str (concat (map json_char s) ++ 34 :: rest) = Some (s, rest).
Proof.
  induction s as [|c s IH]; intros Hok; [done|].
  pose proof Hok as Hok'. cbn [str_ok] in Hok'. bool_prop.
  cbn [map concat]. rewrite <- app_assoc.
  specialize (IH ltac:(done)).
  set (t := concat (map json_char s) ++ 34 :: rest) in *.
  assert (scan_str (json_char c ++ t) = push c (scan_str t)) as ->; [|by rewrite IH].
  destruct (json_char_cases c)
    as [(e & x & -> & He & -> & Hu)|[(-> & H34 & H92 & H32)|[(-> & Hlt)|Hge]]]; [lia| | | |].
  - cbn [app scan_str Z.eqb Pos.eqb]. rewrite (proj2 (Z.eqb_neq e 117)) by done. by rewrite He.
  - cbn [app scan_str]. rewrite (proj2 (Z.eqb_neq c 34)), (proj2 (Z.eqb_neq c 92)) by done.
    by rewrite (proj2 (Z.ltb_ge c 32)) by lia.
  - cbn [app]. destruct (is_high c) eqn:Eh; [|by apply scan_str_escape].
    apply scan_str_high; [lia|]. apply no_low_escape_text; [done|].
    destruct s; [done|]. by destruct (is_low z).
  - by apply scan_str_pair.
Qed.

(** ** Numbers *)

(** Text that ends a value: the end, a comma, a closing bracket or a blank. *)
Definition delim (t : pystr) : bool :=
  match t with
  | [] => true
  | c :: _ => (c =? 44) || (c =? 93) || (c =? 125) || is_ws c
  end.

Lemma delim_head c t : delim (c :: t) = true ->
  c = 44 \/ c = 93 \/ c = 125 \/ c = 32 \/ c = 9 \/ c = 10 \/ c = 13.
Proof. cbn. unfold is_ws. rewrite !orb_true_iff, !Z.eqb_eq. tauto. Qed.

Lemma span_digits_delim ds t :
  Forall (fun c => is_digit c = true) ds -> delim t = true -> span_digits (ds ++ t) = (ds, t).
Proof.
  intros Hds Ht. induction Hds as [|c ds Hc _ IH]; simpl.
  - destruct t as [|c t]; [done|]. apply delim_head in Ht. simpl in *. unfold is_digit.
    destruct ((48 <=? c) && (c <=? 57)) eqn:E; [|done]. bool_prop. lia.
  - by rewrite Hc, IH.
Qed.

Lemma delim_no_frac t : delim t = true -> scan_frac t = (None, t) /\ scan_exp t = (None, t).
Proof.
  destruct t as [|c t]; [done|]. intros Hc%delim_head.
  unfold scan_frac, scan_exp, expect. by repeat destruct Hc as [->|Hc]; subst.
Qed.

Lemma scan_number_digits neg n t :
  0 <= n -> (length (dec_digits n) <= int_max_digits)%nat -> delim t = true ->
  scan_number neg (dec_digits n ++ t) = Ok (VInt (if neg then - n else n), t).
Proof.
  intros Hn Hlen Ht. unfold scan_number.
  assert (Hds : match expect 48 (dec_digits n ++ t) with
          | Some r => ([48], r) | None => span_digits (dec_digits n ++ t) end = (dec_digits n, t)).
  { destruct (decide (n = 0)) as [->|Hne]; [done|].
    destruct (dec_digits_head n) as (d & l & E & Hd); [lia|].
    rewrite <- (span_digits_delim (dec_digits n) t) by (done || by apply dec_digits_digit).
    rewrite E. cbn [app expect]. by rewrite (proj2 (Z.eqb_neq _ 48)) by lia. }
  rewrite Hds. destruct (dec_digits n) as [|c l] eqn:E.
  - exfalso. destruct (decide (n = 0)) as [->|Hne]; [done|].
    destruct (dec_digits_head n) as (d & l & E' & Hd); [lia|]. congruence.
  - rewrite <- E. destruct (delim_no_frac t Ht) as [-> ->].
    unfold int_of_digits. rewrite (proj2 (Nat.ltb_ge _ _)) by (rewrite E; done).
    by rewrite digits_value_dec.
Qed.

Lemma int_repr_text z t :
  int_repr z = Ok t ->
  (length (dec_digits (Z.abs z)) <= int_max_digits)%nat /\
  t = (if z <? 0 then [45] else []) ++ dec_digits (Z.abs z).
Proof.
  unfold int_repr, dec_of_Z. destruct (int_max_digits <? _)%nat eqn:E; [done|].
  intros [= <-]. bool_prop. split; [done|].
  destruct (z <? 0) eqn:Ez; bool_prop; simpl; do 2 f_equal; lia.
Qed.

Lemma dec_digits_cons n : 0 <= n -> exists c l, dec_digits n = c :: l /\ 48 <= c <= 57.
Proof.
  intros Hn. destruct (decide (n = 0)) as [->|Hne]; [by exists 48, []|].
  destruct (dec_digits_head n) as (d & l & -> & Hd); [lia|]. exists (48 + d), l. split; [done|lia].
Qed.

(** The first character of a written value. *)
Lemma dumps_head o v t :
  json_ok v = true -> dumps o v = Ok t ->
  exists c r, t = c :: r /\ is_ws c = false /\ c <> 93 /\ c < 128.
Proof.
  intros Hok H. destruct v as [|[]|z| |s|l|d].
  - injection H as <-. by eexists _, _.
  - injection H as <-. by eexists _, _.
  - injection H as <-. by eexists _, _.
  - apply int_repr_text in H as [_ ->].
    destruct (dec_digits_cons (Z.abs z)) as (c & l & -> & Hc); [lia|].
    destruct (z <? 0); [by eexists _, _|]. exists c, l. split_and!; [done| |lia|lia].
    unfold is_ws. rewrite !(proj2 (Z.eqb_neq _ _)) by lia. done.
  - done.
  - injection H as <-. by eexists _, _.
  - rewrite dumps_list in H. destruct (mapM_res _ _); [|done]. injection H as <-. by eexists _, _.
  - rewrite dumps_dict in H. destruct (mapM_res _ _); [|done]. injection H as <-. by eexists _, _.
Qed.

Section roundtrip.
Context (hook : pydict -> res pyval) (pc : spec_float -> res pyval).
(** Both hooks of the program rebuild a dictionary with distinct keys. *)
Context (hook_nodup : forall d, NoDup d.*1 -> hook d = Ok (VDict d)).

(** The text [t] is read as the value [w] at nesting budget [d]. *)
Definition reads (d : nat) (t : pystr) (w : pyval) : Prop :=
  forall rest f, delim rest = true -> (2 * length t < f)%nat ->
    scan_value hook pc f d (t ++ rest) = Ok (w, rest).

Lemma expect_ne c x t : x <> c -> expect c (x :: t) = None.
Proof. intros H. simpl. by rewrite (proj2 (Z.eqb_neq x c)). Qed.

Lemma skip_ws_head c t : is_ws c = false -> skip_ws (c :: t) = c :: t.
Proof. intros H. by apply lstrip_while_id. Qed.

Lemma reads_int d z t : int_repr z = Ok t -> reads d t (VInt z).
Proof.
  intros [Hlen ->]%int_repr_text rest f Hrest Hf. destruct f as [|f]; [lia|].
  rewrite scan_value_S. unfold value_step.
  destruct (dec_digits_cons (Z.abs z)) as (c & l & Hc & Hr); [lia|].
  assert (Hnum : forall neg, scan_number neg (dec_digits (Z.abs z) ++ rest)
                  = Ok (VInt (if neg then - Z.abs z else Z.abs z), rest)).
  { intros neg. apply scan_number_digits; [lia|done|done]. }
  assert (Hsw : forall (p : pystr) (x y : Z) (r : pystr), x <> y -> starts_with (x :: p) (y :: r) = false).
  { intros p x y r H. simpl. by rewrite bool_decide_false. }
  destruct (z <? 0) eqn:Ez; bool_prop.
  - cbn [app]. rewrite !expect_ne by done. unfold scan_atom.
    cbn [u code_of_ascii]. rewrite !(Hsw _ _ 45) by done.
    assert (starts_with (u"-Infinity") (45 :: dec_digits (Z.abs z) ++ rest) = false) as Hi.
    { rewrite Hc. cbn [u app starts_with]. rewrite (bool_decide_false (_ = c)); [|].
      - by rewrite andb_false_r.
      - cbv. lia. }
    cbn [u] in Hi. rewrite Hi. cbn [expect Z.eqb Pos.eqb]. rewrite Hnum. do 3 f_equal. lia.
  - cbn [app]. rewrite Hc. cbn [app]. rewrite !expect_ne by lia. unfold scan_atom.
    cbn [u]. rewrite !(Hsw _ _ c) by (cbv -[Z.le]; lia). rewrite expect_ne by lia.
    rewrite app_comm_cons, <- Hc, Hnum. do 3 f_equal. lia.
Qed.

Lemma reads_str d s : str_ok s = true -> reads d (json_str s) (VStr s).
Proof.
  intros Hs rest f Hrest Hf. destruct f as [|f]; [lia|]. rewrite scan_value_S.
  unfold json_str, value_step. rewrite <- app_assoc. cbn [app expect Z.eqb Pos.eqb].
  by rewrite scan_str_text.
Qed.

Lemma reads_literal d t w :
  (forall rest f, value_step hook pc (scan_members hook pc f) (scan_elements hook pc f) d (t ++ rest)
                  = Ok (w, rest)) -> reads d t w.
Proof.
  intros H rest f Hrest Hf. destruct f as [|f]; [lia|]. rewrite scan_value_S. apply H.
Qed.

Lemma join_cons_length sep p ps :
  (length p <= length (join sep (p :: ps)))%nat.
Proof. destruct ps; simpl; [done|]. rewrite length_app. lia. Qed.

Lemma join_cons2 sep p q ps :
  join sep (p :: q :: ps) = p ++ sep ++ join sep (q :: ps).
Proof. done. Qed.

(** Blanks are passed over. *)
Definition blank (s : pystr) : Prop := Forall (fun c => is_ws c = true) s.

Lemma skip_blank b c t : blank b -> is_ws c = false -> skip_ws (b ++ c :: t) = c :: t.
Proof.
  intros Hb Hc. induction Hb as [|x b Hx _ IH]; [by apply skip_ws_head|].
  cbn [app]. unfold skip_ws in *. cbn [lstrip_while]. by rewrite Hx.
Qed.

Lemma delim_blank b t : blank b -> delim t = true -> delim (b ++ t) = true.
Proof.
  intros Hb Ht. destruct Hb as [|x b Hx _]; [done|]. cbn [app delim]. rewrite Hx. by rewrite !orb_true_r.
Qed.

(** A member with blanks after the colon; [member_text] is the one without. *)
Definition spaced_member (after_colon : pystr) (kt : pystr * pystr) : pystr :=
  json_str (fst kt) ++ 58 :: after_colon ++ snd kt.

(** The elements of a list, from the first one to the closing bracket, with blanks
    after the commas and before the bracket. *)
Lemma scan_elements_text after_comma before d ts ws :
  blank after_comma -> blank before ->
  Forall2 (fun t w => reads d t w /\ exists c r, t = c :: r /\ is_ws c = false) ts ws ->
  ts <> [] ->
  forall acc rest f, (2 * length (join (44%Z :: after_comma) ts) + 1 < f)%nat ->
    scan_elements hook pc f d acc (join (44 :: after_comma) ts ++ before ++ 93 :: rest) =
      Ok (VList (acc ++ ws), rest).
Proof.
  intros Hac Hb Hall. induction Hall as [|t w ts ws [Hr (c & r & Hc & Hw)] Hall IH]; [done|].
  intros _ acc rest f Hf. destruct f as [|f]; [lia|]. rewrite scan_elements_S. unfold elements_step.
  pose proof (join_cons_length (44 :: after_comma) t ts).
  destruct ts as [|t2 ts].
  - inversion Hall; subst ws. cbn [join] in *. rewrite Hr by (by apply delim_blank) || lia.
    rewrite skip_blank by done. by cbn [expect Z.eqb Pos.eqb].
  - rewrite join_cons2 in Hf |- *. rewrite !length_app in Hf. rewrite <- !app_assoc.
    cbn [length] in Hf. rewrite Hr by (done || (cbn [length] in *; lia)).
    cbn [app]. rewrite skip_ws_head by done. cbn [expect Z.eqb Pos.eqb].
    inversion Hall as [|? w2 ? ws2 [_ (c2 & r2 & Hc2 & Hw2)] _]; subst ws t2.
    assert (Hskip : forall k, skip_ws (after_comma ++ join (44 :: after_comma) ((c2 :: r2) :: ts) ++ k)
                         = join (44 :: after_comma) ((c2 :: r2) :: ts) ++ k).
    { intros k. destruct ts; by apply skip_blank. }
    rewrite Hskip, IH by (done || lia). by rewrite <- app_assoc.
Qed.

(** The members of a dictionary, from after the first quote. *)
Lemma scan_members_text after_comma after_colon before d ms kvs :
  blank after_comma -> blank after_colon -> blank before ->
  Forall2 (fun kt kv => fst kt = fst kv /\ str_ok (fst kt) = true /\ reads d (snd kt) (snd kv)
                        /\ exists c r, snd kt = c :: r /\ is_ws c = false) ms kvs ->
  forall acc body rest f,
    join (44 :: after_comma) (map (spaced_member after_colon) ms) = 34 :: body ->
    NoDup (acc ++ kvs).*1 ->
    (2 * length body < f)%nat ->
    scan_members hook pc f d acc (body ++ before ++ 125 :: rest) = Ok (VDict (acc ++ kvs), rest).
Proof.
  intros Hac Hal Hb Hall. induction Hall as [|[k t] [k' w] ms kvs H Hall IH]; [done|].
  cbn [fst snd] in H. destruct H as (<- & Hk & Hr & c & r & Hc & Hw).
  intros acc body rest f Hbody Hnd Hf. destruct f as [|f]; [lia|].
  rewrite scan_members_S. unfold members_step.
  assert (Hstr : forall x, scan_str ((concat (map json_char k) ++ [34]) ++ x) = Some (k, x)).
  { intros x. rewrite <- app_assoc. by apply scan_str_text. }
  assert (Hskip : forall x, skip_ws (after_colon ++ t ++ x) = t ++ x).
  { intros x. subst t. by apply skip_blank. }
  destruct ms as [|[k2 t2] ms].
  - inversion Hall; subst kvs. cbn [map join] in Hbody. unfold spaced_member, json_str in Hbody.
    cbn [app fst snd] in Hbody. injection Hbody as <-.
    rewrite ?length_app in Hf. cbn [length] in Hf. rewrite ?length_app in Hf.
    rewrite <- app_assoc, Hstr. cbn [app]. rewrite <- app_assoc.
    rewrite skip_ws_head by done. cbn [expect Z.eqb Pos.eqb].
    rewrite Hskip, Hr by (by apply delim_blank) || lia. rewrite skip_blank by done. cbn [expect Z.eqb Pos.eqb].
    by rewrite hook_nodup.
  - cbn [map] in Hbody. rewrite join_cons2 in Hbody.
    destruct (join (44 :: after_comma) (spaced_member after_colon (k2, t2) :: map (spaced_member after_colon) ms))
      as [|q body2] eqn:E2.
    { exfalso. apply (f_equal length) in E2. pose proof
        (join_cons_length (44 :: after_comma) (spaced_member after_colon (k2, t2)) (map (spaced_member after_colon) ms)).
      rewrite E2 in H. unfold spaced_member, json_str in H. simpl in H. lia. }
    assert (q = 34) as ->.
    { destruct (map (spaced_member after_colon) ms); unfold spaced_member at 1, json_str in E2; simpl in E2; congruence. }
    unfold spaced_member at 1, json_str in Hbody. cbn [app fst snd] in Hbody.
    injection Hbody as <-. do 3 (rewrite ?length_app in Hf; cbn [length] in Hf).
    do 3 (rewrite <- ?app_assoc; cbn [app]). rewrite scan_str_text by done.
    rewrite skip_ws_head by done. cbn [expect Z.eqb Pos.eqb].
    rewrite Hskip, Hr by (done || (cbn [length] in *; lia)).
    rewrite skip_ws_head by done. cbn [expect Z.eqb Pos.eqb].
    rewrite skip_blank by done. cbn [expect Z.eqb Pos.eqb].
    rewrite (IH _ body2) by (done || lia || by rewrite <- app_assoc). by rewrite <- app_assoc.
Qed.

Lemma nesting_list l d :
  (nesting (VList l) <= d)%nat ->
  exists d', d = S d' /\ Forall (fun x => (nesting x <= d')%nat) l.
Proof.
  simpl. destruct d as [|d']; [lia|]. intros H. exists d'. split; [done|].
  induction l as [|x l IH]; simpl in *; constructor; [lia|]. apply IH. lia.
Qed.

Lemma nesting_dict m d :
  (nesting (VDict m) <= d)%nat ->
  exists d', d = S d' /\ Forall (fun kv => (nesting (snd kv) <= d')%nat) m.
Proof.
  simpl. destruct d as [|d']; [lia|]. intros H. exists d'. split; [done|].
  induction m as [|x m IH]; simpl in *; constructor; [lia|]. apply IH. lia.
Qed.

(** A member as written and as read back. *)
Definition member_reads (d : nat) (kt : pystr * pystr) (kv : pystr * pyval) : Prop :=
  fst kt = fst kv /\ str_ok (fst kt) = true /\ reads d (snd kt) (snd kv)
  /\ exists c r, snd kt = c :: r /\ is_ws c = false.

(** The empty containers. *)
Lemma reads_empty_dict d : reads (S d) (u"{}") (VDict []).
Proof.
  intros rest f _ Hf. destruct f as [|f]; [lia|]. rewrite scan_value_S. unfold value_step.
  change (u"{}") with [123; 125]. cbn [app expect Z.eqb Pos.eqb]. rewrite skip_ws_head by done.
  cbn [expect Z.eqb Pos.eqb]. rewrite (hook_nodup []) by constructor. done.
Qed.

Lemma reads_empty_list d : reads (S d) (u"[]") (VList []).
Proof.
  intros rest f _ Hf. destruct f as [|f]; [lia|]. rewrite scan_value_S. unfold value_step.
  change (u"[]") with [91; 93]. cbn [app expect Z.eqb Pos.eqb]. rewrite skip_ws_head by done. done.
Qed.

(** A dictionary between its braces, with blanks after the opening one. *)
Lemma reads_members_spaced opening after_comma after_colon before d ms kvs :
  blank opening -> blank after_comma -> blank after_colon -> blank before ->
  Forall2 (member_reads d) ms kvs -> ms <> [] -> NoDup kvs.*1 ->
  reads (S d) (123 :: opening ++ join (44 :: after_comma) (map (spaced_member after_colon) ms) ++ before ++ [125])
    (VDict kvs).
Proof.
  intros Ho Hac Hal Hb Hall Hne Hnd rest f Hrest Hf. destruct f as [|f]; [lia|].
  rewrite scan_value_S. unfold value_step. cbn [app expect Z.eqb Pos.eqb]. rewrite <- !app_assoc. cbn [app].
  destruct Hall as [|kt kv ms kvs Hkt Hall]; [done|].
  destruct (join (44 :: after_comma) (map (spaced_member after_colon) (kt :: ms))) as [|q body] eqn:Ej.
  { exfalso. apply (f_equal length) in Ej. cbn [map] in Ej. pose proof
      (join_cons_length (44 :: after_comma) (spaced_member after_colon kt) (map (spaced_member after_colon) ms)).
    rewrite Ej in H. unfold spaced_member, json_str in H. simpl in H. lia. }
  assert (q = 34) as ->.
  { cbn [map] in Ej. destruct (map (spaced_member after_colon) ms);
      unfold spaced_member at 1, json_str in Ej; simpl in Ej; congruence. }
  cbn [app]. rewrite skip_blank by done. cbn [expect Z.eqb Pos.eqb].
  do 3 (cbn [app length] in Hf; rewrite ?length_app in Hf).
  rewrite (scan_members_text after_comma after_colon before d (kt :: ms) (kv :: kvs));
    [done|done|done|done| |done|done|lia]. by constructor.
Qed.

Lemma reads_members d ms kvs :
  Forall2 (member_reads d) ms kvs -> NoDup kvs.*1 ->
  reads (S d) (u"{" ++ join (u",") (map member_text ms) ++ u"}") (VDict kvs).
Proof.
  intros Hall Hnd. destruct (decide (ms = [])) as [->|Hne].
  - inversion Hall; subst. apply reads_empty_dict.
  - apply (reads_members_spaced [] [] [] []); by try constructor.
Qed.

Lemma reads_elements_spaced opening after_comma before d ts ws :
  blank opening -> blank after_comma -> blank before ->
  Forall2 (fun t w => reads d t w
                      /\ exists c r, t = c :: r /\ is_ws c = false /\ c <> 93) ts ws -> ts <> [] ->
  reads (S d) (91 :: opening ++ join (44 :: after_comma) ts ++ before ++ [93]) (VList ws).
Proof.
  intros Ho Hac Hb Hall Hne rest f Hrest Hf. destruct f as [|f]; [lia|].
  rewrite scan_value_S. unfold value_step. cbn [app expect Z.eqb Pos.eqb]. rewrite <- !app_assoc. cbn [app].
  destruct Hall as [|t w ts ws [Ht (c & r & -> & Hw & Hc)] Hall]; [done|].
  assert (skip_ws (opening ++ join (44 :: after_comma) ((c :: r) :: ts) ++ before ++ 93 :: rest)
          = join (44 :: after_comma) ((c :: r) :: ts) ++ before ++ 93 :: rest) as ->.
  { destruct ts; by apply skip_blank. }
  assert (expect 93 (join (44 :: after_comma) ((c :: r) :: ts) ++ before ++ 93 :: rest) = None) as ->.
  { destruct ts; by apply expect_ne. }
  cbn [length] in Hf. rewrite !length_app in Hf. cbn [length] in Hf.
  rewrite (scan_elements_text after_comma before d _ (w :: ws)); [done|done|done| |done|lia].
  constructor; [split; [done|by eauto]|].
  eapply Forall2_impl; [exact Hall|]. intros t' w' [? (c' & r' & ? & ? & ?)]. eauto 6.
Qed.

Lemma reads_elements d ts ws :
  Forall2 (fun t w => reads d t w
                      /\ exists c r, t = c :: r /\ is_ws c = false /\ c <> 93) ts ws ->
  reads (S d) (u"[" ++ join (u",") ts ++ u"]") (VList ws).
Proof.
  intros Hall. destruct (decide (ts = [])) as [->|Hne].
  - inversion Hall; subst. apply reads_empty_list.
  - apply (reads_elements_spaced [] [] []); by try constructor.
Qed.

Lemma map_keys_norm o d :
  (map (fun kv : pystr * pyval => (fst kv, json_norm o (snd kv))) d).*1 = d.*1.
Proof. induction d as [|kv d IH]; [done|]. csimpl. by rewrite IH. Qed.

Lemma dumps_reads o v t d :
  json_ok v = true -> dumps o v = Ok t -> (nesting v <= d)%nat ->
  reads d t (json_norm o v).
Proof.
  revert t d. induction v as [|[]|z| |s|l IH|m IH] using pyval_nested_ind; intros t d Hok Ht Hd.
  - injection Ht as <-. by apply reads_literal.
  - injection Ht as <-. by apply reads_literal.
  - injection Ht as <-. by apply reads_literal.
  - by apply reads_int.
  - done.
  - injection Ht as <-. by apply reads_str.
  - apply nesting_list in Hd as (d' & -> & Hd). rewrite dumps_list in Ht.
    destruct (mapM_res (dumps o) l) as [ts|] eqn:E; [|done]. injection Ht as <-.
    apply mapM_res_Ok in E. apply reads_elements. apply Forall2_map_r.
    cbn [json_ok] in Hok. rewrite forallb_Forall in Hok.
    induction E as [|x t l ts Hx E IHE]; [constructor|].
    rewrite !Forall_cons in IH, Hok, Hd. destruct IH, Hok, Hd. constructor; [|by apply IHE].
    split; [by eauto|]. destruct (dumps_head o x t) as (c & r & ? & ? & ? & ?); eauto 6.
  - apply nesting_dict in Hd as (d' & -> & Hd). rewrite dumps_dict in Ht.
    destruct (mapM_res (dump_member o) m) as [ms|] eqn:E; [|done]. injection Ht as <-.
    apply mapM_res_Ok in E. cbn [json_ok] in Hok. bool_prop.
    apply has_dup_false in H. rewrite forallb_Forall in H0.
    set (m' := map (fun kv : pystr * pyval => (fst kv, json_norm o (snd kv))) m).
    assert (Hms : Forall2 (member_reads d') ms m').
    { apply Forall2_map_r. clear H m'.
      induction E as [|kv kt m ms Hx E IHE]; [constructor|].
      rewrite !Forall_cons in IH, H0, Hd. destruct IH, H0, Hd. bool_prop.
      constructor; [|by apply IHE]. unfold dump_member in Hx.
      destruct (dumps o (snd kv)) as [t|] eqn:Et; [|done]. injection Hx as <-.
      unfold member_reads. cbn [fst snd].
      destruct (dumps_head o (snd kv) t) as (c & r & ? & ? & ? & ?); eauto 8. }
    cbn [json_norm]. fold m'.
    assert (Hnd : NoDup m'.*1) by (unfold m'; by rewrite map_keys_norm).
    destruct (sort_keys o); [|by apply reads_members].
    apply reads_members.
    + apply py_sort_Forall2; [|done]. intros [] [] [] [] (Hf1 & _) (Hf2 & _).
      unfold member_leb. by rewrite Hf1, Hf2.
    + by rewrite py_sort_perm.
Qed.

(** Reading back what was written, with blanks after it, gives the value, keys in
    written order. *)
Lemma loads_dumps_blank o v t depth blank :
  json_ok v = true -> dumps o v = Ok t -> (nesting v <= depth)%nat ->
  delim blank = true -> skip_ws blank = [] ->
  loads hook pc depth (t ++ blank) = Ok (json_norm o v).
Proof.
  intros Hok Ht Hd Hb Hs. unfold loads.
  destruct (dumps_head o v t Hok Ht) as (c & r & -> & Hw & _ & Hc).
  pose proof (dumps_reads o v _ depth Hok Ht Hd blank (S (2 * length (skip_ws ((c :: r) ++ blank))))) as H.
  rewrite <- app_comm_cons in *. rewrite skip_ws_head in * by done.
  rewrite expect_ne by lia. rewrite H; [by rewrite Hs|done|]. cbn [length]. rewrite length_app. lia.
Qed.

Lemma loads_dumps o v t depth :
  json_ok v = true -> dumps o v = Ok t -> (nesting v <= depth)%nat ->
  loads hook pc depth t = Ok (json_norm o v).
Proof. intros Hok Ht Hd. rewrite <- (app_nil_r t). by apply loads_dumps_blank. Qed.
End roundtrip.

(** ** Values that are always written *)

(** Values without floats whose integers have at most [int_max_digits] digits. *)
Fixpoint writable (v : pyval) : bool :=
  match v with
  | VFloat _ => false
  | VInt z => (length (dec_digits (Z.abs z)) <=? int_max_digits)%nat
  | VList l => forallb writable l
  | VDict d => forallb (fun kv => writable (snd kv)) d
  | _ => true
  end.

Lemma dec_of_Z_ascii z : ascii_text (dec_of_Z z).
Proof.
  assert (H : forall n, 0 <= n -> ascii_text (dec_digits n)).
  { intros n Hn. eapply Forall_impl; [by apply dec_digits_digit|]. intros c. unfold is_digit, is_ascii.
    rewrite !andb_true_iff, !Z.leb_le, Z.ltb_lt. lia. }
  unfold dec_of_Z. destruct (z <? 0) eqn:E; bool_prop; [constructor; [done|]|]; apply H; lia.
Qed.

Lemma member_text_ascii kt : ascii_text (snd kt) -> ascii_text (member_text kt).
Proof.
  intros H. unfold member_text. apply Forall_app. split; [apply json_str_ascii|].
  apply Forall_app. split; [by repeat constructor|done].
Qed.

Lemma mapM_res_total {A B} (f : A -> res B) (P : B -> Prop) l :
  Forall (fun x => exists y, f x = Ok y /\ P y) l -> exists ys, mapM_res f l = Ok ys /\ Forall P ys.
Proof.
  induction 1 as [|x l (y & Hy & HP) _ (ys & Hys & HPs)]; [by exists []|].
  exists (y :: ys). cbn [mapM_res]. rewrite Hy, Hys. by split; [|constructor].
Qed.

Lemma dumps_writable o v : writable v = true -> exists t, dumps o v = Ok t /\ ascii_text t.
Proof.
  induction v as [|b|z| |s|l IH|d IH] using pyval_nested_ind; intros Hw.
  - eexists. split; [done|]. by repeat constructor.
  - eexists. split; [done|]. by destruct b; repeat constructor.
  - exists (dec_of_Z z). split; [|apply dec_of_Z_ascii]. cbn [dumps writable] in *. unfold int_repr.
    apply Nat.leb_le in Hw. by rewrite (proj2 (Nat.ltb_ge _ _)).
  - done.
  - eexists. split; [done|]. apply json_str_ascii.
  - cbn [writable] in Hw. rewrite forallb_Forall in Hw.
    destruct (mapM_res_total (dumps o) ascii_text l) as (ts & Hts & Ha).
    { apply Forall_forall. intros x Hx. rewrite Forall_forall in IH, Hw. auto. }
    rewrite dumps_list, Hts. eexists. split; [done|]. constructor; [done|].
    apply Forall_app. split; [|by repeat constructor]. apply join_ascii; [by repeat constructor|done].
  - cbn [writable] in Hw. rewrite forallb_Forall in Hw.
    destruct (mapM_res_total (dump_member o) (fun kt => ascii_text (snd kt)) d) as (ms & Hms & Ha).
    { apply Forall_forall. intros [k x] Hx. rewrite Forall_forall in IH, Hw.
      destruct (IH _ Hx (Hw _ Hx)) as (t & Ht & Hta). exists (k, t). unfold dump_member. cbn [fst snd] in *.
      by rewrite Ht. }
    rewrite dumps_dict, Hms. eexists. split; [done|]. constructor; [done|].
    apply Forall_app. split; [|by repeat constructor]. apply join_ascii; [by repeat constructor|].
    apply Forall_map. assert (Forall (fun kt => ascii_text (snd kt)) (if sort_keys o then py_sort member_leb ms else ms)) as H.
    { destruct (sort_keys o); [|done]. by rewrite py_sort_perm. }
    eapply Forall_impl; [exact H|]. apply member_text_ascii.
Qed.

Lemma str_ok_ascii s : ascii_text s -> str_ok s = true.
Proof.
  unfold ascii_text. induction 1 as [|c s Hc _ IH]; [done|]. cbn [str_ok]. rewrite IH, andb_true_r.
  unfold is_ascii in Hc. bool_prop.
  assert (is_high c = false) as -> by (unfold is_high; apply andb_false_iff; rewrite !Z.leb_gt; lia).
  cbn [andb negb]. rewrite andb_true_r. apply andb_true_iff. rewrite !Z.leb_le. lia.
Qed.
