(* ===== verification/Prog.v ===== *)
(** Programs that talk to a service: a finite tree of calls, each followed by a
    continuation on the answer, and what can be said of all their runs. *)
From S2P Require Export PyVal Codec.

Local Open Scope Z_scope.

(** ** Programs *)

(** [Q] are the calls and [R] the answers. *)
Inductive prog (Q R A : Type) : Type :=
  | Done (r : res A)
  | Call (q : Q) (k : R -> prog Q R A).
Arguments Done {Q R A} r.
Arguments Call {Q R A} q k.

Fixpoint pbind {Q R A B} (m : prog Q R A) (f : A -> prog Q R B) : prog Q R B :=
  match m with
  | Done (Ok a) => f a
  | Done (Err e) => Done (Err e)
  | Call q k => Call q (fun r => pbind (k r) f)
  end.

Notation "'do*' p ':=' m 'in' k" :=
  (pbind m (fun x => match x with p => k end))
  (at level 10, p pattern, m at level 100, k at level 200) : py_scope.

Definition pret {Q R A} (a : A) : prog Q R A := Done (Ok a).
Definition lift {Q R A} (r : res A) : prog Q R A := Done r.

(** A loop over a list, collecting the results. *)
Fixpoint pmap {Q R A B} (f : A -> prog Q R B) (l : list A) : prog Q R (list B) :=
  match l with
  | [] => pret []
  | x :: l' => do* y := f x in do* ys := pmap f l' in pret (y :: ys)
  end.

(** A loop over a list with an accumulator. *)
Fixpoint pfold {Q R A B} (f : B -> A -> prog Q R B) (l : list A) (b : B) : prog Q R B :=
  match l with
  | [] => pret b
  | x :: l' => do* b' := f b x in pfold f l' b'
  end.

(** ** Runs

    A service answers a call and moves to another state; the run also records
    the calls, oldest first. *)
Section run.
Context {Q R S : Type} (serve : S -> Q -> R * S).

Fixpoint run {A} (s : S) (m : prog Q R A) : res A * S * list Q :=
match m with
| Done r => (r, s, [])
| Call q k =>
    let '(r, s') := serve s q in
    let '(a, s'', t) := run s' (k r) in (a, s'', q :: t)
end.

Lemma run_bind {A B} (m : prog Q R A) (f : A -> prog Q R B) s :
run s (pbind m f) =
  let '(r, s1, t) := run s m in
  match r with
  | Ok a => let '(b, s2, t') := run s1 (f a) in (b, s2, t ++ t')
  | Err e => (Err e, s1, t)
  end.
Proof.
revert s. induction m as [[a|e]|q k IH]; intros s; simpl.
- by destruct (run s (f a)) as [[? ?] ?].
- done.
- destruct (serve s q) as [r s']. rewrite IH. destruct (run s' (k r)) as [[[a|e] s1] t]; [|done].
  by destruct (run s1 (f a)) as [[? ?] ?].
Qed.
End run.

(** ** Properties of all calls a program can make, whatever is answered *)

Fixpoint calls {Q R A} (P : Q -> Prop) (m : prog Q R A) : Prop :=
  match m with
  | Done _ => True
  | Call q k => P q /\ forall r, calls P (k r)
  end.

(** All calls satisfy [P], and a result, when there is one, satisfies [T]. *)
Fixpoint ensures {Q R A} (P : Q -> Prop) (T : A -> Prop) (m : prog Q R A) : Prop :=
  match m with
  | Done (Ok a) => T a
  | Done (Err _) => True
  | Call q k => P q /\ forall r, ensures P T (k r)
  end.

Section ensures.
Context {Q R : Type}.
Implicit Types (P : Q -> Prop).

Lemma ensures_calls {A} P T (m : prog Q R A) : ensures P T m -> calls P m.
Proof. induction m as [[a|e]|q k IH]; simpl; naive_solver. Qed.

Lemma calls_ensures {A} P (m : prog Q R A) : calls P m -> ensures P (fun _ => True) m.
Proof. induction m as [[a|e]|q k IH]; simpl; naive_solver. Qed.

Lemma ensures_bind {A B} P (T : A -> Prop) (U : B -> Prop) m (f : A -> prog Q R B) :
ensures P T m -> (forall a, T a -> ensures P U (f a)) -> ensures P U (pbind m f).
Proof.
intros Hm Hf. induction m as [[a|e]|q k IH]; simpl in *; [by apply Hf|done|].
destruct Hm as [Hq Hk]. split; [done|]. intros r. by apply IH.
Qed.

Lemma ensures_weaken {A} P P' (T T' : A -> Prop) (m : prog Q R A) :
(forall q, P q -> P' q) -> (forall a, T a -> T' a) -> ensures P T m -> ensures P' T' m.
Proof. intros HP HT. induction m as [[a|e]|q k IH]; simpl; naive_solver. Qed.

Lemma calls_bind {A B} P m (f : A -> prog Q R B) :
calls P m -> (forall a, calls P (f a)) -> calls P (pbind m f).
Proof.
intros Hm Hf. induction m as [[a|e]|q k IH]; simpl in *; [by apply Hf|done|].
destruct Hm as [Hq Hk]. split; [done|]. intros r. by apply IH.
Qed.

Lemma calls_pmap {A B} P (f : A -> prog Q R B) l :
(forall x, x ∈ l -> calls P (f x)) -> calls P (pmap f l).
Proof.
induction l as [|x l IH]; intros H; [done|]. cbn [pmap].
apply calls_bind; [apply H; by left|]. intros y.
apply calls_bind; [apply IH; intros z Hz; apply H; by right|done].
Qed.

Lemma calls_pfold {A B} P (f : B -> A -> prog Q R B) l b :
(forall b x, x ∈ l -> calls P (f b x)) -> calls P (pfold f l b).
Proof.
revert b. induction l as [|x l IH]; intros b H; [done|]. cbn [pfold].
apply calls_bind; [apply H; by left|]. intros b'. apply IH. intros c z Hz.
apply H. by right.
Qed.

(** What [ensures] says of a run against any service. *)
Lemma ensures_run {A S} (serve : S -> Q -> R * S) P (T : A -> Prop) (m : prog Q R A) s r s' t :
ensures P T m -> run serve s m = (r, s', t) ->
Forall P t /\ forall a, r = Ok a -> T a.
Proof.
revert s r s' t. induction m as [[a|e]|q k IH]; simpl; intros s r s' t.
- intros HT [= <- <- <-]. split; [constructor|]. by intros a' [= <-].
- by intros _ [= <- <- <-].
- intros [Hq Hk]. destruct (serve s q) as [r1 s1].
  destruct (run serve s1 (k r1)) as [[a s2] t'] eqn:E. intros [= <- <- <-].
  destruct (IH r1 _ _ _ _ (Hk r1) E). split; [by constructor|done].
Qed.

Lemma calls_run {A S} (serve : S -> Q -> R * S) P (m : prog Q R A) s r s' t :
calls P m -> run serve s m = (r, s', t) -> Forall P t.
Proof. intros H%calls_ensures Hr. by eapply ensures_run in Hr as [? _]. Qed.
End ensures.

#[export] Hint Resolve calls_bind calls_pmap calls_pfold : py.

(** ** Phases: every call of a first kind comes before any call of a second *)

(** [m] makes its [P] calls first; a failure among them leaves no other call. *)
Lemma run_phases {Q R S A B} (serve : S -> Q -> R * S) P (m : prog Q R A) (f : A -> prog Q R B)
    s r s' t :
  calls P m -> run serve s (pbind m f) = (r, s', t) ->
  exists t1 t2, t = t1 ++ t2 /\ Forall P t1 /\
    (t2 <> [] -> exists a s1, run serve s m = (Ok a, s1, t1)).
Proof.
  intros Hm. rewrite run_bind. destruct (run serve s m) as [[[a|e] s1] t1] eqn:E.
  - destruct (run serve s1 (f a)) as [[b s2] t2]. intros [= <- <- <-].
    exists t1, t2. split_and!; [done|by eapply calls_run|]. intros _. eauto.
  - intros [= <- <- <-]. exists t1, []. rewrite app_nil_r.
    split_and!; [done|by eapply calls_run|done].
Qed.

(** ** Histories

    A history lists the calls already made with their answers, oldest first. The
    relation [reaches m h q]: after the history [h] the program [m] is about to make
    the call [q]. *)
Definition history (Q R : Type) : Type := list (Q * R).

Inductive reaches {Q R A} : prog Q R A -> history Q R -> Q -> Prop :=
  | reaches_now q k : reaches (Call q k) [] q
  | reaches_later q r k h q' : reaches (k r) h q' -> reaches (Call q k) ((q, r) :: h) q'.

(** The program [m], started after the history [h], makes each call [q] after some
    history [h'] with [I h' q], and each of its results satisfies [T]. *)
Fixpoint during {Q R A} (I : history Q R -> Q -> Prop) (T : history Q R -> A -> Prop)
    (h : history Q R) (m : prog Q R A) : Prop :=
  match m with
  | Done (Ok a) => T h a
  | Done (Err _) => True
  | Call q k => I h q /\ forall r, during I T (h ++ [(q, r)]) (k r)
  end.

Section during.
Context {Q R : Type} (I : history Q R -> Q -> Prop).

Lemma during_reaches {A} (T : history Q R -> A -> Prop) h (m : prog Q R A) h' q :
  during I T h m -> reaches m h' q -> I (h ++ h') q.
Proof.
  intros Hd Hr. revert h Hd. induction Hr as [q k|q r k h' q' Hr IH]; intros h [Hq Hk].
  - by rewrite app_nil_r.
  - specialize (IH _ (Hk r)). by rewrite <- app_assoc in IH.
Qed.

Lemma during_bind {A B} (U : history Q R -> A -> Prop) (T : history Q R -> B -> Prop) h m
    (f : A -> prog Q R B) :
  during I U h m -> (forall h' a, U h' a -> during I T h' (f a)) -> during I T h (pbind m f).
Proof.
  revert h. induction m as [[a|e]|q k IH]; intros h Hm Hf; simpl in *; [by apply Hf|done|].
  destruct Hm as [Hq Hk]. split; [done|]. intros r. by apply IH.
Qed.

Lemma during_lift {A B} (T : history Q R -> B -> Prop) h (r : res A) (f : A -> prog Q R B) :
  (forall a, r = Ok a -> during I T h (f a)) -> during I T h (pbind (lift r) f).
Proof. intros H. destruct r as [a|e]; [by apply H|done]. Qed.

Lemma during_assoc {A B C} (T : history Q R -> C -> Prop) h (m : prog Q R A)
    (f : A -> prog Q R B) (g : B -> prog Q R C) :
  during I T h (pbind m (fun a => pbind (f a) g)) -> during I T h (pbind (pbind m f) g).
Proof.
  revert h. induction m as [[a|e]|q k IH]; intros h Hm; [done|done|].
  destruct Hm as [Hq Hk]. split; [done|]. intros r. by apply IH.
Qed.

Lemma during_error {A} (T : history Q R -> A -> Prop) h c msg :
  during I T h (lift (raise c msg)).
Proof. done. Qed.

(** What holds of all calls holds of them after every history that extends the first one. *)
Lemma during_calls {A} P h (m : prog Q R A) :
  calls P m -> (forall h' q, h `prefix_of` h' -> P q -> I h' q) -> during I (fun h' _ => h `prefix_of` h') h m.
Proof.
  intros Hm HI. assert (Hgen : forall h0, h `prefix_of` h0 -> during I (fun h' _ => h `prefix_of` h') h0 m); [|by apply Hgen].
  induction m as [[a|e]|q k IH]; intros h0 Hp; simpl in *; [done|done|].
  destruct Hm as [Hq Hk]. split; [by apply HI|]. intros r. apply IH; [done|]. by apply prefix_app_r.
Qed.

Lemma during_pmap {A B} h (f : A -> prog Q R B) l :
  (forall h' x, h `prefix_of` h' -> during I (fun h'' _ => h' `prefix_of` h'') h' (f x)) ->
  during I (fun h' _ => h `prefix_of` h') h (pmap f l).
Proof.
  intros Hf. assert (Hgen : forall h0, h `prefix_of` h0 -> during I (fun h' _ => h `prefix_of` h') h0 (pmap f l)); [|by apply Hgen].
  induction l as [|x l IH]; intros h0 Hp; [done|]. cbn [pmap].
  eapply during_bind; [by apply Hf|]. intros h1 y H1. cbn beta.
  eapply during_bind; [apply IH; by transitivity h0|]. intros h2 ys H2. exact H2.
Qed.

Lemma during_weaken {A} (T T' : history Q R -> A -> Prop) h (m : prog Q R A) :
  (forall h' a, T h' a -> T' h' a) -> during I T h m -> during I T' h m.
Proof.
  intros HT. revert h. induction m as [[a|e]|q k IH]; intros h; simpl; [apply HT|done|].
  intros [Hq Hk]. split; [done|]. intros r. by apply IH.
Qed.
End during.

(** The calls of a run with their answers. *)
Fixpoint answered {Q R S A} (serve : S -> Q -> R * S) (s : S) (m : prog Q R A) : history Q R :=
  match m with
  | Done _ => []
  | Call q k => let '(r, s') := serve s q in (q, r) :: answered serve s' (k r)
  end.

Lemma answered_calls {Q R S A} (serve : S -> Q -> R * S) s (m : prog Q R A) :
  (answered serve s m).*1 = snd (run serve s m).
Proof.
  revert s. induction m as [o|q k IH]; intros s; [done|]. cbn [answered run].
  destruct (serve s q) as [r s']. rewrite fmap_cons, IH. by destruct (run serve s' (k r)) as [[? ?] ?].
Qed.

Lemma answered_reaches {Q R S A} (serve : S -> Q -> R * S) s (m : prog Q R A) h q r h' :
  answered serve s m = h ++ (q, r) :: h' -> reaches m h q.
Proof.
  revert s h. induction m as [o|q0 k IH]; intros s h; cbn [answered]; [by destruct h|].
  destruct (serve s q0) as [r0 s'] eqn:E. destruct h as [|[q1 r1] h]; cbn [app]; intros He.
  - injection He as -> _ _. constructor.
  - injection He as <- <- He. constructor. by eapply IH.
Qed.

(** ** URLs *)

(** [urllib.parse.quote(s, safe="")] *)
Definition is_unreserved (c : Z) : bool :=
  is_alnum c || (c =? 95) || (c =? 46) || (c =? 45) || (c =? 126).
Definition hex_upper (n : Z) : Z := if n <? 10 then 48 + n else 55 + n.
Definition quote_byte (b : Byte.byte) : pystr :=
  let z := Z_of_byte b in
  if is_unreserved z then [z] else [37; hex_upper (z / 16); hex_upper (z mod 16)].
Definition quote (s : pystr) : res pystr :=
  match utf8_encode s with
  | Some b => Ok (concat (map quote_byte b))
  | None => raise UnicodeError "surrogates not allowed"
  end.

(** [urllib.parse.urlencode] of string pairs: [quote_plus] writes spaces as [+]. *)
Definition quote_plus_byte (b : Byte.byte) : pystr :=
  if Z_of_byte b =? 32 then [43] else quote_byte b.
Definition quote_plus (s : pystr) : res pystr :=
  match utf8_encode s with
  | Some b => Ok (concat (map quote_plus_byte b))
  | None => raise UnicodeError "surrogates not allowed"
  end.

Lemma hex_upper_alnum n : 0 <= n < 16 -> is_alnum (hex_upper n) = true.
Proof.
  intros Hn. unfold hex_upper, is_alnum, is_digit, is_upper, is_lower.
  rewrite !orb_true_iff, !andb_true_iff, !Z.leb_le. case_match; bool_prop; lia.
Qed.

(** A quoted string stays within one segment of a path. *)
Definition is_segment_char (c : Z) : bool := is_unreserved c || (c =? 37).

Lemma quote_byte_segment x : Forall (fun c => is_segment_char c = true) (quote_byte x).
Proof.
  unfold quote_byte, is_segment_char. pose proof (Z_of_byte_range x).
  destruct (is_unreserved (Z_of_byte x)) eqn:E; [constructor; [by rewrite E|constructor]|].
  constructor; [done|]. unfold is_unreserved.
  constructor; [rewrite hex_upper_alnum; [done|zdm]|].
  constructor; [rewrite hex_upper_alnum; [done|zdm]|constructor].
Qed.

Lemma quote_segment s t : quote s = Ok t -> Forall (fun c => is_segment_char c = true) t.
Proof.
  unfold quote. destruct (utf8_encode s) as [b|]; [|done]. intros H%Ok_inj. subst t.
  induction b as [|x b IH]; [constructor|]. cbn [map concat]. apply Forall_app. split; [apply quote_byte_segment|done].
Qed.
