(* ===== verification/Http.v ===== *)
(** HTTP messages as the two services see them: header lists with
    case-insensitive names ([email.message.Message]), requests that reached a
    [BaseHTTPRequestHandler], and responses; the TLS library is an interface. *)
From S2P Require Export Sha256 Json.

Local Open Scope Z_scope.

(** ** Headers *)

Definition headers := list (pystr * pystr).

Definition header_is (name : pystr) (h : pystr * pystr) : bool :=
  bool_decide (py_lower (fst h) = py_lower name).

Fixpoint header_values (hs : headers) (name : pystr) : list pystr :=
  match hs with
  | [] => []
  | h :: hs' => if header_is name h then snd h :: header_values hs' name else header_values hs' name
  end.

(** [headers.get_all(name)], [None] when the header is absent. *)
Definition get_all (hs : headers) (name : pystr) : option (list pystr) :=
  match header_values hs name with [] => None | vs => Some vs end.

(** [headers.get_all(name, default)] *)
Definition get_all_or (hs : headers) (name : pystr) (default : list pystr) : list pystr :=
  match get_all hs name with Some vs => vs | None => default end.

(** [headers.get(name)]: the first occurrence. *)
Definition get_header (hs : headers) (name : pystr) : option pystr :=
  head (header_values hs name).

Lemma get_all_Some hs name vs : get_all hs name = Some vs <-> header_values hs name = vs /\ vs <> [].
Proof. unfold get_all. destruct (header_values hs name); naive_solver. Qed.

Lemma get_all_None hs name : get_all hs name = None <-> header_values hs name = [].
Proof. unfold get_all. destruct (header_values hs name); naive_solver. Qed.

Lemma get_all_singleton hs name v : get_all hs name = Some [v] <-> header_values hs name = [v].
Proof. rewrite get_all_Some. naive_solver. Qed.

Lemma get_all_or_nil hs name : get_all_or hs name [] = header_values hs name.
Proof. unfold get_all_or, get_all. by destruct (header_values hs name). Qed.

Lemma header_values_app hs ks name :
  header_values (hs ++ ks) name = header_values hs name ++ header_values ks name.
Proof. induction hs as [|h hs IH]; simpl; [done|]. case_match; [|done]. by rewrite IH. Qed.

Lemma header_values_miss n v hs name :
  py_lower n <> py_lower name -> header_values ((n, v) :: hs) name = header_values hs name.
Proof. intros H. simpl. unfold header_is. simpl. by rewrite bool_decide_false. Qed.

Lemma header_values_hit n v hs name :
  py_lower n = py_lower name -> header_values ((n, v) :: hs) name = v :: header_values hs name.
Proof. intros H. simpl. unfold header_is. simpl. by rewrite bool_decide_true. Qed.

(** ** Responses *)

Record response := Response { status : Z; resp_headers : headers; resp_body : pystr }.

(** [len(data)] of a body: [json.dumps] writes ASCII, one byte a character. *)
Definition content_length (body : pystr) : pystr := dec_of_Z (Z.of_nat (length body)).

(** ** TLS peers and certificates

    What the [cryptography] package computes from certificate bytes. *)
Class X509 := {
  cert : Type;
  load_der_x509_certificate : bytes -> res cert;
  load_pem_x509_certificate : bytes -> res cert;
  (** [certificate.subject.get_attributes_for_oid(NameOID.COMMON_NAME)], the
      values of the attributes *)
  common_names : cert -> res (list pystr);
  (** [certificate.extensions.get_extension_for_class(ExtendedKeyUsage).value],
      as dotted OIDs *)
  extended_key_usage : cert -> res (list pystr);
  (** [certificate.public_bytes(Encoding.DER)] *)
  public_bytes_der : cert -> bytes
}.

(** What the documentation of the package promises: operations fail with Python
    exceptions, and a certificate written in DER is read back as itself. *)
Class X509Laws (X : X509) : Prop := {
  load_der_exn : forall b, python_exn (load_der_x509_certificate b);
  load_pem_exn : forall b, python_exn (load_pem_x509_certificate b);
  common_names_exn : forall c, python_exn (common_names c);
  extended_key_usage_exn : forall c, python_exn (extended_key_usage c);
  load_der_public_bytes : forall c, load_der_x509_certificate (public_bytes_der c) = Ok c;
  public_bytes_der_nonempty : forall c, public_bytes_der c <> []
}.

#[export] Hint Resolve load_der_exn load_pem_exn common_names_exn extended_key_usage_exn : py.

(** ** Writing flat documents *)

(** Values that [json.dumps] always writes. *)
Definition flat (v : pyval) : bool :=
  match v with VNone | VBool _ | VStr _ => true | _ => false end.

Lemma dumps_flat o v : flat v = true -> exists t, dumps o v = Ok t.
Proof. destruct v; try done; simpl; eauto. Qed.

Lemma dumps_flat_dict o d :
  forallb (fun kv => flat (snd kv)) d = true -> exists t, dumps o (VDict d) = Ok t.
Proof.
  intros H. rewrite dumps_dict.
  assert (exists ms, mapM_res (dump_member o) d = Ok ms) as [ms ->]; [|by eexists].
  rewrite forallb_Forall in H. induction H as [|[k v] d Hv _ [ms IH]]; [by exists []|].
  destruct (dumps_flat o v Hv) as [t Ht]. exists ((k, t) :: ms).
  cbn [mapM_res]. unfold dump_member at 1. cbn [fst snd]. by rewrite Ht, IH.
Qed.

(** The text of a flat value, and of a document of flat values. *)
Definition flat_text (v : pyval) : pystr :=
  match v with
  | VBool true => u"true" | VBool false => u"false" | VStr s => json_str s | _ => u"null"
  end.

Lemma dumps_flat_text o v : flat v = true -> dumps o v = Ok (flat_text v).
Proof. by destruct v as [|[]| | | | |]. Qed.

Lemma flat_text_ascii v : ascii_text (flat_text v).
Proof. destruct v as [|[]| | | | |]; try (by repeat constructor). apply json_str_ascii. Qed.

Lemma dumps_flat_doc o d :
  forallb (fun kv => flat (snd kv)) d = true -> sort_keys o = false ->
  dumps o (VDict d) =
    Ok (u"{" ++ join (u",") (map (fun kv => member_text (fst kv, flat_text (snd kv))) d) ++ u"}").
Proof.
  intros H Ho. rewrite dumps_dict, Ho.
  assert (mapM_res (dump_member o) d = Ok (map (fun kv => (fst kv, flat_text (snd kv))) d)) as ->.
  { rewrite forallb_Forall in H. induction H as [|[k v] d Hv _ IH]; [done|].
    cbn [mapM_res map fst snd]. unfold dump_member at 1. cbn [fst snd].
    by rewrite dumps_flat_text, IH. }
  by rewrite map_map.
Qed.

Lemma dumps_flat_doc_ascii o d t :
  forallb (fun kv => flat (snd kv)) d = true -> sort_keys o = false ->
  dumps o (VDict d) = Ok t -> ascii_text t.
Proof.
  intros H Ho. rewrite dumps_flat_doc by done. intros [= <-].
  constructor; [done|]. apply Forall_app. split; [|by repeat constructor].
  apply join_ascii; [by repeat constructor|]. apply Forall_fmap, Forall_forall. intros kv _.
  apply member_text_ascii, flat_text_ascii.
Qed.
