(* ===== verification/Url.v ===== *)
(** URL splitting: [urllib.parse.urlsplit] and the [hostname], [port] and user
    information of its result, as the scripts use them.  The Unicode tables of
    the standard library (normalisation and lower case) are an interface; every
    ASCII address is handled without them. *)
From S2P Require Export Codec Json.

Local Open Scope Z_scope.

(** ** The Unicode tables *)

(** [unicodedata.normalize("NFKC", s)] and [s.lower()]. *)
Class Unicode := { nfkc : pystr -> pystr; uni_lower : pystr -> pystr }.

Definition ascii_str (s : pystr) : bool := forallb is_ascii s.

Class UnicodeLaws `{Unicode} := {
  uni_lower_ascii s : ascii_str s = true -> uni_lower s = py_lower s
}.

(** ** More splitting *)

(** [s.rpartition(c)]: the parts are the empty ones and [s] when [c] is absent. *)
Fixpoint rpartition_on (c : Z) (s : pystr) : pystr * pystr * pystr :=
  match s with
  | [] => ([], [], [])
  | x :: s' =>
      match rpartition_on c s' with
      | (a, [], r) => if x =? c then ([], [c], r) else ([], [], x :: r)
      | (a, sep, r) => (x :: a, sep, r)
      end
  end.

(** [s.split(c)] *)
Fixpoint split_on (c : Z) (s : pystr) : list pystr :=
  match s with
  | [] => [[]]
  | x :: s' =>
      if x =? c then [] :: split_on c s'
      else match split_on c s' with p :: ps => (x :: p) :: ps | [] => [[x]] end
  end.

(** The longest prefix without a stop character, and the rest. *)
Fixpoint span_until (stop : Z -> bool) (s : pystr) : pystr * pystr :=
  match s with
  | [] => ([], [])
  | x :: s' =>
      if stop x then ([], s) else let '(a, r) := span_until stop s' in (x :: a, r)
  end.

Definition has_char (c : Z) (s : pystr) : bool := existsb (Z.eqb c) s.

(** ** Addresses in brackets: [ipaddress.ip_address] and [IPvFuture] *)

(** One octet of [ipaddress.IPv4Address]. *)
Definition octet_ok (o : pystr) : bool :=
  match o with
  | [] => false
  | [c] => is_digit c
  | c :: _ => forallb is_digit o && (length o <=? 3)%nat && negb (c =? 48)
              && (digits_value o <=? 255)
  end.
Definition ipv4_ok (s : pystr) : bool :=
  let octets := split_on 46 s in (length octets =? 4)%nat && forallb octet_ok octets.

Definition hextet_ok (h : pystr) : bool := forallb is_hex h && (length h <=? 4)%nat.

(** The positions of the empty parts strictly inside the list. *)
Definition inner_gaps (parts : list pystr) : list nat :=
  List.filter (fun i => match parts !! i with Some [] => true | _ => false end)
    (seq 1 (length parts - 2)).

Definition all_empty (l : list pystr) : bool := forallb (fun p => bool_decide (p = [])) l.

(** The hextets on one side of a double colon; the outermost one may be empty
    only when it is alone. *)
Definition side_ok (outer : pystr) (n : nat) : bool :=
  negb (bool_decide (outer = [])) || (n =? 1)%nat.

Definition ipv6_parts_ok (parts : list pystr) : bool :=
  let n := length parts in
  let first := default [] (head parts) in
  let final := default [] (last parts) in
  (n <=? 9)%nat &&
  match inner_gaps parts with
  | [] => (n =? 8)%nat && negb (bool_decide (first = [])) && negb (bool_decide (final = []))
          && forallb hextet_ok parts
  | [i] =>
      let hi := if bool_decide (first = []) then (i - 1)%nat else i in
      let lo := if bool_decide (final = []) then (n - i - 2)%nat else (n - i - 1)%nat in
      side_ok first i && side_ok final (n - i - 1) && (hi + lo <=? 7)%nat
      && forallb hextet_ok parts
  | _ => false
  end.

(** [ipaddress.IPv6Address(s)] succeeds. *)
Definition ipv6_ok (s : pystr) : bool :=
  let '(addr, sep, scope) := partition_on 37 s in
  let scope_ok := match sep with
                  | [] => true
                  | _ => negb (bool_decide (scope = [])) && negb (has_char 37 scope)
                  end in
  let parts := split_on 58 addr in
  let final := default [] (last parts) in
  negb (has_char 47 s) && scope_ok && negb (bool_decide (addr = []))
  && (3 <=? length parts)%nat
  && if has_char 46 final
     then ipv4_ok final && ipv6_parts_ok (removelast parts ++ [u"0"; u"0"])
     else ipv6_parts_ok parts.

(** [re.match(r"\Av[a-fA-F0-9]+\..+\z", s)] for a text that starts with [v]. *)
Definition ipvfuture_ok (s : pystr) : bool :=
  let '(version, sep, rest) := partition_on 46 (drop 1 s) in
  negb (bool_decide (version = [])) && forallb is_hex version
  && negb (bool_decide (sep = [])) && negb (bool_decide (rest = [])) && negb (has_char 10 rest).

Definition bracketed_host_ok (host : pystr) : bool :=
  if starts_with (u"v") host then ipvfuture_ok host else ipv6_ok host.

(** ** [urlsplit] *)

Record split_result := SplitResult {
  scheme : pystr; netloc : pystr; path : pystr; query : pystr; fragment : pystr
}.

Definition is_alpha (c : Z) : bool := is_upper c || is_lower c.
Definition is_scheme_char (c : Z) : bool :=
  is_alnum c || (c =? 43) || (c =? 45) || (c =? 46).

Definition split_scheme (url : pystr) : pystr * pystr :=
  match partition_on 58 url with
  | (c :: a, _ :: _, r) =>
      if is_alpha c && forallb is_scheme_char (c :: a) then (py_lower (c :: a), r) else ([], url)
  | _ => ([], url)
  end.

Definition is_netloc_end (c : Z) : bool := (c =? 47) || (c =? 63) || (c =? 35).

(** [_check_bracketed_netloc] *)
Definition bracketed_netloc_ok (netloc : pystr) : bool :=
  let '(_, _, host_port) := rpartition_on 64 netloc in
  match partition_on 91 host_port with
  | (before, _ :: _, bracketed) =>
      let '(host, _, port) := partition_on 93 bracketed in
      bool_decide (before = [])
      && (bool_decide (port = []) || starts_with (u":") port) && bracketed_host_ok host
  | (_, [], _) => let '(host, _, _) := partition_on 58 host_port in bracketed_host_ok host
  end.

Definition brackets_ok (netloc : pystr) : bool :=
  Bool.eqb (has_char 91 netloc) (has_char 93 netloc)
  && (negb (has_char 91 netloc) || bracketed_netloc_ok netloc).

(** [_checknetloc] *)
Definition netloc_chars_ok `{Unicode} (netloc : pystr) : bool :=
  ascii_str netloc ||
  let n := List.filter (fun c => negb ((c =? 64) || (c =? 58) || (c =? 35) || (c =? 63))) netloc in
  let n2 := nfkc n in
  bool_decide (n = n2)
  || negb (existsb (fun c => is_netloc_end c || (c =? 64) || (c =? 58)) n2).

Definition is_c0_or_space (c : Z) : bool := (0 <=? c) && (c <=? 32).
Definition is_unsafe_url_char (c : Z) : bool := (c =? 9) || (c =? 13) || (c =? 10).

(** The text that is split: without leading blanks and without line breaks and tabs. *)
Definition clean_url (url : pystr) : pystr :=
  List.filter (fun c => negb (is_unsafe_url_char c)) (lstrip_while is_c0_or_space url).

Definition split_netloc (url : pystr) : pystr * pystr :=
  if starts_with (u"//") url then span_until is_netloc_end (drop 2 url) else ([], url).

Definition urlsplit `{Unicode} (url : pystr) : res split_result :=
  let '(scheme, url) := split_scheme (clean_url url) in
  let '(netloc, url) := split_netloc url in
  if negb (brackets_ok netloc) then raise ValueError "Invalid IPv6 URL"
  else
    let '(url, _, fragment) := partition_on 35 url in
    let '(url, _, query) := partition_on 63 url in
    if negb (netloc_chars_ok netloc)
    then raise ValueError "netloc contains invalid characters under NFKC normalization"
    else Ok (SplitResult scheme netloc url query fragment).

(** ** The parts of the network location *)

(** [username] and [password] *)
Definition userinfo (p : split_result) : option pystr * option pystr :=
  match rpartition_on 64 (netloc p) with
  | (info, _ :: _, _) =>
      match partition_on 58 info with
      | (user, _ :: _, password) => (Some user, Some password)
      | (user, [], _) => (Some user, None)
      end
  | _ => (None, None)
  end.

(** Host and port texts; a port may be empty. *)
Definition hostinfo (p : split_result) : pystr * pystr :=
  let '(_, _, info) := rpartition_on 64 (netloc p) in
  match partition_on 91 info with
  | (_, _ :: _, bracketed) =>
      let '(host, _, port) := partition_on 93 bracketed in
      let '(_, _, port) := partition_on 58 port in (host, port)
  | (_, [], _) => let '(host, _, port) := partition_on 58 info in (host, port)
  end.

(** The zone of a scoped address keeps its case. *)
Definition lower_host `{Unicode} (host : pystr) : pystr :=
  let '(name, percent, zone) := partition_on 37 host in uni_lower name ++ percent ++ zone.

Definition hostname `{Unicode} (p : split_result) : option pystr :=
  match fst (hostinfo p) with
  | [] => None
  | host => Some (lower_host host)
  end.

Definition port (p : split_result) : res (option Z) :=
  match snd (hostinfo p) with
  | [] => Ok None
  | text =>
      if forallb is_digit text
      then let* n := int_of_digits text in
           if n <=? 65535 then Ok (Some n) else raise ValueError "Port out of range 0-65535"
      else raise ValueError "Port could not be cast to integer value"
  end.

(** ** Lemmas *)

Lemma has_char_true c s : has_char c s = true <-> c ∈ s.
Proof.
  unfold has_char. rewrite existsb_exists. setoid_rewrite Z.eqb_eq.
  setoid_rewrite <- list_elem_of_In. naive_solver.
Qed.

Lemma has_char_false c s : has_char c s = false <-> c ∉ s.
Proof. rewrite <- not_true_iff_false, has_char_true. done. Qed.

Lemma rpartition_on_absent c s : c ∉ s -> rpartition_on c s = ([], [], s).
Proof.
  induction s as [|x s IH]; [done|]. rewrite not_elem_of_cons. intros [Hne Hn]. cbn.
  rewrite IH by done. by rewrite (proj2 (Z.eqb_neq x c)) by congruence.
Qed.

Lemma rpartition_on_present c s :
  c ∈ s -> exists a r, rpartition_on c s = (a, [c], r).
Proof.
  induction s as [|x s IH]; [by intros ?%elem_of_nil|]. intros Hin. cbn [rpartition_on].
  destruct (decide (c ∈ s)) as [Hs|Hs].
  - destruct (IH Hs) as (a & r & ->). by eauto.
  - rewrite rpartition_on_absent by done. apply elem_of_cons in Hin as [->|Hin]; [|done].
    rewrite Z.eqb_refl. eauto.
Qed.

Lemma partition_on_cases c s :
  ((c ∉ s) /\ partition_on c s = (s, [], [])) \/
  (exists a r, s = (a ++ (c :: r)) /\ (c ∉ a) /\ partition_on c s = (a, [c], r)).
Proof.
  induction s as [|x s IH]; [left; split; [apply not_elem_of_nil|done]|]. cbn [partition_on].
  destruct (x =? c) eqn:E; bool_prop.
  - subst x. right. exists [], s. split_and!; [done|apply not_elem_of_nil|done].
  - destruct IH as [[Hn ->]|(a & r & -> & Hn & ->)]; [left|right; exists (x :: a), r];
      rewrite not_elem_of_cons; split_and!; first [done | by intros ->].
Qed.

Lemma partition_on_join c s a sep r :
  partition_on c s = (a, sep, r) ->
  s = a ++ sep ++ r /\ sep ∈ [[]; [c]] /\ (c ∉ a) /\ (sep = [] -> r = []).
Proof.
  destruct (partition_on_cases c s) as [[Hn ->]|(a' & r' & -> & Hn & ->)]; intros [= <- <- <-].
  - rewrite app_nil_r. split_and!; [done|by left|done|done].
  - split_and!; [done|by right; left|done|done].
Qed.

Lemma span_until_app stop a r :
  Forall (fun c => stop c = false) a ->
  match r with [] => True | c :: _ => stop c = true end ->
  span_until stop (a ++ r) = (a, r).
Proof.
  intros Ha Hr. induction Ha as [|x a Hx Ha IH]; simpl.
  - destruct r as [|c r]; simpl; [done|]. by rewrite Hr.
  - by rewrite Hx, IH.
Qed.

Lemma span_until_spec stop s a r :
  span_until stop s = (a, r) ->
  s = a ++ r /\ Forall (fun c => stop c = false) a /\
  match r with [] => True | c :: _ => stop c = true end.
Proof.
  revert a. induction s as [|x s IH]; intros a; cbn; [by intros [= <- <-]|].
  destruct (stop x) eqn:E; [by intros [= <- <-]|].
  destruct (span_until stop s) as [a' r'] eqn:E'. intros [= <- <-].
  destruct (IH _ eq_refl) as (-> & Ha & Hr). split_and!; [done|by constructor|done].
Qed.

(** ** Examples *)

Section examples.
#[local] Instance ascii_unicode : Unicode := {| nfkc := fun s => s; uni_lower := py_lower |}.

Definition parts_of (s : pystr) : res (pystr * option pystr * option Z) :=
let* p := urlsplit s in
let* n := port p in Ok (scheme p, hostname p, n).

Example urlsplit_host :
parts_of (u"HTTPS://Abc.example:443/x?y#z") = Ok (u"https", Some (u"abc.example"), Some 443).
Proof. vm_compute. reflexivity. Qed.

Example urlsplit_v6 :
parts_of (u"https://[::FFFF:1.2.3.4%eN0]:8443") =
  Ok (u"https", Some (u"::ffff:1.2.3.4%eN0"), Some 8443) /\
is_ok (parts_of (u"https://[1:2:3:4:5:6:7:8]")) = true /\
is_ok (parts_of (u"https://[1::2::3]")) = false /\
is_ok (parts_of (u"https://[1.2.3.4]")) = false /\
is_ok (parts_of (u"https://[v1.x]")) = true /\
is_ok (parts_of (u"https://[::1]x")) = false.
Proof. vm_compute. auto 6. Qed.
End examples.
