(* ===== verification/PopVerifier.v ===== *)
(** The upstream verifier, [src/pop-verifier/app.py]: the operations of the
    request handler, from the TLS peer check to the evidence document.  The
    certificate library is the interface [X509] of [Http], the token library the
    interface [PyJWT] below. *)
From S2P Require Export Http.

Local Open Scope Z_scope.

(** ** Configuration, read from the environment when the module is loaded *)

Record config := Config {
  ISSUER : pystr; AUDIENCE : pystr; JWKS_URL : pystr;
  REQUIRED_SCOPES : list pystr; ALLOWED_ALGORITHMS : list pystr
}.

Definition environ_get (env : list (pystr * pystr)) (k d : pystr) : pystr :=
  match alookup k env with Some v => v | None => d end.

Definition load_config (env : list (pystr * pystr)) : res config :=
  let issuer := environ_get env (u"OIDC_ISSUER") (u"https://localhost:8444/realms/fapi-demo") in
  let audience := environ_get env (u"OIDC_AUDIENCE") (u"fapi-demo-api") in
  if negb (bool_decide (audience = u"fapi-demo-api"))
  then raise RuntimeError "OIDC_AUDIENCE must be fapi-demo-api"
  else
    let jwks := environ_get env (u"OIDC_JWKS_URL")
                  (u"https://keycloak:8443/realms/fapi-demo/protocol/openid-connect/certs") in
    let scopes := remove_dups (py_split_ws (environ_get env (u"OIDC_REQUIRED_SCOPES") (u"openid"))) in
    if negb (bool_decide (u"openid" ∈ scopes))
    then raise RuntimeError "OIDC_REQUIRED_SCOPES must include openid"
    else
      let algorithms := py_split_ws (environ_get env (u"OIDC_ALLOWED_ALGORITHMS") (u"PS256")) in
      if negb (bool_decide (algorithms = [u"PS256"]))
      then raise RuntimeError "OIDC_ALLOWED_ALGORITHMS must be PS256 only"
      else Ok (Config issuer audience jwks scopes algorithms).

Definition API_UPSTREAM_COMMON_NAME : pystr := u"api-gateway-upstream".
Definition DEPARTMENT_CLAIM : pystr := u"https://fapi-demo.example.com/department".
Definition ROUTE_CLAIM : pystr := u"https://fapi-demo.example.com/route".
Definition AZP_ROUTES : list (pystr * (pystr * pystr)) :=
  [(u"third-party-fapi-mtls", (u"route-a", u"tls_client_auth"));
   (u"third-party-fapi-pkj-mtls", (u"route-b", u"private_key_jwt"))].
Definition MAX_FORWARDED_CERT_HEADER_BYTES : Z := 24 * 1024.
Definition PEM_CERTIFICATE_BEGIN : bytes := bs"-----BEGIN CERTIFICATE-----".
Definition PEM_CERTIFICATE_END : bytes := bs"-----END CERTIFICATE-----".
(** [ExtendedKeyUsageOID.CLIENT_AUTH] *)
Definition CLIENT_AUTH : pystr := u"1.3.6.1.5.5.7.3.2".

(** What the [jwt] package computes: the signing key of a token from the key set
    at a URL, and the claims of a token whose signature and registered claims
    are valid for the options. *)
Record decode_options := DecodeOptions {
  algorithms : list pystr; audience : pystr; issuer : pystr;
  require : list pystr; verify_nbf : bool
}.

Class PyJWT := {
  jwk : Type;
  get_signing_key_from_jwt : pystr -> pystr -> res jwk;
  jwt_decode : pystr -> jwk -> decode_options -> res pydict
}.

(** ** Pure helpers *)

Definition base64url_sha256 (value : bytes) : pystr := b64url_nopad (sha256 value).

Definition constant_time_text_equal (left right : pyval) : bool :=
  match left, right with
  | VStr l, VStr r =>
      match utf8_encode l, utf8_encode r with
      | Some bl, Some br => bool_decide (bl = br)
      | _, _ => false
      end
  | _, _ => false
  end.

Definition bearer_token (hs : headers) : option pystr :=
  let authorization :=
    match get_all hs (u"Authorization") with
    | Some [v] => Some v
    | Some _ => None
    | None => Some (match get_header hs (u"Authorization") with Some v => v | None => [] end)
    end in
  match authorization with
  | None => None
  | Some a =>
      let '(scheme, separator, value) := partition_on 32 a in
      if negb (bool_decide (separator = [])) && bool_decide (py_lower scheme = u"bearer")
         && negb (bool_decide (value = [])) && negb (bool_decide (32 ∈ value))
      then Some value else None
  end.

Definition safe_evidence_text (value : pyval) : pyval :=
  match value with
  | VStr s => if (length s <=? 256)%nat then value else VNone
  | _ => VNone
  end.

(** A header as a Python value, [None] when absent. *)
Definition header_value (hs : headers) (name : pystr) : pyval :=
  match get_header hs name with Some v => VStr v | None => VNone end.

Definition routing_evidence (hs : headers) (claims : pydict) : pydict :=
  let department := safe_evidence_text (dict_get claims DEPARTMENT_CLAIM) in
  let logical_route := safe_evidence_text (dict_get claims ROUTE_CLAIM) in
  let department_header := safe_evidence_text (header_value hs (u"X-Demo-Department")) in
  let logical_route_header := safe_evidence_text (header_value hs (u"X-Demo-Route")) in
  let header_claims_match :=
    forallb py_truthy [department; logical_route; department_header; logical_route_header]
    && forallb (fun p => constant_time_text_equal (fst p) (snd p))
         [(department, department_header); (logical_route, logical_route_header)] in
  [(u"department", department); (u"logical_route", logical_route);
   (u"department_header", department_header); (u"logical_route_header", logical_route_header);
   (u"header_claims_match", VBool header_claims_match)].

(** [AZP_ROUTES[azp]] *)
Definition azp_item (azp : pyval) : res (pystr * pystr) :=
  match azp with
  | VStr s => res_of_option (Exn KeyError s) (alookup s AZP_ROUTES)
  | VList _ | VDict _ => raise TypeError "unhashable type"
  | _ => raise KeyError "azp"
  end.

(** [d.update(e)] *)
Definition dict_update (d e : pydict) : pydict :=
  fold_left (fun d kv => ainsert (fst kv) (snd kv) d) e d.

Definition build_evidence (hs : headers) (claims : pydict)
    (token_thumbprint forwarded_thumbprint tls_peer_thumbprint : pystr) : res pydict :=
  let* azp := dict_item claims (u"azp") in
  let* (route, client_authentication) := azp_item azp in
  Ok (dict_update
        [(u"azp", azp); (u"route", VStr route);
         (u"client_authentication", VStr client_authentication);
         (u"token_certificate_thumbprint", VStr token_thumbprint);
         (u"forwarded_client_certificate_thumbprint", VStr forwarded_thumbprint);
         (u"api_gateway_tls_peer_certificate_thumbprint", VStr tls_peer_thumbprint);
         (u"token_signature_verified", VBool true);
         (u"binding_verified", VBool true)]
        (routing_evidence hs claims)).

(** ** Responses *)

Definition dump_default : dump_opts := {| sort_keys := false; allow_nan := true |}.

Definition json_response (code : Z) (body : pyval) (extra_headers : headers) : res response :=
  let* data := dumps dump_default body in
  Ok (Response code
        ([(u"Content-Type", u"application/json"); (u"Cache-Control", u"no-store");
          (u"Content-Length", content_length data)] ++ extra_headers) data).

Definition bearer_challenge : pystr :=
  u"Bearer error=" ++ [dquote] ++ u"invalid_token" ++ [dquote].

Definition invalid_token (reason : pystr) : res response :=
  json_response 401 (VDict [(u"error", jstr "invalid_token"); (u"reason", VStr reason)])
    [(u"WWW-Authenticate", bearer_challenge)].

(** ** Checks that use certificates and tokens *)

Section verifier.
Context `{X : X509} `{J : PyJWT}.

Definition certificate_common_name (certificate : cert) : res pystr :=
  let* values := common_names certificate in
  match values with
  | [value] => Ok value
  | _ => raise TokenValidationError "untrusted API Gateway peer"
  end.

(** [contents] is the outcome of reading the file. *)
Definition load_pinned_gateway_certificate (contents : res bytes) : res bytes :=
  match (let* pem := contents in
         let* certificate := load_pem_x509_certificate pem in
         let* common_name := certificate_common_name certificate in
         let* usages := extended_key_usage certificate in
         Ok (certificate, common_name, usages)) with
  | Err e =>
      if existsb (is_a (exn_cls e)) [OSError; ValueError; ExtensionNotFound; TokenValidationError]
      then raise RuntimeError "API Gateway upstream certificate pin is invalid" else Err e
  | Ok (certificate, common_name, usages) =>
      if negb (bool_decide (common_name = API_UPSTREAM_COMMON_NAME))
         || negb (bool_decide (CLIENT_AUTH ∈ usages))
      then raise RuntimeError "API Gateway upstream certificate pin has the wrong identity"
      else Ok (public_bytes_der certificate)
  end.

(** [peer_der] is what [getpeercert] returned, [None] without a certificate. *)
Definition verify_api_gateway_peer (peer_der : option bytes) (pinned_peer_der : bytes)
    : res pystr :=
  match peer_der with
  | None | Some [] => raise TokenValidationError "untrusted API Gateway peer"
  | Some der =>
      if bool_decide (pinned_peer_der = [])
      then raise TokenValidationError "untrusted API Gateway peer"
      else
        let* common_name :=
          catch (let* certificate := load_der_x509_certificate der in
                 certificate_common_name certificate)
            [ValueError; TokenValidationError]
            (fun _ => raise TokenValidationError "untrusted API Gateway peer") in
        if negb (bool_decide (common_name = API_UPSTREAM_COMMON_NAME))
           || negb (bool_decide (der = pinned_peer_der))
        then raise TokenValidationError "untrusted API Gateway peer"
        else Ok (base64url_sha256 der)
  end.

(** [bytes.rstrip] strips ASCII white space. *)
Definition is_ascii_space (b : Byte.byte) : bool :=
  let z := Z_of_byte b in (z =? 32) || ((9 <=? z) && (z <=? 13)).

Definition is_single_pem (pem : bytes) : bool :=
  (count_sub PEM_CERTIFICATE_BEGIN pem =? 1)%nat
  && (count_sub PEM_CERTIFICATE_END pem =? 1)%nat
  && starts_with PEM_CERTIFICATE_BEGIN pem
  && ends_with PEM_CERTIFICATE_END (rstrip_while is_ascii_space pem).

Definition forwarded_client_certificate_der (hs : headers) : res bytes :=
  match get_all hs (u"X-Client-Cert") with
  | Some [encoded] =>
      if bool_decide (encoded = [])
         || (MAX_FORWARDED_CERT_HEADER_BYTES <? Z.of_nat (length encoded))
         || bool_decide (44 ∈ encoded)
      then raise TokenValidationError "forwarded client certificate is missing or ambiguous"
      else
        match ascii_encode encoded with
        | None => raise TokenValidationError "forwarded client certificate is invalid"
        | Some encoded_bytes =>
            if bad_percent encoded_bytes
            then raise TokenValidationError "forwarded client certificate is invalid"
            else
              let pem_bytes := unquote_to_bytes encoded_bytes in
              if negb (is_single_pem pem_bytes)
              then raise TokenValidationError "forwarded client certificate is invalid"
              else
                let* certificate :=
                  catch (load_pem_x509_certificate pem_bytes) [ValueError]
                    (fun _ => raise TokenValidationError "forwarded client certificate is invalid") in
                Ok (public_bytes_der certificate)
        end
  | _ => raise TokenValidationError "forwarded client certificate is missing or ambiguous"
  end.

Context (conf : config).

Definition token_options : decode_options :=
  DecodeOptions (ALLOWED_ALGORITHMS conf) (AUDIENCE conf) (ISSUER conf)
    [u"exp"; u"iat"; u"iss"; u"aud"; u"cnf"; u"scope"; u"azp"] true.

Definition verify_access_token (token : pystr) : res (pydict * pystr) :=
  let* claims :=
    catch (let* signing_key := get_signing_key_from_jwt (JWKS_URL conf) token in
           jwt_decode token signing_key token_options)
      [BaseError] (fun _ => raise TokenValidationError "JWT validation failed") in
  match dict_get claims (u"scope") with
  | VStr scope_claim =>
      let granted_scopes := py_split_ws scope_claim in
      if negb (bool_decide (REQUIRED_SCOPES conf ⊆ granted_scopes))
      then raise TokenValidationError "required scope is missing"
      else
        match dict_get claims (u"azp") with
        | VStr azp =>
            if negb (bool_decide (azp ∈ AZP_ROUTES.*1))
            then raise TokenValidationError "authorized party is invalid"
            else
              let token_thumbprint :=
                match dict_get claims (u"cnf") with
                | VDict confirmation => dict_get confirmation (u"x5t#S256")
                | _ => VNone
                end in
              match token_thumbprint with
              | VStr (c :: s) => Ok (claims, c :: s)
              | _ => raise TokenValidationError "certificate binding is missing"
              end
        | _ => raise TokenValidationError "authorized party is invalid"
        end
  | _ => raise TokenValidationError "required scope is missing"
  end.

Definition verify_forwarded_certificate_binding (hs : headers) (token_thumbprint : pystr)
    : res pystr :=
  let* forwarded_der := forwarded_client_certificate_der hs in
  let forwarded_thumbprint := base64url_sha256 forwarded_der in
  if negb (constant_time_text_equal (VStr token_thumbprint) (VStr forwarded_thumbprint))
  then raise TokenValidationError "certificate binding mismatch"
  else Ok forwarded_thumbprint.

(** ** The request handler *)

Context (pinned_gateway_peer_der : bytes).

(** [peercert] is the outcome of [self.connection.getpeercert(binary_form=True)]. *)
Definition check_peer (peercert : res (option bytes)) : res pystr :=
  let* peer_der := peercert in verify_api_gateway_peer peer_der pinned_gateway_peer_der.

(** [send_error]: malformed requests and other methods. *)
Definition send_error (peercert : res (option bytes)) (code : Z) : res response :=
  match check_peer peercert with
  | Err e => if is_a (exn_cls e) BaseError
             then invalid_token (u"untrusted API Gateway peer") else Err e
  | Ok _ => json_response code (VDict [(u"error", jstr "request_rejected")]) []
  end.

(** The credentials of a request to [/evidence]. *)
Definition verify_credentials (hs : headers) (token : pystr) : res (pydict * pystr * pystr) :=
  let* (claims, token_thumbprint) := verify_access_token token in
  let* forwarded_thumbprint := verify_forwarded_certificate_binding hs token_thumbprint in
  Ok (claims, token_thumbprint, forwarded_thumbprint).

Definition do_GET (peercert : res (option bytes)) (path : pystr) (hs : headers) : res response :=
  match check_peer peercert with
  | Err e => if is_a (exn_cls e) BaseError
             then invalid_token (u"untrusted API Gateway peer") else Err e
  | Ok tls_peer_thumbprint =>
      if bool_decide (path = u"/healthz")
      then json_response 200 (VDict [(u"status", jstr "ok")]) []
      else if negb (bool_decide (path = u"/evidence"))
      then json_response 404 (VDict [(u"error", jstr "not_found")]) []
      else
        match bearer_token hs with
        | None | Some [] => invalid_token (u"missing bearer token")
        | Some token =>
            match verify_credentials hs token with
            | Err e =>
                if is_a (exn_cls e) TokenValidationError then invalid_token (exn_msg e)
                else if is_a (exn_cls e) BaseError then invalid_token (u"invalid credentials")
                else Err e
            | Ok (claims, token_thumbprint, forwarded_thumbprint) =>
                match build_evidence hs claims token_thumbprint forwarded_thumbprint
                        tls_peer_thumbprint with
                | Err e => if is_a (exn_cls e) BaseError
                           then invalid_token (u"invalid credentials") else Err e
                | Ok evidence => json_response 200 (VDict evidence) []
                end
            end
        end
  end.
End verifier.

(** ** Properties of the pure helpers *)

Lemma base64url_sha256_class v :
  length (base64url_sha256 v) = 43%nat /\
  Forall (fun c => is_b64url c = true) (base64url_sha256 v).
Proof.
  unfold base64url_sha256. rewrite b64url_nopad_raw, b64url_raw_length, sha256_length.
  split; [done|]. eapply Forall_impl; [apply b64url_raw_class|]. by intros c [].
Qed.

Lemma base64url_sha256_eq v w :
  base64url_sha256 v = base64url_sha256 w <-> sha256 v = sha256 w.
Proof.
  unfold base64url_sha256. split; [apply b64url_nopad_inj|]. by intros ->.
Qed.

Lemma utf8_encode_inj s t b : utf8_encode s = Some b -> utf8_encode t = Some b -> s = t.
Proof. intros Hs%utf8_decode_encode Ht%utf8_decode_encode. congruence. Qed.

(** Text without surrogates, which UTF-8 can encode. *)
Definition encodable (s : pystr) : Prop := Forall (fun c => is_scalar c = true) s.

Lemma constant_time_text_equal_spec l r :
  constant_time_text_equal l r = true <-> exists s, l = VStr s /\ r = VStr s /\ encodable s.
Proof.
  unfold encodable. destruct l; try (simpl; naive_solver).
  destruct r; try (simpl; naive_solver). simpl. split.
  - destruct (utf8_encode s) as [bl|] eqn:Es; [|done].
    destruct (utf8_encode s0) as [br|] eqn:Et; [|done].
    rewrite bool_decide_eq_true. intros <-. assert (s = s0) as <- by by eapply utf8_encode_inj.
    exists s. split_and!; [done..|]. apply utf8_encode_Some. by rewrite Es.
  - intros (x & [= ->] & [= ->] & [b Hb]%utf8_encode_Some). rewrite Hb.
    by apply bool_decide_eq_true.
Qed.

Lemma b64url_encodable c : is_b64url c = true -> is_scalar c = true.
Proof.
  unfold is_b64url, is_alnum, is_digit, is_upper, is_lower. intros H.
  apply is_scalar_spec. rewrite !orb_true_iff, !andb_true_iff, !Z.leb_le, !Z.eqb_eq in H. lia.
Qed.

Lemma thumbprint_equal t v :
  constant_time_text_equal (VStr t) (VStr (base64url_sha256 v)) = true <->
  t = base64url_sha256 v.
Proof.
  rewrite constant_time_text_equal_spec. split; [by intros (s & [= ->] & [= ->] & _)|].
  intros ->. eexists; split_and!; [done..|]. unfold encodable.
  eapply Forall_impl; [apply base64url_sha256_class|]. apply b64url_encodable.
Qed.

(** The header value is one [Bearer] word, one space and a token without
    spaces. *)
Lemma bearer_token_spec hs t :
  bearer_token hs = Some t <->
  exists scheme, header_values hs (u"Authorization") = [(scheme ++ (32 :: t))] /\
    py_lower scheme = u"bearer" /\ t <> [] /\ 32 ∉ t.
Proof.
  unfold bearer_token, get_all, get_header. split.
  - destruct (header_values hs (u"Authorization")) as [|v [|w vs]]; simpl; [done| |done].
    destruct (partition_on 32 v) as [[scheme sep] value] eqn:Ep.
    case_match eqn:Ec; [|done]. intros [= <-]. bool_prop.
    destruct (partition_on_sound _ _ _ _ _ Ep) as (-> & _ & _); [done|]. by exists scheme.
  - intros (scheme & -> & Hs & Ht & Hn). simpl.
    assert (32 ∉ scheme) as Hns.
    { intros Hin. apply (list_elem_of_fmap_2 lower_char) in Hin.
      change (lower_char <$> scheme) with (py_lower scheme) in Hin. rewrite Hs in Hin.
      revert Hin. apply (bool_decide_unpack (_ ∉ _)). by vm_compute. }
    rewrite partition_on_app by done.
    rewrite Hs. by repeat case_bool_decide.
Qed.

Lemma safe_evidence_text_spec v s :
  safe_evidence_text v = VStr s <-> v = VStr s /\ (length s <= 256)%nat.
Proof.
  destruct v; simpl; try naive_solver. case_match eqn:E; bool_prop; naive_solver lia.
Qed.

Lemma safe_evidence_text_cases v :
  safe_evidence_text v = VNone \/ exists s, safe_evidence_text v = VStr s.
Proof. destruct v; simpl; eauto. case_match; eauto. Qed.

(** The names of the evidence document, in order. *)
Definition evidence_fields : list pystr :=
  [u"azp"; u"route"; u"client_authentication"; u"token_certificate_thumbprint";
   u"forwarded_client_certificate_thumbprint"; u"api_gateway_tls_peer_certificate_thumbprint";
   u"token_signature_verified"; u"binding_verified"; u"department"; u"logical_route";
   u"department_header"; u"logical_route_header"; u"header_claims_match"].

(** The flag of the document: both header pairs repeat the claims. *)
Definition headers_match (hs : headers) (claims : pydict) : bool :=
  match dict_get (routing_evidence hs claims) (u"header_claims_match") with
  | VBool b => b | _ => false
  end.

(** The document, written out. *)
Definition evidence_doc (hs : headers) (claims : pydict) (azp route auth tt ft pt : pystr) : pydict :=
  [(u"azp", VStr azp); (u"route", VStr route); (u"client_authentication", VStr auth);
   (u"token_certificate_thumbprint", VStr tt);
   (u"forwarded_client_certificate_thumbprint", VStr ft);
   (u"api_gateway_tls_peer_certificate_thumbprint", VStr pt);
   (u"token_signature_verified", VBool true); (u"binding_verified", VBool true);
   (u"department", safe_evidence_text (dict_get claims DEPARTMENT_CLAIM));
   (u"logical_route", safe_evidence_text (dict_get claims ROUTE_CLAIM));
   (u"department_header", safe_evidence_text (header_value hs (u"X-Demo-Department")));
   (u"logical_route_header", safe_evidence_text (header_value hs (u"X-Demo-Route")));
   (u"header_claims_match", VBool (headers_match hs claims))].

Lemma evidence_doc_keys hs claims azp route auth tt ft pt :
  (evidence_doc hs claims azp route auth tt ft pt).*1 = evidence_fields.
Proof. done. Qed.

Lemma build_evidence_spec hs claims tt ft pt e :
  build_evidence hs claims tt ft pt = Ok e <->
  exists azp route auth,
    alookup (u"azp") claims = Some (VStr azp) /\
    alookup azp AZP_ROUTES = Some (route, auth) /\
    e = evidence_doc hs claims azp route auth tt ft pt.
Proof.
  unfold build_evidence, dict_item. split.
  - destruct (alookup (u"azp") claims) as [v|]; [|done]. cbn [res_of_option].
    destruct v as [| | | |azp| |]; try done. cbn [azp_item].
    destruct (alookup azp AZP_ROUTES) as [[route auth]|] eqn:Er; [|done]. cbn [res_of_option].
    intros [= <-]. by exists azp, route, auth.
  - intros (azp & route & auth & -> & Hr & ->). cbn [res_of_option azp_item].
    by rewrite Hr.
Qed.

Lemma headers_match_spec hs claims :
  headers_match hs claims = true <->
  exists d r, d <> [] /\ r <> [] /\ (length d <= 256)%nat /\ (length r <= 256)%nat /\
    encodable d /\ encodable r /\
    dict_get claims DEPARTMENT_CLAIM = VStr d /\ dict_get claims ROUTE_CLAIM = VStr r /\
    get_header hs (u"X-Demo-Department") = Some d /\ get_header hs (u"X-Demo-Route") = Some r.
Proof.
  assert (Hh : forall n s, header_value hs n = VStr s <-> get_header hs n = Some s).
  { intros n s. unfold header_value. destruct (get_header hs n); naive_solver. }
  assert (Ht : forall v s, v = VStr s -> py_truthy v = true -> s <> []).
  { intros v s -> Hs ->. done. }
  unfold headers_match. change (dict_get (routing_evidence hs claims) (u"header_claims_match"))
    with (VBool (forallb py_truthy
      [safe_evidence_text (dict_get claims DEPARTMENT_CLAIM);
       safe_evidence_text (dict_get claims ROUTE_CLAIM);
       safe_evidence_text (header_value hs (u"X-Demo-Department"));
       safe_evidence_text (header_value hs (u"X-Demo-Route"))] &&
      forallb (fun p => constant_time_text_equal (fst p) (snd p))
      [(safe_evidence_text (dict_get claims DEPARTMENT_CLAIM),
        safe_evidence_text (header_value hs (u"X-Demo-Department")));
       (safe_evidence_text (dict_get claims ROUTE_CLAIM),
        safe_evidence_text (header_value hs (u"X-Demo-Route")))])).
  cbn [forallb fst snd]. rewrite !andb_true_r, !andb_true_iff, !constant_time_text_equal_spec. split.
  - intros [(T1 & T2 & _) [(d & Hd & Hd' & Ed) (r & Hr & Hr' & Er)]].
    pose proof (Ht _ _ Hd T1). pose proof (Ht _ _ Hr T2).
    apply safe_evidence_text_spec in Hd as [Hd Ld], Hr as [Hr Lr], Hd' as [Hd' _], Hr' as [Hr' _].
    exists d, r. rewrite <- !Hh. done.
  - intros (d & r & Nd & Nr & Ld & Lr & Ed & Er & Hd & Hr & Hd' & Hr').
    apply Hh in Hd', Hr'. rewrite Hd, Hr, Hd', Hr'.
    assert (forall s, (length s <= 256)%nat -> safe_evidence_text (VStr s) = VStr s) as E.
    { intros s Hs. by apply safe_evidence_text_spec. }
    rewrite !E by done. split; [simpl; rewrite !bool_decide_false by done; done|].
    split; [by exists d|by exists r].
Qed.

(** ** Properties of the checks and of the handler *)

(** The package raises Python exceptions only. *)
Class PyJWTLaws (J : PyJWT) : Prop := {
  get_signing_key_exn : forall url token, python_exn (get_signing_key_from_jwt url token);
  jwt_decode_exn : forall token key o, python_exn (jwt_decode token key o)
}.
#[export] Hint Resolve get_signing_key_exn jwt_decode_exn : py.

Section handler.
Context `{X : X509} `{J : PyJWT} (conf : config) (pin : bytes).

Lemma certificate_common_name_spec c n :
  certificate_common_name c = Ok n <-> common_names c = Ok [n].
Proof.
  unfold certificate_common_name. destruct (common_names c) as [[|x [|y l]]|]; naive_solver.
Qed.

(** The certificate of the pin is the gateway's. *)
Definition pin_is_gateway : Prop :=
  pin <> [] /\ exists c, load_der_x509_certificate pin = Ok c
                         /\ common_names c = Ok [API_UPSTREAM_COMMON_NAME].

Lemma verify_api_gateway_peer_spec peer t :
  verify_api_gateway_peer peer pin = Ok t <->
  peer = Some pin /\ pin_is_gateway /\ t = base64url_sha256 pin.
Proof.
  unfold verify_api_gateway_peer, pin_is_gateway. split.
  - destruct peer as [[|b der]|]; [done| |done]. set (p := b :: der) in *.
    case_bool_decide as Hp; [done|].
    destruct (catch _ _ _) as [n|] eqn:Ec; [|done]. apply catch_reraise in Ec.
    destruct (load_der_x509_certificate p) as [c|] eqn:El; [|done].
    apply certificate_common_name_spec in Ec.
    case_bool_decide as En; [|done]. case_bool_decide as Ep; [|done]. simpl.
    intros [= <-]. rewrite <- Ep, <- En. split_and!; [done|done|by exists c|done].
  - intros (-> & (Hne & c & Hl & Hc) & ->). destruct pin as [|b der]; [done|].
    rewrite bool_decide_false by done. rewrite Hl.
    assert (certificate_common_name c = Ok API_UPSTREAM_COMMON_NAME) as ->
      by by apply certificate_common_name_spec.
    simpl. by rewrite !bool_decide_true.
Qed.

Lemma check_peer_spec peercert t :
  check_peer pin peercert = Ok t <->
  peercert = Ok (Some pin) /\ pin_is_gateway /\ t = base64url_sha256 pin.
Proof.
  unfold check_peer. destruct peercert as [peer|e]; [|naive_solver].
  rewrite verify_api_gateway_peer_spec. naive_solver.
Qed.

(** What the token must say. *)
Record token_accepted (token : pystr) (claims : pydict) (azp tt : pystr) : Prop := {
  ta_valid : exists key, get_signing_key_from_jwt (JWKS_URL conf) token = Ok key
                         /\ jwt_decode token key (token_options conf) = Ok claims;
  ta_scope : exists s, dict_get claims (u"scope") = VStr s
                       /\ REQUIRED_SCOPES conf ⊆ py_split_ws s;
  ta_azp : dict_get claims (u"azp") = VStr azp /\ azp ∈ AZP_ROUTES.*1;
  ta_cnf : exists cnf, dict_get claims (u"cnf") = VDict cnf
                       /\ dict_get cnf (u"x5t#S256") = VStr tt /\ tt <> []
}.

Lemma verify_access_token_spec token claims tt :
  verify_access_token conf token = Ok (claims, tt) <->
  exists azp, token_accepted token claims azp tt.
Proof.
  unfold verify_access_token. split.
  - destruct (catch _ _ _) as [cl|] eqn:Ec; [|done]. apply catch_reraise in Ec.
    destruct (get_signing_key_from_jwt _ _) as [key|] eqn:Ek; [|done].
    destruct (dict_get cl (u"scope")) as [| | | |s| |] eqn:Es; try done.
    case_bool_decide as Hs; [|done].
    destruct (dict_get cl (u"azp")) as [| | | |azp| |] eqn:Ea; try done.
    case_bool_decide as Ha; [|done]. cbn [negb].
    destruct (dict_get cl (u"cnf")) as [| | | | | |cnf] eqn:En; try done.
    destruct (dict_get cnf (u"x5t#S256")) as [| | | |[|c t]| |] eqn:Et; try done.
    intros [= <- <-]. exists azp. split; eauto 6.
  - intros (azp & [(key & Hk & Hd) (s & Hs & Hsub) [Ha Hin] (cnf & Hc & Ht & Hne)]).
    rewrite Hk, Hd. cbn [catch]. rewrite Hs, bool_decide_true, Ha, bool_decide_true, Hc by done.
    rewrite Ht. by destruct tt.
Qed.

(** Every failure of the token check is a [TokenValidationError]. *)
Lemma verify_access_token_error `{!PyJWTLaws J} token e :
  verify_access_token conf token = Err e -> exn_cls e = TokenValidationError.
Proof.
  unfold verify_access_token. rewrite catch_all by eauto with py.
  destruct (match get_signing_key_from_jwt (JWKS_URL conf) token with Ok _ => _ | Err _ => _ end) as [cl|];
    [|by intros [= <-]].
  unfold raise. repeat case_match; intros; simplify_eq/=; done.
Qed.

(** The forwarded certificate: one header value, percent-encoded ASCII, that is
    a single PEM block. *)
Lemma forwarded_client_certificate_der_spec hs der :
  forwarded_client_certificate_der hs = Ok der <->
  exists encoded raw c,
    header_values hs (u"X-Client-Cert") = [encoded] /\
    encoded <> [] /\ Z.of_nat (length encoded) <= MAX_FORWARDED_CERT_HEADER_BYTES /\
    (44 ∉ encoded) /\ ascii_encode encoded = Some raw /\ bad_percent raw = false /\
    is_single_pem (unquote_to_bytes raw) = true /\
    load_pem_x509_certificate (unquote_to_bytes raw) = Ok c /\ der = public_bytes_der c.
Proof.
  unfold forwarded_client_certificate_der. split.
  - destruct (get_all _ _) as [[|encoded [|]]|] eqn:Eg; try done.
    apply get_all_singleton in Eg. destruct (_ || _ || _) eqn:Eb; [done|]. bool_prop.
    destruct (ascii_encode encoded) as [raw|] eqn:Ea; [|done].
    destruct (bad_percent raw) eqn:Ep; [done|].
    destruct (is_single_pem _) eqn:Es; [|done]. cbn [negb].
    destruct (catch _ _ _) as [c|] eqn:Ec; [|done]. apply catch_reraise in Ec.
    intros [= <-]. by exists encoded, raw, c.
  - intros (encoded & raw & c & Hh & Hne & Hl & Hc & Ha & Hb & Hs & Hp & ->).
    apply get_all_singleton in Hh. rewrite Hh.
    rewrite !bool_decide_false by done. rewrite (proj2 (Z.ltb_ge _ _)) by done. simpl.
    by rewrite Ha, Hb, Hs, Hp.
Qed.

Lemma verify_forwarded_spec hs tt ft :
  verify_forwarded_certificate_binding hs tt = Ok ft <->
  exists der, forwarded_client_certificate_der hs = Ok der /\
              tt = base64url_sha256 der /\ ft = base64url_sha256 der.
Proof.
  unfold verify_forwarded_certificate_binding.
  destruct (forwarded_client_certificate_der hs) as [der|]; [|naive_solver].
  destruct (constant_time_text_equal _ _) eqn:E; simpl.
  - apply thumbprint_equal in E as ->. naive_solver.
  - split; [done|]. intros (d & [= <-] & -> & _).
    by rewrite (proj2 (thumbprint_equal _ _)) in E.
Qed.

(** The credentials of a request: an accepted token bound to the forwarded
    certificate. *)
Lemma verify_credentials_spec hs token claims tt ft :
  verify_credentials conf hs token = Ok (claims, tt, ft) <->
  exists azp der, token_accepted token claims azp tt /\
    forwarded_client_certificate_der hs = Ok der /\
    tt = base64url_sha256 der /\ ft = tt.
Proof.
  unfold verify_credentials. split.
  - destruct (verify_access_token conf token) as [[cl t]|] eqn:Ev; [|done].
    destruct (verify_forwarded_certificate_binding hs t) as [f|] eqn:Ef; [|done].
    intros [= <- <- <-]. apply verify_access_token_spec in Ev as [azp Ha].
    apply verify_forwarded_spec in Ef as (der & Hd & -> & ->). by exists azp, der.
  - intros (azp & der & Ha & Hd & -> & ->).
    rewrite (proj2 (verify_access_token_spec _ _ _)) by by exists azp.
    by rewrite (proj2 (verify_forwarded_spec hs _ _)) by by exists der.
Qed.

Lemma token_accepted_azp token claims azp tt :
  token_accepted token claims azp tt ->
  alookup (u"azp") claims = Some (VStr azp) /\ is_Some (alookup azp AZP_ROUTES).
Proof.
  intros [_ _ [Ha Hin] _]. split; [|by apply alookup_is_Some].
  unfold dict_get in Ha. destruct (alookup (u"azp") claims); congruence.
Qed.

(** The document of accepted credentials. *)
Lemma build_evidence_accepted hs token claims azp tt ft pt :
  token_accepted token claims azp tt ->
  exists route auth, alookup azp AZP_ROUTES = Some (route, auth) /\
    build_evidence hs claims tt ft pt = Ok (evidence_doc hs claims azp route auth tt ft pt).
Proof.
  intros H. destruct (token_accepted_azp _ _ _ _ H) as [Ha [[route auth] Hr]].
  exists route, auth. split; [done|]. apply build_evidence_spec. by exists azp, route, auth.
Qed.

Lemma evidence_flat hs claims azp route auth tt ft pt :
  forallb (fun kv => flat (snd kv)) (evidence_doc hs claims azp route auth tt ft pt) = true.
Proof.
  assert (forall v, flat (safe_evidence_text v) = true) as E.
  { intros v. destruct (safe_evidence_text_cases v) as [-> | [s ->]]; done. }
  cbn [forallb evidence_doc snd]. by rewrite !E.
Qed.

Lemma json_response_flat code d extra :
  forallb (fun kv => flat (snd kv)) d = true ->
  exists r, json_response code (VDict d) extra = Ok r /\ status r = code
            /\ dumps dump_default (VDict d) = Ok (resp_body r).
Proof.
  intros H. unfold json_response. destruct (dumps_flat_dict dump_default d H) as [t Ht].
  rewrite Ht. by eexists.
Qed.

Lemma invalid_token_answers reason :
  exists r, invalid_token reason = Ok r /\ status r = 401.
Proof.
  destruct (json_response_flat 401 [(u"error", jstr "invalid_token"); (u"reason", VStr reason)]
              [(u"WWW-Authenticate", bearer_challenge)]) as (r & Hr & Hs & _); [done|by exists r].
Qed.

Lemma invalid_token_not_200 reason r : invalid_token reason = Ok r -> status r <> 200.
Proof. destruct (invalid_token_answers reason) as (r' & -> & H). intros [= <-]. lia. Qed.

Lemma json_response_status code v extra r :
  json_response code v extra = Ok r ->
  status r = code /\ dumps dump_default v = Ok (resp_body r).
Proof. unfold json_response. destruct (dumps dump_default v) as [t|]; [|done]. by intros [= <-]. Qed.

(** The answer to accepted credentials. *)
Lemma do_GET_accepted hs token claims azp der :
  pin_is_gateway -> bearer_token hs = Some token ->
  token_accepted token claims azp (base64url_sha256 der) ->
  forwarded_client_certificate_der hs = Ok der ->
  exists route auth, alookup azp AZP_ROUTES = Some (route, auth) /\
    do_GET conf pin (Ok (Some pin)) (u"/evidence") hs =
    json_response 200
      (VDict (evidence_doc hs claims azp route auth (base64url_sha256 der)
                (base64url_sha256 der) (base64url_sha256 pin))) [].
Proof.
  intros Hpin Hb Ha Hd. unfold do_GET.
  rewrite (proj2 (check_peer_spec (Ok (Some pin)) (base64url_sha256 pin))) by done.
  change (bool_decide (u"/evidence" = u"/healthz")) with false.
  change (bool_decide (u"/evidence" = u"/evidence")) with true. cbn [negb].
  rewrite Hb. destruct token as [|c0 t0].
  { by apply bearer_token_spec in Hb as (? & ? & ? & ? & ?). }
  rewrite (proj2 (verify_credentials_spec hs _ claims (base64url_sha256 der)
                    (base64url_sha256 der))) by by exists azp, der.
  destruct (build_evidence_accepted hs _ claims azp _ (base64url_sha256 der)
              (base64url_sha256 pin) Ha) as (route & auth & Hr & ->).
  by exists route, auth.
Qed.

Context `{!X509Laws X} `{!PyJWTLaws J}.

Lemma certificate_common_name_exn c : python_exn (certificate_common_name c).
Proof.
  unfold certificate_common_name. apply python_exn_bind; [auto with py|].
  intros [|n [|]] _; auto with py.
Qed.

Lemma verify_api_gateway_peer_exn peer : python_exn (verify_api_gateway_peer peer pin).
Proof.
  unfold verify_api_gateway_peer. destruct peer as [[|b p]|]; [auto with py| |auto with py].
  apply python_exn_if; [auto with py|]. apply python_exn_bind; [|auto with py].
  apply python_exn_catch; [|auto with py].
  apply python_exn_bind; [auto with py|]. intros c _. apply certificate_common_name_exn.
Qed.

Lemma check_peer_exn peercert : python_exn peercert -> python_exn (check_peer pin peercert).
Proof.
  intros H. apply python_exn_bind; [done|]. intros p _. apply verify_api_gateway_peer_exn.
Qed.

Lemma forwarded_client_certificate_der_exn hs :
  python_exn (forwarded_client_certificate_der hs).
Proof.
  unfold forwarded_client_certificate_der.
  destruct (get_all _ _) as [[|encoded [|]]|]; auto with py.
  apply python_exn_if; [auto with py|]. destruct (ascii_encode encoded); [|auto with py].
  apply python_exn_if; [auto with py|]. apply python_exn_if; auto with py.
Qed.

Lemma verify_credentials_exn hs token : python_exn (verify_credentials conf hs token).
Proof.
  unfold verify_credentials. apply python_exn_bind.
  - intros e He. by rewrite (verify_access_token_error _ _ He).
  - intros [claims tt] _. apply python_exn_bind; [|auto with py].
    unfold verify_forwarded_certificate_binding. apply python_exn_bind.
    + apply forwarded_client_certificate_der_exn.
    + auto with py.
Qed.
End handler.

(** ** A concrete certificate library and token library

    Certificates are byte strings whose first byte says who they belong to; the
    tokens [good] and [bare] are valid. *)
Module Sample.
Definition x509 : X509 := {|
  cert := Byte.byte * bytes;
  load_der_x509_certificate b :=
    match b with x :: r => Ok (x, r) | [] => raise ValueError "empty certificate" end;
  load_pem_x509_certificate b :=
    match drop (length PEM_CERTIFICATE_BEGIN) b with
    | x :: r => Ok (x, r) | [] => raise ValueError "empty certificate"
    end;
  common_names c :=
    Ok [if Z_of_byte (fst c) =? 71 then API_UPSTREAM_COMMON_NAME else u"client"];
  extended_key_usage c := Ok [CLIENT_AUTH];
  public_bytes_der c := fst c :: snd c
|}.

Lemma x509_laws : X509Laws x509.
Proof.
  split; simpl.
  - intros [|x r]; auto with py.
  - intros b. destruct (drop _ b); auto with py.
  - auto with py.
  - auto with py.
  - by intros [x r].
  - done.
Qed.

Definition pin : bytes := bs"Gateway".
Definition client_pem : bytes :=
  PEM_CERTIFICATE_BEGIN ++ bs"client certificate" ++ PEM_CERTIFICATE_END.
Definition client_der : bytes := bs"client certificate" ++ PEM_CERTIFICATE_END.

Definition claims : pydict :=
  [(u"azp", jstr "third-party-fapi-mtls"); (u"scope", jstr "openid profile");
   (u"cnf", VDict [(u"x5t#S256", VStr (base64url_sha256 client_der))]);
   (DEPARTMENT_CLAIM, jstr "finance"); (ROUTE_CLAIM, jstr "route-a")].

Definition pyjwt : PyJWT := {|
  jwk := unit;
  get_signing_key_from_jwt _ _ := Ok tt;
  jwt_decode token _ _ :=
    if bool_decide (token = u"good") then Ok claims
    else raise ValueError "invalid token"
|}.

Lemma pyjwt_laws : PyJWTLaws pyjwt.
Proof. split; simpl; intros; auto with py. Qed.

Definition conf : config :=
  Config (u"https://localhost:8444/realms/fapi-demo") (u"fapi-demo-api")
    (u"https://keycloak:8443/realms/fapi-demo/protocol/openid-connect/certs")
    [u"openid"] [u"PS256"].

Lemma conf_default : load_config [] = Ok conf.
Proof. vm_compute. reflexivity. Qed.

Definition hdrs : headers :=
  [(u"authorization", u"Bearer good");
   (u"X-Client-Cert", map Z_of_byte (percent_encode client_pem));
   (u"X-Demo-Department", u"finance"); (u"X-Demo-Route", u"route-a")].
End Sample.

(** ** Theorems *)

(** The module refuses to load unless the audience is the demo API, the required
    scopes include [openid] and [PS256] is the only algorithm. *)
Lemma load_config_fixed env conf :
  load_config env = Ok conf ->
  AUDIENCE conf = u"fapi-demo-api" /\ u"openid" ∈ REQUIRED_SCOPES conf /\
  ALLOWED_ALGORITHMS conf = [u"PS256"].
Proof.
  unfold load_config. repeat (case_bool_decide; [|done]); cbn [negb]. by intros [= <-].
Qed.

Section theorems.
Context `{X : X509} `{J : PyJWT} (conf : config) (pin : bytes).

(** C2: a 200 answer that is not the health check is given to the pinned
    gateway peer only, on [/evidence], for a bearer token that the token
    library accepted under [PS256], the demo audience and the configured
    issuer, with the scope [openid], a known authorized party, and bound by
    its [cnf] thumbprint to the certificate in [X-Client-Cert]; the body is
    the document that says exactly this. *)
Theorem do_GET_evidence_sound env peercert path hs r :
  load_config env = Ok conf ->
  do_GET conf pin peercert path hs = Ok r -> status r = 200 -> path <> u"/healthz" ->
  path = u"/evidence" /\ peercert = Ok (Some pin) /\ pin_is_gateway pin /\
  exists token key claims s azp route auth cnf der,
    bearer_token hs = Some token /\
    get_signing_key_from_jwt (JWKS_URL conf) token = Ok key /\
    jwt_decode token key
      (DecodeOptions [u"PS256"] (u"fapi-demo-api") (ISSUER conf)
         [u"exp"; u"iat"; u"iss"; u"aud"; u"cnf"; u"scope"; u"azp"] true) = Ok claims /\
    dict_get claims (u"scope") = VStr s /\ u"openid" ∈ py_split_ws s /\
    alookup azp AZP_ROUTES = Some (route, auth) /\
    dict_get claims (u"cnf") = VDict cnf /\
    forwarded_client_certificate_der hs = Ok der /\
    dict_get cnf (u"x5t#S256") = VStr (base64url_sha256 der) /\
    dumps dump_default
      (VDict (evidence_doc hs claims azp route auth (base64url_sha256 der)
                (base64url_sha256 der) (base64url_sha256 pin))) = Ok (resp_body r).
Proof.
  intros (Haud & Hscope & Halg)%load_config_fixed Hr H200 Hpath. unfold do_GET in Hr.
  destruct (check_peer pin peercert) as [pt|e] eqn:Ec.
  2:{ destruct (is_a _ _); [|done]. by apply invalid_token_not_200 in Hr. }
  apply check_peer_spec in Ec as (-> & Hpin & ->). rewrite bool_decide_false in Hr by done.
  case_bool_decide as Hp; [|apply json_response_status in Hr; lia]. cbn [negb] in Hr.
  destruct (bearer_token hs) as [[|c0 t0]|] eqn:Eb; [by apply invalid_token_not_200 in Hr| |
    by apply invalid_token_not_200 in Hr].
  set (token := c0 :: t0) in *.
  destruct (verify_credentials conf hs token) as [[[claims tt] ft]|e] eqn:Ev.
  2:{ destruct (is_a _ _); [by apply invalid_token_not_200 in Hr|].
      destruct (is_a _ _); [by apply invalid_token_not_200 in Hr|done]. }
  apply verify_credentials_spec in Ev as (azp & der & Ha & Hd & -> & ->).
  destruct (build_evidence_accepted conf hs token claims azp _
              (base64url_sha256 der) (base64url_sha256 pin) Ha) as (route & auth & Hrt & Hev).
  rewrite Hev in Hr. apply json_response_status in Hr as [_ Hbody].
  destruct Ha as [(key & Hk & Hj) (s & Hs & Hsub) _ (cnf & Hcnf & Hx & _)].
  split_and!; [done..|]. exists token, key, claims, s, azp, route, auth, cnf, der.
  split_and!; try done.
  - by rewrite <- Haud, <- Halg.
  - by apply Hsub.
Qed.

Context `{!X509Laws X} `{!PyJWTLaws J}.

(** Whoever is not the pinned gateway gets one and the same 401 answer,
    whatever the path, the method and the headers are. *)
Theorem untrusted_peer_rejected peercert path hs code :
  python_exn peercert -> peercert <> Ok (Some pin) \/ ~ pin_is_gateway pin ->
  do_GET conf pin peercert path hs = invalid_token (u"untrusted API Gateway peer") /\
  send_error pin peercert code = invalid_token (u"untrusted API Gateway peer").
Proof.
  intros Hp Hn. unfold do_GET, send_error. destruct (check_peer pin peercert) as [t|e] eqn:E.
  - apply check_peer_spec in E. naive_solver.
  - by rewrite (check_peer_exn _ _ Hp e E).
Qed.

(** What [send_error] answers: the code it was called with, or 401 for a peer that is not
    trusted. *)
Lemma send_error_status peercert code :
  python_exn peercert ->
  exists r, send_error pin peercert code = Ok r /\
    ((status r = code /\ peercert = Ok (Some pin) /\ pin_is_gateway pin) \/
     (status r = 401 /\ ~ (peercert = Ok (Some pin) /\ pin_is_gateway pin))).
Proof.
  intros Hp. unfold send_error. destruct (check_peer pin peercert) as [pt|e] eqn:Ec.
  - apply check_peer_spec in Ec as (Hpeer & Hpin & _).
    destruct (json_response_flat code [(u"error", jstr "request_rejected")] []) as (r & Hr & Hs & _); [done|].
    exists r. auto.
  - rewrite (check_peer_exn _ _ Hp e Ec).
    destruct (invalid_token_answers (u"untrusted API Gateway peer")) as (r & Hr & Hs).
    exists r. split; [done|]. right. split; [done|]. intros [H1 H2].
    by rewrite (proj2 (check_peer_spec pin peercert (base64url_sha256 pin))) in Ec.
Qed.

(** C30: Every [GET] request is answered with status 200, 401 or 404, and the status tells
    which checks passed; every other request, for which the server of the standard library
    calls [send_error] with a code of its own, such as 501 for an unknown method, is answered
    with that code when the peer is trusted and with 401 when it is not. *)
Theorem do_GET_status peercert path hs :
  python_exn peercert ->
  let trusted := peercert = Ok (Some pin) /\ pin_is_gateway pin in
  let accepted := exists token c, bearer_token hs = Some token
                    /\ verify_credentials conf hs token = Ok c in
  (exists r, do_GET conf pin peercert path hs = Ok r /\
    ((status r = 200 /\ trusted /\ (path = u"/healthz" \/ (path = u"/evidence" /\ accepted))) \/
     (status r = 404 /\ trusted /\ path <> u"/healthz" /\ path <> u"/evidence") \/
     (status r = 401 /\ (~ trusted \/ (path = u"/evidence" /\ ~ accepted))))) /\
  forall code, exists r, send_error pin peercert code = Ok r /\
    ((status r = code /\ trusted) \/ (status r = 401 /\ ~ trusted)).
Proof.
  intros Hp. cbv zeta. split; [|intros code; by apply send_error_status].
  unfold do_GET. destruct (check_peer pin peercert) as [pt|e] eqn:Ec.
  2:{ rewrite (check_peer_exn _ _ Hp e Ec).
      destruct (invalid_token_answers (u"untrusted API Gateway peer")) as (r & Hr & Hs).
      exists r. split; [done|]. do 2 right. split; [done|]. left. intros [H1 H2].
      by rewrite (proj2 (check_peer_spec pin peercert (base64url_sha256 pin))) in Ec. }
  apply check_peer_spec in Ec as (Hpeer & Hpin & ->).
  case_bool_decide as H1.
  { destruct (json_response_flat 200 [(u"status", jstr "ok")] []) as (r & Hr & Hs & _); [done|].
    exists r. auto 10. }
  case_bool_decide as H2; cbn [negb].
  2:{ destruct (json_response_flat 404 [(u"error", jstr "not_found")] []) as (r & Hr & Hs & _);
        [done|]. exists r. auto 10. }
  assert (Hdeny : forall reason, ~ (exists token c, bearer_token hs = Some token
                      /\ verify_credentials conf hs token = Ok c) ->
    exists r, invalid_token reason = Ok r /\ (status r = 401) /\
      (path = u"/evidence" /\ ~ (exists token c, bearer_token hs = Some token
                      /\ verify_credentials conf hs token = Ok c))).
  { intros reason Hno. destruct (invalid_token_answers reason) as (r & Hr & Hs). eauto 6. }
  destruct (bearer_token hs) as [[|c0 t0]|] eqn:Eb.
  - apply bearer_token_spec in Eb as (? & ? & ? & ? & ?). done.
  - set (token := c0 :: t0) in *.
    destruct (verify_credentials conf hs token) as [[[claims tt] ft]|e] eqn:Ev.
    + pose proof Ev as (azp & der & Ha & _)%verify_credentials_spec.
      destruct (build_evidence_accepted conf hs token claims azp _ ft
                  (base64url_sha256 pin) Ha) as (route & auth & _ & ->).
      destruct (json_response_flat 200 (evidence_doc hs claims azp route auth tt ft
                  (base64url_sha256 pin)) []) as (r & Hr & Hs & _); [apply evidence_flat|].
      exists r. split; [done|]. left. split_and!; try done. right. split; [done|].
      by exists token, (claims, tt, ft).
    + rewrite (verify_credentials_exn conf _ _ e Ev).
      assert (Hno : ~ (exists token' c, Some token = Some token'
                      /\ verify_credentials conf hs token' = Ok c)).
      { intros (t & c & [= <-] & H). congruence. }
      destruct (is_a (exn_cls e) TokenValidationError);
        (edestruct Hdeny as (r & Hr & Hs & Hx); [exact Hno|exists r; split; [exact Hr|tauto]]).
  - edestruct Hdeny as (r & Hr & Hs & Hx); [|exists r; split; [exact Hr|tauto]].
    by intros (t & c & ? & _).
Qed.
End theorems.

Lemma do_GET_evidence_sound_witness :
  exists r, do_GET (X := Sample.x509) (J := Sample.pyjwt) Sample.conf Sample.pin
              (Ok (Some Sample.pin)) (u"/evidence") Sample.hdrs = Ok r /\
    exists token key, bearer_token Sample.hdrs = Some token /\
      get_signing_key_from_jwt (PyJWT := Sample.pyjwt) (JWKS_URL Sample.conf) token = Ok key.
Proof.
  pose proof (eq_refl : map_res status (do_GET (X := Sample.x509) (J := Sample.pyjwt) Sample.conf
    Sample.pin (Ok (Some Sample.pin)) (u"/evidence") Sample.hdrs) = Ok 200) as H.
  destruct (do_GET (X := Sample.x509) (J := Sample.pyjwt) Sample.conf
    Sample.pin (Ok (Some Sample.pin)) (u"/evidence") Sample.hdrs) as [r|e] eqn:E;
    [|discriminate H].
  exists r. split; [reflexivity|].
  destruct (do_GET_evidence_sound (X := Sample.x509) (J := Sample.pyjwt) Sample.conf Sample.pin
    [] (Ok (Some Sample.pin)) (u"/evidence") Sample.hdrs r Sample.conf_default E
    ltac:(injection H as H; exact H) ltac:(discriminate))
    as (_ & _ & _ & token & key & _ & _ & _ & _ & _ & _ & _ & Hb & Hk & _).
  exists token, key. split; [exact Hb|exact Hk].
Defined.

Lemma untrusted_peer_rejected_witness :
  do_GET (X := Sample.x509) (J := Sample.pyjwt) Sample.conf Sample.pin (Ok None)
    (u"/healthz") [] = invalid_token (u"untrusted API Gateway peer").
Proof.
  apply (untrusted_peer_rejected (X := Sample.x509) (J := Sample.pyjwt)
    (X509Laws0 := Sample.x509_laws) Sample.conf Sample.pin
    (Ok None) (u"/healthz") [] 501); [apply python_exn_Ok|left; discriminate].
Defined.

Lemma do_GET_status_witness :
  (exists r, do_GET (X := Sample.x509) (J := Sample.pyjwt) Sample.conf Sample.pin
               (Ok (Some Sample.pin)) (u"/nowhere") [] = Ok r) /\
  exists r, send_error (X := Sample.x509) Sample.pin (Ok (Some Sample.pin)) 501 = Ok r /\ (status r = 501 \/ status r = 401).
Proof.
  destruct (do_GET_status (X := Sample.x509) (J := Sample.pyjwt)
    (X509Laws0 := Sample.x509_laws) (PyJWTLaws0 := Sample.pyjwt_laws) Sample.conf Sample.pin
    (Ok (Some Sample.pin)) (u"/nowhere") [] (python_exn_Ok _)) as ((r & Hr & _) & Herr).
  split; [exists r; exact Hr|]. destruct (Herr 501) as (r' & Hr' & [[Hs _]|[Hs _]]); exists r'; split; auto.
Defined.

(** the flag [header_claims_match] is true exactly when both claims and both
    headers are present, non-empty, at most 256 characters, encodable, and each
    header repeats its claim. *)
Theorem header_claims_match_exact hs claims :
  dict_get (routing_evidence hs claims) (u"header_claims_match") = VBool true <->
  exists d r, d <> [] /\ r <> [] /\ (length d <= 256)%nat /\ (length r <= 256)%nat /\
    encodable d /\ encodable r /\
    dict_get claims DEPARTMENT_CLAIM = VStr d /\ dict_get claims ROUTE_CLAIM = VStr r /\
    get_header hs (u"X-Demo-Department") = Some d /\ get_header hs (u"X-Demo-Route") = Some r.
Proof.
  rewrite <- headers_match_spec. unfold headers_match.
  change (dict_get (routing_evidence hs claims) (u"header_claims_match")) with
    (VBool (headers_match hs claims)).
  split; [intros H; by injection H|by intros ->].
Qed.

Section pin_theorems.
Context `{X : X509} `{!X509Laws X}.

(** Once the pin file has been loaded, the only peer certificate that is
    accepted is the pinned one, and that one is accepted. *)
Theorem pinned_gateway_accepted contents pin :
  load_pinned_gateway_certificate contents = Ok pin ->
  forall peer, is_ok (verify_api_gateway_peer peer pin) = true <-> peer = Some pin.
Proof.
  unfold load_pinned_gateway_certificate. intros H peer.
  destruct (let* pem := contents in _) as [[[c cn] usages]|e] eqn:E;
    [|by destruct (existsb _ _)].
  destruct contents as [pem|]; [|done].
  destruct (load_pem_x509_certificate pem) as [c'|]; [|done].
  destruct (certificate_common_name c') as [n|] eqn:En; [|done].
  destruct (extended_key_usage c') as [us|]; [|done]. injection E as -> -> ->.
  case_bool_decide as Hn; [|done]. case_bool_decide as Hu; [|done]. injection H as <-.
  apply certificate_common_name_spec in En. rewrite Hn in En.
  assert (Hg : pin_is_gateway (public_bytes_der c)).
  { split; [apply public_bytes_der_nonempty|]. exists c. split; [|done].
    apply load_der_public_bytes. }
  split.
  - destruct (verify_api_gateway_peer peer _) as [t|] eqn:Ev; [|done].
    apply verify_api_gateway_peer_spec in Ev as (-> & _ & _). done.
  - intros ->. by rewrite (proj2 (verify_api_gateway_peer_spec _ _ _)) by done.
Qed.

(** A single PEM certificate that is percent-encoded byte by byte, as the
    gateway forwards it, is decoded to the same certificate. *)
Theorem forwarded_certificate_roundtrip hs pem c :
  header_values hs (u"X-Client-Cert") = [map Z_of_byte (percent_encode pem)] ->
  3 * Z.of_nat (length pem) <= MAX_FORWARDED_CERT_HEADER_BYTES ->
  is_single_pem pem = true -> load_pem_x509_certificate pem = Ok c ->
  forwarded_client_certificate_der hs = Ok (public_bytes_der c).
Proof.
  intros Hh Hl Hp Hc. apply forwarded_client_certificate_der_spec.
  exists (map Z_of_byte (percent_encode pem)), (percent_encode pem), c.
  split_and!; try done.
  - destruct pem; [by vm_compute in Hp|done].
  - rewrite length_map, percent_encode_length. lia.
  - intros (x & Hx & Hin)%list_elem_of_fmap. apply percent_encode_char in Hin. lia.
  - apply ascii_encode_bytes, Forall_forall. intros x Hin%percent_encode_char. lia.
  - apply bad_percent_encode.
  - by rewrite unquote_percent_encode.
  - by rewrite unquote_percent_encode.
Qed.
End pin_theorems.

Lemma pinned_gateway_accepted_witness :
  is_ok (verify_api_gateway_peer (X := Sample.x509) (Some Sample.pin) Sample.pin) = true.
Proof.
  apply (pinned_gateway_accepted (X := Sample.x509) (X509Laws0 := Sample.x509_laws)
    (Ok (PEM_CERTIFICATE_BEGIN ++ Sample.pin)) Sample.pin); [vm_compute; reflexivity|reflexivity].
Defined.

Lemma forwarded_certificate_roundtrip_witness :
  forwarded_client_certificate_der (X := Sample.x509) Sample.hdrs = Ok Sample.client_der.
Proof.
  apply (forwarded_certificate_roundtrip (X := Sample.x509) Sample.hdrs Sample.client_pem
    (Byte.x63, bs"lient certificate" ++ PEM_CERTIFICATE_END));
    [reflexivity|vm_compute; discriminate|vm_compute; reflexivity|vm_compute; reflexivity].
Defined.

(** A thumbprint is 43 base64url characters, and two thumbprints are equal
    exactly when the SHA-256 digests are. *)
Theorem thumbprint_faithful v w :
  length (base64url_sha256 v) = 43%nat /\
  Forall (fun c => is_b64url c = true) (base64url_sha256 v) /\
  (base64url_sha256 v = base64url_sha256 w <-> sha256 v = sha256 w).
Proof.
  destruct (base64url_sha256_class v). by rewrite base64url_sha256_eq.
Qed.
