(* ===== verification/Backend.v ===== *)
(** The third-party backend, [src/third-party-backend/app.py]: the request
    handler, the upstream call and the evidence filter.  The upstream gateway is
    a parameter of the handler; the readiness endpoint is in [Readiness]. *)
From S2P Require Export Http.

Local Open Scope Z_scope.

Definition API_HOST : pystr := u"kong-api".
Definition API_PORT : Z := 8443.
Definition API_PATH : pystr := u"/fapi-api/evidence".
Definition MAX_RESPONSE_BYTES : Z := 16 * 1024.
Definition MAX_TOKEN_BYTES : Z := 8192.

(** Route, client identifier and client authentication method. *)
Record identity := Identity { id_route : pystr; id_azp : pystr; id_auth : pystr }.
#[export] Instance identity_eq_dec : EqDecision identity.
Proof. solve_decision. Defined.

Definition ROUTES : list (pystr * identity) :=
  [(u"/evidence/route-a", Identity (u"route-a") (u"third-party-fapi-mtls") (u"tls_client_auth"));
   (u"/evidence/route-b", Identity (u"route-b") (u"third-party-fapi-pkj-mtls") (u"private_key_jwt"))].
Definition TEXT_FIELDS : list pystr :=
  [u"department"; u"logical_route"; u"department_header"; u"logical_route_header"].
Definition THUMBPRINT_FIELDS : list pystr :=
  [u"token_certificate_thumbprint"; u"forwarded_client_certificate_thumbprint";
   u"api_gateway_tls_peer_certificate_thumbprint"].
Definition FLAG_FIELDS : list pystr :=
  [u"token_signature_verified"; u"binding_verified"; u"header_claims_match"].

(** ** Inbound checks *)

Definition trusted_peer (peer : option bytes) (pin : bytes) : bool :=
  match peer with
  | Some p => negb (bool_decide (p = [])) && negb (bool_decide (pin = [])) && bool_decide (p = pin)
  | None => false
  end.

(** [[A-Za-z0-9\-._~+/]] *)
Definition is_token_char (c : Z) : bool :=
  is_alnum c || bool_decide (c ∈ u"-._~+/").

(** [[A-Za-z0-9\-._~+/]+=*], anchored at both ends. *)
Fixpoint is_token68_tail (s : pystr) : bool :=
  match s with
  | [] => true
  | c :: s' => if is_token_char c then is_token68_tail s' else forallb (fun c => c =? 61) s
  end.
Definition is_token68 (s : pystr) : bool :=
  match s with [] => false | c :: s' => is_token_char c && is_token68_tail s' end.

(** [re.fullmatch(r"(?i:Bearer) (token68)", v)], group 1. *)
Definition match_bearer (v : pystr) : option pystr :=
  let scheme := take 6 v in
  match drop 6 v with
  | c :: t =>
      if bool_decide (py_lower scheme = u"bearer") && (c =? 32) && is_token68 t
      then Some t else None
  | [] => None
  end.

Definition bearer_token (hs : headers) : option pystr :=
  match get_all_or hs (u"Authorization") [] with
  | [v] => if MAX_TOKEN_BYTES + 7 <? Z.of_nat (length v) then None else match_bearer v
  | _ => None
  end.

(** ** The evidence filter *)

Definition rejected {A} (msg : string) : res A := raise RejectedEvidence msg.

Definition unique_object (pairs : pydict) : res pyval :=
  unique_pairs (Exn RejectedEvidence (u"duplicate field")) [] pairs.

Definition decode_utf8 (b : bytes) : res pystr :=
  res_of_option (Exn UnicodeError (u"invalid utf-8")) (utf8_decode b).

(** [depth] is how deep containers may nest before Python's recursion limit. *)
Definition parse_body (depth : nat) (body : bytes) : res pyval :=
  catch (let* text := decode_utf8 body in loads unique_object default_constant depth text)
    [UnicodeError; ValueError; RecursionError] (fun _ => rejected "invalid JSON").

Definition copy_identity (source result : pydict) (nv : pystr * pystr) : res pydict :=
  if negb (py_eq (dict_get source (fst nv)) (VStr (snd nv)))
  then rejected "wrong route identity"
  else Ok (ainsert (fst nv) (VStr (snd nv)) result).

Definition text_value_ok (value : pyval) : bool :=
  match value with
  | VNone => true
  | VStr s => (length s <=? 256)%nat && negb (existsb is_control s)
  | _ => false
  end.

Definition copy_text (source result : pydict) (name : pystr) : res pydict :=
  let value := dict_get source name in
  if negb (bool_decide (name ∈ source.*1)) || negb (text_value_ok value)
  then rejected "invalid text" else Ok (ainsert name value result).

Definition is_thumbprint (value : pyval) : bool :=
  match value with
  | VStr s => (length s =? 43)%nat && forallb is_b64url s
  | _ => false
  end.

Definition copy_thumbprint (source result : pydict) (name : pystr) : res pydict :=
  let value := dict_get source name in
  if negb (is_thumbprint value) then rejected "invalid thumbprint"
  else Ok (ainsert name value result).

Definition copy_flag (source result : pydict) (name : pystr) : res pydict :=
  let value := dict_get source name in
  if negb (is_bool value)
     || (negb (bool_decide (name = u"header_claims_match")) && negb (is_true value))
  then rejected "invalid verification" else Ok (ainsert name value result).

Definition headers_consistent (result : pydict) : bool :=
  forallb (fun name => py_truthy (dict_get result name)) TEXT_FIELDS
  && py_eq (dict_get result (u"department")) (dict_get result (u"department_header"))
  && py_eq (dict_get result (u"logical_route")) (dict_get result (u"logical_route_header")).

Definition project_source (source : pydict) (expected : identity) : res pydict :=
  let* r1 := foldM_res (copy_identity source)
               [(u"route", id_route expected); (u"azp", id_azp expected);
                (u"client_authentication", id_auth expected)] [] in
  let* r2 := foldM_res (copy_text source) TEXT_FIELDS r1 in
  let* r3 := foldM_res (copy_thumbprint source) THUMBPRINT_FIELDS r2 in
  let* result := foldM_res (copy_flag source) FLAG_FIELDS r3 in
  if negb (py_eq (dict_get result (u"token_certificate_thumbprint"))
             (dict_get result (u"forwarded_client_certificate_thumbprint")))
  then rejected "inconsistent binding"
  else if py_truthy (dict_get result (u"header_claims_match"))
          && negb (headers_consistent result)
  then rejected "inconsistent headers"
  else Ok result.

Definition project_evidence (depth : nat) (body : bytes) (expected : identity) : res pydict :=
  let* source := parse_body depth body in
  match source with
  | VDict source => project_source source expected
  | _ => rejected "invalid object"
  end.

(** ** The upstream call *)

Record outgoing := Outgoing {
  out_host : pystr; out_port : Z; out_method : pystr; out_path : pystr; out_headers : headers
}.

(** A response of the gateway: [reply_read n] is the outcome of [response.read(n)]. *)
Record reply := Reply {
  reply_status : Z; reply_headers : headers; reply_read : Z -> res bytes
}.

(** What happens on the connection, in order; a request is sent over a connection that was
    opened with a TLS context. *)
Inductive event {tls_context : Type} := Sent (context : tls_context) (o : outgoing) | BodyRead (n : Z) | Closed.
Arguments event : clear implicits.

Definition is_digits (s : pystr) : bool :=
  match s with [] => false | _ => forallb is_digit s end.

Definition content_type_ok (hs : headers) : bool :=
  match get_all_or hs (u"Content-Type") [] with
  | [v] => let '(before, _, _) := partition_on 59 v in
           bool_decide (py_lower (py_strip before) = u"application/json")
  | _ => false
  end.

(** [int(v)] of a string of ASCII digits. *)
Definition int_of (v : pystr) : Z := digits_value v.

(** The declared length is absent, or a single number within the bound. *)
Definition lengths_ok (lengths : list pystr) : bool :=
  match lengths with
  | [] => true
  | [v] => (length v <=? 10)%nat && is_digits v && (int_of v <=? MAX_RESPONSE_BYTES)
  | _ => false
  end.

Definition body_size_ok (lengths : list pystr) (body : bytes) : bool :=
  (Z.of_nat (length body) <=? MAX_RESPONSE_BYTES)
  && match lengths with v :: _ => Z.of_nat (length body) =? int_of v | [] => true end.

Definition error_body (s : string) : pydict := [(u"error", jstr s)].

Section upstream.
Context {tls_context : Type} (exchange : tls_context -> outgoing -> res reply) (depth : nat).

Definition evidence_request (token : pystr) : outgoing :=
  Outgoing API_HOST API_PORT (u"GET") API_PATH
    [(u"Authorization", u"Bearer " ++ token); (u"Accept", u"application/json")].

(** The part of the [try] block after [getresponse]. *)
Definition read_reply (r : reply) (expected : identity) : res (Z * pydict) * list (event tls_context) :=
  if bool_decide (reply_status r ∈ [401; 403])
  then (Ok (reply_status r, error_body "upstream_unauthorized"), [])
  else if negb (reply_status r =? 200)
  then (Ok (502, error_body "upstream_unavailable"), [])
  else
    let lengths := get_all_or (reply_headers r) (u"Content-Length") [] in
    if negb (content_type_ok (reply_headers r)) then (rejected "invalid content type", [])
    else if negb (lengths_ok lengths) then (rejected "invalid length", [])
    else
      (let* body := reply_read r (MAX_RESPONSE_BYTES + 1) in
       if negb (body_size_ok lengths body) then rejected "invalid body size"
       else let* evidence := project_evidence depth body expected in Ok (200, evidence),
       [BodyRead (MAX_RESPONSE_BYTES + 1)]).

(** [except (socket.timeout, TimeoutError)], then
    [except (OSError, http.client.HTTPException, RejectedEvidence)]. *)
Definition upstream_failure (e : exn) : res (Z * pydict) :=
  if is_a (exn_cls e) TimeoutError then Ok (504, error_body "upstream_timeout")
  else if existsb (is_a (exn_cls e)) [OSError; HTTPException; RejectedEvidence]
  then Ok (502, error_body "upstream_unavailable")
  else Err e.

Definition fetch_evidence (token : pystr) (expected : identity) (context : tls_context)
    : res (Z * pydict) * list (event tls_context) :=
  let request := evidence_request token in
  let '(outcome, events) :=
    match exchange context request with
    | Ok r => read_reply r expected
    | Err e => (Err e, [])
    end in
  (match outcome with Ok a => Ok a | Err e => upstream_failure e end,
   Sent context request :: events ++ [Closed]).

(** ** The request handler *)

Definition dump_strict : dump_opts := {| sort_keys := false; allow_nan := false |}.

Definition json_response (code : Z) (body : pydict) : res response :=
  let* data := dumps dump_strict (VDict body) in
  Ok (Response code
        [(u"Content-Type", u"application/json"); (u"Cache-Control", u"no-store");
         (u"Content-Length", content_length data); (u"Connection", u"close")] data).

Definition send_error (code : Z) : res response :=
  json_response code (error_body "request_rejected").

Context (gateway_pin : bytes) (route_contexts : list (pystr * tls_context)).

Definition do_GET (peercert : res (option bytes)) (path : pystr) (hs : headers)
    : res response * list (event tls_context) :=
  match peercert with
  | Err e => (Err e, [])
  | Ok peer =>
      if negb (trusted_peer peer gateway_pin)
      then (json_response 401 (error_body "untrusted_gateway"), [])
      else if bool_decide (is_Some (get_all hs (u"Transfer-Encoding")))
              || negb (bool_decide (get_all_or hs (u"Content-Length") [u"0"] = [u"0"]))
      then (json_response 400 (error_body "request_rejected"), [])
      else if bool_decide (path = u"/healthz")
      then (json_response 200 [(u"status", jstr "ok")], [])
      else
        match alookup path ROUTES with
        | None => (json_response 404 (error_body "not_found"), [])
        | Some expected =>
            match bearer_token hs with
            | None => (json_response 401 (error_body "invalid_token"), [])
            | Some token =>
                match alookup (id_route expected) route_contexts with
                | None => (raise KeyError "route context", [])
                | Some context =>
                    let '(outcome, events) := fetch_evidence token expected context in
                    (let* (code, result) := outcome in json_response code result, events)
                end
            end
        end
  end.
End upstream.

(** ** The evidence filter, specified *)

Lemma unique_object_nodup d : NoDup d.*1 -> unique_object d = Ok (VDict d).
Proof.
  intros H. unfold unique_object. rewrite unique_pairs_spec by constructor.
  by rewrite bool_decide_true.
Qed.

(** The names of a projected document, in order. *)
Definition projected_fields : list pystr :=
  [u"route"; u"azp"; u"client_authentication"] ++ TEXT_FIELDS ++ THUMBPRINT_FIELDS ++ FLAG_FIELDS.

Definition projection (source : pydict) : pydict :=
  map (fun n => (n, dict_get source n)) projected_fields.

(** Printable text of at most 256 characters. *)
Definition clean_text (s : pystr) : Prop :=
  (length s <= 256)%nat /\ Forall (fun c => 32 <= c /\ c <> 127) s.
Definition thumbprint_text (s : pystr) : Prop :=
  length s = 43%nat /\ Forall (fun c => is_b64url c = true) s.

(** What a document must say to be accepted for a route. *)
Record evidence_valid (source : pydict) (e : identity) : Prop := {
  ev_route : dict_get source (u"route") = VStr (id_route e);
  ev_azp : dict_get source (u"azp") = VStr (id_azp e);
  ev_auth : dict_get source (u"client_authentication") = VStr (id_auth e);
  ev_text : forall n, n ∈ TEXT_FIELDS ->
    alookup n source = Some VNone \/ exists s, alookup n source = Some (VStr s) /\ clean_text s;
  ev_thumb : forall n, n ∈ THUMBPRINT_FIELDS ->
    exists s, dict_get source n = VStr s /\ thumbprint_text s;
  ev_signature : dict_get source (u"token_signature_verified") = VBool true;
  ev_binding : dict_get source (u"binding_verified") = VBool true;
  ev_same_thumb : dict_get source (u"token_certificate_thumbprint")
                  = dict_get source (u"forwarded_client_certificate_thumbprint");
  ev_match :
    dict_get source (u"header_claims_match") = VBool false \/
    (dict_get source (u"header_claims_match") = VBool true /\
     exists d r, d <> [] /\ r <> [] /\
       dict_get source (u"department") = VStr d /\ dict_get source (u"department_header") = VStr d /\
       dict_get source (u"logical_route") = VStr r /\ dict_get source (u"logical_route_header") = VStr r)
}.

Definition identity_ok (source : pydict) (e : identity) (n : pystr) : bool :=
  match alookup n [(u"route", id_route e); (u"azp", id_azp e); (u"client_authentication", id_auth e)] with
  | Some v => py_eq (dict_get source n) (VStr v)
  | None => false
  end.
Definition text_field_ok (source : pydict) (n : pystr) : bool :=
  bool_decide (n ∈ source.*1) && text_value_ok (dict_get source n).
Definition flag_field_ok (source : pydict) (n : pystr) : bool :=
  is_bool (dict_get source n)
  && (bool_decide (n = u"header_claims_match") || is_true (dict_get source n)).

(** The same conditions as booleans, group by group as the code checks them. *)
Definition fields_ok (source : pydict) (e : identity) : bool :=
  forallb (identity_ok source e) [u"route"; u"azp"; u"client_authentication"]
  && forallb (text_field_ok source) TEXT_FIELDS
  && forallb (fun n => is_thumbprint (dict_get source n)) THUMBPRINT_FIELDS
  && forallb (flag_field_ok source) FLAG_FIELDS.
Definition relations_ok (source : pydict) : bool :=
  py_eq (dict_get source (u"token_certificate_thumbprint"))
        (dict_get source (u"forwarded_client_certificate_thumbprint"))
  && (negb (py_truthy (dict_get source (u"header_claims_match")))
      || headers_consistent source).

Lemma dict_get_projection source n :
  bool_decide (n ∈ projected_fields) = true ->
  dict_get (projection source) n = dict_get source n.
Proof.
  intros Hn%bool_decide_eq_true. unfold dict_get at 1.
  rewrite (alookup_NoDup n (dict_get source n)); [done| |].
  - apply has_dup_false. vm_compute. done.
  - unfold projection. apply list_elem_of_In, in_map_iff. exists n.
    split; [done|by apply list_elem_of_In].
Qed.

(** One loop of the filter. *)
Lemma copy_loop (f : pydict -> pystr -> res pydict) (ok : pystr -> bool)
    (val : pystr -> pyval) e names (r : pydict) :
  (forall r n, f r n = if ok n then Ok (ainsert n (val n) r) else Err e) ->
  has_dup (r.*1 ++ names) = false ->
  foldM_res f names r = if forallb ok names then Ok (r ++ map (fun n => (n, val n)) names)
                        else Err e.
Proof. intros Hf Hd%has_dup_false. by apply foldM_copy. Qed.

Lemma copy_identity_loop source e :
  foldM_res (copy_identity source)
    [(u"route", id_route e); (u"azp", id_azp e); (u"client_authentication", id_auth e)] [] =
  if forallb (identity_ok source e) [u"route"; u"azp"; u"client_authentication"]
  then Ok (map (fun n => (n, dict_get source n)) [u"route"; u"azp"; u"client_authentication"])
  else rejected "wrong route identity".
Proof.
  unfold copy_identity. cbn [foldM_res fst snd forallb map].
  change (identity_ok source e (u"route")) with (py_eq (dict_get source (u"route")) (VStr (id_route e))).
  change (identity_ok source e (u"azp")) with (py_eq (dict_get source (u"azp")) (VStr (id_azp e))).
  change (identity_ok source e (u"client_authentication")) with
    (py_eq (dict_get source (u"client_authentication")) (VStr (id_auth e))).
  destruct (py_eq _ (VStr (id_route e))) eqn:E1; [|done].
  destruct (py_eq _ (VStr (id_azp e))) eqn:E2; [|done].
  destruct (py_eq _ (VStr (id_auth e))) eqn:E3; [|done].
  apply py_eq_str in E1, E2, E3. rewrite E1, E2, E3. done.
Qed.

Lemma copy_text_step source r n :
  copy_text source r n = if text_field_ok source n then Ok (ainsert n (dict_get source n) r)
                         else Err (Exn RejectedEvidence (u"invalid text")).
Proof.
  unfold copy_text, text_field_ok. case_bool_decide; [|done]. by destruct (text_value_ok _).
Qed.

Lemma copy_thumbprint_step source r n :
  copy_thumbprint source r n =
    if is_thumbprint (dict_get source n) then Ok (ainsert n (dict_get source n) r)
    else Err (Exn RejectedEvidence (u"invalid thumbprint")).
Proof. unfold copy_thumbprint. by destruct (is_thumbprint _). Qed.

Lemma copy_flag_step source r n :
  copy_flag source r n = if flag_field_ok source n then Ok (ainsert n (dict_get source n) r)
                         else Err (Exn RejectedEvidence (u"invalid verification")).
Proof.
  unfold copy_flag, flag_field_ok. destruct (is_bool _); [|done].
  case_bool_decide; [done|]. by destruct (is_true _).
Qed.

Lemma headers_consistent_projection source :
  headers_consistent (projection source) = headers_consistent source.
Proof.
  unfold headers_consistent, TEXT_FIELDS. cbn [forallb].
  by rewrite !dict_get_projection by by vm_compute.
Qed.

(** The four loops and the two final checks, as one condition. *)
Lemma project_source_spec source e :
  project_source source e = Ok (projection source) /\
    fields_ok source e = true /\ relations_ok source = true \/
  (exists msg, project_source source e = Err (Exn RejectedEvidence msg)) /\
    (fields_ok source e = false \/ relations_ok source = false).
Proof.
  unfold project_source, fields_ok. rewrite copy_identity_loop.
  destruct (forallb (identity_ok source e) _) eqn:E1; [|right; eauto].
  rewrite (copy_loop _ _ _ _ _ _ (copy_text_step source)) by by vm_compute.
  destruct (forallb (text_field_ok source) _) eqn:E2; [|right; eauto].
  rewrite (copy_loop _ _ _ _ _ _ (copy_thumbprint_step source)) by by vm_compute.
  destruct (forallb _ THUMBPRINT_FIELDS) eqn:E3; [|right; eauto].
  rewrite (copy_loop _ _ _ _ _ _ (copy_flag_step source)) by by vm_compute.
  destruct (forallb (flag_field_ok source) _) eqn:E4; [|right; eauto].
  rewrite <- !map_app. rewrite <- !app_assoc. fold projected_fields. fold (projection source).
  rewrite headers_consistent_projection, !dict_get_projection by by vm_compute. unfold relations_ok.
  destruct (py_eq _ _); [|right; simpl; eauto]. cbn [negb andb].
  destruct (py_truthy _); [|left; auto]. destruct (headers_consistent source); [left|right]; simpl; eauto.
Qed.

Lemma identity_ok_spec source e :
  forallb (identity_ok source e) [u"route"; u"azp"; u"client_authentication"] = true <->
  dict_get source (u"route") = VStr (id_route e) /\ dict_get source (u"azp") = VStr (id_azp e) /\
  dict_get source (u"client_authentication") = VStr (id_auth e).
Proof.
  cbn [forallb]. rewrite !andb_true_iff.
  change (identity_ok source e (u"route")) with (py_eq (dict_get source (u"route")) (VStr (id_route e))).
  change (identity_ok source e (u"azp")) with (py_eq (dict_get source (u"azp")) (VStr (id_azp e))).
  change (identity_ok source e (u"client_authentication")) with
    (py_eq (dict_get source (u"client_authentication")) (VStr (id_auth e))).
  rewrite !py_eq_str. naive_solver.
Qed.

Lemma no_control_spec s :
  existsb is_control s = false <-> Forall (fun c => 32 <= c /\ c <> 127) s.
Proof.
  rewrite existsb_false. apply Forall_proper; [|done]. intros c. unfold is_control.
  rewrite orb_false_iff, Z.ltb_ge, Z.eqb_neq. done.
Qed.

Lemma text_field_ok_spec source n :
  text_field_ok source n = true <->
  alookup n source = Some VNone \/ exists s, alookup n source = Some (VStr s) /\ clean_text s.
Proof.
  unfold text_field_ok, dict_get, clean_text.
  rewrite andb_true_iff, bool_decide_eq_true, <- alookup_is_Some.
  destruct (alookup n source) as [v|]; [|naive_solver].
  destruct v; simpl; try naive_solver.
  rewrite andb_true_iff, negb_true_iff, Nat.leb_le, no_control_spec. naive_solver.
Qed.

Lemma is_thumbprint_spec v :
  is_thumbprint v = true <-> exists s, v = VStr s /\ thumbprint_text s.
Proof.
  destruct v; simpl; try naive_solver. unfold thumbprint_text.
  rewrite andb_true_iff, Nat.eqb_eq, forallb_Forall. naive_solver.
Qed.

Lemma flags_ok_spec source :
  forallb (flag_field_ok source) FLAG_FIELDS = true <->
  dict_get source (u"token_signature_verified") = VBool true /\
  dict_get source (u"binding_verified") = VBool true /\
  exists b, dict_get source (u"header_claims_match") = VBool b.
Proof.
  unfold FLAG_FIELDS, flag_field_ok. cbn [forallb].
  rewrite !andb_true_iff, !orb_true_iff, !bool_decide_eq_true.
  assert (Hb : forall v, is_bool v = true <-> exists b, v = VBool b)
    by (intros []; simpl; naive_solver).
  rewrite !Hb, !is_true_true.
  assert (u"token_signature_verified" <> u"header_claims_match") by done.
  assert (u"binding_verified" <> u"header_claims_match") by done. naive_solver.
Qed.

Lemma headers_consistent_spec source :
  headers_consistent source = true -> (forall n, n ∈ TEXT_FIELDS -> text_field_ok source n = true) ->
  exists d r, d <> [] /\ r <> [] /\
    dict_get source (u"department") = VStr d /\ dict_get source (u"department_header") = VStr d /\
    dict_get source (u"logical_route") = VStr r /\ dict_get source (u"logical_route_header") = VStr r.
Proof.
  unfold headers_consistent. rewrite !andb_true_iff, forallb_Forall, Forall_forall.
  intros [[Ht Hd] Hr] Hok.
  assert (Hs : forall n, bool_decide (n ∈ TEXT_FIELDS) = true ->
                    exists s, dict_get source n = VStr s /\ s <> []).
  { intros n Hn%bool_decide_eq_true. specialize (Ht n Hn). specialize (Hok n Hn).
    apply text_field_ok_spec in Hok. unfold dict_get in *.
    destruct Hok as [E|(s & E & _)]; rewrite E in Ht |- *; [done|].
    exists s. split; [done|]. by intros ->. }
  destruct (Hs (u"department") eq_refl) as (d & Ed & Nd).
  destruct (Hs (u"department_header") eq_refl) as (d' & Ed' & _).
  destruct (Hs (u"logical_route") eq_refl) as (r & Er & Nr).
  destruct (Hs (u"logical_route_header") eq_refl) as (r' & Er' & _).
  rewrite Ed, Ed' in Hd. rewrite Er, Er' in Hr. apply py_eq_str in Hd, Hr.
  simplify_eq. by exists d', r'.
Qed.

Lemma headers_consistent_intro source d r :
  d <> [] -> r <> [] ->
  dict_get source (u"department") = VStr d -> dict_get source (u"department_header") = VStr d ->
  dict_get source (u"logical_route") = VStr r -> dict_get source (u"logical_route_header") = VStr r ->
  headers_consistent source = true.
Proof.
  intros Hd Hr E1 E2 E3 E4. unfold headers_consistent, TEXT_FIELDS. cbn [forallb].
  rewrite E1, E2, E3, E4. cbn [py_truthy py_eq].
  by rewrite !(bool_decide_false (_ = [])), !bool_decide_true.
Qed.

(** The checks of the code are the conditions of [evidence_valid]. *)
Lemma evidence_valid_spec source e :
  fields_ok source e = true /\ relations_ok source = true <-> evidence_valid source e.
Proof.
  unfold fields_ok, relations_ok.
  rewrite !andb_true_iff, identity_ok_spec, flags_ok_spec, !forallb_Forall, !Forall_forall.
  setoid_rewrite is_thumbprint_spec. split.
  - intros [[[[(Hr & Ha & Hc) Ht] Hth] (Hs & Hb & b & Hm)] [Hbind Hcons]].
    destruct (Hth (u"forwarded_client_certificate_thumbprint")) as (f & Ef & _);
      [right; left|].
    split; try done.
    + intros n Hn. by apply text_field_ok_spec, Ht.
    + rewrite Ef in Hbind |- *. by apply py_eq_str in Hbind.
    + destruct b; [right|by left]. split; [done|]. apply headers_consistent_spec; [|done].
      by rewrite Hm in Hcons.
  - intros [Hr Ha Hc Ht Hth Hs Hb Hbind Hm].
    destruct (Hth (u"forwarded_client_certificate_thumbprint")) as (f & Ef & _);
      [right; left|].
    split_and!; try done.
    + intros n Hn. by apply text_field_ok_spec, Ht.
    + destruct Hm as [-> | [-> _]]; eauto.
    + rewrite Hbind, Ef. by apply py_eq_str.
    + destruct Hm as [-> | [-> (d & r & ? & ? & ? & ? & ? & ?)]]; [done|].
      by apply (headers_consistent_intro source d r).
Qed.

Lemma project_source_Ok source e r :
  project_source source e = Ok r <-> evidence_valid source e /\ r = projection source.
Proof.
  rewrite <- evidence_valid_spec.
  destruct (project_source_spec source e) as [(-> & H1 & H2)|[[msg ->] H]].
  - rewrite H1, H2. naive_solver.
  - split; [done|]. intros [[H1 H2] _]. rewrite H1, H2 in H. by destruct H.
Qed.

(** A body is rejected with [RejectedEvidence], never with another exception. *)
Lemma parse_body_Ok depth body v :
  parse_body depth body = Ok v <->
  exists text, utf8_decode body = Some text /\
    loads unique_object default_constant depth text = Ok v.
Proof.
  unfold parse_body, decode_utf8, rejected. rewrite catch_reraise.
  destruct (utf8_decode body); simpl; naive_solver.
Qed.

Lemma parse_body_error depth body e :
  parse_body depth body = Err e -> exn_cls e = RejectedEvidence.
Proof.
  unfold parse_body, decode_utf8, catch, rejected. destruct (utf8_decode body) as [text|].
  2:{ simpl. by intros [= <-]. }
  simpl. destruct (loads unique_object default_constant depth text) as [v|e'] eqn:El; [done|].
  assert (Hc : exn_cls e' <> OutOfFuel).
  { eapply loads_fuel, El; [|done]. unfold unique_object. intros d e0.
    rewrite unique_pairs_spec by constructor. by case_bool_decide; intros [= <-]. }
  apply loads_unique_exn in El; [|done].
  assert (is_a (exn_cls e') ValueError || is_a (exn_cls e') RecursionError = true) as Hi.
  { destruct El as [->|Hr]; [done|]. unfold reader_exn in Hr.
    rewrite !elem_of_cons in Hr. destruct Hr as [Hr|[Hr|[Hr|[Hr|[]%elem_of_nil]]]]; rewrite Hr in *; done. }
  cbn [existsb]. destruct (is_a (exn_cls e') UnicodeError); [by intros [= <-]|].
  destruct (is_a (exn_cls e') ValueError); [by intros [= <-]|].
  destruct (is_a (exn_cls e') RecursionError); [by intros [= <-]|done].
Qed.

Lemma project_evidence_error depth body e err :
  project_evidence depth body e = Err err -> exn_cls err = RejectedEvidence.
Proof.
  unfold project_evidence. destruct (parse_body depth body) as [v|e'] eqn:Ep.
  2:{ intros [= <-]. by eapply parse_body_error. }
  destruct v; try by intros [= <-].
  destruct (project_source_spec d e) as [(-> & _)|[[msg ->] _]]; by intros [= <-].
Qed.

Lemma project_evidence_Ok depth body e r :
  project_evidence depth body e = Ok r <->
  exists text source, utf8_decode body = Some text /\
    loads unique_object default_constant depth text = Ok (VDict source) /\
    evidence_valid source e /\ r = projection source.
Proof.
  unfold project_evidence. split.
  - destruct (parse_body depth body) as [v|] eqn:Ep; [|done].
    apply parse_body_Ok in Ep as (text & Ht & Hl). destruct v as [| | | | | |source]; try done.
    intros [Hv ->]%project_source_Ok. by exists text, source.
  - intros (text & source & Ht & Hl & Hv & ->).
    assert (parse_body depth body = Ok (VDict source)) as -> by (apply parse_body_Ok; eauto).
    by apply project_source_Ok.
Qed.

Lemma projection_flat source e :
  evidence_valid source e -> forallb (fun kv => flat (snd kv)) (projection source) = true.
Proof.
  intros [Hr Ha Hc Ht Hth Hs Hb _ Hm]. apply forallb_Forall, Forall_forall.
  intros [n' v] (n & [= <- <-] & Hin%list_elem_of_In)%list_elem_of_In%in_map_iff. simpl.
  unfold projected_fields in Hin. rewrite !elem_of_app in Hin.
  destruct Hin as [Hin|[Hin|[Hin|Hin]]].
  - rewrite !elem_of_cons in Hin. destruct Hin as [->|[->|[->|[]%elem_of_nil]]];
      by rewrite ?Hr, ?Ha, ?Hc.
  - unfold dict_get. by destruct (Ht n Hin) as [-> | (s & -> & _)].
  - by destruct (Hth n Hin) as (s & -> & _).
  - unfold FLAG_FIELDS in Hin. rewrite !elem_of_cons in Hin.
    destruct Hin as [->|[->|[->|[]%elem_of_nil]]]; rewrite ?Hs, ?Hb; try done.
    destruct Hm as [-> | [-> _]]; done.
Qed.

Lemma projection_valid source e : evidence_valid source e -> evidence_valid (projection source) e.
Proof.
  assert (Hin : forall n l, l ⊆ projected_fields -> n ∈ l ->
                       dict_get (projection source) n = dict_get source n).
  { intros n l Hl Hn. apply dict_get_projection, bool_decide_eq_true. by apply Hl. }
  assert (Htext : TEXT_FIELDS ⊆ projected_fields)
    by (intros x Hx; unfold projected_fields; rewrite !elem_of_app; auto).
  assert (Hthumb : THUMBPRINT_FIELDS ⊆ projected_fields)
    by (intros x Hx; unfold projected_fields; rewrite !elem_of_app; auto).
  intros [Hr Ha Hc Ht Hth Hs Hb Hbind Hm]. split;
    (rewrite ?dict_get_projection by (by vm_compute)); try done.
  - intros n Hn. assert (alookup n (projection source) = Some (dict_get source n)) as ->.
    { apply alookup_NoDup; [apply has_dup_false; by vm_compute|].
      apply list_elem_of_In, in_map_iff. exists n. split; [done|]. apply list_elem_of_In.
      by apply Htext. }
    unfold dict_get. destruct (Ht n Hn) as [-> | (s & -> & Hs')]; eauto.
  - intros n Hn. rewrite (Hin n THUMBPRINT_FIELDS) by done.
    by apply Hth.
Qed.

Lemma projection_idem source : projection (projection source) = projection source.
Proof.
  unfold projection at 1 3. apply map_ext_in. intros n Hn. f_equal.
  apply dict_get_projection, bool_decide_eq_true. by apply list_elem_of_In.
Qed.

(** ** The upstream call and the handler *)

(** The network fails with operating-system and protocol errors only. *)
Definition network_exn {A} (m : res A) : Prop :=
  forall e, m = Err e -> existsb (is_a (exn_cls e)) [OSError; HTTPException] = true.

Definition is_timeout {A} (m : res A) : Prop :=
  exists e, m = Err e /\ is_a (exn_cls e) TimeoutError = true.

Section handler.
Context {tls_context : Type} (exchange : tls_context -> outgoing -> res reply) (depth : nat).
(** The reply is a complete, well-formed document for the route. *)
Definition good_reply (r : reply) (expected : identity) (result : pydict) : Prop :=
  reply_status r = 200 /\ content_type_ok (reply_headers r) = true /\
  let lengths := get_all_or (reply_headers r) (u"Content-Length") [] in
  lengths_ok lengths = true /\
  exists body, reply_read r (MAX_RESPONSE_BYTES + 1) = Ok body /\
    body_size_ok lengths body = true /\ project_evidence depth body expected = Ok result.

Context (pin : bytes) (contexts : list (pystr * tls_context)).
Context (Hcontexts : forall p e, alookup p ROUTES = Some e -> is_Some (alookup (id_route e) contexts)).

Lemma backend_response_flat code d :
  forallb (fun kv => flat (snd kv)) d = true ->
  exists r, json_response code d = Ok r /\ status r = code
            /\ dumps dump_strict (VDict d) = Ok (resp_body r).
Proof.
  intros H. unfold json_response. destruct (dumps_flat_dict dump_strict d H) as [t Ht].
  rewrite Ht. by eexists.
Qed.

Lemma trusted_peer_spec peer : trusted_peer peer pin = true <-> peer = Some pin /\ pin <> [].
Proof.
  unfold trusted_peer. destruct peer as [p|]; [|naive_solver].
  repeat case_bool_decide; simpl; naive_solver.
Qed.

(** A request that reaches the upstream call. *)
Record forwarded (peercert : res (option bytes)) (path : pystr) (hs : headers)
    (expected : identity) (token : pystr) (context : tls_context) : Prop := {
  fw_peer : peercert = Ok (Some pin) /\ pin <> [];
  fw_framing : get_all hs (u"Transfer-Encoding") = None /\
               get_all_or hs (u"Content-Length") [u"0"] = [u"0"];
  fw_route : alookup path ROUTES = Some expected;
  fw_token : bearer_token hs = Some token;
  fw_context : alookup (id_route expected) contexts = Some context
}.

Lemma do_GET_forwarded peercert path hs expected token context :
  forwarded peercert path hs expected token context ->
  do_GET exchange depth pin contexts peercert path hs =
    let '(outcome, events) := fetch_evidence exchange depth token expected context in
    (let* (code, result) := outcome in json_response code result, events).
Proof.
  intros [[-> Hp] [H1 H2] Hr Ht Hc]. unfold do_GET.
  rewrite (proj2 (trusted_peer_spec _)) by done. cbn [negb].
  rewrite H1, H2, bool_decide_false by by intros [].
  rewrite bool_decide_true by done. cbn [negb orb].
  rewrite bool_decide_false by by intros ->. by rewrite Hr, Ht, Hc.
Qed.

(** Every other request is answered locally. *)
Lemma do_GET_local peer path hs :
  (exists expected token context, forwarded (Ok peer) path hs expected token context) \/
  exists r, do_GET exchange depth pin contexts (Ok peer) path hs = (Ok r, []) /\
    status r ∈ [200; 400; 401; 404] /\
    (status r = 200 -> path = u"/healthz") /\
    (trusted_peer peer pin = false -> status r = 401).
Proof.
  assert (Hlocal : forall code d, forallb (fun kv => flat (snd kv)) d = true ->
    exists r, (json_response code d, @nil (event tls_context)) = (Ok r, []) /\ status r = code).
  { intros code d Hd. destruct (backend_response_flat code d Hd) as (r & -> & Hs & _). eauto. }
  unfold do_GET. destruct (trusted_peer peer pin) eqn:Et; cbn [negb].
  2:{ right. destruct (Hlocal 401 (error_body "untrusted_gateway")) as (r & Hr & Hs); [done|].
      exists r. rewrite Hs. split_and!; [done|set_solver|done..]. }
  apply trusted_peer_spec in Et as [-> Hp].
  destruct (bool_decide (is_Some (get_all hs (u"Transfer-Encoding")))
            || negb (bool_decide (get_all_or hs (u"Content-Length") [u"0"] = [u"0"]))) eqn:Ef.
  { right. destruct (Hlocal 400 (error_body "request_rejected")) as (r & Hr & Hs); [done|].
    exists r. rewrite Hs. split_and!; [done|set_solver|done..]. }
  bool_prop. case_bool_decide as Hh.
  { right. destruct (Hlocal 200 [(u"status", jstr "ok")]) as (r & Hr & Hs); [done|].
    exists r. rewrite Hs. split_and!; [done|set_solver|done..]. }
  destruct (alookup path ROUTES) as [expected|] eqn:Er.
  2:{ right. destruct (Hlocal 404 (error_body "not_found")) as (r & Hr & Hs); [done|].
      exists r. rewrite Hs. split_and!; [done|set_solver|done..]. }
  destruct (bearer_token hs) as [token|] eqn:Eb.
  2:{ right. destruct (Hlocal 401 (error_body "invalid_token")) as (r & Hr & Hs); [done|].
      exists r. rewrite Hs. split_and!; [done|set_solver|done..]. }
  left. destruct (Hcontexts _ _ Er) as [context Hc]. exists expected, token, context.
  split; [done| |done..]. split; [|done]. destruct (get_all _ _) eqn:Eg; [|done].
  destruct H. by eexists.
Qed.

Context (Hexchange : forall c o, network_exn (exchange c o)).
Context (Hread : forall c o r n, exchange c o = Ok r -> network_exn (reply_read r n)).

Lemma upstream_failure_network {A} (m : res A) e :
  network_exn m -> m = Err e ->
  upstream_failure e =
    if is_a (exn_cls e) TimeoutError then Ok (504, error_body "upstream_timeout")
    else Ok (502, error_body "upstream_unavailable").
Proof.
  intros Hn He. specialize (Hn e He). unfold upstream_failure.
  destruct (is_a _ TimeoutError); [done|]. cbn [existsb] in *. by destruct (is_a _ OSError), (is_a _ HTTPException).
Qed.

Lemma upstream_failure_rejected e :
  exn_cls e = RejectedEvidence ->
  upstream_failure e = Ok (502, error_body "upstream_unavailable").
Proof. intros H. unfold upstream_failure. by rewrite H. Qed.

(** The outcome of the exchange and of the read, classified. *)
Lemma fetch_evidence_cases token expected context :
  exists code result events,
    fetch_evidence exchange depth token expected context =
      (Ok (code, result), Sent context (evidence_request token) :: events ++ [Closed]) /\
    (events = [] \/ events = [BodyRead (MAX_RESPONSE_BYTES + 1)]) /\
    ((code = 200 /\ exists r, exchange context (evidence_request token) = Ok r
                              /\ good_reply r expected result) \/
     (result = error_body "upstream_unauthorized" /\ (code = 401 \/ code = 403) /\
      exists r, exchange context (evidence_request token) = Ok r /\ reply_status r = code) \/
     (result = error_body "upstream_timeout" /\ code = 504) \/
     (result = error_body "upstream_unavailable" /\ code = 502)).
Proof.
  unfold fetch_evidence.
  destruct (exchange context (evidence_request token)) as [r|e] eqn:Ex.
  2:{ rewrite (upstream_failure_network _ _ (Hexchange _ _) Ex).
      destruct (is_a _ _); eexists _, _, []; split_and!; auto 10. }
  unfold read_reply. case_bool_decide as H1.
  { eexists _, _, []. split_and!; [done|auto|]. right. left. split; [done|].
    rewrite !elem_of_cons in H1. split; [|by exists r].
    destruct H1 as [?|[?|[]%elem_of_nil]]; auto. }
  destruct (reply_status r =? 200) eqn:H2; cbn [negb]; bool_prop.
  2:{ eexists _, _, []. split_and!; auto 10. }
  destruct (content_type_ok _) eqn:Hct; cbn [negb].
  2:{ eexists _, _, []. split_and!; [done|auto 10..]. }
  destruct (lengths_ok _) eqn:Hl; cbn [negb].
  2:{ eexists _, _, []. split_and!; [done|auto 10..]. }
  destruct (reply_read r _) as [body|e] eqn:Er.
  2:{ rewrite (upstream_failure_network _ _ (Hread _ _ _ _ Ex) Er).
      destruct (is_a _ _); eexists _, _, [_]; split_and!; auto 10. }
  destruct (body_size_ok _ body) eqn:Hb; cbn [negb].
  2:{ eexists _, _, [_]. split_and!; [done|auto 10..]. }
  destruct (project_evidence depth body expected) as [result|e] eqn:Ep.
  2:{ eexists _, _, [_]. cbn beta iota.
      rewrite upstream_failure_rejected by (by eapply project_evidence_error).
      split_and!; auto 10. }
  eexists _, _, [_]. split_and!; [done|auto|]. left. split; [done|]. exists r. split; [done|].
  unfold good_reply. cbv zeta. eauto 10.
Qed.
End handler.

(** ** The bearer parser *)

Lemma forallb_padding s : forallb (fun c => c =? 61) s = true -> s = replicate (length s) 61.
Proof.
  induction s as [|c s IH]; [done|]. simpl. intros [->%Z.eqb_eq H]%andb_true_iff.
  by rewrite <- IH.
Qed.

Lemma is_token68_tail_spec s :
  is_token68_tail s = true <->
  exists core n, s = (core ++ replicate n 61) /\ Forall (fun c => is_token_char c = true) core.
Proof.
  induction s as [|c s IH]; cbn [is_token68_tail].
  { split; [intros _; by exists [], 0%nat|done]. }
  destruct (is_token_char c) eqn:Ec.
  - rewrite IH. split.
    + intros (core & n & -> & Hc). exists (c :: core), n. split; [done|by constructor].
    + intros ([|d core] & n & E & Hc).
      * destruct n as [|n]; [done|]. injection E as -> ->. by vm_compute in Ec.
      * injection E as -> ->. apply Forall_cons in Hc as [_ Hc]. by exists core, n.
  - split.
    + intros Hs%forallb_padding. by exists [], (length (c :: s)).
    + intros ([|d core] & n & E & Hc).
      * destruct n as [|n]; [done|]. injection E as -> ->. apply forallb_Forall.
        apply (Forall_replicate (fun c => (c =? 61) = true) (S n)). done.
      * injection E as -> ->. apply Forall_cons in Hc as [Hc _]. congruence.
Qed.

Lemma is_token68_spec t :
  is_token68 t = true <->
  exists core n, t = (core ++ replicate n 61) /\ core <> [] /\
    Forall (fun c => is_token_char c = true) core.
Proof.
  destruct t as [|c t]; cbn [is_token68].
  - split; [done|]. intros ([|] & n & E & H & _); done.
  - rewrite andb_true_iff, is_token68_tail_spec. split.
    + intros [Hc (core & n & -> & H)]. exists (c :: core), n. by repeat constructor.
    + intros ([|d core] & n & E & H & Hc); [done|]. injection E as -> ->.
      apply Forall_cons in Hc as [? Hc]. split; [done|]. by exists core, n.
Qed.

Lemma scheme_length s : py_lower s = u"bearer" -> length s = 6%nat.
Proof. intros H%(f_equal length). unfold py_lower in H. by rewrite length_map in H. Qed.

Lemma match_bearer_spec v t :
  match_bearer v = Some t <->
  exists scheme, v = (scheme ++ (32 :: t)) /\ py_lower scheme = u"bearer" /\ is_token68 t = true.
Proof.
  unfold match_bearer. split.
  - destruct (drop 6 v) as [|c r] eqn:Ed; [done|]. case_match eqn:Ec; [|done].
    intros [= ->]. bool_prop. subst c. exists (take 6 v). split_and!; try done.
    by rewrite <- Ed, take_drop.
  - intros (scheme & -> & Hs & Ht). pose proof (scheme_length _ Hs) as Hl.
    rewrite <- Hl, drop_app_length, take_app_length.
    rewrite Hs, Ht, bool_decide_true by done. done.
Qed.

Lemma backend_bearer_spec hs t :
  bearer_token hs = Some t <->
  exists scheme, header_values hs (u"Authorization") = [(scheme ++ (32 :: t))] /\
    py_lower scheme = u"bearer" /\ Z.of_nat (length t) <= MAX_TOKEN_BYTES /\
    is_token68 t = true.
Proof.
  unfold bearer_token. rewrite get_all_or_nil. split.
  - destruct (header_values hs (u"Authorization")) as [|v [|]]; try done.
    case_match eqn:El; [done|]. bool_prop. intros (scheme & -> & Hs & Ht)%match_bearer_spec.
    pose proof (scheme_length _ Hs). rewrite length_app in El. cbn [length] in El.
    exists scheme. split_and!; [done..|lia|done].
  - intros (scheme & -> & Hs & Hl & Ht). pose proof (scheme_length _ Hs).
    rewrite (proj2 (Z.ltb_ge _ _)); [|rewrite length_app; cbn [length]; lia].
    apply match_bearer_spec. by exists scheme.
Qed.

(** ** A concrete gateway

    One upstream that answers the two routes with a fixed document each. *)
Module Sample.
Definition thumb : pystr := replicate 43 65.
Definition doc (e : identity) : pydict :=
  [(u"azp", VStr (id_azp e)); (u"route", VStr (id_route e));
   (u"client_authentication", VStr (id_auth e)); (u"extra", VInt 1);
   (u"token_certificate_thumbprint", VStr thumb);
   (u"forwarded_client_certificate_thumbprint", VStr thumb);
   (u"api_gateway_tls_peer_certificate_thumbprint", VStr thumb);
   (u"token_signature_verified", VBool true); (u"binding_verified", VBool true);
   (u"department", VNone); (u"logical_route", jstr "route-a");
   (u"department_header", VNone); (u"logical_route_header", VNone);
   (u"header_claims_match", VBool false)].
Definition route_a : identity :=
  Identity (u"route-a") (u"third-party-fapi-mtls") (u"tls_client_auth").
Definition body (e : identity) : bytes :=
  match dumps dump_strict (VDict (doc e)) with Ok t => map byte_of_Z t | Err _ => [] end.
Definition exchange (c : identity) (o : outgoing) : res reply :=
  if bool_decide (out_host o = API_HOST)
  then Ok (Reply 200 [(u"content-type", u"Application/JSON; charset=utf-8")]
             (fun n => Ok (take (Z.to_nat n) (body c))))
  else raise TimeoutError "timed out".
Definition pin : bytes := bs"gateway".
Definition contexts : list (pystr * identity) :=
  map (fun kv => (id_route (snd kv), snd kv)) ROUTES.
Definition hdrs : headers := [(u"Authorization", u"bearer abc.def~+/-_=="); (u"Host", u"x")].

Lemma exchange_network c o : network_exn (exchange c o).
Proof. intros e. unfold exchange. case_bool_decide; [done|]. by intros [= <-]. Qed.
Lemma read_network c o r n : exchange c o = Ok r -> network_exn (reply_read r n).
Proof. unfold exchange. case_bool_decide; [|done]. by intros [= <-] e. Qed.
Lemma contexts_cover p e : alookup p ROUTES = Some e -> is_Some (alookup (id_route e) contexts).
Proof.
  intros H%alookup_Some_in. unfold ROUTES in H. rewrite !elem_of_cons in H.
  destruct H as [[= -> ->]|[[= -> ->]|[]%elem_of_nil]]; by eexists.
Qed.
End Sample.

(** ** Theorems *)

(** C28: the evidence filter accepts a body exactly when it is strict UTF-8 JSON,
    an object without repeated keys at any depth, that is valid for the route
    that was asked for; its result is the projection on the allowed names, and
    every other outcome is [RejectedEvidence]. *)
Theorem project_evidence_exact depth body e :
  match project_evidence depth body e with
  | Ok r => exists text source, utf8_decode body = Some text /\
      loads unique_object default_constant depth text = Ok (VDict source) /\
      wf_val (VDict source) = true /\ evidence_valid source e /\
      r = map (fun n => (n, dict_get source n)) projected_fields
  | Err err => exn_cls err = RejectedEvidence /\
      ~ exists text source, utf8_decode body = Some text /\
          loads unique_object default_constant depth text = Ok (VDict source) /\
          evidence_valid source e
  end.
Proof.
  destruct (project_evidence depth body e) as [r|err] eqn:Ep.
  - apply project_evidence_Ok in Ep as (text & source & Ht & Hl & Hv & ->).
    exists text, source. split_and!; try done. eapply loads_unique_wf, Hl. by intros f v [= <-].
  - split; [by eapply project_evidence_error|]. intros (text & source & Ht & Hl & Hv).
    assert (project_evidence depth body e = Ok (projection source)) as H.
    { apply project_evidence_Ok. eauto 6. }
    congruence.
Qed.

(** An accepted document has exactly the allowed names, is itself valid for
    the route, is a fixed point of the projection, and can be written. *)
Theorem project_evidence_closed depth body e r :
  project_evidence depth body e = Ok r ->
  r.*1 = projected_fields /\ evidence_valid r e /\ projection r = r /\
  exists t, dumps dump_strict (VDict r) = Ok t.
Proof.
  intros (text & source & _ & _ & Hv & ->)%project_evidence_Ok. split_and!.
  - unfold projection. rewrite <- list_fmap_compose. apply list_fmap_id.
  - by apply projection_valid.
  - apply projection_idem.
  - by eapply dumps_flat_dict, projection_flat.
Qed.

Lemma project_evidence_closed_witness :
  exists r, project_evidence 100 (Sample.body Sample.route_a) Sample.route_a = Ok r /\
    r.*1 = projected_fields.
Proof.
  pose proof (eq_refl : is_ok (project_evidence 100 (Sample.body Sample.route_a) Sample.route_a)
                        = true) as H.
  destruct (project_evidence 100 (Sample.body Sample.route_a) Sample.route_a) as [r|e] eqn:E;
    [|discriminate H].
  exists r. split; [reflexivity|]. apply (project_evidence_closed _ _ _ _ E).
Defined.

(** the bearer parser accepts one header value of at most 8199 characters
    that is the word [Bearer] in any case, one space and a token68. *)
Theorem backend_bearer_exact hs t :
  bearer_token hs = Some t <->
  exists scheme, header_values hs (u"Authorization") = [(scheme ++ (32 :: t))] /\
    py_lower scheme = u"bearer" /\ Z.of_nat (length t) <= MAX_TOKEN_BYTES /\
    exists core n, t = (core ++ replicate n 61) /\ core <> [] /\
      Forall (fun c => is_token_char c = true) core.
Proof.
  rewrite backend_bearer_spec. setoid_rewrite is_token68_spec. done.
Qed.

Section theorems.
Context {tls_context : Type} (exchange : tls_context -> outgoing -> res reply) (depth : nat).
Context (pin : bytes) (contexts : list (pystr * tls_context)).

(** What a request that touched the network did. *)
Lemma do_GET_contact peercert path hs r events :
  do_GET exchange depth pin contexts peercert path hs = (r, events) -> events <> [] ->
  exists expected token context mid,
    forwarded pin contexts peercert path hs expected token context /\
    (mid = [] \/ mid = [BodyRead (MAX_RESPONSE_BYTES + 1)]) /\
    events = Sent context (evidence_request token) :: mid ++ [Closed] /\
    forall exchange', exchange' context (evidence_request token) = exchange context (evidence_request token) ->
      do_GET exchange' depth pin contexts peercert path hs = (r, events).
Proof.
  unfold do_GET. destruct peercert as [peer|e]; [|by intros [= <- <-]].
  destruct (trusted_peer peer pin) eqn:Et; [|by intros [= <- <-]]. cbn [negb].
  apply trusted_peer_spec in Et as [-> Hp].
  destruct (bool_decide (is_Some _) || negb _) eqn:Ef; [by intros [= <- <-]|].
  destruct (bool_decide (path = _)); [by intros [= <- <-]|].
  destruct (alookup path ROUTES) as [expected|] eqn:Er; [|by intros [= <- <-]].
  destruct (bearer_token hs) as [token|] eqn:Eb; [|by intros [= <- <-]].
  destruct (alookup (id_route expected) contexts) as [context|] eqn:Ec; [|by intros [= <- <-]].
  unfold fetch_evidence. destruct (match exchange _ _ with Ok _ => _ | Err _ => _ end)
    as [outcome mid] eqn:Em. intros [= <- <-] _.
  exists expected, token, context, mid. split_and!; [| |done|].
  - apply orb_false_iff in Ef as [E1%bool_decide_eq_false E2%negb_false_iff%bool_decide_eq_true].
    constructor; [done| |done..]. split; [by apply eq_None_not_Some|done].
  - destruct (exchange context (evidence_request token)) as [rep|e]; [|injection Em; auto].
    unfold read_reply in Em. repeat case_match; injection Em; auto.
  - intros exchange' ->. by rewrite Em.
Qed.

(** C4: the upstream is contacted only for a trusted peer on one of the two
    routes with a well-formed token; then there is one exchange, over a
    connection with the TLS context of that route, with the fixed destination,
    method, path and headers, at most one bounded read, and the connection is
    closed.  The answer depends on that exchange alone. *)
Theorem upstream_contact_gated peercert path hs r events :
  do_GET exchange depth pin contexts peercert path hs = (r, events) -> events <> [] ->
  exists expected token context request,
    peercert = Ok (Some pin) /\ pin <> [] /\
    alookup path ROUTES = Some expected /\ bearer_token hs = Some token /\
    alookup (id_route expected) contexts = Some context /\
    request = Outgoing (u"kong-api") 8443 (u"GET") (u"/fapi-api/evidence")
                [(u"Authorization", u"Bearer " ++ token); (u"Accept", u"application/json")] /\
    (exists mid, (mid = [] \/ mid = [BodyRead 16385]) /\ events = Sent context request :: mid ++ [Closed]) /\
    forall exchange', exchange' context request = exchange context request ->
      do_GET exchange' depth pin contexts peercert path hs = (r, events).
Proof.
  intros Hg Hne. destruct (do_GET_contact _ _ _ _ _ Hg Hne)
    as (expected & token & context & mid & [[H1 H2] _ H3 H4 H5] & Hmid & He & Hx).
  exists expected, token, context, (evidence_request token). split_and!; try done. by exists mid.
Qed.

Context (Hexchange : forall c o, network_exn (exchange c o)).
Context (Hread : forall c o r n, exchange c o = Ok r -> network_exn (reply_read r n)).
Context (Hcontexts : forall p e, alookup p ROUTES = Some e -> is_Some (alookup (id_route e) contexts)).

(** C29: whatever the network does, every request is answered.  A 200 answer
    on a path other than the health check carries exactly the projection of
    a complete upstream document that is valid for the identity of that path;
    an untrusted peer gets 401. *)
Theorem backend_answers peer path hs :
  exists r events, do_GET exchange depth pin contexts (Ok peer) path hs = (Ok r, events) /\
    status r ∈ [200; 400; 401; 403; 404; 502; 504] /\
    (trusted_peer peer pin = false -> status r = 401 /\ events = []) /\
    (status r = 200 -> path <> u"/healthz" ->
     exists expected token context rep source,
       forwarded pin contexts (Ok peer) path hs expected token context /\
       exchange context (evidence_request token) = Ok rep /\
       good_reply depth rep expected (projection source) /\
       evidence_valid source expected /\
       dumps dump_strict (VDict (projection source)) = Ok (resp_body r)).
Proof.
  destruct (do_GET_local exchange depth pin contexts Hcontexts peer path hs)
    as [(expected & token & context & Hf)|(r & Hr & Hs & H200 & Hun)].
  2:{ exists r, []. split_and!; [done| |auto|naive_solver].
      set_solver. }
  rewrite (do_GET_forwarded exchange depth pin contexts _ _ _ _ _ _ Hf).
  assert (Hun : trusted_peer peer pin = false -> False).
  { destruct Hf as [[[= ->] Hp] _ _ _ _]. by rewrite (proj2 (trusted_peer_spec pin _)). }
  destruct (fetch_evidence_cases exchange depth Hexchange Hread token expected context)
    as (code & result & events & -> & _ & Hcases).
  assert (Herr : code <> 200 -> forallb (fun kv => flat (snd kv)) result = true /\
                            code ∈ [200; 400; 401; 403; 404; 502; 504]).
  { rewrite !elem_of_cons. intros Hc. destruct Hcases as [[? _]|[[-> [Hc' _]]|[[-> ->]|[-> ->]]]];
      [done|split; [done|tauto]..]. }
  destruct (decide (code = 200)) as [->|Hne].
  2:{ destruct (Herr Hne) as [Hflat Hcode].
      destruct (backend_response_flat code result Hflat) as (r & -> & Hs & _).
      eexists r, _. split_and!; [done|by rewrite Hs|naive_solver|congruence]. }
  destruct Hcases as [[_ (rep & Hx & Hg)]|[[_ [[?|?] _]]|[[_ ?]|[_ ?]]]]; try done.
  pose proof Hg as (_ & _ & _ & body & _ & _ & Hp). apply project_evidence_Ok in Hp
    as (text & source & _ & _ & Hv & ->).
  destruct (backend_response_flat 200 (projection source)) as (r & -> & Hs & Hd);
    [by eapply projection_flat|].
  eexists r, _. split_and!; [done| |naive_solver|].
  - rewrite Hs. rewrite elem_of_cons. by left.
  - intros _ _. exists expected, token, context, rep, source. done.
Qed.
End theorems.

Lemma upstream_contact_gated_witness :
  exists expected token context request mid,
    alookup (u"/evidence/route-b") ROUTES = Some expected /\ id_route expected = u"route-b" /\
    bearer_token Sample.hdrs = Some token /\
    alookup (id_route expected) Sample.contexts = Some context /\
    snd (do_GET Sample.exchange 100 Sample.pin Sample.contexts
      (Ok (Some Sample.pin)) (u"/evidence/route-b") Sample.hdrs) = Sent context request :: mid ++ [Closed].
Proof.
  pose proof (eq_refl : bool_decide (length (snd (do_GET Sample.exchange 100 Sample.pin Sample.contexts
    (Ok (Some Sample.pin)) (u"/evidence/route-b") Sample.hdrs)) = 0%nat) = false) as H.
  destruct (do_GET Sample.exchange 100 Sample.pin Sample.contexts
    (Ok (Some Sample.pin)) (u"/evidence/route-b") Sample.hdrs) as [r events] eqn:E.
  assert (Hne : events <> []).
  { apply bool_decide_eq_false in H. intros ->. by apply H. }
  destruct (upstream_contact_gated _ _ _ _ _ _ _ _ _ E Hne)
    as (expected & token & context & request & _ & _ & H1 & H2 & H3 & _ & (mid & _ & H4) & _).
  exists expected, token, context, request, mid. split; [exact H1|]. split; [|split; [exact H2|split; [exact H3|exact H4]]].
  vm_compute in H1. injection H1 as <-. reflexivity.
Defined.

Lemma backend_answers_witness :
  exists r events, do_GET Sample.exchange 100 Sample.pin Sample.contexts
    (Ok (Some Sample.pin)) (u"/evidence/route-b") Sample.hdrs = (Ok r, events).
Proof.
  destruct (backend_answers Sample.exchange 100 Sample.pin Sample.contexts
    Sample.exchange_network Sample.read_network Sample.contexts_cover
    (Some Sample.pin) (u"/evidence/route-b") Sample.hdrs) as (r & events & H & _).
  exists r, events. exact H.
Defined.
