(* ===== verification/EvidencePath.v ===== *)
(** The evidence path: what the verifier of [PopVerifier] answers is what the
    backend of [Backend] is given through the gateways between them.  The
    gateways are the [exchange] of the backend; the theorems say what happens
    when they pass the verifier's answer on unchanged. *)
From S2P Require PopVerifier Backend.
From S2P Require Export Http.

Local Open Scope Z_scope.

(** The bytes on the wire. *)
Definition wire_body (r : response) : bytes := map byte_of_Z (resp_body r).

(** The answer of the verifier as the backend reads it. *)
Definition relay (r : response) : Backend.reply :=
  Backend.Reply (status r) (resp_headers r) (fun n => Ok (take (Z.to_nat n) (wire_body r))).

(** The route tables of the two services agree. *)
Lemma route_tables_agree p e :
  alookup p Backend.ROUTES = Some e ->
  alookup (Backend.id_azp e) PopVerifier.AZP_ROUTES =
    Some (Backend.id_route e, Backend.id_auth e).
Proof.
  intros H%alookup_Some_in. unfold Backend.ROUTES in H. rewrite !elem_of_cons in H.
  destruct H as [[= -> ->]|[[= -> ->]|[]%elem_of_nil]]; reflexivity.
Qed.

(** The four texts of a document that the backend restricts. *)
Definition doc_texts (hs : headers) (claims : pydict) : list pyval :=
  [PopVerifier.safe_evidence_text (dict_get claims PopVerifier.DEPARTMENT_CLAIM);
   PopVerifier.safe_evidence_text (dict_get claims PopVerifier.ROUTE_CLAIM);
   PopVerifier.safe_evidence_text (PopVerifier.header_value hs (u"X-Demo-Department"));
   PopVerifier.safe_evidence_text (PopVerifier.header_value hs (u"X-Demo-Route"))].

(** Their length is bounded by the verifier; what is left to the backend is that no character
    is below 32 or is 127. *)
Lemma doc_texts_ok hs claims :
  forallb Backend.text_value_ok (doc_texts hs claims) = true <->
  forall s, VStr s ∈ doc_texts hs claims -> Forall (fun c => 32 <= c /\ c <> 127) s.
Proof.
  rewrite forallb_Forall, Forall_forall.
  assert (Hshape : forall v, v ∈ doc_texts hs claims -> v = VNone \/ exists s, v = VStr s /\ (length s <= 256)%nat).
  { intros v Hv. assert (exists w, v = PopVerifier.safe_evidence_text w) as [w ->].
    { unfold doc_texts in Hv. rewrite !elem_of_cons in Hv.
      destruct Hv as [->|[->|[->|[->|[]%elem_of_nil]]]]; by eexists. }
    destruct (PopVerifier.safe_evidence_text_cases w) as [-> | [s Hs]]; [by left|]. right. exists s. split; [done|].
    by apply PopVerifier.safe_evidence_text_spec in Hs as [_ Hs]. }
  split.
  - intros H s Hs. specialize (H _ Hs). cbn [Backend.text_value_ok] in H.
    apply andb_true_iff in H as [_ H%negb_true_iff]. by apply Backend.no_control_spec.
  - intros H v Hv. destruct (Hshape v Hv) as [->|(s & -> & Hl)]; [done|]. cbn [Backend.text_value_ok].
    apply andb_true_iff. split; [by apply Nat.leb_le|]. apply negb_true_iff, Backend.no_control_spec. by apply H.
Qed.

(** Text that JSON carries faithfully: no high surrogate before a low one. *)
Definition faithful (v : pyval) : bool := match v with VStr s => str_ok s | _ => true end.

Section doc.
Context (hs : headers) (claims : pydict) (azp route auth : pystr) (tt pt : bytes).

Definition verifier_doc : pydict :=
  PopVerifier.evidence_doc hs claims azp route auth (PopVerifier.base64url_sha256 tt)
    (PopVerifier.base64url_sha256 tt) (PopVerifier.base64url_sha256 pt).

Lemma verifier_doc_flat : forallb (fun kv => flat (snd kv)) verifier_doc = true.
Proof. apply PopVerifier.evidence_flat. Qed.

(** The size of a document is bounded by what its texts can add. *)
Lemma safe_text_size v :
  (length (flat_text (PopVerifier.safe_evidence_text v)) <= 3074)%nat.
Proof.
  destruct (PopVerifier.safe_evidence_text_cases v) as [-> | [s Hs]]; [simpl; lia|].
  rewrite Hs. apply PopVerifier.safe_evidence_text_spec in Hs as [_ Hl].
  pose proof (proj2 (json_str_ascii s)). cbn [flat_text]. lia.
Qed.

Lemma thumbprint_size v :
  length (flat_text (VStr (PopVerifier.base64url_sha256 v))) = 45%nat.
Proof.
  cbn [flat_text]. destruct (PopVerifier.base64url_sha256_class v) as [Hl Hc].
  rewrite json_str_plain by done. by rewrite Hl.
Qed.

Lemma member_size k v :
  length (member_text (k, v)) = (length (json_str k) + 1 + length v)%nat.
Proof. unfold member_text. cbn [fst snd]. rewrite !length_app. simpl. lia. Qed.

Lemma verifier_doc_size o t :
  sort_keys o = false -> alookup azp PopVerifier.AZP_ROUTES = Some (route, auth) ->
  dumps o (VDict verifier_doc) = Ok t -> Z.of_nat (length t) <= 13200.
Proof.
  intros Ho Hr. rewrite dumps_flat_doc by (done || apply verifier_doc_flat).
  intros Ht. apply Ok_inj in Ht. subst t.
  rewrite !length_app. change (length (u"{")) with 1%nat. change (length (u"}")) with 1%nat.
  pose proof (join_comma_length
    (map (fun kv : pystr * pyval => member_text (fst kv, flat_text (snd kv))) verifier_doc)) as Hj.
  cut (Z.of_nat (total_length (map (fun kv : pystr * pyval =>
         member_text (fst kv, flat_text (snd kv))) verifier_doc)) <= 13100); [lia|]. clear Hj.
  assert (Hazp : (length (json_str azp) + length (json_str route) + length (json_str auth)
                  <= 60)%nat).
  { apply alookup_Some_in in Hr. unfold PopVerifier.AZP_ROUTES in Hr.
    rewrite !elem_of_cons in Hr.
    destruct Hr as [[= -> -> ->]|[[= -> -> ->]|[]%elem_of_nil]]; vm_compute; lia. }
  unfold verifier_doc, PopVerifier.evidence_doc. cbn [map total_length fst snd].
  rewrite !member_size, !thumbprint_size.
  pose proof (safe_text_size (dict_get claims PopVerifier.DEPARTMENT_CLAIM)).
  pose proof (safe_text_size (dict_get claims PopVerifier.ROUTE_CLAIM)).
  pose proof (safe_text_size (PopVerifier.header_value hs (u"X-Demo-Department"))).
  pose proof (safe_text_size (PopVerifier.header_value hs (u"X-Demo-Route"))).
  assert (Hb : forall b, (length (flat_text (VBool b)) <= 5)%nat) by (intros []; simpl; lia).
  pose proof (Hb true). pose proof (Hb (PopVerifier.headers_match hs claims)).
  cbn [flat_text] in *.
  repeat match goal with
  | |- context [json_str (u ?k)] =>
      let n := eval vm_compute in (length (json_str (u k))) in
      change (length (json_str (u k))) with n
  end. lia.
Qed.

Context (Hfaithful : forallb faithful (doc_texts hs claims) = true).

Lemma azp_entry_faithful :
  alookup azp PopVerifier.AZP_ROUTES = Some (route, auth) ->
  str_ok azp = true /\ str_ok route = true /\ str_ok auth = true.
Proof.
  intros Hr%alookup_Some_in. unfold PopVerifier.AZP_ROUTES in Hr. rewrite !elem_of_cons in Hr.
  destruct Hr as [[= -> -> ->]|[[= -> -> ->]|[]%elem_of_nil]]; done.
Qed.

Lemma b64url_str_ok s : Forall (fun c => is_b64url c = true) s -> str_ok s = true.
Proof.
  induction 1 as [|c s Hc _ IH]; [done|]. cbn [str_ok]. rewrite IH, andb_true_r.
  unfold is_b64url, is_alnum, is_digit, is_upper, is_lower in Hc.
  rewrite !orb_true_iff, !andb_true_iff, !Z.leb_le, !Z.eqb_eq in Hc.
  assert (is_high c = false) as ->.
  { unfold is_high. apply andb_false_iff. left. apply Z.leb_gt. lia. }
  rewrite andb_true_r. apply andb_true_iff. rewrite !Z.leb_le. lia.
Qed.

Lemma json_ok_flat v : flat v = true -> faithful v = true -> json_ok v = true.
Proof. by destruct v. Qed.

Lemma verifier_doc_json_ok :
  alookup azp PopVerifier.AZP_ROUTES = Some (route, auth) ->
  json_ok (VDict verifier_doc) = true.
Proof.
  intros (H1 & H2 & H3)%azp_entry_faithful. cbn [json_ok].
  assert (Ht : forall v, str_ok (PopVerifier.base64url_sha256 v) = true).
  { intros v. apply b64url_str_ok, PopVerifier.base64url_sha256_class. }
  assert (Hs : forall v, faithful (PopVerifier.safe_evidence_text v) = true ->
                    json_ok (PopVerifier.safe_evidence_text v) = true).
  { intros v. apply json_ok_flat. destruct (PopVerifier.safe_evidence_text_cases v)
      as [-> | [s ->]]; done. }
  unfold doc_texts in Hfaithful. cbn [forallb] in Hfaithful. bool_prop.
  unfold verifier_doc, PopVerifier.evidence_doc. cbn [forallb fst snd].
  rewrite !Hs by done. cbn [json_ok]. by rewrite H1, H2, H3, !Ht.
Qed.

Lemma verifier_doc_norm o : sort_keys o = false -> json_norm o (VDict verifier_doc) = VDict verifier_doc.
Proof.
  intros Ho. cbn [json_norm]. rewrite Ho. f_equal.
  assert (Hf : forall v, flat v = true -> json_norm o v = v) by by intros [].
  pose proof verifier_doc_flat as H. rewrite forallb_Forall in H.
  induction H as [|[k v] d Hv _ IH]; [done|]. cbn [map fst snd]. by rewrite Hf, IH.
Qed.

Lemma verifier_doc_nesting : nesting (VDict verifier_doc) = 1%nat.
Proof.
  assert (Hf : forall v, flat v = true -> nesting v = 0%nat) by by intros [].
  cbn [nesting]. f_equal. pose proof verifier_doc_flat as H. rewrite forallb_Forall in H.
  induction H as [|[k v] d Hv _ IH]; [done|]. cbn [foldr snd]. by rewrite Hf, IH.
Qed.

(** The backend's checks on the document come down to its texts. *)
Lemma verifier_doc_valid e :
  azp = Backend.id_azp e -> route = Backend.id_route e -> auth = Backend.id_auth e ->
  Backend.evidence_valid verifier_doc e <->
  forallb Backend.text_value_ok (doc_texts hs claims) = true.
Proof.
  intros Ha Hr Hc. rewrite <- Backend.evidence_valid_spec.
  unfold Backend.fields_ok, Backend.relations_ok. rewrite !andb_true_iff, Backend.identity_ok_spec.
  assert (forallb (Backend.text_field_ok verifier_doc) Backend.TEXT_FIELDS =
          forallb Backend.text_value_ok (doc_texts hs claims)) as -> by done.
  assert (forallb (fun n => Backend.is_thumbprint (dict_get verifier_doc n))
            Backend.THUMBPRINT_FIELDS = true) as Hth.
  { assert (H : forall v, Backend.is_thumbprint (VStr (PopVerifier.base64url_sha256 v)) = true).
    { intros v. apply Backend.is_thumbprint_spec. eexists; split; [done|].
      apply PopVerifier.base64url_sha256_class. }
    unfold Backend.THUMBPRINT_FIELDS. cbn [forallb].
    change (dict_get verifier_doc (u"token_certificate_thumbprint"))
      with (VStr (PopVerifier.base64url_sha256 tt)).
    change (dict_get verifier_doc (u"forwarded_client_certificate_thumbprint"))
      with (VStr (PopVerifier.base64url_sha256 tt)).
    change (dict_get verifier_doc (u"api_gateway_tls_peer_certificate_thumbprint"))
      with (VStr (PopVerifier.base64url_sha256 pt)). by rewrite !H. }
  rewrite Hth. split; [by intros [[[[_ ?] _] _] _]|]. intros Htext.
  split_and!; try done; [by rewrite <- Hr|by rewrite <- Ha|by rewrite <- Hc| |].
  - by apply py_eq_str.
  - change (dict_get verifier_doc (u"header_claims_match"))
      with (VBool (PopVerifier.headers_match hs claims)).
    destruct (PopVerifier.headers_match hs claims) eqn:Em; [|done].
    apply PopVerifier.headers_match_spec in Em
      as (d & r & Nd & Nr & Ld & Lr & _ & _ & Hd & Hrt & Hhd & Hhr).
    assert (Hs : forall v s, v = VStr s -> (length s <= 256)%nat ->
                        PopVerifier.safe_evidence_text v = VStr s).
    { intros v s -> Hl. by apply PopVerifier.safe_evidence_text_spec. }
    apply (Backend.headers_consistent_intro _ d r); [done|done|..].
    + by apply (Hs (dict_get claims PopVerifier.DEPARTMENT_CLAIM)).
    + apply (Hs (PopVerifier.header_value hs (u"X-Demo-Department"))); [|done].
      unfold PopVerifier.header_value. by rewrite Hhd.
    + by apply (Hs (dict_get claims PopVerifier.ROUTE_CLAIM)).
    + apply (Hs (PopVerifier.header_value hs (u"X-Demo-Route"))); [|done].
      unfold PopVerifier.header_value. by rewrite Hhr.
Qed.
End doc.

(** ** The relayed answer *)

Lemma content_length_ok (t : pystr) :
  Z.of_nat (length t) <= Backend.MAX_RESPONSE_BYTES ->
  Backend.lengths_ok [content_length t] = true /\
  Backend.int_of (content_length t) = Z.of_nat (length t).
Proof.
  intros Hl. unfold content_length, dec_of_Z, Backend.int_of.
  rewrite (proj2 (Z.ltb_ge _ _)) by lia.
  pose proof (digits_value_dec (Z.of_nat (length t)) ltac:(lia)) as Hv. split; [|done].
  unfold Backend.lengths_ok, Backend.int_of. rewrite Hv, !andb_true_iff.
  split; [split|by apply Z.leb_le].
  - apply Nat.leb_le, dec_digits_length; [|lia].
    unfold Backend.MAX_RESPONSE_BYTES in Hl. change (10 ^ Z.of_nat 10) with 10000000000. lia.
  - pose proof (dec_digits_digit (Z.of_nat (length t)) ltac:(lia)) as Hd.
    destruct (dec_digits_cons (Z.of_nat (length t)) ltac:(lia)) as (c & l & E & _).
    rewrite E in *. by apply forallb_Forall.
Qed.

(** The backend on a relayed document: only the filter can refuse it. *)
Lemma fetch_relayed {ctx} (exchange : ctx -> Backend.outgoing -> res Backend.reply)
    depth token e context d r t :
  PopVerifier.json_response 200 (VDict d) [] = Ok r ->
  dumps PopVerifier.dump_default (VDict d) = Ok t ->
  Z.of_nat (length t) <= Backend.MAX_RESPONSE_BYTES ->
  exchange context (Backend.evidence_request token) = Ok (relay r) ->
  fst (Backend.fetch_evidence exchange depth token e context) =
    match Backend.project_evidence depth (map byte_of_Z t) e with
    | Ok doc => Ok (200, doc)
    | Err err => Backend.upstream_failure err
    end.
Proof.
  intros Hr Ht Hl Hx. unfold PopVerifier.json_response in Hr. rewrite Ht in Hr.
  apply Ok_inj in Hr. subst r. unfold Backend.fetch_evidence. rewrite Hx.
  destruct (content_length_ok t Hl) as [Hlen Hint].
  unfold Backend.read_reply, relay. cbn [Backend.reply_status Backend.reply_headers
    Backend.reply_read status resp_headers resp_body].
  set (cl := content_length t) in *.
  change (bool_decide (200 ∈ [401; 403])) with false. change (200 =? 200) with true. cbn [negb].
  change (get_all_or _ (u"Content-Length") []) with [cl].
  change (Backend.content_type_ok _) with true. rewrite Hlen. cbn [negb].
  assert (take (Z.to_nat (Backend.MAX_RESPONSE_BYTES + 1)) (map byte_of_Z t) = map byte_of_Z t)
    as Htake by (apply take_ge; rewrite length_map; lia).
  unfold wire_body. cbn [resp_body]. rewrite Htake.
  assert (Backend.body_size_ok [cl] (map byte_of_Z t) = true) as ->.
  { unfold Backend.body_size_ok. rewrite length_map, Hint, Z.eqb_refl, andb_true_r.
    by apply Z.leb_le. }
  cbn [negb]. by destruct (Backend.project_evidence _ _ _).
Qed.

Lemma routes_azp_inj p e p' e' :
  alookup p Backend.ROUTES = Some e -> alookup p' Backend.ROUTES = Some e' ->
  Backend.id_azp e = Backend.id_azp e' -> e = e'.
Proof.
  intros H%alookup_Some_in H'%alookup_Some_in. unfold Backend.ROUTES in H, H'.
  rewrite !elem_of_cons in H, H'.
  destruct H as [[= -> ->]|[[= -> ->]|[]%elem_of_nil]], H' as [[= -> ->]|[[= -> ->]|[]%elem_of_nil]];
    done.
Qed.

#[local] Existing Instance Backend.identity_eq_dec.

Section relayed.
Context `{X : X509} `{J : PopVerifier.PyJWT} (conf : PopVerifier.config) (pin : bytes).
Context {ctx : Type}.

(** What the backend passes on. *)
Definition passed_fields : list pystr :=
  [u"route"; u"azp"; u"client_authentication"; u"department"; u"logical_route"; u"department_header";
   u"logical_route_header"; u"token_certificate_thumbprint"; u"forwarded_client_certificate_thumbprint";
   u"api_gateway_tls_peer_certificate_thumbprint"; u"token_signature_verified"; u"binding_verified";
   u"header_claims_match"].

(** C3: when the gateways pass the verifier's answer on unchanged, the backend
    returns the allowed fields of the verifier's document for the route of the
    token's client exactly if none of its four texts has a character below 32
    or the character 127; on the other route, and when a text has one, it
    answers 502.  The document always fits the
    backend's size limit. *)
Theorem evidence_end_to_end depth hs token claims der p e p' e' :
  alookup p Backend.ROUTES = Some e -> alookup p' Backend.ROUTES = Some e' ->
  PopVerifier.pin_is_gateway pin ->
  PopVerifier.bearer_token hs = Some token ->
  PopVerifier.token_accepted conf token claims (Backend.id_azp e)
    (PopVerifier.base64url_sha256 der) ->
  PopVerifier.forwarded_client_certificate_der hs = Ok der ->
  forallb faithful (doc_texts hs claims) = true -> (1 <= depth)%nat ->
  exists r, PopVerifier.do_GET conf pin (Ok (Some pin)) (u"/evidence") hs = Ok r /\
    status r = 200 /\ Z.of_nat (length (wire_body r)) <= Backend.MAX_RESPONSE_BYTES /\
    forall (exchange : ctx -> Backend.outgoing -> res Backend.reply) context btoken,
     exchange context (Backend.evidence_request btoken) = Ok (relay r) ->
     let answer := fst (Backend.fetch_evidence exchange depth btoken e' context) in
     let acceptable := e' = e /\ forall s, VStr s ∈ doc_texts hs claims -> Forall (fun c => 32 <= c /\ c <> 127) s in
     let doc := verifier_doc hs claims (Backend.id_azp e) (Backend.id_route e) (Backend.id_auth e) der pin in
     (acceptable -> answer = Ok (200, map (fun n => (n, dict_get doc n)) passed_fields)) /\
     (~ acceptable -> answer = Ok (502, [(u"error", jstr "upstream_unavailable")])).
Proof.
  intros Hp Hp' Hpin Hb Ha Hd Hfaith Hdepth.
  destruct (PopVerifier.do_GET_accepted conf pin hs token claims _ der Hpin Hb Ha Hd)
    as (route & auth & Hr & ->).
  rewrite (route_tables_agree _ _ Hp) in Hr. injection Hr as <- <-.
  pose proof (route_tables_agree _ _ Hp) as Hr.
  change (PopVerifier.evidence_doc hs claims _ _ _ _ _ _) with
    (verifier_doc hs claims (Backend.id_azp e) (Backend.id_route e) (Backend.id_auth e) der pin).
  set (d := verifier_doc _ _ _ _ _ _ _).
  destruct (PopVerifier.json_response_flat 200 d []) as (r & Hj & Hs & Ht);
    [apply verifier_doc_flat|].
  assert (Hsize : Z.of_nat (length (resp_body r)) <= Backend.MAX_RESPONSE_BYTES).
  { etransitivity; [by eapply verifier_doc_size, Ht|done]. }
  exists r. split_and!; [done..|unfold wire_body; by rewrite length_map|]. intros exchange context btoken Hx.
  rewrite (fetch_relayed _ _ _ _ _ d r _ Hj Ht Hsize Hx).
  assert (Hload : loads Backend.unique_object default_constant depth (resp_body r) = Ok (VDict d)).
  { rewrite (loads_dumps _ _ Backend.unique_object_nodup PopVerifier.dump_default (VDict d)); try done.
    - unfold d. by rewrite verifier_doc_norm.
    - by apply verifier_doc_json_ok.
    - unfold d. by rewrite verifier_doc_nesting. }
  assert (Hdec : utf8_decode (map byte_of_Z (resp_body r)) = Some (resp_body r)).
  { apply utf8_decode_encode, utf8_encode_ascii.
    eapply dumps_flat_doc_ascii, Ht; [apply verifier_doc_flat|done]. }
  destruct (Backend.project_evidence depth (map byte_of_Z (resp_body r)) e') as [doc|err] eqn:Ep.
  - apply Backend.project_evidence_Ok in Ep as (text & source & Ht' & Hl & Hv & ->).
    rewrite Hdec in Ht'. injection Ht' as <-. rewrite Hload in Hl. injection Hl as <-.
    assert (e' = e) as ->.
    { symmetry. eapply routes_azp_inj; [done..|]. pose proof (Backend.ev_azp _ _ Hv) as H.
      by injection H. }
    apply verifier_doc_valid in Hv; [|done..]. pose proof (proj1 (doc_texts_ok hs claims) Hv). split; [done|]. intros Hn. destruct Hn. by split.
  - rewrite (Backend.upstream_failure_rejected err) by (by eapply Backend.project_evidence_error).
    split; [|done]. intros [-> Ev]. exfalso.
    apply (proj2 (doc_texts_ok hs claims)) in Ev.
    apply (verifier_doc_valid hs claims (Backend.id_azp e) (Backend.id_route e)
             (Backend.id_auth e) der pin e) in Ev; [|done..].
    assert (Backend.project_evidence depth (map byte_of_Z (resp_body r)) e = Ok (Backend.projection d)).
    { apply Backend.project_evidence_Ok. eauto 6. }
    congruence.
Qed.
End relayed.

(** The headers of the backend's request, as they reach the verifier. *)
Definition relayed_headers (token : pystr) : headers :=
  Backend.out_headers (Backend.evidence_request token).

(** A token the backend accepts reaches the verifier unchanged: the header
    the backend sends is parsed to the same token. *)
Theorem token_relayed hs token :
  Backend.bearer_token hs = Some token ->
  PopVerifier.bearer_token (relayed_headers token) = Some token.
Proof.
  intros (scheme & _ & _ & _ & Ht)%Backend.backend_bearer_spec.
  apply PopVerifier.bearer_token_spec. exists (u"Bearer"). split_and!; [done|done| |].
  - by destruct token.
  - apply Backend.is_token68_spec in Ht as (core & n & -> & _ & Hc). rewrite elem_of_app.
    intros [H|H%elem_of_replicate_inv]; [|done].
    rewrite Forall_forall in Hc. specialize (Hc _ H). by vm_compute in Hc.
Qed.

Lemma token_relayed_witness :
  PopVerifier.bearer_token (relayed_headers (u"abc.def~+/-_==")) = Some (u"abc.def~+/-_==").
Proof. apply (token_relayed Backend.Sample.hdrs). vm_compute. reflexivity. Defined.

(** The sample services: a token and headers with clean texts. *)
Lemma evidence_end_to_end_witness :
  exists r, PopVerifier.do_GET (X := PopVerifier.Sample.x509) (J := PopVerifier.Sample.pyjwt)
      PopVerifier.Sample.conf PopVerifier.Sample.pin (Ok (Some PopVerifier.Sample.pin))
      (u"/evidence") PopVerifier.Sample.hdrs = Ok r /\
    fst (Backend.fetch_evidence (fun (_ : unit) (_ : Backend.outgoing) => Ok (relay r)) 10
           (u"good") Backend.Sample.route_a tt) =
      Ok (200, map (fun n => (n, dict_get (verifier_doc PopVerifier.Sample.hdrs PopVerifier.Sample.claims
        (u"third-party-fapi-mtls") (u"route-a") (u"tls_client_auth")
        PopVerifier.Sample.client_der PopVerifier.Sample.pin) n)) passed_fields).
Proof.
  destruct (evidence_end_to_end (X := PopVerifier.Sample.x509) (J := PopVerifier.Sample.pyjwt)
    PopVerifier.Sample.conf PopVerifier.Sample.pin
    (ctx := unit) 10
    PopVerifier.Sample.hdrs (u"good") PopVerifier.Sample.claims PopVerifier.Sample.client_der
    (u"/evidence/route-a") Backend.Sample.route_a (u"/evidence/route-a") Backend.Sample.route_a) as (r & Hr & _ & _ & H).
  - reflexivity.
  - reflexivity.
  - split; [discriminate|]. exists (Byte.x47, bs"ateway"). split; vm_compute; reflexivity.
  - vm_compute. reflexivity.
  - split.
    + exists tt. split; reflexivity.
    + exists (u"openid profile"). split; [reflexivity|].
      apply (bool_decide_unpack _). vm_compute. exact I.
    + split; [reflexivity|]. left.
    + exists [(u"x5t#S256", VStr (PopVerifier.base64url_sha256 PopVerifier.Sample.client_der))].
      split; [reflexivity|]. split; [reflexivity|]. vm_compute. discriminate.
  - vm_compute. reflexivity.
  - vm_compute. reflexivity.
  - lia.
  - exists r. split; [exact Hr|]. apply (H (fun _ _ => Ok (relay r)) tt (u"good") eq_refl).
    split; [reflexivity|]. apply doc_texts_ok. vm_compute. reflexivity.
Defined.
