(* ===== verification/KeycloakPlan.v ===== *)
(** Planning in [src/scripts/sync-keycloak-demo-data.py]: the validation of the
    desired realm and the create, update and no-operation decisions, without the
    requests, which are in [KeycloakSync].  Plans are values of the inductive
    types below instead of dictionaries with an [operation] key. *)
From S2P Require Export PyVal.

Local Open Scope Z_scope.

Definition fail {A} (msg : string) : res A := raise RuntimeError msg.
Arguments fail {A} msg%_string.

Definition CLIENT_IDS : list pystr :=
  [u"third-party-fapi-mtls"; u"third-party-fapi-pkj-mtls"; u"api-gateway-introspection"].
Definition CLIENT_ADMIN_FIELDS : list pystr :=
  [u"clientId"; u"name"; u"enabled"; u"protocol"; u"publicClient"; u"consentRequired";
   u"fullScopeAllowed"; u"clientAuthenticatorType"; u"standardFlowEnabled";
   u"implicitFlowEnabled"; u"directAccessGrantsEnabled"; u"serviceAccountsEnabled";
   u"redirectUris"; u"webOrigins"; u"attributes"].
Definition MAPPER_ADMIN_FIELDS : list pystr :=
  [u"name"; u"protocol"; u"protocolMapper"; u"config"].
Definition REALM_ADMIN_FIELDS : list pystr :=
  [u"realm"; u"enabled"; u"sslRequired"; u"defaultSignatureAlgorithm"; u"accessCodeLifespan";
   u"revokeRefreshToken"; u"refreshTokenMaxReuse"; u"clientPolicies"; u"clientProfiles"].
Definition KEY_PROVIDER_TYPE : pystr := u"org.keycloak.keys.KeyProvider".
Definition MANAGED_KEY_PROVIDER_NAME : pystr := u"fapi-demo-ps256-rsa-generated".
Definition MANAGED_KEY_PROVIDER_ID : pystr := u"rsa-generated".
Definition MANAGED_KEY_PROVIDER_CONFIG : pydict :=
  [(u"priority", VList [jstr "101"]); (u"enabled", VList [jstr "true"]);
   (u"active", VList [jstr "true"]); (u"keySize", VList [jstr "3072"]);
   (u"algorithm", VList [jstr "PS256"])].

(** [isinstance(entry, dict) and isinstance(entry.get("name"), str)] *)
Definition named_entry (v : pyval) : option (pystr * pydict) :=
  match v with
  | VDict d => match dict_get d (u"name") with VStr n => Some (n, d) | _ => None end
  | _ => None
  end.

(** ** Clients *)

Definition client_admin_payload (desired : pyval) : res pydict :=
  match desired with
  | VDict d =>
      let allowed := CLIENT_ADMIN_FIELDS ++ [u"protocolMappers"] in
      if negb (bool_decide (d.*1 ⊆ allowed)) || negb (bool_decide (CLIENT_ADMIN_FIELDS ⊆ d.*1))
      then fail "desired Keycloak client fields are incomplete or unexpected"
      else if negb (is_nonempty_str (dict_get d (u"clientId")))
      then fail "desired Keycloak client ID is empty"
      else if negb (is_dict (dict_get d (u"attributes")))
      then fail "desired Keycloak client attributes are malformed"
      else if existsb (fun f => negb (is_list (dict_get d f))) [u"redirectUris"; u"webOrigins"]
      then fail "desired Keycloak client URI lists are malformed"
      else
        let* mappers := dict_item d (u"protocolMappers") in
        match mappers with
        | VList mappers =>
            let names := omap (fun m => match m with
                                        | VDict m => Some (dict_get m (u"name"))
                                        | _ => None end) mappers in
            if negb (length names =? length mappers)%nat
               || existsb (fun n => negb (is_nonempty_str n)) names
               || has_dup (omap (fun n => match n with VStr s => Some s | _ => None end) names)
            then fail "desired Keycloak protocol mapper names are duplicated or malformed"
            else Ok (project CLIENT_ADMIN_FIELDS d)
        | _ => fail "desired Keycloak protocol mappers are malformed"
        end
  | _ => fail "desired Keycloak client is malformed"
  end.

Definition mapper_admin_payload (desired : pyval) : res pydict :=
  match desired with
  | VDict d =>
      if negb (keys_are d MAPPER_ADMIN_FIELDS)
      then fail "desired Keycloak protocol mapper fields are incomplete or unexpected"
      else if negb (forallb (fun f => is_nonempty_str (dict_get d f))
                      [u"name"; u"protocol"; u"protocolMapper"])
      then fail "desired Keycloak protocol mapper identity is malformed"
      else match dict_get d (u"config") with
           | VDict config =>
               if forallb (fun kv => is_str (snd kv)) config
               then Ok (project MAPPER_ADMIN_FIELDS d)
               else fail "desired Keycloak protocol mapper config is malformed"
           | _ => fail "desired Keycloak protocol mapper config is malformed"
           end
  | _ => fail "desired Keycloak protocol mapper fields are incomplete or unexpected"
  end.

Inductive mapper_action :=
  | MapperCreate (payload : pydict)
  | MapperUpdate (mapper_id : pystr) (payload : pydict).

(** [mapper["name"]] of a validated payload. *)
Definition payload_name (payload : pydict) : pystr :=
  match dict_get payload (u"name") with VStr n => n | _ => [] end.

(** The live mappers by name. *)
Definition index_mapper (by_name : list (pystr * pydict)) (mapper : pyval)
    : res (list (pystr * pydict)) :=
  match named_entry mapper with
  | None => fail "Keycloak protocol mapper list is malformed"
  | Some (n, d) =>
      if bool_decide (n ∈ by_name.*1)
      then fail "duplicate Keycloak protocol mapper names found"
      else Ok (ainsert n d by_name)
  end.

Definition plan_mapper (by_name : list (pystr * pydict)) (desired : pydict)
    : res (option mapper_action) :=
  match alookup (payload_name desired) by_name with
  | None => Ok (Some (MapperCreate desired))
  | Some current =>
      match dict_get current (u"id") with
      | VStr (c :: i) =>
          if py_eq (VDict (project MAPPER_ADMIN_FIELDS current)) (VDict desired)
          then Ok None
          else Ok (Some (MapperUpdate (c :: i) desired))
      | _ => fail "Keycloak protocol mapper ID is missing"
      end
  end.

Definition plan_mapper_sync (desired_mappers : list pyval) (live_mappers : pyval)
    : res (list mapper_action) :=
  let* desired_payloads := mapM_res mapper_admin_payload desired_mappers in
  if has_dup (map payload_name desired_payloads)
  then fail "desired Keycloak protocol mapper names are duplicated"
  else
    match live_mappers with
    | VList live =>
        let* live_by_name := foldM_res index_mapper live [] in
        let* plan := mapM_res (plan_mapper live_by_name) desired_payloads in
        Ok (omap id plan)
    | _ => fail "Keycloak protocol mapper list is malformed"
    end.

(** A planned client: what to do, and the live representation it is about. *)
Inductive client_op :=
  | ClientCreate
  | ClientUpdate (client_uuid : pystr) (current : pydict)
  | ClientNoop (client_uuid : pystr) (current : pydict).

Record client_action := ClientAction {
  ca_client_id : pystr; ca_payload : pydict; ca_op : client_op
}.

(** The live attributes include every desired one. *)
Definition attributes_cover (current desired : pydict) : bool :=
  forallb (fun kv => py_eq (dict_get current (fst kv)) (snd kv)) desired.

(** The live representation restricted to the managed fields; live attributes
    that include the desired ones count as the desired ones. *)
Definition current_client_payload (current payload : pydict) : pydict :=
  let current_payload := project CLIENT_ADMIN_FIELDS current in
  match dict_get current_payload (u"attributes"), dict_get payload (u"attributes") with
  | VDict current_attributes, VDict desired_attributes =>
      if attributes_cover current_attributes desired_attributes
      then ainsert (u"attributes") (VDict desired_attributes) current_payload
      else current_payload
  | _, _ => current_payload
  end.

Definition plan_client (matches_by_client_id : pydict) (desired : pyval) : res client_action :=
  let* payload := client_admin_payload desired in
  match dict_get payload (u"clientId") with
  | VStr client_id =>
      match dict_get matches_by_client_id client_id with
      | VList [] => Ok (ClientAction client_id payload ClientCreate)
      | VList [VDict current] =>
          if negb (py_eq (dict_get current (u"clientId")) (VStr client_id))
          then fail "Keycloak client lookup is inconsistent"
          else match dict_get current (u"id") with
               | VStr (c :: i) =>
                   if py_eq (VDict (current_client_payload current payload)) (VDict payload)
                   then Ok (ClientAction client_id payload (ClientNoop (c :: i) current))
                   else Ok (ClientAction client_id payload (ClientUpdate (c :: i) current))
               | _ => fail "Keycloak client ID is missing"
               end
      | VList [_] => fail "Keycloak client lookup is inconsistent"
      | VList _ => fail "duplicate Keycloak clients found"
      | _ => fail "Keycloak client lookup is malformed"
      end
  | _ => fail "desired Keycloak client ID is empty"
  end.

(** The [clientId]s of the desired clients that are dictionaries. *)
Definition desired_client_ids (desired_clients : list pyval) : list pyval :=
  omap (fun c => match c with VDict d => Some (dict_get d (u"clientId")) | _ => None end)
    desired_clients.

Definition inventory_ok (desired_clients : list pyval) : bool :=
  let ids := desired_client_ids desired_clients in
  (length ids =? length desired_clients)%nat && forallb is_str ids
  && same_set (omap (fun v => match v with VStr s => Some s | _ => None end) ids) CLIENT_IDS
  && (length ids =? length CLIENT_IDS)%nat.

Definition plan_client_sync (desired_clients : pyval) (matches_by_client_id : pydict)
    : res (list client_action) :=
  match desired_clients with
  | VList desired =>
      if negb (inventory_ok desired)
      then fail "desired Keycloak client inventory does not match WP2"
      else mapM_res (plan_client matches_by_client_id) desired
  | _ => fail "desired Keycloak client list is malformed"
  end.

(** ** Realm settings *)

(** State of the merge: the position of each name, and the list. *)
Definition merge_state : Type := list (pystr * nat) * list pyval.

Definition index_entry (label : string) (positions : list (pystr * nat)) (ie : nat * pyval)
    : res (list (pystr * nat)) :=
  match named_entry (snd ie) with
  | None => fail ("Keycloak " ++ label ++ " entry is malformed")
  | Some (n, _) =>
      if bool_decide (n ∈ positions.*1) then fail ("duplicate Keycloak " ++ label ++ " names found")
      else Ok (ainsert n (fst ie) positions)
  end.

Definition merge_entry (label : string) (st : merge_state * list pystr) (entry : pyval)
    : res (merge_state * list pystr) :=
  let '(positions, merged, desired_names) := st in
  match named_entry entry with
  | None => fail ("desired Keycloak " ++ label ++ " entry is malformed")
  | Some (n, d) =>
      if bool_decide (n ∈ desired_names)
      then fail ("duplicate desired Keycloak " ++ label ++ " names found")
      else
        match alookup n positions with
        | None => Ok (ainsert n (length merged) positions, merged ++ [VDict d], n :: desired_names)
        | Some index =>
            match merged !! index with
            | Some (VDict old) =>
                Ok (positions, <[index := VDict (dict_merge old d)]> merged, n :: desired_names)
            | _ => raise TypeError "not a mapping"
            end
        end
  end.

Definition merge_named_entries (current desired : pyval) (label : string) : res (list pyval) :=
  match current, desired with
  | VList current, VList desired =>
      let* positions := foldM_res (index_entry label) (enumerate current) [] in
      let* (st, _) := foldM_res (merge_entry label) desired (positions, current, []) in
      Ok (snd st)
  | _, _ => fail ("Keycloak " ++ label ++ " list is malformed")
  end.

(** [d.get(k, default)] *)
Definition dict_get_or (d : pydict) (k : pystr) (default : pyval) : pyval :=
  match alookup k d with Some v => v | None => default end.

Definition REALM_GROUPS : list (pystr * pystr * string) :=
  [(u"clientPolicies", u"policies", "client policy");
   (u"clientProfiles", u"profiles", "client profile")].

Definition merge_group (current desired : pydict) (g : pystr * pystr * string)
    : res (pystr * pyval) :=
  let '(field, collection, label) := g in
  let* desired_group := dict_item desired field in
  match dict_get_or current field (VDict []), desired_group with
  | VDict live_group, VDict desired_group =>
      let* merged := merge_named_entries (dict_get_or live_group collection (VList []))
                       (dict_get_or desired_group collection (VList [])) label in
      Ok (field, VDict (ainsert collection (VList merged) live_group))
  | _, _ => fail ("Keycloak " ++ label ++ " configuration is malformed")
  end.

(** The managed fields that are compared as they are. *)
Definition REALM_PLAIN_FIELDS : list pystr :=
  List.filter (fun f => negb (bool_decide (f ∈ [u"clientPolicies"; u"clientProfiles"])))
    REALM_ADMIN_FIELDS.

Definition realm_admin_payload (current desired : pyval) : res pydict :=
  match current, desired with
  | VDict current, VDict desired =>
      if negb (bool_decide (REALM_ADMIN_FIELDS ⊆ desired.*1))
      then fail "desired Keycloak realm fields are incomplete"
      else
        let* groups := mapM_res (merge_group current desired) REALM_GROUPS in
        let payload := project REALM_PLAIN_FIELDS desired ++ groups in
        Ok (List.filter (fun kv => negb (py_eq (dict_get current (fst kv)) (snd kv))) payload)
  | _, _ => fail "Keycloak realm representation is malformed"
  end.

(** ** The managed signing key *)

Definition managed_provider_payload : pydict :=
  [(u"name", VStr MANAGED_KEY_PROVIDER_NAME); (u"providerId", VStr MANAGED_KEY_PROVIDER_ID);
   (u"providerType", VStr KEY_PROVIDER_TYPE); (u"config", VDict MANAGED_KEY_PROVIDER_CONFIG)].

(** The loop that collects the entries with the managed name. *)
Fixpoint managed_entries (msg : string) (l : list pyval) : res (list pydict) :=
  match l with
  | [] => Ok []
  | v :: l' =>
      match named_entry v with
      | None => fail msg
      | Some (n, d) =>
          let* rest := managed_entries msg l' in
          Ok (if bool_decide (n = MANAGED_KEY_PROVIDER_NAME) then d :: rest else rest)
      end
  end.

Definition key_provider_admin_payload (desired_realm : pyval) : res pydict :=
  match desired_realm with
  | VDict realm =>
      match dict_get realm (u"components") with
      | VDict components =>
          match dict_get components KEY_PROVIDER_TYPE with
          | VList providers =>
              let* matching := managed_entries "desired Keycloak key provider entry is malformed" providers in
              match matching with
              | [provider] =>
                  if negb (keys_are provider [u"name"; u"providerId"; u"config"])
                  then fail "desired Keycloak managed key provider fields are unexpected"
                  else if negb (py_eq (dict_get provider (u"providerId")) (VStr MANAGED_KEY_PROVIDER_ID))
                          || negb (py_eq (dict_get provider (u"config")) (VDict MANAGED_KEY_PROVIDER_CONFIG))
                  then fail "desired Keycloak managed key provider config is invalid"
                  else Ok managed_provider_payload
              | _ => fail "desired Keycloak managed key provider is missing or duplicated"
              end
          | _ => fail "desired Keycloak key provider configuration is malformed"
          end
      | _ => fail "desired Keycloak key provider configuration is malformed"
      end
  | _ => fail "desired Keycloak key provider configuration is malformed"
  end.

Inductive provider_action :=
  | ProviderCreate (payload : pydict)
  | ProviderUpdate (component_id : pystr) (payload : pydict)
  | ProviderNoop (component_id : pystr).

(** The payload is the managed one. *)
Definition provider_payload_ok (payload : pydict) : bool :=
  keys_are payload [u"name"; u"providerId"; u"providerType"; u"config"]
  && py_eq (dict_get payload (u"name")) (VStr MANAGED_KEY_PROVIDER_NAME)
  && py_eq (dict_get payload (u"providerId")) (VStr MANAGED_KEY_PROVIDER_ID)
  && py_eq (dict_get payload (u"providerType")) (VStr KEY_PROVIDER_TYPE)
  && py_eq (dict_get payload (u"config")) (VDict MANAGED_KEY_PROVIDER_CONFIG).

(** A live configuration maps names to lists of strings. *)
Definition live_config_ok (config : pydict) : bool :=
  forallb (fun kv => match snd kv with VList vs => forallb is_str vs | _ => false end) config.

Definition config_covers (config : pydict) : bool :=
  forallb (fun kv => py_eq (dict_get config (fst kv)) (snd kv)) MANAGED_KEY_PROVIDER_CONFIG.

Definition plan_key_provider_sync (desired_payload : pydict) (live_components : pyval)
    : res provider_action :=
  if negb (provider_payload_ok desired_payload)
  then fail "desired Keycloak managed key provider config is invalid"
  else
    match live_components with
    | VList components =>
        let* matches := managed_entries "Keycloak managed key provider lookup is malformed" components in
        match matches with
        | [] => Ok (ProviderCreate desired_payload)
        | [current] =>
            match dict_get current (u"id") with
            | VStr (c :: i) =>
                if negb (py_eq (dict_get current (u"providerId")) (VStr MANAGED_KEY_PROVIDER_ID))
                   || negb (py_eq (dict_get current (u"providerType")) (VStr KEY_PROVIDER_TYPE))
                then fail "Keycloak managed key provider name is occupied by another component"
                else match dict_get current (u"config") with
                     | VDict config =>
                         if negb (live_config_ok config)
                         then fail "Keycloak managed key provider config is malformed"
                         else if config_covers config then Ok (ProviderNoop (c :: i))
                         else Ok (ProviderUpdate (c :: i) desired_payload)
                     | _ => fail "Keycloak managed key provider config is malformed"
                     end
            | _ => fail "Keycloak managed key provider ID is missing"
            end
        | _ => fail "duplicate Keycloak managed key provider names found"
        end
    | _ => fail "Keycloak managed key provider lookup is malformed"
    end.

(** ** Merging named entries *)

(** A list of named dictionaries, as the merge reads it. *)
Definition named (l : list pyval) (ne : list (pystr * pydict)) : Prop :=
  Forall2 (fun v e => named_entry v = Some e) l ne.

(** Written back. *)
Definition unnamed (ne : list (pystr * pydict)) : list pyval := map (fun e => VDict (snd e)) ne.

Lemma named_entry_Some v n d :
  named_entry v = Some (n, d) <-> v = VDict d /\ dict_get d (u"name") = VStr n.
Proof.
  unfold named_entry. split.
  - destruct v; try done. destruct (dict_get d0 (u"name")) eqn:E; try done. by intros [= -> ->].
  - by intros [-> ->].
Qed.

Lemma named_unnamed l ne : named l ne -> l = unnamed ne.
Proof.
  induction 1 as [|v [n d] l ne H _ IH]; [done|]. apply named_entry_Some in H as [-> _].
  cbn [unnamed map snd]. by f_equal.
Qed.

Lemma named_det l ne ne' : named l ne -> named l ne' -> ne = ne'.
Proof.
  intros H. revert ne'. induction H as [|v e l ne He _ IH]; intros ne' H'; inversion H'; subst; [done|].
  f_equal; [congruence|auto].
Qed.

(** The reference: every current entry keeps its place and takes the fields of
    the desired entry with its name; desired entries with new names follow. *)
Definition ref_entry (des : list (pystr * pydict)) (e : pystr * pydict) : pystr * pydict :=
  match alookup (fst e) des with
  | Some d => (fst e, dict_merge (snd e) d)
  | None => e
  end.
Definition merge_ref (cur des : list (pystr * pydict)) : list (pystr * pydict) :=
  map (ref_entry des) cur ++ List.filter (fun e => negb (bool_decide (fst e ∈ cur.*1))) des.

Lemma ref_entry_keys cur des : (map (ref_entry des) cur).*1 = cur.*1.
Proof.
  induction cur as [|[n d] cur IH]; [done|]. csimpl. rewrite IH. f_equal.
  unfold ref_entry. simpl. by case_match.
Qed.

Lemma filter_keys_sub (f : pystr * pydict -> bool) des : (List.filter f des).*1 ⊆ des.*1.
Proof.
  intros n (e & -> & Hin)%list_elem_of_fmap. apply list_elem_of_In, filter_In in Hin as [Hin _].
  apply list_elem_of_fmap. exists e. by rewrite list_elem_of_In.
Qed.

Lemma filter_keys_NoDup (f : pystr * pydict -> bool) des : NoDup des.*1 -> NoDup (List.filter f des).*1.
Proof.
  induction des as [|e des IH]; [done|]. csimpl. intros [Hn Hd]%NoDup_cons.
  destruct (f e); [|by apply IH]. csimpl. apply NoDup_cons. split; [|by apply IH].
  intros H. apply Hn. by apply (filter_keys_sub f).
Qed.

Lemma merge_ref_NoDup cur des :
  NoDup cur.*1 -> NoDup des.*1 -> NoDup (merge_ref cur des).*1.
Proof.
  intros Hc Hd. unfold merge_ref. rewrite fmap_app, ref_entry_keys. apply NoDup_app.
  split_and!; [done| |by apply filter_keys_NoDup].
  intros n Hn (e & -> & Hin)%list_elem_of_fmap. apply list_elem_of_In, filter_In in Hin as [_ H].
  bool_prop. done.
Qed.

(** The first loop computes the positions of the names. *)
Lemma index_entry_loop label l k positions0 positions :
  foldM_res (index_entry label) (zip (seq k (length l)) l) positions0 = Ok positions ->
  exists ne, named l ne /\ positions = positions0 ++ zip ne.*1 (seq k (length l)) /\
    (NoDup positions0.*1 -> NoDup (positions0.*1 ++ ne.*1)).
Proof.
  revert k positions0. induction l as [|v l IH]; intros k positions0; cbn [length seq zip_with foldM_res].
  - intros [= <-]. exists []. rewrite !app_nil_r. split_and!; [constructor|done|done].
  - unfold index_entry at 1. cbn [fst snd]. destruct (named_entry v) as [[n d]|] eqn:Ev; [|done].
    case_bool_decide as Hn; [done|]. rewrite ainsert_new by done. intros H.
    apply IH in H as (ne & Hne & -> & Hnd). exists ((n, d) :: ne). csimpl.
    rewrite fmap_app in Hnd. csimpl in Hnd. rewrite <- !app_assoc in *.
    split_and!; [by constructor|done|]. intros H0. apply Hnd. apply NoDup_app.
    split_and!; [done| |apply NoDup_singleton]. by intros x Hx ->%list_elem_of_singleton.
Qed.

Lemma index_entry_loop_ok label l ne k positions0 :
  named l ne -> NoDup (positions0.*1 ++ ne.*1) ->
  foldM_res (index_entry label) (zip (seq k (length l)) l) positions0 =
    Ok (positions0 ++ zip ne.*1 (seq k (length l))).
Proof.
  intros H. revert k positions0. induction H as [|v [n d] l ne Hv _ IH];
    intros k positions0 Hnd; cbn [length seq zip_with foldM_res].
  - csimpl. by rewrite app_nil_r.
  - unfold index_entry at 1. cbn [fst snd]. rewrite Hv. csimpl in Hnd.
    assert (n ∉ positions0.*1) as Hn.
    { apply NoDup_app in Hnd as (_ & H & _). intros Hin. apply (H n Hin). by left. }
    rewrite bool_decide_false, ainsert_new by done. rewrite IH.
    + csimpl. by rewrite <- app_assoc.
    + rewrite fmap_app. csimpl. by rewrite <- app_assoc.
Qed.

(** Positions of names in a list. *)
Definition positions_of (ns : list pystr) : list (pystr * nat) := zip ns (seq 0 (length ns)).

Lemma alookup_zip_seq (ns : list pystr) k n i :
  alookup n (zip ns (seq k (length ns))) = Some i -> exists j, i = (k + j)%nat /\ ns !! j = Some n.
Proof.
  revert k. induction ns as [|m ns IH]; intros k; cbn [length seq zip_with alookup]; [done|].
  case_decide as H; [subst; intros [= <-]; exists 0%nat; split; [lia|done]|].
  intros (j & -> & Hj)%IH. exists (S j). split; [lia|done].
Qed.

Lemma alookup_positions (ns : list pystr) n i : alookup n (positions_of ns) = Some i -> ns !! i = Some n.
Proof. intros (j & -> & Hj)%alookup_zip_seq. done. Qed.

Lemma positions_keys ns : (positions_of ns).*1 = ns.
Proof. unfold positions_of. apply fst_zip. by rewrite length_seq. Qed.

Lemma positions_snoc (ns : list pystr) n :
  n ∉ ns -> ainsert n (length ns) (positions_of ns) = positions_of (ns ++ [n]).
Proof.
  intros Hn. rewrite ainsert_new by by rewrite positions_keys.
  unfold positions_of. rewrite length_app, Nat.add_1_r, seq_S. cbn [length Nat.add].
  by rewrite zip_with_app by by rewrite length_seq.
Qed.

Lemma merge_ref_snoc_new cur des n d :
  n ∉ cur.*1 ->
  merge_ref cur (des ++ [(n, d)]) = merge_ref cur des ++ [(n, d)] \/ n ∈ des.*1.
Proof.
  intros Hn. destruct (decide (n ∈ des.*1)) as [|Hd]; [by right|left].
  unfold merge_ref. rewrite List.filter_app. cbn [List.filter fst].
  rewrite (bool_decide_false (n ∈ cur.*1)) by done. cbn [negb]. rewrite app_assoc. do 2 f_equal.
  apply map_ext_in. intros [m x] Hin%list_elem_of_In. unfold ref_entry. cbn [fst snd].
  rewrite alookup_app. destruct (alookup m des); [done|]. cbn [alookup].
  rewrite decide_False; [done|]. intros ->. apply Hn, list_elem_of_fmap. by exists (n, x).
Qed.

Lemma merge_ref_snoc_old cur des n d i old :
  NoDup cur.*1 -> n ∉ des.*1 -> cur !! i = Some (n, old) ->
  merge_ref cur (des ++ [(n, d)]) = <[i := (n, dict_merge old d)]> (merge_ref cur des).
Proof.
  intros Hnd Hd Hi. unfold merge_ref. rewrite List.filter_app. cbn [List.filter fst].
  assert (n ∈ cur.*1) as Hin.
  { apply list_elem_of_fmap. exists (n, old). split; [done|]. by eapply list_elem_of_lookup_2. }
  rewrite (bool_decide_true (n ∈ cur.*1)) by done. cbn [negb]. rewrite app_nil_r.
  rewrite insert_app_l by (rewrite length_map; by eapply lookup_lt_Some). f_equal.
  revert i Hi Hnd. clear Hin. induction cur as [|[m x] cur IH]; intros [|i]; csimpl; try done.
  - intros [= -> ->] [Hm _]%NoDup_cons. f_equal.
    + unfold ref_entry. cbn [fst snd]. rewrite alookup_app, (proj2 (alookup_None n des)) by done.
      cbn [alookup]. by rewrite decide_True.
    + apply map_ext_in. intros [m x] Hx%list_elem_of_In. unfold ref_entry. cbn [fst snd].
      rewrite alookup_app. destruct (alookup m des); [done|]. cbn [alookup].
      rewrite decide_False; [done|]. intros ->. apply Hm, list_elem_of_fmap. by exists (n, x).
  - intros Hi [Hm Hnd]%NoDup_cons. rewrite (IH i Hi Hnd). f_equal.
    unfold ref_entry. cbn [fst snd]. rewrite alookup_app. destruct (alookup m des); [done|].
    cbn [alookup]. rewrite decide_False; [done|]. intros ->. apply Hm, list_elem_of_fmap.
    exists (n, old). split; [done|]. by eapply list_elem_of_lookup_2.
Qed.

(** State of the second loop after the desired entries [des]. *)
Definition merge_at (cur des : list (pystr * pydict)) : merge_state * list pystr :=
  (positions_of (merge_ref cur des).*1, unnamed (merge_ref cur des), rev des.*1).

Lemma lookup_unnamed ne i : unnamed ne !! i = (fun e => VDict (snd e)) <$> ne !! i.
Proof. unfold unnamed. by rewrite list_lookup_fmap. Qed.

Lemma merge_ref_keys_in cur des n :
  n ∈ (merge_ref cur des).*1 <-> n ∈ cur.*1 \/ n ∈ des.*1.
Proof.
  unfold merge_ref. rewrite fmap_app, ref_entry_keys, elem_of_app. split.
  - intros [?|?%filter_keys_sub]; auto.
  - intros [?|Hd]; [by left|]. destruct (decide (n ∈ cur.*1)) as [|Hn]; [by left|right].
    apply list_elem_of_fmap in Hd as ([m d] & -> & Hd). apply list_elem_of_fmap.
    exists (m, d). split; [done|]. apply list_elem_of_In, filter_In. split; [by apply list_elem_of_In|].
    cbn [fst]. by rewrite bool_decide_false.
Qed.

Lemma merge_entry_step label cur des v n d :
  NoDup cur.*1 -> NoDup (des.*1 ++ [n]) -> named_entry v = Some (n, d) ->
  merge_entry label (merge_at cur des) v = Ok (merge_at cur (des ++ [(n, d)])).
Proof.
  intros Hcur Hdes Hv. apply NoDup_app in Hdes as (Hd & Hfresh & _).
  assert (n ∉ des.*1) as Hn by (intros H; apply (Hfresh n H); by left).
  unfold merge_entry, merge_at. rewrite Hv.
  rewrite bool_decide_false by by rewrite list_elem_of_In, <- in_rev, <- list_elem_of_In.
  rewrite fmap_app, rev_app_distr. csimpl.
  pose proof (merge_ref_NoDup cur des Hcur Hd) as Hnd.
  destruct (alookup n (positions_of (merge_ref cur des).*1)) as [i|] eqn:Ei.
  - apply alookup_positions in Ei. rewrite list_lookup_fmap in Ei.
    destruct (merge_ref cur des !! i) as [[n' old]|] eqn:El; [|done]. injection Ei as ->.
    rewrite lookup_unnamed, El. cbn [fmap option_fmap option_map snd].
    assert (exists old', cur !! i = Some (n, old')) as [old' Hc].
    { unfold merge_ref in El. apply lookup_app_Some in El as [El|[_ El]].
      - apply list_lookup_fmap_Some in El as ([m x] & Hmx & Hc). exists x. rewrite Hc.
        f_equal. unfold ref_entry in Hmx. cbn [fst snd] in Hmx. case_match; congruence.
      - apply list_elem_of_lookup_2, list_elem_of_In, filter_In in El as [El _].
        destruct Hn. apply list_elem_of_fmap. exists (n, old). by rewrite list_elem_of_In. }
    rewrite (merge_ref_snoc_old cur des n d i old') by done.
    assert (old = old') as <-.
    { unfold merge_ref in El. rewrite lookup_app_l in El
        by (rewrite length_map; by eapply lookup_lt_Some).
      rewrite list_lookup_fmap, Hc in El. simpl in El. unfold ref_entry in El. cbn [fst snd] in El.
      rewrite (proj2 (alookup_None n des)) in El by done. congruence. }
    do 3 f_equal.
    + rewrite list_fmap_insert. csimpl. rewrite list_insert_id; [done|].
      by rewrite list_lookup_fmap, El.
    + unfold unnamed. by rewrite list_fmap_insert.
  - apply alookup_None in Ei. rewrite positions_keys in Ei.
    assert (n ∉ cur.*1) as Hc by (intros H; apply Ei, merge_ref_keys_in; by left).
    destruct (merge_ref_snoc_new cur des n d Hc) as [->|?]; [|done].
    do 3 f_equal.
    + unfold unnamed. rewrite length_map, fmap_app. csimpl.
      rewrite <- (length_fmap fst (merge_ref cur des)). by apply positions_snoc.
    + unfold unnamed. by rewrite fmap_app.
Qed.

Lemma merge_entry_loop label cur des rest l :
  NoDup cur.*1 -> NoDup (des ++ rest).*1 -> named l rest ->
  foldM_res (merge_entry label) l (merge_at cur des) = Ok (merge_at cur (des ++ rest)).
Proof.
  intros Hcur Hnd H. revert des Hnd. induction H as [|v [n d] l rest Hv _ IH]; intros des Hnd.
  - by rewrite app_nil_r.
  - cbn [foldM_res]. rewrite (merge_entry_step label cur des v n d); [|done| |done].
    + rewrite IH; [|by rewrite <- app_assoc]. by rewrite <- app_assoc.
    + rewrite fmap_app in Hnd. csimpl in Hnd. rewrite (cons_middle n) in Hnd.
      rewrite app_assoc in Hnd. by apply NoDup_app in Hnd as (? & _ & _).
Qed.

Lemma merge_entry_loop_inv label cur des l st :
  NoDup cur.*1 -> NoDup des.*1 ->
  foldM_res (merge_entry label) l (merge_at cur des) = Ok st ->
  exists rest, named l rest /\ NoDup (des ++ rest).*1.
Proof.
  revert des. induction l as [|v l IH]; intros des Hcur Hdes; cbn [foldM_res].
  - intros _. exists []. split; [constructor|by rewrite app_nil_r].
  - destruct (merge_entry label (merge_at cur des) v) as [st'|] eqn:E; [|done].
    assert (exists n d, named_entry v = Some (n, d) /\ n ∉ des.*1) as (n & d & Hv & Hn).
    { unfold merge_entry, merge_at in E. destruct (named_entry v) as [[n d]|]; [|done].
      case_bool_decide as H; [done|]. exists n, d. split; [done|].
      by rewrite list_elem_of_In, <- in_rev, <- list_elem_of_In in H. }
    assert (NoDup (des.*1 ++ [n])) as Hdn.
    { apply NoDup_app. split_and!; [done| |apply NoDup_singleton].
      by intros x Hx ->%list_elem_of_singleton. }
    rewrite (merge_entry_step label cur des v n d) in E by done. injection E as <-. intros Hf.
    apply IH in Hf as (rest & Hr & Hnd); [|done|by rewrite fmap_app].
    exists ((n, d) :: rest). split; [by constructor|]. by rewrite <- app_assoc in Hnd.
Qed.

(** The merge is the reference merge, and fails exactly when an entry has no
    name or a name is repeated. *)
Lemma merge_named_entries_spec cur des label m :
  merge_named_entries (VList cur) (VList des) label = Ok m <->
  exists nc nd, named cur nc /\ named des nd /\ NoDup nc.*1 /\ NoDup nd.*1 /\
    m = unnamed (merge_ref nc nd).
Proof.
  assert (Hempty : forall nc, merge_ref nc [] = nc).
  { intros nc. unfold merge_ref. cbn [List.filter]. rewrite app_nil_r.
    rewrite <- (map_id nc) at 2. apply map_ext. by intros [n d]. }
  unfold merge_named_entries, enumerate. split.
  - destruct (foldM_res (index_entry label) _ _) as [pos|] eqn:Ei; [|done].
    apply index_entry_loop in Ei as (nc & Hc & -> & Hnd). specialize (Hnd NoDup_nil_2).
    cbn [app] in *. csimpl in Hnd.
    assert ((zip nc.*1 (seq 0 (length cur)), cur, []) = merge_at nc []) as E.
    { unfold merge_at. rewrite Hempty. unfold positions_of. rewrite length_fmap.
      rewrite (Forall2_length _ _ _ Hc). by rewrite (named_unnamed _ _ Hc). }
    rewrite E. destruct (foldM_res (merge_entry label) des _) as [[st names]|] eqn:Ef; [|done].
    destruct (merge_entry_loop_inv label nc [] des _ Hnd NoDup_nil_2 Ef) as (nd & Hd & Hdd).
    rewrite (merge_entry_loop label nc [] nd) in Ef by done. injection Ef as <- <-.
    intros [= <-]. by exists nc, nd.
  - intros (nc & nd & Hc & Hd & Hnc & Hnd & ->).
    rewrite (index_entry_loop_ok label cur nc 0 []) by done. cbn [app].
    assert ((zip nc.*1 (seq 0 (length cur)), cur, []) = merge_at nc []) as ->.
    { unfold merge_at. rewrite Hempty. unfold positions_of. rewrite length_fmap.
      rewrite (Forall2_length _ _ _ Hc). by rewrite (named_unnamed _ _ Hc). }
    by rewrite (merge_entry_loop label nc [] nd).
Qed.

(** ** Merging again changes nothing *)

Definition good_entries (ne : list (pystr * pydict)) : Prop :=
  Forall (fun e => good_val (VDict (snd e)) = true) ne.

Lemma named_good l ne : named l ne -> good_val (VList l) = true -> good_entries ne.
Proof.
  intros H Hg%good_val_list. induction H as [|v [n d] l ne Hv _ IH]; [constructor|].
  apply Forall_cons in Hg as [Hg Hl]. apply named_entry_Some in Hv as [-> _].
  constructor; [done|by apply IH].
Qed.

Lemma named_keys_in l ne n d :
  named l ne -> (n, d) ∈ ne -> dict_get d (u"name") = VStr n.
Proof.
  induction 1 as [|v e l ne Hv _ IH]; [by intros ?%elem_of_nil|].
  rewrite elem_of_cons. intros [<-|?]; [by apply named_entry_Some in Hv as [_ ?]|auto].
Qed.

Lemma dict_get_Some_key d k s : dict_get d k = VStr s -> k ∈ d.*1.
Proof.
  unfold dict_get. intros H. apply alookup_is_Some. destruct (alookup k d); [by eexists|done].
Qed.

Lemma dict_merge_good a b :
  good_val (VDict a) = true -> good_val (VDict b) = true -> good_val (VDict (dict_merge a b)) = true.
Proof.
  rewrite !good_val_dict. intros [Ha Hga] [Hb Hgb]. split; [by apply dict_merge_NoDup|].
  apply Forall_forall. intros [k v] Hin. apply (alookup_NoDup k v) in Hin; [|by apply dict_merge_NoDup].
  rewrite alookup_merge in Hin by done. simpl. rewrite Forall_forall in Hga, Hgb.
  destruct (alookup k b) as [w|] eqn:E.
  - injection Hin as ->. apply alookup_Some_in in E. by apply (Hgb (k, v)).
  - apply alookup_Some_in in Hin. by apply (Hga (k, v)).
Qed.

Lemma merge_ref_elem cur des n d :
  (n, d) ∈ merge_ref cur des ->
  (n, d) ∈ cur \/ (n, d) ∈ des \/
  exists old new, (n, old) ∈ cur /\ (n, new) ∈ des /\ d = dict_merge old new.
Proof.
  unfold merge_ref. rewrite elem_of_app. intros [H|H].
  - apply list_elem_of_In, in_map_iff in H as ([m x] & He & Hin%list_elem_of_In).
    unfold ref_entry in He. cbn [fst snd] in He. destruct (alookup m des) as [new|] eqn:E.
    + injection He as -> <-. right. right. exists x, new. split_and!; [done| |done].
      by apply alookup_Some_in.
    + left. congruence.
  - apply list_elem_of_In, filter_In in H as [H _]. right. left. by apply list_elem_of_In.
Qed.

Lemma merge_ref_good cur des :
  good_entries cur -> good_entries des -> good_entries (merge_ref cur des).
Proof.
  unfold good_entries. rewrite !Forall_forall. intros Hc Hd [n d] Hin. cbn [snd].
  apply merge_ref_elem in Hin as [H|[H|(old & new & H1 & H2 & ->)]].
  - by apply (Hc (n, d)).
  - by apply (Hd (n, d)).
  - apply dict_merge_good; [by apply (Hc (n, old))|by apply (Hd (n, new))].
Qed.

Lemma good_entries_NoDup ne n d : good_entries ne -> (n, d) ∈ ne -> NoDup d.*1.
Proof.
  unfold good_entries. rewrite Forall_forall. intros H Hin.
  by apply (H (n, d)), good_val_dict in Hin as [? _].
Qed.

Lemma named_merge_ref lc ld cur des :
  named lc cur -> named ld des -> good_entries des ->
  named (unnamed (merge_ref cur des)) (merge_ref cur des).
Proof.
  intros Hc Hd Hg. unfold named, unnamed. apply Forall2_fmap_l, Forall_Forall2_diag, Forall_forall.
  intros [n d] Hin. apply named_entry_Some. split; [done|].
  apply merge_ref_elem in Hin as [H|[H|(old & new & H1 & H2 & ->)]].
  - exact (named_keys_in _ _ _ _ Hc H).
  - exact (named_keys_in _ _ _ _ Hd H).
  - pose proof (named_keys_in _ _ _ _ Hd H2) as Hn.
    rewrite dict_get_merge; [done|by eapply good_entries_NoDup|by eapply dict_get_Some_key].
Qed.

Lemma merge_ref_idem cur des :
  NoDup des.*1 -> good_entries des ->
  merge_ref (merge_ref cur des) des = merge_ref cur des.
Proof.
  intros Hnd Hg. unfold merge_ref at 1.
  assert (List.filter (fun e : pystr * pydict => negb (bool_decide (e.1 ∈ (merge_ref cur des).*1))) des = [])
    as ->.
  { apply filter_nil, Forall_forall. intros [n d] Hin. apply negb_false_iff, bool_decide_eq_true.
    apply merge_ref_keys_in. right. apply list_elem_of_fmap. by exists (n, d). }
  rewrite app_nil_r. unfold merge_ref. rewrite map_app. f_equal.
  - rewrite map_map. apply map_ext. intros [m x]. unfold ref_entry. cbn [fst snd].
    destruct (alookup m des) as [d|] eqn:E; cbn [fst snd]; rewrite E; [|done].
    rewrite dict_merge_idem; [done|]. by eapply good_entries_NoDup, alookup_Some_in.
  - rewrite <- (map_id (List.filter _ des)) at 2. apply map_ext_in.
    intros [n d] [Hin%list_elem_of_In _]%filter_In. unfold ref_entry. cbn [fst snd].
    rewrite (alookup_NoDup n d des) by done. f_equal. apply dict_merge_absorb, Forall_forall.
    intros [k v] Hkv. apply alookup_NoDup; [|done]. by eapply good_entries_NoDup.
Qed.

(** A second merge of the same desired entries is the identity. *)
Lemma merge_named_entries_again cur des label m :
  good_val (VList des) = true ->
  merge_named_entries (VList cur) (VList des) label = Ok m ->
  merge_named_entries (VList m) (VList des) label = Ok m.
Proof.
  intros Hg (nc & nd & Hc & Hd & Hnc & Hnd & ->)%merge_named_entries_spec.
  pose proof (named_good _ _ Hd Hg) as Hgd.
  apply merge_named_entries_spec. exists (merge_ref nc nd), nd.
  split_and!; [by eapply named_merge_ref|done|by apply merge_ref_NoDup|done|].
  by rewrite merge_ref_idem.
Qed.

(** ** The realm plan converges *)

Lemma mapM_res_ext {A B} (f g : A -> res B) l ys :
  (forall x y, x ∈ l -> f x = Ok y -> g x = Ok y) -> mapM_res f l = Ok ys -> mapM_res g l = Ok ys.
Proof.
  intros H Hf%mapM_res_Ok. apply mapM_res_Ok.
  induction Hf as [|x y l ys Hx _ IH]; [constructor|].
  constructor; [apply H; [by left|done]|]. apply IH. intros z w Hz. apply H. by right.
Qed.

Definition group_payload (field : pystr) (v : pyval) (current current' : pydict) : Prop :=
  dict_get current' field = v \/ alookup field current' = alookup field current.

Lemma unnamed_good ne : good_entries ne -> good_val (VList (unnamed ne)) = true.
Proof. intros H. apply good_val_list. unfold unnamed. by apply Forall_fmap. Qed.

Lemma merge_named_good cur des label m :
  good_val cur = true -> good_val des = true ->
  merge_named_entries cur des label = Ok m -> good_val (VList m) = true.
Proof.
  intros Hc Hd H. destruct cur as [| | | | |cur|]; [done..| |done].
  destruct des as [| | | | |des|]; [done..| |done].
  apply merge_named_entries_spec in H as (nc & nd & Hnc & Hnd & _ & _ & ->).
  apply unnamed_good, merge_ref_good; by eapply named_good.
Qed.

Lemma dict_get_or_good d k v : good_val (VDict d) = true -> good_val v = true ->
  good_val (dict_get_or d k v) = true.
Proof.
  intros Hd Hv. unfold dict_get_or. pose proof (dict_get_good d k Hd) as H. unfold dict_get in H.
  by destruct (alookup k d).
Qed.

Lemma ainsert_good k v d :
  good_val (VDict d) = true -> good_val v = true -> good_val (VDict (ainsert k v d)) = true.
Proof.
  intros Hd Hv. change (ainsert k v d) with (dict_merge d [(k, v)]). apply dict_merge_good; [done|].
  apply good_val_dict. split; [apply NoDup_singleton|by repeat constructor].
Qed.

Section group.
Context (current desired : pydict).
Context (Hcur : good_val (VDict current) = true) (Hdes : good_val (VDict desired) = true).

Lemma merge_group_good g kv :
merge_group current desired g = Ok kv -> good_val (snd kv) = true.
Proof.
destruct g as [[field collection] label]. unfold merge_group, dict_item.
destruct (alookup field desired) as [dg|] eqn:Eg; [|done]. cbn [res_of_option].
assert (Hdg : good_val dg = true).
{ pose proof (dict_get_good desired field Hdes) as H. unfold dict_get in H. by rewrite Eg in H. }
pose proof (dict_get_or_good current field (VDict []) Hcur eq_refl) as Hlg.
destruct (dict_get_or current field (VDict [])) as [| | | | | |lg]; try done.
destruct dg as [| | | | | |dg]; try done.
destruct (merge_named_entries _ _ _) as [m|] eqn:Em; [|done]. intros [= <-]. cbn [snd].
apply ainsert_good; [done|]. eapply merge_named_good, Em; by apply dict_get_or_good.
Qed.

(** Once the group has been stored, merging gives the stored group. *)
Lemma merge_group_again g field v current' :
merge_group current desired g = Ok (field, v) ->
group_payload field v current current' ->
merge_group current' desired g = Ok (field, v).
Proof.
destruct g as [[field' collection] label]. unfold merge_group, dict_item.
destruct (alookup field' desired) as [dg|] eqn:Eg; [|done]. cbn [res_of_option].
assert (Hdg : good_val dg = true).
{ pose proof (dict_get_good desired field' Hdes) as H. unfold dict_get in H. by rewrite Eg in H. }
destruct (dict_get_or current field' (VDict [])) as [| | | | | |lg] eqn:Elg; try done.
destruct dg as [| | | | | |dg]; try done.
destruct (merge_named_entries _ _ _) as [m|] eqn:Em; [|done]. intros [= <- <-].
intros [Hs|Hs].
- assert (dict_get_or current' field' (VDict []) = VDict (ainsert collection (VList m) lg)) as ->.
  { unfold dict_get_or, dict_get in *. by destruct (alookup field' current'). }
  unfold dict_get_or at 1. rewrite alookup_ainsert, decide_True by done.
  pose proof (dict_get_or_good dg collection (VList []) Hdg eq_refl) as Hgd.
  destruct (dict_get_or dg collection (VList [])) as [| | | | |des|].
  all: try (by destruct (dict_get_or lg collection (VList []))).
  destruct (dict_get_or lg collection (VList [])) as [| | | | |cur|]; try done.
  rewrite (merge_named_entries_again cur des label m) by done.
  do 3 f_equal. apply ainsert_same. by rewrite alookup_ainsert, decide_True.
- assert (dict_get_or current' field' (VDict []) = VDict lg) as ->.
  { rewrite <- Elg. unfold dict_get_or. by rewrite Hs. }
  by rewrite Em.
Qed.
End group.

(** The payload before unchanged fields are dropped. *)
Lemma realm_admin_payload_spec current desired payload :
  realm_admin_payload (VDict current) (VDict desired) = Ok payload <->
  REALM_ADMIN_FIELDS ⊆ desired.*1 /\
  exists groups, mapM_res (merge_group current desired) REALM_GROUPS = Ok groups /\
    payload = List.filter (fun kv => negb (py_eq (dict_get current (fst kv)) (snd kv)))
                (project REALM_PLAIN_FIELDS desired ++ groups).
Proof.
  unfold realm_admin_payload. case_bool_decide as Hsub; cbn [negb].
  2:{ split; [done|]. by intros [? _]. }
  destruct (mapM_res (merge_group current desired) REALM_GROUPS) as [groups|].
  - split; [intros H%Ok_inj; by eauto|]. by intros (_ & g & [= <-] & ->).
  - split; [done|]. by intros (_ & g & ? & _).
Qed.

Lemma realm_groups_keys current desired groups :
  mapM_res (merge_group current desired) REALM_GROUPS = Ok groups ->
  groups.*1 = [u"clientPolicies"; u"clientProfiles"].
Proof.
  intros H%mapM_res_Ok. unfold REALM_GROUPS in H.
  assert (Hk : forall g kv, merge_group current desired g = Ok kv -> fst kv = fst (fst g)).
  { intros [[f c] l] kv. unfold merge_group, dict_item.
    destruct (res_of_option _ _) as [dg|]; [|done].
    destruct (dict_get_or current f _), dg; try done.
    destruct (merge_named_entries _ _ _); [|done]. by intros [= <-]. }
  inversion H as [|g1 kv1 ? ? H1 Ht]; subst. inversion Ht as [|g2 kv2 ? ? H2 Hn]; subst.
  inversion Hn; subst. csimpl. by rewrite (Hk _ _ H1), (Hk _ _ H2).
Qed.

Lemma filter_keep_lookup (f : pystr * pyval -> bool) l k v :
  NoDup l.*1 -> (k, v) ∈ l ->
  alookup k (List.filter f l) = if f (k, v) then Some v else None.
Proof.
  induction l as [|[k' v'] l IH]; [by intros _ ?%elem_of_nil|]. csimpl.
  intros [Hn Hl]%NoDup_cons [H|H]%elem_of_cons.
  - injection H as -> ->. destruct (f (k', v')) eqn:E; simpl; [by rewrite decide_True|].
    apply alookup_None. intros (e & -> & He)%list_elem_of_fmap.
    apply list_elem_of_In, filter_In in He as [He _]. apply Hn, list_elem_of_fmap.
    exists e. by rewrite list_elem_of_In.
  - assert (k <> k') as Hne by (intros ->; apply Hn, list_elem_of_fmap; by exists (k', v)).
    destruct (f (k', v')); simpl; [rewrite decide_False by done|]; by apply IH.
Qed.

Lemma filter_keys_NoDup' (f : pystr * pyval -> bool) l : NoDup l.*1 -> NoDup (List.filter f l).*1.
Proof.
  induction l as [|e l IH]; [done|]. csimpl. intros [Hn Hd]%NoDup_cons.
  destruct (f e); [|by apply IH]. csimpl. apply NoDup_cons. split; [|by apply IH].
  intros (e' & He & Hin)%list_elem_of_fmap. apply list_elem_of_In, filter_In in Hin as [Hin _].
  apply Hn, list_elem_of_fmap. exists e'. by rewrite list_elem_of_In.
Qed.

(** After a field has been stored its value compares equal. *)
Lemma stored_field current all k v :
  NoDup all.*1 -> (k, v) ∈ all ->
  let current' := dict_merge current
    (List.filter (fun kv => negb (py_eq (dict_get current (fst kv)) (snd kv))) all) in
  (dict_get current' k = v) \/
  (alookup k current' = alookup k current /\ py_eq (dict_get current k) v = true).
Proof.
  intros Hnd Hin. cbv zeta. unfold dict_get at 1.
  rewrite alookup_merge by by apply filter_keys_NoDup'.
  rewrite (filter_keep_lookup _ all k v) by done. cbn [fst snd].
  destruct (py_eq (dict_get current k) v) eqn:E; simpl; auto.
Qed.

(** The realm plan converges: once Keycloak has stored the planned fields,
    the next plan is empty. *)
Theorem realm_plan_converges current desired payload :
  good_val (VDict current) = true -> good_val (VDict desired) = true ->
  realm_admin_payload (VDict current) (VDict desired) = Ok payload ->
  realm_admin_payload (VDict (dict_merge current payload)) (VDict desired) = Ok [].
Proof.
  intros Hc Hd (Hsub & groups & Hg & ->)%realm_admin_payload_spec.
  set (all := project REALM_PLAIN_FIELDS desired ++ groups).
  assert (Hnd : NoDup all.*1).
  { unfold all. rewrite fmap_app, project_keys, (realm_groups_keys _ _ _ Hg).
    apply has_dup_false. by vm_compute. }
  pose proof (fun k v => stored_field current all k v Hnd) as Hst. cbv zeta in Hst.
  set (current' := dict_merge current _) in *.
  apply realm_admin_payload_spec. split; [done|]. exists groups. split.
  - eapply mapM_res_ext, Hg. intros g [f v] Hgin Hok. apply (merge_group_again current desired Hd); [done|].
    assert ((f, v) ∈ all) as Hin.
    { unfold all. apply elem_of_app. right. apply mapM_res_Ok in Hg.
      apply list_elem_of_lookup in Hgin as [i Hi].
      apply (Forall2_lookup_l _ _ _ _ _ Hg) in Hi as (y & Hy & E).
      rewrite Hok in E. injection E as <-. by eapply list_elem_of_lookup_2. }
    destruct (Hst f v Hin) as [?|[? _]]; [by left|by right].
  - symmetry. apply filter_nil, Forall_forall. intros [k v] Hin. cbn [fst snd].
    apply negb_false_iff. destruct (Hst k v Hin) as [-> | [Hl E]].
    + apply py_eq_good. unfold all in Hin. apply elem_of_app in Hin as [Hin|Hin].
      * apply list_elem_of_In, in_map_iff in Hin as (f & [= <- <-] & _). by apply dict_get_good.
      * apply mapM_res_Ok in Hg. apply list_elem_of_lookup in Hin as [i Hi].
        apply (Forall2_lookup_r _ _ _ _ _ Hg) in Hi as (g & _ & E).
        by apply (merge_group_good current desired Hc Hd) in E.
    + unfold dict_get in *. by rewrite Hl.
Qed.

(** ** Mapper plans *)

Lemma index_mapper_loop l by_name0 by_name :
  foldM_res index_mapper l by_name0 = Ok by_name ->
  exists ne, named l ne /\ by_name = by_name0 ++ ne /\
    (NoDup by_name0.*1 -> NoDup (by_name0 ++ ne).*1).
Proof.
  revert by_name0. induction l as [|v l IH]; intros by_name0; cbn [foldM_res].
  - intros [= <-]. exists []. rewrite app_nil_r. split_and!; [constructor|done|done].
  - unfold index_mapper at 1. destruct (named_entry v) as [[n d]|] eqn:Ev; [|done].
    case_bool_decide as Hn; [done|]. rewrite ainsert_new by done.
    intros (ne & Hne & -> & Hnd)%IH. exists ((n, d) :: ne). rewrite <- app_assoc in *.
    split_and!; [by constructor|done|]. intros H0. apply Hnd. rewrite fmap_app.
    apply NoDup_app. split_and!; [done| |apply NoDup_singleton].
    by intros x Hx ->%list_elem_of_singleton.
Qed.

Lemma index_mapper_loop_ok l ne by_name0 :
  named l ne -> NoDup (by_name0 ++ ne).*1 ->
  foldM_res index_mapper l by_name0 = Ok (by_name0 ++ ne).
Proof.
  intros H. revert by_name0. induction H as [|v [n d] l ne Hv _ IH]; intros by_name0 Hnd;
    cbn [foldM_res]; [by rewrite app_nil_r|].
  unfold index_mapper at 1. rewrite Hv. rewrite fmap_app in Hnd. csimpl in Hnd.
  assert (n ∉ by_name0.*1) as Hn.
  { apply NoDup_app in Hnd as (_ & H & _). intros Hin. apply (H n Hin). by left. }
  rewrite bool_decide_false, ainsert_new by done.
  rewrite IH; [by rewrite <- app_assoc|]. rewrite <- app_assoc, fmap_app. done.
Qed.

(** What is planned for one desired mapper. *)
Definition mapper_planned (live : list (pystr * pydict)) (payload : pydict)
    (action : option mapper_action) : Prop :=
  match action with
  | Some (MapperCreate p) => p = payload /\ payload_name payload ∉ live.*1
  | Some (MapperUpdate i p) =>
      p = payload /\ i <> [] /\ exists current,
        (payload_name payload, current) ∈ live /\ dict_get current (u"id") = VStr i /\
        py_eq (VDict (project MAPPER_ADMIN_FIELDS current)) (VDict payload) = false
  | None => exists current, (payload_name payload, current) ∈ live /\
      is_nonempty_str (dict_get current (u"id")) = true /\
      py_eq (VDict (project MAPPER_ADMIN_FIELDS current)) (VDict payload) = true
  end.

Lemma plan_mapper_planned live payload action :
  NoDup live.*1 -> plan_mapper live payload = Ok action <-> mapper_planned live payload action.
Proof.
  intros Hnd. unfold plan_mapper, mapper_planned.
  destruct (alookup (payload_name payload) live) as [current|] eqn:E.
  - assert (Hin : forall c, (payload_name payload, c) ∈ live <-> c = current).
    { intros c. split; [|intros ->; by apply alookup_Some_in].
      intros H%(alookup_NoDup _ _ _ Hnd). congruence. }
    split.
    + destruct (dict_get current (u"id")) as [| | | |[|c i]| |] eqn:Ei; try done.
      destruct (py_eq _ _) eqn:Ep; intros [= <-].
      * exists current. by rewrite Hin, Ei.
      * split_and!; [done..|]. exists current. by rewrite Hin.
    + destruct action as [[p|i p]|].
      * intros [_ Hn%alookup_None]. congruence.
      * intros (-> & Hi & c & ->%Hin & -> & ->). by destruct i.
      * intros (c & ->%Hin & Hi & ->). by destruct (dict_get current (u"id")) as [| | | |[|? ?]| |].
  - apply alookup_None in E.
    assert (Hno : forall c, (payload_name payload, c) ∉ live).
    { intros c Hc. apply E, list_elem_of_fmap. by exists (payload_name payload, c). }
    split; [by intros [= <-]|]. destruct action as [[p|i p]|].
    + by intros [-> _].
    + intros (_ & _ & c & Hc & _). by destruct (Hno c).
    + intros (c & Hc & _). by destruct (Hno c).
Qed.

Lemma plan_mapper_sync_spec desired live plan :
  plan_mapper_sync desired (VList live) = Ok plan <->
  exists payloads ne actions,
    mapM_res mapper_admin_payload desired = Ok payloads /\
    NoDup (map payload_name payloads) /\ named live ne /\ NoDup ne.*1 /\
    Forall2 (mapper_planned ne) payloads actions /\ plan = omap id actions.
Proof.
  unfold plan_mapper_sync. split.
  - destruct (mapM_res mapper_admin_payload desired) as [payloads|]; [|done].
    destruct (has_dup _) eqn:Ed; [done|]. apply has_dup_false in Ed.
    destruct (foldM_res index_mapper live []) as [ne|] eqn:El; [|done].
    apply index_mapper_loop in El as (ne' & Hn & -> & Hnd). specialize (Hnd NoDup_nil_2).
    cbn [app] in *. destruct (mapM_res (plan_mapper ne') payloads) as [actions|] eqn:Ep; [|done].
    intros [= <-]. exists payloads, ne', actions. split_and!; try done.
    apply mapM_res_Ok in Ep. eapply Forall2_impl; [exact Ep|]. intros p a. by apply plan_mapper_planned.
  - intros (payloads & ne & actions & -> & Hd%has_dup_false & Hn & Hnd & Hp & ->).
    rewrite Hd, (index_mapper_loop_ok live ne []) by done. cbn [app].
    assert (mapM_res (plan_mapper ne) payloads = Ok actions) as ->; [|done].
    apply mapM_res_Ok. eapply Forall2_impl; [exact Hp|]. intros p a. by apply plan_mapper_planned.
Qed.

Lemma mapper_admin_payload_Ok v payload :
  mapper_admin_payload v = Ok payload ->
  exists d, v = VDict d /\ payload = project MAPPER_ADMIN_FIELDS d.
Proof.
  destruct v as [| | | | | |d]; try done. cbn [mapper_admin_payload].
  destruct (keys_are _ _); [|done]. destruct (forallb _ _); [|done]. cbn [negb].
  destruct (dict_get d (u"config")); try done. destruct (forallb _ _); [|done].
  intros [= <-]. by exists d.
Qed.

Lemma mapper_payload_good v payload :
  good_val v = true -> mapper_admin_payload v = Ok payload -> good_val (VDict payload) = true.
Proof.
  intros Hg (d & -> & ->)%mapper_admin_payload_Ok. apply good_val_dict.
  rewrite project_keys. split; [apply has_dup_false; by vm_compute|].
  apply Forall_forall. intros [k x] (f & [= <- <-] & _)%list_elem_of_In%in_map_iff.
  by apply dict_get_good.
Qed.

(** The live mappers after the plan has been carried out: every planned payload
    is stored under its name, and a mapper without an action is as it was. *)
Definition mappers_stored (ne ne' : list (pystr * pydict)) (plan : list mapper_action) : Prop :=
  (forall a, a ∈ plan ->
     let p := match a with MapperCreate p | MapperUpdate _ p => p end in
     exists d, (payload_name p, d) ∈ ne' /\ is_nonempty_str (dict_get d (u"id")) = true /\
       forall f, f ∈ MAPPER_ADMIN_FIELDS -> dict_get d f = dict_get p f) /\
  (forall n d, (n, d) ∈ ne ->
     (forall a, a ∈ plan ->
        payload_name (match a with MapperCreate p | MapperUpdate _ p => p end) <> n) ->
     (n, d) ∈ ne').

(** ** Client plans *)

(** [update_body] of [apply_client_sync]. *)
Definition client_update_body (client_uuid : pystr) (payload current : pydict) : pydict :=
  let update_body := (u"id", VStr client_uuid) :: payload in
  match dict_get current (u"attributes"), dict_get payload (u"attributes") with
  | VDict current_attributes, VDict desired_attributes =>
      ainsert (u"attributes") (VDict (dict_merge current_attributes desired_attributes)) update_body
  | _, _ => update_body
  end.

Lemma client_admin_payload_Ok v payload :
  client_admin_payload v = Ok payload ->
  exists d, v = VDict d /\ payload = project CLIENT_ADMIN_FIELDS d /\
    d.*1 ⊆ CLIENT_ADMIN_FIELDS ++ [u"protocolMappers"] /\ CLIENT_ADMIN_FIELDS ⊆ d.*1 /\
    is_nonempty_str (dict_get d (u"clientId")) = true /\
    is_dict (dict_get d (u"attributes")) = true.
Proof.
  destruct v as [| | | | | |d]; try done. cbn [client_admin_payload].
  case_bool_decide as H1; [|done]. case_bool_decide as H2; [|done]. cbn [negb orb].
  destruct (is_nonempty_str _) eqn:H3; [|done]. destruct (is_dict _) eqn:H4; [|done]. cbn [negb].
  destruct (existsb _ _); [done|]. destruct (dict_item _ _) as [[]|]; try done.
  destruct (_ || _); [done|]. intros [= <-]. by exists d.
Qed.

Lemma client_fields_NoDup : NoDup CLIENT_ADMIN_FIELDS.
Proof. apply has_dup_false. by vm_compute. Qed.

Lemma ainsert_project k v fields d :
  NoDup fields -> k ∈ fields ->
  ainsert k v (project fields d) =
    map (fun f => (f, if decide (f = k) then v else dict_get d f)) fields.
Proof.
  induction fields as [|f fields IH]; [by intros _ ?%elem_of_nil|].
  intros [Hn Hf]%NoDup_cons Hk. cbn [project map ainsert]. case_decide as E.
  - subst k. rewrite (decide_True (P := f = f)) by done. f_equal.
    apply map_ext_in. intros g Hg%list_elem_of_In. rewrite decide_False; [done|]. by intros ->.
  - rewrite (decide_False (P := f = k)) by congruence. f_equal. apply IH; [done|].
    apply elem_of_cons in Hk as [->|?]; done.
Qed.

Lemma client_field_not_id : u"id" ∉ CLIENT_ADMIN_FIELDS.
Proof. apply (bool_decide_unpack _). by vm_compute. Qed.

Section client.
Context (d current : pydict) (cid : pystr) (c : Z) (i : pystr).
Context (Hd : good_val (VDict d) = true).
Context (Hattr : is_dict (dict_get d (u"attributes")) = true).
Let payload := project CLIENT_ADMIN_FIELDS d.
Let current' := dict_merge current (client_update_body (c :: i) payload current).

Lemma payload_attributes : exists da, dict_get payload (u"attributes") = VDict da /\
dict_get d (u"attributes") = VDict da /\ good_val (VDict da) = true.
Proof.
apply is_dict_true in Hattr as [da Hda]. exists da. unfold payload.
rewrite dict_get_project by (apply (bool_decide_unpack _); by vm_compute).
split_and!; [done..|]. rewrite <- Hda. by apply dict_get_good.
Qed.

Lemma update_body_keys : (client_update_body (c :: i) payload current).*1 = u"id" :: CLIENT_ADMIN_FIELDS.
Proof.
unfold client_update_body.
by destruct (dict_get current (u"attributes")), (dict_get payload (u"attributes")).
Qed.

Lemma update_body_NoDup : NoDup (client_update_body (c :: i) payload current).*1.
Proof.
rewrite update_body_keys. apply NoDup_cons. split; [apply client_field_not_id|apply client_fields_NoDup].
Qed.

Lemma updated_id : dict_get current' (u"id") = VStr (c :: i).
Proof.
unfold current'. rewrite dict_get_merge; [|apply update_body_NoDup|rewrite update_body_keys; by left].
unfold client_update_body.
by destruct (dict_get current (u"attributes")), (dict_get payload (u"attributes")).
Qed.

Lemma updated_field f :
f ∈ CLIENT_ADMIN_FIELDS -> f <> u"attributes" -> dict_get current' f = dict_get d f.
Proof.
intros Hf Hne. unfold current'.
rewrite dict_get_merge; [|apply update_body_NoDup|rewrite update_body_keys; by right].
assert (f <> u"id") as Hid by (intros ->; by apply client_field_not_id).
assert (dict_get ((u"id", VStr (c :: i)) :: payload) f = dict_get d f) as H0.
{ unfold dict_get at 1. cbn [alookup]. rewrite decide_False by done.
  unfold payload. by rewrite alookup_project. }
unfold client_update_body. destruct (dict_get current _); try exact H0.
destruct (dict_get payload _); try exact H0.
unfold dict_get at 1. rewrite alookup_ainsert, decide_False by done. exact H0.
Qed.

Lemma updated_attributes : exists a, dict_get current' (u"attributes") = VDict a /\
forall da, dict_get payload (u"attributes") = VDict da -> attributes_cover a da = true.
Proof.
destruct payload_attributes as (da & Hp & Hda & [Hnd Hg]%good_val_dict).
assert (Hcover : forall a, (forall k v, (k, v) ∈ da -> dict_get a k = v) ->
  forall da', dict_get payload (u"attributes") = VDict da' -> attributes_cover a da' = true).
{ intros a Ha da'. rewrite Hp. intros [= <-]. apply forallb_Forall, Forall_forall.
  intros [k v] Hin. cbn [fst snd]. rewrite (Ha k v Hin). apply py_eq_good.
  rewrite Forall_forall in Hg. by apply (Hg (k, v)). }
assert (u"attributes" ∈ u"id" :: CLIENT_ADMIN_FIELDS) as Hin.
{ right. apply (bool_decide_unpack _). by vm_compute. }
unfold current'. rewrite dict_get_merge; [|apply update_body_NoDup|by rewrite update_body_keys].
unfold client_update_body. rewrite Hp.
assert (exists a, dict_get ((u"id", VStr (c :: i)) :: payload) (u"attributes") = VDict a /\
  forall da', dict_get payload (u"attributes") = VDict da' -> attributes_cover a da' = true) as H0.
{ exists da. split; [exact Hp|]. apply Hcover. intros k v Hkv. unfold dict_get.
  by rewrite (alookup_NoDup k v da). }
rewrite Hp in H0, Hcover.
destruct (dict_get current (u"attributes")) as [| | | | | |ca]; try exact H0.
exists (dict_merge ca da). split.
- unfold dict_get. by rewrite alookup_ainsert, decide_True.
- apply Hcover. intros k v Hkv. unfold dict_get. rewrite alookup_merge by done.
  by rewrite (alookup_NoDup k v da).
Qed.

(** The updated client is restricted to exactly the desired payload. *)
Lemma updated_payload : current_client_payload current' payload = payload.
Proof.
destruct payload_attributes as (da & Hp & Hda & _).
destruct updated_attributes as (a & Ha & Hcover).
unfold current_client_payload.
rewrite dict_get_project by (apply (bool_decide_unpack _); by vm_compute).
rewrite Ha, Hp, (Hcover da Hp).
rewrite ainsert_project; [|apply client_fields_NoDup|apply (bool_decide_unpack _); by vm_compute].
unfold payload, project. apply map_ext_in. intros f Hf%list_elem_of_In. f_equal.
case_decide; [by subst|]. by apply updated_field.
Qed.
End client.

(** ** Provider plans *)

Lemma managed_entries_app msg l k :
  managed_entries msg (l ++ k) =
    let* a := managed_entries msg l in let* b := managed_entries msg k in Ok (a ++ b).
Proof.
  induction l as [|v l IH]; cbn [managed_entries app].
  - by destruct (managed_entries msg k).
  - destruct (named_entry v) as [[n d]|]; [|done]. rewrite IH.
    destruct (managed_entries msg l) as [a|]; [|done].
    destruct (managed_entries msg k) as [b|]; [|done]. by case_bool_decide.
Qed.

(** A stored update: the component keeps its other fields and settings. *)
Definition provider_stored (current : pydict) : pydict :=
  match dict_get current (u"config") with
  | VDict config =>
      ainsert (u"config") (VDict (dict_merge config MANAGED_KEY_PROVIDER_CONFIG)) current
  | _ => current
  end.

Lemma managed_config_good : good_val (VDict MANAGED_KEY_PROVIDER_CONFIG) = true.
Proof. by vm_compute. Qed.

Lemma dict_get_ainsert k k' v d :
  dict_get (ainsert k v d) k' = if decide (k' = k) then v else dict_get d k'.
Proof. unfold dict_get. rewrite alookup_ainsert. by case_decide. Qed.

Lemma config_covers_merged config :
  config_covers (dict_merge config MANAGED_KEY_PROVIDER_CONFIG) = true.
Proof.
  pose proof managed_config_good as [Hnd Hg]%good_val_dict.
  apply forallb_Forall, Forall_forall. intros [k v] Hin. cbn [fst snd].
  unfold dict_get. rewrite alookup_merge by done. rewrite (alookup_NoDup k v) by done.
  apply py_eq_good. rewrite Forall_forall in Hg. by apply (Hg (k, v)).
Qed.

Lemma live_config_merged config :
  NoDup config.*1 -> live_config_ok config = true ->
  live_config_ok (dict_merge config MANAGED_KEY_PROVIDER_CONFIG) = true.
Proof.
  intros Hn H. pose proof managed_config_good as [Hnd _]%good_val_dict.
  unfold live_config_ok in *. rewrite forallb_Forall, Forall_forall in *. intros [k v] Hin.
  apply (alookup_NoDup k v) in Hin; [|by apply dict_merge_NoDup].
  rewrite alookup_merge in Hin by done. cbn [snd].
  destruct (alookup k MANAGED_KEY_PROVIDER_CONFIG) as [w|] eqn:E.
  - injection Hin as ->. apply alookup_Some_in in E. unfold MANAGED_KEY_PROVIDER_CONFIG in E.
    rewrite !elem_of_cons in E.
    by destruct E as [[= -> ->]|[[= -> ->]|[[= -> ->]|[[= -> ->]|[[= -> ->]|[]%elem_of_nil]]]]].
  - apply alookup_Some_in in Hin. by apply (H (k, v)).
Qed.

Lemma client_update_inj a b c d a' b' c' d' :
  Ok (ClientAction a b (ClientUpdate c d)) = Ok (ClientAction a' b' (ClientUpdate c' d')) ->
  a = a' /\ b = b' /\ c = c' /\ d = d'.
Proof. by intros [= -> -> -> ->]. Qed.

(** ** A concrete realm *)
Module Sample.
Definition attribute (n : string) : pyval := VDict [(u"name", jstr n)].
Definition mapper_dict : pydict :=
[(u"name", jstr "audience"); (u"protocol", jstr "openid-connect");
       (u"protocolMapper", jstr "oidc-audience-mapper"); (u"config", VDict [(u"k", jstr "v")])].
Definition mapper : pyval := VDict mapper_dict.
Definition live_mapper_dict : pydict :=
[(u"id", jstr "5"); (u"name", jstr "audience"); (u"extra", VInt 3)].
Definition live_mapper : pyval := VDict live_mapper_dict.
Definition stored_mapper_dict : pydict :=
dict_merge live_mapper_dict ((u"id", jstr "5") :: mapper_dict).
Definition stored_mapper : pyval := VDict stored_mapper_dict.
Definition client (i : pystr) : pyval :=
VDict (map (fun f => (f, if decide (f = u"clientId") then VStr i
                         else if decide (f = u"attributes") then VDict [(u"a", jstr "1")]
                         else if decide (f ∈ [u"redirectUris"; u"webOrigins"]) then VList []
                         else VBool true)) CLIENT_ADMIN_FIELDS
       ++ [(u"protocolMappers", VList [mapper])]).
Definition live_client : pydict :=
[(u"id", jstr "77"); (u"clientId", jstr "third-party-fapi-mtls");
 (u"attributes", VDict [(u"b", jstr "2")]); (u"surplus", VInt 1)].
Definition realm_dict : pydict :=
(map (fun f => (f, if decide (f ∈ [u"clientPolicies"; u"clientProfiles"])
                         then VDict [(u"policies", VList [VDict [(u"name", jstr "p"); (u"x", VInt 2)]])]
                         else jstr "v")) REALM_ADMIN_FIELDS
       ++ [(u"clients", VList (map client CLIENT_IDS)); (u"users", VList []);
           (u"components", VDict [(KEY_PROVIDER_TYPE, VList [VDict
             [(u"name", VStr MANAGED_KEY_PROVIDER_NAME); (u"providerId", VStr MANAGED_KEY_PROVIDER_ID);
              (u"config", VDict MANAGED_KEY_PROVIDER_CONFIG)]])])]).
Definition realm : pyval := VDict realm_dict.
Definition live_realm : pydict :=
[(u"realm", jstr "old"); (u"clientPolicies",
   VDict [(u"policies", VList [VDict [(u"name", jstr "q")]; VDict [(u"name", jstr "p"); (u"x", VInt 1)]])])].
Definition profile : pyval := VDict [(u"attributes", VList [attribute "department"])].
Definition provider : pydict :=
[(u"id", jstr "9"); (u"name", VStr MANAGED_KEY_PROVIDER_NAME);
 (u"providerId", VStr MANAGED_KEY_PROVIDER_ID); (u"providerType", VStr KEY_PROVIDER_TYPE);
 (u"config", VDict [(u"priority", VList [jstr "5"]); (u"extra", VList [jstr "kept"])])].
End Sample.

(** ** Theorems *)

(** The merge of named entries is the reference merge: every live entry keeps
    its place and its own fields, takes the fields of the desired entry of the
    same name, and new entries are appended in order; it fails exactly when a
    list has an entry without a name or a repeated name. *)
Theorem merge_named_entries_exact cur des label :
  match merge_named_entries (VList cur) (VList des) label with
  | Ok m => exists nc nd, named cur nc /\ named des nd /\ NoDup nc.*1 /\ NoDup nd.*1 /\
      m = map (fun e => VDict (match alookup (fst e) nd with
                               | Some d => dict_merge (snd e) d | None => snd e end)) nc
          ++ map (fun e => VDict (snd e))
               (List.filter (fun e => negb (bool_decide (fst e ∈ nc.*1))) nd)
  | Err _ => ~ exists nc nd, named cur nc /\ named des nd /\ NoDup nc.*1 /\ NoDup nd.*1
  end.
Proof.
  destruct (merge_named_entries _ _ _) as [m|e] eqn:E.
  - apply merge_named_entries_spec in E as (nc & nd & Hc & Hd & Hnc & Hnd & ->).
    exists nc, nd. split_and!; try done. unfold merge_ref, unnamed. rewrite map_app, map_map.
    f_equal. apply map_ext. intros [n d]. unfold ref_entry. cbn [fst snd]. by case_match.
  - intros (nc & nd & Hc & Hd & Hnc & Hnd).
    assert (merge_named_entries (VList cur) (VList des) label = Ok (unnamed (merge_ref nc nd))) as E'.
    { apply merge_named_entries_spec. by exists nc, nd. }
    congruence.
Qed.

(** C33: a client plan touches only the fields it manages and converges: when
    Keycloak has merged the update body into the client, every field outside
    the plan is as it was, live attributes that are not desired are kept, and
    the client is planned again as unchanged. *)
Theorem client_plan_converges matches desired cid payload uuid current :
  good_val desired = true -> good_val (VDict current) = true ->
  plan_client matches desired = Ok (ClientAction cid payload (ClientUpdate uuid current)) ->
  let current' := dict_merge current (client_update_body uuid payload current) in
  plan_client (ainsert cid (VList [VDict current']) matches) desired =
    Ok (ClientAction cid payload (ClientNoop uuid current')) /\
  (forall f, f ∉ u"id" :: CLIENT_ADMIN_FIELDS -> dict_get current' f = dict_get current f) /\
  (forall k live da, dict_get current (u"attributes") = VDict live ->
     dict_get payload (u"attributes") = VDict da -> k ∉ da.*1 ->
     exists stored, dict_get current' (u"attributes") = VDict stored /\
       dict_get stored k = dict_get live k).
Proof.
  intros Hg Hgc. unfold plan_client.
  destruct (client_admin_payload desired) as [p|] eqn:Ep; [|done].
  pose proof Ep as (d & -> & -> & _ & _ & Hcid & Hattr)%client_admin_payload_Ok.
  destruct (dict_get (project CLIENT_ADMIN_FIELDS d) (u"clientId")) as [| | | |client_id| |] eqn:Ec; try done.
  destruct (dict_get matches client_id) as [| | | | |[|v [|]]|]; try done;
    [|by destruct v].
  destruct v as [| | | | | |cur]; try done.
  destruct (py_eq (dict_get cur (u"clientId")) _) eqn:Eq; [|done]. cbn [negb].
  destruct (dict_get cur (u"id")) as [| | | |[|c i]| |]; try done.
  destruct (py_eq (VDict _) (VDict _)); [done|].
  intros (<- & <- & <- & <-)%client_update_inj. cbv zeta.
  assert (u"clientId" ∈ CLIENT_ADMIN_FIELDS) as Hf by (apply (bool_decide_unpack _); by vm_compute).
  split_and!.
  - unfold dict_get at 1. rewrite alookup_ainsert, decide_True by done.
    rewrite (updated_field d cur c i _ Hf) by done.
    assert (dict_get d (u"clientId") = VStr client_id) as ->.
    { by rewrite dict_get_project in Ec. }
    rewrite (proj2 (py_eq_str _ _)) by done. cbn [negb].
    rewrite (updated_id d cur c i). rewrite (updated_payload d cur c i Hg Hattr).
    rewrite py_eq_good; [done|]. apply good_val_dict. rewrite project_keys.
    split; [apply client_fields_NoDup|]. apply Forall_forall.
    intros [k x] (f & [= <- <-] & _)%list_elem_of_In%in_map_iff. by apply dict_get_good.
  - intros f Hn. rewrite dict_get_merge_other; [done|apply update_body_NoDup|].
    by rewrite update_body_keys.
  - intros k live da Hl Hda Hk. exists (dict_merge live da).
    assert (good_val (VDict da) = true) as [Hnd _]%good_val_dict.
    { rewrite <- Hda. rewrite dict_get_project by (apply (bool_decide_unpack _); by vm_compute).
      by apply dict_get_good. }
    split; [|by apply dict_get_merge_other].
    rewrite dict_get_merge; [|apply update_body_NoDup|].
    + unfold client_update_body. rewrite Hl, Hda, dict_get_ainsert. by rewrite decide_True.
    + rewrite update_body_keys. right. apply (bool_decide_unpack _). by vm_compute.
Qed.

(** A mapper plan creates exactly the desired mappers without a live one of
    their name, updates exactly those that differ, under the live identifier,
    and has no action for any other live mapper. *)
Theorem mapper_plan_exact desired live plan :
  plan_mapper_sync desired (VList live) = Ok plan ->
  exists payloads ne, mapM_res mapper_admin_payload desired = Ok payloads /\
    named live ne /\ NoDup ne.*1 /\ NoDup (map payload_name payloads) /\
    forall a, a ∈ plan <->
      exists p, p ∈ payloads /\
        match a with
        | MapperCreate q => q = p /\ payload_name p ∉ ne.*1
        | MapperUpdate i q => q = p /\ i <> [] /\ exists current,
            (payload_name p, current) ∈ ne /\ dict_get current (u"id") = VStr i /\
            py_eq (VDict (project MAPPER_ADMIN_FIELDS current)) (VDict p) = false
        end.
Proof.
  intros (payloads & ne & actions & Hp & Hnd & Hn & Hne & Hall & ->)%plan_mapper_sync_spec.
  exists payloads, ne. split_and!; try done. intros a. rewrite list_elem_of_omap.
  unfold id. split.
  - intros (oa & Hin & Ea). subst oa. apply list_elem_of_lookup in Hin as [k Hk].
    apply (Forall2_lookup_r _ _ _ _ _ Hall) in Hk as (p & Hpk & Hm). exists p.
    split; [by eapply list_elem_of_lookup_2|exact Hm].
  - intros (p & Hin & Hm). exists (Some a). split; [|done].
    apply list_elem_of_lookup in Hin as [k Hk].
    apply (Forall2_lookup_l _ _ _ _ _ Hall) in Hk as (oa & Hoa & Hm').
    assert (oa = Some a) as ->; [|by eapply list_elem_of_lookup_2].
    change (match a with MapperCreate q => _ | MapperUpdate i q => _ end)
      with (mapper_planned ne p (Some a)) in Hm.
    apply plan_mapper_planned in Hm, Hm'; [|done..]. congruence.
Qed.

(** When every planned mapper is stored and the others are untouched, the
    next mapper plan is empty. *)
Theorem mapper_plan_converges desired live live' ne ne' plan :
  good_val (VList desired) = true ->
  plan_mapper_sync desired (VList live) = Ok plan ->
  named live ne -> named live' ne' -> NoDup ne'.*1 -> mappers_stored ne ne' plan ->
  plan_mapper_sync desired (VList live') = Ok [].
Proof.
  intros Hg (payloads & ne0 & actions & Hp & Hnd & Hn0 & Hne & Hall & ->)%plan_mapper_sync_spec
    Hn Hn' Hnd' [Hstored Hkept].
  assert (ne0 = ne) as -> by by eapply named_det.
  apply plan_mapper_sync_spec. exists payloads, ne', (map (fun _ => None) payloads).
  split_and!; try done.
  2:{ clear. induction payloads as [|p ps IH]; [done|exact IH]. }
  rewrite Forall2_fmap_r. apply Forall_Forall2_diag, Forall_forall. intros p Hin.
  pose proof Hin as Hpin. apply list_elem_of_lookup in Hin as [k Hk].
  destruct (Forall2_lookup_l _ _ _ _ _ Hall Hk) as (oa & Hoa & Hm).
  pose proof Hp as Hp2. apply mapM_res_Ok in Hp2.
  destruct (Forall2_lookup_r _ _ _ _ _ Hp2 Hk) as (v & Hv & Ev).
  assert (Hgp : good_val (VDict p) = true).
  { eapply mapper_payload_good, Ev. apply good_val_list in Hg. rewrite Forall_forall in Hg.
    apply Hg. by eapply list_elem_of_lookup_2. }
  apply mapper_admin_payload_Ok in Ev as (d & -> & Epd).
  assert (Hfields : forall x, (forall f, f ∈ MAPPER_ADMIN_FIELDS -> dict_get x f = dict_get p f) ->
    py_eq (VDict (project MAPPER_ADMIN_FIELDS x)) (VDict p) = true).
  { intros x Hx. assert (project MAPPER_ADMIN_FIELDS x = p) as ->; [|by apply py_eq_good].
    rewrite Epd. unfold project. apply map_ext_in. intros f Hf%list_elem_of_In. f_equal.
    rewrite (Hx f Hf), Epd. by apply dict_get_project. }
  assert (Hin_plan : forall a, oa = Some a -> a ∈ omap id actions).
  { intros a ->. apply list_elem_of_omap. exists (Some a). split; [|done].
    by eapply list_elem_of_lookup_2. }
  destruct oa as [a|].
  - destruct (Hstored a (Hin_plan a eq_refl)) as (x & Hx & Hid & Hxf).
    assert (match a with MapperCreate q | MapperUpdate _ q => q end = p) as Hq
      by (destruct a as [q|i q]; by destruct Hm as [-> _]).
    rewrite Hq in Hx, Hxf. exists x. split_and!; [done..|by apply Hfields].
  - destruct Hm as (current & Hc & Hid & Heq). exists current. split_and!; try done.
    apply Hkept; [done|]. intros a Ha Hname.
    apply list_elem_of_omap in Ha as (oa & Hina & Ea). unfold id in Ea. subst oa.
    apply list_elem_of_lookup in Hina as [k' Hk'].
    destruct (Forall2_lookup_r _ _ _ _ _ Hall Hk') as (p' & Hp' & Hm').
    assert (match a with MapperCreate q | MapperUpdate _ q => q end = p') as Hq
      by (destruct a as [q|i q]; by destruct Hm' as [-> _]).
    rewrite Hq in Hname.
    assert (k' = k) as ->.
    { eapply (NoDup_lookup _ _ _ (payload_name p) Hnd); rewrite list_lookup_fmap.
      - by rewrite Hp', <- Hname.
      - by rewrite Hk. }
    congruence.
Qed.

(** The key provider plan acts on the one component that has the managed
    name, and after the managed settings have been stored it has nothing left
    to do; the other settings of that component are kept. *)
Theorem provider_plan_converges payload pre current post i p :
  good_val (VDict current) = true ->
  plan_key_provider_sync payload (VList (pre ++ VDict current :: post)) = Ok (ProviderUpdate i p) ->
  dict_get current (u"name") = VStr MANAGED_KEY_PROVIDER_NAME ->
  p = payload /\
  plan_key_provider_sync payload (VList (pre ++ VDict (provider_stored current) :: post))
    = Ok (ProviderNoop i) /\
  (forall f, f <> u"config" -> dict_get (provider_stored current) f = dict_get current f).
Proof.
  intros Hg H Hname. unfold plan_key_provider_sync in *.
  destruct (provider_payload_ok payload); [|done]. cbn [negb] in *.
  rewrite managed_entries_app in H |- *.
  destruct (managed_entries _ pre) as [a|]; [|done]. cbn [managed_entries] in *.
  assert (Hc : named_entry (VDict current) = Some (MANAGED_KEY_PROVIDER_NAME, current))
    by by apply named_entry_Some.
  rewrite Hc in H. destruct (managed_entries _ post) as [b|]; [|done].
  rewrite bool_decide_true in H by done.
  destruct a as [|x a]; [|by destruct a]. cbn [app] in *. destruct b; [|done].
  destruct (dict_get current (u"id")) as [| | | |[|c j]| |] eqn:Eid; try done.
  destruct (_ || _) eqn:Eo; [done|].
  destruct (dict_get current (u"config")) as [| | | | | |config] eqn:Ecfg; try done.
  destruct (live_config_ok config) eqn:El; [|done]. cbn [negb] in H.
  destruct (config_covers config); [done|]. injection H as <- <-.
  assert (Hst : provider_stored current =
    ainsert (u"config") (VDict (dict_merge config MANAGED_KEY_PROVIDER_CONFIG)) current)
    by (unfold provider_stored; by rewrite Ecfg).
  assert (Hother : forall f, f <> u"config" -> dict_get (provider_stored current) f = dict_get current f).
  { intros f Hf. rewrite Hst, dict_get_ainsert. by rewrite decide_False. }
  split_and!; [done| |done].
  assert (named_entry (VDict (provider_stored current))
          = Some (MANAGED_KEY_PROVIDER_NAME, provider_stored current)) as ->.
  { apply named_entry_Some. by rewrite Hother. }
  rewrite bool_decide_true by done. cbn [app].
  rewrite !Hother, Eid, Eo by done. rewrite Hst, dict_get_ainsert, decide_True by done.
  assert (good_val (VDict config) = true) as [Hnd _]%good_val_dict.
  { rewrite <- Ecfg. by apply dict_get_good. }
  by rewrite (live_config_merged config Hnd El), config_covers_merged.
Qed.

(** ** Witnesses *)

Lemma realm_plan_converges_witness :
  exists payload, realm_admin_payload (VDict Sample.live_realm) Sample.realm = Ok payload /\
    realm_admin_payload (VDict (dict_merge Sample.live_realm payload)) Sample.realm = Ok [].
Proof.
  destruct (realm_admin_payload (VDict Sample.live_realm) Sample.realm) as [payload|e] eqn:E;
    [|vm_compute in E; discriminate E].
  exists payload. split; [reflexivity|].
  apply (realm_plan_converges Sample.live_realm Sample.realm_dict payload);
    [vm_compute; reflexivity|vm_compute; reflexivity|exact E].
Defined.

Lemma client_plan_converges_witness :
  exists payload current',
    plan_client [(u"third-party-fapi-mtls", VList [VDict current'])]
      (Sample.client (u"third-party-fapi-mtls")) =
    Ok (ClientAction (u"third-party-fapi-mtls") payload (ClientNoop (u"77") current')).
Proof.
  destruct (client_admin_payload (Sample.client (u"third-party-fapi-mtls"))) as [payload|e] eqn:Ep;
    [|vm_compute in Ep; discriminate Ep].
  exists payload, (dict_merge Sample.live_client (client_update_body (u"77") payload Sample.live_client)).
  apply (client_plan_converges [(u"third-party-fapi-mtls", VList [VDict Sample.live_client])]
    (Sample.client (u"third-party-fapi-mtls")) (u"third-party-fapi-mtls") payload (u"77")
    Sample.live_client).
  - vm_compute. reflexivity.
  - vm_compute. reflexivity.
  - injection Ep as Ep. subst payload. vm_compute. reflexivity.
Defined.

Lemma mapper_plan_exact_witness :
  exists payloads ne,
    mapM_res mapper_admin_payload [Sample.mapper] = Ok payloads /\ named [Sample.live_mapper] ne.
Proof.
  destruct (plan_mapper_sync [Sample.mapper] (VList [Sample.live_mapper])) as [plan|e] eqn:E;
    [|vm_compute in E; discriminate E].
  destruct (mapper_plan_exact [Sample.mapper] [Sample.live_mapper] plan E)
    as (payloads & ne & H1 & H2 & _).
  exists payloads, ne. split; [exact H1|exact H2].
Defined.

Lemma mapper_plan_converges_witness :
  plan_mapper_sync [Sample.mapper] (VList [Sample.stored_mapper]) = Ok [].
Proof.
  apply (mapper_plan_converges [Sample.mapper] [Sample.live_mapper] [Sample.stored_mapper]
    [(u"audience", Sample.live_mapper_dict)] [(u"audience", Sample.stored_mapper_dict)]
    [MapperUpdate (u"5") Sample.mapper_dict]).
  - vm_compute. reflexivity.
  - vm_compute. reflexivity.
  - repeat constructor.
  - repeat constructor.
  - apply NoDup_singleton.
  - split.
    + intros a Ha. apply list_elem_of_singleton in Ha. subst a. exists Sample.stored_mapper_dict.
      split; [left|]. split; [reflexivity|]. intros f Hf. unfold MAPPER_ADMIN_FIELDS in Hf.
      repeat (apply elem_of_cons in Hf; destruct Hf as [Hf|Hf]; [subst f; reflexivity|]).
      apply elem_of_nil in Hf. destruct Hf.
    + intros n d Hin Hno. apply list_elem_of_singleton in Hin. injection Hin as Hn Hd. subst n d.
      exfalso. apply (Hno (MapperUpdate (u"5") Sample.mapper_dict)); [left|reflexivity].
Defined.

Lemma provider_plan_converges_witness :
  plan_key_provider_sync managed_provider_payload
    (VList [VDict [(u"name", jstr "other")]; VDict (provider_stored Sample.provider)])
  = Ok (ProviderNoop (u"9")).
Proof.
  apply (provider_plan_converges managed_provider_payload [VDict [(u"name", jstr "other")]]
    Sample.provider [] (u"9") managed_provider_payload); vm_compute; reflexivity.
Defined.
