(* ===== verification/KeycloakSync.v ===== *)
(** The requests of [src/scripts/sync-keycloak-demo-data.py]: looking up the
    live state, carrying out the plans of [KeycloakPlan], checking that they
    converged, and reconciling the user profile and the demo users.  The script
    is a program over calls to the admin API; the answer to a call is the
    outcome of the script's [request] function. *)
From S2P Require Export Prog KeycloakPlan Json.

Local Open Scope Z_scope.

(** ** Calls *)

Record http_call := HttpCall {
  call_method : string; call_path : pystr; call_token : option pystr;
  call_body : option pyval; call_form : option (list (pystr * pystr))
}.

Abbreviation admin A := (prog http_call (res pyval) A).

(** [request(path, context, method, token, body, form)] *)
Definition request (method : string) (path : pystr) (token : option pystr)
    (body : option pyval) (form : option (list (pystr * pystr))) : admin pyval :=
  Call (HttpCall method path token body form) (fun answer => Done answer).

Definition get (path : pystr) (token : pystr) : admin pyval :=
  request "GET" path (Some token) None None.
Definition post (path : pystr) (token : pystr) (body : pydict) : admin pyval :=
  request "POST" path (Some token) (Some (VDict body)) None.
Definition put (path : pystr) (token : pystr) (body : pydict) : admin pyval :=
  request "PUT" path (Some token) (Some (VDict body)) None.

Definition realm_path : pystr := u"/admin/realms/fapi-demo".
Definition clients_path : pystr := realm_path ++ u"/clients".
Definition components_path : pystr := realm_path ++ u"/components".
Definition profile_path : pystr := realm_path ++ u"/users/profile".
Definition users_path : pystr := realm_path ++ u"/users".

(** [f"...?{urllib.parse.urlencode({name: value})}"] *)
Definition query_path (path name value : pystr) : res pystr :=
  let* v := quote_plus value in Ok (path ++ u"?" ++ name ++ u"=" ++ v).

Definition client_path (uuid : pystr) : res pystr :=
  let* segment := quote uuid in Ok (clients_path ++ u"/" ++ segment).
Definition mappers_path (uuid : pystr) : res pystr :=
  let* path := client_path uuid in Ok (path ++ u"/protocol-mappers/models").
Definition mapper_path (uuid mapper_id : pystr) : res pystr :=
  let* path := mappers_path uuid in
  let* segment := quote mapper_id in Ok (path ++ u"/" ++ segment).

(** ** Values in places the script does not validate *)

(** [matches[0]["id"]] when [len(matches) == 1]; [None] when the length is not 1. *)
Definition single_id (v : pyval) : res (option pyval) :=
  match v with
  | VList [m] => let* i := val_item m (u"id") in Ok (Some i)
  | VDict [_] => raise KeyError "0"
  | VStr [_] => raise TypeError "string indices must be integers"
  | VList _ | VDict _ | VStr _ => Ok None
  | _ => raise TypeError "object has no len()"
  end.

(** ** Clients *)

Definition sorted_client_ids : list pystr := py_sort str_leb CLIENT_IDS.

Definition lookup_client (token : pystr) (matches : pydict) (client_id : pystr)
    : admin pydict :=
  do* path := lift (query_path clients_path (u"clientId") client_id) in
  do* found := get path token in
  if is_list found then pret (ainsert client_id found matches)
  else lift (fail "Keycloak client lookup is malformed").

(** The mappers of one planned client. *)
Definition plan_client_mappers (token : pystr) (ad : client_action * pyval)
    : admin (client_action * list mapper_action) :=
  let '(action, desired) := ad in
  do* live_mappers :=
    match ca_op action with
    | ClientCreate => pret (VList [])
    | ClientUpdate uuid _ | ClientNoop uuid _ =>
        do* path := lift (mappers_path uuid) in get path token
    end in
  do* mappers := lift (val_item desired (u"protocolMappers")) in
  do* mappers := lift (val_iter mappers) in
  do* plan := lift (plan_mapper_sync mappers live_mappers) in
  pret (action, plan).

Definition prepare_client_sync (desired_clients : pyval) (token : pystr)
    : admin (list (client_action * list mapper_action)) :=
  do* matches := pfold (lookup_client token) sorted_client_ids [] in
  do* plan := lift (plan_client_sync desired_clients matches) in
  do* desired := lift (val_iter desired_clients) in
  pmap (plan_client_mappers token) (zip plan desired).

(** Create or update one client; the result is its identifier. *)
Definition apply_client (token : pystr) (uuids : list (pystr * pystr))
    (ap : client_action * list mapper_action) : admin (list (pystr * pystr)) :=
  let action := fst ap in
  let client_id := ca_client_id action in
  do* uuid :=
    match ca_op action with
    | ClientUpdate uuid current =>
        do* path := lift (client_path uuid) in
        do* _ := put path token (client_update_body uuid (ca_payload action) current) in
        pret uuid
    | ClientCreate =>
        do* _ := post clients_path token (ca_payload action) in
        do* path := lift (query_path clients_path (u"clientId") client_id) in
        do* created := get path token in
        match created with
        | VList [one] =>
            do* i := lift (val_get one (u"id")) in
            match i with
            | VStr (c :: s) => pret (c :: s)
            | _ => lift (fail "Keycloak client ID is missing")
            end
        | _ => lift (fail "Keycloak did not create exactly one client")
        end
    | ClientNoop uuid _ => pret uuid
    end in
  pret (ainsert client_id uuid uuids).

Definition apply_mapper (token uuid : pystr) (action : mapper_action) : admin unit :=
  match action with
  | MapperCreate payload =>
      do* path := lift (mappers_path uuid) in
      do* _ := post path token payload in pret tt
  | MapperUpdate mapper_id payload =>
      do* path := lift (mapper_path uuid mapper_id) in
      do* _ := put path token ((u"id", VStr mapper_id) :: payload) in pret tt
  end.

Definition apply_client_mappers (token : pystr) (uuids : list (pystr * pystr)) (count : Z)
    (ap : client_action * list mapper_action) : admin Z :=
  do* uuid := lift (res_of_option (Exn KeyError (ca_client_id (fst ap)))
                      (alookup (ca_client_id (fst ap)) uuids)) in
  (* the collection path is computed before the loop *)
  do* _ := lift (mappers_path uuid) in
  do* done := pmap (apply_mapper token uuid) (snd ap) in
  pret (count + Z.of_nat (length done)).

Definition is_noop (action : client_action) : bool :=
  match ca_op action with ClientNoop _ _ => true | _ => false end.

Definition apply_client_sync (plan : list (client_action * list mapper_action)) (token : pystr)
    : admin (Z * Z) :=
  do* uuids := pfold (apply_client token) plan [] in
  do* mapper_count := pfold (apply_client_mappers token uuids) plan 0 in
  pret (Z.of_nat (length (List.filter (fun ap => negb (is_noop (fst ap))) plan)), mapper_count).

Definition converged (ap : client_action * list mapper_action) : bool :=
  is_noop (fst ap) && match snd ap with [] => true | _ => false end.

Definition verify_client_sync (desired_clients : pyval) (token : pystr) : admin unit :=
  do* plan := prepare_client_sync desired_clients token in
  if forallb converged plan then pret tt
  else lift (fail "Keycloak client configuration did not converge").

(** ** Realm and key provider *)

Definition prepare_realm_sync (desired_realm : pyval) (token : pystr) : admin pydict :=
  do* current := get realm_path token in
  if is_dict current then lift (realm_admin_payload current desired_realm)
  else lift (fail "Keycloak realm representation is malformed").

Definition apply_realm_sync (payload : pydict) (token : pystr) : admin bool :=
  match payload with
  | [] => pret false
  | _ => do* _ := put realm_path token payload in pret true
  end.

Definition verify_realm_sync (desired_realm : pyval) (token : pystr) : admin unit :=
  do* remaining := prepare_realm_sync desired_realm token in
  match remaining with
  | [] => pret tt
  | _ => lift (fail "Keycloak realm configuration did not converge")
  end.

Definition prepare_key_provider_sync (desired_realm : pyval) (token : pystr)
    : admin provider_action :=
  do* desired_payload := lift (key_provider_admin_payload desired_realm) in
  do* path := lift (query_path components_path (u"name") MANAGED_KEY_PROVIDER_NAME) in
  do* live_components := get path token in
  lift (plan_key_provider_sync desired_payload live_components).

Definition apply_key_provider_sync (plan : provider_action) (token : pystr) : admin bool :=
  match plan with
  | ProviderNoop _ => pret false
  | ProviderCreate payload =>
      if negb (provider_payload_ok payload)
      then lift (fail "Keycloak managed key provider create plan is malformed")
      else do* _ := post components_path token payload in pret true
  | ProviderUpdate component_id payload =>
      if bool_decide (component_id = []) || negb (provider_payload_ok payload)
      then lift (fail "Keycloak managed key provider update plan is malformed")
      else
        do* segment := lift (quote component_id) in
        do* _ := put (components_path ++ u"/" ++ segment) token
                   ((u"id", VStr component_id) :: payload) in
        pret true
  end.

Definition verify_key_provider_sync (desired_realm : pyval) (token : pystr) : admin unit :=
  do* plan := prepare_key_provider_sync desired_realm token in
  match plan with
  | ProviderNoop _ => pret tt
  | _ => lift (fail "Keycloak managed key provider configuration did not converge")
  end.

(** ** Signing in *)

(** The text of a token in the header of a request: [if token:] leaves the header out, which
    is what an empty text does as well. *)
Definition token_text (token : pyval) : res pystr := if py_truthy token then scalar_text token else Ok [].

Definition credentials (user password : pystr) : list (pystr * pystr) :=
  [(u"grant_type", u"password"); (u"client_id", u"admin-cli"); (u"username", user); (u"password", password)].

Definition admin_token (secrets : list (pystr * pystr)) : admin pystr :=
  do* user := lift (res_of_option (Exn KeyError (u"KEYCLOAK_ADMIN_USERNAME"))
                      (alookup (u"KEYCLOAK_ADMIN_USERNAME") secrets)) in
  do* password := lift (res_of_option (Exn KeyError (u"KEYCLOAK_ADMIN_PASSWORD"))
                          (alookup (u"KEYCLOAK_ADMIN_PASSWORD") secrets)) in
  do* answer := request "POST" (u"/realms/master/protocol/openid-connect/token") None None
    (Some (credentials user password)) in
  do* token := lift (val_item answer (u"access_token")) in
  lift (token_text token).

(** [try: m; except (URLError, RuntimeError): h] *)
Fixpoint retry {A} (m h : admin A) : admin A :=
  match m with
  | Done (Err e) => if existsb (is_a (exn_cls e)) [URLError; RuntimeError] then h else Done (Err e)
  | Done r => Done r
  | Call q k => Call q (fun r => retry (k r) h)
  end.

Fixpoint wait_attempts (n : nat) (secrets : list (pystr * pystr)) : admin pystr :=
  match n with
  | O => lift (fail "Keycloak did not become ready within 60 seconds")
  | S n' => retry (admin_token secrets) (wait_attempts n' secrets)
  end.

Definition wait_for_keycloak (secrets : list (pystr * pystr)) : admin pystr :=
  wait_attempts 30 secrets.

(** ** The user profile and the demo users *)

(** [{attribute["name"] for attribute in attributes}], with repetitions. *)
Definition attribute_names (attributes : list pyval) : res (list pyval) :=
  mapM_res (fun a => let* n := val_item a (u"name") in
                     if hashable n then Ok n else raise TypeError "unhashable type") attributes.

Definition name_in (names : list pyval) (n : pyval) : bool := existsb (py_eq n) names.

(** The live attributes that are not desired, then the desired ones. *)
Fixpoint kept_attributes (names : list pyval) (live : list pyval) : res (list pyval) :=
  match live with
  | [] => Ok []
  | a :: live' =>
      let* n := val_item a (u"name") in
      if negb (hashable n) then raise TypeError "unhashable type"
      else let* rest := kept_attributes names live' in
           Ok (if name_in names n then rest else a :: rest)
  end.

Definition merged_profile (live_profile desired_profile : pyval) : res pydict :=
  let* desired := val_item desired_profile (u"attributes") in
  let* desired := val_iter desired in
  let* names := attribute_names desired in
  let* live := val_item live_profile (u"attributes") in
  let* live := val_iter live in
  let* kept := kept_attributes names live in
  match live_profile with
  | VDict d => Ok (ainsert (u"attributes") (VList (kept ++ desired)) d)
  | _ => raise TypeError "object does not support item assignment"
  end.

(** [if desired_user.get(field): live_user[field] = desired_user[field]] *)
Definition set_user_name (desired_user live_user : pydict) (field : pystr) : pydict :=
  if py_truthy (dict_get desired_user field)
  then ainsert field (dict_get desired_user field) live_user else live_user.

(** The update of one user: names when given, and the desired attributes. *)
Definition merged_user (live_user : pyval) (desired_user : pydict) : res pydict :=
  match live_user with
  | VDict d =>
      let d := fold_left (set_user_name desired_user) [u"firstName"; u"lastName"] d in
      let* desired := dict_item desired_user (u"attributes") in
      match dict_get_or d (u"attributes") (VDict []), desired with
      | VDict attributes, VDict desired =>
          Ok (ainsert (u"attributes") (VDict (dict_merge attributes desired)) d)
      | VDict _, _ => raise TypeError "object is not iterable"
      | _, _ => raise AttributeError "object has no attribute 'update'"
      end
  | _ => raise TypeError "object does not support item assignment"
  end.

Definition user_retained (verified : pyval) (desired : pydict) : res bool :=
  match desired with
  | [] => Ok true
  | _ =>
      match verified with
      | VDict d =>
          match dict_get_or d (u"attributes") (VDict []) with
          | VDict attributes =>
              Ok (forallb (fun kv => py_eq (dict_get attributes (fst kv)) (snd kv)) desired)
          | _ => raise AttributeError "object has no attribute 'get'"
          end
      | _ => raise AttributeError "object has no attribute 'get'"
      end
  end.

Definition sync_user (token : pystr) (desired_user : pyval) : admin pystr :=
  do* username := lift (val_item desired_user (u"username")) in
  do* name := lift (scalar_text username) in
  do* query := lift (query_path users_path (u"username") name) in
  do* matches := get (query ++ u"&exact=true") token in
  do* found := lift (single_id matches) in
  match found, desired_user with
  | None, _ => lift (fail "expected exactly one Keycloak user")
  | Some user_id, VDict desired =>
      do* id_text := lift (scalar_text user_id) in
      let path := users_path ++ u"/" ++ id_text in
      do* live_user := get path token in
      do* body := lift (merged_user live_user desired) in
      do* _ := put path token body in
      do* verified := get path token in
      do* attributes := lift (dict_item desired (u"attributes")) in
      match attributes with
      | VDict attributes =>
          do* ok := lift (user_retained verified attributes) in
          if ok : bool then pret name
          else lift (fail "Keycloak did not retain routing attributes")
      | _ => lift (raise AttributeError "object has no attribute 'items'")
      end
  | Some _, _ => lift (raise TypeError "not subscriptable")
  end.

(** ** The script *)

Record summary := Summary {
  profile_attributes : Z; demo_users : Z; synced_clients : Z; synced_mappers : Z;
  realm_changed : bool; key_provider_changed : bool
}.

(** Everything that is looked up before the first change. *)
Definition prepare_all (desired_realm : pyval) (secrets : list (pystr * pystr))
    : admin (pystr * pydict * list (client_action * list mapper_action) * provider_action) :=
  do* _ := lift (key_provider_admin_payload desired_realm) in
  do* token := wait_for_keycloak secrets in
  do* realm_plan := prepare_realm_sync desired_realm token in
  do* clients := lift (val_item desired_realm (u"clients")) in
  do* client_plan := prepare_client_sync clients token in
  do* key_provider_plan := prepare_key_provider_sync desired_realm token in
  pret (token, realm_plan, client_plan, key_provider_plan).

Definition apply_all (desired_realm desired_profile : pyval)
    (plans : pystr * pydict * list (client_action * list mapper_action) * provider_action)
    : admin summary :=
  let '(token, realm_plan, client_plan, key_provider_plan) := plans in
  do* key_provider_changed := apply_key_provider_sync key_provider_plan token in
  do* (clients, mappers) := apply_client_sync client_plan token in
  do* realm_changed := apply_realm_sync realm_plan token in
  do* desired_clients := lift (val_item desired_realm (u"clients")) in
  do* _ := verify_client_sync desired_clients token in
  do* _ := verify_realm_sync desired_realm token in
  do* _ := verify_key_provider_sync desired_realm token in
  do* live_profile := get profile_path token in
  do* profile := lift (merged_profile live_profile desired_profile) in
  do* _ := put profile_path token profile in
  do* users := lift (val_item desired_realm (u"users")) in
  do* users := lift (val_iter users) in
  do* synced := pmap (sync_user token) users in
  do* desired := lift (val_item desired_profile (u"attributes")) in
  do* desired := lift (val_iter desired) in
  do* names := lift (attribute_names desired) in
  let distinct := foldr (fun n l => if name_in l n then l else n :: l) [] names in
  pret (Summary (Z.of_nat (length distinct)) (Z.of_nat (length synced)) clients mappers
          realm_changed key_provider_changed).

Definition main (desired_realm desired_profile : pyval) (secrets : list (pystr * pystr))
    : admin summary :=
  do* plans := prepare_all desired_realm secrets in
  apply_all desired_realm desired_profile plans.

(** The only payload that is accepted is the managed one. *)
Lemma key_provider_payload_managed realm payload :
  key_provider_admin_payload realm = Ok payload -> payload = managed_provider_payload.
Proof.
  unfold key_provider_admin_payload.
  destruct realm as [| | | | | |d]; try done. destruct (dict_get d _) as [| | | | | |c]; try done.
  destruct (dict_get c _) as [| | | | |l|]; try done.
  destruct (managed_entries _ l) as [[|x [|]]|]; try done.
  destruct (negb _); [done|]. destruct (_ || _); [done|]. by intros [= <-].
Qed.

(** ** The calls the script can make *)

(** One path segment below a collection. *)
Definition member_of (base path : pystr) : Prop :=
  exists segment, path = base ++ u"/" ++ segment /\ Forall (fun c => is_segment_char c = true) segment.

Definition mappers_of (path : pystr) : Prop :=
  exists client, member_of clients_path client /\ path = client ++ u"/protocol-mappers/models".

Definition login_path : pystr := u"/realms/master/protocol/openid-connect/token".

Definition is_query_char (c : Z) : bool := is_segment_char c || (c =? 43) || (c =? 61) || (c =? 38).

(** The paths of a run: the managed realm, its collections, queries of these, and their
    members.  An identifier in a path is one quoted segment, which quoting leaves alone when it
    consists of dots, except that of a user, which is written as it was given. *)
Inductive managed_path (user : pystr -> Prop) : pystr -> Prop :=
  | path_fixed path :
      path ∈ [realm_path; clients_path; components_path; profile_path] -> managed_path user path
  | path_query collection query :
      collection ∈ [clients_path; components_path; users_path] -> Forall (fun c => is_query_char c = true) query ->
      managed_path user (collection ++ u"?" ++ query)
  | path_member collection path :
      collection ∈ [clients_path; components_path] -> member_of collection path -> managed_path user path
  | path_mappers path : mappers_of path -> managed_path user path
  | path_mapper collection path : mappers_of collection -> member_of collection path -> managed_path user path
  | path_user i : user i -> managed_path user (users_path ++ u"/" ++ i).

(** The calls with a token: reads, and the creations and updates the script manages; there is
    no deletion. *)
Inductive managed_call (user : pystr -> Prop) (token : pystr) : http_call -> Prop :=
  | managed_read path :
      managed_path user path -> managed_call user token (HttpCall "GET" path (Some token) None None)
  | managed_client_create body :
      managed_call user token (HttpCall "POST" clients_path (Some token) (Some body) None)
  | managed_client_update path body :
      member_of clients_path path -> managed_call user token (HttpCall "PUT" path (Some token) (Some body) None)
  | managed_mapper_create path body :
      mappers_of path -> managed_call user token (HttpCall "POST" path (Some token) (Some body) None)
  | managed_mapper_update path collection body :
      mappers_of collection -> member_of collection path ->
      managed_call user token (HttpCall "PUT" path (Some token) (Some body) None)
  | managed_realm_update body :
      managed_call user token (HttpCall "PUT" realm_path (Some token) (Some body) None)
  | managed_provider_create payload :
      provider_payload_ok payload = true ->
      managed_call user token (HttpCall "POST" components_path (Some token) (Some (VDict payload)) None)
  | managed_provider_update path i payload :
      member_of components_path path -> provider_payload_ok payload = true ->
      managed_call user token (HttpCall "PUT" path (Some token) (Some (VDict ((u"id", VStr i) :: payload))) None)
  | managed_profile_update body :
      managed_call user token (HttpCall "PUT" profile_path (Some token) (Some body) None)
  | managed_user_update i body :
      user i -> managed_call user token (HttpCall "PUT" (users_path ++ u"/" ++ i) (Some token) (Some body) None).

Lemma managed_path_weaken (user user' : pystr -> Prop) path :
  (forall i, user i -> user' i) -> managed_path user path -> managed_path user' path.
Proof.
  intros Hu [path1 H|c query H1 H2|c path1 H1 H2|path1 H|c path1 H1 H2|i H].
  - by apply path_fixed.
  - by apply path_query.
  - by eapply path_member.
  - by apply path_mappers.
  - by eapply path_mapper.
  - by apply path_user, Hu.
Qed.

Lemma managed_call_weaken (user user' : pystr -> Prop) token q :
  (forall i, user i -> user' i) -> managed_call user token q -> managed_call user' token q.
Proof.
  intros Hu [path Hp|body|path body H|path body H|path collection body Hm Hc|body|payload H|path i payload H1 H2|body|i body Hi];
    try (by constructor).
  - apply managed_read. by eapply managed_path_weaken.
  - by eapply managed_mapper_update.
  - apply managed_user_update. by apply Hu.
Qed.

(** Calls that change nothing: reads and the sign-in. *)
Definition read_call (q : http_call) : Prop :=
  call_method q = "GET"%string \/ call_path q = login_path.

Create HintDb kc discriminated.
#[local] Hint Constructors managed_call : kc.

Lemma quote_plus_query v t : quote_plus v = Ok t -> Forall (fun c => is_query_char c = true) t.
Proof.
  unfold quote_plus. destruct (utf8_encode v) as [b|]; [|done]. intros H%Ok_inj. subst t.
  induction b as [|x b IH]; [constructor|]. cbn [map concat]. apply Forall_app. split; [|done].
  unfold quote_plus_byte. destruct (Z_of_byte x =? 32); [by repeat constructor|].
  eapply Forall_impl; [apply quote_byte_segment|]. intros c Hc. unfold is_query_char. by rewrite Hc.
Qed.

(** Query texts of the script. *)
Lemma managed_query user collection name value path rest :
  query_path collection name value = Ok path -> collection ∈ [clients_path; components_path; users_path] ->
  Forall (fun c => is_query_char c = true) name -> Forall (fun c => is_query_char c = true) rest ->
  managed_path user (path ++ rest).
Proof.
  unfold query_path. destruct (quote_plus value) as [v|] eqn:Ev; [|done]. intros <-%Ok_inj Hc Hn Hr.
  rewrite <- !app_assoc. apply path_query; [done|]. rewrite !Forall_app. split_and!; [done|by repeat constructor| |done].
  by eapply quote_plus_query.
Qed.


Section lift.
Context {A B : Type} (P : http_call -> Prop).

Lemma calls_lift_bind (r : res A) (f : A -> admin B) :
(forall a, r = Ok a -> calls P (f a)) -> calls P (do* x := lift r in f x).
Proof. destruct r; simpl; auto. Qed.

Lemma calls_request_bind method path token body form (f : pyval -> admin B) :
P (HttpCall method path token body form) -> (forall v, calls P (f v)) ->
calls P (do* x := request method path token body form in f x).
Proof. intros Hq Hf. simpl. split; [done|]. intros [v|e]; simpl; auto. Qed.

Lemma calls_retry (m h : admin A) : calls P m -> calls P h -> calls P (retry m h).
Proof.
intros Hm Hh. induction m as [[a|e]|q k IH]; simpl in *; [done|by destruct (_ || _)|].
destruct Hm as [Hq Hk]. split; [done|]. intros r. by apply IH.
Qed.
End lift.

Lemma client_path_member uuid path : client_path uuid = Ok path -> member_of clients_path path.
Proof.
  unfold client_path. destruct (quote uuid) as [s|] eqn:E; [|done]. intros H%Ok_inj. subst path.
  exists s. split; [done|]. by eapply quote_segment.
Qed.

Lemma mappers_path_of uuid path : mappers_path uuid = Ok path -> mappers_of path.
Proof.
  unfold mappers_path. destruct (client_path uuid) as [p|] eqn:E; [|done]. intros H%Ok_inj. subst path.
  exists p. split; [by eapply client_path_member|done].
Qed.

Lemma mapper_path_of uuid i path :
  mapper_path uuid i = Ok path -> exists c, mappers_of c /\ member_of c path.
Proof.
  unfold mapper_path. destruct (mappers_path uuid) as [p|] eqn:E; [|done].
  destruct (quote i) as [s|] eqn:Es; [|done]. intros H%Ok_inj. subst path. exists p.
  split; [by eapply mappers_path_of|]. exists s. split; [done|]. by eapply quote_segment.
Qed.

(** One step of a program: a pure step, a call, or a loop. *)
Ltac step :=
  lazymatch goal with
  | |- calls _ (pbind (lift _) _) => apply calls_lift_bind; intros ? ?
  | |- calls _ (pbind (get _ _) _) => apply calls_request_bind; [|intros ?]
  | |- calls _ (pbind (post _ _ _) _) => apply calls_request_bind; [|intros ?]
  | |- calls _ (pbind (put _ _ _) _) => apply calls_request_bind; [|intros ?]
  | |- calls _ (pbind (request _ _ _ _ _) _) => apply calls_request_bind; [|intros ?]
  | |- calls _ (pbind (pret _) _) => cbn [pbind pret]
  | |- calls _ (pbind _ _) => apply calls_bind; [|intros ?]
  | |- calls _ (lift _) => exact I
  | |- calls _ (pret _) => exact I
  | |- calls _ (pmap _ _) => apply calls_pmap; intros ? _
  | |- calls _ (pfold _ _ _) => apply calls_pfold; intros ? ? _
  end.

(** Case analysis on the value a program branches on. *)
Ltac cases_calls :=
  repeat match goal with
  | |- calls _ (match ?v with _ => _ end) => destruct v; try exact I
  end.

(** The looking-up part makes reads only. *)
Section reads.
Context (user : pystr -> Prop) (P : http_call -> Prop) (token : pystr).
Context (Hread : forall path, managed_path user path -> P (HttpCall "GET" path (Some token) None None)).

Lemma read_query collection name value path :
  query_path collection name value = Ok path -> collection ∈ [clients_path; components_path; users_path] ->
  Forall (fun c => is_query_char c = true) name -> P (HttpCall "GET" path (Some token) None None).
Proof. intros Hq Hc Hn. apply Hread. rewrite <- (app_nil_r path). by eapply managed_query. Qed.

Lemma calls_prepare_client_sync clients : calls P (prepare_client_sync clients token).
Proof.
unfold prepare_client_sync. repeat step.
- unfold lookup_client. repeat step; [|by destruct (is_list _)].
  eapply read_query; [eassumption|by left|by repeat constructor].
- unfold plan_client_mappers. destruct x as [action desired]. step.
  + destruct (ca_op action); repeat step;
      (split; [apply Hread, path_mappers; by eapply mappers_path_of|by intros []]).
  + repeat step.
Qed.

Lemma calls_prepare_realm_sync realm : calls P (prepare_realm_sync realm token).
Proof. unfold prepare_realm_sync. repeat step; [apply Hread, path_fixed; by left|]. by destruct (is_dict _). Qed.

Lemma calls_prepare_key_provider_sync realm : calls P (prepare_key_provider_sync realm token).
Proof.
  unfold prepare_key_provider_sync. repeat step. eapply read_query; [eassumption|by right; left|by repeat constructor].
Qed.

Lemma calls_prepare_all_signed realm :
  calls P (do* realm_plan := prepare_realm_sync realm token in
           do* clients := lift (val_item realm (u"clients")) in
           do* client_plan := prepare_client_sync clients token in
           do* key_provider_plan := prepare_key_provider_sync realm token in
           pret (token, realm_plan, client_plan, key_provider_plan)).
Proof.
  step; [apply calls_prepare_realm_sync|]. step. step; [apply calls_prepare_client_sync|].
  step; [apply calls_prepare_key_provider_sync|done].
Qed.
End reads.

Section sign_in.
Context (P : http_call -> Prop) (secrets : list (pystr * pystr)).
Context (Hlogin : forall user password,
  alookup (u"KEYCLOAK_ADMIN_USERNAME") secrets = Some user -> alookup (u"KEYCLOAK_ADMIN_PASSWORD") secrets = Some password ->
  P (HttpCall "POST" login_path None None (Some (credentials user password)))).

Lemma calls_admin_token : calls P (admin_token secrets).
Proof.
  unfold admin_token. repeat step. apply Hlogin.
  - by destruct (alookup (u"KEYCLOAK_ADMIN_USERNAME") secrets) as [x|]; [apply Ok_inj in H as ->|].
  - by destruct (alookup (u"KEYCLOAK_ADMIN_PASSWORD") secrets) as [x|]; [apply Ok_inj in H0 as ->|].
Qed.

Lemma calls_wait_for_keycloak : calls P (wait_for_keycloak secrets).
Proof.
unfold wait_for_keycloak. generalize 30%nat as n. intros n.
induction n as [|n IH]; [exact I|]. cbn [wait_attempts]. apply calls_retry; [apply calls_admin_token|done].
Qed.
End sign_in.

Lemma calls_prepare_all (P : http_call -> Prop) realm secrets :
  (forall form, P (HttpCall "POST" login_path None None (Some form))) ->
  (forall path token, P (HttpCall "GET" path (Some token) None None)) ->
  calls P (prepare_all realm secrets).
Proof.
  intros Hlogin Hread. unfold prepare_all. step. apply calls_bind; [by apply calls_wait_for_keycloak; auto|].
  intros token. by apply (calls_prepare_all_signed (fun _ => False)).
Qed.

Section changes.
Context (user : pystr -> Prop) (token : pystr).

Lemma calls_apply_client_sync plan : calls (managed_call user token) (apply_client_sync plan token).
Proof.
  unfold apply_client_sync. step; [|step; [|exact I]].
  - step. unfold apply_client. step; [|exact I]. destruct (ca_op _); [|repeat step..].
    + repeat step; [constructor| |cases_calls; repeat step; cases_calls].
      eapply (read_query user); [by constructor|eassumption|by left|by repeat constructor].
    + apply managed_client_update. by eapply client_path_member.
  - step. unfold apply_client_mappers. do 2 step. step; [|exact I]. step.
    unfold apply_mapper. cases_calls; repeat step.
    + apply managed_mapper_create. by eapply mappers_path_of.
    + edestruct mapper_path_of as (c & ? & ?); [eassumption|]. by eapply managed_mapper_update.
Qed.

Lemma calls_apply_key_provider_sync plan : calls (managed_call user token) (apply_key_provider_sync plan token).
Proof.
  unfold apply_key_provider_sync. destruct plan as [p|i p|i]; [| |exact I].
  - destruct (provider_payload_ok p) eqn:E; [|exact I]. cbn [negb]. repeat step. by apply managed_provider_create.
  - destruct (bool_decide _); [exact I|]. destruct (provider_payload_ok p) eqn:E; [|exact I].
    cbn [orb negb]. repeat step. apply managed_provider_update; [|done].
    eexists. split; [done|]. by eapply quote_segment.
Qed.

Lemma calls_apply_realm_sync plan : calls (managed_call user token) (apply_realm_sync plan token).
Proof. unfold apply_realm_sync. destruct plan; [exact I|]. repeat step. apply managed_realm_update. Qed.

Lemma calls_verify_client_sync clients : calls (managed_call user token) (verify_client_sync clients token).
Proof.
  unfold verify_client_sync. step; [apply (calls_prepare_client_sync user); by constructor|by destruct (forallb _ _)].
Qed.

Lemma calls_verify_realm_sync realm : calls (managed_call user token) (verify_realm_sync realm token).
Proof. unfold verify_realm_sync. step; [apply (calls_prepare_realm_sync user); by constructor|cases_calls]. Qed.

Lemma calls_verify_key_provider_sync realm : calls (managed_call user token) (verify_key_provider_sync realm token).
Proof. unfold verify_key_provider_sync. step; [apply (calls_prepare_key_provider_sync user); by constructor|cases_calls]. Qed.
End changes.

(** ** What each call depends on *)

Section history.
Context (secrets : list (pystr * pystr)).
Abbreviation admin_history := (history http_call (res pyval)).

(** The sign-in with the credentials of the secrets file. *)
Definition is_login (q : http_call) : Prop :=
  exists user password, alookup (u"KEYCLOAK_ADMIN_USERNAME") secrets = Some user /\
    alookup (u"KEYCLOAK_ADMIN_PASSWORD") secrets = Some password /\
    q = HttpCall "POST" login_path None None (Some (credentials user password)).

(** The token was given in answer to a sign-in. *)
Definition signed_in (h : admin_history) (token : pystr) : Prop :=
  exists q answer value, (q, Ok answer) ∈ h /\ is_login q /\
    val_item answer (u"access_token") = Ok value /\ token_text value = Ok token.

(** The identifier was given for the only user that a query of the users found. *)
Definition user_listed (h : admin_history) (i : pystr) : Prop :=
  exists path token found value, (HttpCall "GET" path (Some token) None None, Ok found) ∈ h /\
    (users_path ++ u"?") `prefix_of` path /\
    single_id found = Ok (Some value) /\ scalar_text value = Ok i.

(** What a call may be after a history: the sign-in, or a managed call with the token that
    the sign-in gave, for a user that was listed. *)
Definition managed_after (h : admin_history) (q : http_call) : Prop :=
  is_login q \/ exists token, signed_in h token /\ managed_call (user_listed h) token q.

Lemma signed_in_later h h' token : h `prefix_of` h' -> signed_in h token -> signed_in h' token.
Proof. intros [l ->] (q & a & v & Hq & H). exists q, a, v. rewrite elem_of_app. by auto. Qed.

Lemma user_listed_later h h' i : h `prefix_of` h' -> user_listed h i -> user_listed h' i.
Proof. intros [l ->] (p & t & f & v & Hq & H). exists p, t, f, v. rewrite elem_of_app. by auto. Qed.

(** A part that only makes managed calls can be made after the sign-in. *)
Lemma during_managed {A} h token (m : admin A) :
  signed_in h token -> calls (managed_call (fun _ => False) token) m ->
  during managed_after (fun h' _ => h `prefix_of` h') h m.
Proof.
  intros Hs Hm. eapply during_calls; [exact Hm|]. intros h' q Hp Hq. right. exists token.
  split; [by eapply signed_in_later|]. eapply managed_call_weaken, Hq. by intros i [].
Qed.

Lemma during_admin_token h : during managed_after signed_in h (admin_token secrets).
Proof.
  unfold admin_token. apply during_lift. intros user Hu. apply during_lift. intros password Hp.
  assert (Hlogin : is_login (HttpCall "POST" login_path None None (Some (credentials user password)))).
  { exists user, password. destruct (alookup (u"KEYCLOAK_ADMIN_USERNAME") secrets) as [x|]; [|discriminate].
    destruct (alookup (u"KEYCLOAK_ADMIN_PASSWORD") secrets) as [y|]; [|discriminate].
    apply Ok_inj in Hu as ->. by apply Ok_inj in Hp as ->. }
  cbn [request pbind during]. split; [by left|]. intros [answer|e]; cbn [pbind during]; [|exact I].
  apply during_lift. intros value Hv. unfold lift, during. destruct (token_text value) as [token|] eqn:Et; [|exact I].
  eexists _, answer, value. split_and!; [|exact Hlogin|done|done]. apply elem_of_app. right. by left.
Qed.

Lemma during_retry {A} (T : admin_history -> A -> Prop) h (m n : admin A) :
  during managed_after T h m -> (forall h', during managed_after T h' n) -> during managed_after T h (retry m n).
Proof.
  intros Hm Hn. revert h Hm. induction m as [[a|e]|q k IH]; intros h Hm; cbn [retry]; [done| |].
  - destruct (existsb _ _); [apply Hn|done].
  - destruct Hm as [Hq Hk]. split; [done|]. intros r. by apply IH.
Qed.

Lemma during_wait_for_keycloak h : during managed_after signed_in h (wait_for_keycloak secrets).
Proof.
  unfold wait_for_keycloak. generalize 30%nat as n. intros n. revert h.
  induction n as [|n IH]; intros h; [exact I|]. cbn [wait_attempts]. apply during_retry; [apply during_admin_token|done].
Qed.

Lemma during_request_bind {B} T h method path token body form (f : pyval -> admin B) :
  let q := HttpCall method path token body form in
  managed_after h q -> (forall v, during managed_after T (h ++ [(q, Ok v)]) (f v)) ->
  during managed_after T h (do* x := request method path token body form in f x).
Proof. intros q Hq Hf. simpl. split; [done|]. intros [v|e]; simpl; [apply Hf|exact I]. Qed.

Lemma during_sync_user h token user :
  signed_in h token -> during managed_after (fun h' _ => h `prefix_of` h') h (sync_user token user).
Proof.
  intros Hs. unfold sync_user. apply during_lift. intros username _. apply during_lift. intros name _.
  apply during_lift. intros query Hq. apply during_request_bind.
  { right. exists token. split; [done|]. apply managed_read.
    eapply managed_query; [exact Hq| |by repeat constructor|by repeat constructor]. by right; right; left. }
  intros matches. apply during_lift. intros found Hfound.
  destruct found as [user_id|]; [|exact I]. destruct user as [| | | | | |desired]; try exact I.
  apply during_lift. intros i Hi.
  set (h1 := h ++ _). assert (Hlisted : user_listed h1 i).
  { eexists _, token, matches, user_id. split_and!; [apply elem_of_app; right; by left| |done|done].
    unfold query_path in Hq. destruct (quote_plus name) as [v|]; [|discriminate]. apply Ok_inj in Hq as <-.
    rewrite <- !app_assoc. by eexists. }
  assert (Hh1 : h `prefix_of` h1) by (by eexists). clearbody h1.
  eapply during_weaken with (T := fun h' _ => h1 `prefix_of` h'); [intros h' ? ?; by transitivity h1|].
  apply during_calls with (P := managed_call (user_listed h1) token).
  - cbn zeta. repeat step; [apply managed_read, path_user, Hlisted|apply managed_user_update, Hlisted
                           |apply managed_read, path_user, Hlisted|].
    cases_calls. step. cases_calls.
  - intros h' q Hp Hq'. right. exists token. split; [eapply signed_in_later; [|exact Hs]; by transitivity h1|].
    eapply managed_call_weaken, Hq'. intros j. by apply user_listed_later.
Qed.

(** The next part starts with the same token. *)
Ltac managed_step Hs :=
  eapply during_bind; [apply (during_managed _ _ _ Hs)|
    let h := fresh "h" in let a := fresh "a" in let Hp := fresh "Hp" in intros h a Hp;
    apply (signed_in_later _ _ _ Hp) in Hs; clear Hp; cbn beta].

Lemma sync_main_during realm profile : during managed_after (fun _ _ => True) [] (main realm profile secrets).
Proof.
  unfold main. apply during_bind with (U := fun h plans => signed_in h (fst (fst (fst plans)))).
  - unfold prepare_all. apply during_lift. intros payload _.
    eapply during_bind; [apply during_wait_for_keycloak|]. intros h token Hs. cbn beta.
    managed_step Hs; [apply (calls_prepare_realm_sync (fun _ => False)); by constructor|].
    apply during_lift. intros clients _.
    managed_step Hs; [apply (calls_prepare_client_sync (fun _ => False)); by constructor|].
    managed_step Hs; [apply (calls_prepare_key_provider_sync (fun _ => False)); by constructor|]. exact Hs.
  - intros h [[[token realm_plan] client_plan] provider_plan] Hs. cbn [fst] in Hs. unfold apply_all.
    managed_step Hs; [apply calls_apply_key_provider_sync|].
    managed_step Hs; [apply calls_apply_client_sync|]. destruct a0 as [clients mappers].
    managed_step Hs; [apply calls_apply_realm_sync|]. apply during_lift. intros desired _.
    managed_step Hs; [apply calls_verify_client_sync|].
    managed_step Hs; [apply calls_verify_realm_sync|].
    managed_step Hs; [apply calls_verify_key_provider_sync|].
    managed_step Hs; [split; [by apply managed_read, path_fixed; right; right; right; left|by intros []]|].
    apply during_lift. intros live _.
    managed_step Hs; [split; [apply managed_profile_update|by intros []]|].
    apply during_lift. intros users _. apply during_lift. intros list _.
    eapply during_bind.
    { apply during_pmap. intros h' user Hp. apply during_sync_user. by eapply signed_in_later. }
    intros h' synced _. do 3 (apply during_lift; intros ? _). exact I.
Qed.

(** Every call of a run with its past. *)
Lemma run_managed {S} (serve : S -> http_call -> res pyval * S) s realm profile h q answer h' :
  answered serve s (main realm profile secrets) = h ++ (q, answer) :: h' -> managed_after h q.
Proof.
  intros Ha%answered_reaches. exact (during_reaches _ _ [] _ _ _ (sync_main_during realm profile) Ha).
Qed.
End history.

(** ** Results of the parts *)

(** A run of the sign-in loop makes at most one call an attempt. *)
Lemma retry_run {S A} (serve : S -> http_call -> res pyval * S) (m h : admin A) s :
  exists s1, (length (snd (run serve s (retry m h)))
    <= length (snd (run serve s m)) + length (snd (run serve s1 h)))%nat.
Proof.
  revert s. induction m as [[a|e]|q k IH]; intros s; cbn [retry].
  - exists s. simpl. lia.
  - exists s. destruct (existsb _ _); simpl; lia.
  - cbn [run]. destruct (serve s q) as [r s'] eqn:Es. destruct (IH r s') as [s1 Hs1]. exists s1.
    destruct (run serve s' (retry (k r) h)) as [[a s2] t].
    destruct (run serve s' (k r)) as [[b s3] t']. cbn [snd length] in *. lia.
Qed.

Lemma admin_token_run {S} (serve : S -> http_call -> res pyval * S) secrets s :
  (length (snd (run serve s (admin_token secrets))) <= 1)%nat.
Proof.
  unfold admin_token. destruct (res_of_option _ (alookup (u"KEYCLOAK_ADMIN_USERNAME") _)); [|simpl; lia].
  destruct (res_of_option _ (alookup (u"KEYCLOAK_ADMIN_PASSWORD") _)); [|simpl; lia]. simpl.
  destruct (serve s _) as [[v|e] s']; simpl; [|lia].
  destruct (val_item v _) as [w|]; simpl; lia.
Qed.

Lemma wait_attempts_run {S} (serve : S -> http_call -> res pyval * S) n secrets s :
  (length (snd (run serve s (wait_attempts n secrets))) <= n)%nat.
Proof.
  revert s. induction n as [|n IH]; intros s; [simpl; lia|]. cbn [wait_attempts].
  destruct (retry_run serve (admin_token secrets) (wait_attempts n secrets) s) as [s1 H].
  pose proof (admin_token_run serve secrets s). specialize (IH s1). lia.
Qed.

(** Kept attributes are those with a name that is not desired, in order. *)
Lemma kept_attributes_spec names live kept :
  kept_attributes names live = Ok kept ->
  exists ns, Forall2 (fun a n => val_item a (u"name") = Ok n) live ns /\
    kept = map fst (List.filter (fun an => negb (name_in names (snd an))) (zip live ns)).
Proof.
  revert kept. induction live as [|a live IH]; intros kept; cbn [kept_attributes].
  - intros [= <-]. exists []. split; [constructor|done].
  - destruct (val_item a (u"name")) as [n|] eqn:En; [|done].
    destruct (hashable n); [|done]. cbn [negb].
    destruct (kept_attributes names live) as [rest|]; [|done].
    destruct (IH rest eq_refl) as (ns & Hns & ->). intros [= <-]. exists (n :: ns).
    split; [by constructor|]. cbn [zip zip_with List.filter snd]. by destruct (name_in names n).
Qed.

(** ** A service that signs in and then refuses *)
Module SampleService.
Definition secrets : list (pystr * pystr) :=
[(u"KEYCLOAK_ADMIN_USERNAME", u"admin"); (u"KEYCLOAK_ADMIN_PASSWORD", u"secret")].

Definition serve (s : unit) (q : http_call) : res pyval * unit :=
if bool_decide (call_path q = login_path)
then (Ok (VDict [(u"access_token", jstr "t")]), tt)
else (raise RuntimeError "HTTP 503", tt).

(** A Keycloak without the clients, with an older realm and key provider. *)
Definition serve_new (s : unit) (q : http_call) : res pyval * unit :=
(if bool_decide (call_path q = login_path) then Ok (VDict [(u"access_token", jstr "t")])
 else if bool_decide (call_path q = realm_path) then Ok (VDict Sample.live_realm)
 else if starts_with clients_path (call_path q) then Ok (VList [])
 else if starts_with components_path (call_path q) then Ok (VList [VDict Sample.provider])
 else raise RuntimeError "HTTP 503", tt).
End SampleService.

(** ** Theorems *)

(** Whatever Keycloak answers, the script signs in with its credentials, reads the managed
    paths, creates and updates within the managed collections, and never deletes. *)
Theorem sync_calls_managed {S} (serve : S -> http_call -> res pyval * S) s realm profile secrets r s' t :
  run serve s (main realm profile secrets) = (r, s', t) ->
  Forall (fun q => is_login secrets q \/ exists token, managed_call (fun _ => True) token q) t /\
  Forall (fun q => call_method q <> "DELETE"%string) t.
Proof.
  intros H. rewrite <- Forall_and. apply Forall_forall. intros q Hq.
  assert (Ht : t = (answered serve s (main realm profile secrets)).*1) by (by rewrite answered_calls, H).
  rewrite Ht in Hq. apply list_elem_of_fmap in Hq as ([q' answer] & -> & Hq). cbn [fst].
  apply list_elem_of_split in Hq as (h & h' & Hh).
  destruct (run_managed _ _ _ _ _ _ _ _ _ Hh) as [Hl|(token & _ & Hm)].
  - split; [by left|]. by destruct Hl as (u & p & _ & _ & ->).
  - split; [right; exists token; by eapply managed_call_weaken, Hm|]. by destruct Hm.
Qed.

(** C27: nothing is changed before every plan has been made: the calls of a run
    are reads first, and any further call means that the desired key provider
    was valid and that the realm, client and key provider plans all succeeded. *)
Theorem plans_before_changes {S} (serve : S -> http_call -> res pyval * S) s realm profile secrets r s' t :
  run serve s (main realm profile secrets) = (r, s', t) ->
  exists reads changes, t = reads ++ changes /\ Forall read_call reads /\
    (changes <> [] -> exists token realm_plan client_plan provider_plan s1,
       run serve s (prepare_all realm secrets) =
         (Ok (token, realm_plan, client_plan, provider_plan), s1, reads) /\
       key_provider_admin_payload realm = Ok managed_provider_payload).
Proof.
  unfold main. intros H. eapply run_phases in H as (t1 & t2 & -> & Ht1 & Hc).
  2:{ apply (calls_prepare_all read_call); intros; [by right|by left]. }
  exists t1, t2. split_and!; [done..|]. intros Hne.
  destruct (Hc Hne) as ([[[token rp] cp] pp] & s1 & Hr). exists token, rp, cp, pp, s1.
  split; [done|]. unfold prepare_all in Hr.
  destruct (key_provider_admin_payload realm) as [p|e] eqn:E; [|done].
  by rewrite (key_provider_payload_managed _ _ E).
Qed.

(** The sign-in loop makes at most thirty calls, all of them sign-ins. *)
Theorem sign_in_bounded {S} (serve : S -> http_call -> res pyval * S) s secrets r s' t :
  run serve s (wait_for_keycloak secrets) = (r, s', t) ->
  (length t <= 30)%nat /\ Forall (fun q => call_path q = login_path) t.
Proof.
  intros H. split.
  - pose proof (wait_attempts_run serve 30 secrets s) as Hl. unfold wait_for_keycloak in H.
    by rewrite H in Hl.
  - eapply calls_run, H. by apply calls_wait_for_keycloak.
Qed.

(** A converged plan is carried out without any call. *)
Theorem converged_plan_silent {S} (serve : S -> http_call -> res pyval * S) s plan token r s' t :
  forallb converged plan = true ->
  run serve s (apply_client_sync plan token) = (r, s', t) ->
  t = [] /\ s' = s /\ (forall counts, r = Ok counts -> counts = (0, 0)).
Proof.
  intros Hall H.
  assert (Hens : ensures (fun _ : http_call => False) (fun c => c = (0, 0)) (apply_client_sync plan token)).
  { clear H. rewrite forallb_Forall in Hall. unfold apply_client_sync.
    apply (ensures_bind _ (fun _ => True)).
    - generalize (@nil (pystr * pystr)) as l.
      induction Hall as [|[a mp] plan Ha _ IH]; intros l; [exact I|]. cbn [pfold].
      apply (ensures_bind _ (fun _ => True)); [|intros b _; apply IH].
      unfold converged, is_noop in Ha. cbn [fst] in Ha. unfold apply_client. cbn [fst].
      by destruct (ca_op a).
    - intros uuids _. apply (ensures_bind _ (fun n => n = 0)).
      + induction Hall as [|[a mp] plan Ha _ IH]; [done|]. cbn [pfold].
        apply (ensures_bind _ (fun n => n = 0)); [|intros ? ->; exact IH].
        unfold converged in Ha. cbn [fst snd] in Ha. bool_prop. destruct mp; [|done].
        unfold apply_client_mappers. cbn [fst snd].
        destruct (res_of_option _ _) as [uuid|]; [|exact I]. cbn [lift pbind].
        destruct (mappers_path uuid); [|exact I]. done.
      + intros n ->. cbn [ensures pret]. f_equal.
        assert (List.filter (fun ap : client_action * list mapper_action => negb (is_noop ap.1)) plan = [])
          as ->; [|done].
        apply filter_nil. eapply Forall_impl; [exact Hall|]. intros [a mp] Ha.
        unfold converged in Ha. apply andb_true_iff in Ha as [Ha _]. by rewrite Ha. }
  destruct (ensures_run serve _ _ _ _ _ _ _ Hens H) as [Ht Hr].
  destruct t as [|q t]; [|by apply Forall_cons in Ht as [[] _]].
  split; [done|]. split; [|done].
  clear -H. revert s H. induction (apply_client_sync plan token) as [x|q k IH]; intros s H.
  - by injection H.
  - cbn [run] in H. destruct (serve s q) as [r0 s0]. destruct (run serve s0 (k r0)) as [[? ?] ?]. done.
Qed.

(** The user profile keeps every live attribute whose name is not desired, in
    order, followed by the desired attributes. *)
Theorem merged_profile_exact live desired live_attributes desired_attributes body :
  dict_get live (u"attributes") = VList live_attributes ->
  dict_get desired (u"attributes") = VList desired_attributes ->
  merged_profile (VDict live) (VDict desired) = Ok body ->
  exists names live_names,
    attribute_names desired_attributes = Ok names /\
    Forall2 (fun a n => val_item a (u"name") = Ok n) live_attributes live_names /\
    dict_get body (u"attributes") =
      VList (map fst (List.filter (fun an => negb (name_in names (snd an)))
                        (zip live_attributes live_names)) ++ desired_attributes) /\
    (forall f, f <> u"attributes" -> dict_get body f = dict_get live f).
Proof.
  assert (Hitem : forall d k l, dict_get d k = VList l -> dict_item d k = Ok (VList l)).
  { intros d k l. unfold dict_get, dict_item. destruct (alookup k d); [by intros ->|done]. }
  intros Hl%Hitem Hd%Hitem. unfold merged_profile. cbn [val_item]. rewrite Hl, Hd. cbn [val_iter].
  destruct (attribute_names desired_attributes) as [names|]; [|done].
  destruct (kept_attributes names live_attributes) as [kept|] eqn:Ek; [|done].
  intros H%Ok_inj. subst body. apply kept_attributes_spec in Ek as (ns & Hns & ->).
  exists names, ns. split_and!; try done.
  - by rewrite dict_get_ainsert, decide_True.
  - intros f Hf. by rewrite dict_get_ainsert, decide_False.
Qed.

(** the update of a user keeps the attributes that are not desired, and when
    Keycloak stores it the check that follows succeeds. *)
Theorem merged_user_retained live desired attributes body :
  good_val (VDict attributes) = true ->
  dict_get desired (u"attributes") = VDict attributes ->
  merged_user (VDict live) desired = Ok body ->
  user_retained (VDict body) attributes = Ok true /\
  (forall f, f ∉ [u"firstName"; u"lastName"; u"attributes"] -> dict_get body f = dict_get live f) /\
  (forall k la, dict_get live (u"attributes") = VDict la -> k ∉ attributes.*1 ->
     exists stored, dict_get body (u"attributes") = VDict stored /\ dict_get stored k = dict_get la k).
Proof.
  intros [Hnd Hg]%good_val_dict Hd. unfold merged_user.
  assert (Hset : forall d f g, g <> f -> dict_get (set_user_name desired d f) g = dict_get d g).
  { intros d f g Hne. unfold set_user_name. destruct (py_truthy _); [|done].
    rewrite dict_get_ainsert. by rewrite decide_False. }
  cbn [fold_left].
  set (d2 := set_user_name desired (set_user_name desired live (u"firstName")) (u"lastName")).
  assert (dict_item desired (u"attributes") = Ok (VDict attributes)) as ->.
  { unfold dict_item, dict_get in *. by destruct (alookup _ desired); simplify_eq/=. }
  cbn beta iota.
  destruct (dict_get_or d2 (u"attributes") (VDict [])) as [| | | | | |la] eqn:Ela; [done..|].
  intros H%Ok_inj. subst body.
  assert (Hattr : dict_get (ainsert (u"attributes") (VDict (dict_merge la attributes)) d2) (u"attributes")
                  = VDict (dict_merge la attributes)) by (by rewrite dict_get_ainsert, decide_True).
  split_and!.
  - unfold user_retained. destruct attributes as [|kv attributes]; [done|].
    unfold dict_get_or. rewrite alookup_ainsert, decide_True by done. f_equal.
    apply forallb_Forall, Forall_forall. intros [k v] Hin. cbn [fst snd]. unfold dict_get.
    rewrite alookup_merge by done. rewrite (alookup_NoDup k v) by done. apply py_eq_good.
    rewrite Forall_forall in Hg. by apply (Hg (k, v)).
  - intros f Hf. rewrite !not_elem_of_cons in Hf. destruct Hf as (H1 & H2 & H3 & _).
    rewrite dict_get_ainsert, decide_False by done. unfold d2. by rewrite !Hset.
  - intros k la' Hla Hk. exists (dict_merge la attributes). split; [done|].
    rewrite dict_get_merge_other by done.
    assert (dict_get d2 (u"attributes") = VDict la') as E by (unfold d2; by rewrite !Hset).
    unfold dict_get_or in Ela. unfold dict_get in E.
    destruct (alookup _ d2); simplify_eq/=; done.
Qed.

(** ** Witnesses *)

Lemma sync_calls_managed_witness :
  exists r s' t, run SampleService.serve tt (main Sample.realm Sample.profile SampleService.secrets)
    = (r, s', t) /\ Forall (fun q => call_method q <> "DELETE"%string) t.
Proof.
  destruct (run SampleService.serve tt (main Sample.realm Sample.profile SampleService.secrets))
    as [[r s'] t] eqn:E.
  exists r, s', t. split; [reflexivity|].
  apply (proj2 (sync_calls_managed SampleService.serve tt Sample.realm Sample.profile
    SampleService.secrets r s' t E)).
Defined.

Lemma plans_before_changes_witness :
  exists r s' t reads change changes token realm_plan client_plan provider_plan s1,
    run SampleService.serve_new tt (main Sample.realm Sample.profile SampleService.secrets) = (r, s', t)
    /\ t = reads ++ change :: changes /\ Forall read_call reads /\
    run SampleService.serve_new tt (prepare_all Sample.realm SampleService.secrets) =
      (Ok (token, realm_plan, client_plan, provider_plan), s1, reads).
Proof.
  assert (Hput : existsb (fun q => negb (bool_decide (call_method q = "GET"%string)) && negb (bool_decide (call_path q = login_path)))
    (snd (run SampleService.serve_new tt (main Sample.realm Sample.profile SampleService.secrets))) = true)
    by (vm_compute; reflexivity).
  destruct (run SampleService.serve_new tt (main Sample.realm Sample.profile SampleService.secrets))
    as [[r s'] t] eqn:E. cbn [snd] in Hput.
  destruct (plans_before_changes SampleService.serve_new tt Sample.realm Sample.profile
    SampleService.secrets r s' t E) as (reads & changes & H1 & H2 & H3).
  destruct changes as [|change changes].
  - exfalso. rewrite app_nil_r in H1. subst t. apply existsb_exists in Hput as (q & Hq & Hc).
    apply list_elem_of_In in Hq. rewrite Forall_forall in H2. specialize (H2 q Hq). unfold read_call in H2.
    destruct H2 as [Hget|Hlogin]; [rewrite (bool_decide_true (call_method q = "GET"%string)) in Hc by exact Hget; discriminate Hc|].
    rewrite (bool_decide_true (call_path q = login_path)) in Hc by exact Hlogin. rewrite andb_false_r in Hc. discriminate Hc.
  - destruct (H3 ltac:(discriminate)) as (token & rp & cp & pp & s1 & Hr & _).
    exists r, s', t, reads, change, changes, token, rp, cp, pp, s1.
    split; [reflexivity|]. split; [exact H1|]. split; [exact H2|exact Hr].
Defined.

Lemma sign_in_bounded_witness :
  exists r s' t, run SampleService.serve tt (wait_for_keycloak SampleService.secrets) = (r, s', t)
    /\ (length t <= 30)%nat.
Proof.
  destruct (run SampleService.serve tt (wait_for_keycloak SampleService.secrets))
    as [[r s'] t] eqn:E.
  exists r, s', t. split; [reflexivity|].
  apply (proj1 (sign_in_bounded SampleService.serve tt SampleService.secrets r s' t E)).
Defined.

Definition noop_plan : list (client_action * list mapper_action) :=
  [(ClientAction (u"third-party-fapi-mtls") [] (ClientNoop (u"77") Sample.live_client), [])].

Lemma converged_plan_silent_witness :
  exists r s' t, run SampleService.serve tt (apply_client_sync noop_plan (u"t")) = (r, s', t) /\ t = [].
Proof.
  destruct (run SampleService.serve tt (apply_client_sync noop_plan (u"t")))
    as [[r s'] t] eqn:E.
  exists r, s', t. split; [reflexivity|].
  apply (proj1 (converged_plan_silent SampleService.serve tt noop_plan (u"t") r s' t eq_refl E)).
Defined.

Definition live_profile : pydict :=
  [(u"attributes", VList [Sample.attribute "email"; Sample.attribute "department"]);
   (u"groups", VList [])].
Definition desired_profile : pydict := [(u"attributes", VList [Sample.attribute "department"])].

Lemma merged_profile_exact_witness :
  exists body, merged_profile (VDict live_profile) (VDict desired_profile) = Ok body /\
    dict_get body (u"groups") = dict_get live_profile (u"groups").
Proof.
  destruct (merged_profile (VDict live_profile) (VDict desired_profile)) as [body|e] eqn:E;
    [|vm_compute in E; discriminate E].
  exists body. split; [reflexivity|].
  destruct (merged_profile_exact live_profile desired_profile _ _ body eq_refl eq_refl E)
    as (names & live_names & _ & _ & _ & H).
  apply H. discriminate.
Defined.

Definition user_attributes : pydict := [(u"department", VList [jstr "finance"])].
Definition desired_user : pydict :=
  [(u"firstName", jstr "Ada"); (u"attributes", VDict user_attributes)].
Definition live_user : pydict :=
  [(u"username", jstr "ada"); (u"attributes", VDict [(u"locale", VList [jstr "en"])])].

Lemma merged_user_retained_witness :
  exists body, merged_user (VDict live_user) desired_user = Ok body /\
    user_retained (VDict body) user_attributes = Ok true.
Proof.
  destruct (merged_user (VDict live_user) desired_user) as [body|e] eqn:E;
    [|vm_compute in E; discriminate E].
  exists body. split; [reflexivity|].
  apply (proj1 (merged_user_retained live_user desired_user user_attributes body
    eq_refl eq_refl E)).
Defined.
