(* ===== verification/Wp1.v ===== *)
(** The validation helpers of [src/scripts/wp1.py]: selectors, computed Konnect
    endpoints, the gateway target manifest and the fixed Routes. *)
From S2P Require Export Url Sha256.

Local Open Scope Z_scope.

(** ** Fixed Routes *)

Definition route_row (route_id logical_route client_id certificate_file key_file : string)
    : pyval :=
  VDict [(u"route_id", jstr route_id); (u"logical_route", jstr logical_route);
         (u"client_id", jstr client_id); (u"certificate_file", jstr certificate_file);
         (u"key_file", jstr key_file)].

Definition ROUTES : list pyval :=
  [route_row "754519ff-b0b9-5ed5-94c0-e453d260c6c4" "A" "third-party-fapi-mtls"
     "/etc/kong/fapi/route-a.crt" "/etc/kong/fapi/route-a.key";
   route_row "0f45debe-a3a6-5207-aea3-637227fb96f2" "B" "third-party-fapi-pkj-mtls"
     "/etc/kong/fapi/route-b.crt" "/etc/kong/fapi/route-b.key"].

Definition validate_route_manifest (routes : pyval) : res unit :=
  if negb (py_eq routes (VList ROUTES))
  then raise ValueError "third-party Route manifest does not match the fixed A/B identities"
  else Ok tt.

(** ** Selectors *)

Definition GATEWAYS : list pystr := [u"api"; u"third-party"].
Definition STAGES : list pystr := [u"foundation"; u"runtime"].

Definition stage_known (stage : option pystr) : bool :=
  match stage with Some s => bool_decide (s ∈ STAGES) | None => false end.

Definition validate_selector (gateway : pystr) (stage : option pystr) (operation : pystr)
    : res unit :=
  if bool_decide (gateway ∉ GATEWAYS)
  then raise ValueError "GATEWAY must be api or third-party"
  else if bool_decide (operation ∈ [u"diff"; u"sync"]) && negb (stage_known stage)
  then raise ValueError "STAGE must be foundation or runtime"
  else if bool_decide (operation = u"schema") && bool_decide (is_Some stage)
  then raise ValueError "schema operations do not accept STAGE"
  else Ok tt.

(** ** Endpoints *)

Section endpoints.
Context `{Unicode}.

Definition endpoint_text_ok (s : pystr) : bool :=
negb (bool_decide (s = [])) && bool_decide (s = py_strip s) && negb (existsb is_control s).

(** The split address with its port. *)
Definition split_endpoint (s : pystr) : res (split_result * option Z) :=
catch (let* parsed := urlsplit s in let* n := port parsed in Ok (parsed, n))
  [TypeError; ValueError] (fun _ => raise ValueError "endpoint is malformed").

Definition endpoint_parts_ok (parsed : split_result) (n : option Z) : bool :=
bool_decide (scheme parsed = u"https")
&& match hostname parsed with Some (_ :: _) => true | _ => false end
&& bool_decide (fst (userinfo parsed) = None)
&& bool_decide (snd (userinfo parsed) = None)
&& bool_decide (query parsed = [])
&& bool_decide (fragment parsed = [])
&& bool_decide (path parsed ∈ [[]; u"/"])
&& bool_decide (n ∈ [None; Some 443]).

Definition endpoint_host (value : pyval) : res pystr :=
match value with
| VStr s =>
    if negb (endpoint_text_ok s)
    then raise ValueError "endpoint contains whitespace or control characters"
    else
      let* (parsed, n) := split_endpoint s in
      if negb (endpoint_parts_ok parsed n)
      then raise ValueError "endpoint must be an unambiguous HTTPS authority"
      else match hostname parsed with
           | Some host => Ok (uni_lower host)
           | None => raise AttributeError "'NoneType' object has no attribute 'lower'"
           end
| _ => raise ValueError "endpoint contains whitespace or control characters"
end.
End endpoints.

(** ** Control plane identifiers *)

Definition skip_char (c : Z) (s : pystr) : pystr :=
  match s with x :: r => if x =? c then r else s | [] => [] end.

(** [int(text, 16)] of a text without a minus sign: an optional prefix, then digits in
    groups joined by single underscores.  [int] also takes the other decimal
    digits of Unicode; such a text is not its own canonical form, so the caller
    refuses it either way. *)
Definition int16 (text : pystr) : option Z :=
  let s := py_strip text in
  let s := skip_char 43 s in
  let s := match s with
           | z :: x :: r =>
               if (z =? 48) && ((x =? 120) || (x =? 88)) then skip_char 95 r else s
           | _ => s
           end in
  let groups := split_on 95 s in
  if forallb (fun g => negb (bool_decide (g = [])) && forallb is_hex g) groups
  then Some (fold_left (fun n c => 16 * n + hex_value c) (concat groups) 0)
  else None.

Definition is_brace (c : Z) : bool := (c =? 123) || (c =? 125).

(** The hexadecimal digits that [uuid.UUID] reads from its argument. *)
Definition uuid_hex (s : pystr) : pystr :=
  List.filter (fun c => negb (c =? 45))
    (strip_while is_brace (replace_sub (u"uuid:") [] (replace_sub (u"urn:") [] s))).

(** ["%032x" % n] *)
Definition hex32 (n : Z) : pystr :=
  map (fun i => hex_digit (n / 16 ^ Z.of_nat (31 - i) mod 16)) (seq 0 32).

(** [h[:8]-h[8:12]-h[12:16]-h[16:20]-h[20:]] *)
Definition dashed (h : pystr) : pystr :=
  take 8 h ++ 45 :: take 4 (drop 8 h) ++ 45 :: take 4 (drop 12 h) ++ 45 :: take 4 (drop 16 h)
    ++ 45 :: drop 20 h.

(** [str(uuid.UUID(s))] *)
Definition uuid_text (s : pystr) : res pystr :=
  let h := uuid_hex s in
  if negb (length h =? 32)%nat then raise ValueError "badly formed hexadecimal UUID string"
  else match int16 h with
       | Some n => Ok (dashed (hex32 n))
       | None => raise ValueError "invalid literal for int() with base 16"
       end.

(** [str(UUID(cp_id)) == cp_id.lower()], or a [ValueError].  No code point
    outside [lower_char] lower-cases to a hexadecimal digit or a dash. *)
Definition check_uuid (gateway cp_id : pystr) : res unit :=
  catch (let* t := uuid_text cp_id in
         if negb (bool_decide (t = py_lower cp_id)) then raise ValueError "non-canonical UUID"
         else Ok tt)
    [ValueError; AttributeError]
    (fun _ => Err (Exn ValueError (gateway ++ u" control plane ID is not a UUID"))).

(** ** The gateway target manifest *)

Definition TARGET_FIELDS : list pystr :=
  [u"control_plane_id"; u"control_plane_name"; u"control_plane_endpoint"; u"telemetry_endpoint"].

(** The accumulators of the loop over the gateways. *)
Record target_state := TargetState {
  seen_names : list pystr; seen_ids : list pystr; normalized : pydict
}.

Definition target_error {A} (gateway : pystr) (msg : string) : res A :=
  Err (Exn ValueError (gateway ++ u msg)).

Definition nonblank (v : pyval) : bool :=
  match v with VStr s => negb (bool_decide (py_strip s = [])) | _ => false end.

(** [if expected_names and cp_name != expected_names[gateway]] *)
Definition check_expected_name (expected_names : list (pystr * pystr)) (gateway cp_name : pystr)
    : res unit :=
  match expected_names with
  | [] => Ok tt
  | _ =>
      match alookup gateway expected_names with
      | None => Err (Exn KeyError gateway)
      | Some name =>
          if negb (bool_decide (cp_name = name))
          then target_error gateway " control plane name does not match local configuration"
          else Ok tt
      end
  end.

Section targets.
Context `{Unicode}.

Definition validate_target (targets : pyval) (expected_names : list (pystr * pystr))
  (st : target_state) (gateway : pystr) : res target_state :=
let* target := val_item targets gateway in
match target with
| VDict d =>
    if negb (keys_are d TARGET_FIELDS)
    then target_error gateway " target fields are incomplete or unexpected"
    else
      let* cp_id := dict_item d (u"control_plane_id") in
      let* cp_name := dict_item d (u"control_plane_name") in
      match cp_id, cp_name with
      | VStr cp_id, VStr cp_name =>
          if negb (nonblank (VStr cp_id) && nonblank (VStr cp_name))
          then target_error gateway " control plane ID/name is empty"
          else
            let* _ := check_uuid gateway cp_id in
            if bool_decide (cp_id ∈ seen_ids st)
            then raise ValueError "API and third-party control plane IDs must differ"
            else if bool_decide (cp_name ∈ seen_names st)
            then raise ValueError "API and third-party control plane names must differ"
            else
              let* _ := check_expected_name expected_names gateway cp_name in
              let* cp_host := endpoint_host (dict_get d (u"control_plane_endpoint")) in
              let* tp_host := endpoint_host (dict_get d (u"telemetry_endpoint")) in
              if bool_decide (cp_host = tp_host)
              then target_error gateway
                     " control plane and telemetry endpoints are ambiguous"
              else
                Ok (TargetState (cp_name :: seen_names st) (cp_id :: seen_ids st)
                      (ainsert gateway
                         (VDict (ainsert (u"telemetry_host") (VStr tp_host)
                                   (ainsert (u"control_plane_host") (VStr cp_host) d)))
                         (normalized st)))
      | _, _ => target_error gateway " control plane ID/name is empty"
      end
| _ => target_error gateway " target fields are incomplete or unexpected"
end.

Definition validate_targets (targets : pyval) (expected_names : list (pystr * pystr))
  : res pydict :=
let* known := val_set_is targets GATEWAYS in
if negb known
then raise ValueError "gateway target manifest must contain api and third-party"
else
  let* st := foldM_res (validate_target targets expected_names) GATEWAYS
               (TargetState [] [] []) in
  Ok (normalized st).
End targets.

(** ** Lemmas: control plane identifiers *)

Lemma is_infix_absent {A} `{EqDecision A} (x : A) p s :
  x ∈ p -> (x ∉ s) -> is_infix p s = false.
Proof.
  intros Hp Hs. apply not_true_iff_false. intros (a & c & ->)%is_infix_spec.
  apply Hs. rewrite !elem_of_app. auto.
Qed.

Lemma replace_sub_absent {A} `{EqDecision A} (x : A) p r s :
  x ∈ p -> (x ∉ s) -> replace_sub p r s = s.
Proof. intros Hp Hs. unfold replace_sub. by apply replace_from_none, (is_infix_absent x). Qed.

Lemma split_on_absent c s : (c ∉ s) -> split_on c s = [s].
Proof.
  induction s as [|x s IH]; [done|]. rewrite not_elem_of_cons. intros [Hne Hn]. cbn.
  rewrite (proj2 (Z.eqb_neq x c)) by congruence. by rewrite IH.
Qed.

Lemma hex_class c : is_hex c = true <-> 48 <= c <= 57 \/ 65 <= c <= 70 \/ 97 <= c <= 102.
Proof.
  unfold is_hex, is_digit. rewrite !orb_true_iff, !andb_true_iff, !Z.leb_le. lia.
Qed.

Lemma hex_not_in x h : is_hex x = false -> Forall (fun c => is_hex c = true) h -> (x ∉ h).
Proof. intros Hx Hh Hin. rewrite Forall_forall in Hh. by rewrite (Hh x Hin) in Hx. Qed.

(** The five groups of a dashed text. *)
Definition dashed5 (a b c d e : pystr) : pystr :=
  a ++ 45 :: b ++ 45 :: c ++ 45 :: d ++ 45 :: e.

Lemma dashed_groups h :
  length h = 32%nat ->
  exists a b c d e, h = a ++ b ++ c ++ d ++ e /\ dashed h = dashed5 a b c d e /\
    length a = 8%nat /\ length b = 4%nat /\ length c = 4%nat /\ length d = 4%nat.
Proof.
  intros Hl. exists (take 8 h), (take 4 (drop 8 h)), (take 4 (drop 12 h)),
    (take 4 (drop 16 h)), (drop 20 h).
  split_and!; try done; rewrite ?length_take, ?length_drop, ?Hl; try done.
  change (drop 20 h) with (drop (16 + 4) h). change (drop 16 h) with (drop (12 + 4) h) at 1.
  rewrite <- (take_drop 8 h) at 1. f_equal.
  rewrite <- (take_drop 4 (drop 8 h)) at 1. rewrite drop_drop. f_equal.
  rewrite <- (take_drop 4 (drop _ h)) at 1. rewrite drop_drop. f_equal.
  rewrite <- (take_drop 4 (drop _ h)) at 1. rewrite drop_drop. done.
Qed.

Lemma dashed_of_groups a b c d e :
  length a = 8%nat -> length b = 4%nat -> length c = 4%nat -> length d = 4%nat ->
  dashed (a ++ b ++ c ++ d ++ e) = dashed5 a b c d e.
Proof.
  intros Ha Hb Hc Hd.
  do 8 (destruct a as [|? a]; [done|]). destruct a; [|done].
  do 4 (destruct b as [|? b]; [done|]). destruct b; [|done].
  do 4 (destruct c as [|? c]; [done|]). destruct c; [|done].
  do 4 (destruct d as [|? d]; [done|]). destruct d; [|done]. done.
Qed.

(** Reading hexadecimal digits and writing them back lower-cases them. *)
Definition hex_number (h : pystr) : Z := fold_left (fun n c => 16 * n + hex_value c) h 0.
Definition hex_text (k : nat) (n : Z) : pystr :=
  map (fun i => hex_digit (n / 16 ^ Z.of_nat (k - 1 - i) mod 16)) (seq 0 k).

Lemma hex_number_snoc h c : hex_number (h ++ [c]) = 16 * hex_number h + hex_value c.
Proof. unfold hex_number. by rewrite fold_left_app. Qed.

Lemma hex_text_snoc k n d :
  0 <= d < 16 -> hex_text (S k) (16 * n + d) = hex_text k n ++ [hex_digit d].
Proof.
  intros Hd. unfold hex_text. rewrite seq_S, map_app. f_equal.
  - apply map_ext_in. intros i Hi%in_seq.
    replace (Z.of_nat (S k - 1 - i)) with (Z.succ (Z.of_nat (k - 1 - i))) by lia.
    rewrite Z.pow_succ_r by lia. pose proof (Z.pow_pos_nonneg 16 (Z.of_nat (k - 1 - i))).
    rewrite <- Z.div_div by lia. f_equal. f_equal. f_equal.
    rewrite (Z.mul_comm 16 n), Z.div_add_l by lia. rewrite (Z.div_small d) by lia. lia.
  - cbn [map Nat.add]. replace (S k - 1 - k)%nat with 0%nat by lia.
    change (16 ^ Z.of_nat 0) with 1. rewrite Z.div_1_r, (Z.mul_comm 16 n), Z.add_comm, Z.mod_add by lia.
    by rewrite Z.mod_small.
Qed.

Lemma hex_value_lower c :
  is_hex c = true -> 0 <= hex_value c < 16 /\ hex_digit (hex_value c) = lower_char c.
Proof.
  intros H%hex_class. unfold hex_value, hex_digit, lower_char, is_digit, is_upper.
  destruct H as [H|[H|H]]; repeat case_match; bool_prop; try lia;
    repeat match goal with H : _ && _ = false |- _ => apply andb_false_iff in H end;
    bool_prop; lia.
Qed.

Lemma hex_text_number h :
  Forall (fun c => is_hex c = true) h -> hex_text (length h) (hex_number h) = py_lower h.
Proof.
  induction h as [|c h IH] using rev_ind; intros Hh; [done|].
  apply Forall_app in Hh as [Hh Hc%Forall_inv]. destruct (hex_value_lower c Hc) as [Hr Hd].
  rewrite hex_number_snoc, length_app, Nat.add_1_r, hex_text_snoc by done.
  rewrite IH by done. unfold py_lower. rewrite map_app. cbn [map]. by rewrite Hd.
Qed.

Lemma hex_not_space c : is_hex c = true -> py_isspace c = false.
Proof.
  intros H%hex_class. unfold py_isspace.
  repeat (apply orb_false_iff; split); try (apply andb_false_iff); rewrite ?Z.eqb_neq, ?Z.leb_gt; lia.
Qed.

Lemma int16_hex h :
  length h = 32%nat -> Forall (fun c => is_hex c = true) h -> int16 h = Some (hex_number h).
Proof.
  intros Hl Hh. unfold int16.
  assert (Hs : py_strip h = h).
  { apply strip_while_id. eapply Forall_impl; [exact Hh|]. intros c. apply hex_not_space. }
  rewrite Hs. destruct h as [|z [|x r]]; [done|done|].
  pose proof Hh as Hh'. apply Forall_cons in Hh' as [Hz [Hx _]%Forall_cons].
  rewrite hex_class in Hz, Hx.
  assert (Hd : (z =? 48) && ((x =? 120) || (x =? 88)) = false).
  { rewrite (proj2 (Z.eqb_neq x 120)), (proj2 (Z.eqb_neq x 88)) by lia. by rewrite andb_false_r. }
  cbv zeta. cbn [skip_char]. rewrite (proj2 (Z.eqb_neq z 43)), Hd by lia.
  rewrite split_on_absent by (by apply hex_not_in).
  change (concat [z :: x :: r]) with ((z :: x :: r) ++ []). rewrite app_nil_r.
  apply forallb_Forall in Hh. change (forallb is_hex (z :: x :: r) = true) in Hh.
  cbn -[is_hex forallb fold_left]. cbn [forallb] in Hh |- *. rewrite Hh. done.
Qed.

Definition all_hex (h : pystr) : Prop := Forall (fun c => is_hex c = true) h.

Definition not_dash (c : Z) : bool := negb (c =? 45).

Lemma filter_hex h : all_hex h -> List.filter not_dash h = h.
Proof.
  induction 1 as [|c h Hc _ IH]; [done|]. cbn. apply hex_class in Hc.
  unfold not_dash at 1. rewrite (proj2 (Z.eqb_neq c 45)) by lia. cbn. by rewrite IH.
Qed.

Lemma elem_of_dashed5 x a b c d e :
  x ∈ dashed5 a b c d e -> x = 45 \/ x ∈ a ++ b ++ c ++ d ++ e.
Proof. unfold dashed5. rewrite !elem_of_app, !elem_of_cons, !elem_of_app, !elem_of_cons,
  !elem_of_app, !elem_of_cons, !elem_of_app, !elem_of_cons. tauto. Qed.

Lemma uuid_hex_dashed h : length h = 32%nat -> all_hex h -> uuid_hex (dashed h) = h.
Proof.
  intros Hl Hh. destruct (dashed_groups h Hl) as (a & b & c & d & e & Hab & Hd & _).
  assert (Hin : forall x, x ∈ dashed h -> x = 45 \/ is_hex x = true).
  { intros x. rewrite Hd. intros [->|Hx]%elem_of_dashed5; [by left|right].
    rewrite <- Hab in Hx. unfold all_hex in Hh. rewrite Forall_forall in Hh. by apply Hh. }
  assert (Hu : 117 ∉ dashed h) by (by intros [?|?]%Hin).
  unfold uuid_hex.
  assert (H1 : 117 ∈ u"urn:") by (apply (bool_decide_unpack _); by vm_compute).
  assert (H2 : 117 ∈ u"uuid:") by (apply (bool_decide_unpack _); by vm_compute).
  rewrite (replace_sub_absent 117 (u"urn:")), (replace_sub_absent 117 (u"uuid:")) by done.
  rewrite strip_while_id.
  - change (fun c0 => negb (c0 =? 45)) with not_dash. rewrite Hd.
    rewrite Hab in Hh. unfold all_hex in Hh. rewrite !Forall_app in Hh.
    destruct Hh as (Ha & Hb & Hc & Hd' & He). unfold dashed5.
    repeat (rewrite List.filter_app; cbn [List.filter not_dash Z.eqb Pos.eqb negb]).
    rewrite !filter_hex by done. congruence.
  - apply Forall_forall. intros x [->|Hx%hex_class]%Hin; [done|].
    unfold is_brace. rewrite (proj2 (Z.eqb_neq x 123)), (proj2 (Z.eqb_neq x 125)) by lia. done.
Qed.

Lemma lower_char_dash c : lower_char c = 45 -> c = 45.
Proof. unfold lower_char. repeat case_match; bool_prop; lia. Qed.

Lemma lower_char_hex c : is_hex (lower_char c) = true -> is_hex c = true.
Proof.
  rewrite !hex_class. unfold lower_char. repeat case_match; bool_prop; lia.
Qed.

Lemma lower_hex h : all_hex (py_lower h) -> all_hex h.
Proof.
  unfold all_hex, py_lower. rewrite Forall_map. intros H. eapply Forall_impl; [exact H|].
  intros c. apply lower_char_hex.
Qed.

Lemma hex_lower h : all_hex h -> all_hex (py_lower h).
Proof.
  unfold all_hex, py_lower. rewrite Forall_map. intros H. eapply Forall_impl; [exact H|].
  intros c Hc. rewrite <- (proj2 (hex_value_lower c Hc)).
  apply is_hex_digit, (proj1 (hex_value_lower c Hc)).
Qed.

Lemma hex32_hex n : length (hex32 n) = 32%nat /\ all_hex (hex32 n).
Proof.
  split; [by unfold hex32; rewrite length_map, length_seq|].
  unfold all_hex, hex32. apply Forall_map, Forall_forall. intros i _. unfold compose.
  apply is_hex_digit, Z.mod_pos_bound. lia.
Qed.

Lemma py_lower_dashed5 s a b c d e :
  py_lower s = dashed5 a b c d e ->
  exists a' b' c' d' e', s = dashed5 a' b' c' d' e' /\ a = py_lower a' /\ b = py_lower b' /\
    c = py_lower c' /\ d = py_lower d' /\ e = py_lower e'.
Proof.
  unfold py_lower, dashed5. intros H.
  apply fmap_app_inv in H as (a' & r1 & -> & H & ->).
  symmetry in H. apply fmap_cons_inv in H as (x1 & r1' & H1%eq_sym%lower_char_dash & H & ->).
  symmetry in H. apply fmap_app_inv in H as (b' & r2 & -> & H & ->).
  symmetry in H. apply fmap_cons_inv in H as (x2 & r2' & H2%eq_sym%lower_char_dash & H & ->).
  symmetry in H. apply fmap_app_inv in H as (c' & r3 & -> & H & ->).
  symmetry in H. apply fmap_cons_inv in H as (x3 & r3' & H3%eq_sym%lower_char_dash & H & ->).
  symmetry in H. apply fmap_app_inv in H as (d' & r4 & -> & H & ->).
  symmetry in H. apply fmap_cons_inv in H as (x4 & e' & H4%eq_sym%lower_char_dash & -> & ->).
  subst. by exists a', b', c', d', e'.
Qed.

(** A text is a dashed group of 32 hexadecimal digits. *)
Definition is_uuid (s : pystr) : Prop :=
  exists h, length h = 32%nat /\ all_hex h /\ s = dashed h.

Lemma check_uuid_exact gateway s : check_uuid gateway s = Ok tt <-> is_uuid s.
Proof.
  unfold check_uuid.
  split.
  - unfold catch. destruct (uuid_text s) as [t|err] eqn:E; [|by case_match].
    case_bool_decide as Ht; [intros _|by intros [=]]. unfold uuid_text in E.
    destruct (negb _); [done|]. destruct (int16 _) as [n|]; [|done]. apply Ok_inj in E. subst t.
    destruct (hex32_hex n) as [Hl Hh].
    destruct (dashed_groups _ Hl) as (a & b & c & d & e & Hab & Hd & La & Lb & Lc & Ld).
    rewrite Hd in Ht. symmetry in Ht. rewrite Hab in Hl, Hh.
    destruct (py_lower_dashed5 _ _ _ _ _ _ Ht) as (a' & b' & c' & d' & e' & -> & -> & -> & -> & -> & ->).
    exists (a' ++ b' ++ c' ++ d' ++ e'). unfold py_lower in *. rewrite !length_map in *.
    split_and!.
    + rewrite !length_app, !length_map in Hl. by rewrite !length_app.
    + apply lower_hex. unfold py_lower. by rewrite !map_app.
    + by rewrite dashed_of_groups.
  - intros (h & Hl & Hh & ->). unfold uuid_text. rewrite uuid_hex_dashed, Hl, int16_hex by done.
    assert (Hd : dashed (hex32 (hex_number h)) = py_lower (dashed h)).
    { pose proof (hex_text_number h Hh) as Hn. rewrite Hl in Hn.
      change (hex32 (hex_number h)) with (hex_text 32 (hex_number h)). rewrite Hn.
      destruct (dashed_groups h Hl) as (a & b & c & d & e & -> & -> & La & Lb & Lc & Ld).
      unfold py_lower, dashed5. rewrite !map_app. rewrite dashed_of_groups by (by rewrite length_map).
      unfold dashed5. change 45 with (lower_char 45) at 1 2 3 4. by repeat (cbn [map]; rewrite map_app). }
    cbn [Nat.eqb negb]. by rewrite Hd, bool_decide_true.
Qed.

(** ** Lemmas: endpoints *)

Definition is_host_char (c : Z) : bool :=
  negb (is_netloc_end c) && negb (c =? 64) && negb (c =? 58) && negb (c =? 91) && negb (c =? 93).

(** The digits of a port that means 443 or the default: they may be missing. *)
Definition digits_443 (text : pystr) : Prop :=
  text = [] \/ forallb is_digit text = true /\ (length text <= int_max_digits)%nat /\
                digits_value text = 443.
Definition port_443 (port : pystr) : Prop :=
  port = [] \/ exists ds, port = 58 :: ds /\ digits_443 ds.

(** What may follow: an empty path or the root, then empty query and fragment. *)
Definition ENDPOINT_TAILS : list pystr :=
  [u""; u"/"; u"?"; u"#"; u"/?"; u"/#"; u"?#"; u"/?#"].

(** The texts of the form [https://host:443/]. *)
Definition plain_endpoint (s host : pystr) : Prop :=
  exists sch port tail, s = sch ++ u"://" ++ host ++ port ++ tail /\
    py_lower sch = u"https" /\ host <> [] /\ forallb is_host_char host = true /\
    port_443 port /\ tail ∈ ENDPOINT_TAILS.

Lemma lower_char_letter c k :
  97 <= k <= 122 -> k <> 107 -> lower_char c = k -> c = k \/ c = k - 32.
Proof. unfold lower_char. repeat case_match; bool_prop; lia. Qed.

Lemma https_scheme sch :
  py_lower sch = u"https" ->
  (58 ∉ sch) /\ exists c a, sch = c :: a /\ is_alpha c = true /\ forallb is_scheme_char sch = true.
Proof.
  intros H. destruct sch as [|c1 [|c2 [|c3 [|c4 [|c5 [|]]]]]]; try discriminate H.
  change (u"https") with [104; 116; 116; 112; 115] in H. injection H as H1 H2 H3 H4 H5.
  apply lower_char_letter in H1; [|lia..]. apply lower_char_letter in H2; [|lia..].
  apply lower_char_letter in H3; [|lia..]. apply lower_char_letter in H4; [|lia..].
  apply lower_char_letter in H5; [|lia..].
  split; [rewrite !not_elem_of_cons; split_and!; try lia; apply not_elem_of_nil|].
  exists c1, [c2; c3; c4; c5]. split_and!; [done| |].
  - destruct H1 as [->| ->]; done.
  - destruct H1 as [->| ->], H2 as [->| ->], H3 as [->| ->], H4 as [->| ->], H5 as [->| ->]; done.
Qed.

Lemma clean_url_id s : endpoint_text_ok s = true -> clean_url s = s.
Proof.
  unfold endpoint_text_ok. intros H. bool_prop.
  match goal with H : s = py_strip s |- _ => rename H into Hs end.
  match goal with H : existsb _ _ = false |- _ => rename H into Hc end.
  assert (Hc' : Forall (fun c => 32 <= c) s).
  { apply Forall_forall. intros c Hin. apply not_true_iff_false in Hc.
    destruct (decide (32 <= c)) as [|Hn]; [done|]. exfalso. apply Hc, existsb_exists.
    exists c. rewrite <- list_elem_of_In. split; [done|]. unfold is_control.
    rewrite (proj2 (Z.ltb_lt c 32)) by lia. done. }
  unfold clean_url. rewrite lstrip_while_id.
  - clear -Hc'. induction Hc' as [|c s Hc _ IH]; [done|]. cbn.
    unfold is_unsafe_url_char at 1.
    rewrite !(proj2 (Z.eqb_neq c _)) by lia. cbn. by rewrite IH.
  - destruct s as [|c s]; [done|]. unfold is_c0_or_space.
    destruct (decide (c = 32)) as [->|Hne].
    + exfalso. pose proof (f_equal length Hs) as Hl. unfold py_strip, strip_while, rstrip_while in Hl.
      rewrite length_rev in Hl. cbn [lstrip_while] in Hl. change (py_isspace 32) with true in Hl.
      cbv iota in Hl. destruct (lstrip_while_suffix py_isspace s) as (t & Ht & _).
      destruct (lstrip_while_suffix py_isspace (rev (lstrip_while py_isspace s))) as (t' & Ht' & _).
      apply (f_equal length) in Ht, Ht'. rewrite length_rev in Ht'. rewrite length_app in Ht, Ht'.
      cbn [length] in Hl. lia.
    + apply Forall_inv in Hc'. apply andb_false_iff. right. apply Z.leb_gt. lia.
Qed.


Lemma ascii_app s t : ascii_str (s ++ t) = ascii_str s && ascii_str t.
Proof. apply forallb_app. Qed.

Lemma lower_idem s : ascii_str s = true -> py_lower (py_lower s) = py_lower s.
Proof.
  unfold ascii_str, py_lower. rewrite forallb_Forall. intros Hs. rewrite map_map.
  apply map_ext_in. intros c Hc%list_elem_of_In. rewrite Forall_forall in Hs.
  specialize (Hs c Hc). unfold is_ascii in Hs. bool_prop.
  unfold lower_char. repeat case_match; bool_prop; lia.
Qed.

Lemma ascii_lower s : ascii_str s = true -> ascii_str (py_lower s) = true.
Proof.
  unfold ascii_str, py_lower. rewrite !forallb_Forall, Forall_map. intros Hs.
  eapply Forall_impl; [exact Hs|]. intros c. unfold compose, is_ascii, lower_char.
  intros H. bool_prop. repeat case_match; bool_prop; rewrite andb_true_iff, Z.leb_le, Z.ltb_lt; lia.
Qed.

Lemma lower_host_ascii `{UnicodeLaws} host :
  ascii_str host = true -> uni_lower (lower_host host) = py_lower host.
Proof.
  intros Ha. unfold lower_host.
  destruct (partition_on_cases 37 host) as [[_ ->]|(a & r & -> & _ & ->)].
  - rewrite !app_nil_r, (uni_lower_ascii host), uni_lower_ascii by auto using ascii_lower.
    by apply lower_idem.
  - rewrite ascii_app in Ha. bool_prop.
    rewrite (uni_lower_ascii a), uni_lower_ascii.
    + unfold py_lower at 1. rewrite map_app. change (map lower_char (py_lower a)) with (py_lower (py_lower a)).
      rewrite lower_idem by done. unfold py_lower. by rewrite !map_app.
    + rewrite !ascii_app, ascii_lower by done. done.
    + done.
Qed.

Lemma elem_of_tails t :
  t ∈ ENDPOINT_TAILS <->
  exists p q f, t = p ++ q ++ f /\ p ∈ [[]; [47]] /\ q ∈ [[]; [63]] /\ f ∈ [[]; [35]].
Proof.
  unfold ENDPOINT_TAILS. split.
  - rewrite !elem_of_cons, elem_of_nil.
    intros [->|[->|[->|[->|[->|[->|[->|[->|[]]]]]]]]];
      [exists [], [], []|exists [47], [], []|exists [], [63], []|exists [], [], [35]
      |exists [47], [63], []|exists [47], [], [35]|exists [], [63], [35]|exists [47], [63], [35]];
      (split; [done|]); split_and!; apply (bool_decide_unpack _); by vm_compute.
  - intros (p & q & f & -> & Hp & Hq & Hf). rewrite !elem_of_cons, elem_of_nil in Hp, Hq, Hf.
    destruct Hp as [->|[->|[]]], Hq as [->|[->|[]]], Hf as [->|[->|[]]];
      apply (bool_decide_unpack _); by vm_compute.
Qed.

Lemma split_scheme_https s rest :
  split_scheme s = (u"https", rest) ->
  exists sch, s = sch ++ 58 :: rest /\ py_lower sch = u"https".
Proof.
  unfold split_scheme. destruct (partition_on_cases 58 s) as [[_ ->]|(a & r & -> & _ & ->)].
  - by destruct s.
  - destruct a as [|c a]; [done|]. case_match; [|done]. intros [Hl ->]%pair_equal_spec. by exists (c :: a).
Qed.

Lemma split_scheme_plain sch rest :
  py_lower sch = u"https" -> split_scheme (sch ++ 58 :: rest) = (u"https", rest).
Proof.
  intros H. destruct (https_scheme sch H) as (Hn & c & a & -> & Hc & Hs).
  unfold split_scheme. rewrite partition_on_app by done. by rewrite Hc, Hs, H.
Qed.

Lemma split_netloc_plain net tail :
  Forall (fun c => is_netloc_end c = false) net -> tail ∈ ENDPOINT_TAILS ->
  split_netloc (u"//" ++ net ++ tail) = (net, tail).
Proof.
  intros Hn Ht. unfold split_netloc. rewrite starts_with_app. cbn [drop u app].
  apply span_until_app; [done|]. unfold ENDPOINT_TAILS in Ht. rewrite !elem_of_cons, elem_of_nil in Ht.
  by destruct Ht as [->|[->|[->|[->|[->|[->|[->|[->|[]]]]]]]]].
Qed.

Lemma split_netloc_sound rest net tail :
  net <> [] -> split_netloc rest = (net, tail) ->
  rest = u"//" ++ net ++ tail /\ Forall (fun c => is_netloc_end c = false) net.
Proof.
  intros Hne. unfold split_netloc. destruct (starts_with _ rest) eqn:E; [|by intros [= <- <-]].
  apply starts_with_spec in E as [t ->]. change (drop 2 (u"//" ++ t)) with t.
  intros (-> & Hn & _)%span_until_spec. done.
Qed.

Lemma no_brackets net : (91 ∉ net) -> (93 ∉ net) -> brackets_ok net = true.
Proof.
  intros H1 H2. unfold brackets_ok.
  by rewrite (proj2 (has_char_false 91 net) H1), (proj2 (has_char_false 93 net) H2).
Qed.


(** A network location without user information and brackets. *)
Lemma net_parts net :
  (64 ∉ net) -> (91 ∉ net) ->
  exists host sep text, partition_on 58 net = (host, sep, text) /\
    forall sch p q f, let r := SplitResult sch net p q f in
    userinfo r = (None, None) /\ hostinfo r = (host, text).
Proof.
  intros H64 H91. destruct (partition_on 58 net) as [[host sep] text] eqn:E.
  exists host, sep, text. split; [done|]. intros sch p q f.
  unfold userinfo, hostinfo. cbn [netloc]. rewrite rpartition_on_absent by done.
  by rewrite (partition_on_absent 91), E by done.
Qed.

Lemma port_443_exact (parsed : split_result) host text :
  hostinfo parsed = (host, text) ->
  (exists n, port parsed = Ok n /\ n ∈ [None; Some 443]) <-> digits_443 text.
Proof.
  intros Hh. unfold port, digits_443. rewrite Hh. cbn [snd]. destruct text as [|c text].
  - split; [by left|]. intros _. exists None. split; [done|by left].
  - destruct (forallb is_digit (c :: text)); [|split; [by intros (? & ? & _)|naive_solver]].
    unfold int_of_digits. destruct (int_max_digits <? length (c :: text))%nat eqn:El.
    + bool_prop. split; [by intros (? & ? & _)|]. intros [?|(_ & ? & _)]; [done|lia].
    + bool_prop. destruct (digits_value (c :: text) <=? 65535) eqn:Ev; bool_prop.
      * split.
        -- intros (n & [= <-] & Hn). right. rewrite !elem_of_cons, elem_of_nil in Hn.
           destruct Hn as [?|[[= ?]|[]]]; done.
        -- intros [?|(_ & _ & ->)]; [done|]. exists (Some 443). split; [done|by right; left].
      * split; [by intros (? & ? & _)|]. intros [?|(_ & _ & ?)]; [done|lia].
Qed.

Lemma host_chars net host sep text :
  partition_on 58 net = (host, sep, text) -> Forall (fun c => is_netloc_end c = false) net ->
  (64 ∉ net) -> (91 ∉ net) -> (93 ∉ net) -> forallb is_host_char host = true.
Proof.
  intros (-> & _ & Hn & _)%partition_on_join [Hf _]%Forall_app. rewrite !not_elem_of_app.
  intros [H1 _] [H2 _] [H3 _]. apply forallb_Forall, Forall_forall. intros c Hc.
  rewrite Forall_forall in Hf. unfold is_host_char. rewrite (Hf c Hc).
  rewrite !(proj2 (Z.eqb_neq c _)) by (intros ->; done). done.
Qed.

Lemma host_char_not c h : is_host_char c = false -> forallb is_host_char h = true -> (c ∉ h).
Proof. intros Hc Hh%forallb_Forall Hin. rewrite Forall_forall in Hh. by rewrite (Hh c Hin) in Hc. Qed.

Definition is_port_char (c : Z) : bool := is_digit c || (c =? 58).

(** Host and port of a plain endpoint, read back. *)
Lemma partition_port host po :
  forallb is_host_char host = true -> port_443 po ->
  exists sep text, partition_on 58 (host ++ po) = (host, sep, text) /\
    forallb is_port_char po = true /\ digits_443 text.
Proof.
  intros Hh Hp. assert (Hn : 58 ∉ host) by (by apply host_char_not).
  destruct Hp as [->|(ds & -> & Hds)].
  - exists [], []. rewrite app_nil_r, partition_on_absent by done. split_and!; [done..|by left].
  - exists [58], ds. rewrite partition_on_app by done. split_and!; [done| |done]. cbn [forallb].
    destruct Hds as [->|(Hd & _)]; [done|]. apply andb_true_iff. split; [done|].
    rewrite forallb_Forall in *. eapply Forall_impl; [exact Hd|]. unfold is_port_char.
    by intros c ->.
Qed.

Lemma net_char_not c host po :
  is_host_char c = false -> is_port_char c = false ->
  forallb is_host_char host = true -> forallb is_port_char po = true -> (c ∉ host ++ po).
Proof.
  intros H1 H2 Hh Hp. rewrite not_elem_of_app. split; [by apply host_char_not|]. intros Hin.
  rewrite forallb_Forall, Forall_forall in Hp. by rewrite (Hp c Hin) in H2.
Qed.

Lemma net_not_end host po :
  forallb is_host_char host = true -> forallb is_port_char po = true ->
  Forall (fun c => is_netloc_end c = false) (host ++ po).
Proof.
  intros Hh Hp. apply Forall_forall. intros c Hc. destruct (is_netloc_end c) eqn:E; [|done].
  exfalso. revert Hc. apply net_char_not; try done.
  - unfold is_host_char. by rewrite E.
  - unfold is_netloc_end in E. rewrite !orb_true_iff, !Z.eqb_eq in E.
    by destruct E as [[->| ->]| ->].
Qed.

Lemma split_tail p q f :
  p ∈ [[]; [47]] -> q ∈ [[]; [63]] -> f ∈ [[]; [35]] ->
  partition_on 35 (p ++ q ++ f) = (p ++ q, f, []) /\ partition_on 63 (p ++ q) = (p, q, []).
Proof.
  rewrite !elem_of_cons, !elem_of_nil. intros Hp Hq Hf.
  by destruct Hp as [->|[->|[]]], Hq as [->|[->|[]]], Hf as [->|[->|[]]].
Qed.


Section endpoint.
Context `{UnicodeLaws}.

Lemma lower_host_nonempty host :
ascii_str host = true -> host <> [] -> lower_host host <> [].
Proof.
intros Ha Hne. unfold lower_host.
destruct (partition_on_cases 37 host) as [[_ E]|(a & r & _ & _ & E)];
  rewrite E; [|by destruct (uni_lower a)].
rewrite !app_nil_r, uni_lower_ascii by done. by destruct host.
Qed.

(** What [urlsplit] makes of a plain endpoint. *)
Lemma urlsplit_plain sch host po p q f :
let s := sch ++ u"://" ++ host ++ po ++ p ++ q ++ f in
ascii_str s = true -> endpoint_text_ok s = true -> py_lower sch = u"https" ->
forallb is_host_char host = true -> forallb is_port_char po = true ->
p ∈ [[]; [47]] -> q ∈ [[]; [63]] -> f ∈ [[]; [35]] ->
urlsplit s = Ok (SplitResult (u"https") (host ++ po) p [] []).
Proof.
intros s Ha Ht Hsch Hh Hp Hpp Hq Hf. unfold urlsplit. rewrite clean_url_id by done.
assert (Hsp : split_scheme s = (u"https", u"//" ++ (host ++ po) ++ p ++ q ++ f)).
{ unfold s. rewrite <- app_assoc. exact (split_scheme_plain sch _ Hsch). }
assert (Hpo : ascii_str (host ++ po) = true).
{ unfold s in Ha. rewrite !ascii_app in Ha. bool_prop. rewrite ascii_app.
  by apply andb_true_iff. }
rewrite Hsp, split_netloc_plain; [|by apply net_not_end|apply elem_of_tails; eauto 8].
rewrite no_brackets by (by apply net_char_not). cbn [negb].
destruct (split_tail p q f Hpp Hq Hf) as [-> ->].
unfold netloc_chars_ok. by rewrite Hpo.
Qed.

Lemma endpoint_accepted s host :
ascii_str s = true -> endpoint_text_ok s = true -> plain_endpoint s host ->
endpoint_host (VStr s) = Ok (py_lower host).
Proof.
intros Ha Ht (sch & po & tail & Hs & Hsch & Hne & Hh & Hp & Htl).
destruct (proj1 (elem_of_tails tail) Htl) as (p & q & f & -> & Hpp & Hq & Hf).
destruct (partition_port host po Hh Hp) as (sep & text & Hpart & Hpc & Htext).
unfold endpoint_host. rewrite Ht. cbn [negb]. unfold split_endpoint.
assert (Hu : urlsplit s = Ok (SplitResult (u"https") (host ++ po) p [] [])).
{ rewrite Hs in *. by apply urlsplit_plain. }
rewrite Hu. set (parsed := SplitResult _ _ _ _ _).
destruct (net_parts (host ++ po)) as (h' & sep' & text' & Hp' & Hparts);
  [by apply net_char_not..|].
rewrite Hpart in Hp'. injection Hp' as <- <- <-.
destruct (Hparts (u"https") p [] []) as [Hi Hinfo]. fold parsed in Hi, Hinfo.
destruct (proj2 (port_443_exact parsed _ _ Hinfo) Htext) as (n & Hn & Hn').
rewrite Hn. cbn [catch].
assert (Hname : hostname parsed = Some (lower_host host)).
{ unfold hostname. rewrite Hinfo. cbn [fst]. by destruct host. }
assert (Hah : ascii_str host = true).
{ rewrite Hs, !ascii_app in Ha. by bool_prop. }
pose proof (lower_host_ascii host Hah) as Hlow.
pose proof (lower_host_nonempty host Hah Hne) as Hne'.
unfold endpoint_parts_ok. rewrite Hname, Hi. cbn [fst snd].
destruct (lower_host host) as [|x l]; [done|].
rewrite !bool_decide_true by done. cbn [andb negb]. by rewrite Hlow.
Qed.

(** The result of [urlsplit], for a text without brackets. *)
Lemma urlsplit_https s parsed :
endpoint_text_ok s = true -> urlsplit s = Ok parsed -> scheme parsed = u"https" ->
netloc parsed <> [] -> query parsed = [] -> fragment parsed = [] -> path parsed ∈ [[]; u"/"] ->
exists sch tail, s = sch ++ u"://" ++ netloc parsed ++ tail /\ py_lower sch = u"https" /\
  Forall (fun c => is_netloc_end c = false) (netloc parsed) /\ tail ∈ ENDPOINT_TAILS.
Proof.
intros Ht. unfold urlsplit. rewrite clean_url_id by done.
destruct (split_scheme s) as [sch0 rest] eqn:Es. destruct (split_netloc rest) as [net tail] eqn:En.
destruct (negb (brackets_ok net)); [done|].
destruct (partition_on 35 tail) as [[u1 s1] fr] eqn:E1.
destruct (partition_on 63 u1) as [[pa s2] qu] eqn:E2.
destruct (negb (netloc_chars_ok net)); [done|]. intros <-%Ok_inj. cbn. intros -> Hne -> -> Hpa.
apply split_scheme_https in Es as (sch & -> & Hsch).
apply split_netloc_sound in En as [-> Hn]; [|done].
apply partition_on_join in E1 as (-> & Hf & _). apply partition_on_join in E2 as (-> & Hq & _).
exists sch, (((pa ++ s2 ++ []) ++ s1 ++ [])). split_and!; [done..|].
apply elem_of_tails. exists pa, s2, s1. rewrite !app_nil_r, <- app_assoc. done.
Qed.

Lemma endpoint_sound s h :
ascii_str s = true -> (91 ∉ s) -> (93 ∉ s) -> endpoint_host (VStr s) = Ok h ->
endpoint_text_ok s = true /\ exists host, plain_endpoint s host /\ h = py_lower host.
Proof.
intros Ha H91 H93. unfold endpoint_host. destruct (endpoint_text_ok s) eqn:Ht; [|done].
cbn [negb]. destruct (split_endpoint s) as [[parsed n]|] eqn:Es; [|done].
destruct (endpoint_parts_ok parsed n) eqn:Ep; [|done]. cbn [negb]. intros Hh. split; [done|].
unfold split_endpoint in Es. rewrite catch_reraise in Es.
destruct (urlsplit s) as [parsed'|] eqn:Eu; [|done].
destruct (port parsed') as [n'|] eqn:Epo; [|done]. apply Ok_inj, pair_equal_spec in Es as [-> ->].
unfold endpoint_parts_ok in Ep. rewrite !andb_true_iff, !bool_decide_eq_true in Ep.
destruct Ep as [[[[[[[Hsch Hname] Hu] _] Hq] Hf] Hp] Hn].
assert (Hne : netloc parsed <> []).
{ intros Hnil. revert Hname. unfold hostname, hostinfo. by rewrite Hnil. }
destruct (urlsplit_https s parsed) as (sch & tail & Hs & Hsch' & Hend & Htail); try done.
assert (Hin : forall c, (c ∉ s) -> (c ∉ netloc parsed)).
{ intros c. rewrite Hs, !not_elem_of_app. tauto. }
assert (H64 : 64 ∉ netloc parsed).
{ intros Hc. unfold userinfo in Hu. destruct (rpartition_on_present _ _ Hc) as (a & r & E).
  rewrite E in Hu. by destruct (partition_on 58 a) as [[? []] ?]. }
destruct (net_parts (netloc parsed)) as (host & sep & text & Hpart & Hparts); [by auto..|].
destruct (Hparts (scheme parsed) (path parsed) (query parsed) (fragment parsed)) as [_ Hinfo].
assert (Hinfo' : hostinfo parsed = (host, text)) by (by destruct parsed).
pose proof (proj1 (port_443_exact parsed _ _ Hinfo') (ex_intro _ n (conj Epo Hn))) as Htext.
unfold hostname in Hname, Hh. rewrite Hinfo' in Hname, Hh. cbn [fst] in Hname, Hh.
pose proof (host_chars _ _ _ _ Hpart Hend H64 (Hin _ H91) (Hin _ H93)) as Hhc.
pose proof (partition_on_join _ _ _ _ _ Hpart) as (Hjoin & Hsep & _ & Hempty).
exists host. split.
- exists sch, (sep ++ text), tail. rewrite Hs, Hjoin, <- !app_assoc.
  split_and!; try done; [by intros ->|].
  rewrite !elem_of_cons, elem_of_nil in Hsep. destruct Hsep as [->|[->|[]]].
  + left. by rewrite Hempty.
  + right. by exists text.
- destruct host as [|c host]; [done|]. apply Ok_inj in Hh. rewrite <- Hh.
  apply lower_host_ascii. rewrite Hs, Hjoin, !ascii_app in Ha. by bool_prop.
Qed.

(** A Konnect endpoint is accepted exactly when it is [https] followed by a
  host without user information, an optional port 443, and at most the root
  path with empty query and fragment; the result is the host in lower case
  (for ASCII texts without an address in brackets). *)
Theorem endpoint_host_exact s h :
ascii_str s = true -> (91 ∉ s) -> (93 ∉ s) ->
endpoint_host (VStr s) = Ok h <->
endpoint_text_ok s = true /\ exists host, plain_endpoint s host /\ h = py_lower host.
Proof.
intros Ha H91 H93. split; [by apply endpoint_sound|].
intros [Ht (host & Hp & ->)]. by apply endpoint_accepted.
Qed.
End endpoint.

(** ** Lemmas: the target manifest *)

Lemma members_are_keys (d : pydict) names :
  members_are (map (fun kv => VStr (fst kv)) d) names = keys_are d names.
Proof.
  apply eq_bool_prop_intro. rewrite !Is_true_true. unfold members_are, keys_are.
  rewrite andb_true_iff, same_set_true, !forallb_forall. setoid_rewrite existsb_exists.
  setoid_rewrite in_map_iff. setoid_rewrite <- list_elem_of_In. split.
  - intros [H1 H2] x. split; intros Hx.
    + apply list_elem_of_fmap in Hx as ([k v] & -> & Hx).
      apply (bool_decide_eq_true_1 _ (H1 (VStr k) (ex_intro _ (k, v) (conj eq_refl Hx)))).
    + destruct (H2 x Hx) as (v & ([k w] & <- & Hin) & Hv). cbn in Hv. bool_prop. subst k.
      apply list_elem_of_fmap. by exists (x, w).
  - intros H. split.
    + intros x ([k v] & <- & Hin). cbn. apply bool_decide_eq_true_2, H, list_elem_of_fmap.
      by exists (k, v).
    + intros n Hn. apply H, list_elem_of_fmap in Hn as ([k v] & -> & Hin).
      exists (VStr k). split; [by exists (k, v)|]. by apply bool_decide_eq_true_2.
Qed.

Lemma val_set_is_dict d names : val_set_is (VDict d) names = Ok (keys_are d names).
Proof.
  unfold val_set_is, val_set. cbn [val_iter].
  assert (Hh : forallb hashable (map (fun kv : pystr * pyval => VStr (fst kv)) d) = true).
  { apply forallb_Forall, Forall_forall. by intros x (kv & -> & _)%list_elem_of_fmap. }
  rewrite Hh. by rewrite members_are_keys.
Qed.

Lemma keys_are_lookup (d : pydict) names k :
  keys_are d names = true -> k ∈ names -> exists v, alookup k d = Some v.
Proof. unfold keys_are. rewrite same_set_true. intros H Hk. by apply alookup_is_Some, H. Qed.

Lemma uuid_nonblank s : is_uuid s -> py_strip s <> [].
Proof.
  intros (h & Hl & Hh & ->). destruct (dashed_groups h Hl) as (a & b & c & d & e & Hab & -> & La & _).
  unfold py_strip. rewrite strip_while_id.
  - destruct a; [done|]. by unfold dashed5.
  - apply Forall_forall. intros x [->|Hx]%elem_of_dashed5; [done|].
    rewrite <- Hab in Hx. unfold all_hex in Hh. rewrite Forall_forall in Hh.
    by apply hex_not_space, Hh.
Qed.

Section target.
Context `{Unicode}.

(** An acceptable entry of the manifest, with its identifier, name and hosts. *)
Record target_accepted (expected_names : list (pystr * pystr)) (gateway : pystr) (d : pydict)
  (id name cp_host tp_host : pystr) : Prop := {
ta_fields : keys_are d TARGET_FIELDS = true;
ta_id : dict_get d (u"control_plane_id") = VStr id;
ta_name : dict_get d (u"control_plane_name") = VStr name;
ta_uuid : is_uuid id;
ta_nonblank : py_strip name <> [];
ta_expected : expected_names = [] \/ alookup gateway expected_names = Some name;
ta_endpoint : endpoint_host (dict_get d (u"control_plane_endpoint")) = Ok cp_host;
ta_telemetry : endpoint_host (dict_get d (u"telemetry_endpoint")) = Ok tp_host;
ta_distinct : cp_host <> tp_host
}.

Definition with_hosts (d : pydict) (cp_host tp_host : pystr) : pyval :=
VDict (ainsert (u"telemetry_host") (VStr tp_host)
         (ainsert (u"control_plane_host") (VStr cp_host) d)).

Lemma check_expected_name_ok names gateway name :
check_expected_name names gateway name = Ok tt <->
names = [] \/ alookup gateway names = Some name.
Proof.
unfold check_expected_name. destruct names as [|p names]; [split; [by left|done]|].
destruct (alookup gateway (p :: names)) as [n|] eqn:E.
- case_bool_decide; subst; cbn; naive_solver.
- naive_solver.
Qed.

Lemma validate_target_exact targets names st gateway st' :
validate_target targets names st gateway = Ok st' <->
exists d id name h1 h2, val_item targets gateway = Ok (VDict d) /\
  target_accepted names gateway d id name h1 h2 /\
  (id ∉ seen_ids st) /\ (name ∉ seen_names st) /\
  st' = TargetState (name :: seen_names st) (id :: seen_ids st)
          (ainsert gateway (with_hosts d h1 h2) (normalized st)).
Proof.
unfold validate_target. split.
- destruct (val_item targets gateway) as [[| | | | | |d]|]; try done.
  destruct (keys_are d TARGET_FIELDS) eqn:Ek; [|done]. cbn [negb].
  destruct (dict_item d (u"control_plane_id")) as [[| | | |id| |]|] eqn:Ei; try done;
    destruct (dict_item d (u"control_plane_name")) as [[| | | |name| |]|] eqn:En; try done.
  destruct (nonblank (VStr id) && nonblank (VStr name)) eqn:Eb; [|done]. cbn [negb].
  destruct (check_uuid gateway id) as [[]|] eqn:Eu; [|done].
  case_bool_decide as Hid; [done|]. case_bool_decide as Hname; [done|].
  destruct (check_expected_name names gateway name) as [[]|] eqn:Ee; [|done].
  destruct (endpoint_host (dict_get d (u"control_plane_endpoint"))) as [h1|] eqn:E1; [|done].
  destruct (endpoint_host (dict_get d (u"telemetry_endpoint"))) as [h2|] eqn:E2; [|done].
  case_bool_decide as Hne; [done|]. intros <-%Ok_inj.
  exists d, id, name, h1, h2. split; [done|]. split; [|done].
  bool_prop. unfold dict_item, res_of_option in Ei, En.
  split; try done.
  + unfold dict_get. destruct (alookup _ d); [by apply Ok_inj in Ei|done].
  + unfold dict_get. destruct (alookup (u"control_plane_name") d); [by apply Ok_inj in En|done].
  + by eapply check_uuid_exact.
  + match goal with H : nonblank (VStr name) = true |- _ => unfold nonblank in H; by bool_prop end.
  + by apply check_expected_name_ok.
- intros (d & id & name & h1 & h2 & -> & [Hk Hi Hn Hu Hb He H1 H2 Hd] & Hid & Hname & ->).
  rewrite Hk. cbn [negb]. unfold dict_item, dict_get in *.
  destruct (keys_are_lookup d _ (u"control_plane_id") Hk) as [v1 E1]; [by left|].
  destruct (keys_are_lookup d _ (u"control_plane_name") Hk) as [v2 E2]; [by right; left|].
  rewrite E1 in *. rewrite E2 in *. subst v1 v2. cbn [res_of_option].
  unfold nonblank. rewrite !bool_decide_false by (done || by apply uuid_nonblank). cbn [negb andb].
  rewrite (proj2 (check_uuid_exact gateway id) Hu), (proj2 (check_expected_name_ok _ _ _) He).
  rewrite H1, H2. by rewrite bool_decide_false.
Qed.

(** C35: The gateway target manifest is accepted exactly when it is an object
  with the two gateways, each with exactly the four fields, a canonical UUID,
  a non-blank name that is the configured one, and two acceptable endpoints on
  different hosts; identifiers and names differ between the gateways, and the
  result is the manifest with the host names added. *)
Theorem validate_targets_exact targets names r :
validate_targets targets names = Ok r <->
exists m da ida na ca ta dt idt nt ct tt,
  targets = VDict m /\ keys_are m GATEWAYS = true /\
  alookup (u"api") m = Some (VDict da) /\ alookup (u"third-party") m = Some (VDict dt) /\
  target_accepted names (u"api") da ida na ca ta /\
  target_accepted names (u"third-party") dt idt nt ct tt /\
  ida <> idt /\ na <> nt /\
  r = [(u"api", with_hosts da ca ta); (u"third-party", with_hosts dt ct tt)].
Proof.
unfold validate_targets. cbn [foldM_res GATEWAYS]. split.
- destruct (val_set_is targets GATEWAYS) as [known|] eqn:Ek; [|done].
  destruct known; [|done]. cbn [negb].
  destruct (validate_target targets names _ (u"api")) as [st1|] eqn:E1; [|done].
  destruct (validate_target targets names st1 (u"third-party")) as [st2|] eqn:E2; [|done].
  intros <-%Ok_inj.
  apply validate_target_exact in E1 as (da & ida & na & ca & ta & Ha & Hta & _ & _ & ->).
  apply validate_target_exact in E2 as (dt & idt & nt & ct & tt & Ht & Htt & Hid & Hn & ->).
  destruct targets as [| | | | | |m]; try done. rewrite val_set_is_dict in Ek. apply Ok_inj in Ek.
  cbn [val_item] in Ha, Ht. unfold dict_item, res_of_option in Ha, Ht.
  destruct (alookup (u"api") m) as [va|] eqn:Ea; [|done]. apply Ok_inj in Ha. subst va.
  destruct (alookup (u"third-party") m) as [vt|] eqn:Et; [|done]. apply Ok_inj in Ht. subst vt.
  cbn [seen_ids seen_names] in Hid, Hn. rewrite not_elem_of_cons in Hid, Hn.
  exists m, da, ida, na, ca, ta, dt, idt, nt, ct, tt.
  split_and!; try done; naive_solver.
- intros (m & da & ida & na & ca & ta & dt & idt & nt & ct & tt & -> & Hk & Ea & Et & Ha & Ht
          & Hid & Hn & ->).
  rewrite val_set_is_dict, Hk. cbn [negb].
  rewrite (proj2 (validate_target_exact (VDict m) names (TargetState [] [] []) (u"api")
    (TargetState [na] [ida] [(u"api", with_hosts da ca ta)]))).
  2:{ exists da, ida, na, ca, ta. cbn [val_item]. unfold dict_item. rewrite Ea.
      split_and!; try done; apply not_elem_of_nil. }
  rewrite (proj2 (validate_target_exact (VDict m) names
    (TargetState [na] [ida] [(u"api", with_hosts da ca ta)]) (u"third-party")
    (TargetState [nt; na] [idt; ida]
       [(u"api", with_hosts da ca ta); (u"third-party", with_hosts dt ct tt)]))); [done|].
  exists dt, idt, nt, ct, tt. cbn [val_item]. unfold dict_item. rewrite Et.
  split_and!; try done; cbn; rewrite list_elem_of_singleton; congruence.
Qed.
End target.

(** ** A concrete instance *)

Module Wp1Sample.
#[export] Instance ascii_unicode : Unicode := {| nfkc := fun s => s; uni_lower := py_lower |}.
#[export] Instance ascii_unicode_laws : UnicodeLaws.
Proof. constructor. intros s _. reflexivity. Defined.

Definition target (id name endpoint telemetry : string) : pyval :=
VDict [(u"control_plane_id", jstr id); (u"control_plane_name", jstr name);
       (u"control_plane_endpoint", jstr endpoint); (u"telemetry_endpoint", jstr telemetry)].

Definition manifest (id1 id2 : string) : pyval :=
VDict [(u"api", target id1 "api-plane" "https://cp1.example.com" "https://tp1.example.com:443/");
       (u"third-party", target id2 "tp-plane" "https://cp2.example.com" "https://tp2.example.com")].

Definition names : list (pystr * pystr) :=
[(u"api", u"api-plane"); (u"third-party", u"tp-plane")].

Example manifest_accepted :
is_ok (validate_targets (manifest "0f45debe-a3a6-5207-aea3-637227fb96f2"
                           "754519ff-b0b9-5ed5-94c0-e453d260c6c4") names) = true.
Proof. vm_compute. reflexivity. Qed.

Example manifest_same_id :
validate_targets (manifest "0f45debe-a3a6-5207-aea3-637227fb96f2"
                    "0f45debe-a3a6-5207-aea3-637227fb96f2") names =
raise ValueError "API and third-party control plane IDs must differ".
Proof. vm_compute. reflexivity. Qed.

(** The identifiers are compared as texts: the same UUID in other letters is
  taken for another control plane. *)
Example manifest_same_plane_accepted :
uuid_text (u"0F45DEBE-a3a6-5207-aea3-637227fb96f2") =
  uuid_text (u"0f45debe-a3a6-5207-aea3-637227fb96f2") /\
is_ok (validate_targets (manifest "0f45debe-a3a6-5207-aea3-637227fb96f2"
                           "0F45DEBE-a3a6-5207-aea3-637227fb96f2") names) = true.
Proof. vm_compute. auto. Qed.

End Wp1Sample.

Import Wp1Sample.

Lemma endpoint_host_exact_witness :
  ascii_str (u"https://Konnect.example:443/") = true /\
  (endpoint_host (VStr (u"https://Konnect.example:443/")) = Ok (u"konnect.example") <->
   endpoint_text_ok (u"https://Konnect.example:443/") = true /\
   exists host, plain_endpoint (u"https://Konnect.example:443/") host /\
                u"konnect.example" = py_lower host).
Proof.
  split; [by vm_compute|].
  apply (endpoint_host_exact (u"https://Konnect.example:443/") (u"konnect.example"));
    [by vm_compute|apply (bool_decide_unpack _); by vm_compute..].
Defined.
