(* ===== verification/Schemas.v ===== *)
(** The custom plugin schemas of [src/scripts/wp1.py]: the hash of a source, the
    comparison of two inventories and the collection of the paginated list. *)
From S2P Require Export Wp1.

Local Open Scope Z_scope.

(** ** Schema sources and their hashes *)

Definition normalize_schema (source : pyval) : res pystr :=
  match source with
  | VStr (c :: s) =>
      let source := replace_sub [13; 10] [10] (c :: s) in
      Ok (if ends_with [10] source then removelast source else source)
  | _ => raise ValueError "schema Lua must be a non-empty string"
  end.

Definition schema_hash (source : pyval) : res pystr :=
  let* text := normalize_schema source in
  match utf8_encode text with
  | Some b => Ok (hexlify (sha256 b))
  | None => raise UnicodeError "surrogates not allowed"
  end.

(** Schema inventories: name and source of every entry. *)
Abbreviation inventory := (list (pystr * pystr)).

(** [expected[name]] for a name of the inventory *)
Definition inv_item (inv : inventory) (name : pystr) : res pystr :=
  res_of_option (Exn KeyError name) (alookup name inv).

(** [result[name]]: the expected and the observed hash. *)
Abbreviation hash_report := (list (pystr * (pystr * pystr))).

Definition compare_schema (expected observed : inventory) (result : hash_report) (name : pystr)
    : res hash_report :=
  let* want_source := inv_item expected name in
  let* want := schema_hash (VStr want_source) in
  let* got_source := inv_item observed name in
  let* got := schema_hash (VStr got_source) in
  if negb (bool_decide (want = got))
  then Err (Exn ValueError (u"schema drift for " ++ name ++ u": expected " ++ want
                             ++ u", observed " ++ got))
  else Ok (ainsert name (want, got) result).

Definition compare_schema_hashes (expected observed : inventory) : res hash_report :=
  if negb (same_set expected.*1 observed.*1)
  then raise ValueError "schema inventory is incomplete or contains unexpected entries"
  else foldM_res (compare_schema expected observed) (py_sort str_leb expected.*1) [].

(** ** Collecting the pages of the schema list *)

Record collect_state := CollectState {
  found : inventory; expected_total : option Z; seen_cursors : list pystr
}.

Definition collect_item (found : inventory) (item : pyval) : res inventory :=
  match item with
  | VDict d =>
      match dict_get d (u"name"), dict_get d (u"lua_schema") with
      | VStr (c :: name), VStr (e :: source) =>
          if bool_decide (c :: name ∈ found.*1)
          then Err (Exn ValueError (u"duplicate schema entry: " ++ (c :: name)))
          else Ok (ainsert (c :: name) (e :: source) found)
      | _, _ => raise ValueError "schema list item is missing name or original lua_schema"
      end
  | _ => raise ValueError "schema list item is malformed"
  end.

(** The checks of the pagination after the items of a page: [final] says that
    it is the last page of the sequence. *)
Definition check_progress (final has_next : bool) (count total : Z) (cursor request_cursor : pyval)
    (seen : list pystr) (items : list pyval) : res (list pystr) :=
  if has_next && final then raise ValueError "schema pagination is incomplete"
  else if negb has_next && negb final
  then raise ValueError "schema pages continue after total_count was reached"
  else if has_next && (total <=? count)
  then raise ValueError "schema pagination continues past page.total_count"
  else if has_next
          && match cursor with VStr c => bool_decide (c ∈ seen) | _ => false end
  then raise ValueError "schema pagination cursor repeated"
  else if has_next && py_eq request_cursor cursor
  then raise ValueError "schema page cursor did not advance"
  else
    let seen := match has_next, cursor with true, VStr c => c :: seen | _, _ => seen end in
    if has_next && match items with [] => true | _ => false end
    then raise ValueError "schema pagination made no progress"
    else Ok seen.

Definition collect_page (count_pages : nat) (st : collect_state) (ip : nat * pyval)
    : res collect_state :=
  let '(index, page) := ip in
  match page with
  | VDict p =>
      match dict_get p (u"items") with
      | VList items =>
          match dict_get p (u"page") with
          | VDict meta =>
              match dict_get meta (u"total_count") with
              | VInt total =>
                  if total <? 0 then raise ValueError "schema page is missing page.total_count"
                  else
                    match dict_get meta (u"has_next_page") with
                    | VBool has_next =>
                        let cursor := dict_get meta (u"next_cursor") in
                        if has_next && negb (nonblank cursor)
                        then raise ValueError "schema page next_cursor is missing or malformed"
                        else if negb (match expected_total st with
                                      | None => true
                                      | Some t => total =? t
                                      end)
                        then raise ValueError
                               "schema page total_count changed during pagination"
                        else
                          let* found := foldM_res collect_item items (found st) in
                          let* seen := check_progress (index =? count_pages - 1)%nat has_next
                                         (Z.of_nat (length found)) total cursor
                                         (dict_get p (u"request_cursor")) (seen_cursors st)
                                         items in
                          Ok (CollectState found (Some total) seen)
                    | _ => raise ValueError "schema page has_next_page is malformed"
                    end
              | _ => raise ValueError "schema page is missing page.total_count"
              end
          | _ => raise ValueError "schema page is missing page.total_count"
          end
      | _ => raise ValueError "schema page is missing items"
      end
  | _ => raise ValueError "schema page is missing items"
  end.

(** [expected_names] is a set, so the order of the result has no meaning. *)
Definition collect_schema_pages (pages : list pyval) (expected_names : list pystr)
    : res inventory :=
  let* st := foldM_res (collect_page (length pages)) (enumerate pages)
               (CollectState [] None []) in
  if negb (bool_decide (expected_total st = Some (Z.of_nat (length (found st)))))
  then raise ValueError "schema pagination item count does not match page.total_count"
  else
    match List.filter (fun n => negb (bool_decide (n ∈ (found st).*1))) expected_names with
    | [] => mapM_res (fun n => let* s := inv_item (found st) n in Ok (n, s)) expected_names
    | missing => Err (Exn ValueError (u"missing schema: "
                                       ++ Json.join (u", ") (py_sort str_leb missing)))
    end.

(** ** Lemmas: schema hashes *)

Definition normal_text (s : pystr) : pystr :=
  let t := replace_sub [13; 10] [10] s in if ends_with [10] t then removelast t else t.

Lemma normalize_schema_text s : s <> [] -> normalize_schema (VStr s) = Ok (normal_text s).
Proof. by destruct s. Qed.

(** The text with every line feed written as carriage return and line feed. *)
Definition crlf (s : pystr) : pystr := flat_map (fun c => if c =? 10 then [13; 10] else [c]) s.

Lemma replace_crlf s : (13 ∉ s) -> replace_sub [13; 10] [10] (crlf s) = s.
Proof.
  unfold replace_sub. induction s as [|c s IH]; [done|]. rewrite not_elem_of_cons.
  intros [Hc Hs]. unfold crlf. cbn [flat_map]. destruct (c =? 10) eqn:E; bool_prop.
  - subst c. cbn. f_equal. by apply IH.
  - cbn. rewrite bool_decide_false by done. cbn. f_equal. by apply IH.
Qed.

Lemma replace_absent s : (13 ∉ s) -> replace_sub [13; 10] [10] s = s.
Proof. intros Hs. apply (replace_sub_absent 13); [by left|done]. Qed.

(** The schema hash does not depend on line endings: a source without
    carriage returns has the hash of its variant with carriage returns, and of
    the source with a final line feed added when it has none. *)
Theorem schema_hash_line_endings s :
  s <> [] -> (13 ∉ s) ->
  schema_hash (VStr (crlf s)) = schema_hash (VStr s) /\
  (ends_with [10] s = false -> schema_hash (VStr (s ++ [10])) = schema_hash (VStr s)).
Proof.
  intros Hne Hs. unfold schema_hash. rewrite (normalize_schema_text s Hne). split.
  - rewrite normalize_schema_text.
    + unfold normal_text. by rewrite replace_crlf, replace_absent.
    + destruct s as [|c s]; [done|]. unfold crlf. cbn. by destruct (c =? 10).
  - intros He. rewrite normalize_schema_text by (by destruct s). unfold normal_text.
    rewrite !replace_absent.
    + rewrite He. rewrite (proj2 (ends_with_spec [10] (s ++ [10]))) by (by exists s).
      by rewrite removelast_last.
    + done.
    + rewrite not_elem_of_app. split; [done|]. by rewrite list_elem_of_singleton.
Qed.

(** The names of the inventories agree and every pair of hashes does. *)
Definition hashes_agree (expected observed : inventory) (name want : pystr) : Prop :=
  exists e o, alookup name expected = Some e /\ alookup name observed = Some o /\
    schema_hash (VStr e) = Ok want /\ schema_hash (VStr o) = Ok want.

Lemma compare_schema_ok expected observed result name result' :
  compare_schema expected observed result name = Ok result' <->
  exists want, hashes_agree expected observed name want /\
    result' = ainsert name (want, want) result.
Proof.
  unfold compare_schema, inv_item, hashes_agree, res_of_option. split.
  - destruct (alookup name expected) as [e|]; [|done].
    destruct (schema_hash (VStr e)) as [want|] eqn:Ew; [|done].
    destruct (alookup name observed) as [o|]; [|done].
    destruct (schema_hash (VStr o)) as [got|] eqn:Eg; [|done].
    case_bool_decide as Hw; [|done]. intros <-%Ok_inj. subst. exists got. split; [|done].
    by exists e, o.
  - intros (want & (e & o & -> & -> & -> & ->) & ->). by rewrite bool_decide_true.
Qed.

Lemma compare_loop expected observed names result r :
  NoDup (result.*1 ++ names) ->
  foldM_res (compare_schema expected observed) names result = Ok r <->
  exists hs, Forall2 (hashes_agree expected observed) names hs /\
    r = result ++ zip names (zip hs hs).
Proof.
  revert result. induction names as [|n names IH]; intros result Hnd; cbn [foldM_res].
  - split; [intros <-%Ok_inj; exists []; by rewrite app_nil_r|].
    intros (hs & H & ->). inversion H. cbn. by rewrite app_nil_r.
  - assert (Hn : n ∉ result.*1).
    { apply NoDup_app in Hnd as (_ & H & _). intros Hin. apply (H n Hin). by left. }
    split.
    + destruct (compare_schema _ _ _ _) as [r1|] eqn:E; [|done].
      apply compare_schema_ok in E as (want & Hw & ->). rewrite ainsert_new by done.
      intros (hs & Hhs & ->)%IH; [|by rewrite fmap_app, <- app_assoc].
      exists (want :: hs). split; [by constructor|]. by rewrite <- app_assoc.
    + intros (hs & Hhs & ->). inversion Hhs as [|? want ? hs' Hw Hrest]; subst.
      rewrite (proj2 (compare_schema_ok _ _ _ _ _) (ex_intro _ want (conj Hw eq_refl))).
      rewrite ainsert_new by done. apply IH; [by rewrite fmap_app, <- app_assoc|].
      exists hs'. split; [done|]. by rewrite <- app_assoc.
Qed.

(** Two inventories compare as equal exactly when they have the same names
    and each pair of sources has the same hash; the report gives that hash, in
    the order of the names. *)
Theorem compare_schema_hashes_exact expected observed r :
  NoDup expected.*1 ->
  compare_schema_hashes expected observed = Ok r <->
  same_set expected.*1 observed.*1 = true /\
  exists hs, Forall2 (hashes_agree expected observed) (py_sort str_leb expected.*1) hs /\
    r = zip (py_sort str_leb expected.*1) (zip hs hs).
Proof.
  intros Hnd. unfold compare_schema_hashes. destruct (same_set _ _); cbn [negb].
  - rewrite compare_loop; [naive_solver|]. cbn. by rewrite py_sort_perm.
  - naive_solver.
Qed.

(** ** Lemmas: collecting pages *)

(** A page as the collector reads it. *)
Record page_view := PageView {
  pv_items : list pyval; pv_total : Z; pv_next : option pystr; pv_request : pyval
}.

(** [v] reads the page: its items, total and request cursor, and the next
    cursor when there is a next page. *)
Definition views (page : pyval) (v : page_view) : Prop :=
  exists p meta has_next, page = VDict p /\ dict_get p (u"items") = VList (pv_items v) /\
    dict_get p (u"page") = VDict meta /\ dict_get meta (u"total_count") = VInt (pv_total v) /\
    0 <= pv_total v /\ dict_get meta (u"has_next_page") = VBool has_next /\
    dict_get p (u"request_cursor") = pv_request v /\
    if has_next
    then exists c, dict_get meta (u"next_cursor") = VStr c /\ py_strip c <> [] /\ pv_next v = Some c
    else pv_next v = None.

(** The name and the source of an item. *)
Definition reads_item (item : pyval) (entry : pystr * pystr) : Prop :=
  exists d, item = VDict d /\ dict_get d (u"name") = VStr (fst entry) /\
    dict_get d (u"lua_schema") = VStr (snd entry) /\ fst entry <> [] /\ snd entry <> [].

Lemma collect_item_ok found item found' :
  collect_item found item = Ok found' <->
  exists e, reads_item item e /\ (fst e ∉ found.*1) /\ found' = found ++ [e].
Proof.
  unfold collect_item, reads_item. split.
  - destruct item as [| | | | | |d]; try done.
    destruct (dict_get d (u"name")) as [| | | |[|c n]| |] eqn:En; try done.
    destruct (dict_get d (u"lua_schema")) as [| | | |[|x s]| |] eqn:Es; try done.
    case_bool_decide as Hn; [done|]. intros <-%Ok_inj. exists (c :: n, x :: s).
    rewrite ainsert_new by done. split; [by exists d|done].
  - intros ([n s] & (d & -> & En & Es & Hn & Hs) & Hin & ->). cbn [fst snd] in *.
    rewrite En, Es. destruct n as [|c n]; [done|]. destruct s as [|x s]; [done|].
    rewrite bool_decide_false, ainsert_new by done. done.
Qed.

Lemma collect_items_ok items found found' :
  NoDup found.*1 ->
  foldM_res collect_item items found = Ok found' <->
  exists es, Forall2 reads_item items es /\ NoDup (found ++ es).*1 /\ found' = found ++ es.
Proof.
  revert found. induction items as [|item items IH]; intros found Hnd; cbn [foldM_res].
  - split; [intros <-%Ok_inj; exists []; by rewrite app_nil_r|].
    intros (es & H & _ & ->). inversion H. by rewrite app_nil_r.
  - split.
    + destruct (collect_item found item) as [f1|] eqn:E; [|done].
      apply collect_item_ok in E as (e & He & Hn & ->).
      intros (es & Hes & Hd & ->)%IH; [exists (e :: es); rewrite <- app_assoc in *; split_and!; [by constructor|done..]|].
      rewrite fmap_app. cbn. apply NoDup_app. split_and!; [done| |apply NoDup_singleton].
      intros x Hx ->%list_elem_of_singleton. done.
    + intros (es & Hes & Hd & ->). inversion Hes as [|? e ? es' He Hes']; subst.
      assert (Hn : fst e ∉ found.*1).
      { rewrite fmap_app in Hd. apply NoDup_app in Hd as (_ & H & _). intros Hin.
        apply (H _ Hin). by left. }
      rewrite (proj2 (collect_item_ok _ _ _) (ex_intro _ e (conj He (conj Hn eq_refl)))).
      change (e :: es') with ([e] ++ es') in *. rewrite app_assoc in *. apply IH; [|by eauto].
      rewrite fmap_app in Hd. by apply NoDup_app in Hd as [? _].
Qed.

(** What the pagination checks ask of a page with a next page. *)
Definition advances (v : page_view) (seen : list pystr) (count : Z) (c : pystr) : Prop :=
  pv_next v = Some c /\ count < pv_total v /\ (c ∉ seen) /\ pv_request v <> VStr c /\
  pv_items v <> [].

Definition page_step (n index : nat) (st st' : collect_state) (v : page_view) : Prop :=
  (expected_total st = None \/ expected_total st = Some (pv_total v)) /\
  expected_total st' = Some (pv_total v) /\
  exists es, Forall2 reads_item (pv_items v) es /\ NoDup (found st ++ es).*1 /\
    found st' = found st ++ es /\
    if decide (index = n - 1)%nat
    then pv_next v = None /\ seen_cursors st' = seen_cursors st
    else exists c, advances v (seen_cursors st) (Z.of_nat (length (found st'))) c /\
           seen_cursors st' = c :: seen_cursors st.

Lemma nonblank_true v : nonblank v = true <-> exists s, v = VStr s /\ py_strip s <> [].
Proof. destruct v; cbn; rewrite ?negb_true_iff, ?bool_decide_eq_false; naive_solver. Qed.

Lemma check_progress_next final count total c request seen items seen' :
  check_progress final true count total (VStr c) request seen items = Ok seen' <->
  final = false /\ count < total /\ (c ∉ seen) /\ request <> VStr c /\ items <> [] /\
  seen' = c :: seen.
Proof.
  unfold check_progress. destruct final; cbn [andb negb]; [naive_solver|].
  destruct (total <=? count) eqn:Et; bool_prop; [split; [done|lia]|].
  case_bool_decide; [naive_solver|].
  destruct (py_eq request (VStr c)) eqn:Ee; [apply py_eq_str in Ee; naive_solver|].
  assert (request <> VStr c) by (intros H1%py_eq_str; congruence).
  destruct items; [naive_solver|]. split; [intros <-%Ok_inj; split_and!; done|].
  by intros (_ & _ & _ & _ & _ & ->).
Qed.

Lemma check_progress_last final count total cursor request seen items seen' :
  check_progress final false count total cursor request seen items = Ok seen' <->
  final = true /\ seen' = seen.
Proof. unfold check_progress. destruct final; cbn; naive_solver. Qed.

Lemma collect_page_sound n st i page st' :
  NoDup (found st).*1 -> collect_page n st (i, page) = Ok st' ->
  exists v, views page v /\ page_step n i st st' v.
Proof.
  intros Hnd. unfold collect_page.
  destruct page as [| | | | | |p]; try done.
  destruct (dict_get p (u"items")) as [| | | | |items|] eqn:Ei; try done.
  destruct (dict_get p (u"page")) as [| | | | | |meta] eqn:Em; try done.
  destruct (dict_get meta (u"total_count")) as [| |total| | | |] eqn:Et; try done.
  destruct (total <? 0) eqn:E0; [done|].
  destruct (dict_get meta (u"has_next_page")) as [|has_next| | | | |] eqn:Eh; try done. cbv zeta.
  destruct (has_next && negb (nonblank (dict_get meta (u"next_cursor")))) eqn:Ec; [done|].
  destruct (match expected_total st with Some t => total =? t | None => true end) eqn:Ex;
    [|done]. cbn [negb].
  destruct (foldM_res collect_item items (found st)) as [f1|] eqn:Ef; [|done].
  destruct (check_progress _ _ _ _ _ _ _ _) as [seen|] eqn:Es; [|done]. intros <-%Ok_inj.
  apply collect_items_ok in Ef as (es & Hes & Hd & ->); [|done].
  assert (Hexp : expected_total st = None \/ expected_total st = Some total).
  { destruct (expected_total st); [right; bool_prop; congruence|by left]. }
  bool_prop. destruct has_next.
  - cbn [andb] in Ec. apply negb_false_iff, nonblank_true in Ec as (c & Hc & Hb).
    rewrite Hc in Es. apply check_progress_next in Es as (Hf & Hlt & Hn & Hr & Hi & ->).
    exists (PageView items total (Some c) (dict_get p (u"request_cursor"))). split.
    + exists p, meta, true. cbn. split_and!; try done. by exists c.
    + split_and!; [done..|]. exists es. cbn. split_and!; [done..|]. rewrite decide_False by (by bool_prop).
      exists c. done.
  - apply check_progress_last in Es as [Hf ->].
    exists (PageView items total None (dict_get p (u"request_cursor"))). split.
    + exists p, meta, false. done.
    + split_and!; [done..|]. exists es. cbn. split_and!; [done..|]. by rewrite decide_True by (by bool_prop).
Qed.

Lemma collect_page_complete n st i page st' v :
  NoDup (found st).*1 -> views page v -> page_step n i st st' v ->
  collect_page n st (i, page) = Ok st'.
Proof.
  intros Hnd (p & meta & has_next & -> & Ei & Em & Et & H0 & Eh & Er & Hc)
    (Hexp & Hexp' & es & Hes & Hd & Hf & Hstep).
  unfold collect_page. rewrite Ei, Em, Et, (proj2 (Z.ltb_ge (pv_total v) 0) H0), Eh. cbv zeta.
  assert (Hblank : has_next && negb (nonblank (dict_get meta (u"next_cursor"))) = false).
  { destruct has_next; [|done]. destruct Hc as (c & -> & Hb & _). cbn.
    by rewrite bool_decide_false. }
  assert (Htot : match expected_total st with Some t => pv_total v =? t | None => true end = true).
  { destruct Hexp as [->| ->]; [done|]. by apply Z.eqb_eq. }
  rewrite Hblank, Htot. cbn [negb].
  rewrite (proj2 (collect_items_ok _ _ (found st ++ es) Hnd)) by eauto.
  assert (Hs : check_progress (i =? n - 1)%nat has_next (Z.of_nat (length (found st ++ es)))
            (pv_total v) (dict_get meta (u"next_cursor")) (dict_get p (u"request_cursor"))
            (seen_cursors st) (pv_items v) = Ok (seen_cursors st')).
  { destruct (decide (i = n - 1)%nat) as [Hi|Hi].
    - destruct Hstep as [Hn ->]. destruct has_next; [destruct Hc as (c & _ & _ & ?); congruence|].
      apply check_progress_last. split; [by apply Nat.eqb_eq|done].
    - destruct Hstep as (c & (Hn & Hlt & Hin & Hr & Hne) & ->).
      destruct has_next; [|congruence]. destruct Hc as (c' & -> & _ & Hc').
      rewrite Hn in Hc'. injection Hc' as <-. apply check_progress_next.
      rewrite Hf in Hlt. rewrite Er. split_and!; try done. by apply Nat.eqb_neq. }
  rewrite Hs. destruct st' as [f' e' s']. cbn in *. by subst.
Qed.

(** The remaining pages, with the totals, cursors and counts that the checks
    carry from page to page. *)
Fixpoint progress (total : Z) (count : nat) (seen : list pystr) (vs : list page_view) : Prop :=
  match vs with
  | [] => True
  | [v] => pv_next v = None
  | v :: rest =>
      exists c, advances v seen (Z.of_nat (count + length (pv_items v))) c /\
        progress total (count + length (pv_items v)) (c :: seen) rest
  end.

Lemma page_step_found n i st st' v : page_step n i st st' v -> NoDup (found st').*1.
Proof. by intros (_ & _ & es & _ & Hd & -> & _). Qed.

Fixpoint page_steps (n i : nat) (st : collect_state) (vs : list page_view)
    (st' : collect_state) : Prop :=
  match vs with
  | [] => st' = st
  | v :: rest => exists st1, page_step n i st st1 v /\ page_steps n (S i) st1 rest st'
  end.

Lemma collect_loop n pages i st st' :
  NoDup (found st).*1 ->
  foldM_res (collect_page n) (zip (seq i (length pages)) pages) st = Ok st' <->
  exists vs, Forall2 views pages vs /\ page_steps n i st vs st'.
Proof.
  revert i st. induction pages as [|page pages IH]; intros i st Hnd.
  - cbn. split; [intros <-%Ok_inj; by exists []|]. intros (vs & H & Hs). inversion H. subst.
    by cbn in Hs; subst.
  - cbn [length seq zip zip_with foldM_res]. split.
    + destruct (collect_page n st (i, page)) as [st1|] eqn:E; [|done].
      apply collect_page_sound in E as (v & Hv & Hs); [|done].
      intros (vs & Hvs & Hst)%IH; [|by eapply page_step_found].
      exists (v :: vs). split; [by constructor|]. by exists st1.
    + intros (vs & Hvs & Hst). inversion Hvs as [|? v ? vs' Hv Hvs']; subst.
      destruct Hst as (st1 & Hs & Hst).
      rewrite (collect_page_complete _ _ _ _ _ _ Hnd Hv Hs).
      apply IH; [by eapply page_step_found|by exists vs'].
Qed.

(** The state after the pages [vs], with the items [es]. *)
Definition after_pages (st : collect_state) (total : Z) (vs : list page_view)
    (es : inventory) : collect_state :=
  CollectState (found st ++ es) (Some total) (rev (omap pv_next vs) ++ seen_cursors st).

Definition pages_progress (st : collect_state) (vs : list page_view) (st' : collect_state) : Prop :=
  exists total es, (expected_total st = None \/ expected_total st = Some total) /\
    Forall (fun v => pv_total v = total) vs /\
    progress total (length (found st)) (seen_cursors st) vs /\
    Forall2 reads_item (concat (map pv_items vs)) es /\ NoDup (found st ++ es).*1 /\
    st' = after_pages st total vs es.

Lemma page_steps_last n i st v st' :
  i = (n - 1)%nat -> page_step n i st st' v <-> pages_progress st [v] st'.
Proof.
  intros Hi. unfold page_step, pages_progress, after_pages. rewrite decide_True by done.
  cbn [map concat progress omap list_omap]. rewrite app_nil_r. split.
  - intros (Hx & Hx' & es & Hes & Hd & Hf & Hn & Hs). exists (pv_total v), es. rewrite Hn.
    split_and!; try done; [by repeat constructor|]. destruct st'. cbn in *. by subst.
  - intros (total & es & Hx & Ht%Forall_inv & Hn & Hes & Hd & ->). subst total. rewrite Hn.
    split_and!; try done. by exists es.
Qed.

Lemma page_steps_progress n i st vs st' :
  n = (i + length vs)%nat -> vs <> [] ->
  page_steps n i st vs st' <-> pages_progress st vs st'.
Proof.
  revert i st. induction vs as [|v vs IH]; intros i st Hn Hne; [done|]. clear Hne.
  destruct vs as [|v2 vs].
  - rewrite <- (page_steps_last n i) by (cbn in Hn; lia). cbn. split; [by intros (? & ? & ->)|eauto].
  - cbn [page_steps] in IH |- *. cbn [length] in Hn.
    assert (Hi : i <> (n - 1)%nat) by lia.
    assert (IH' : forall st1, page_steps n (S i) st1 (v2 :: vs) st' <-> pages_progress st1 (v2 :: vs) st')
      by (intros st1; apply IH; cbn [length]; [lia|done]).
    clear IH. split.
    + intros (st1 & (Hx & Hx' & es & Hes & Hd & Hf & Hs) & Hrest).
      rewrite decide_False in Hs by done. destruct Hs as (c & Hadv & Hseen).
      apply IH' in Hrest as (total & es' & Ht & Htot & Hp & Hes' & Hd' & ->).
      assert (total = pv_total v) as -> by (rewrite Hx' in Ht; destruct Ht; congruence).
      exists (pv_total v), (es ++ es'). unfold after_pages.
      rewrite Hf, Hseen in *. rewrite <- app_assoc in Hd'.
      rewrite length_app in Hp, Hadv. pose proof (Forall2_length _ _ _ Hes) as Hl. rewrite <- Hl in *.
      split_and!; try done; [by constructor|by exists c|by apply Forall2_app|].
      change (omap pv_next (v :: v2 :: vs)) with
        (match pv_next v with Some y => y :: omap pv_next (v2 :: vs) | None => omap pv_next (v2 :: vs) end).
      destruct Hadv as [-> _]. cbn [rev]. by rewrite <- !app_assoc.
    + intros (total & es & Hx & [Hv Htot]%Forall_cons & (c & Hadv & Hp) & Hes & Hd & ->).
      cbn [map concat] in Hes. apply Forall2_app_inv_l in Hes as (e1 & e2 & He1 & He2 & ->).
      pose proof (Forall2_length _ _ _ He1) as Hl. subst total.
      exists (CollectState (found st ++ e1) (Some (pv_total v)) (c :: seen_cursors st)). split.
      * split_and!; try done. exists e1. cbn. split_and!; try done.
        -- rewrite app_assoc, fmap_app in Hd. by apply NoDup_app in Hd as [? _].
        -- rewrite decide_False by done. exists c. by rewrite length_app, <- Hl.
      * apply IH'. exists (pv_total v), e2. cbn [found expected_total seen_cursors].
        split_and!; try done; [by right|by rewrite length_app, <- Hl|by rewrite <- app_assoc|].
        unfold after_pages. cbn [found seen_cursors].
        change (omap pv_next (v :: v2 :: vs)) with
          (match pv_next v with Some y => y :: omap pv_next (v2 :: vs) | None => omap pv_next (v2 :: vs) end).
        destruct Hadv as [-> _]. cbn [rev]. by rewrite <- !app_assoc.
Qed.

(** A page that announces another one: it is not empty and its next cursor is
    not the one it was requested with. *)
Definition linked (v : page_view) : Prop :=
  exists c, pv_next v = Some c /\ pv_request v <> VStr c /\ pv_items v <> [].

(** A complete sequence of pages: every page but the last announces another one
    with a cursor of its own, and the last of several pages is not empty. *)
Definition pages_complete (vs : list page_view) : Prop :=
  exists front final, vs = front ++ [final] /\ pv_next final = None /\ Forall linked front /\
    NoDup (omap pv_next front) /\ (front <> [] -> pv_items final <> []).

Definition items_count (vs : list page_view) : nat := length (concat (map pv_items vs)).

Lemma items_count_cons v vs : items_count (v :: vs) = (length (pv_items v) + items_count vs)%nat.
Proof. unfold items_count. cbn. by rewrite length_app. Qed.

Lemma linked_items front final :
  Forall linked front -> (front = [] -> pv_items final <> []) ->
  (0 < items_count (front ++ [final]))%nat.
Proof.
  intros Hl Hf. destruct Hl as [|v front (c & _ & _ & Hv) _].
  - specialize (Hf eq_refl). cbn [app]. rewrite items_count_cons. destruct (pv_items final); [done|cbn; lia].
  - cbn [app]. rewrite items_count_cons. destruct (pv_items v); [done|cbn; lia].
Qed.

Lemma progress_complete total count seen front final :
  total = Z.of_nat (count + items_count (front ++ [final])) ->
  progress total count seen (front ++ [final]) /\ Forall (fun v => pv_total v = total) front <->
  pv_next final = None /\ Forall linked front /\ NoDup (omap pv_next front) /\
  (forall c, c ∈ omap pv_next front -> (c ∉ seen)) /\ (front <> [] -> pv_items final <> []) /\
  Forall (fun v => pv_total v = total) front.
Proof.
  intros Htot. revert count seen Htot. induction front as [|v front IH]; intros count seen Htot.
  - cbn. split; [|naive_solver]. intros [H _]. split_and!; try done; [constructor|].
    by intros c ?%elem_of_nil.
  - assert (Hcons : exists w ws, front ++ [final] = w :: ws) by (destruct front; cbn; eauto).
    destruct Hcons as (w & ws & Hw). cbn [app] in *. rewrite items_count_cons in Htot.
    assert (Hp : progress total count seen (v :: front ++ [final]) <->
      exists c, advances v seen (Z.of_nat (count + length (pv_items v))) c /\
        progress total (count + length (pv_items v)) (c :: seen) (front ++ [final]))
      by (by rewrite Hw).
    rewrite Hp. clear Hp. specialize (IH (count + length (pv_items v))%nat).
    assert (Hom : forall c, pv_next v = Some c -> omap pv_next (v :: front) = c :: omap pv_next front)
      by (intros c Hc; cbn; by rewrite Hc).
    split.
    + intros [(c & Hadv & Hrest) [Hv Hall]%Forall_cons].
      destruct (proj1 (IH (c :: seen) ltac:(lia)) (conj Hrest Hall)) as (Hn & Hl & Hd & Hs & Hf & _).
      destruct Hadv as (Hc & Hlt & Hcs & Hr & Hi). rewrite (Hom c Hc). split_and!; try done.
      * constructor; [by exists c|done].
      * constructor; [|done]. intros Hin. apply (Hs c Hin). by left.
      * intros c' [->|Hin]%elem_of_cons; [done|]. intros Hin'. apply (Hs c' Hin). by right.
      * intros _. destruct front as [|v' front']; [|by apply Hf].
        rewrite Hv, Htot in Hlt. cbn [app] in Hlt. rewrite items_count_cons in Hlt.
        change (items_count []) with 0%nat in Hlt. destruct (pv_items final); [cbn in Hlt; lia|done].
      * by constructor.
    + intros (Hn & [(c & Hc & Hr & Hi) Hl]%Forall_cons & Hd & Hs & Hf & [Hv Hall]%Forall_cons).
      rewrite (Hom c Hc) in Hd, Hs. apply NoDup_cons in Hd as [Hcn Hd].
      specialize (Hf ltac:(done)). split; [|by constructor]. exists c. split.
      * pose proof (linked_items front final Hl (fun _ => Hf)).
        split_and!; try done; [lia|apply Hs; by left].
      * refine (proj1 (proj2 (IH (c :: seen) ltac:(lia)) _)). split_and!; try done.
        intros c' Hin. rewrite not_elem_of_cons. split; [by intros ->|]. apply Hs. by right.
Qed.

Lemma collect_entries found expected_names r :
  (match List.filter (fun n => negb (bool_decide (n ∈ found.*1))) expected_names with
   | [] => mapM_res (fun n => let* s := inv_item found n in Ok (n, s)) expected_names
   | missing => Err (Exn ValueError (u"missing schema: "
                                       ++ Json.join (u", ") (py_sort str_leb missing)))
   end) = Ok r <->
  Forall2 (fun n ns => fst ns = n /\ alookup n found = Some (snd ns)) expected_names r.
Proof.
  assert (Hrow : forall n ns, (let* s := inv_item found n in Ok (n, s)) = Ok ns <->
    fst ns = n /\ alookup n found = Some (snd ns)).
  { intros n [n' s']. unfold inv_item, res_of_option. cbn.
    destruct (alookup n found); naive_solver. }
  split.
  - destruct (List.filter _ _) eqn:E; [|done]. intros H%mapM_res_Ok.
    eapply Forall2_impl; [exact H|]. intros n ns. apply Hrow.
  - intros H. rewrite (filter_nil _ expected_names).
    + apply mapM_res_Ok. eapply Forall2_impl; [exact H|]. intros n ns. apply Hrow.
    + clear Hrow. induction H as [|n [n' s] names r [_ Hn] _ IH]; constructor; [|done].
      apply negb_false_iff, bool_decide_eq_true, alookup_is_Some. rewrite Hn. by eexists.
Qed.

(** C34: The collected inventory: the pages are accepted exactly when they form
    one complete sequence, each with the same total, which is the number of
    items; the items have a name and a source, no name occurs twice, and every
    expected name is among them.  The result gives the listed source of every
    expected name. *)
Theorem collect_schema_pages_exact pages names r :
  collect_schema_pages pages names = Ok r <->
  exists vs es, Forall2 views pages vs /\ pages_complete vs /\
    Forall (fun v => pv_total v = Z.of_nat (length es)) vs /\
    Forall2 reads_item (concat (map pv_items vs)) es /\ NoDup es.*1 /\
    Forall2 (fun n ns => fst ns = n /\ alookup n es = Some (snd ns)) names r.
Proof.
  unfold collect_schema_pages, enumerate. set (n := length pages). set (st0 := CollectState [] None []).
  assert (Hloop : forall st vs, Forall2 views pages vs -> vs <> [] ->
    page_steps n 0 st0 vs st <-> pages_progress st0 vs st).
  { intros st vs Hvs Hne. apply page_steps_progress; [|done].
    unfold n. by rewrite (Forall2_length _ _ _ Hvs). }
  split.
  - destruct (foldM_res _ _ _) as [st|] eqn:E; [|done]. case_bool_decide as Htot; [|done]. cbn [negb].
    intros Hr%collect_entries. apply collect_loop in E as (vs & Hvs & Hst); [|constructor].
    assert (Hne : vs <> []) by (intros ->; cbn in Hst; by subst).
    apply Hloop in Hst as (total & es & _ & Hall & Hp & Hes & Hd & ->); [|done|done].
    cbn [after_pages expected_total found st0 app] in *. injection Htot as ->.
    destruct (exists_last Hne) as (front & final & ->). apply Forall_app in Hall as [Hall Hfin].
    assert (Hcount : items_count (front ++ [final]) = length es) by (by eapply Forall2_length).
    destruct (proj1 (progress_complete _ 0 [] front final (f_equal Z.of_nat (eq_sym Hcount)))
      (conj Hp Hall)) as (Hn & Hl & Hdup & _ & Hf & _).
    exists (front ++ [final]), es. split_and!; try done; [|by apply Forall_app].
    by exists front, final.
  - intros (vs & es & Hvs & (front & final & -> & Hn & Hl & Hdup & Hf) & Hall & Hes & Hd & Hr).
    apply collect_entries in Hr.
    assert (Hcount : items_count (front ++ [final]) = length es) by (by eapply Forall2_length).
    pose proof (proj1 (proj1 (Forall_app _ _ _) Hall)) as Hall'.
    destruct (proj2 (progress_complete _ 0 [] front final (f_equal Z.of_nat (eq_sym Hcount))))
      as [Hp _]; [split_and!; try done; by intros c _ ?%elem_of_nil|].
    assert (Hst : foldM_res (collect_page n) (zip (seq 0 n) pages) st0 =
      Ok (after_pages st0 (Z.of_nat (length es)) (front ++ [final]) es)).
    { apply collect_loop; [constructor|]. exists (front ++ [final]). split; [done|].
      apply Hloop; [done|by destruct front|]. exists (Z.of_nat (length es)), es.
      split_and!; try done. by left. }
    rewrite Hst. cbn [after_pages expected_total found st0 app]. by rewrite bool_decide_true.
Qed.

(** ** A concrete instance *)

Module SchemaSample.
Definition page (items : list pyval) (total : Z) (next : option string) (request : pyval) : pyval :=
VDict [(u"items", VList items);
       (u"page", VDict [(u"total_count", VInt total);
                        (u"has_next_page", VBool (bool_decide (is_Some next)));
                        (u"next_cursor", match next with Some c => jstr c | None => VNone end)]);
       (u"request_cursor", request)].

Definition item (name source : string) : pyval :=
VDict [(u"name", jstr name); (u"lua_schema", jstr source)].

Example pages_accepted :
collect_schema_pages
  [page [item "a" "return 1"; item "b" "return 2"] 3 (Some "next"%string) VNone;
   page [item "c" "return 3"] 3 None (jstr "next")] [u"c"; u"a"] =
Ok [(u"c", u"return 3"); (u"a", u"return 1")].
Proof. vm_compute. reflexivity. Qed.

Example pages_repeated_cursor :
collect_schema_pages
  [page [item "a" "return 1"] 3 (Some "next"%string) VNone;
   page [item "b" "return 2"] 3 (Some "next"%string) (jstr "next");
   page [item "c" "return 3"] 3 None (jstr "next")] [u"c"] =
raise ValueError "schema pagination cursor repeated".
Proof. vm_compute. reflexivity. Qed.
End SchemaSample.

Lemma schema_hash_line_endings_witness :
  schema_hash (VStr (crlf (u"return {}" ++ [10]))) = schema_hash (VStr (u"return {}" ++ [10])).
Proof.
  apply (schema_hash_line_endings (u"return {}" ++ [10]));
    [by vm_compute|apply (bool_decide_unpack _); by vm_compute].
Defined.

Lemma compare_schema_hashes_exact_witness :
  compare_schema_hashes [(u"a", u"x")] [(u"a", u"x" ++ [10])] =
    Ok [(u"a", (hexlify (sha256 (bs"x")), hexlify (sha256 (bs"x"))))] <->
  same_set [u"a"] [u"a"] = true /\
  exists hs, Forall2 (hashes_agree [(u"a", u"x")] [(u"a", u"x" ++ [10])])
               (py_sort str_leb [u"a"]) hs /\
    [(u"a", (hexlify (sha256 (bs"x")), hexlify (sha256 (bs"x"))))] =
      zip (py_sort str_leb [u"a"]) (zip hs hs).
Proof.
  apply (compare_schema_hashes_exact [(u"a", u"x")] [(u"a", u"x" ++ [10])]).
  apply NoDup_singleton.
Defined.
