(* ===== verification/Konnect.v ===== *)
(** The Konnect requests of [src/scripts/wp1_target.py]: the JSON transport, the
    check of the remote control plane, the shared CA, the paginated list of
    custom schemas, and checking and synchronizing them.  The operations are
    programs over HTTP calls. *)
From S2P Require Export Prog Schemas.

Local Open Scope Z_scope.

(** ** Transport *)

Record konnect_call := KonnectCall {
  kc_method : string; kc_url : pystr; kc_token : pystr; kc_body : option pyval
}.

(** What [opener.open] and [response.read] give: a successful status with the
    text of the body as [json.loads] decodes it ([None] for an empty body), an
    HTTP error, a redirect included, or another failure. *)
Inductive konnect_reply :=
  | Reply (status : Z) (body : option (res pystr))
  | HttpFailure (code : Z)
  | NetFailure (e : exn).

Abbreviation konnect A := (prog konnect_call konnect_reply A).

Section konnect.
(** The recursion limit of [json.loads]. *)
Context (depth : nat).

Definition transport_error {A} : res A :=
raise ValueError "Konnect request failed or returned invalid JSON".

Definition http_error {A} (prefix : string) (code : Z) : res A :=
Err (Exn ValueError (u prefix ++ dec_of_Z code)).

Definition read_reply (reply : konnect_reply) : res (Z * pyval) :=
match reply with
| HttpFailure code => http_error "Konnect request failed with HTTP " code
| Reply status None => Ok (status, VDict [])
| Reply status (Some text) =>
  catch (let* text := text in let* v := loads_plain depth text in Ok (status, v))
    [URLError; TimeoutError; JSONDecodeError] (fun _ => transport_error)
| NetFailure e =>
  catch (Err e) [URLError; TimeoutError; JSONDecodeError] (fun _ => transport_error)
end.

Definition request_json (url token : pystr) (method : string) (body : option pyval)
: konnect (Z * pyval) :=
Call (KonnectCall method url token body) (fun reply => Done (read_reply reply)).

Definition get_json (url token : pystr) : konnect (Z * pyval) := request_json url token "GET" None.

(** ** The remote control plane *)

(** [response.get("data", response)] *)
Definition response_data (response : pyval) : res pyval :=
match response with
| VDict d => Ok (match alookup (u"data") d with Some v => v | None => response end)
| _ => raise AttributeError "object has no attribute 'get'"
end.

Definition plane_url (base : pystr) (target : pydict) : res pystr :=
let* id := dict_item target (u"control_plane_id") in
let* id := scalar_text id in
Ok (base ++ u"/v2/control-planes/" ++ id).

(** Not [remote.get(name) != target[name]]. *)
Definition same_field (remote target : pydict) (remote_name target_name : string) : bool :=
py_eq (dict_get remote (u remote_name)) (dict_get target (u target_name)).

Definition remote_matches (status : Z) (remote : pyval) (target : pydict) : bool :=
(status =? 200) &&
match remote with
| VDict r =>
  same_field r target "id" "control_plane_id"
  && same_field r target "name" "control_plane_name"
  && match dict_get r (u"config") with
     | VDict config =>
         same_field config target "control_plane_endpoint" "control_plane_endpoint"
         && same_field config target "telemetry_endpoint" "telemetry_endpoint"
     | _ => false
     end
| _ => false
end.

Definition verify_remote_target (base : pystr) (target : pydict) (token : pystr) : konnect unit :=
do* url := lift (plane_url base target) in
do* (status, response) := get_json url token in
do* remote := lift (response_data response) in
if negb (remote_matches status remote target)
then lift (raise ValueError
     "read-only control plane metadata does not match local target ID, name, or endpoints")
else pret tt.

(** ** The schema list *)

Definition MAX_PAGES : nat := Z.to_nat 1000.

(** [urlencode(params)] *)
Definition list_query (cursor : option pystr) : res pystr :=
match cursor with
| Some (c :: s) =>
  let* after := quote_plus (c :: s) in
  Ok (u"page%5Bsize%5D=100&page%5Bafter%5D=" ++ after)
| _ => Ok (u"page%5Bsize%5D=100")
end.

Definition str_or_none (cursor : option pystr) : pyval :=
match cursor with Some c => VStr c | None => VNone end.

Definition page_row (items page_info : pyval) (cursor : option pystr) : pyval :=
VDict [(u"items", items); (u"page", page_info); (u"request_cursor", str_or_none cursor)].

(** The result for the literal empty object of a control plane without schemas. *)
Definition empty_page : pyval :=
page_row (VList [])
(VDict [(u"total_count", VInt 0); (u"has_next_page", VBool false); (u"next_cursor", VNone)])
None.

(** The variables of the loop. *)
Record list_state := ListState {
ls_cursor : option pystr; ls_pages : list pyval; ls_seen : list pystr;
ls_count : option Z; ls_observed : Z
}.

(** What follows a page: the finished list or the next state. *)
Definition list_step (st : list_state) (page : pyval) : res (list pyval + list_state) :=
match page with
| VDict p =>
  match dict_get p (u"items"), dict_get p (u"page") with
  | VList items, VDict info =>
      match dict_get info (u"total_count") with
      | VInt total =>
          if (total <? 0) || match ls_count st with Some n => negb (total =? n)
                             | None => false end
          then raise ValueError
                 "schema list total_count is missing or changed during pagination"
          else
            match dict_get info (u"has_next_page") with
            | VBool has_next =>
                let next_cursor := dict_get info (u"next_cursor") in
                if has_next && negb (nonblank next_cursor)
                then raise ValueError "schema list next_cursor is missing or malformed"
                else
                  let pages := ls_pages st ++ [page_row (VList items) (VDict info)
                                                 (ls_cursor st)] in
                  let observed := ls_observed st + Z.of_nat (length items) in
                  if total <? observed
                  then raise ValueError "schema list returned more items than page.total_count"
                  else if negb has_next
                  then if negb (observed =? total)
                       then raise ValueError "schema pagination ended before page.total_count"
                       else Ok (inl pages)
                  else if (total <=? observed) || match items with [] => true | _ => false end
                  then raise ValueError "schema pagination made no progress"
                  else
                    match next_cursor with
                    | VStr c =>
                        if bool_decide (c ∈ ls_seen st)
                           || bool_decide (ls_cursor st = Some c)
                        then raise ValueError "schema page cursor did not advance"
                        else Ok (inr (ListState (Some c) pages (c :: ls_seen st) (Some total)
                                        observed))
                    | _ => raise ValueError
                             "schema list next_cursor is missing or malformed"
                    end
            | _ => raise ValueError "schema list has_next_page is malformed"
            end
      | _ => raise ValueError
               "schema list total_count is missing or changed during pagination"
      end
  | _, _ => raise ValueError "schema list response is missing items or pagination metadata"
  end
| _ => raise ValueError "schema list response is malformed"
end.

(** The literal, initial empty object. *)
Definition initial_empty (st : list_state) (page : pyval) : bool :=
match ls_pages st, ls_cursor st, page with
| [], None, VDict [] => true
| _, _, _ => false
end.

Fixpoint list_loop (n : nat) (collection_url token : pystr) (st : list_state)
: konnect (list pyval) :=
match n with
| O => lift (raise ValueError "schema pagination exceeded its safety limit")
| S n' =>
  do* query := lift (list_query (ls_cursor st)) in
  do* (status, page) := get_json (collection_url ++ u"?" ++ query) token in
  if negb (status =? 200)
  then lift (http_error "schema list request failed with HTTP " status)
  else if initial_empty st page then pret [empty_page]
  else
    do* next := lift (list_step st page) in
    match next with
    | inl pages => pret pages
    | inr st' => list_loop n' collection_url token st'
    end
end.

Definition request_schema_pages (collection_url token : pystr) : konnect (list pyval) :=
list_loop MAX_PAGES collection_url token (ListState None [] [] None 0).

(** ** Checking and synchronizing the schemas *)

Definition PLUGIN_FILES : list (pystr * pystr) :=
[(u"fapi-as-mtls-transport", u"kong/plugins/fapi-as-mtls-transport/schema.lua");
(u"fapi-client-auth-bridge", u"kong/plugins/fapi-client-auth-bridge/schema.lua")].

(** [{name: (root / path).read_text() for name, path in PLUGIN_FILES.items()}];
[read_text] is the file system. *)
Definition local_schemas (read_text : pystr -> res pystr) : res inventory :=
mapM_res (fun np => let* text := read_text (snd np) in Ok (fst np, text)) PLUGIN_FILES.

Definition schemas_url (base : pystr) (target : pydict) : res pystr :=
let* url := plane_url base target in Ok (url ++ u"/core-entities/plugin-schemas").

(** The hashes that are printed; nothing for the API gateway. *)
Definition check_schemas (read_text : pystr -> res pystr) (gateway base : pystr) (target : pydict)
(token : pystr) : konnect hash_report :=
if bool_decide (gateway = u"api") then pret [] (* no custom plugin entities *)
else
do* expected := lift (local_schemas read_text) in
do* url := lift (schemas_url base target) in
do* pages := request_schema_pages url token in
do* observed := lift (collect_schema_pages pages expected.*1) in
lift (compare_schema_hashes expected observed).

(** [page["items"]], iterated *)
Definition page_items (page : pyval) : res (list pyval) :=
let* items := val_item page (u"items") in val_iter items.

Definition index_present (present : inventory) (item : pyval) : res inventory :=
match item with
| VDict d =>
  match dict_get d (u"name"), dict_get d (u"lua_schema") with
  | VStr (c :: name), VStr (e :: source) =>
      if bool_decide (c :: name ∈ present.*1)
      then raise ValueError "duplicate schema name in CP inventory"
      else Ok (ainsert (c :: name) (e :: source) present)
  | _, _ => raise ValueError "schema inventory item is missing a valid name or lua_schema"
  end
| _ => raise ValueError "schema inventory contains a malformed item"
end.

(** [name not in present or schema_hash(source) != schema_hash(present[name])] *)
Definition is_changed (present : inventory) (ns : pystr * pystr) : res bool :=
match alookup (fst ns) present with
| None => Ok true
| Some listed =>
  let* want := schema_hash (VStr (snd ns)) in
  let* got := schema_hash (VStr listed) in
  Ok (negb (bool_decide (want = got)))
end.

(** The entries that pass a fallible test, in order. *)
Fixpoint filterM_res {A} (f : A -> res bool) (l : list A) : res (list A) :=
match l with
| [] => Ok []
| x :: l' =>
  let* b := f x in let* rest := filterM_res f l' in Ok (if b : bool then x :: rest else rest)
end.

Definition schema_body (source : pystr) : option pyval :=
Some (VDict [(u"lua_schema", VStr source)]).

Definition write_call (url token : pystr) (present : inventory) (ns : pystr * pystr)
: konnect_call :=
if bool_decide (fst ns ∈ present.*1)
then KonnectCall "PUT" (url ++ u"/" ++ fst ns) token (schema_body (snd ns))
else KonnectCall "POST" url token (schema_body (snd ns)).

(** One iteration of the loop over the changed names. *)
Definition write_schema (url token : pystr) (present : inventory) (ns : pystr * pystr)
: konnect unit :=
let q := write_call url token present ns in
do* _ := request_json (kc_url q) (kc_token q) (kc_method q) (kc_body q) in pret tt.

(** The listed inventory and the local schemas that differ from it. *)
Definition plan_schemas (expected : inventory) (pages : list pyval)
: res (inventory * inventory) :=
let* items := mapM_res page_items pages in
let* present := foldM_res index_present (concat items) [] in
if existsb (fun ns => bool_decide (fst ns = []) || bool_decide (snd ns = [])) present
then raise ValueError "schema inventory contains malformed source"
else let* changed := filterM_res (is_changed present) expected in Ok (present, changed).

(** The names of the changed schemas, which are printed. *)
Definition sync_schemas (read_text : pystr -> res pystr) (base : pystr) (target : pydict)
(token : pystr) : konnect (list pystr) :=
do* expected := lift (local_schemas read_text) in
do* url := lift (schemas_url base target) in
do* pages := request_schema_pages url token in
do* (present, changed) := lift (plan_schemas expected pages) in
do* _ := pmap (write_schema url token present) changed in
pret changed.*1.
End konnect.

(** ** Lemmas: the schema list *)

Section konnect_lemmas.
Context (depth : nat).

Definition list_call (collection_url token : pystr) (q : konnect_call) : Prop :=
exists query, q = KonnectCall "GET" (collection_url ++ u"?" ++ query) token None.

(** What the loop knows of the pages it has read: they link up, and more items
are announced than were read. *)
Record list_inv (st : list_state) (vs : list page_view) : Prop := {
li_views : Forall2 views (ls_pages st) vs;
li_linked : Forall linked vs;
li_seen : ls_seen st = rev (omap pv_next vs);
li_nodup : NoDup (omap pv_next vs);
li_observed : ls_observed st = Z.of_nat (items_count vs);
li_count : match ls_count st with
         | Some t => Forall (fun v => pv_total v = t) vs /\ ls_observed st < t
         | None => vs = []
         end
}.

Lemma list_inv_init : list_inv (ListState None [] [] None 0) [].
Proof. split; try done; constructor. Qed.

Definition pages_listed (pages : list pyval) : Prop :=
exists vs, Forall2 views pages vs /\ pages_complete vs /\
Forall (fun v => pv_total v = Z.of_nat (items_count vs)) vs.

Lemma items_count_app vs ws : items_count (vs ++ ws) = (items_count vs + items_count ws)%nat.
Proof. unfold items_count. by rewrite map_app, concat_app, length_app. Qed.

Lemma items_count_one v : items_count [v] = length (pv_items v).
Proof. unfold items_count. cbn. by rewrite app_nil_r. Qed.

Lemma views_row items info cursor total has_next next :
dict_get info (u"total_count") = VInt total -> 0 <= total ->
dict_get info (u"has_next_page") = VBool has_next ->
(if has_next : bool
then exists c, dict_get info (u"next_cursor") = VStr c /\ py_strip c <> [] /\ next = Some c
else next = None) ->
views (page_row (VList items) (VDict info) cursor)
(PageView items total next (str_or_none cursor)).
Proof. intros Ht H0 Hh Hn. exists [(u"items", VList items); (u"page", VDict info);
(u"request_cursor", str_or_none cursor)], info, has_next. cbn [pv_items pv_total pv_next pv_request]. split_and!; try done. Qed.

Lemma empty_page_listed : pages_listed [empty_page].
Proof.
exists [PageView [] 0 None VNone]. split_and!.
- constructor; [|constructor]. by apply (views_row _ _ None 0 false).
- exists [], (PageView [] 0 None VNone). split_and!; try done; constructor.
- by repeat constructor.
Qed.

Lemma omap_app_one (vs : list page_view) v :
omap pv_next (vs ++ [v]) = omap pv_next vs ++ match pv_next v with Some c => [c] | None => [] end.
Proof. rewrite omap_app. cbn. by destruct (pv_next v). Qed.

(** One page keeps the invariant, or completes the list. *)
Lemma list_step_inv st vs page next :
list_inv st vs -> list_step st page = Ok next ->
match next with
| inl pages => pages_listed pages
| inr st' => exists v, list_inv st' (vs ++ [v])
end.
Proof.
intros [Hv Hl Hs Hd Ho Hc]. unfold list_step.
destruct page as [| | | | | |p]; try done.
destruct (dict_get p (u"items")) as [| | | | |items|]; try done.
destruct (dict_get p (u"page")) as [| | | | | |info]; try done.
destruct (dict_get info (u"total_count")) as [| |total| | | |] eqn:Et; try done.
destruct ((total <? 0) || _) eqn:E0; [done|].
destruct (dict_get info (u"has_next_page")) as [|has_next| | | | |] eqn:Eh; try done. cbv zeta.
destruct (has_next && negb (nonblank (dict_get info (u"next_cursor")))) eqn:Eb; [done|].
destruct (total <? ls_observed st + _) eqn:Eo; [done|].
apply orb_false_iff in E0 as [E0 Ecount]. bool_prop.
assert (Htot : Forall (fun v => pv_total v = total) vs).
{ destruct (ls_count st) as [n|]; [|subst; constructor].
apply negb_false_iff, Z.eqb_eq in Ecount. subst n. by destruct Hc. }
assert (Hlen : items_count (vs ++ [PageView items total None VNone]) =
(items_count vs + length items)%nat) by (by rewrite items_count_app, items_count_one).
destruct has_next; cbn [negb]; cbv iota.
- destruct ((total <=? _) || _) eqn:Ep; [done|]. bool_prop.
apply negb_false_iff, nonblank_true in Eb as (c & Hnc & Hb). rewrite Hnc.
destruct (bool_decide (c ∈ ls_seen st) || bool_decide (ls_cursor st = Some c)) eqn:Ec; [done|].
apply orb_false_iff in Ec as [Hfresh Hcur]. bool_prop. intros <-%Ok_inj.
exists (PageView items total (Some c) (str_or_none (ls_cursor st))). split; cbn [ls_pages ls_seen ls_count ls_observed].
+ apply Forall2_app; [done|]. constructor; [|constructor].
  apply (views_row _ _ _ _ true); try done. by exists c.
+ apply Forall_app. split; [done|]. constructor; [|constructor]. exists c. cbn.
  split_and!; [done| |by destruct items]. destruct (ls_cursor st); cbn; congruence.
+ rewrite omap_app_one. cbn. rewrite rev_app_distr. cbn. by rewrite Hs.
+ rewrite omap_app_one. cbn. apply NoDup_app. split_and!; [done| |apply NoDup_singleton].
  intros x Hx ->%list_elem_of_singleton. apply Hfresh. rewrite Hs.
  by rewrite list_elem_of_In, <- in_rev, <- list_elem_of_In.
+ rewrite Ho, items_count_app, items_count_one. cbn. lia.
+ split; [apply Forall_app; split; [done|by constructor]|lia].
- destruct (_ =? total) eqn:Ef; [|done]. bool_prop. cbn [negb]. intros <-%Ok_inj.
exists (vs ++ [PageView items total None (str_or_none (ls_cursor st))]).
rewrite items_count_app, items_count_one. cbn [pv_items].
assert (Hsum : total = Z.of_nat (items_count vs + length items)) by lia. split_and!.
+ apply Forall2_app; [done|]. constructor; [|constructor].
  by apply (views_row _ _ _ _ false).
+ exists vs, (PageView items total None (str_or_none (ls_cursor st))). split_and!; try done.
  intros Hne. cbn. intros ->. destruct (ls_count st) as [n|]; [|done].
  apply negb_false_iff, Z.eqb_eq in Ecount. subst n. cbn in Hsum. lia.
+ rewrite <- Hsum. apply Forall_app. split; [done|by constructor].
Qed.

Lemma list_loop_ensures n url token st vs :
list_inv st vs ->
ensures (list_call url token) pages_listed (list_loop depth n url token st).
Proof.
revert st vs. induction n as [|n IH]; intros st vs Hinv; cbn [list_loop]; [done|].
destruct (list_query (ls_cursor st)) as [query|] eqn:Eq; [|done]. cbn [lift pbind].
unfold get_json, request_json. cbn [pbind ensures]. split; [by exists query|]. intros reply.
destruct (read_reply depth reply) as [[status page]|]; [|done]. cbn [pbind].
destruct (negb _); [done|].
destruct (initial_empty st page); [exact empty_page_listed|].
destruct (list_step st page) as [next|] eqn:En; [|done]. cbn [pbind].
pose proof (list_step_inv _ _ _ _ Hinv En) as Hnext. destruct next as [pages|st']; [done|].
destruct Hnext as [v Hv]. by eapply IH.
Qed.

Lemma list_loop_length n url token st {S} (serve : S -> konnect_call -> konnect_reply * S) s r s' t :
run serve s (list_loop depth n url token st) = (r, s', t) -> (length t <= n)%nat.
Proof.
revert st s r s' t. induction n as [|n IH]; intros st s r s' t; cbn [list_loop].
- cbn. intros [= _ _ <-]. done.
- destruct (list_query (ls_cursor st)) as [query|]; [|cbn; intros [= _ _ <-]; cbn; lia].
cbn [lift pbind]. unfold get_json, request_json. cbn [pbind run].
destruct (serve s _) as [reply s1].
destruct (read_reply depth reply) as [[status page]|]; cbn [pbind run];
  [|intros [= _ _ <-]; cbn; lia].
destruct (run serve s1 _) as [[a s2] t'] eqn:E. intros [= <- <- <-].
cbn [length]. apply le_n_S. revert E.
destruct (negb _); [intros [= _ _ <-]; cbn; lia|].
destruct (initial_empty st page); [intros [= _ _ <-]; cbn; lia|].
destruct (list_step st page) as [[pages|st']|]; cbn [lift pbind];
  [intros [= _ _ <-]; cbn; lia|apply IH|intros [= _ _ <-]; cbn; lia].
Qed.

Lemma views_functional p v v' : views p v -> views p v' -> v = v'.
Proof.
intros (d & m & h & -> & Ei & Em & Et & _ & Eh & Er & En)
(d' & m' & h' & E & Ei' & Em' & Et' & _ & Eh' & Er' & En').
injection E as <-. rewrite Em in Em'. injection Em' as <-. rewrite Eh in Eh'. injection Eh' as <-.
destruct v, v'; cbn in *. rewrite Ei in Ei'. rewrite Et in Et'.
injection Ei' as <-. injection Et' as <-. subst. f_equal.
destruct h; [|congruence]. destruct En as (c & E1 & _ & ->), En' as (c' & E2 & _ & ->). congruence.
Qed.

Lemma views_list_functional ps vs vs' : Forall2 views ps vs -> Forall2 views ps vs' -> vs = vs'.
Proof.
intros H. revert vs'. induction H as [|p v ps vs Hv _ IH]; intros vs' H'; inversion H'; subst; [done|].
f_equal; [by eapply views_functional|by apply IH].
Qed.

(** C36: The paginated request against any service: at most a thousand calls,
all of them reads of the collection, and a list that is returned is a
complete sequence of pages, so that the collector accepts it exactly when
the items are well formed, distinct and include the expected names. *)
Theorem request_schema_pages_complete {S} (serve : S -> konnect_call -> konnect_reply * S)
s url token r s' t :
run serve s (request_schema_pages depth url token) = (r, s', t) ->
(length t <= MAX_PAGES)%nat /\ Forall (list_call url token) t /\
forall pages, r = Ok pages ->
exists vs, Forall2 views pages vs /\
  forall names inv, collect_schema_pages pages names = Ok inv <->
    exists es, Forall2 reads_item (concat (map pv_items vs)) es /\ NoDup es.*1 /\
      Forall2 (fun n ns => fst ns = n /\ alookup n es = Some (snd ns)) names inv.
Proof.
intros H. split; [by eapply list_loop_length|].
pose proof (list_loop_ensures MAX_PAGES url token _ _ list_inv_init) as He.
destruct (ensures_run serve _ _ _ _ _ _ _ He H) as [Hcalls Hres]. split; [done|].
intros pages (vs & Hvs & Hcomplete & Htotal)%Hres. exists vs. split; [done|].
intros names inv. rewrite collect_schema_pages_exact. split.
- intros (vs' & es & Hvs' & _ & _ & Hes & Hd & Hn).
rewrite (views_list_functional _ _ _ Hvs Hvs'). by exists es.
- intros (es & Hes & Hd & Hn). exists vs, es.
split_and!; try done. eapply Forall_impl; [exact Htotal|]. intros v Hv. rewrite Hv. f_equal.
by eapply Forall2_length.
Qed.
End konnect_lemmas.

(** ** Lemmas: synchronizing *)

Lemma filterM_res_ok {A} (f : A -> res bool) l r :
  filterM_res f l = Ok r ->
  (forall x, x ∈ l -> exists b, f x = Ok b) /\
  r = List.filter (fun x => bool_decide (f x = Ok true)) l.
Proof.
  revert r. induction l as [|x l IH]; intros r; cbn [filterM_res List.filter].
  - intros <-%Ok_inj. split; [by intros x ?%elem_of_nil|done].
  - destruct (f x) as [b|] eqn:E; [|done]. destruct (filterM_res f l) as [rest|]; [|done].
    intros <-%Ok_inj. destruct (IH _ eq_refl) as [Hall ->]. split.
    + intros y [->|Hy]%elem_of_cons; [by exists b|by apply Hall].
    + by destruct b.
Qed.

Lemma filterM_res_total {A} (f : A -> res bool) l :
  (forall x, x ∈ l -> exists b, f x = Ok b) ->
  filterM_res f l = Ok (List.filter (fun x => bool_decide (f x = Ok true)) l).
Proof.
  induction l as [|x l IH]; intros Hall; [done|]. cbn [filterM_res List.filter].
  destruct (Hall x ltac:(by left)) as [b Hb]. rewrite Hb.
  rewrite IH by (intros y Hy; apply Hall; by right). by destruct b.
Qed.

Lemma index_present_ok present item present' :
  index_present present item = Ok present' <->
  exists e, reads_item item e /\ (fst e ∉ present.*1) /\ present' = present ++ [e].
Proof.
  rewrite <- collect_item_ok. unfold index_present, collect_item.
  destruct item as [| | | | | |d]; try (split; done).
  destruct (dict_get d (u"name")) as [| | | |[|c n]| |]; try (split; done).
  destruct (dict_get d (u"lua_schema")) as [| | | |[|x s]| |]; try (split; done).
  case_bool_decide; split; done.
Qed.

Lemma foldM_res_same {A B} (f g : B -> A -> res B) l b r :
  (forall b x b', f b x = Ok b' <-> g b x = Ok b') ->
  foldM_res f l b = Ok r <-> foldM_res g l b = Ok r.
Proof.
  intros Hfg. revert b. induction l as [|x l IH]; intros b; cbn [foldM_res]; [done|].
  destruct (f b x) as [b1|] eqn:E.
  - apply Hfg in E. by rewrite E.
  - destruct (g b x) as [b2|] eqn:E2; [|done]. apply Hfg in E2. congruence.
Qed.

Lemma index_items_ok items present' :
  foldM_res index_present items [] = Ok present' <->
  Forall2 reads_item items present' /\ NoDup present'.*1.
Proof.
  rewrite (foldM_res_same _ collect_item).
  - rewrite collect_items_ok by constructor. cbn [app]. naive_solver.
  - intros b x b'. by rewrite index_present_ok, collect_item_ok.
Qed.

Lemma views_items page v : views page v -> page_items page = Ok (pv_items v).
Proof.
  intros (p & meta & h & -> & Hi & _). unfold page_items. cbn [val_item]. unfold dict_item, dict_get in *.
  destruct (alookup (u"items") p); [|done]. subst. done.
Qed.

Lemma reads_item_nonempty items es :
  Forall2 reads_item items es ->
  existsb (fun ns => bool_decide (fst ns = []) || bool_decide (snd ns = [])) es = false.
Proof.
  induction 1 as [|item e items es (d & _ & _ & _ & H1 & H2) _ IH]; [done|]. cbn.
  by rewrite !bool_decide_false by done.
Qed.

(** The plan for listed pages: the listed inventory, and the local schemas that
    are missing or whose hash differs. *)
Lemma plan_schemas_ok expected pages vs present changed :
  Forall2 views pages vs ->
  plan_schemas expected pages = Ok (present, changed) <->
  Forall2 reads_item (concat (map pv_items vs)) present /\ NoDup present.*1 /\
  filterM_res (is_changed present) expected = Ok changed.
Proof.
  intros Hvs. unfold plan_schemas.
  assert (Hitems : mapM_res page_items pages = Ok (map pv_items vs)).
  { apply mapM_res_Ok, Forall2_fmap_r. eapply Forall2_impl; [exact Hvs|]. apply views_items. }
  rewrite Hitems. split.
  - destruct (foldM_res index_present _ []) as [es|] eqn:Ef; [|done].
    destruct (existsb _ es); [done|]. destruct (filterM_res _ _) as [ch|] eqn:Ec; [|done].
    intros [-> ->]%Ok_inj%pair_equal_spec. by apply index_items_ok in Ef as [? ?].
  - intros (Hes & Hd & Hf). rewrite (proj2 (index_items_ok _ present)) by done.
    rewrite (reads_item_nonempty _ _ Hes). by rewrite Hf.
Qed.

Section sync.
Context (depth : nat) {S : Type} (serve : S -> konnect_call -> konnect_reply * S).

Lemma write_schema_run url token present ns s :
exists r s', run serve s (write_schema depth url token present ns) =
  (r, s', [write_call url token present ns]).
Proof.
unfold write_schema, request_json, write_call. case_bool_decide; cbn [pbind run kc_method kc_url kc_token kc_body];
  (destruct (serve s _) as [reply s1]; destruct (read_reply depth reply) as [[status v]|e]; cbn; eauto).
Qed.

Lemma writes_run url token present l s r s' t :
run serve s (pmap (write_schema depth url token present) l) = (r, s', t) ->
exists k, t = map (write_call url token present) (take k l) /\
  forall us, r = Ok us -> t = map (write_call url token present) l.
Proof.
revert s r s' t. induction l as [|ns l IH]; intros s r s' t; cbn [pmap].
- cbn. intros [= <- <- <-]. by exists 0%nat.
- rewrite run_bind. destruct (write_schema_run url token present ns s) as (r1 & s1 & ->).
  destruct r1 as [u1|e].
  + rewrite run_bind. destruct (run serve s1 (pmap _ l)) as [[r2 s2] t2] eqn:E.
    destruct (IH _ _ _ _ E) as (k & Hk & Hall). destruct r2 as [us|e].
    * cbn. intros [= <- <- <-]. rewrite app_nil_r. exists (Datatypes.S k). cbn. rewrite Hk. split; [done|].
      intros _ _. by rewrite <- Hk, (Hall us eq_refl).
    * intros [= <- <- <-]. exists (Datatypes.S k). cbn. by rewrite Hk.
  + intros [= <- <- <-]. by exists 1%nat; destruct l.
Qed.

(** The local schemas that are missing in the listed inventory or have another
  hash there. *)
Definition changed_schemas (present expected : inventory) : inventory :=
List.filter (fun ns => bool_decide (is_changed present ns = Ok true)) expected.

(** The synchronization writes nothing before it has read one complete and
  well-formed inventory; every write then creates or replaces one local schema
  that is missing from the inventory or differs from it, in the order of the
  local schemas, and a run that succeeds has written all of them. *)
Theorem sync_schemas_writes read_text base target token s r s' t :
run serve s (sync_schemas depth read_text base target token) = (r, s', t) ->
exists reads writes, t = reads ++ writes /\ Forall (fun q => kc_method q = "GET"%string) reads /\
  (writes <> [] \/ (exists ch, r = Ok ch) ->
   exists expected url pages s1 vs present,
     local_schemas read_text = Ok expected /\ schemas_url base target = Ok url /\
     run serve s (request_schema_pages depth url token) = (Ok pages, s1, reads) /\
     Forall2 views pages vs /\ pages_complete vs /\
     Forall2 reads_item (concat (map pv_items vs)) present /\ NoDup present.*1 /\
     (exists k, writes = map (write_call url token present)
                           (take k (changed_schemas present expected))) /\
     forall ch, r = Ok ch ->
       writes = map (write_call url token present) (changed_schemas present expected) /\
       ch = (changed_schemas present expected).*1).
Proof.
unfold sync_schemas.
assert (Hnone : forall e : exn, (Err e, s, []) = (r, s', t) ->
  exists reads writes, t = reads ++ writes /\ Forall (fun q => kc_method q = "GET"%string) reads /\
    (writes <> [] \/ (exists ch, r = Ok ch) -> False)).
{ intros e [= <- <- <-]. exists [], []. split_and!; [done|constructor|]. by intros [?|[? ?]]. }
destruct (local_schemas read_text) as [expected|e]; cbn [lift pbind];
  [|intros H; destruct (Hnone e H) as (a & b & ? & ? & Hf); exists a, b;
    (split_and!; [done..|intros Hc; by destruct (Hf Hc)])].
destruct (schemas_url base target) as [url|e]; cbn [pbind];
  [|intros H; destruct (Hnone e H) as (a & b & ? & ? & Hf); exists a, b;
    (split_and!; [done..|intros Hc; by destruct (Hf Hc)])].
clear Hnone. rewrite run_bind.
destruct (run serve s (request_schema_pages depth url token)) as [[rp s1] reads] eqn:Ep.
pose proof (list_loop_ensures depth MAX_PAGES url token _ _ list_inv_init) as He.
destruct (ensures_run serve _ _ _ _ _ _ _ He Ep) as [Hcalls Hres].
assert (Hreads : Forall (fun q => kc_method q = "GET"%string) reads).
{ eapply Forall_impl; [exact Hcalls|]. by intros q [query ->]. }
destruct rp as [pages|e].
2:{ intros [= <- <- <-]. exists reads, []. rewrite app_nil_r. split_and!; [done..|].
    by intros [?|[? ?]]. }
destruct (Hres pages eq_refl) as (vs & Hvs & Hcomplete & _).
destruct (plan_schemas expected pages) as [[present changed]|e] eqn:Epl; cbn [pbind lift].
2:{ intros [= <- <- <-]. exists reads, []. cbn. rewrite app_nil_r. split_and!; [done..|].
    by intros [?|[? ?]]. }
apply (plan_schemas_ok _ _ _ _ _ Hvs) in Epl as (Hes & Hd & [_ Hch]%filterM_res_ok).
fold (changed_schemas present expected) in Hch. subst changed.
rewrite run_bind.
destruct (run serve s1 (pmap _ (changed_schemas present expected))) as [[rw s2] writes] eqn:Ew.
destruct (writes_run _ _ _ _ _ _ _ _ Ew) as (k & Hk & Hall). intros H.
assert (Hr : t = reads ++ writes /\ forall ch, r = Ok ch ->
  writes = map (write_call url token present) (changed_schemas present expected) /\
  ch = (changed_schemas present expected).*1).
{ destruct rw as [us|e]; cbn in H; injection H as <- <- <-; [|done]. rewrite app_nil_r.
  split; [done|]. intros ch <-%Ok_inj. split; [by eapply Hall|done]. }
destruct Hr as [-> Hr]. exists reads, writes. split_and!; [done..|]. intros _.
exists expected, url, pages, s1, vs, present. split_and!; try done. by exists k.
Qed.
End sync.

(** ** A schema registry, and what the synchronization makes of it *)

(** The abstract effect of the synchronization on an inventory. *)
Definition store (entries inv : inventory) : inventory :=
  fold_left (fun d ns => ainsert (fst ns) (snd ns) d) entries inv.

Lemma alookup_store n entries inv :
  NoDup entries.*1 ->
  alookup n (store entries inv) =
    match alookup n entries with Some s => Some s | None => alookup n inv end.
Proof.
  revert inv. induction entries as [|[k v] entries IH]; intros inv Hnd; [done|].
  apply NoDup_cons in Hnd as [Hk Hnd]. cbn [store fold_left fst snd]. fold (store entries (ainsert k v inv)).
  rewrite IH by done. cbn [alookup]. rewrite alookup_ainsert. destruct (decide (k = n)) as [->|Hne].
  - rewrite (proj2 (alookup_None n entries) Hk). by repeat case_decide.
  - repeat case_decide; try congruence; done.
Qed.

Lemma local_schemas_names read_text expected :
  local_schemas read_text = Ok expected -> expected.*1 = PLUGIN_FILES.*1.
Proof.
  unfold local_schemas. rewrite mapM_res_Ok. induction 1 as [|[n p] e l es He _ IH]; [done|].
  cbn in *. destruct (read_text p); [|done]. apply Ok_inj in He. subst e. cbn. by rewrite IH.
Qed.

Lemma plugin_names_nodup : NoDup PLUGIN_FILES.*1.
Proof. apply (bool_decide_unpack _). by vm_compute. Qed.

Lemma alookup_in (l : inventory) ns :
  NoDup l.*1 -> ns ∈ l -> alookup (fst ns) l = Some (snd ns).
Proof. intros Hnd Hin. apply alookup_NoDup; [done|]. by destruct ns. Qed.

Lemma filter_names_nodup (f : pystr * pystr -> bool) (l : inventory) :
  NoDup l.*1 -> NoDup (List.filter f l).*1.
Proof.
  intros Hnd. induction l as [|ns l IH]; [done|]. apply NoDup_cons in Hnd as [Hn Hnd]. cbn.
  destruct (f ns); [|by apply IH]. constructor; [|by apply IH].
  intros Hin. apply Hn. apply list_elem_of_fmap in Hin as (x & -> & Hx).
  apply list_elem_of_In, filter_In in Hx as [Hx _]. apply list_elem_of_fmap. exists x.
  by rewrite list_elem_of_In.
Qed.

Section registry.
Context (depth : nat) {S : Type} (serve : S -> konnect_call -> konnect_reply * S).
Context (expected : inventory) (url token : pystr).

(** A JSON answer: its status and the value of its body, where no body stands for an empty
  object. *)
Inductive json_answer : konnect_reply -> Z -> pyval -> Prop :=
| no_body status : json_answer (Reply status None) status (VDict [])
| json_body status text value :
    loads_plain depth text = Ok value -> json_answer (Reply status (Some (Ok text))) status value.

Lemma json_answer_read reply status value :
json_answer reply status value -> read_reply depth reply = Ok (status, value).
Proof. intros [|st text v Hl]; [done|]. cbn [read_reply]. by rewrite Hl. Qed.

(** The address of a page of the list: a hundred items, after a cursor. *)
Definition page_url (cursor : option pystr) (address : pystr) : Prop :=
match cursor with
| None => address = url ++ u"?page%5Bsize%5D=100"
| Some c => c <> [] /\ exists quoted, quote_plus c = Ok quoted /\
    address = url ++ u"?page%5Bsize%5D=100&page%5Bafter%5D=" ++ quoted
end.

(** The pages that the service gives in the state [s], from a cursor on: the items of each, the
  total of all pages on each, and on each but the last a cursor for the next one. *)
Inductive pages_served (s : S) (total : Z) : option pystr -> list (list pyval) -> list pystr -> Prop :=
| last_page cursor address reply page info items :
    page_url cursor address ->
    serve s (KonnectCall "GET" address token None) = (reply, s) -> json_answer reply 200 (VDict page) ->
    dict_get page (u"items") = VList items -> dict_get page (u"page") = VDict info ->
    dict_get info (u"total_count") = VInt total -> dict_get info (u"has_next_page") = VBool false ->
    pages_served s total cursor [items] []
| more_pages cursor address reply page info items next rest cursors :
    page_url cursor address ->
    serve s (KonnectCall "GET" address token None) = (reply, s) -> json_answer reply 200 (VDict page) ->
    dict_get page (u"items") = VList items -> dict_get page (u"page") = VDict info ->
    dict_get info (u"total_count") = VInt total -> dict_get info (u"has_next_page") = VBool true ->
    dict_get info (u"next_cursor") = VStr next -> py_strip next <> [] -> items <> [] -> concat rest <> [] ->
    pages_served s total (Some next) rest cursors ->
    pages_served s total cursor (items :: rest) (next :: cursors).

(** What the registry of custom schemas promises: its list has every entry once, on at most a
  thousand pages with different cursors; [POST] to the collection creates the schema that a
  source declares, if there is none of that name, and [PUT] to the address of a schema that is
  there replaces it.  [declares] is the name that a schema source gives itself. *)
Record registry (declares : pystr -> pystr -> Prop) (inv : S -> inventory) (valid : S -> Prop) : Prop := {
reg_list s : valid s -> exists pages cursors,
  pages_served s (Z.of_nat (length (inv s))) None pages cursors /\ NoDup cursors /\ (length pages <= 1000)%nat /\
  Forall2 reads_item (concat pages) (inv s) /\ NoDup (inv s).*1;
reg_create s name source : valid s -> declares source name -> name ∉ (inv s).*1 -> exists reply s' status value,
  serve s (KonnectCall "POST" url token (Some (VDict [(u"lua_schema", VStr source)]))) = (reply, s') /\
  json_answer reply status value /\ valid s' /\ inv s' = inv s ++ [(name, source)];
reg_update s name source : valid s -> declares source name -> name ∈ (inv s).*1 -> exists reply s' status value,
  serve s (KonnectCall "PUT" (url ++ u"/" ++ name) token (Some (VDict [(u"lua_schema", VStr source)]))) = (reply, s') /\
  json_answer reply status value /\ valid s' /\ inv s' = ainsert name source (inv s)
}.

Lemma list_loop_served s total cursor pages cursors st n :
pages_served s total cursor pages cursors -> ls_cursor st = cursor ->
(length pages <= n)%nat -> match ls_count st with Some c => c = total | None => True end ->
ls_observed st + Z.of_nat (length (concat pages)) = total -> 0 <= ls_observed st -> NoDup cursors ->
(forall c, c ∈ cursors -> (c ∉ ls_seen st) /\ cursor <> Some c) ->
exists rows vs t, run serve s (list_loop depth n url token st) = (Ok (ls_pages st ++ rows), s, t) /\
  Forall2 views rows vs /\ map pv_items vs = pages.
Proof.
intros Hp. revert st n. induction Hp as
  [cursor address reply page info items Hurl Hserve Hanswer Hitems Hinfo Htotal Hnext
  |cursor address reply page info items next rest cursors Hurl Hserve Hanswer Hitems Hinfo Htotal Hnext Hcursor Hblank Hne Hrest _ IH];
  intros st [|n] Hst Hn Hcount Hsum Hpos Hnd Hfresh; cbn [length] in Hn; try lia; cbn [list_loop].
all: assert (Hquery : exists query, list_query (ls_cursor st) = Ok query /\ address = url ++ u"?" ++ query)
  by (rewrite Hst; destruct cursor as [[|c cs]|]; [by destruct Hurl|destruct Hurl as (_ & quoted & Hq & ->)|];
      cbn [list_query page_url] in *; [rewrite Hq; by eexists|by eexists]).
all: destruct Hquery as (query & Hquery & ->); rewrite Hquery; cbn [lift pbind]; unfold get_json, request_json; cbn [pbind run].
all: rewrite Hserve, (json_answer_read _ _ _ Hanswer); cbn [pbind]; change (negb (200 =? 200)) with false; cbv beta iota.
all: assert (Hinitial : initial_empty st (VDict page) = false)
  by (destruct page; [discriminate Hitems|unfold initial_empty; by destruct (ls_pages st), (ls_cursor st)]).
all: rewrite Hinitial; cbn [list_step]; rewrite Hitems, Hinfo, Htotal, Hnext; clear Hinitial Hserve Hanswer Hquery.
all: assert (Hle : (total <? 0) = false) by (apply Z.ltb_ge; lia).
all: assert (Hsame : match ls_count st with Some n => negb (total =? n) | None => false end = false)
  by (destruct (ls_count st) as [c|]; [rewrite Hcount, Z.eqb_refl|]; done).
all: rewrite Hle, Hsame; cbn [orb andb negb concat app] in *.
- rewrite app_nil_r in Hsum. destruct (total <? ls_observed st + Z.of_nat (length items)) eqn:E1; [lia|].
  destruct (ls_observed st + Z.of_nat (length items) =? total) eqn:E2; [|lia].
  cbn [negb lift pbind pret run]. eexists [_], [PageView items total None (str_or_none (ls_cursor st))], _.
  split_and!; [reflexivity| |done]. constructor; [|constructor]. apply (views_row _ _ _ _ false); by lia || done.
- rewrite length_app in Hsum. assert (0 < Z.of_nat (length (concat rest))) by (destruct (concat rest); [done|cbn; lia]).
  rewrite Hcursor. assert (nonblank (VStr next) = true) as -> by (apply nonblank_true; by exists next). cbn [negb].
  destruct (total <? ls_observed st + Z.of_nat (length items)) eqn:E1; [lia|].
  destruct (total <=? ls_observed st + Z.of_nat (length items)) eqn:E2; [lia|].
  apply NoDup_cons in Hnd as [Hnext_new Hnd]. destruct (Hfresh next ltac:(by left)) as [Hseen Hother].
  destruct items as [|item items]; [done|]. cbn [orb].
  rewrite !bool_decide_false by congruence. cbn [orb lift pbind].
  destruct (IH (ListState (Some next) (ls_pages st ++ [page_row (VList (item :: items)) (VDict info) (ls_cursor st)])
    (next :: ls_seen st) (Some total) (ls_observed st + Z.of_nat (length (item :: items)))) n)
    as (rows & vs & t & Hrun & Hviews & Hitems'); try done; cbn [ls_observed ls_seen]; try lia.
  { intros c Hc. destruct (Hfresh c ltac:(by right)) as [H1 H2]. split; [|congruence].
    rewrite not_elem_of_cons. split; [congruence|done]. }
  rewrite Hrun. cbn [ls_pages]. rewrite <- app_assoc.
  eexists (_ :: rows), (PageView (item :: items) total (Some next) (str_or_none (ls_cursor st)) :: vs), _.
  split_and!; [reflexivity| |cbn; by rewrite Hitems']. constructor; [|done].
  apply (views_row _ _ _ _ true); try done; [lia|]. by exists next.
Qed.

Context (declares : pystr -> pystr -> Prop) (inv : S -> inventory) (valid : S -> Prop) (Hreg : registry declares inv valid).

(** So the request gives the inventory. *)
Lemma registry_listed s :
valid s -> exists pages vs t,
  run serve s (request_schema_pages depth url token) = (Ok pages, s, t) /\
  Forall2 views pages vs /\ Forall2 reads_item (concat (map pv_items vs)) (inv s) /\ NoDup (inv s).*1.
Proof.
intros Hv. destruct (reg_list _ _ _ Hreg s Hv) as (pages & cursors & Hserved & Hnd & Hn & Hitems & Hnames).
destruct (list_loop_served _ _ _ _ _ (ListState None [] [] None 0) MAX_PAGES Hserved) as (rows & vs & t & Hrun & Hviews & Hvs);
  try done.
- cbn [ls_observed]. by rewrite (Forall2_length _ _ _ Hitems).
- intros c _. split; [apply not_elem_of_nil|done].
- exists rows, vs, t. rewrite Hvs. done.
Qed.

Lemma registry_written s name source :
valid s -> declares source name -> exists reply s' status value,
  serve s (write_call url token (inv s) (name, source)) = (reply, s') /\
  json_answer reply status value /\ valid s' /\ inv s' = ainsert name source (inv s).
Proof.
intros Hv Hd. unfold write_call. cbn [fst snd]. case_bool_decide as Hin.
- by apply (reg_update _ _ _ Hreg).
- destruct (reg_create _ _ _ Hreg s name source Hv Hd Hin) as (reply & s' & status & value & Hs & Ha & Hv' & Hi).
  exists reply, s', status, value. split_and!; [done..|]. by rewrite Hi, ainsert_new.
Qed.

Definition hashable_sources (l : inventory) : Prop :=
forall ns, ns ∈ l -> exists h, schema_hash (VStr (snd ns)) = Ok h.

Lemma is_changed_total present ns :
hashable_sources present -> (exists h, schema_hash (VStr (snd ns)) = Ok h) ->
exists b, is_changed present ns = Ok b.
Proof.
intros Hp [h Hh]. unfold is_changed. destruct (alookup (fst ns) present) as [l|] eqn:E; [|eauto].
apply alookup_Some_in in E. destruct (Hp _ E) as [h' Hh']. cbn in Hh'. rewrite Hh, Hh'. eauto.
Qed.

Lemma writes_store present l s :
valid s -> (forall ns, ns ∈ l -> declares (snd ns) (fst ns)) -> NoDup l.*1 ->
(forall ns, ns ∈ l -> (fst ns ∈ present.*1 <-> fst ns ∈ (inv s).*1)) ->
exists us s' t, run serve s (pmap (write_schema depth url token present) l) = (Ok us, s', t) /\
  valid s' /\ inv s' = store l (inv s).
Proof.
revert s. induction l as [|ns l IH]; intros s Hv Hin Hnd Hp.
- by exists [], s, [].
- apply NoDup_cons in Hnd as [Hn Hnd].
  destruct (registry_written s (fst ns) (snd ns) Hv ltac:(apply Hin; by left))
    as (reply & s1 & status & value & Hs & Hr%json_answer_read & Hv1 & Hi1).
  replace (fst ns, snd ns) with ns in Hs by (by destruct ns).
  assert (Hcall : write_call url token present ns = write_call url token (inv s) ns).
  { unfold write_call. specialize (Hp ns ltac:(by left)). repeat case_bool_decide; tauto. }
  destruct (IH s1 Hv1) as (us & s2 & t & Hrun & Hv2 & Hi2).
  + intros x Hx. apply Hin. by right.
  + done.
  + intros x Hx. rewrite Hi1, ainsert_keys. rewrite (Hp x) by by right.
    assert (fst x <> fst ns) by (intros E; apply Hn; rewrite <- E; by apply list_elem_of_fmap_2).
    case_decide; [done|]. rewrite elem_of_app, list_elem_of_singleton. tauto.
  + exists (tt :: us), s2, (write_call url token (inv s) ns :: t). cbn [pmap]. split_and!; [|done|].
    * assert (Hone : run serve s (write_schema depth url token present ns) =
        (Ok tt, s1, [write_call url token (inv s) ns])).
      { unfold write_schema, request_json. rewrite Hcall. cbn [pbind run].
        destruct (write_call url token (inv s) ns) as [m u' tk b].
        cbn [kc_method kc_url kc_token kc_body]. by rewrite Hs, Hr. }
      rewrite run_bind, Hone, run_bind, Hrun. cbn. by rewrite app_nil_r.
    * rewrite Hi2, Hi1. done.
Qed.

(** The sources that differ are the ones that are missing or have another hash;
  after they have been stored nothing differs any more. *)
Lemma store_current present ns :
NoDup expected.*1 -> hashable_sources expected -> hashable_sources present -> ns ∈ expected ->
exists listed h, alookup (fst ns) (store (changed_schemas present expected) present) = Some listed /\
  schema_hash (VStr (snd ns)) = Ok h /\ schema_hash (VStr listed) = Ok h.
Proof.
intros Hnd He Hp Hin. destruct (He ns Hin) as [h Hh].
pose proof (filter_names_nodup (fun ns => bool_decide (is_changed present ns = Ok true)) _ Hnd) as Hnd'.
fold (changed_schemas present expected) in Hnd'. rewrite alookup_store by done.
destruct (is_changed_total present ns Hp (He ns Hin)) as [[|] Hb].
- rewrite (alookup_in _ ns Hnd'); [by exists (snd ns), h|].
  apply list_elem_of_In, filter_In. rewrite <- list_elem_of_In. split; [done|].
  by apply bool_decide_eq_true.
- assert (Hnone : alookup (fst ns) (changed_schemas present expected) = None).
  { apply alookup_None. intros Hx. apply list_elem_of_fmap in Hx as (x & Hfst & Hx).
    apply list_elem_of_In, filter_In in Hx as [Hx Hc]. rewrite <- list_elem_of_In in Hx.
    apply bool_decide_eq_true in Hc. pose proof (alookup_in _ _ Hnd Hx) as H1.
    pose proof (alookup_in _ _ Hnd Hin) as H2. rewrite <- Hfst, H2 in H1. injection H1 as H1.
    assert (x = ns) as -> by (destruct x, ns; cbn in *; congruence). congruence. }
  rewrite Hnone. unfold is_changed in Hb. rewrite Hh in Hb.
  destruct (alookup (fst ns) present) as [listed|]; [|done].
  destruct (schema_hash (VStr listed)) as [h'|] eqn:El; [|done].
  apply Ok_inj, negb_false_iff, bool_decide_eq_true in Hb. subst h'. by exists listed, h.
Qed.

Lemma store_hashable l present :
hashable_sources l -> hashable_sources present -> hashable_sources (store l present).
Proof.
revert present. induction l as [|ns l IH]; intros present Hl Hp; [done|].
apply (IH (ainsert (fst ns) (snd ns) present)); [intros x Hx; apply Hl; by right|].
intros x Hx. assert (Hx' : x = ns \/ x ∈ present).
{ clear -Hx. induction present as [|[k v] d IHd]; cbn in Hx.
  - apply list_elem_of_singleton in Hx. left. by destruct ns.
  - case_decide; [apply elem_of_cons in Hx as [->|Hx]; [left; destruct ns; cbn in *; by subst|right; by right]|].
    apply elem_of_cons in Hx as [->|Hx]; [right; by left|]. destruct (IHd Hx); [by left|right; by right]. }
destruct Hx' as [->|Hx']; [apply Hl; by left|by apply Hp].
Qed.

Lemma sync_run read_text base target s :
valid s -> (forall ns, ns ∈ expected -> declares (snd ns) (fst ns)) -> local_schemas read_text = Ok expected -> schemas_url base target = Ok url ->
hashable_sources expected -> hashable_sources (inv s) ->
exists s' t, run serve s (sync_schemas depth read_text base target token) =
    (Ok (changed_schemas (inv s) expected).*1, s', t) /\ valid s' /\
  inv s' = store (changed_schemas (inv s) expected) (inv s).
Proof.
intros Hv Hdecl Hloc Hurl He Hp. destruct (registry_listed s Hv) as (pages & vs & t & Hrun & Hvs & Hes & Hd).
pose proof (local_schemas_names _ _ Hloc) as Hnames.
assert (Hnd : NoDup expected.*1) by (rewrite Hnames; apply plugin_names_nodup).
assert (Hplan : plan_schemas expected pages = Ok (inv s, changed_schemas (inv s) expected)).
{ apply (plan_schemas_ok _ _ _ _ _ Hvs). split_and!; [done..|]. apply filterM_res_total.
  intros ns Hns. apply is_changed_total; [done|by apply He]. }
destruct (writes_store (inv s) (changed_schemas (inv s) expected) s) as (us & s' & t' & Hw & Hv' & Hi).
- done.
- intros ns Hns. apply Hdecl. apply list_elem_of_In, filter_In in Hns as [Hns _]. by apply list_elem_of_In.
- by apply filter_names_nodup.
- done.
- exists s', (t ++ t'). split_and!; [|done..]. unfold sync_schemas. rewrite Hloc, Hurl. cbn [lift pbind].
  rewrite run_bind, Hrun, Hplan. cbn [pbind]. rewrite run_bind, Hw. cbn. by rewrite app_nil_r.
Qed.

Lemma check_run read_text base target s :
valid s -> local_schemas read_text = Ok expected -> schemas_url base target = Ok url ->
(forall ns, ns ∈ expected -> exists listed h, alookup (fst ns) (inv s) = Some listed /\
   schema_hash (VStr (snd ns)) = Ok h /\ schema_hash (VStr listed) = Ok h) ->
exists report t,
  run serve s (check_schemas depth read_text (u"third-party") base target token) = (Ok report, s, t).
Proof.
intros Hv Hloc Hurl Hcur. destruct (registry_listed s Hv) as (pages & vs & t & Hrun & Hvs & Hes & Hd).
pose proof (local_schemas_names _ _ Hloc) as Hnames.
assert (Hnd : NoDup expected.*1) by (rewrite Hnames; apply plugin_names_nodup).
destruct (request_schema_pages_complete depth serve _ _ _ _ _ _ Hrun) as (_ & _ & Hpages).
destruct (Hpages pages eq_refl) as (vs' & Hvs' & Hcollect).
rewrite (views_list_functional _ _ _ Hvs' Hvs) in Hcollect.
set (observed := map (fun n => (n, default [] (alookup n (inv s)))) expected.*1).
assert (Hobs : collect_schema_pages pages expected.*1 = Ok observed).
{ apply Hcollect. exists (inv s). split_and!; [done..|]. apply Forall2_fmap_r.
  apply Forall_Forall2_diag, Forall_forall. intros n (ns & -> & Hns)%list_elem_of_fmap.
  destruct (Hcur ns Hns) as (listed & h & Hl & _). cbn. by rewrite Hl. }
assert (Hkeys : observed.*1 = expected.*1).
{ unfold observed. rewrite <- list_fmap_compose. etrans; [|apply list_fmap_id].
  by apply list_fmap_ext. }
assert (Hagree : Forall (fun n => exists h, hashes_agree expected observed n h)
  (py_sort str_leb expected.*1)).
{ apply Forall_forall. intros n Hn. rewrite elem_of_py_sort, list_elem_of_fmap in Hn.
  destruct Hn as (ns & -> & Hns).
  destruct (Hcur ns Hns) as (listed & h & Hl & H1 & H2). exists h, (snd ns), listed.
  split_and!; [by apply alookup_in| |done..].
  assert (Hndo : NoDup observed.*1) by (by rewrite Hkeys).
  apply (alookup_in observed (fst ns, listed)); [done|]. apply list_elem_of_In, in_map_iff.
  exists (fst ns). rewrite Hl. split; [done|]. by apply list_elem_of_In, list_elem_of_fmap_2. }
apply Forall_exists_Forall2_l in Hagree as [hs Hhs].
assert (Hcmp : compare_schema_hashes expected observed =
  Ok (zip (py_sort str_leb expected.*1) (zip hs hs))).
{ apply compare_schema_hashes_exact; [done|]. rewrite Hkeys. split; [apply same_set_refl|by exists hs]. }
eexists _, _. unfold check_schemas. rewrite bool_decide_false by done.
rewrite Hloc, Hurl. cbn [lift pbind]. rewrite run_bind, Hrun, Hobs. cbn [pbind].
rewrite Hcmp. cbn. reflexivity.
Qed.

(** A local schema is to be written when the registry does not have it, or has another source
  of it, up to the hash. *)
Definition outdated (present : inventory) (ns : pystr * pystr) : Prop :=
forall listed, alookup (fst ns) present = Some listed -> schema_hash (VStr listed) <> schema_hash (VStr (snd ns)).

Lemma changed_schemas_outdated present ns :
hashable_sources expected -> hashable_sources present ->
ns ∈ changed_schemas present expected <-> ns ∈ expected /\ outdated present ns.
Proof.
intros He Hp. unfold changed_schemas, outdated. rewrite list_elem_of_In, filter_In, <- list_elem_of_In, bool_decide_eq_true.
split; intros [Hin Hc]; (split; [done|]); destruct (He ns Hin) as [h Hh]; unfold is_changed in *.
- intros listed Hl. rewrite Hl, Hh in Hc. destruct (schema_hash (VStr listed)) as [h'|]; [|done].
  apply Ok_inj, negb_true_iff, bool_decide_eq_false in Hc. congruence.
- destruct (alookup (fst ns) present) as [listed|] eqn:El; [|done]. specialize (Hc listed eq_refl).
  apply alookup_Some_in in El. destruct (Hp _ El) as [h' Hh']. cbn [snd] in Hh'. rewrite Hh, Hh' in *.
  by rewrite bool_decide_false by congruence.
Qed.

(** C25: Against a registry that keeps its promise, which creates with [POST] and replaces
  with [PUT], the synchronization implements the abstract update: it succeeds, writes exactly
  the local schemas that are missing or differ, in their order, and leaves every other entry
  alone; afterwards the schema check succeeds and a second synchronization writes nothing. *)
Theorem sync_refines_store read_text base target s :
valid s -> (forall ns, ns ∈ expected -> declares (snd ns) (fst ns)) ->
local_schemas read_text = Ok expected -> schemas_url base target = Ok url ->
hashable_sources expected -> hashable_sources (inv s) ->
exists written s' t,
  run serve s (sync_schemas depth read_text base target token) = (Ok written.*1, s', t) /\
  written `sublist_of` expected /\
  (forall ns, ns ∈ written <-> ns ∈ expected /\ outdated (inv s) ns) /\
  (forall name, alookup name (inv s') =
     match alookup name written with Some source => Some source | None => alookup name (inv s) end) /\
  (exists report t', run serve s'
     (check_schemas depth read_text (u"third-party") base target token) = (Ok report, s', t')) /\
  exists s2 t2, run serve s' (sync_schemas depth read_text base target token) = (Ok [], s2, t2) /\
    inv s2 = inv s'.
Proof.
intros Hv Hdecl Hloc Hurl He Hp.
destruct (sync_run read_text base target s Hv Hdecl Hloc Hurl He Hp) as (s' & t & Hrun & Hv' & Hi).
assert (Hnd : NoDup expected.*1).
{ rewrite (local_schemas_names _ _ Hloc). apply plugin_names_nodup. }
assert (Hch : hashable_sources (changed_schemas (inv s) expected)).
{ intros ns Hns. apply He. by apply changed_schemas_outdated in Hns as [Hns _]. }
assert (Hcur : forall ns, ns ∈ expected -> exists listed h, alookup (fst ns) (inv s') = Some listed /\
   schema_hash (VStr (snd ns)) = Ok h /\ schema_hash (VStr listed) = Ok h).
{ intros ns Hns. rewrite Hi. by apply store_current. }
assert (Hp' : hashable_sources (inv s')) by (rewrite Hi; by apply store_hashable).
assert (Hnil : changed_schemas (inv s') expected = []).
{ destruct (changed_schemas (inv s') expected) as [|ns l] eqn:E; [done|]. exfalso.
  assert (Hin : ns ∈ changed_schemas (inv s') expected) by (rewrite E; by left).
  apply changed_schemas_outdated in Hin as [Hin Hout]; [|done..].
  destruct (Hcur ns Hin) as (listed & h & Hl & H1 & H2). apply (Hout listed Hl). congruence. }
exists (changed_schemas (inv s) expected), s', t. split_and!; [done| |intros ns; by apply changed_schemas_outdated| | |].
- clear. unfold changed_schemas. generalize (fun ns => bool_decide (is_changed (inv s) ns = Ok true)) as f. intros f.
  induction expected as [|ns l IH]; [constructor|]. cbn. destruct (f ns); by constructor.
- intros n. rewrite Hi. apply alookup_store. by apply filter_names_nodup.
- by apply check_run.
- destruct (sync_run read_text base target s' Hv' Hdecl Hloc Hurl He Hp') as (s2 & t2 & Hrun2 & _ & Hi2).
  rewrite Hnil in Hrun2, Hi2. by exists s2, t2.
Qed.
End registry.

(** ** A concrete registry *)

Module KonnectSample.
Definition local_source (path : pystr) : res pystr :=
if bool_decide (path = u"kong/plugins/fapi-as-mtls-transport/schema.lua")
then Ok (u"return transport") else Ok (u"return bridge").

Definition expected : inventory :=
[(u"fapi-as-mtls-transport", u"return transport"); (u"fapi-client-auth-bridge", u"return bridge")].

Definition base : pystr := u"https://eu.api.konghq.com".
Definition target : pydict := [(u"control_plane_id", jstr "0f45debe-a3a6-5207-aea3-637227fb96f2")].
Definition url : pystr :=
base ++ u"/v2/control-planes/0f45debe-a3a6-5207-aea3-637227fb96f2/core-entities/plugin-schemas".
Definition token : pystr := u"kpat".

(** One entry of another plugin and an old source of the second one. *)
Definition initial : inventory :=
[(u"other", u"return other"); (u"fapi-client-auth-bridge", u"return old")].

Definition states : list inventory :=
[initial; store [(u"fapi-as-mtls-transport", u"return transport")] initial;
 store [(u"fapi-client-auth-bridge", u"return bridge")] initial; store expected initial].

Definition list_body (inv : inventory) : pyval :=
VDict [(u"items", VList (map (fun ns => VDict [(u"name", VStr (fst ns));
                                               (u"lua_schema", VStr (snd ns))]) inv));
       (u"page", VDict [(u"total_count", VInt (Z.of_nat (length inv)));
                        (u"has_next_page", VBool false); (u"next_cursor", VNone)])].

(** The name that a source declares. *)
Definition declared (source : pystr) : option pystr := alookup source (map (fun ns => (snd ns, fst ns)) expected).

Definition serve (inv : inventory) (q : konnect_call) : konnect_reply * inventory :=
if bool_decide (kc_method q = "GET"%string)
then (Reply 200 (Some (dumps {| sort_keys := false; allow_nan := false |} (list_body inv))), inv)
else
  match kc_body q with
  | Some (VDict [(_, VStr source)]) =>
      match declared source with
      | Some name =>
          if bool_decide (kc_method q = "POST"%string) && bool_decide (kc_url q = url)
          then if bool_decide (name ∈ inv.*1) then (HttpFailure 409, inv) else (Reply 201 None, inv ++ [(name, source)])
          else if bool_decide (kc_method q = "PUT"%string) && bool_decide (kc_url q = url ++ u"/" ++ name)
          then if bool_decide (name ∈ inv.*1) then (Reply 200 None, ainsert name source inv) else (HttpFailure 404, inv)
          else (HttpFailure 404, inv)
      | None => (HttpFailure 400, inv)
      end
  | _ => (HttpFailure 400, inv)
  end.

Definition list_text (inv : inventory) : pystr :=
match dumps {| sort_keys := false; allow_nan := false |} (list_body inv) with Ok t => t | Err _ => [] end.

Lemma list_served s : s ∈ states ->
pages_served 10 serve url token s (Z.of_nat (length s)) None
  [map (fun ns => VDict [(u"name", VStr (fst ns)); (u"lua_schema", VStr (snd ns))]) s] [] /\
Forall2 reads_item (map (fun ns => VDict [(u"name", VStr (fst ns)); (u"lua_schema", VStr (snd ns))]) s) s /\ NoDup s.*1.
Proof.
  intros Hs. unfold states in Hs. rewrite !elem_of_cons, elem_of_nil in Hs.
  assert (Hload : loads_plain 10 (list_text s) = Ok (list_body s) /\
    dumps {| sort_keys := false; allow_nan := false |} (list_body s) = Ok (list_text s))
    by (destruct Hs as [->|[->|[->|[->|[]]]]]; vm_compute; split; reflexivity).
  split_and!.
  - eapply last_page.
    + reflexivity.
    + unfold serve. cbn [kc_method]. rewrite bool_decide_true by done. rewrite (proj2 Hload). reflexivity.
    + constructor. exact (proj1 Hload).
    + reflexivity.
    + reflexivity.
    + reflexivity.
    + reflexivity.
  - destruct Hs as [->|[->|[->|[->|[]]]]]; repeat constructor; eexists; split_and!; reflexivity || done.
  - destruct Hs as [->|[->|[->|[->|[]]]]]; apply (bool_decide_unpack _); by vm_compute.
Qed.

Lemma declared_expected source name : declared source = Some name -> (name, source) ∈ expected.
Proof.
  intros H%alookup_Some_in. apply list_elem_of_fmap in H as ([n s] & [= -> ->] & H). exact H.
Qed.

Lemma keeps_promise : registry 10 serve url token (fun source name => declared source = Some name) (fun s => s) (fun s => s ∈ states).
Proof.
split.
- intros s Hs. destruct (list_served s Hs) as (H1 & H2 & H3). eexists _, []. split_and!; [exact H1|constructor|cbn; lia| |done].
  cbn [concat]. by rewrite app_nil_r.
- intros s name source Hs Hd Hnew. pose proof (declared_expected _ _ Hd) as Hin. unfold states in Hs.
  unfold expected in Hin. rewrite !elem_of_cons, elem_of_nil in Hs. rewrite !elem_of_cons, elem_of_nil in Hin.
  exists (Reply 201 None), (s ++ [(name, source)]), 201, (VDict []). split_and!; [|constructor| |done].
  + unfold serve. cbn [kc_method kc_body kc_url]. rewrite Hd. rewrite bool_decide_false by done.
    rewrite !bool_decide_true by done. cbn [andb]. by rewrite bool_decide_false.
  + destruct Hin as [[= -> ->]|[[= -> ->]|[]]], Hs as [->|[->|[->|[->|[]]]]];
      first [apply (bool_decide_unpack _); by vm_compute | exfalso; apply Hnew; apply (bool_decide_unpack _); by vm_compute].
- intros s name source Hs Hd Hold. pose proof (declared_expected _ _ Hd) as Hin. unfold states in Hs.
  unfold expected in Hin. rewrite !elem_of_cons, elem_of_nil in Hs. rewrite !elem_of_cons, elem_of_nil in Hin.
  exists (Reply 200 None), (ainsert name source s), 200, (VDict []). split_and!; [|constructor| |done].
  + unfold serve. cbn [kc_method kc_body kc_url]. rewrite Hd. rewrite bool_decide_false by done.
    rewrite (bool_decide_false ("PUT"%string = "POST"%string)) by done. cbn [andb].
    rewrite !bool_decide_true by done. done.
  + destruct Hin as [[= -> ->]|[[= -> ->]|[]]], Hs as [->|[->|[->|[->|[]]]]];
      apply (bool_decide_unpack _); by vm_compute.
Qed.
End KonnectSample.

Lemma sync_refines_store_witness :
  exists s' t, run KonnectSample.serve KonnectSample.initial
      (sync_schemas 10 KonnectSample.local_source KonnectSample.base KonnectSample.target
         KonnectSample.token) =
    (Ok [u"fapi-as-mtls-transport"; u"fapi-client-auth-bridge"], s', t) /\
    alookup (u"other") s' = Some (u"return other").
Proof.
  destruct (sync_refines_store 10 KonnectSample.serve KonnectSample.expected KonnectSample.url
    KonnectSample.token (fun source name => KonnectSample.declared source = Some name) (fun s => s)
    (fun s => s ∈ KonnectSample.states)
    KonnectSample.keeps_promise KonnectSample.local_source KonnectSample.base KonnectSample.target
    KonnectSample.initial) as (written & s' & t & Hrun & Hsub & Hwritten & Hinv & _).
  - by left.
  - intros ns Hns. unfold KonnectSample.expected in Hns. rewrite !elem_of_cons, elem_of_nil in Hns.
    destruct Hns as [->|[->|[]]]; vm_compute; reflexivity.
  - vm_compute. reflexivity.
  - vm_compute. reflexivity.
  - intros ns Hns. unfold KonnectSample.expected in Hns. rewrite !elem_of_cons, elem_of_nil in Hns.
    destruct Hns as [->|[->|[]]]; eexists; vm_compute; reflexivity.
  - intros ns Hns. cbv beta delta [KonnectSample.initial] in Hns. rewrite !elem_of_cons, elem_of_nil in Hns.
    destruct Hns as [->|[->|[]]]; eexists; vm_compute; reflexivity.
  - exists s', t. assert (Hr : fst (fst (run KonnectSample.serve KonnectSample.initial
      (sync_schemas 10 KonnectSample.local_source KonnectSample.base KonnectSample.target KonnectSample.token)))
      = Ok [u"fapi-as-mtls-transport"; u"fapi-client-auth-bridge"]) by (vm_compute; reflexivity).
    pose proof Hr as Hr'. rewrite Hrun in Hr'. cbn [fst] in Hr'. rewrite Hr' in Hrun. split; [exact Hrun|].
    rewrite (Hinv (u"other")). apply Ok_inj in Hr'.
    assert (alookup (u"other") written = None) as ->; [|vm_compute; reflexivity].
    apply alookup_None. rewrite Hr'. apply (bool_decide_unpack _). by vm_compute.
Defined.

Lemma sync_schemas_writes_witness :
  exists r s' t reads writes,
    run KonnectSample.serve KonnectSample.initial
      (sync_schemas 10 KonnectSample.local_source KonnectSample.base KonnectSample.target
         KonnectSample.token) = (r, s', t) /\
    t = reads ++ writes /\ Forall (fun q => kc_method q = "GET"%string) reads.
Proof.
  destruct (run KonnectSample.serve KonnectSample.initial
    (sync_schemas 10 KonnectSample.local_source KonnectSample.base KonnectSample.target
       KonnectSample.token)) as [[r s'] t] eqn:E.
  destruct (sync_schemas_writes 10 KonnectSample.serve _ _ _ _ _ _ _ _ E)
    as (reads & writes & H1 & H2 & _).
  exists r, s', t, reads, writes. split; [reflexivity|]. split; [exact H1|exact H2].
Defined.

Lemma request_schema_pages_complete_witness :
  exists r s' t, run KonnectSample.serve KonnectSample.initial
      (request_schema_pages 10 KonnectSample.url KonnectSample.token) = (r, s', t) /\
    (length t <= MAX_PAGES)%nat.
Proof.
  destruct (run KonnectSample.serve KonnectSample.initial
    (request_schema_pages 10 KonnectSample.url KonnectSample.token)) as [[r s'] t] eqn:E.
  exists r, s', t. split; [reflexivity|].
  exact (proj1 (request_schema_pages_complete 10 KonnectSample.serve _ _ _ _ _ _ E)).
Defined.
