(* ===== verification/LocalFiles.v ===== *)
(** The files the deployment scripts read: a view of the file system, private
    and digested files ([file_sha256], [_read_private_approval_bytes],
    [read_private_role_file]), configuration files ([read_config], [read_env])
    and canonical digests ([canonical_sha256]). *)
From S2P Require Export Json Sha256 Codec.

Local Open Scope Z_scope.

(** ** The file system as the scripts observe it *)

Inductive fnode :=
  | FDir
  | FFile (mode : Z) (content : bytes)
  | FOther.

(** What a path leads to (following links), whether the path itself is a
    symbolic link, and whether opening it for reading is refused. *)
Record fsys := Fsys {
  node_at : pystr -> option fnode; is_symlink : pystr -> bool; unreadable : pystr -> bool
}.

(** [root / relative] and [path.parent]; the scripts' paths are fixed texts below
    the root, so a path is named by its text relative to the root. *)
Definition is_file (fs : fsys) (path : pystr) : bool :=
  match node_at fs path with Some (FFile _ _) => true | _ => false end.
Definition is_dir (fs : fsys) (path : pystr) : bool :=
  match node_at fs path with Some FDir => true | _ => false end.
Definition path_exists (fs : fsys) (path : pystr) : bool :=
  match node_at fs path with Some _ => true | None => false end.

(** [os.open(path, os.O_RDONLY | os.O_NOFOLLOW | os.O_CLOEXEC)]: what the
    descriptor refers to. *)
Definition open_nofollow (fs : fsys) (path : pystr) : res fnode :=
  if is_symlink fs path then raise OSError "Too many levels of symbolic links"
  else match node_at fs path with
       | None => raise FileNotFoundError "No such file or directory"
       | Some node => if unreadable fs path then raise OSError "Permission denied" else Ok node
       end.

(** The universal newlines of text mode. *)
Fixpoint universal_newlines (s : pystr) : pystr :=
  match s with
  | [] => []
  | c :: r =>
      if c =? 13
      then 10 :: match r with
                 | d :: r' => if d =? 10 then universal_newlines r' else universal_newlines r
                 | [] => []
                 end
      else c :: universal_newlines r
  end.

Definition decode_utf8 (b : bytes) : res pystr :=
  match utf8_decode b with
  | Some s => Ok s
  | None => raise UnicodeError "'utf-8' codec can't decode bytes"
  end.

(** [path.read_text()] *)
Definition read_text (fs : fsys) (path : pystr) : res pystr :=
  match node_at fs path with
  | None => raise FileNotFoundError "No such file or directory"
  | Some (FFile _ content) =>
      if unreadable fs path then raise OSError "Permission denied"
      else let* s := decode_utf8 content in Ok (universal_newlines s)
  | Some _ => raise OSError "Is a directory"
  end.

(** ** Digests *)

(** [file_sha256(path)] *)
Definition file_sha256 (fs : fsys) (path : pystr) : res pystr :=
  let* node := catch (open_nofollow fs path) [OSError]
                 (fun _ => raise ValueError "file to digest is missing or unsafe") in
  match node with
  | FFile _ content => Ok (hexlify (sha256 content))
  | _ => raise ValueError "file to digest is missing or unsafe"
  end.

Definition canonical_opts : dump_opts := {| sort_keys := true; allow_nan := true |}.

(** [canonical_sha256(value)]: the JSON text is ASCII. *)
Definition canonical_sha256 (value : pyval) : res pystr :=
  let* content := dumps canonical_opts value in
  match utf8_encode content with
  | Some b => Ok (hexlify (sha256 b))
  | None => raise UnicodeError "surrogates not allowed"
  end.

(** [re.fullmatch(r"[0-9a-f]{64}", value)] *)
Definition is_digest (s : pystr) : bool := (length s =? 64)%nat && forallb is_hex_lower s.

(** ** Private files *)

Definition MODE_PRIVATE : Z := 384. (* 0o600 *)

(** The permission bits of [st_mode], [stat.S_IMODE]. *)
Definition mode_bits (mode : Z) : Z := Z.land mode 4095.

Definition MAX_APPROVAL_BYTES : Z := 16384.
Definition MAX_ROLE_FILE_BYTES : Z := 1048576.

(** [info = os.fstat(descriptor)] and [stream.read(limit + 1)], with the size
    checked before and after the read. *)
Definition read_bounded (private : bool) (limit : Z) (msg : string) (node : fnode) : res bytes :=
  match node with
  | FFile mode content =>
      if (private && negb (mode_bits mode =? MODE_PRIVATE))
         || (limit <? Z.of_nat (length content))
      then raise ValueError msg
      else
        let content := take (Z.to_nat (limit + 1)) content in
        if limit <? Z.of_nat (length content) then raise ValueError msg else Ok content
  | _ => raise ValueError msg
  end.

(** [_read_private_approval_bytes(path)] of [wp3_runtime.py] *)
Definition read_private_approval_bytes (fs : fsys) (path : pystr) : res bytes :=
  let* node := open_nofollow fs path in
  read_bounded true MAX_APPROVAL_BYTES
    "API runtime migration approval receipt must be a regular mode-0600 file under 16 KiB" node.

(** [_read_wp5_approval_bytes(path)] of [run-deck.py] *)
Definition read_wp5_approval_bytes (fs : fsys) (path : pystr) : res bytes :=
  let* node := catch (open_nofollow fs path) [OSError]
    (fun _ => raise ValueError "third-party runtime approval receipt is missing or unsafe") in
  read_bounded true MAX_APPROVAL_BYTES
    "third-party runtime approval receipt must be a regular mode-0600 file under 16 KiB" node.

(** [parent.is_symlink() or not parent.is_dir()] is false for both parents. *)
Definition safe_dir (fs : fsys) (dir : pystr) : bool :=
  negb (is_symlink fs dir) && is_dir fs dir.

Definition GENERATED : pystr := u".generated".
Definition EVIDENCE : pystr := u".generated/evidence".

(** [read_private_role_file(path, require_private_mode)]; the directory of the
    role files is [GENERATED]. *)
Definition read_private_role_file (depth : nat) (fs : fsys) (path : pystr) (private : bool)
    : res pyval :=
  if negb (safe_dir fs GENERATED)
  then raise ValueError "role-scoped decK input directory is missing or unsafe"
  else
    let* node := catch (open_nofollow fs path) [OSError]
      (fun _ => raise ValueError "role-scoped decK inputs are missing or unsafe") in
    let* raw := read_bounded private MAX_ROLE_FILE_BYTES
      "role-scoped decK input must be a regular file with safe permissions under 1 MiB" node in
    catch (let* text := decode_utf8 raw in loads_plain depth text)
      [UnicodeError; JSONDecodeError]
      (fun _ => raise ValueError "role-scoped decK inputs are malformed").

(** ** Configuration files *)

(** The line boundaries of [str.splitlines], a carriage return before a line
    feed aside. *)
Definition is_line_break (c : Z) : bool :=
  ((10 <=? c) && (c <=? 13)) || ((28 <=? c) && (c <=? 30)) || (c =? 133)
  || (c =? 8232) || (c =? 8233).

(** [s.splitlines()]; [acc] is the line being read, reversed. *)
Fixpoint splitlines_from (acc : pystr) (s : pystr) : list pystr :=
  match s with
  | [] => match acc with [] => [] | _ => [rev acc] end
  | c :: r =>
      if is_line_break c
      then rev acc :: match c =? 13, r with
                      | true, d :: r' => if d =? 10 then splitlines_from [] r'
                                         else splitlines_from [] r
                      | _, _ => splitlines_from [] r
                      end
      else splitlines_from (c :: acc) r
  end.
Definition splitlines (s : pystr) : list pystr := splitlines_from [] s.

Definition is_quote (c : Z) : bool := (c =? 34) || (c =? 39).

(** [value.strip()] without the quotes around it. *)
Definition config_value (value : pystr) : pystr := strip_while is_quote (py_strip value).

(** One line: its key and value, unless it is blank, a comment or has no [=]. *)
Definition config_line (line : pystr) : option (pystr * pystr) :=
  let line := py_strip line in
  match line with
  | [] => None
  | c :: _ =>
      if c =? 35 then None
      else match partition_on 61 line with
           | (key, _ :: _, value) => Some (key, config_value value)
           | _ => None
           end
  end.

Definition read_values (accept : pystr -> bool) (lines : list pystr) : list (pystr * pystr) :=
  fold_left (fun values line =>
    match config_line line with
    | Some (key, value) => if accept key then ainsert key value values else values
    | None => values
    end) lines [].

Definition read_values_file (accept : pystr -> bool) (fs : fsys) (path : pystr)
    : res (list (pystr * pystr)) :=
  if path_exists fs path
  then let* text := read_text fs path in Ok (read_values accept (splitlines text))
  else Ok [].

Definition CONFIG_KEYS : list pystr :=
  [u"TF_VAR_control_plane_name"; u"TF_VAR_third_party_control_plane_name"; u"KONNECT_SERVER_URL"].

(** [read_config(path)] *)
Definition read_config (fs : fsys) (path : pystr) : res (list (pystr * pystr)) :=
  read_values_file (fun key => bool_decide (key ∈ CONFIG_KEYS)) fs path.

Definition is_name_start (c : Z) : bool := is_upper c || is_lower c || (c =? 95).
(** [re.fullmatch(r"[A-Za-z_][A-Za-z0-9_]*", key)] *)
Definition is_env_name (key : pystr) : bool :=
  match key with
  | [] => false
  | c :: r => is_name_start c && forallb (fun c => is_name_start c || is_digit c) r
  end.

(** [read_env(path)] *)
Definition read_env (fs : fsys) (path : pystr) : res (list (pystr * pystr)) :=
  read_values_file is_env_name fs path.

(** ** Lemmas *)

Lemma is_digest_sha b : is_digest (hexlify (sha256 b)) = true.
Proof.
  unfold is_digest. rewrite hexlify_length, sha256_length. cbn [Nat.mul Nat.eqb Nat.add andb].
  apply forallb_Forall, hexlify_class.
Qed.

Lemma file_sha256_digest fs path d : file_sha256 fs path = Ok d -> is_digest d = true.
Proof.
  unfold file_sha256. intros H. destruct (catch _ _ _) as [[]|]; try discriminate H.
  apply Ok_inj in H as <-. apply is_digest_sha.
Qed.

Lemma canonical_sha256_digest v d : canonical_sha256 v = Ok d -> is_digest d = true.
Proof.
  unfold canonical_sha256. intros H. destruct (dumps _ v); [|discriminate H].
  destruct (utf8_encode _); [|discriminate H]. apply Ok_inj in H as <-. apply is_digest_sha.
Qed.

(** A value that can be written has a digest. *)
Lemma canonical_sha256_total v :
  match dumps canonical_opts v with
  | Ok t => bool_decide (is_Some (utf8_encode t))
  | Err _ => false
  end = true ->
  exists d, canonical_sha256 v = Ok d.
Proof.
  unfold canonical_sha256. destruct (dumps canonical_opts v); [|done].
  intros [b ->]%bool_decide_eq_true. by eexists.
Qed.

Lemma canonical_sha256_writable v : writable v = true -> exists d, canonical_sha256 v = Ok d /\ is_digest d = true.
Proof.
  intros (t & Ht & Ha)%(dumps_writable canonical_opts). unfold canonical_sha256.
  rewrite Ht, (utf8_encode_ascii _ Ha). eexists. split; [done|]. apply is_digest_sha.
Qed.

Lemma read_bounded_exact private limit msg node b :
  0 <= limit ->
  read_bounded private limit msg node = Ok b <->
  exists mode, node = FFile mode b /\ (private = true -> mode_bits mode = MODE_PRIVATE) /\
    Z.of_nat (length b) <= limit.
Proof.
  intros Hl. unfold read_bounded. destruct node as [|mode content|]; [naive_solver| |naive_solver].
  destruct (private && negb (mode_bits mode =? MODE_PRIVATE)) eqn:Ep; cbn [orb].
  - split; [done|]. intros (m & [= -> ->] & Hm & _). bool_prop. destruct private; [|done].
    rewrite (Hm eq_refl) in *. done.
  - destruct (limit <? Z.of_nat (length content)) eqn:El; bool_prop.
    + split; [done|]. intros (m & [= -> ->] & _ & ?). lia.
    + rewrite take_ge by lia. rewrite (proj2 (Z.ltb_ge limit _)) by lia. split.
      * intros <-%Ok_inj. exists mode. split_and!; [done| |done]. intros ->. cbn in Ep.
        by apply negb_false_iff, Z.eqb_eq in Ep.
      * by intros (m & [= -> ->] & _ & _).
Qed.

Lemma open_nofollow_ok fs path node :
  open_nofollow fs path = Ok node <->
  is_symlink fs path = false /\ unreadable fs path = false /\ node_at fs path = Some node.
Proof.
  unfold open_nofollow. destruct (is_symlink fs path), (node_at fs path), (unreadable fs path);
    naive_solver.
Qed.

(** A private receipt is read exactly when the path is not a symbolic link
    and leads to a readable regular file of mode 0600 with at most 16 KiB; the
    whole content is returned, by both readers. *)
Theorem private_receipt_exact fs path b :
  (read_private_approval_bytes fs path = Ok b <->
   exists mode, is_symlink fs path = false /\ unreadable fs path = false /\
     node_at fs path = Some (FFile mode b) /\ mode_bits mode = MODE_PRIVATE /\
     Z.of_nat (length b) <= MAX_APPROVAL_BYTES) /\
  (read_wp5_approval_bytes fs path = Ok b <-> read_private_approval_bytes fs path = Ok b).
Proof.
  assert (H1 : forall msg, (let* node := open_nofollow fs path in
      read_bounded true MAX_APPROVAL_BYTES msg node) = Ok b <->
    exists mode, is_symlink fs path = false /\ unreadable fs path = false /\
     node_at fs path = Some (FFile mode b) /\ mode_bits mode = MODE_PRIVATE /\
     Z.of_nat (length b) <= MAX_APPROVAL_BYTES).
  { intros msg. split.
    - destruct (open_nofollow fs path) as [node|] eqn:E; [|done].
      apply open_nofollow_ok in E as (? & ? & Hn).
      intros (mode & -> & Hm & Hl)%read_bounded_exact; [|done]. exists mode. split_and!; auto.
    - intros (mode & Hs & Hu & Hn & Hm & Hl).
      rewrite (proj2 (open_nofollow_ok fs path (FFile mode b))) by done.
      apply read_bounded_exact; [done|]. by exists mode. }
  split; [apply H1|]. unfold read_private_approval_bytes. rewrite H1.
  rewrite <- (H1 "third-party runtime approval receipt must be a regular mode-0600 file under 16 KiB"%string).
  unfold read_wp5_approval_bytes, catch. destruct (open_nofollow fs path) as [node|e]; [done|].
  by destruct (existsb _ _).
Qed.

(** ** Lines *)

Definition one_line (s : pystr) : Prop := Forall (fun c => is_line_break c = false) s.

Lemma splitlines_line line rest :
  one_line line ->
  splitlines (line ++ 10 :: rest) = line :: splitlines rest.
Proof.
  intros Hl. unfold splitlines.
  enough (H : forall acc, splitlines_from acc (line ++ 10 :: rest) = (rev acc ++ line) :: splitlines_from [] rest)
    by apply H.
  induction Hl as [|c line Hc _ IH]; intros acc; cbn [app splitlines_from].
  - cbn. by rewrite app_nil_r.
  - rewrite Hc, IH. cbn [rev]. by rewrite <- app_assoc.
Qed.

Lemma splitlines_from_lines n s acc :
  (length s <= n)%nat -> one_line (rev acc) -> Forall one_line (splitlines_from acc s).
Proof.
  assert (Hend : forall acc, one_line (rev acc) -> Forall one_line match acc with [] => [] | _ => [rev acc] end).
  { intros [|c acc'] H; by repeat constructor. }
  revert s acc. induction n as [|n IH]; intros s acc Hn Hacc; destruct s as [|c s]; cbn [splitlines_from];
    try by apply Hend. { cbn in Hn; lia. } cbn [length] in Hn.
  destruct (is_line_break c) eqn:E.
  - constructor; [done|]. destruct (c =? 13); [|apply IH; [lia|constructor]].
    destruct s as [|d s]; [apply IH; [cbn; lia|constructor]|]. cbn [length] in Hn.
    destruct (d =? 10); apply IH; try constructor; cbn [length]; lia.
  - apply IH; [lia|]. cbn [rev]. unfold one_line. apply Forall_app. split; [done|by constructor].
Qed.

Lemma splitlines_lines s : Forall one_line (splitlines s).
Proof. apply (splitlines_from_lines (length s)); [done|constructor]. Qed.

(** Lines that were joined are split again. *)
Lemma splitlines_join lines :
  Forall one_line lines -> lines <> [] -> splitlines (Json.join [10] lines ++ [10]) = lines.
Proof.
  intros Hall Hne. induction Hall as [|line lines Hline Hall IH]; [done|].
  destruct lines as [|line2 lines].
  - cbn [Json.join]. by rewrite splitlines_line.
  - rewrite join_cons2, <- app_assoc, <- app_assoc. change ([10] ++ ?x) with (10 :: x).
    by rewrite splitlines_line, IH.
Qed.
