(* ===== verification/RoleInputs.v ===== *)
(** The certificate and key inputs of a gateway role in
    [src/scripts/wp1_target.py]: the shape of a single PEM certificate, the
    decoding by [openssl], the fields of each role and the comparison of the
    shared CA with the one at Konnect. *)
From S2P Require Export Konnect LocalFiles.

Local Open Scope Z_scope.

(** ** PEM texts *)

(** [\s] of an ASCII pattern. *)
Definition is_ascii_blank (c : Z) : bool := ((9 <=? c) && (c <=? 13)) || (c =? 32).
Definition is_base64 (c : Z) : bool := is_alnum c || (c =? 43) || (c =? 47) || (c =? 61).

Definition PEM_BEGIN : pystr := u"-----BEGIN CERTIFICATE-----".
Definition PEM_END : pystr := u"-----END CERTIFICATE-----".

Definition pem_end (s : pystr) : bool :=
  starts_with PEM_END s && forallb is_ascii_blank (drop (length PEM_END) s).

(** The lines after the header; [filled] says that the current line has a
    character. *)
Fixpoint pem_lines (filled : bool) (s : pystr) : bool :=
  match s with
  | [] => false
  | c :: r =>
      if is_base64 c then pem_lines true r
      else if negb filled then false
      else if c =? 10 then pem_end r || pem_lines false r
      else match c =? 13, r with
           | true, d :: r' => (d =? 10) && (pem_end r' || pem_lines false r')
           | _, _ => false
           end
  end.

(** [SINGLE_CERTIFICATE_PEM.fullmatch(pem)] *)
Definition single_certificate_pem (pem : pystr) : bool :=
  let s := lstrip_while is_ascii_blank pem in
  starts_with PEM_BEGIN s &&
  match drop (length PEM_BEGIN) s with
  | c :: r =>
      if c =? 10 then pem_lines false r
      else match c =? 13, r with
           | true, d :: r' => (d =? 10) && pem_lines false r'
           | _, _ => false
           end
  | [] => false
  end.

(** ** [openssl] *)

(** [subprocess.run] of [openssl x509 -inform PEM -outform DER] with the PEM text
    as input: the return code and the output, or [OSError] or [TimeoutExpired]. *)
Class OpenSSL := { openssl_x509_der : bytes -> res (Z * bytes) }.

Section roles.
Context `{OpenSSL} (depth : nat).

Definition malformed_certificate {A} : res A :=
  raise ValueError "role-scoped certificate input is missing or malformed".

Definition certificate_der (value : pyval) : res bytes :=
  match value with
  | VStr (c :: s) =>
      let pem := replace_sub [92; 110] [10] (c :: s) in
      if negb (single_certificate_pem pem) then malformed_certificate
      else
        let* (returncode, stdout) :=
          catch (match ascii_encode pem with
                 | Some input => openssl_x509_der input
                 | None => raise UnicodeError "'ascii' codec can't encode character"
                 end) [OSError; UnicodeError; TimeoutExpired] (fun _ => malformed_certificate) in
        if negb (returncode =? 0) || bool_decide (stdout = []) then malformed_certificate
        else Ok stdout
  | _ => malformed_certificate
  end.

(** ** Fields of a role *)

Record role_fields := RoleFields { certificates : list pystr; keys : list pystr }.

Definition ROLE_INPUT_FIELDS (gateway : pystr) : res role_fields :=
  if bool_decide (gateway = u"api")
  then Ok (RoleFields
         [u"DECK_FAPI_CA_CERT_YAML"; u"DECK_API_INTROSPECTION_CERT_YAML";
          u"DECK_API_UPSTREAM_CERT_YAML"]
         [u"API_INTROSPECTION_KEY"; u"API_UPSTREAM_KEY"])
  else if bool_decide (gateway = u"third-party")
  then Ok (RoleFields
         [u"DECK_FAPI_CA_CERT_YAML"; u"DECK_ROUTE_A_TLS_CERT_YAML";
          u"DECK_ROUTE_B_TLS_CERT_YAML"; u"DECK_BACKEND_HOP_CERT_YAML"]
         [u"ROUTE_A_TLS_KEY"; u"ROUTE_B_TLS_KEY"; u"BACKEND_HOP_KEY"])
  else Err (Exn KeyError gateway).

Definition malformed_fields {A} : res A :=
  raise ValueError "role-scoped decK input fields are malformed".

Definition key_text_ok (value : pyval) : bool :=
  match value with
  | VStr s => starts_with (u"-----BEGIN ") s && is_infix (u"PRIVATE KEY-----") s
  | _ => false
  end.

Definition check_certificate (d : pydict) (_ : unit) (name : pystr) : res unit :=
  let* value := dict_item d name in let* _ := certificate_der value in Ok tt.

Definition check_key (d : pydict) (_ : unit) (name : pystr) : res unit :=
  let* value := dict_item d name in
  if key_text_ok value then Ok tt else malformed_fields.

Definition validate_role_values (gateway : pystr) (role_values : pyval) : res pydict :=
  match role_values with
  | VDict d =>
      let* fields := ROLE_INPUT_FIELDS gateway in
      if negb (keys_are d (certificates fields ++ keys fields)) then malformed_fields
      else
        let* _ := foldM_res (check_certificate d) (certificates fields) tt in
        let* _ := foldM_res (check_key d) (keys fields) tt in
        Ok d
  | _ => raise ValueError "role-scoped decK input is malformed"
  end.

(** ** The shared CA *)

Definition SHARED_API_CA_ID : pystr := u"33333333-3333-4333-8333-333333333333".

Definition ca_metadata_ok (remote : pydict) : bool :=
  py_eq (dict_get remote (u"id")) (VStr SHARED_API_CA_ID) &&
  match dict_get remote (u"tags") with
  | VList [VStr tag] => bool_decide (tag = u"fapi2-demo")
  | _ => false
  end.

Definition compare_ca (remote : pydict) (role_certificate : pyval) : res unit :=
  let* (remote_der, expected_der) :=
    catch (let* remote_der := certificate_der (dict_get remote (u"cert")) in
           let* expected_der := certificate_der role_certificate in
           Ok (remote_der, expected_der))
      [ValueError]
      (fun _ => raise ValueError "required shared API CA certificate is malformed") in
  if negb (bool_decide (remote_der = expected_der))
  then raise ValueError "required shared API CA certificate does not match runtime input"
  else Ok tt.

Definition verify_shared_api_ca (base : pystr) (target : pydict) (token : pystr)
    (role_certificate : pyval) : konnect unit :=
  do* plane := lift (plane_url base target) in
  do* (status, response) :=
    get_json depth (plane ++ u"/core-entities/ca_certificates/" ++ SHARED_API_CA_ID) token in
  if negb (status =? 200) || negb (is_dict response)
  then lift (raise ValueError "required shared API CA could not be verified")
  else
    do* remote := lift (response_data response) in
    match remote with
    | VDict r =>
        if ca_metadata_ok r then lift (compare_ca r role_certificate)
        else lift (raise ValueError "required shared API CA metadata does not match")
    | _ => lift (raise ValueError "required shared API CA metadata does not match")
    end.
End roles.
