(* ===== verification/DeckYaml.v ===== *)
(** Reading decK state files: the substitution of environment templates and the
    construction of YAML values without duplicate keys, which the two copies of
    [UniqueKeyLoader], [_parse_foundation] ([src/scripts/wp1_target.py]) and
    [_parse_state] ([src/scripts/wp3_runtime.py]) share. *)
From S2P Require Export LocalFiles Url.

Local Open Scope Z_scope.

(** ** YAML *)

(** A key of a mapping: a string, another hashable value (numbered, equal values
    alike), or a value that cannot be hashed. *)
Inductive ykey :=
  | KStr (s : pystr)
  | KOther (n : Z)
  | KUnhashable.

(** The node tree after merge keys have been flattened, scalars constructed. *)
Inductive ynode :=
  | YScalar (v : pyval)
  | YSeq (l : list ynode)
  | YMap (l : list (ykey * ynode)).

(** The YAML library: parsing a text to its node tree. *)
Class Yaml := { yaml_compose : pystr -> option ynode }.

(** A key of the constructed dictionary.  Keys that are not strings are named by
    texts that no string of the program equals. *)
Definition key_text (k : ykey) : res pystr :=
  match k with
  | KStr s => Ok s
  | KOther n => Ok [-1; n]
  | KUnhashable => raise YAMLError "found an unhashable key"
  end.

(** [UniqueKeyLoader.construct_mapping], over the construction of the whole
    tree: a key that occurs again is an error. *)
Fixpoint construct (n : ynode) : res pyval :=
  match n with
  | YScalar v => Ok v
  | YSeq l =>
      let* vs := (fix go l : res (list pyval) :=
        match l with
        | [] => Ok []
        | x :: l' => let* v := construct x in let* vs := go l' in Ok (v :: vs)
        end) l in
      Ok (VList vs)
  | YMap l =>
      let* d := (fix go (mapping : pydict) l : res pydict :=
        match l with
        | [] => Ok mapping
        | (k, x) :: l' =>
            let* key := key_text k in
            if bool_decide (key ∈ mapping.*1) then raise YAMLError "found a duplicate key"
            else let* v := construct x in go (ainsert key v mapping) l'
        end) [] l in
      Ok (VDict d)
  end.

(** The loops of [construct] by themselves. *)
Definition construct_list (l : list ynode) : res (list pyval) := mapM_res construct l.

Fixpoint construct_pairs (mapping : pydict) (l : list (ykey * ynode)) : res pydict :=
  match l with
  | [] => Ok mapping
  | (k, x) :: l' =>
      let* key := key_text k in
      if bool_decide (key ∈ mapping.*1) then raise YAMLError "found a duplicate key"
      else let* v := construct x in construct_pairs (ainsert key v mapping) l'
  end.

(** The keys of a mapping, when all of them can be hashed. *)
Definition key_texts (l : list (ykey * ynode)) : res (list pystr) :=
  mapM_res (fun kx => key_text (fst kx)) l.

(** A document without unhashable keys whose mappings repeat no key, at any
    depth. *)
Fixpoint unique_keys (n : ynode) : bool :=
  match n with
  | YScalar _ => true
  | YSeq l => forallb unique_keys l
  | YMap l =>
      match key_texts l with
      | Ok ks => negb (has_dup ks)
      | Err _ => false
      end && forallb (fun kx => unique_keys (snd kx)) l
  end.

(** The scalars are values that are no containers. *)
Fixpoint plain_scalars (n : ynode) : bool :=
  match n with
  | YScalar v => hashable v
  | YSeq l => forallb plain_scalars l
  | YMap l => forallb (fun kx => plain_scalars (snd kx)) l
  end.

(** [yaml.load(text, Loader=UniqueKeyLoader)] *)
Definition yaml_load `{Yaml} (text : pystr) : res pyval :=
  match yaml_compose text with
  | Some n => construct n
  | None => raise YAMLError "could not parse"
  end.

(** ** Templates *)

Definition is_template_char (c : Z) : bool := is_upper c || is_digit c || (c =? 95).

Definition skip_blanks (s : pystr) : pystr := lstrip_while py_isspace s.

Definition after (p s : pystr) : option pystr :=
  if starts_with p s then Some (drop (length p) s) else None.

(** A match of the template pattern at the head of the text: the name and what
    follows.  The pattern is: dollar, two opening braces, blanks, [env], one
    blank or more, the name of capitals, digits and underscores in double
    quotes, blanks, two closing braces. *)
Definition match_template (s : pystr) : option (pystr * pystr) :=
  match after (u"${{") s with
  | None => None
  | Some r =>
      match after (u"env") (skip_blanks r) with
      | Some (c :: r) =>
          if py_isspace c then
            match after [dquote] (skip_blanks r) with
            | Some r =>
                match span_until (fun c => negb (is_template_char c)) r with
                | ((_ :: _) as name, r) =>
                    match after [dquote] r with
                    | Some r =>
                        match after (u"}}") (skip_blanks r) with
                        | Some r => Some (name, r)
                        | None => None
                        end
                    | None => None
                    end
                | _ => None
                end
            | None => None
            end
          else None
      | _ => None
      end
  end.

(** [re.sub(pattern, lambda match: prefix + match.group(1), source)]; [skip]
    characters of the current match are still to be passed. *)
Fixpoint substitute (prefix : pystr) (skip : nat) (s : pystr) : pystr :=
  match s with
  | [] => []
  | c :: s' =>
      match skip with
      | S k => substitute prefix k s'
      | O =>
          match match_template s with
          | Some (name, r) => prefix ++ name ++ substitute prefix (length s - length r - 1) s'
          | None => c :: substitute prefix 0 s'
          end
      end
  end.

Definition substitute_templates (prefix : string) (source : pystr) : pystr :=
  substitute (u prefix ++ u":") 0 source.

(** The messages of the two parsers. *)
Record parse_errors := ParseErrors {
  pe_template : string; pe_yaml : string; pe_mapping : string
}.

Section parse.
Context `{Yaml}.

Definition parse_deck_file (prefix : string) (errors : parse_errors) (fs : fsys) (path : pystr)
    : res pydict :=
  let* source := read_text fs path in
  let rendered := substitute_templates prefix source in
  if is_infix (u"${{") rendered then raise ValueError (pe_template errors)
  else
    let* parsed := catch (yaml_load rendered) [YAMLError]
                     (fun _ => raise ValueError (pe_yaml errors)) in
    match parsed with
    | VDict d => Ok d
    | _ => raise ValueError (pe_mapping errors)
    end.

(** [_parse_foundation(path)] *)
Definition parse_foundation : fsys -> pystr -> res pydict :=
  parse_deck_file "foundation-template"
    (ParseErrors "foundation state contains an unsupported template expression"
       "foundation state is not valid duplicate-free YAML"
       "foundation state must be a YAML mapping").

(** [_parse_state(path)] *)
Definition parse_state : fsys -> pystr -> res pydict :=
  parse_deck_file "deck-template"
    (ParseErrors "API runtime state contains an unsupported template expression"
       "API runtime state is not valid duplicate-free decK YAML"
       "API runtime state must be a YAML mapping").
End parse.

(** ** Values *)

(** Object and list literals. *)
Definition obj (l : list (string * pyval)) : pyval :=
  VDict (map (fun kv => (u (fst kv), snd kv)) l).
Definition strs (l : list string) : pyval := VList (map jstr l).
Definition names (l : list string) : list pystr := map u l.

(** [all(d.get(name) == value for name, value in expected.items())] *)
Definition obj_matches (d : pydict) (expected : pyval) : bool :=
  match expected with
  | VDict e => forallb (fun kv => py_eq (dict_get d (fst kv)) (snd kv)) e
  | _ => false
  end.

(** ** Lemmas *)

(** The generated principle has no hypothesis for the members. *)
Section ynode_ind.
Context (P : ynode -> Prop).
Hypothesis HScalar : forall v, P (YScalar v).
Hypothesis HSeq : forall l, Forall P l -> P (YSeq l).
Hypothesis HMap : forall l, Forall (fun kx => P (snd kx)) l -> P (YMap l).

Fixpoint ynode_nested_ind (n : ynode) : P n :=
  match n with
  | YScalar v => HScalar v
  | YSeq l =>
      HSeq l ((fix go l : Forall P l :=
        match l with
        | [] => Forall_nil_2 _
        | x :: l' => Forall_cons_2 _ _ _ (ynode_nested_ind x) (go l')
        end) l)
  | YMap l =>
      HMap l ((fix go l : Forall (fun kx : ykey * ynode => P (snd kx)) l :=
        match l with
        | [] => Forall_nil_2 _
        | kx :: l' => Forall_cons_2 _ _ _ (ynode_nested_ind (snd kx)) (go l')
        end) l)
  end.
End ynode_ind.

Lemma construct_seq l : construct (YSeq l) = let* vs := construct_list l in Ok (VList vs).
Proof.
  cbn [construct]. unfold construct_list.
  match goal with |- match ?go l with _ => _ end = _ => assert (go l = mapM_res construct l) as ->; [|done] end.
  induction l as [|x l IH]; [done|]. cbn [mapM_res]. by rewrite <- IH.
Qed.

Lemma construct_map l : construct (YMap l) = let* d := construct_pairs [] l in Ok (VDict d).
Proof.
  cbn [construct].
  match goal with |- match ?go [] l with _ => _ end = _ =>
    enough (forall l m, go m l = construct_pairs m l) as ->; [done|] end.
  clear l. intros l. induction l as [|[k x] l IH]; intros m; [done|]. cbn [construct_pairs].
  destruct (key_text k); [|done]. case_bool_decide; [done|]. destruct (construct x); [|done]. apply IH.
Qed.

(** Construction of a list of distinct keys succeeds exactly when every member
    can be constructed, and keeps the order. *)
Lemma construct_pairs_spec l mapping d :
  NoDup mapping.*1 ->
  construct_pairs mapping l = Ok d <->
  exists kvs, Forall2 (fun kx kv => key_text (fst kx) = Ok (fst kv) /\
                                    construct (snd kx) = Ok (snd kv)) l kvs /\
    NoDup (mapping ++ kvs).*1 /\ d = mapping ++ kvs.
Proof.
  revert mapping. induction l as [|[k x] l IH]; intros mapping Hm; cbn [construct_pairs].
  - split.
    + intros <-%Ok_inj. exists []. rewrite app_nil_r. by split_and!.
    + intros (kvs & H%Forall2_nil_inv_l & _ & ->). subst. by rewrite app_nil_r.
  - destruct (key_text k) as [key|] eqn:Ek.
    2: { split; [done|]. intros (kvs & H & _). apply Forall2_cons_inv_l in H
           as (kv & kvs' & [H _] & _). cbn [fst] in H. congruence. }
    case_bool_decide as Hin.
    + split; [done|]. intros (kvs & H & Hnd & _).
      apply Forall2_cons_inv_l in H as ([key' v] & kvs' & [H _] & _ & ->). cbn [fst] in H.
      rewrite Ek in H. apply Ok_inj in H as <-. rewrite fmap_app in Hnd.
      apply NoDup_app in Hnd as (_ & Hnd & _). destruct (Hnd _ Hin). by left.
    + destruct (construct x) as [v|] eqn:Ex.
      2: { split; [done|]. intros (kvs & H & _). apply Forall2_cons_inv_l in H
             as (kv & kvs' & [_ H] & _). cbn [snd] in H. congruence. }
      rewrite IH by (by apply ainsert_NoDup). rewrite ainsert_new by done. split.
      * intros (kvs & H & Hnd & ->). exists ((key, v) :: kvs).
        rewrite <- app_assoc in *. split_and!; [by constructor|done|done].
      * intros (kvs & H & Hnd & ->).
        apply Forall2_cons_inv_l in H as ([key' v'] & kvs' & [H1 H2] & H3 & ->).
        cbn [fst snd] in *. rewrite Ek in H1. rewrite Ex in H2.
        apply Ok_inj in H1 as <-, H2 as <-. exists kvs'. by rewrite <- app_assoc.
Qed.

Lemma key_texts_pairs l (kvs : pydict) :
  Forall2 (fun kx kv => key_text (fst kx) = Ok (fst kv) /\ construct (snd kx) = Ok (snd kv)) l kvs ->
  key_texts l = Ok kvs.*1.
Proof.
  intros H. apply mapM_res_Ok. induction H as [|kx kv l kvs [H1 _] _ IH]; by constructor.
Qed.

Lemma key_texts_construct l ks :
  key_texts l = Ok ks -> (forall kx, kx ∈ l -> exists v, construct (snd kx) = Ok v) ->
  exists kvs : pydict, kvs.*1 = ks /\
    Forall2 (fun kx kv => key_text (fst kx) = Ok (fst kv) /\ construct (snd kx) = Ok (snd kv)) l kvs.
Proof.
  intros H%mapM_res_Ok Hc. induction H as [|kx k l ks Hk _ IH]; [by exists []|].
  destruct IH as (kvs & <- & IH); [intros ? ?; apply Hc; by right|].
  destruct (Hc kx) as [v Hv]; [by left|]. exists ((k, v) :: kvs). split; [done|]. by constructor.
Qed.

(** C37: The loader accepts a document exactly when no mapping in it, at any
    depth, has an unhashable or a repeated key; the value it then gives is well
    formed: no dictionary in it repeats a key. *)
Theorem construct_unique n :
  plain_scalars n = true ->
  ((exists v, construct n = Ok v) <-> unique_keys n = true) /\
  forall v, construct n = Ok v -> wf_val v = true.
Proof.
  induction n as [v|l IH|l IH] using ynode_nested_ind; intros Hp.
  - split; [by split; eauto|]. intros ? <-%Ok_inj. by destruct v.
  - cbn [plain_scalars] in Hp. apply forallb_Forall in Hp. rewrite construct_seq.
    assert (H : forall x, x ∈ l -> ((exists v, construct x = Ok v) <-> unique_keys x = true) /\
        forall v, construct x = Ok v -> wf_val v = true).
    { rewrite Forall_forall in IH, Hp. intros x Hx. by apply IH, Hp. }
    clear IH Hp. cbn [unique_keys]. split.
    + rewrite forallb_Forall, Forall_forall. split.
      * intros [v Hv]. destruct (construct_list l) as [vs|] eqn:E; [|done].
        apply mapM_res_Ok in E. intros x Hx. apply (H x Hx).
        destruct (Forall2_in_l _ _ _ _ E Hx) as (y & _ & Hy); by eauto.
      * intros Hu. enough (exists vs, construct_list l = Ok vs) as [vs ->] by eauto.
        setoid_rewrite mapM_res_Ok. apply Forall_exists_Forall2_l. apply Forall_forall.
        intros x Hx. apply (H x Hx). by apply Hu.
    + intros v Hv. destruct (construct_list l) as [vs|] eqn:E; [|done].
      apply Ok_inj in Hv as <-. apply mapM_res_Ok in E. cbn [wf_val].
      apply forallb_Forall, Forall_forall. intros y Hy.
      destruct (Forall2_in_r _ _ _ _ E Hy) as (x & Hx & Hxy).
      by apply (H x Hx).
  - cbn [plain_scalars] in Hp. apply forallb_Forall in Hp. rewrite construct_map.
    assert (H : forall kx, kx ∈ l -> ((exists v, construct (snd kx) = Ok v) <->
        unique_keys (snd kx) = true) /\ forall v, construct (snd kx) = Ok v -> wf_val v = true).
    { rewrite Forall_forall in IH, Hp. intros kx Hkx. by apply IH, Hp. }
    clear IH Hp. cbn [unique_keys].
    rewrite andb_true_iff, forallb_Forall, Forall_forall. split.
    + split.
      * intros [v Hv]. destruct (construct_pairs [] l) as [d|] eqn:E; [|done].
        apply construct_pairs_spec in E as (kvs & Hl & Hnd & _); [|constructor].
        split; [|intros kx Hkx; apply (H kx Hkx); destruct
                   (Forall2_in_l _ _ _ _ Hl Hkx) as (kv & _ & _ & ?); by eauto].
        rewrite (key_texts_pairs _ _ Hl). by apply negb_true_iff, has_dup_false.
      * intros [Hk Hu]. destruct (key_texts l) as [ks|] eqn:Ek; [|done].
        apply negb_true_iff, has_dup_false in Hk.
        destruct (key_texts_construct l ks Ek) as (kvs & <- & Hl).
        { intros kx Hkx. apply (H kx Hkx). by apply Hu. }
        exists (VDict kvs). rewrite (proj2 (construct_pairs_spec l [] kvs (NoDup_nil_2))); [done|].
        by exists kvs.
    + intros v Hv. destruct (construct_pairs [] l) as [d|] eqn:E; [|done].
      apply Ok_inj in Hv as <-.
      apply construct_pairs_spec in E as (kvs & Hl & Hnd & ->); [|constructor]. cbn [wf_val app] in *.
      rewrite (proj2 (has_dup_false _) Hnd). apply forallb_Forall, Forall_forall. intros kv Hkv.
      destruct (Forall2_in_r _ _ _ _ Hl Hkv) as (kx & Hkx & _ & Hc). by apply (H kx Hkx).
Qed.

Lemma construct_unique_witness :
  plain_scalars (YMap [(KStr (u"a"), YSeq [YMap []]); (KStr (u"b"), YScalar (VInt 1))]) = true /\
  wf_val (VDict [(u"a", VList [VDict []]); (u"b", VInt 1)]) = true.
Proof.
  split; [reflexivity|].
  apply (construct_unique (YMap [(KStr (u"a"), YSeq [YMap []]); (KStr (u"b"), YScalar (VInt 1))]));
    reflexivity.
Defined.

Example substitute_name :
  substitute_templates "deck-template"
    (u"cert: ${{ env " ++ [dquote] ++ u"A_1" ++ [dquote] ++ u" }} ${{ other }}") =
  u"cert: deck-template:A_1 ${{ other }}".
Proof. vm_compute. reflexivity. Qed.

Lemma obj_matches_get d e k v :
  obj_matches d (VDict e) = true -> alookup k e = Some v -> py_eq (dict_get d k) v = true.
Proof.
  intros H Hl. cbn [obj_matches] in H. rewrite forallb_forall in H.
  apply (H (k, v)). apply list_elem_of_In. by apply alookup_Some_in.
Qed.

(** Equality with a list of texts, and with [True], which is also 1. *)
Lemma py_eq_texts v l : forallb is_str l = true -> py_eq v (VList l) = true <-> v = VList l.
Proof.
  intros Hl. destruct v as [| | | | |k|]; try done. revert k.
  induction l as [|x l IH]; intros k; destruct k as [|y k]; try done.
  cbn [forallb] in Hl. apply andb_true_iff in Hl as [Hx Hl]. rewrite py_eq_list_cons, andb_true_iff.
  apply is_str_true in Hx as [s ->]. replace (same_nan y (VStr s)) with false by (by destruct y as [| | |[]| | |]).
  cbn [orb]. rewrite py_eq_str, (IH Hl). split; [intros [-> [= ->]]; done|by intros [= -> ->]].
Qed.

Lemma py_eq_true v : py_eq v (VBool true) = true -> py_truthy v = true.
Proof.
  destruct v as [|[]|z|f| | |]; try done; cbn [py_eq num_eq py_truthy].
  - intros ->%Z.eqb_eq. done.
  - by destruct f.
Qed.

(** Equal dictionaries agree on every key of either. *)
Lemma py_eq_dict_get d e k v :
  NoDup d.*1 -> py_eq (VDict d) (VDict e) = true -> alookup k e = Some v ->
  same_nan (dict_get d k) v || py_eq (dict_get d k) v = true.
Proof.
  intros Hd H Hk. rewrite py_eq_dict in H. apply andb_true_iff in H as [Hl H].
  rewrite forallb_Forall, Forall_forall in H. apply Nat.eqb_eq in Hl.
  assert (k ∈ d.*1) as Hin.
  { apply list_elem_of_In. refine (NoDup_length_incl (l := d.*1) (l' := e.*1) _ _ _ k _).
    - by apply NoDup_ListNoDup.
    - rewrite !length_fmap. lia.
    - intros k' (kv & -> & Hkv)%list_elem_of_In%list_elem_of_fmap.
      specialize (H kv Hkv). apply list_elem_of_In, alookup_is_Some.
      destruct (alookup _ _); [by eexists|done].
    - apply list_elem_of_In, alookup_is_Some. by eexists. }
  apply list_elem_of_fmap in Hin as ([k' x] & -> & Hin). cbn [fst] in *.
  unfold dict_get. rewrite (alookup_NoDup k' x d) by done.
  specialize (H _ Hin). cbn [fst snd] in H. by rewrite Hk in H.
Qed.

(** ** Well-formed states *)

(** Scalars of a document are no containers. *)
Class YamlLaws `{Yaml} := {
  yaml_scalars : forall text n, yaml_compose text = Some n -> plain_scalars n = true
}.

Lemma parse_deck_file_wf `{YamlLaws} prefix errors fs path d :
  parse_deck_file prefix errors fs path = Ok d -> wf_val (VDict d) = true.
Proof.
  unfold parse_deck_file. intros Hp. destruct (read_text fs path) as [source|]; [|discriminate Hp].
  destruct (is_infix _ _); [discriminate Hp|].
  destruct (catch _ _ _) as [v|] eqn:E; [|discriminate Hp].
  destruct v as [| | | | | |d']; try discriminate Hp. apply Ok_inj in Hp as ->.
  apply catch_reraise in E. unfold yaml_load in E.
  destruct (yaml_compose _) as [n|] eqn:En; [|discriminate E].
  by apply (construct_unique n (yaml_scalars _ _ En)).
Qed.

Lemma wf_dict d : wf_val (VDict d) = true <->
  NoDup d.*1 /\ forall k v, (k, v) ∈ d -> wf_val v = true.
Proof.
  cbn [wf_val]. rewrite andb_true_iff, negb_true_iff, has_dup_false, forallb_Forall, Forall_forall.
  split; intros [H1 H2]; (split; [done|]); [intros k v|intros [k v]]; apply H2.
Qed.

Lemma wf_dict_get d k : wf_val (VDict d) = true -> wf_val (dict_get d k) = true.
Proof.
  intros [_ H]%wf_dict. unfold dict_get. destruct (alookup k d) as [v|] eqn:E; [|done].
  apply alookup_Some_in in E. by apply (H k).
Qed.

Lemma wf_list l : wf_val (VList l) = true <-> forall v, v ∈ l -> wf_val v = true.
Proof. cbn [wf_val]. by rewrite forallb_Forall, Forall_forall. Qed.

(** The document of a value. *)
Fixpoint node_of (v : pyval) : ynode :=
  match v with
  | VList l => YSeq (map node_of l)
  | VDict d => YMap (map (fun kv => (KStr (fst kv), node_of (snd kv))) d)
  | _ => YScalar v
  end.

Lemma node_of_scalars v : plain_scalars (node_of v) = true.
Proof.
  induction v as [| | | | |l IH|d IH] using pyval_nested_ind; try done; cbn [node_of plain_scalars];
    apply forallb_Forall, Forall_map; (eapply Forall_impl; [exact IH|]); done.
Qed.

(** Building the document of a well-formed value gives the value back. *)
Lemma construct_node_of v : wf_val v = true -> construct (node_of v) = Ok v.
Proof.
  induction v as [| | | | |l IH|d IH] using pyval_nested_ind; intros Hw; try done.
  - cbn [node_of]. rewrite construct_seq. unfold construct_list.
    rewrite (proj2 (mapM_res_Ok construct (map node_of l) l)); [done|].
    apply Forall2_map_l, Forall_Forall2_diag. cbn [wf_val] in Hw. apply forallb_Forall in Hw.
    rewrite Forall_forall in IH, Hw |- *. intros x Hx. by apply IH, Hw.
  - apply wf_dict in Hw as [Hnd Hw]. cbn [node_of]. rewrite construct_map.
    rewrite (proj2 (construct_pairs_spec _ [] d NoDup_nil_2)); [done|]. exists d. split_and!; [|done|done].
    apply Forall2_map_l, Forall_Forall2_diag. rewrite Forall_forall in IH |- *.
    intros [k x] Hx. cbn [fst snd key_text]. split; [done|]. by apply (IH _ Hx), (Hw k).
Qed.
