(* ===== verification/FoundationState.v ===== *)
(** The decK state files of [src/scripts/wp1_target.py]: the foundation of either
    gateway ([validate_foundation_state]) and the third-party runtime state
    ([validate_third_party_runtime_state]). *)
From S2P Require Export DeckYaml Wp1.

Local Open Scope Z_scope.

(** ** Files *)

Definition FOUNDATION_FILES (gateway : pystr) : res pystr :=
  if bool_decide (gateway = u"api") then Ok (u"kong/foundation/api.yaml")
  else if bool_decide (gateway = u"third-party") then Ok (u"kong/foundation/third-party.yaml")
  else Err (Exn KeyError gateway).

Definition RUNTIME_FILES (gateway : pystr) : res pystr :=
  if bool_decide (gateway = u"api") then Ok (u"kong/api-gateway.yaml")
  else if bool_decide (gateway = u"third-party") then Ok (u"kong/third-party-gateway.yaml")
  else Err (Exn KeyError gateway).

(** ** The foundation *)

Definition FOUNDATION_TAGS : pyval := strs ["fapi2-demo"; "fapi2-foundation"].

(** [_require_tags(entity)] *)
Definition require_tags (entity : pyval) : res unit :=
  match entity with
  | VDict d =>
      if py_eq (dict_get d (u"tags")) FOUNDATION_TAGS then Ok tt
      else raise ValueError "foundation entity ownership tags were changed"
  | _ => raise ValueError "foundation entity ownership tags were changed"
  end.

(** The fixed certificates of a gateway: identifier, template name and key
    reference; and its CA certificate with its template name. *)
Definition expected_certs (gateway : pystr) : list (pystr * (string * string)) :=
  if bool_decide (gateway = u"api")
  then [(u"44444444-4444-4444-8444-444444444444",
         ("DECK_API_INTROSPECTION_CERT_YAML", "{vault://env/API_INTROSPECTION_KEY}"));
        (u"55555555-5555-4555-8555-555555555555",
         ("DECK_API_UPSTREAM_CERT_YAML", "{vault://env/API_UPSTREAM_KEY}"))]%string
  else [(u"11111111-1111-4111-8111-111111111111",
         ("DECK_ROUTE_A_TLS_CERT_YAML", "{vault://env/ROUTE_A_TLS_KEY}"));
        (u"22222222-2222-4222-8222-222222222222",
         ("DECK_ROUTE_B_TLS_CERT_YAML", "{vault://env/ROUTE_B_TLS_KEY}"))]%string.

Definition expected_cas (gateway : pystr) : list (pystr * string) :=
  if bool_decide (gateway = u"api") then []
  else [(u"33333333-3333-4333-8333-333333333333", "DECK_FAPI_CA_CERT_YAML"%string)].

Definition template_text (name : string) : pyval := VStr (u"foundation-template:" ++ u name).

Definition set_changed {A} : res A :=
  raise ValueError "foundation certificate entity set or fixed IDs were changed".

(** The identifier of a row. *)
Definition row_id (row : pyval) : res pystr :=
  match row with
  | VDict d => match dict_get d (u"id") with VStr id => Ok id | _ => set_changed end
  | _ => set_changed
  end.

(** [set(actual_ids) == expected and len(actual_ids) == len(expected)] *)
Definition ids_are (actual expected : list pystr) : bool :=
  same_set actual expected && (length actual =? length expected)%nat.

(** One entity of [certificates]. *)
Definition check_cert (gateway : pystr) (_ : unit) (entity : pyval) : res unit :=
  match entity with
  | VDict d =>
      if negb (keys_are d (names ["id"; "cert"; "key"; "tags"]))
      then raise ValueError "foundation certificate entity fields were changed"
      else
        let* _ := require_tags entity in
        let* id := row_id entity in
        match alookup id (expected_certs gateway) with
        | None => Err (Exn KeyError id)
        | Some (cert_env, key_ref) =>
            if negb (py_eq (dict_get d (u"cert")) (template_text cert_env)
                     && py_eq (dict_get d (u"key")) (jstr key_ref))
            then raise ValueError
                   "foundation certificate identity or secret reference was changed"
            else Ok tt
        end
  | _ => raise ValueError "foundation certificate entity fields were changed"
  end.

(** One entity of [ca_certificates]. *)
Definition check_ca (gateway : pystr) (_ : unit) (entity : pyval) : res unit :=
  match entity with
  | VDict d =>
      if negb (keys_are d (names ["id"; "cert"; "tags"]))
      then raise ValueError "foundation certificate entity fields were changed"
      else
        let* _ := require_tags entity in
        match expected_cas gateway with
        | (ca_id, ca_env) :: _ =>
            if py_eq (dict_get d (u"id")) (VStr ca_id)
               && py_eq (dict_get d (u"cert")) (template_text ca_env)
            then Ok tt
            else raise ValueError "foundation CA certificate identity or reference was changed"
        | [] => raise ValueError "foundation CA certificate identity or reference was changed"
        end
  | _ => raise ValueError "foundation certificate entity fields were changed"
  end.

Definition check_collection (check : unit -> pyval -> res unit) (expected : list pystr)
    (collection : pyval) : res unit :=
  match collection with
  | VList rows =>
      let* actual := mapM_res row_id rows in
      if negb (ids_are actual expected) then set_changed
      else foldM_res check rows tt
  | _ => set_changed
  end.

Definition transport_config : pyval :=
  obj [("issuer", jstr "https://localhost:8444/realms/fapi-demo");
       ("internal_origin", jstr "https://keycloak:8443");
       ("discovery_url",
        jstr "https://keycloak:8443/realms/fapi-demo/.well-known/openid-configuration");
       ("jwks_url", jstr "https://keycloak:8443/realms/fapi-demo/protocol/openid-connect/certs");
       ("par_url",
        jstr "https://keycloak:8443/realms/fapi-demo/protocol/openid-connect/ext/par/request");
       ("token_url", jstr "https://keycloak:8443/realms/fapi-demo/protocol/openid-connect/token");
       ("revocation_url",
        jstr "https://keycloak:8443/realms/fapi-demo/protocol/openid-connect/revoke");
       ("metadata_certificate_file", jstr "/etc/kong/fapi/third-party-metadata.crt");
       ("metadata_key_file", jstr "/etc/kong/fapi/third-party-metadata.key");
       ("routes", VList ROUTES);
       ("evidence_correlation_enabled", VBool false)]%string.

Definition transport_ok (p : pydict) : bool :=
  py_eq (dict_get p (u"id")) (jstr "88888888-8888-4888-8888-888888888888")
  && py_eq (dict_get p (u"name")) (jstr "fapi-as-mtls-transport")
  && is_true (dict_get p (u"enabled"))
  && py_eq (dict_get p (u"protocols")) (strs ["http"; "https"])
  && py_eq (dict_get p (u"config")) transport_config.

Definition transport_changed {A} : res A :=
  raise ValueError "third-party global transport entity identity or config was changed".

Definition check_transport (plugins : pyval) : res unit :=
  match plugins with
  | VList [plugin] =>
      let* fields := val_set_is plugin (names ["id"; "name"; "enabled"; "protocols"; "tags"; "config"]) in
      if negb fields then transport_changed
      else
        match plugin with
        | VDict p => if transport_ok p then require_tags plugin else transport_changed
        | _ => raise AttributeError "object has no attribute 'get'"
        end
  | _ => raise ValueError "third-party foundation must contain exactly one global transport entity"
  end.

Definition FOUNDATION_KEYS : list pystr :=
  names ["_format_version"; "_info"; "certificates"; "ca_certificates"; "plugins"].

(** [name in d] *)
Definition has_key (d : pydict) (name : pystr) : bool := bool_decide (name ∈ d.*1).

Definition check_foundation (gateway : pystr) (parsed : pydict) : res unit :=
  if existsb (fun k => bool_decide (k ∉ FOUNDATION_KEYS)) parsed.*1
  then raise ValueError "foundation state contains an unexpected top-level entity or key"
  else if negb (py_eq (dict_get parsed (u"_format_version")) (jstr "3.0")
                && py_eq (dict_get parsed (u"_info")) (obj [("select_tags"%string, FOUNDATION_TAGS)]))
  then raise ValueError "foundation state select_tags were changed"
  else if bool_decide (gateway = u"api") && has_key parsed (u"ca_certificates")
  then raise ValueError "API foundation must not manage the shared API CA"
  else
    let ca_certificates :=
      if bool_decide (gateway = u"api")
      then match alookup (u"ca_certificates") parsed with Some v => v | None => VList [] end
      else dict_get parsed (u"ca_certificates") in
    let* _ := check_collection (check_cert gateway) (expected_certs gateway).*1
                (dict_get parsed (u"certificates")) in
    let* _ := check_collection (check_ca gateway) (expected_cas gateway).*1 ca_certificates in
    if negb (is_none (dict_get parsed (u"services")) && is_none (dict_get parsed (u"routes")))
    then raise ValueError "foundation state must not contain services or routes"
    else if bool_decide (gateway = u"api")
    then if has_key parsed (u"plugins")
         then raise ValueError "API foundation must not contain any plugin entities"
         else Ok tt
    else check_transport (dict_get parsed (u"plugins")).

Section foundation.
Context `{Yaml}.

Definition validate_foundation_state (fs : fsys) (gateway : pystr) : res unit :=
  let* path := FOUNDATION_FILES gateway in
  if negb (is_file fs path)
  then Err (Exn ValueError (u"foundation state is missing: " ++ path))
  else let* parsed := parse_foundation fs path in check_foundation gateway parsed.
End foundation.
