(* ===== verification/ThirdPartyState.v ===== *)
(** The third-party runtime state of [src/scripts/wp1_target.py]
    ([validate_third_party_runtime_state]): the base Compose router, the
    preserved foundation, the static UI service, and the two Routes with their
    plugins. *)
From S2P Require Export FoundationState.

Local Open Scope Z_scope.

(** ** Fixed identities *)

Inductive tp_route := RouteA | RouteB.
#[export] Instance tp_route_eq_dec : EqDecision tp_route.
Proof. solve_decision. Defined.

(** [route] in its two spellings. *)
Definition route_name (r : tp_route) : pystr := match r with RouteA => u"A" | RouteB => u"B" end.
Definition route_lower (r : tp_route) : pystr := match r with RouteA => u"a" | RouteB => u"b" end.

Definition service_id (r : tp_route) : pyval :=
  match r with
  | RouteA => jstr "0e48dd20-46a0-5b94-832b-014b857c58b5"
  | RouteB => jstr "b52f6f69-8c94-5148-a6a2-dbc5b6e2c15e"
  end.

Definition plugin_ids (r : tp_route) : pydict :=
  match r with
  | RouteA => [(u"cors", jstr "66d86cb7-9d75-5b1b-855d-63b1a9a957f9");
               (u"openid-connect", jstr "96d4d14a-4b66-5751-b8b0-d000c6c84409");
               (u"request-transformer", jstr "1f1902cb-dfa2-5003-a3ae-9968b2c126b2")]
  | RouteB => [(u"cors", jstr "be2f0305-7644-5e24-9c0d-c5c16e726492");
               (u"fapi-client-auth-bridge", jstr "564675c7-1913-5d2c-8e2f-af7709855db5");
               (u"openid-connect", jstr "fa9b36b8-2ae3-5240-ac4e-c1303c33bb9c");
               (u"request-transformer", jstr "2678d008-77b3-5ec1-bc5d-8e2a5f8633a5")]
  end.

Definition hop_id : string := "742c3d79-850f-5761-9544-63864bab5cad".
Definition ca_id : string := "33333333-3333-4333-8333-333333333333".

Definition certificate_id (r : tp_route) : pyval :=
  match r with
  | RouteA => jstr "11111111-1111-4111-8111-111111111111"
  | RouteB => jstr "22222222-2222-4222-8222-222222222222"
  end.
Definition route_id (r : tp_route) : pyval :=
  match r with
  | RouteA => jstr "754519ff-b0b9-5ed5-94c0-e453d260c6c4"
  | RouteB => jstr "0f45debe-a3a6-5207-aea3-637227fb96f2"
  end.
Definition route_client (r : tp_route) : pyval :=
  match r with RouteA => jstr "third-party-fapi-mtls" | RouteB => jstr "third-party-fapi-pkj-mtls" end.
Definition route_path (r : tp_route) : pystr :=
  match r with RouteA => u"/api/fapi/mtls" | RouteB => u"/api/fapi/pkj-mtls" end.

(** [["fapi2-demo", f"route-{route.lower()}"]] *)
Definition route_tags (r : tp_route) : pyval :=
  VList [jstr "fapi2-demo"; VStr (u"route-" ++ route_lower r)].

(** ** The base Compose declaration *)

Section compose.
Context `{Yaml}.

Definition router_flavor (text : pystr) : res pyval :=
  let* compose := yaml_load text in
  let* services := val_item compose (u"services") in
  let* kong := val_item services (u"kong-third-party") in
  let* environment := val_item kong (u"environment") in
  val_item environment (u"KONG_ROUTER_FLAVOR").

Definition check_router (fs : fsys) : res unit :=
  if negb (is_file fs (u"docker-compose.yml")) || is_symlink fs (u"docker-compose.yml")
  then raise ValueError "third-party runtime base Compose declaration is missing or unsafe"
  else
    let* flavor := catch (let* text := read_text fs (u"docker-compose.yml") in router_flavor text)
      [YAMLError; KeyError; TypeError]
      (fun _ => raise ValueError
         "third-party runtime base Compose router declaration is malformed") in
    if py_eq flavor (jstr "expressions") then Ok tt
    else raise ValueError "third-party runtime requires the base Compose expressions router".
End compose.

(** ** The head of the state *)

Definition hop_certificate : pyval :=
  obj [("id", jstr hop_id); ("cert", jstr "foundation-template:DECK_BACKEND_HOP_CERT_YAML");
       ("key", jstr "{vault://env/BACKEND_HOP_KEY}"); ("tags", strs ["fapi2-demo"; "backend-hop"])]%string.

(** [foundation["certificates"] + [...]] *)
Definition expected_certificates (foundation : pydict) : res pyval :=
  let* certificates := dict_item foundation (u"certificates") in
  match certificates with
  | VList l => Ok (VList (l ++ [hop_certificate]))
  | _ => raise TypeError "can only concatenate list"
  end.

Definition static_service : pyval :=
  obj [("name", jstr "third-party-static-ui"); ("id", jstr "878509ff-0d35-56d2-ba0e-aec6bbf00fe7");
       ("protocol", jstr "http"); ("host", jstr "ui"); ("port", VInt 80);
       ("tags", strs ["fapi2-demo"; "static-ui"]);
       ("routes", VList [obj [
          ("id", jstr "aaced8a8-6936-520b-96ea-026a7b01b4b6"); ("name", jstr "third-party-static-ui");
          ("expression", VStr (u"(http.path == " ++ [dquote] ++ u"/" ++ [dquote]
             ++ u" || http.path == " ++ [dquote] ++ u"/index.html" ++ [dquote]
             ++ u" || http.path == " ++ [dquote] ++ u"/evidence.js" ++ [dquote] ++ u")"));
          ("protocols", strs ["https"]); ("strip_path", VBool false); ("priority", VInt 100);
          ("tags", strs ["fapi2-demo"; "static-ui"])]]);
       ("plugins", VList [obj [
          ("name", jstr "request-transformer"); ("id", jstr "941cfa0a-ffad-517d-b7b3-0088089513ae");
          ("tags", strs ["fapi2-demo"; "static-ui"]);
          ("config", obj [("remove", obj [("headers", strs [
             "Cookie"; "Authorization"; "client_assertion"; "client_assertion_type"; "X-Client-Cert";
             "X-Fapi-Route"; "X-Fapi-Client-Auth"; "X-Demo-Department"; "X-Demo-Route"])])])]])]%string.

Definition check_head (state foundation : pydict) : res unit :=
  if negb (keys_are state (names ["_format_version"; "_info"; "certificates"; "ca_certificates";
                                  "plugins"; "services"]))
  then raise ValueError "third-party runtime state contains unexpected entities or fields"
  else if negb (py_eq (dict_get state (u"_format_version")) (jstr "3.0")
                && py_eq (dict_get state (u"_info")) (obj [("select_tags", strs ["fapi2-demo"])]%string))
  then raise ValueError "third-party runtime select_tags must remain fapi2-demo"
  else if negb (py_eq (dict_get state (u"ca_certificates")) (dict_get foundation (u"ca_certificates")))
  then raise ValueError "third-party runtime must preserve the foundation ca_certificates exactly"
  else if negb (py_eq (dict_get state (u"plugins")) (dict_get foundation (u"plugins")))
  then raise ValueError "third-party runtime must preserve the foundation plugins exactly"
  else
    let* certificates := expected_certificates foundation in
    if negb (py_eq (dict_get state (u"certificates")) certificates)
    then raise ValueError
           "third-party runtime must preserve A/B certificates and add exactly the backend hop identity"
    else Ok tt.

(** ** Services and routes *)

(** The route whose identifier the service's only route has. *)
Definition route_of (service : pydict) : option tp_route :=
  match dict_get service (u"routes") with
  | VList [VDict route] =>
      if py_eq (dict_get route (u"id")) (route_id RouteA) then Some RouteA
      else if py_eq (dict_get route (u"id")) (route_id RouteB) then Some RouteB
      else None
  | _ => None
  end.

Definition expected_service (r : tp_route) : pyval :=
  obj [("id", service_id r);
       ("name", VStr (u"third-party-route-" ++ route_lower r ++ u"-api"));
       ("protocol", jstr "https"); ("host", jstr "third-party-backend"); ("port", VInt 9444);
       ("path", VStr (u"/evidence/route-" ++ route_lower r)); ("tls_verify", VBool true);
       ("ca_certificates", strs [ca_id]); ("client_certificate", jstr hop_id);
       ("tags", route_tags r)]%string.

Definition expected_route (r : tp_route) : pyval :=
  obj [("id", route_id r); ("name", VStr (u"third-party-route-" ++ route_lower r));
       ("paths", VList [VStr (route_path r)]); ("protocols", strs ["https"]);
       ("strip_path", VBool true); ("tags", route_tags r)]%string.

(** [f"third-party Route {route} ..."] *)
Definition route_error {A} (r : tp_route) (msg : string) : res A :=
  Err (Exn ValueError (u"third-party Route " ++ route_name r ++ u msg)).

Abbreviation by_route := (list (tp_route * pydict)).

Definition check_service (found : by_route) (service : pyval) : res by_route :=
  match service with
  | VDict d =>
      match route_of d with
      | Some r =>
          if bool_decide (r ∈ found.*1)
          then raise ValueError "third-party runtime Route A/B IDs are missing or duplicated"
          else if negb (keys_are d (names ["id"; "name"; "protocol"; "host"; "port"; "path";
                    "tls_verify"; "ca_certificates"; "client_certificate"; "tags"; "routes";
                    "plugins"]) && obj_matches d (expected_service r))
          then route_error r " must use verified internal HTTPS and its fixed TLS identity"
          else
            match dict_get d (u"routes") with
            | VList (VDict route :: _) =>
                if keys_are route (names ["id"; "name"; "paths"; "protocols"; "strip_path"; "tags"])
                   && py_eq (VDict route) (expected_route r)
                then Ok (ainsert r d found)
                else route_error r " identity or HTTPS scope changed"
            | _ => raise KeyError "routes"
            end
      | None => raise ValueError "third-party runtime Route A/B IDs are missing or duplicated"
      end
  | _ => raise ValueError "third-party runtime service is malformed"
  end.

(** [services[-1]] is the static service, the others are the two Routes. *)
Definition check_services (services : pyval) : res by_route :=
  match services with
  | VList [s1; s2; s3] =>
      if negb (py_eq s3 static_service)
      then raise ValueError "static UI service, exact paths, or credential stripping changed"
      else
        let* found := foldM_res check_service [s1; s2] [] in
        if negb (same_set found.*1 [RouteA; RouteB])
        then raise ValueError "third-party runtime Route A/B services are incomplete"
        else Ok found
  | _ => raise ValueError
           "third-party runtime must contain exactly fixed Route A/B and static UI services"
  end.

(** ** Plugins *)

Definition issuer : pystr := u"https://localhost:8444/realms/fapi-demo".
Definition internal : pystr := u"https://keycloak:8443/realms/fapi-demo".
(** [base + suffix] *)
Definition under (base : pystr) (suffix : string) : pyval := VStr (base ++ u suffix).
Definition token_url : pyval := under internal "/protocol/openid-connect/token".
Definition jwks_url : pyval := under internal "/protocol/openid-connect/certs".
Definition par_url : pyval := under internal "/protocol/openid-connect/ext/par/request".
Definition revoke_url : pyval := under internal "/protocol/openid-connect/revoke".

Definition common_oidc : pyval :=
  obj [("issuer", VStr issuer);
       ("authorization_endpoint", under issuer "/protocol/openid-connect/auth");
       ("token_endpoint", token_url); ("mtls_token_endpoint", token_url);
       ("jwks_endpoint", jwks_url); ("pushed_authorization_request_endpoint", par_url);
       ("revocation_endpoint", revoke_url); ("mtls_revocation_endpoint", revoke_url);
       ("end_session_endpoint", under issuer "/protocol/openid-connect/logout");
       ("client_auth", strs ["tls_client_auth"]);
       ("token_endpoint_auth_method", jstr "tls_client_auth");
       ("tls_client_auth_ssl_verify", VBool true); ("ssl_verify", VBool true);
       ("auth_methods", strs ["authorization_code"; "session"]);
       ("scopes", strs ["openid"; "profile"]); ("response_mode", jstr "query");
       ("login_tokens", strs ["id_token"]);
       ("require_proof_key_for_code_exchange", VBool true);
       ("require_pushed_authorization_requests", VBool true);
       ("login_action", jstr "redirect"); ("logout_uri_suffix", jstr "/logout");
       ("logout_methods", strs ["GET"; "POST"]); ("logout_revoke", VBool true);
       ("logout_revoke_access_token", VBool true);
       ("logout_revoke_refresh_token", VBool true)]%string.

Definition expected_plugin_names (r : tp_route) : list string :=
  match r with
  | RouteA => ["cors"; "openid-connect"; "request-transformer"]
  | RouteB => ["cors"; "fapi-client-auth-bridge"; "openid-connect"; "request-transformer"]
  end%string.

Definition BRIDGE : pystr := u"fapi-client-auth-bridge".

(** [THIRD_PARTY_RUNTIME_PLUGIN_IDS[route].get(plugin.get("name"))] *)
Definition expected_plugin_id (r : tp_route) (name : pyval) : pyval :=
  match name with VStr s => dict_get (plugin_ids r) s | _ => VNone end.

Definition plugin_scope_ok (r : tp_route) (plugin : pyval) : bool :=
  match plugin with
  | VDict d =>
      let expected_fields :=
        names ["name"; "id"; "tags"; "config"]
        ++ (if py_eq (dict_get d (u"name")) (VStr BRIDGE) then [u"protocols"] else []) in
      keys_are d expected_fields
      && py_eq (dict_get d (u"id")) (expected_plugin_id r (dict_get d (u"name")))
      && py_eq (dict_get d (u"tags")) (route_tags r)
  | _ => false
  end.

(** [[plugin.get("name") for plugin in plugins if isinstance(plugin, dict)]] *)
Definition dict_names (plugins : list pyval) : list pyval :=
  flat_map (fun p => match p with VDict d => [dict_get d (u"name")] | _ => [] end) plugins.

(** [{plugin["name"]: plugin for plugin in plugins}] *)
Definition plugins_by_name (plugins : list pyval) : res (list (pystr * pydict)) :=
  foldM_res (fun by_name plugin =>
    match plugin with
    | VDict d =>
        let* name := dict_item d (u"name") in
        match name with
        | VStr s => Ok (ainsert s d by_name)
        | _ => raise TypeError "unhashable type"
        end
    | _ => raise TypeError "indices must be integers or slices, or the object is not subscriptable"
    end) plugins [].

Definition check_plugin_set (r : tp_route) (service : pydict) : res (list (pystr * pydict)) :=
  match dict_get service (u"plugins") with
  | VList plugins =>
      if negb (py_eq (VList (dict_names plugins)) (strs (expected_plugin_names r)))
      then route_error r " plugin set changed"
      else if negb (forallb (plugin_scope_ok r) plugins)
      then route_error r " plugin scope changed"
      else plugins_by_name plugins
  | _ => route_error r " plugin set changed"
  end.

(** [plugins_by_name[name].get("config")] *)
Definition plugin_named (by_name : list (pystr * pydict)) (name : string) : res pydict :=
  res_of_option (Exn KeyError (u name)) (alookup (u name) by_name).

Definition cors_config : pyval :=
  obj [("origins", strs ["https://localhost:8443"]); ("methods", strs ["GET"; "POST"; "OPTIONS"]);
       ("headers", strs ["Accept"; "Content-Type"; "X-Demo-Department"; "X-Demo-Route"]);
       ("credentials", VBool true); ("max_age", VInt 3600)]%string.

Definition transformer_config (r : tp_route) : pyval :=
  obj [("remove", obj [("headers", strs ["Cookie"; "client_assertion"; "client_assertion_type";
                                          "X-Client-Cert"; "X-Fapi-Route"; "X-Fapi-Client-Auth"])]);
       ("add", obj [("headers", VList
          [VStr (u"X-Fapi-Route:route-" ++ route_lower r);
           VStr (u"X-Fapi-Client-Auth:"
                 ++ match r with RouteA => u"tls_client_auth" | RouteB => u"private_key_jwt+mtls" end)])])]%string.

(** The policy of the route's OIDC plugin that both routes share. *)
Definition check_oidc (r : tp_route) (oidc : pydict) : res unit :=
  if negb (obj_matches oidc common_oidc)
  then route_error r " OIDC HTTPS, TLS, or session policy changed"
  else if negb (py_eq (dict_get oidc (u"client_id")) (VList [route_client r])
                && py_eq (dict_get oidc (u"tls_client_auth_cert_id")) (certificate_id r))
  then route_error r " TLS client identity changed"
  else if negb (py_eq (dict_get oidc (u"login_redirect_uri"))
                  (VList [VStr (u"https://localhost:8443/?authenticated=route-" ++ route_lower r)])
                && py_eq (dict_get oidc (u"logout_redirect_uri"))
                  (VList [VStr (u"https://localhost:8443/?logout=route-" ++ route_lower r)]))
  then raise ValueError "third-party single-origin terminal changed"
  else if negb (py_eq (dict_get oidc (u"redirect_uri"))
                  (VList [VStr (u"https://localhost:8443" ++ route_path r)]))
  then route_error r " callback URI changed"
  else if negb (py_eq (dict_get oidc (u"upstream_access_token_header")) (jstr "authorization:bearer"))
  then route_error r " upstream token behavior changed"
  else Ok tt.

Definition check_route_a (oidc : pydict) : res unit :=
  if py_eq (dict_get oidc (u"client_auth")) (strs ["tls_client_auth"]%string)
     && py_eq (dict_get oidc (u"pushed_authorization_request_endpoint_auth_method"))
          (jstr "tls_client_auth")
     && py_eq (dict_get oidc (u"revocation_endpoint_auth_method")) (jstr "tls_client_auth")
  then Ok tt
  else raise ValueError
    "third-party Route A must use TLS client authentication for PAR and revocation".

Definition expected_jwk : pyval :=
  obj [("kty", jstr "RSA"); ("kid", template_text "DECK_ROUTE_B_JWK_KID"); ("use", jstr "sig");
       ("alg", jstr "PS256"); ("n", template_text "DECK_ROUTE_B_JWK_N");
       ("e", template_text "DECK_ROUTE_B_JWK_E"); ("d", jstr "{vault://env/route-b-jwk/d}");
       ("p", jstr "{vault://env/route-b-jwk/p}"); ("q", jstr "{vault://env/route-b-jwk/q}");
       ("dp", jstr "{vault://env/route-b-jwk/dp}"); ("dq", jstr "{vault://env/route-b-jwk/dq}");
       ("qi", jstr "{vault://env/route-b-jwk/qi}")]%string.

Definition expected_bridge : pyval :=
  obj [("issuer", VStr issuer);
       ("discovery_endpoint",
        jstr "https://keycloak:8443/realms/fapi-demo/.well-known/openid-configuration");
       ("client_id", route_client RouteB); ("private_key_file", jstr "/etc/kong/fapi/route-b-pkj.key");
       ("tls_certificate_file", jstr "/etc/kong/fapi/route-b.crt");
       ("key_id", template_text "DECK_ROUTE_B_JWK_KID");
       ("assertion_delivery", jstr "transport_delegate"); ("assertion_ttl", VInt 60)]%string.

Definition check_route_b (by_name : list (pystr * pydict)) (oidc : pydict) : res unit :=
  if negb (py_eq (dict_get oidc (u"client_alg")) (strs ["PS256"]%string)
           && py_eq (dict_get oidc (u"pushed_authorization_request_endpoint_auth_method"))
                (jstr "private_key_jwt")
           && py_eq (dict_get oidc (u"revocation_endpoint_auth_method")) (jstr "private_key_jwt"))
  then raise ValueError
         "third-party Route B must retain stock PS256 PAR/revocation and TLS token auth"
  else if negb (py_eq (dict_get oidc (u"client_jwk")) (VList [expected_jwk]))
  then raise ValueError "third-party Route B stock PS256 signing JWK references changed"
  else
    let* bridge := plugin_named by_name "fapi-client-auth-bridge" in
    if negb (py_eq (dict_get bridge (u"protocols")) (strs ["grpc"; "grpcs"; "http"; "https"]%string)
             && py_eq (dict_get bridge (u"config")) expected_bridge)
    then raise ValueError "third-party Route B bridge must use the fixed transport delegate"
    else Ok tt.

(** The body of [for route in ("A", "B")]. *)
Definition check_route_plugins (found : by_route) (_ : unit) (r : tp_route) : res unit :=
  let* service := res_of_option (Exn KeyError (route_name r)) (alookup r found) in
  let* by_name := check_plugin_set r service in
  let* cors := plugin_named by_name "cors" in
  if negb (py_eq (dict_get cors (u"config")) cors_config)
  then raise ValueError "third-party browser origin contract changed"
  else
    let* transformer := plugin_named by_name "request-transformer" in
    if negb (py_eq (dict_get transformer (u"config")) (transformer_config r))
    then raise ValueError "third-party backend credential header boundary changed"
    else
      let* plugin := plugin_named by_name "openid-connect" in
      match dict_get plugin (u"config") with
      | VDict oidc =>
          let* _ := check_oidc r oidc in
          match r with RouteA => check_route_a oidc | RouteB => check_route_b by_name oidc end
      | _ => route_error r " OIDC HTTPS, TLS, or session policy changed"
      end.

(** The parsed state against the parsed foundation. *)
Definition check_third_party_state (state foundation : pydict) : res unit :=
  let* _ := check_head state foundation in
  let* found := check_services (dict_get state (u"services")) in
  foldM_res (check_route_plugins found) [RouteA; RouteB] tt.

Section third_party.
Context `{Yaml}.

Definition validate_third_party_runtime_state (fs : fsys) : res pydict :=
  let* _ := check_router fs in
  let* path := RUNTIME_FILES (u"third-party") in
  if negb (is_file fs path) || is_symlink fs path
  then raise ValueError "third-party runtime state is missing or unsafe"
  else
    let* _ := validate_foundation_state fs (u"third-party") in
    let* state := parse_foundation fs path in
    let* foundation_path := FOUNDATION_FILES (u"third-party") in
    let* foundation := parse_foundation fs foundation_path in
    let* _ := check_third_party_state state foundation in
    Ok state.
End third_party.

(** ** What an accepted state guarantees *)

(** What is fixed for each Route. *)
Record contract := Contract {
  c_service : string; c_name : string; c_upstream : string; c_route : string; c_path : string;
  c_tags : list string; c_client : string; c_certificate : string; c_authentication : string; c_header : string
}.
Definition contract_of (r : tp_route) : contract :=
  match r with
  | RouteA => {|
      c_service := "0e48dd20-46a0-5b94-832b-014b857c58b5"; c_name := "third-party-route-a";
      c_upstream := "/evidence/route-a"; c_route := "754519ff-b0b9-5ed5-94c0-e453d260c6c4";
      c_path := "/api/fapi/mtls"; c_tags := ["fapi2-demo"; "route-a"]; c_client := "third-party-fapi-mtls";
      c_certificate := "11111111-1111-4111-8111-111111111111"; c_authentication := "tls_client_auth";
      c_header := "X-Fapi-Route:route-a" |}
  | RouteB => {|
      c_service := "b52f6f69-8c94-5148-a6a2-dbc5b6e2c15e"; c_name := "third-party-route-b";
      c_upstream := "/evidence/route-b"; c_route := "0f45debe-a3a6-5207-aea3-637227fb96f2";
      c_path := "/api/fapi/pkj-mtls"; c_tags := ["fapi2-demo"; "route-b"]; c_client := "third-party-fapi-pkj-mtls";
      c_certificate := "22222222-2222-4222-8222-222222222222"; c_authentication := "private_key_jwt";
      c_header := "X-Fapi-Route:route-b" |}
  end%string.

(** The service of a Route: its own identifier and path on the backend over verified TLS, with
    the identity of the backend hop, no field more, and as its only route the one of that
    Route, below its own path and over HTTPS only. *)
Definition service_secured (r : tp_route) (service : pydict) : Prop :=
  let c := contract_of r in
  keys_are service (names ["id"; "name"; "protocol"; "host"; "port"; "path"; "tls_verify"; "ca_certificates";
                           "client_certificate"; "tags"; "routes"; "plugins"]%string) = true /\
  dict_get service (u"id") = jstr (c_service c) /\
  dict_get service (u"name") = jstr (c_name c ++ "-api") /\
  dict_get service (u"protocol") = jstr "https" /\
  dict_get service (u"host") = jstr "third-party-backend" /\
  py_eq (dict_get service (u"port")) (VInt 9444) = true /\
  dict_get service (u"path") = jstr (c_upstream c) /\
  py_truthy (dict_get service (u"tls_verify")) = true /\
  dict_get service (u"ca_certificates") = strs ["33333333-3333-4333-8333-333333333333"]%string /\
  dict_get service (u"client_certificate") = jstr "742c3d79-850f-5761-9544-63864bab5cad" /\
  exists route, dict_get service (u"routes") = VList [VDict route] /\
    py_eq (VDict route)
      (obj [("id", jstr (c_route c)); ("name", jstr (c_name c)); ("paths", strs [c_path c]);
            ("protocols", strs ["https"]); ("strip_path", VBool true); ("tags", strs (c_tags c))]%string) = true.

(** The signing key of Route B: the registered public part, and references to the vault for
    every private member. *)
Definition vault_reference (member : string) : string * pyval :=
  (member, VStr (u"{vault://env/route-b-jwk/" ++ u member ++ u"}")).
Definition vault_key : pyval :=
  obj (app [("kty", jstr "RSA"); ("kid", jstr "foundation-template:DECK_ROUTE_B_JWK_KID"); ("use", jstr "sig");
            ("alg", jstr "PS256"); ("n", jstr "foundation-template:DECK_ROUTE_B_JWK_N");
            ("e", jstr "foundation-template:DECK_ROUTE_B_JWK_E")]
         (map vault_reference ["d"; "p"; "q"; "dp"; "dq"; "qi"]))%string.

(** The OIDC plugin of a Route: its own client, certificate, callback and authentication,
    certificate authentication at the token endpoint, PKCE and PAR. *)
Definition oidc_secured (r : tp_route) (oidc : pydict) : Prop :=
  let c := contract_of r in
  dict_get oidc (u"client_id") = strs [c_client c] /\
  dict_get oidc (u"tls_client_auth_cert_id") = jstr (c_certificate c) /\
  dict_get oidc (u"redirect_uri") = strs [("https://localhost:8443" ++ c_path c)%string] /\
  dict_get oidc (u"client_auth") = strs ["tls_client_auth"]%string /\
  dict_get oidc (u"token_endpoint_auth_method") = jstr "tls_client_auth" /\
  dict_get oidc (u"pushed_authorization_request_endpoint_auth_method") = jstr (c_authentication c) /\
  dict_get oidc (u"revocation_endpoint_auth_method") = jstr (c_authentication c) /\
  dict_get oidc (u"auth_methods") = strs ["authorization_code"; "session"]%string /\
  (forall setting, setting ∈ ["ssl_verify"; "tls_client_auth_ssl_verify"; "require_proof_key_for_code_exchange";
     "require_pushed_authorization_requests"; "logout_revoke"]%string -> py_truthy (dict_get oidc (u setting)) = true) /\
  match r with
  | RouteA => True
  | RouteB => dict_get oidc (u"client_alg") = strs ["PS256"]%string /\
      py_eq (dict_get oidc (u"client_jwk")) (VList [vault_key]) = true
  end.

(** The headers that are taken from and added to a request of a Route. *)
Definition transformer_secured (r : tp_route) (config : pyval) : Prop :=
  py_eq config
    (obj [("remove", obj [("headers", strs ["Cookie"; "client_assertion"; "client_assertion_type"; "X-Client-Cert";
                                            "X-Fapi-Route"; "X-Fapi-Client-Auth"])]);
          ("add", obj [("headers", strs [c_header (contract_of r);
             match r with RouteA => "X-Fapi-Client-Auth:tls_client_auth"
                        | RouteB => "X-Fapi-Client-Auth:private_key_jwt+mtls" end])])]%string) = true.

(** The bridge of Route B signs through the transport, for the client of that Route. *)
Definition bridge_secured (bridge : pydict) : Prop :=
  dict_get bridge (u"name") = jstr "fapi-client-auth-bridge" /\
  py_eq (dict_get bridge (u"config"))
    (obj [("issuer", jstr "https://localhost:8444/realms/fapi-demo");
          ("discovery_endpoint", jstr "https://keycloak:8443/realms/fapi-demo/.well-known/openid-configuration");
          ("client_id", jstr "third-party-fapi-pkj-mtls"); ("private_key_file", jstr "/etc/kong/fapi/route-b-pkj.key");
          ("tls_certificate_file", jstr "/etc/kong/fapi/route-b.crt");
          ("key_id", jstr "foundation-template:DECK_ROUTE_B_JWK_KID");
          ("assertion_delivery", jstr "transport_delegate"); ("assertion_ttl", VInt 60)]%string) = true.

(** The plugins of a Route, no more and in this order. *)
Definition plugins_secured (r : tp_route) (service : pydict) : Prop :=
  exists cors bridges openid oidc transformer,
    dict_get service (u"plugins") = VList (VDict cors :: map VDict bridges ++ [VDict openid; VDict transformer]) /\
    dict_get cors (u"name") = jstr "cors" /\
    match r with
    | RouteA => bridges = []
    | RouteB => exists bridge, bridges = [bridge] /\ bridge_secured bridge
    end /\
    dict_get openid (u"name") = jstr "openid-connect" /\ dict_get openid (u"config") = VDict oidc /\ oidc_secured r oidc /\
    dict_get transformer (u"name") = jstr "request-transformer" /\
    transformer_secured r (dict_get transformer (u"config")).

Lemma check_service_ok found service found' :
  check_service found service = Ok found' ->
  exists r d, service = VDict d /\ (r ∉ found.*1) /\ found' = ainsert r d found /\ service_secured r d.
Proof.
  unfold check_service. intros H. destruct service as [| | | | | |d]; try discriminate H.
  destruct (route_of d) as [r|] eqn:Er; [|discriminate H].
  destruct (bool_decide (r ∈ found.*1)) eqn:Ein; [discriminate H|]. apply bool_decide_eq_false in Ein.
  destruct (keys_are d _) eqn:Ek; [|discriminate H]. cbn [andb] in H.
  destruct (obj_matches d (expected_service r)) eqn:Em; [|discriminate H]. cbn [negb] in H.
  unfold route_of in Er. destruct (dict_get d (u"routes")) as [| | | | |[|[| | | | | |route] [|? ?]]|] eqn:Eroutes; try discriminate.
  destruct (keys_are route _); [|discriminate H]. cbn [andb] in H.
  destruct (py_eq (VDict route) (expected_route r)) eqn:Eroute; [|discriminate H]. apply Ok_inj in H as <-.
  exists r, d. split_and!; [done|done|done|]. unfold service_secured. cbv zeta. split; [exact Ek|].
  assert (Hget : forall k v, alookup k match expected_service r with VDict e => e | _ => [] end = Some v ->
    py_eq (dict_get d k) v = true) by (intros k v Hl; by apply (obj_matches_get _ _ _ _ Em)).
  clear Em Ek Er Ein. split_and!.
  all: try (apply py_eq_str, Hget; destruct r; vm_compute; reflexivity).
  - apply Hget. by destruct r.
  - apply py_eq_true, Hget. by destruct r.
  - apply py_eq_texts; [done|]. apply Hget. by destruct r.
  - exists route. split; [done|]. etrans; [|exact Eroute]. apply (f_equal (py_eq (VDict route))).
    destruct r; vm_compute; reflexivity.
Qed.

Lemma check_services_ok services found :
  check_services services = Ok found ->
  exists a b s3, (services = VList [VDict a; VDict b; s3] \/ services = VList [VDict b; VDict a; s3]) /\
    py_eq s3 static_service = true /\ alookup RouteA found = Some a /\ alookup RouteB found = Some b /\
    service_secured RouteA a /\ service_secured RouteB b.
Proof.
  unfold check_services. intros Es. destruct services as [| | | | |[|s1 [|s2 [|s3 [|? ?]]]]|]; try discriminate Es.
  destruct (py_eq s3 static_service) eqn:Estat; [|discriminate Es]. cbn [negb foldM_res] in Es.
  destruct (check_service [] s1) as [found1|] eqn:E1; [|discriminate Es].
  destruct (check_service found1 s2) as [found2|] eqn:E2; [|discriminate Es].
  apply check_service_ok in E1 as (r1 & d1 & -> & _ & -> & S1).
  apply check_service_ok in E2 as (r2 & d2 & -> & Hr & -> & S2).
  destruct (same_set _ _); [|discriminate Es]. apply Ok_inj in Es as <-.
  cbn [ainsert fmap list_fmap fst] in Hr. apply not_elem_of_cons in Hr as [Hr _].
  destruct r1, r2; try done; [exists d1, d2, s3|exists d2, d1, s3]; split_and!; auto.
Qed.

(** The plugins of a checked set are objects with the names of the Route, and are found by
    them. *)
Lemma check_plugin_set_ok r service by_name :
  check_plugin_set r service = Ok by_name ->
  exists plugins, dict_get service (u"plugins") = VList (map VDict plugins) /\
    map (fun p => dict_get p (u"name")) plugins = map jstr (expected_plugin_names r) /\
    by_name = zip (map u (expected_plugin_names r)) plugins.
Proof.
  unfold check_plugin_set. intros H. destruct (dict_get service (u"plugins")) as [| | | | |l|]; try discriminate H.
  destruct (py_eq (VList (dict_names l)) _) eqn:En; [|discriminate H].
  destruct (forallb (plugin_scope_ok r) l) eqn:Escope; [|discriminate H]. cbn [negb] in H.
  assert (exists plugins, l = map VDict plugins) as [plugins ->].
  { clear -Escope. induction l as [|x l IH]; [by exists []|]. cbn [forallb] in Escope. apply andb_true_iff in Escope as [Hx Hl].
    destruct (IH Hl) as [ps ->]. destruct x as [| | | | | |d]; try discriminate Hx. by exists (d :: ps). }
  apply py_eq_texts in En; [|by destruct r]. injection En as En.
  assert (dict_names (map VDict plugins) = map (fun p => dict_get p (u"name")) plugins) as Hnames.
  { clear. induction plugins as [|p ps IH]; [done|]. cbn [map]. rewrite <- IH. reflexivity. }
  rewrite Hnames in En. exists plugins. split_and!; [done|exact En|].
  assert (Hstep : forall (p : pydict) name, dict_get p (u"name") = jstr name -> dict_item p (u"name") = Ok (VStr (u name))).
  { intros p name. unfold dict_get, dict_item. by destruct (alookup _ p) as [v|]; [intros ->|]. }
  unfold plugins_by_name in H. destruct r; cbn [expected_plugin_names map] in En.
  - destruct plugins as [|p1 [|p2 [|p3 [|? ?]]]]; try discriminate En. injection En as N1 N2 N3.
    cbn [foldM_res map] in H. rewrite (Hstep _ _ N1), (Hstep _ _ N2), (Hstep _ _ N3) in H. by apply Ok_inj in H as <-.
  - destruct plugins as [|p1 [|p2 [|p3 [|p4 [|? ?]]]]]; try discriminate En. injection En as N1 N2 N3 N4.
    cbn [foldM_res map] in H. rewrite (Hstep _ _ N1), (Hstep _ _ N2), (Hstep _ _ N3), (Hstep _ _ N4) in H.
    by apply Ok_inj in H as <-.
Qed.

Lemma check_oidc_secured r (by_name : list (pystr * pydict)) oidc :
  check_oidc r oidc = Ok tt ->
  match r with RouteA => check_route_a oidc | RouteB => check_route_b by_name oidc end = Ok tt ->
  oidc_secured r oidc.
Proof.
  unfold check_oidc. intros Ho Hr.
  destruct (obj_matches oidc common_oidc) eqn:Em; [|discriminate Ho]. cbn [negb] in Ho.
  destruct (py_eq (dict_get oidc (u"client_id")) (VList [route_client r])) eqn:E1; [|discriminate Ho].
  destruct (py_eq (dict_get oidc (u"tls_client_auth_cert_id")) (certificate_id r)) eqn:E2; [|discriminate Ho].
  cbn [andb negb] in Ho. destruct (negb (_ && _)); [discriminate Ho|].
  destruct (py_eq (dict_get oidc (u"redirect_uri")) _) eqn:E3; [|discriminate Ho]. clear Ho.
  assert (Hget : forall k v, alookup k match common_oidc with VDict e => e | _ => [] end = Some v ->
    py_eq (dict_get oidc k) v = true) by (intros k v Hl; by apply (obj_matches_get _ _ _ _ Em)).
  assert (Hauth : forall k, k ∈ names ["pushed_authorization_request_endpoint_auth_method"; "revocation_endpoint_auth_method"]%string ->
    dict_get oidc k = jstr (c_authentication (contract_of r)) /\
    match r with
    | RouteA => True
    | RouteB => dict_get oidc (u"client_alg") = strs ["PS256"]%string /\ py_eq (dict_get oidc (u"client_jwk")) (VList [vault_key]) = true
    end).
  { clear -Hr. intros k Hk. destruct r; [unfold check_route_a in Hr|unfold check_route_b in Hr].
    - destruct (_ && _) eqn:Ea in Hr; [|discriminate Hr]. bool_prop. split; [|done].
      apply py_eq_str. apply elem_of_cons in Hk as [-> | Hk]; [done|]. by apply list_elem_of_singleton in Hk as ->.
    - destruct (_ && _) eqn:Ea in Hr; [|discriminate Hr]. bool_prop. cbn [negb] in Hr.
      destruct (py_eq (dict_get oidc (u"client_jwk")) (VList [expected_jwk])) eqn:Ej; [|discriminate Hr].
      split_and!; [|by apply py_eq_texts|].
      + apply py_eq_str. apply elem_of_cons in Hk as [-> | Hk]; [done|]. by apply list_elem_of_singleton in Hk as ->.
      + assert (vault_key = expected_jwk) as -> by (vm_compute; reflexivity). exact Ej. }
  unfold oidc_secured. cbv zeta. split_and!.
  - apply py_eq_texts; [done|]. by destruct r.
  - apply py_eq_str. by destruct r.
  - apply py_eq_texts; [done|]. etrans; [|exact E3]. apply (f_equal (py_eq _)). destruct r; vm_compute; reflexivity.
  - apply py_eq_texts; [done|]. apply Hget. vm_compute. reflexivity.
  - apply py_eq_str. apply Hget. vm_compute. reflexivity.
  - apply Hauth. by left.
  - apply Hauth. right. by left.
  - apply py_eq_texts; [done|]. apply Hget. vm_compute. reflexivity.
  - refine (proj1 (Forall_forall (fun setting => py_truthy (dict_get oidc (u setting)) = true) _) _).
    repeat apply Forall_cons_2; try apply Forall_nil_2; apply py_eq_true, Hget; vm_compute; reflexivity.
  - destruct r; [done|]. by apply (Hauth _ (list_elem_of_here _ _)).
Qed.

Lemma check_plugins_ok found r service :
  alookup r found = Some service -> check_route_plugins found tt r = Ok tt -> plugins_secured r service.
Proof.
  unfold check_route_plugins. intros -> Hr. cbn [res_of_option] in Hr.
  destruct (check_plugin_set r service) as [by_name|] eqn:Eset; [|discriminate Hr].
  apply check_plugin_set_ok in Eset as (plugins & Hplugins & Hnames & Hby). cbv beta iota in Hr.
  destruct (plugin_named by_name "cors") as [cors|] eqn:Ec; [|discriminate Hr].
  destruct (negb (py_eq (dict_get cors (u"config")) cors_config)); [discriminate Hr|].
  destruct (plugin_named by_name "request-transformer") as [transformer|] eqn:Et; [|discriminate Hr].
  destruct (py_eq (dict_get transformer (u"config")) (transformer_config r)) eqn:Econfig; [|discriminate Hr].
  cbn [negb] in Hr. destruct (plugin_named by_name "openid-connect") as [openid|] eqn:Eo; [|discriminate Hr].
  destruct (dict_get openid (u"config")) as [| | | | | |oidc] eqn:Ecfg; try discriminate Hr.
  destruct (check_oidc r oidc) as [[]|] eqn:Echeck; [|discriminate Hr]. cbv beta iota in Hr.
  pose proof (check_oidc_secured r by_name oidc Echeck Hr) as Hoidc.
  assert (Htransformer : transformer_secured r (dict_get transformer (u"config"))).
  { unfold transformer_secured. etrans; [|exact Econfig]. apply (f_equal (py_eq _)). destruct r; vm_compute; reflexivity. }
  clear Econfig Echeck. unfold plugins_secured. destruct r; cbn [expected_plugin_names map] in Hnames.
  - destruct plugins as [|p1 [|p2 [|p3 [|? ?]]]]; try discriminate Hnames. injection Hnames as N1 N2 N3.
    subst by_name. vm_compute in Ec, Et, Eo. apply Ok_inj in Ec, Et, Eo. subst cors openid transformer.
    exists p1, [], p2, oidc, p3. split_and!; done.
  - destruct plugins as [|p1 [|p2 [|p3 [|p4 [|? ?]]]]]; try discriminate Hnames. injection Hnames as N1 N2 N3 N4.
    subst by_name. unfold check_route_b in Hr. destruct (negb _) in Hr; [discriminate Hr|].
    destruct (negb _) in Hr; [discriminate Hr|].
    vm_compute in Ec, Et, Eo. apply Ok_inj in Ec, Et, Eo. subst cors openid transformer.
    exists p1, [p2], p3, oidc, p4. split_and!; try done. exists p2. split; [done|]. split; [done|].
    change (plugin_named _ "fapi-client-auth-bridge") with (Ok p2) in Hr. cbv beta iota in Hr.
    destruct (py_eq (dict_get p2 (u"config")) expected_bridge) eqn:Eb;
      [|destruct (py_eq (dict_get p2 (u"protocols")) _) in Hr; discriminate Hr].
    etrans; [|exact Eb]. apply (f_equal (py_eq _)). vm_compute. reflexivity.
Qed.

(** C24: A third-party runtime state that is accepted keeps the CA certificates
    and the global plugin of the foundation, has its certificates plus exactly
    the backend hop, and has exactly three services: the static UI, and one for each of the
    Routes A and B, each with its own identifier, upstream path and only route over verified
    TLS, and with no plugins but those of its Route, whose OIDC plugin is bound to the client,
    the certificate, the callback and the authentication of that very Route. *)
Theorem third_party_state_secured state foundation :
  check_third_party_state state foundation = Ok tt ->
  py_eq (dict_get state (u"ca_certificates")) (dict_get foundation (u"ca_certificates")) = true /\
  py_eq (dict_get state (u"plugins")) (dict_get foundation (u"plugins")) = true /\
  (exists certificates, alookup (u"certificates") foundation = Some (VList certificates) /\
     py_eq (dict_get state (u"certificates")) (VList (certificates ++ [hop_certificate])) = true) /\
  exists a b s3,
    (dict_get state (u"services") = VList [VDict a; VDict b; s3] \/
     dict_get state (u"services") = VList [VDict b; VDict a; s3]) /\
    py_eq s3 static_service = true /\
    service_secured RouteA a /\ plugins_secured RouteA a /\
    service_secured RouteB b /\ plugins_secured RouteB b.
Proof.
  intros H. unfold check_third_party_state in H.
  destruct (check_head state foundation) as [[]|] eqn:Eh; [|discriminate H].
  destruct (check_services (dict_get state (u"services"))) as [found|] eqn:Es; [|discriminate H].
  unfold check_head in Eh. destruct (negb (keys_are state _)); [discriminate Eh|].
  destruct (negb (_ && _)) in Eh; [discriminate Eh|].
  destruct (py_eq (dict_get state (u"ca_certificates")) _) eqn:Eca; [|discriminate Eh].
  destruct (py_eq (dict_get state (u"plugins")) _) eqn:Epl; [|discriminate Eh].
  destruct (expected_certificates foundation) as [ec|] eqn:Eec; [|discriminate Eh].
  destruct (py_eq (dict_get state (u"certificates")) ec) eqn:Ecert; [|discriminate Eh]. clear Eh.
  split_and!; [done|done| |].
  - unfold expected_certificates, dict_item in Eec.
    destruct (alookup (u"certificates") foundation) as [[| | | | |l|]|]; try discriminate Eec.
    apply Ok_inj in Eec as <-. by exists l.
  - apply check_services_ok in Es as (a & b & s3 & Hs & Hstatic & Ha & Hb & Sa & Sb).
    cbn [foldM_res] in H. destruct (check_route_plugins found tt RouteA) as [[]|] eqn:EA; [|discriminate H].
    destruct (check_route_plugins found tt RouteB) as [[]|] eqn:EB; [|discriminate H].
    exists a, b, s3. split_and!; try done; by eapply check_plugins_ok.
Qed.

(** ** A sample state *)

Definition dict_of (v : pyval) : pydict := match v with VDict d => d | _ => [] end.

Definition sample_oidc (r : tp_route) : pyval :=
  VDict (dict_of common_oidc ++
    dict_of (obj [("client_id", VList [route_client r]); ("tls_client_auth_cert_id", certificate_id r);
       ("login_redirect_uri", VList [VStr (u"https://localhost:8443/?authenticated=route-" ++ route_lower r)]);
       ("logout_redirect_uri", VList [VStr (u"https://localhost:8443/?logout=route-" ++ route_lower r)]);
       ("redirect_uri", VList [VStr (u"https://localhost:8443" ++ route_path r)]);
       ("upstream_access_token_header", jstr "authorization:bearer");
       ("pushed_authorization_request_endpoint_auth_method",
        jstr (match r with RouteA => "tls_client_auth" | RouteB => "private_key_jwt" end));
       ("revocation_endpoint_auth_method",
        jstr (match r with RouteA => "tls_client_auth" | RouteB => "private_key_jwt" end));
       ("client_alg", strs ["PS256"]); ("client_jwk", VList [expected_jwk])]%string)).

Definition sample_plugin (r : tp_route) (name : string) : pyval :=
  VDict (dict_of (obj [("name", jstr name); ("id", expected_plugin_id r (jstr name));
                       ("tags", route_tags r);
                       ("config", if String.eqb name "cors" then cors_config
                                  else if String.eqb name "request-transformer" then transformer_config r
                                  else if String.eqb name "openid-connect" then sample_oidc r
                                  else expected_bridge)]%string)
         ++ (if String.eqb name "fapi-client-auth-bridge"
             then [(u"protocols", strs ["grpc"; "grpcs"; "http"; "https"]%string)] else [])).

Definition sample_service (r : tp_route) : pyval :=
  VDict (dict_of (expected_service r) ++
    dict_of (obj [("routes", VList [expected_route r]);
                  ("plugins", VList (map (sample_plugin r) (expected_plugin_names r)))]%string)).

Definition sample_foundation : pydict :=
  dict_of (obj [("certificates", VList []); ("ca_certificates", VList []); ("plugins", VList [])]%string).

Definition sample_state : pydict :=
  dict_of (obj [("_format_version", jstr "3.0"); ("_info", obj [("select_tags", strs ["fapi2-demo"])]);
                ("certificates", VList [hop_certificate]); ("ca_certificates", VList []);
                ("plugins", VList []);
                ("services", VList [sample_service RouteB; sample_service RouteA; static_service])]%string).

Lemma third_party_state_secured_witness :
  check_third_party_state sample_state sample_foundation = Ok tt /\
  exists a, dict_get a (u"id") = jstr "0e48dd20-46a0-5b94-832b-014b857c58b5" /\ plugins_secured RouteA a.
Proof.
  assert (H : check_third_party_state sample_state sample_foundation = Ok tt) by (vm_compute; reflexivity).
  split; [exact H|].
  destruct (third_party_state_secured sample_state sample_foundation H)
    as (_ & _ & _ & a & b & s3 & _ & _ & (_ & Hid & _) & Hp & _).
  exists a. split; [exact Hid|exact Hp].
Defined.

(** The routes of the two OIDC plugins exchanged: refused. *)
Example exchanged_clients_refused :
  is_ok (check_oidc RouteA (dict_of (sample_oidc RouteB))) = false /\
  is_ok (check_oidc RouteB (dict_of (sample_oidc RouteB))) = true.
Proof. vm_compute. done. Qed.
