(* ===== verification/ApiState.v ===== *)
(** The API runtime state of [src/scripts/wp3_runtime.py]
    ([validate_api_runtime_state]): the unchanged foundation certificates, the
    shared CA, one Service with one Route, and its four plugins. *)
From S2P Require Export FoundationState.

Local Open Scope Z_scope.

(** ** Fixed identities *)

Definition INTROSPECTION_CERT_ID : string := "44444444-4444-4444-8444-444444444444".
Definition UPSTREAM_CERT_ID : string := "55555555-5555-4555-8555-555555555555".
Definition SHARED_API_CA_ID : string := "33333333-3333-4333-8333-333333333333".

Definition RUNTIME_SERVICE_NAME : string := "fapi-api-resource-server".
Definition RUNTIME_ROUTE_NAME : string := "fapi-api-resource-server-route".

Definition RUNTIME_ENTITY_IDS : list (pystr * pystr) :=
  [(u RUNTIME_SERVICE_NAME, u"a5fe77b4-93fd-4f84-bb31-71c245dedd09");
   (u RUNTIME_ROUTE_NAME, u"14d51ff4-613c-4769-96ce-330cd8075855");
   (u"pre-function", u"4374b81d-77c4-4da1-9dfe-fbb0949a13ba");
   (u"openid-connect", u"ed488e53-d29d-4db7-ba89-78b3bbf35df3");
   (u"tls-handshake-modifier", u"6c3a195b-2fa7-4ed8-8ae4-72db3d2c537c");
   (u"tls-metadata-headers", u"a6b8e2df-3612-47db-b863-b6dee55f2dc4")].

(** [RUNTIME_ENTITY_IDS.get(name)] and [RUNTIME_ENTITY_IDS[name]] for a name of
    the table. *)
Definition runtime_id (name : pystr) : pyval :=
  match alookup name RUNTIME_ENTITY_IDS with Some id => VStr id | None => VNone end.

Definition INTERNAL_ISSUER_LOCATOR : pyval :=
  jstr "https://keycloak:8443/realms/fapi-demo/.well-known/openid-configuration".
Definition PUBLIC_ISSUER : pyval := jstr "https://localhost:8444/realms/fapi-demo".

(** ** The request sanitizer *)

(** Lines of Lua; a back quote stands for a double quote. *)
Definition lua_lines (l : list string) : pystr :=
  Json.join [10] (map (fun s => map (fun c => if c =? 96 then dquote else c) (u s)) l).

Definition HEADER_SANITIZER_LUA : pystr := lua_lines [
   "local headers, err = kong.request.get_headers(1000)";
   "if not headers or err then";
   "  return kong.response.exit(431, { message = `Request headers exceed inspection limit` })";
   "end";
   "";
   "local count = 0";
   "for name in pairs(headers) do";
   "  count = count + 1";
   "  local value = headers[name]";
   "  if type(value) == `table` then";
   "    count = count + #value - 1";
   "  end";
   "  if count >= 1000 then";
   "    return kong.response.exit(431, { message = `Request headers exceed inspection limit` })";
   "  end";
   "";
   "  local normalized = string.lower(name):gsub(`_`, `-`)";
   "  if normalized == `cookie`";
   "    or normalized:sub(1, 7) == `x-demo-`";
   "    or normalized:sub(1, 7) == `x-fapi-`";
   "    or normalized:sub(1, 13) == `x-client-cert`";
   "    or normalized:sub(1, 16) == `client-assertion` then";
   "    kong.service.request.clear_header(name)";
   "  end";
   "end";
   "";
   "local function reject_query_authentication()";
   "  kong.response.set_header(`WWW-Authenticate`, 'Bearer error=`invalid_token`')";
   "  return kong.response.exit(401, { message = `Invalid access token` })";
   "end";
   "";
   "local query_call_ok, query_args, query_error = pcall(kong.request.get_query, 1000)";
   "if not query_call_ok or type(query_args) ~= `table` or query_error ~= nil then";
   "  return reject_query_authentication()";
   "end";
   "";
   "local argument_count = 0";
   "for name, value in pairs(query_args) do";
   "  if type(name) ~= `string` then";
   "    return reject_query_authentication()";
   "  end";
   "";
   "  local normalized = string.lower(name):gsub(`_`, `-`)";
   "  if normalized == `access-token` then";
   "    return reject_query_authentication()";
   "  end";
   "";
   "  argument_count = argument_count + 1";
   "  if type(value) == `table` then";
   "    local occurrences = 0";
   "    local highest_index = 0";
   "    for index in pairs(value) do";
   "      if type(index) ~= `number` or index < 1 or index % 1 ~= 0 then";
   "        return reject_query_authentication()";
   "      end";
   "      occurrences = occurrences + 1";
   "      if index > highest_index then";
   "        highest_index = index";
   "      end";
   "    end";
   "    if occurrences < 2 or highest_index ~= occurrences then";
   "      return reject_query_authentication()";
   "    end";
   "    argument_count = argument_count + occurrences - 1";
   "  elseif type(value) ~= `string` and type(value) ~= `boolean` then";
   "    return reject_query_authentication()";
   "  end";
   "";
   "  if argument_count >= 1000 then";
   "    return reject_query_authentication()";
   "  end";
   "end"]%string.

(** ** The policies *)

Definition API_TAGS : pyval := strs ["fapi2-demo"; "api"].

Definition introspection_url : pyval :=
  jstr "https://keycloak:8443/realms/fapi-demo/protocol/openid-connect/token/introspect".

(** [_expected_oidc_config()] *)
Definition expected_oidc_config : pyval :=
  obj [("issuer", INTERNAL_ISSUER_LOCATOR); ("introspection_endpoint", introspection_url);
       ("mtls_introspection_endpoint", introspection_url);
       ("client_id", strs ["api-gateway-introspection"]); ("client_auth", strs ["tls_client_auth"]);
       ("auth_methods", strs ["introspection"]);
       ("introspection_endpoint_auth_method", jstr "tls_client_auth");
       ("introspection_check_active", VBool true); ("cache_introspection", VBool false);
       ("cache_tokens", VBool false); ("bearer_token_param_type", strs ["header"]);
       ("upstream_access_token_header", jstr "authorization:bearer");
       ("tls_client_auth_cert_id", jstr INTROSPECTION_CERT_ID);
       ("tls_client_auth_ssl_verify", VBool true); ("ssl_verify", VBool true);
       ("issuers_allowed", VList [PUBLIC_ISSUER]); ("audience_required", strs ["fapi-demo-api"]);
       ("scopes_required", strs ["openid"]); ("proof_of_possession_mtls", jstr "strict");
       ("proof_of_possession_auth_methods_validation", VBool true);
       ("expose_error_code", VBool true);
       ("upstream_headers", VList
          [obj [("header", jstr "X-Demo-Department");
                ("path", strs ["https://fapi-demo.example.com/department"])];
           obj [("header", jstr "X-Demo-Route");
                ("path", strs ["https://fapi-demo.example.com/route"])]])]%string.

Definition api_ca : pyval :=
  obj [("id", jstr SHARED_API_CA_ID); ("cert", jstr "deck-template:DECK_FAPI_CA_CERT_YAML");
       ("tags", strs ["fapi2-demo"])]%string.

Definition api_service : pyval :=
  obj [("id", runtime_id (u RUNTIME_SERVICE_NAME)); ("name", jstr "fapi-api-resource-server");
       ("protocol", jstr "https"); ("host", jstr "pop-verifier"); ("port", VInt 9443);
       ("path", jstr "/evidence"); ("tls_verify", VBool true);
       ("ca_certificates", strs [SHARED_API_CA_ID]); ("client_certificate", jstr UPSTREAM_CERT_ID);
       ("tags", API_TAGS)]%string.

Definition api_route : pyval :=
  obj [("id", runtime_id (u RUNTIME_ROUTE_NAME)); ("name", jstr "fapi-api-resource-server-route");
       ("paths", strs ["/fapi-api/evidence"]); ("protocols", strs ["https"]);
       ("snis", strs ["kong-api"; "localhost"]); ("strip_path", VBool true);
       ("tags", API_TAGS)]%string.

Definition API_PLUGIN_NAMES : list pystr :=
  names ["pre-function"; "openid-connect"; "tls-handshake-modifier"; "tls-metadata-headers"].

(** ** The checks *)

Definition check_api_head (state : pydict) : res unit :=
  if negb (keys_are state (names ["_format_version"; "_info"; "certificates"; "ca_certificates";
                                  "services"; "plugins"]))
  then raise ValueError "API runtime state has unexpected entities or fields"
  else if negb (py_eq (dict_get state (u"_format_version")) (jstr "3.0")
                && py_eq (dict_get state (u"_info")) (obj [("select_tags", strs ["fapi2-demo"])]%string))
  then raise ValueError "API runtime tag selection changed"
  else Ok tt.

Definition check_api_certificates (state foundation : pydict) : res unit :=
  let foundation_certificates := dict_get foundation (u"certificates") in
  if negb (is_list foundation_certificates)
     || negb (py_eq (dict_get state (u"certificates")) foundation_certificates)
  then raise ValueError "API runtime must include unchanged API foundation certificates"
  else
    match dict_get state (u"ca_certificates") with
    | VList [ca] =>
        if py_eq ca api_ca then Ok tt
        else raise ValueError "API runtime must preserve the existing shared CA identity and tag"
    | _ => raise ValueError "API runtime must preserve the existing shared CA identity and tag"
    end.

Definition SERVICE_FIELDS : list pystr :=
  names ["id"; "name"; "protocol"; "host"; "port"; "path"; "tls_verify"; "ca_certificates";
         "client_certificate"; "tags"; "routes"].

Definition service_changed {A} : res A :=
  raise ValueError "API runtime Resource Server Service contract changed".

(** The service and its only route. *)
Definition check_api_service (services : pyval) : res (pydict * pydict) :=
  match services with
  | VList [service] =>
      let* fields := val_set_is service SERVICE_FIELDS in
      if negb fields then service_changed
      else
        match service with
        | VDict d =>
            if negb (obj_matches d api_service) then service_changed
            else
              match dict_get d (u"routes") with
              | VList [route] =>
                  match route, py_eq route api_route with
                  | VDict r, true => Ok (d, r)
                  | _, _ => raise ValueError "API runtime HTTPS Route contract changed"
                  end
              | _ => raise ValueError "API runtime must contain exactly one HTTPS Route"
              end
        | _ => raise AttributeError "object has no attribute 'get'"
        end
  | _ => raise ValueError "API runtime must contain exactly one Resource Server Service"
  end.

Definition plugin_bound (route : pydict) (plugin : pydict) : bool :=
  keys_are plugin (names ["id"; "name"; "route"; "tags"; "config"])
  && py_eq (dict_get plugin (u"id"))
       (match dict_get plugin (u"name") with VStr name => runtime_id name | _ => VNone end)
  && py_eq (dict_get plugin (u"route")) (dict_get route (u"name"))
  && py_eq (dict_get plugin (u"tags")) API_TAGS.

(** [{plugin.get("name"): plugin for plugin in plugins}], later plugins win. *)
Definition index_plugins (plugins : list pydict) : list (pystr * pydict) :=
  fold_left (fun by_name plugin =>
    match dict_get plugin (u"name") with
    | VStr name => ainsert name plugin by_name
    | _ => by_name
    end) plugins [].

Definition as_dict (v : pyval) : res pydict :=
  match v with
  | VDict d => Ok d
  | _ => raise ValueError "API runtime plugin entity is malformed"
  end.

Definition check_api_plugins (route : pydict) (plugins : pyval) : res (list (pystr * pydict)) :=
  match plugins with
  | VList l =>
      if negb (length l =? 4)%nat then raise ValueError "API runtime plugin set is incomplete"
      else
        let* entities := mapM_res as_dict l in
        let plugin_names := map (fun plugin => dict_get plugin (u"name")) entities in
        if negb (forallb hashable plugin_names) then raise TypeError "unhashable type"
        else if negb (members_are plugin_names API_PLUGIN_NAMES)
        then raise ValueError "API runtime contains an unexpected or custom plugin"
        else if negb (forallb (plugin_bound route) entities)
        then raise ValueError "API runtime plugin scope or ownership tags changed"
        else Ok (index_plugins entities)
  | _ => raise ValueError "API runtime plugin set is incomplete"
  end.

(** [by_name[name].get("config")] *)
Definition plugin_config (by_name : list (pystr * pydict)) (name : string) : res pyval :=
  let* plugin := res_of_option (Exn KeyError (u name)) (alookup (u name) by_name) in
  Ok (dict_get plugin (u"config")).

(** The guard of the request headers, blanks around it aside. *)
Definition sanitizer_ok (sanitizer : pyval) : bool :=
  match sanitizer with
  | VDict d =>
      keys_are d [u"access"] &&
      match dict_get d (u"access") with
      | VList [VStr s] => bool_decide (py_strip s = HEADER_SANITIZER_LUA)
      | _ => false
      end
  | _ => false
  end.

Definition handshake_config : pyval := obj [("tls_client_certificate", jstr "REQUEST")]%string.
Definition metadata_config : pyval :=
  obj [("inject_client_cert_details", VBool true);
       ("client_cert_header_name", jstr "X-Client-Cert")]%string.

Definition check_api_policies (by_name : list (pystr * pydict)) : res unit :=
  let* sanitizer := plugin_config by_name "pre-function" in
  if negb (sanitizer_ok sanitizer)
  then raise ValueError "API runtime header-boundary guard changed"
  else
    let* oidc := plugin_config by_name "openid-connect" in
    if negb (py_eq oidc expected_oidc_config)
    then raise ValueError "API runtime OIDC Resource Server policy changed"
    else
      let* handshake := plugin_config by_name "tls-handshake-modifier" in
      if negb (py_eq handshake handshake_config)
      then raise ValueError "API runtime TLS handshake certificate request changed"
      else
        let* metadata := plugin_config by_name "tls-metadata-headers" in
        if negb (py_eq metadata metadata_config)
        then raise ValueError "API runtime verified client certificate forwarding changed"
        else Ok tt.

(** The part that needs no foundation, after the certificates. *)
Definition check_api_entities (state : pydict) : res unit :=
  let* (_, route) := check_api_service (dict_get state (u"services")) in
  let* by_name := check_api_plugins route (dict_get state (u"plugins")) in
  check_api_policies by_name.

Section api.
Context `{Yaml}.

Definition validate_api_runtime_state (fs : fsys) : res pydict :=
  let path := u"kong/api-gateway.yaml" in
  if negb (is_file fs path) || is_symlink fs path
  then raise ValueError "API runtime state is missing or unsafe"
  else
    let* state := parse_state fs path in
    let* _ := check_api_head state in
    let* foundation := parse_state fs (u"kong/foundation/api.yaml") in
    let* _ := check_api_certificates state foundation in
    let* _ := check_api_entities state in
    Ok state.
End api.

(** ** What an accepted state guarantees *)

Lemma index_plugins_in plugins name plugin :
  alookup name (index_plugins plugins) = Some plugin ->
  plugin ∈ plugins /\ dict_get plugin (u"name") = VStr name.
Proof.
  unfold index_plugins.
  assert (H : forall acc, alookup name (fold_left (fun by_name plugin =>
      match dict_get plugin (u"name") with
      | VStr name => ainsert name plugin by_name
      | _ => by_name
      end) plugins acc) = Some plugin ->
    alookup name acc = Some plugin \/ plugin ∈ plugins /\ dict_get plugin (u"name") = VStr name).
  { induction plugins as [|p l IH]; intros acc; cbn [fold_left]; [by left|].
    intros [H|[H1 H2]]%IH; [|right; split; [by right|done]].
    destruct (dict_get p (u"name")) as [| | | |s| |] eqn:E; try by left.
    rewrite alookup_ainsert in H. case_decide as Hn; [|by left].
    injection H as ->. subst. right. split; [by left|done]. }
  intros Hl. by destruct (H [] Hl).
Qed.

(** A named plugin of the accepted set, with its binding. *)
Lemma check_api_plugins_named route plugins by_name name config :
  check_api_plugins route plugins = Ok by_name -> plugin_config by_name name = Ok config ->
  exists l plugin, plugins = VList l /\ length l = 4%nat /\ VDict plugin ∈ l /\
    dict_get plugin (u"name") = jstr name /\
    py_eq (dict_get plugin (u"route")) (dict_get route (u"name")) = true /\
    dict_get plugin (u"config") = config.
Proof.
  intros H Hc. unfold check_api_plugins in H.
  destruct plugins as [| | | | |l|]; try discriminate H.
  destruct (length l =? 4)%nat eqn:El; [|discriminate H]. cbn [negb] in H.
  destruct (mapM_res as_dict l) as [entities|] eqn:Ee; [|discriminate H].
  destruct (negb (forallb hashable _)); [discriminate H|].
  destruct (negb (members_are _ _)); [discriminate H|].
  destruct (forallb (plugin_bound route) entities) eqn:Eb; [|discriminate H].
  apply Ok_inj in H as <-. unfold plugin_config in Hc.
  destruct (alookup (u name) (index_plugins entities)) as [plugin|] eqn:Ea; [|discriminate Hc].
  apply Ok_inj in Hc as <-. apply index_plugins_in in Ea as [Hin Hname].
  exists l, plugin. apply Nat.eqb_eq in El. split_and!; [done|done| |done| |done].
  - apply mapM_res_Ok in Ee. destruct (Forall2_in_r _ _ _ _ Ee Hin) as (v & Hv & Hd).
    destruct v; try discriminate Hd. by apply Ok_inj in Hd as ->.
  - rewrite forallb_Forall, Forall_forall in Eb. specialize (Eb _ Hin). unfold plugin_bound in Eb.
    by bool_prop.
Qed.

(** The plugin [name] of [plugins], attached to the only Route, has a
    configuration with the property [P]. *)
Definition route_plugin (plugins : list pyval) (name : string) (P : pyval -> Prop) : Prop :=
  exists plugin, VDict plugin ∈ plugins /\ dict_get plugin (u"name") = jstr name /\
    dict_get plugin (u"route") = jstr RUNTIME_ROUTE_NAME /\ P (dict_get plugin (u"config")).

Definition api_secured (services plugins : pyval) : Prop :=
  exists service route l,
    services = VList [VDict service] /\ dict_get service (u"host") = jstr "pop-verifier" /\
    dict_get service (u"protocol") = jstr "https" /\
    py_truthy (dict_get service (u"tls_verify")) = true /\
    dict_get service (u"client_certificate") = jstr UPSTREAM_CERT_ID /\
    dict_get service (u"routes") = VList [VDict route] /\ py_eq (VDict route) api_route = true /\
    plugins = VList l /\ length l = 4%nat /\
    route_plugin l "pre-function" (fun config => exists d s, config = VDict d /\
      dict_get d (u"access") = VList [VStr s] /\ py_strip s = HEADER_SANITIZER_LUA) /\
    route_plugin l "openid-connect" (fun config => py_eq config expected_oidc_config = true) /\
    route_plugin l "tls-handshake-modifier" (fun config => py_eq config handshake_config = true) /\
    route_plugin l "tls-metadata-headers" (fun config => py_eq config metadata_config = true).

Lemma check_api_service_inv services service route :
  check_api_service services = Ok (service, route) ->
  services = VList [VDict service] /\ obj_matches service api_service = true /\
  dict_get service (u"routes") = VList [VDict route] /\ py_eq (VDict route) api_route = true.
Proof.
  intros H. unfold check_api_service in H.
  destruct services as [| | | | |[|s [|? ?]]|]; try discriminate H.
  destruct (val_set_is s SERVICE_FIELDS) as [[]|]; try discriminate H. cbn [negb] in H.
  destruct s as [| | | | | |d]; try discriminate H.
  destruct (obj_matches d api_service) eqn:Em; [|discriminate H]. cbn [negb] in H.
  destruct (dict_get d (u"routes")) as [| | | | |[|r [|? ?]]|] eqn:Er; try discriminate H.
  destruct r as [| | | | | |r]; try discriminate H.
  destruct (py_eq (VDict r) api_route) eqn:Eq; [|discriminate H].
  apply Ok_inj, pair_equal_spec in H as [<- <-]. done.
Qed.

Lemma check_api_entities_secured state :
  wf_val (VDict state) = true -> check_api_entities state = Ok tt ->
  api_secured (dict_get state (u"services")) (dict_get state (u"plugins")).
Proof.
  intros Hwf H. unfold check_api_entities in H.
  destruct (check_api_service _) as [[service route]|] eqn:Es; [|discriminate H].
  destruct (check_api_plugins route _) as [by_name|] eqn:Ep; [|discriminate H].
  apply check_api_service_inv in Es as (Hs & Hm & Hr & Hroute).
  unfold check_api_policies in H.
  destruct (plugin_config by_name "pre-function") as [sanitizer|] eqn:E1; [|discriminate H].
  destruct (sanitizer_ok sanitizer) eqn:Esan; [|discriminate H].
  destruct (plugin_config by_name "openid-connect") as [oidc|] eqn:E2; [|discriminate H].
  destruct (py_eq oidc expected_oidc_config) eqn:Eo; [|discriminate H].
  destruct (plugin_config by_name "tls-handshake-modifier") as [hs|] eqn:E3; [|discriminate H].
  destruct (py_eq hs handshake_config) eqn:Eh; [|discriminate H].
  destruct (plugin_config by_name "tls-metadata-headers") as [md|] eqn:E4; [|discriminate H].
  destruct (py_eq md metadata_config) eqn:Emd; [|discriminate H]. clear H.
  assert (Hname : forall l plugins name config (P : pyval -> Prop), plugins = VList l ->
    check_api_plugins route plugins = Ok by_name -> plugin_config by_name name = Ok config ->
    P config -> route_plugin l name P).
  { intros l plugins name config P -> Hp Hc HP.
    destruct (check_api_plugins_named _ _ _ _ _ Hp Hc) as (l' & plugin & [= <-] & _ & Hin & Hpn & Hb & <-).
    exists plugin. split_and!; [done|done| |done].
    assert (dict_get route (u"name") = jstr RUNTIME_ROUTE_NAME) as Hrn.
    { apply wf_dict_get with (k := u"services") in Hwf. rewrite Hs, wf_list in Hwf.
      assert (wf_val (VDict service) = true) as Hw by (apply Hwf; by left).
      apply wf_dict_get with (k := u"routes") in Hw. rewrite Hr, wf_list in Hw.
      assert (wf_val (VDict route) = true) as [Hnd _]%wf_dict by (apply Hw; by left).
      pose proof (py_eq_dict_get route _ (u"name") (jstr RUNTIME_ROUTE_NAME) Hnd Hroute eq_refl) as Hn.
      apply orb_true_iff in Hn as [Hn|Hn]; [by destruct (dict_get route _) as [| | |[]| | |]|].
      by apply py_eq_str. }
    rewrite Hrn in Hb. by apply py_eq_str. }
  destruct (check_api_plugins_named _ _ _ _ _ Ep E1) as (l & _ & Hl & Hlen & _).
  exists service, route, l. split_and!; [done| | | | |done|done|done|done| | | |].
  - apply py_eq_str. apply (obj_matches_get _ _ _ _ Hm). reflexivity.
  - apply py_eq_str. apply (obj_matches_get _ _ _ _ Hm). reflexivity.
  - apply py_eq_true. apply (obj_matches_get _ _ _ _ Hm). reflexivity.
  - apply py_eq_str. apply (obj_matches_get _ _ _ _ Hm). reflexivity.
  - apply (Hname l _ _ _ _ Hl Ep E1). clear - Esan. unfold sanitizer_ok in Esan.
    destruct sanitizer as [| | | | | |d]; try discriminate Esan. apply andb_true_iff in Esan as [_ H].
    destruct (dict_get d (u"access")) as [| | | | |[|[| | | |s| |] [|? ?]]|] eqn:E; try discriminate H.
    exists d, s. apply bool_decide_eq_true in H. done.
  - apply (Hname l _ _ _ _ Hl Ep E2 Eo).
  - apply (Hname l _ _ _ _ Hl Ep E3 Eh).
  - apply (Hname l _ _ _ _ Hl Ep E4 Emd).
Qed.

(** C23: An accepted API runtime state comes from a regular file that is not a
    symbolic link, keeps the certificates of the API foundation, and has one
    Service, over verified TLS with the upstream client certificate, with one Route,
    to which exactly four plugins are attached: the reviewed request sanitizer, the
    sender-constrained introspection policy and the two client certificate plugins. *)
Theorem api_state_secured `{YamlLaws} fs state :
  validate_api_runtime_state fs = Ok state ->
  is_symlink fs (u"kong/api-gateway.yaml") = false /\
  parse_state fs (u"kong/api-gateway.yaml") = Ok state /\
  (exists foundation l, parse_state fs (u"kong/foundation/api.yaml") = Ok foundation /\
     dict_get foundation (u"certificates") = VList l /\
     py_eq (dict_get state (u"certificates")) (VList l) = true) /\
  api_secured (dict_get state (u"services")) (dict_get state (u"plugins")).
Proof.
  intros Hok. unfold validate_api_runtime_state in Hok. cbv zeta in Hok.
  destruct (negb (is_file fs (u"kong/api-gateway.yaml")) || is_symlink fs (u"kong/api-gateway.yaml"))
    eqn:Efile; [discriminate Hok|]. apply orb_false_iff in Efile as [_ Hlink].
  destruct (parse_state fs (u"kong/api-gateway.yaml")) as [state'|] eqn:Ep; [|discriminate Hok].
  destruct (check_api_head state') as [[]|]; [|discriminate Hok].
  destruct (parse_state fs (u"kong/foundation/api.yaml")) as [foundation|] eqn:Ef; [|discriminate Hok].
  destruct (check_api_certificates state' foundation) as [[]|] eqn:Ec; [|discriminate Hok].
  destruct (check_api_entities state') as [[]|] eqn:Ee; [|discriminate Hok].
  apply Ok_inj in Hok as ->. split_and!; [done|done| |by apply check_api_entities_secured; [apply (parse_deck_file_wf _ _ _ _ _ Ep)|]].
  exists foundation. unfold check_api_certificates in Ec.
  destruct (dict_get foundation (u"certificates")) as [| | | | |l|]; try discriminate Ec.
  exists l. split_and!; [done|done|]. cbn [is_list negb orb] in Ec.
  by destruct (py_eq (dict_get state (u"certificates")) (VList l)).
Qed.

(** ** A sample deployment *)

Module ApiSample.

Definition plugin (name : string) (config : pyval) : pyval :=
  obj [("id", runtime_id (u name)); ("name", jstr name); ("route", jstr RUNTIME_ROUTE_NAME);
       ("tags", API_TAGS); ("config", config)]%string.

Definition service : pyval :=
  match api_service with
  | VDict d => VDict (d ++ [(u"routes", VList [api_route])])
  | v => v
  end.

Definition state : pydict :=
  match obj [("_format_version", jstr "3.0"); ("_info", obj [("select_tags", strs ["fapi2-demo"])]);
       ("certificates", VList []); ("ca_certificates", VList [api_ca]);
       ("services", VList [service]);
       ("plugins", VList
          [plugin "pre-function" (obj [("access", VList [VStr ([10] ++ HEADER_SANITIZER_LUA)])]);
           plugin "openid-connect" expected_oidc_config;
           plugin "tls-handshake-modifier" handshake_config;
           plugin "tls-metadata-headers" metadata_config])]%string with
  | VDict d => d
  | _ => []
  end.

(** A document format with two texts, one for each file. *)
Definition document (text : pystr) : pyval :=
  if bool_decide (text = [115]) then VDict state else obj [("certificates", VList [])]%string.

#[local] Instance yaml : Yaml := {| yaml_compose text := Some (node_of (document text)) |}.

Lemma yaml_laws : YamlLaws (H := yaml).
Proof.
  split. intros text n H. change (Some (node_of (document text)) = Some n) in H.
  apply (inj Some) in H as <-. apply node_of_scalars.
Qed.

Definition files : fsys := {|
  node_at path := Some (FFile 420 (if bool_decide (path = u"kong/api-gateway.yaml") then bs "s" else bs "f"));
  is_symlink _ := false; unreadable _ := false |}.

Lemma sample_state_accepted : validate_api_runtime_state files = Ok state.
Proof. vm_compute. reflexivity. Qed.
End ApiSample.

Lemma api_state_secured_witness :
  exists state, validate_api_runtime_state (H := ApiSample.yaml) ApiSample.files = Ok state /\
    api_secured (dict_get state (u"services")) (dict_get state (u"plugins")).
Proof.
  exists ApiSample.state. split; [exact ApiSample.sample_state_accepted|].
  exact (proj2 (proj2 (proj2 (api_state_secured (H0 := ApiSample.yaml_laws) _ _ ApiSample.sample_state_accepted)))).
Defined.
