(* ===== verification/DeckReport.v ===== *)
(** What the two readers of decK JSON reports share: the operations of a report,
    the kinds of its entities, tuples of texts in the order Python sorts them,
    and multisets compared as [Counter]s are. *)
From S2P Require Export LocalFiles ApiState.

Local Open Scope Z_scope.

(** ** Operations *)

Inductive operation := Creating | Updating | Deleting.
#[export] Instance operation_eq_dec : EqDecision operation.
Proof. solve_decision. Defined.

(** [operation_names] *)
Definition operations : list operation := [Creating; Updating; Deleting].

Definition op_name (op : operation) : pystr :=
  match op with
  | Creating => u"creating"
  | Updating => u"updating"
  | Deleting => u"deleting"
  end.

Definition op_names : list pystr := map op_name operations.

(** One value for each operation: [{operation: ... for operation in operations}]. *)
Record by_op (A : Type) := ByOp { creating : A; updating : A; deleting : A }.
Arguments ByOp {A} creating updating deleting.
Arguments creating {A} b.
Arguments updating {A} b.
Arguments deleting {A} b.

Definition of_op {A} (b : by_op A) (op : operation) : A :=
  match op with Creating => creating b | Updating => updating b | Deleting => deleting b end.

Definition map_op {A B} (f : A -> B) (b : by_op A) : by_op B :=
  ByOp (f (creating b)) (f (updating b)) (f (deleting b)).

(** The loop over the operations, which fills the dictionaries one by one. *)
Definition each_op {A} (f : operation -> res A) : res (by_op A) :=
  let* c := f Creating in
  let* up := f Updating in
  let* d := f Deleting in
  Ok (ByOp c up d).

Definition op_dict (b : by_op pyval) : pyval :=
  VDict (map (fun op => (op_name op, of_op b op)) operations).

(** [{"creating": c, "updating": u, "deleting": d, "total": c + u + d}] *)
Definition counts (b : by_op nat) : pyval :=
  VDict (map (fun op => (op_name op, VInt (Z.of_nat (of_op b op)))) operations
         ++ [(u"total", VInt (Z.of_nat (creating b + updating b + deleting b)))]).

(** [type(summary[operation]) is int and summary[operation] == n] *)
Definition count_is (v : pyval) (n : nat) : bool :=
  match v with VInt z => z =? Z.of_nat n | _ => false end.

(** ** Tuples of texts *)

Fixpoint key_leb (k l : list pystr) : bool :=
  match k, l with
  | [], _ => true
  | _ :: _, [] => false
  | x :: k', y :: l' => if bool_decide (x = y) then key_leb k' l' else str_leb x y
  end.

Lemma key_leb_refl k : key_leb k k = true.
Proof. induction k as [|x k IH]; [done|]. cbn [key_leb]. by rewrite bool_decide_true. Qed.

Lemma key_leb_total k l : key_leb k l = true \/ key_leb l k = true.
Proof.
  revert l. induction k as [|x k IH]; intros [|y l]; [by left..|by right|]. cbn [key_leb].
  destruct (decide (x = y)) as [->|Hn].
  - rewrite !bool_decide_true by done. apply IH.
  - rewrite !bool_decide_false by done. apply str_leb_total.
Qed.

Lemma key_leb_trans k l m : key_leb k l = true -> key_leb l m = true -> key_leb k m = true.
Proof.
  revert l m. induction k as [|x k IH]; intros [|y l] [|z m]; cbn [key_leb]; try done.
  repeat case_bool_decide; subst; try done; try congruence.
  - apply IH.
  - intros H1 H2. pose proof (str_leb_antisym _ _ H1 H2). congruence.
  - apply str_leb_trans.
Qed.

Lemma key_leb_antisym k l : key_leb k l = true -> key_leb l k = true -> k = l.
Proof.
  revert l. induction k as [|x k IH]; intros [|y l]; cbn [key_leb]; try done.
  repeat case_bool_decide; subst; try congruence.
  - intros H1 H2. f_equal. by apply IH.
  - intros H1 H2. pose proof (str_leb_antisym _ _ H1 H2). congruence.
Qed.

(** Sorting by a tuple: the result is the same for every order of the elements,
    when equal tuples mean equal elements. *)
Section sort_key.
Context {A : Type} (key : A -> list pystr).

Definition sort_key (l : list A) : list A := py_sort (fun x y => key_leb (key x) (key y)) l.

Lemma sort_key_perm l : sort_key l ≡ₚ l.
Proof. apply py_sort_perm. Qed.

Lemma sort_key_unique l k :
NoDup (map key l) -> l ≡ₚ k -> sort_key l = sort_key k.
Proof.
intros Hn Hp. apply py_sort_unique; [|intros; by eapply key_leb_trans| |done].
- intros x y. apply key_leb_total.
- intros x y Hx Hy H1 H2. pose proof (key_leb_antisym _ _ H1 H2) as Hk.
  apply list_elem_of_lookup in Hx as [i Hi], Hy as [j Hj].
  assert (i = j) as ->; [|congruence].
  apply (NoDup_lookup (map key l) i j (key x)); [done| |].
  + by rewrite list_lookup_fmap, Hi.
  + rewrite list_lookup_fmap, Hj. simpl. congruence.
Qed.

Lemma sort_key_sorted l : StronglySorted (leb_rel (fun x y => key_leb (key x) (key y))) (sort_key l).
Proof.
apply py_sort_sorted; [intros x y; apply key_leb_total|intros x y z; apply key_leb_trans].
Qed.

(** Sorting what is sorted changes nothing. *)
Lemma sort_key_idem l : sort_key (sort_key l) = sort_key l.
Proof. apply py_sort_id, sort_key_sorted. Qed.
End sort_key.

(** ** Counters *)

Section counter.
Context {A : Type} `{EqDecision A}.

Definition count (x : A) (l : list A) : nat := length (List.filter (fun y => bool_decide (x = y)) l).

(** [Counter(l) == Counter(k)] *)
Definition same_counts (l k : list A) : bool :=
forallb (fun x => (count x l =? count x k)%nat) (l ++ k).

Lemma count_cons x y l : count x (y :: l) = ((if decide (x = y) then 1 else 0) + count x l)%nat.
Proof. unfold count. simpl. by repeat case_decide; rewrite ?bool_decide_true, ?bool_decide_false by done. Qed.

Lemma count_zero x l : count x l = 0%nat <-> x ∉ l.
Proof.
induction l as [|y l IH]; [by split; [intros _ ?%elem_of_nil|]|].
rewrite count_cons, not_elem_of_cons, <- IH. case_decide; intuition lia.
Qed.

Lemma count_perm x l k : l ≡ₚ k -> count x l = count x k.
Proof. induction 1; rewrite ?count_cons; lia. Qed.

Lemma same_counts_perm l k : same_counts l k = true <-> l ≡ₚ k.
Proof.
unfold same_counts. rewrite forallb_Forall, Forall_forall. split.
- intros H. assert (Hc : forall x, count x l = count x k).
  { intros x. destruct (decide (x ∈ l ++ k)) as [Hx|Hx].
    - by apply Nat.eqb_eq, H.
    - rewrite elem_of_app in Hx. rewrite !(proj2 (count_zero x _)); tauto. }
  clear H. revert k Hc. induction l as [|x l IH]; intros k Hc.
  + destruct k as [|y k]; [done|]. specialize (Hc y).
    rewrite count_cons, decide_True in Hc by done. done.
  + assert (x ∈ k) as Hx.
    { destruct (decide (x ∈ k)) as [|Hn]; [done|]. apply count_zero in Hn.
      rewrite <- Hc, count_cons, decide_True in Hn by done. done. }
    apply elem_of_Permutation in Hx as [k' Hk]. rewrite Hk. apply Permutation_skip, IH.
    intros y. specialize (Hc y). rewrite (count_perm y k _ Hk), !count_cons in Hc. lia.
- intros Hp x _. by apply Nat.eqb_eq, count_perm.
Qed.
End counter.

(** An invariant of a loop that relates the accumulator to the elements already
    visited. *)
Lemma foldM_res_visited {A B} (P : list A -> B -> Prop) (f : B -> A -> res B) l b b' :
  P [] b ->
  (forall visited x c c', P visited c -> f c x = Ok c' -> P (visited ++ [x]) c') ->
  foldM_res f l b = Ok b' -> P l b'.
Proof.
  intros Hb Hf. assert (H : forall l visited c, P visited c -> foldM_res f l c = Ok b' -> P (visited ++ l) b').
  { clear l Hb. intros l. induction l as [|x l IH]; intros visited c Hc H; cbn [foldM_res] in H.
    - apply Ok_inj in H as <-. by rewrite app_nil_r.
    - destruct (f c x) as [c'|] eqn:E; [|discriminate H].
      replace (visited ++ x :: l) with ((visited ++ [x]) ++ l) by (by rewrite <- app_assoc).
      apply (IH _ c'); [|done]. by apply (Hf visited x c c'). }
  intros Hl. by apply (H l [] b).
Qed.

Lemma foldM_res_unit {A} (f : unit -> A -> res unit) l :
  foldM_res f l tt = Ok tt <-> Forall (fun x => f tt x = Ok tt) l.
Proof.
  induction l as [|x l IH]; cbn [foldM_res]; [by split|]. rewrite Forall_cons, <- IH.
  destruct (f tt x) as [[]|]; [tauto|]. by split; [|intros []].
Qed.

(** A list related to a permuted one has a permutation that is related to it. *)
Lemma Forall2_perm {A B} (P : A -> B -> Prop) l l' k :
  Forall2 P l k -> l ≡ₚ l' -> exists k', k ≡ₚ k' /\ Forall2 P l' k'.
Proof.
  intros H Hp. revert k H. induction Hp as [|x l l' _ IH|x y l|l l1 l2 _ IH1 _ IH2]; intros k H.
  - exists k. split; [done|]. by inversion H.
  - inversion H as [|? b ? k0 Hx Hk]; subst. destruct (IH k0 Hk) as (k' & ? & ?).
    exists (b :: k'). split; [by apply Permutation_skip|by constructor].
  - inversion H as [|? b ? k0 Hx Hk]; subst. inversion Hk as [|? b' ? k1 Hy Hk1]; subst.
    exists (b' :: b :: k1). split; [constructor|]. by repeat constructor.
  - destruct (IH1 k H) as (k1 & ? & H1). destruct (IH2 k1 H1) as (k2 & ? & ?).
    exists k2. split; [by etrans|done].
Qed.
