(* ===== verification/ApiDiff.v ===== *)
(** The decK difference report of the API runtime in [src/scripts/wp3_runtime.py]:
    its validation and digest ([parse_deck_diff_report]), the boundary of the
    reviewed migration ([validate_runtime_diff_scope]) and of its approval
    ([validate_migration_approval_operations]). *)
From S2P Require Export DeckReport.

Local Open Scope Z_scope.

(** ** Fixed tables *)

Definition ROUTE_A : pystr := u"route-a".
Definition ROUTE_B : pystr := u"route-b".

Definition LEGACY_API_SERVICE_ROUTE_TAGS : list (pystr * pystr) :=
  [(u"fapi-mtls-service", ROUTE_A); (u"fapi-pkj-mtls-service", ROUTE_B)].
Definition LEGACY_API_ROUTE_SERVICE_TAGS : list (pystr * pystr) :=
  [(u"fapi-mtls-route", ROUTE_A); (u"fapi-pkj-mtls-route", ROUTE_B)].
Definition LEGACY_API_PLUGIN_ROUTE_TAGS : list (pystr * pystr) :=
  [(u"cors", ROUTE_A); (u"request-transformer", ROUTE_A); (u"openid-connect", ROUTE_A);
   (u"cors", ROUTE_B); (u"request-transformer", ROUTE_B); (u"openid-connect", ROUTE_B);
   (u"fapi-client-auth-bridge", ROUTE_B)].

Inductive entity_kind := KService | KRoute | KPlugin | KCertificate.
#[export] Instance entity_kind_eq_dec : EqDecision entity_kind.
Proof. solve_decision. Defined.

Definition EXPECTED_RUNTIME_CREATE_KINDS : list (pystr * entity_kind) :=
  [(u RUNTIME_SERVICE_NAME, KService); (u RUNTIME_ROUTE_NAME, KRoute);
   (u"pre-function", KPlugin); (u"openid-connect", KPlugin);
   (u"tls-handshake-modifier", KPlugin); (u"tls-metadata-headers", KPlugin)].

(** [EXPECTED_RUNTIME_MIGRATION_SUMMARY], without its total. *)
Definition MIGRATION_COUNTS : by_op nat := ByOp 6%nat 0%nat 13%nat.
Definition EXPECTED_RUNTIME_MIGRATION_SUMMARY : pyval := counts MIGRATION_COUNTS.

(** [canonical_entity_kind(kind)] *)
Definition canonical_entity_kind (kind : pystr) : option entity_kind :=
  alookup (py_lower kind)
    [(u"service", KService); (u"services", KService); (u"route", KRoute); (u"routes", KRoute);
     (u"plugin", KPlugin); (u"plugins", KPlugin);
     (u"certificate", KCertificate); (u"certificates", KCertificate)].

(** ** The report *)

(** The identity of an operation, and the entry of the report. *)
Record identity := Identity { id_kind : pystr; id_name : pystr; id_id : option pystr }.
#[export] Instance identity_eq_dec : EqDecision identity.
Proof. solve_decision. Defined.

(** [ch_entity] is the body the operation is about. *)
Record change := Change {
  ch_kind : pystr; ch_name : pystr; ch_old : pyval; ch_new : pyval; ch_entity : pydict
}.

Abbreviation change_list := (list (identity * change)).

Definition malformed_bodies (op : operation) : string :=
  match op with
  | Creating => "decK API create body is malformed"
  | Updating => "decK API update body is malformed"
  | Deleting => "decK API delete body is malformed"
  end.

(** A deletion has its entity in [new], as decK reports it. *)
Definition bodies_ok (op : operation) (old new : pyval) : bool :=
  match op with
  | Creating | Deleting => is_none old && is_dict new
  | Updating => is_dict old && is_dict new
  end.

Definition entity_id_of (op : operation) (entity : pydict) : res (option pystr) :=
  match dict_get entity (u"id") with
  | VNone => match op with
             | Creating => Ok None
             | _ => raise ValueError "decK API existing entity operation omitted its ID"
             end
  | VStr ((_ :: _) as id) => Ok (Some id)
  | _ => raise ValueError "decK API runtime diff report entity ID is malformed"
  end.

Definition identity_name_of (kind name : pystr) (entity : pydict) : res pystr :=
  if bool_decide (canonical_entity_kind kind = Some KPlugin) then
    match dict_get entity (u"name") with
    | VStr ((_ :: _) as entity_name) => Ok entity_name
    | _ => raise ValueError "decK plugin diff body omitted its canonical entity name"
    end
  else Ok name.

Definition id_changed (op : operation) (old : pydict) (new : pyval) : bool :=
  match op, new with
  | Updating, VDict n => negb (py_eq (dict_get old (u"id")) (dict_get n (u"id")))
  | _, _ => false
  end.

Definition parse_bodies (op : operation) (kind name : pystr) (body : pydict)
    : res (identity * change) :=
  if negb (keys_are body (names ["old"; "new"]))
  then raise ValueError "decK API runtime diff entity body does not match the pinned schema"
  else
    let old := dict_get body (u"old") in
    let new := dict_get body (u"new") in
    match (if bool_decide (op = Updating) then old else new) with
    | VDict entity =>
        if negb (bodies_ok op old new) then raise ValueError (malformed_bodies op)
        else
          let* entity_id := entity_id_of op entity in
          if id_changed op entity new
          then raise ValueError "decK API update changed an existing entity ID"
          else
            let* identity_name := identity_name_of kind name entity in
            Ok (Identity kind identity_name entity_id, Change kind name old new entity)
    | _ => raise ValueError "decK API runtime diff report entity body is incomplete"
    end.

Definition parse_entry (op : operation) (entry : pyval) : res (identity * change) :=
  match entry with
  | VDict d =>
      if negb (keys_are d (names ["kind"; "name"; "body"]))
      then raise ValueError "decK API runtime diff report entity is malformed"
      else
        match dict_get d (u"kind"), dict_get d (u"name"), dict_get d (u"body") with
        | VStr ((_ :: _) as kind), VStr ((_ :: _) as name), VDict body =>
            parse_bodies op kind name body
        | _, _, _ => raise ValueError "decK API runtime diff report entity identity is incomplete"
        end
  | _ => raise ValueError "decK API runtime diff report entity is malformed"
  end.

(** [(identity["kind"], identity["name"], identity["id"] or "")] *)
Definition identity_key (i : identity) : list pystr :=
  [id_kind i; id_name i; match id_id i with Some s => s | None => [] end].
Definition pair_key (p : identity * change) : list pystr := identity_key (fst p).

Definition parse_operation (changes summary : pydict) (op : operation) : res change_list :=
  match dict_get changes (op_name op) with
  | VList entries =>
      let* pairs := mapM_res (parse_entry op) entries in
      let pairs := sort_key pair_key pairs in
      if has_dup (map fst pairs)
      then raise ValueError "decK API runtime diff report has duplicate operation identities"
      else if negb (count_is (dict_get summary (op_name op)) (length pairs))
      then raise ValueError
             "decK API runtime diff report summary does not match its operation identities"
      else Ok pairs
  | _ => raise ValueError "decK API runtime diff report operation list is malformed"
  end.

(** ** Relations between entities *)

(** [_legacy_route_tag(entity)] *)
Definition legacy_route_tag (entity : pydict) : option pystr :=
  match dict_get entity (u"tags") with
  | VList [VStr s; VStr t] =>
      if bool_decide (s = t) then None
      else
        let value := if bool_decide (s = u"fapi2-demo") then Some t
                     else if bool_decide (t = u"fapi2-demo") then Some s else None in
        match value with
        | Some v => if bool_decide (v ∈ [ROUTE_A; ROUTE_B]) then Some v else None
        | None => None
        end
  | _ => None
  end.

(** [_relation_id(entity, field, expected_name)] *)
Definition relation_id (entity : pydict) (field : string) (expected_name : pystr) : option pystr :=
  match dict_get entity (u field) with
  | VDict relation =>
      if negb (keys_are relation (names ["id"; "name"])) then None
      else
        match dict_get relation (u"id") with
        | VStr ((_ :: _) as id) =>
            if py_eq (dict_get relation (u"name")) (VStr expected_name) then Some id else None
        | _ => None
        end
  | _ => None
  end.

(** [_certificate_relation_id(entity, field)] *)
Definition certificate_relation_id (entity : pydict) (field : string) : option pystr :=
  match dict_get entity (u field) with
  | VDict relation =>
      if negb (keys_are relation [u"id"]) then None
      else match dict_get relation (u"id") with VStr ((_ :: _) as id) => Some id | _ => None end
  | _ => None
  end.

(** [next(service for service, service_route in ... if service_route == route_tag)] *)
Definition legacy_service (route_tag : pystr) : res pystr :=
  res_of_option (Exn StopIteration [])
    (option_map fst (List.find (fun st => bool_decide (snd st = route_tag))
                       LEGACY_API_SERVICE_ROUTE_TAGS)).

(** ** The boundary of the migration *)

Definition protected_ids : list pystr :=
  [u SHARED_API_CA_ID; u INTROSPECTION_CERT_ID; u UPSTREAM_CERT_ID] ++ RUNTIME_ENTITY_IDS.*2.

Definition is_protected (id : option pystr) : bool :=
  match id with Some s => bool_decide (s ∈ protected_ids) | None => false end.

Definition entity_has_id (entity : pydict) (id : option pystr) : bool :=
  py_eq (dict_get entity (u"id")) (match id with Some s => VStr s | None => VNone end).

(** One creation. *)
Definition check_create (_ : unit) (p : identity * change) : res unit :=
  let (identity, entry) := p in
  let entity := ch_entity entry in
  let kind := canonical_entity_kind (id_kind identity) in
  let* _ :=
    if bool_decide (kind = Some KPlugin) then
      if negb (bool_decide (ch_name entry = id_name identity ++ u" for route " ++ u RUNTIME_ROUTE_NAME))
         || has_key entity (u"service")
         || negb (bool_decide (relation_id entity "route" (u RUNTIME_ROUTE_NAME)
                               = alookup (u RUNTIME_ROUTE_NAME) RUNTIME_ENTITY_IDS))
      then raise ValueError "API runtime plugin create descriptor or Route binding changed"
      else Ok tt
    else if negb (bool_decide (ch_name entry = id_name identity))
    then raise ValueError "API runtime create report name does not match its canonical entity name"
    else Ok tt in
  if bool_decide (kind = Some KRoute)
     && negb (bool_decide (relation_id entity "service" (u RUNTIME_SERVICE_NAME)
                           = alookup (u RUNTIME_SERVICE_NAME) RUNTIME_ENTITY_IDS))
  then raise ValueError
         "API runtime Route create is not bound to the fixed Resource Server Service"
  else if negb (bool_decide (kind = alookup (id_name identity) EXPECTED_RUNTIME_CREATE_KINDS))
          || negb (py_eq (dict_get entity (u"name")) (VStr (id_name identity)))
          || negb (py_eq (dict_get entity (u"tags")) API_TAGS)
  then raise ValueError "API runtime diff create kind, canonical name, or ownership tags changed"
  else Ok tt.

(** What the first loop over the deletions collects. *)
Record deleted := Deleted {
  services_by_route : list (pystr * option pystr);
  named_deletes : list (entity_kind * pystr * pystr);
  certificate_rows : list (identity * change * pystr)
}.

Definition check_named_delete (st : deleted) (kind : entity_kind) (identity : identity)
    (entry : change) (route_tag : pystr) : res deleted :=
  let name := id_name identity in
  let named := named_deletes st ++ [(kind, name, route_tag)] in
  match kind with
  | KService =>
      if negb (bool_decide (alookup name LEGACY_API_SERVICE_ROUTE_TAGS = Some route_tag))
         || bool_decide (route_tag ∈ (services_by_route st).*1)
      then raise ValueError "API runtime Service delete is outside the legacy Route boundary"
      else Ok (Deleted (ainsert route_tag (id_id identity) (services_by_route st)) named
                 (certificate_rows st))
  | KRoute =>
      if negb (bool_decide (alookup name LEGACY_API_ROUTE_SERVICE_TAGS = Some route_tag))
      then raise ValueError "API runtime Route delete is outside the legacy Route boundary"
      else Ok (Deleted (services_by_route st) named (certificate_rows st))
  | KPlugin =>
      if negb (bool_decide ((name, route_tag) ∈ LEGACY_API_PLUGIN_ROUTE_TAGS))
      then raise ValueError "API runtime plugin delete is outside the legacy Route boundary"
      else
        let* service_name := legacy_service route_tag in
        if negb (bool_decide (ch_name entry = name ++ u" for service " ++ service_name))
        then raise ValueError "legacy plugin display name changed from its Service association"
        else Ok (Deleted (services_by_route st) named (certificate_rows st))
  | KCertificate =>
      raise ValueError "API runtime delete kind is outside the legacy Route boundary"
  end.

(** One deletion. *)
Definition check_delete (st : deleted) (p : identity * change) : res deleted :=
  let (identity, entry) := p in
  let entity := ch_entity entry in
  match canonical_entity_kind (id_kind identity) with
  | None => raise ValueError "API runtime migration attempted an unknown or protected delete"
  | Some kind =>
      if is_protected (id_id identity) || negb (entity_has_id entity (id_id identity))
      then raise ValueError "API runtime migration attempted an unknown or protected delete"
      else
        match legacy_route_tag entity with
        | None => raise ValueError
                    "API runtime migration delete has tags outside the legacy Route boundary"
        | Some route_tag =>
            if bool_decide (kind = KCertificate)
            then Ok (Deleted (services_by_route st) (named_deletes st)
                       (certificate_rows st ++ [(identity, entry, route_tag)]))
            else if negb (py_eq (dict_get entity (u"name")) (VStr (id_name identity)))
            then raise ValueError "API runtime delete name does not match its decK identity"
            else
              let* st' := check_named_delete st kind identity entry route_tag in
              if bool_decide (kind ∈ [KService; KRoute])
                 && negb (bool_decide (ch_name entry = id_name identity))
              then raise ValueError
                "API runtime delete report name does not match its canonical entity name"
              else Ok st'
        end
  end.

Definition expected_named : list (entity_kind * pystr * pystr) :=
  map (fun nt => (KService, fst nt, snd nt)) LEGACY_API_SERVICE_ROUTE_TAGS
  ++ map (fun nt => (KRoute, fst nt, snd nt)) LEGACY_API_ROUTE_SERVICE_TAGS
  ++ map (fun nt => (KPlugin, fst nt, snd nt)) LEGACY_API_PLUGIN_ROUTE_TAGS.

(** [d.get(k)] of a dictionary with optional values. *)
Definition get_id (d : list (pystr * option pystr)) (k : pystr) : option pystr :=
  match alookup k d with Some v => v | None => None end.

(** The relations of one deletion to the deleted services and certificates. *)
Definition check_relations (services certificates : list (pystr * option pystr)) (_ : unit)
    (p : identity * change) : res unit :=
  let (identity, entry) := p in
  let entity := ch_entity entry in
  let tag := match legacy_route_tag entity with Some t => t | None => [] end in
  match canonical_entity_kind (id_kind identity) with
  | Some KService =>
      if negb (bool_decide (certificate_relation_id entity "client_certificate"
                            = get_id certificates tag))
         || negb (py_eq (dict_get entity (u"ca_certificates")) (strs [SHARED_API_CA_ID]))
      then raise ValueError
             "legacy Service certificate relations changed from the Route-owned certificates"
      else Ok tt
  | Some KRoute | Some KPlugin =>
      let* service_name := legacy_service tag in
      if negb (bool_decide (relation_id entity "service" service_name = get_id services tag))
      then raise ValueError
             "legacy Route or plugin is not scoped to its matching legacy Service"
      else Ok tt
  | _ => Ok tt
  end.

(** One of the certificates. *)
Definition collect_certificate (certificates : list (pystr * option pystr))
    (row : identity * change * pystr) : res (list (pystr * option pystr)) :=
  match row with
  | (identity, entry, route_tag) =>
      if is_protected (id_id identity) || negb (entity_has_id (ch_entity entry) (id_id identity))
      then raise ValueError "API runtime migration attempted to delete a protected certificate"
      else Ok (ainsert route_tag (id_id identity) certificates)
  end.

Definition check_deletes (deletes : change_list) : res unit :=
  let* st := foldM_res check_delete deletes (Deleted [] [] []) in
  if negb (same_counts (named_deletes st) expected_named)
     || negb (same_set (services_by_route st).*1 [ROUTE_A; ROUTE_B])
  then raise ValueError
    "API runtime deletes do not match the 11 known legacy Services, Routes, and plugins"
  else if negb (same_counts (map snd (certificate_rows st)) [ROUTE_A; ROUTE_B])
  then raise ValueError
    "API runtime migration must delete the two Route-scoped certificates only"
  else
    let* certificates := foldM_res collect_certificate (certificate_rows st) [] in
    foldM_res (check_relations (services_by_route st) certificates) deletes tt.

Definition expected_creates : list (pystr * option pystr) :=
  map (fun ni => (fst ni, Some (snd ni))) RUNTIME_ENTITY_IDS.

(** [validate_runtime_diff_scope(operations, changes)]; the two arguments hold
    the identities and the entries of the same changes. *)
Definition validate_runtime_diff_scope (changes : by_op change_list) : res unit :=
  if forallb (fun op => bool_decide (length (of_op changes op) = 0%nat)) operations then Ok tt
  else if negb (forallb (fun op => (length (of_op changes op) =? of_op MIGRATION_COUNTS op)%nat)
                  operations)
  then raise ValueError "API runtime migration must match the reviewed 6/0/13 operation boundary"
  else
    let actual := map (fun p => (id_name (fst p), id_id (fst p))) (creating changes) in
    if negb (same_set actual expected_creates)
       || negb (length actual =? length expected_creates)%nat
    then raise ValueError "API runtime diff creates do not match its six fixed entity identities"
    else
      let* _ := foldM_res check_create (creating changes) tt in
      if has_dup (map (fun p => id_id (fst p)) (creating changes ++ deleting changes))
      then raise ValueError "API runtime diff report contains duplicate entity IDs"
      else check_deletes (deleting changes).

(** ** The result *)

Definition id_val (id : option pystr) : pyval :=
  match id with Some s => VStr s | None => VNone end.

Definition identity_val (i : identity) : pyval :=
  obj [("kind", VStr (id_kind i)); ("name", VStr (id_name i)); ("id", id_val (id_id i))]%string.

Definition change_val (c : change) : pyval :=
  obj [("kind", VStr (ch_kind c)); ("name", VStr (ch_name c));
       ("body", obj [("old", ch_old c); ("new", ch_new c)])]%string.

Definition operations_val (changes : by_op change_list) : pyval :=
  op_dict (map_op (fun l => VList (map (fun p => identity_val (fst p)) l)) changes).
Definition changes_val (changes : by_op change_list) : pyval :=
  op_dict (map_op (fun l => VList (map (fun p => change_val (snd p)) l)) changes).

Definition canonical_report (changes : by_op change_list) (summary : pydict) : pyval :=
  obj [("changes", changes_val changes); ("summary", VDict summary); ("warnings", VList []);
       ("errors", VList [])]%string.

(** [type(summary["total"]) is int] and the sum of the counts, which are
    integers by then. *)
Definition total_ok (summary : pydict) (changes : by_op change_list) : bool :=
  count_is (dict_get summary (u"total"))
    (length (creating changes) + length (updating changes) + length (deleting changes)).

(** The validation of a report that has been read. *)
Definition parse_report (report : pyval) : res (pydict * by_op change_list) :=
  match report with
  | VDict d =>
      if negb (keys_are d (names ["changes"; "summary"; "warnings"; "errors"])
               && py_eq (dict_get d (u"warnings")) (VList [])
               && py_eq (dict_get d (u"errors")) (VList []))
      then raise ValueError
        "decK API runtime diff report contains unexpected fields, warnings, or errors"
      else
        match dict_get d (u"changes"), dict_get d (u"summary") with
        | VDict changes, VDict summary =>
            if negb (keys_are changes op_names && keys_are summary (op_names ++ [u"total"]))
            then raise ValueError "decK API runtime diff report operation structure changed"
            else
              let* parsed := each_op (parse_operation changes summary) in
              if negb (total_ok summary parsed)
              then raise ValueError
                "decK API runtime diff report total does not match operation counts"
              else
                let* _ := validate_runtime_diff_scope parsed in
                Ok (summary, parsed)
        | _, _ => raise ValueError "decK API runtime diff report operation structure changed"
        end
  | _ => raise ValueError
      "decK API runtime diff report contains unexpected fields, warnings, or errors"
  end.

(** The receipt view and the digest. *)
Definition report_result (parsed : pydict * by_op change_list) : res (pydict * pystr) :=
  let (summary, changes) := parsed in
  let* digest := canonical_sha256 (canonical_report changes summary) in
  Ok ([(u"summary", VDict summary); (u"operations", operations_val changes)], digest).

(** What [parse_deck_diff_report] does once the JSON has been read. *)
Definition check_report (report : pyval) : res (pydict * pystr) :=
  let* parsed := parse_report report in report_result parsed.

Definition duplicate_report_field : exn := Exn ValueError (u"duplicate decK diff report field").

(** [parse_deck_diff_report(raw_output)] *)
Definition parse_deck_diff_report (depth : nat) (raw_output : pystr) : res (pydict * pystr) :=
  let* report := catch (loads (unique_pairs duplicate_report_field []) default_constant depth raw_output)
                   [JSONDecodeError; UnicodeError]
                   (fun _ => raise ValueError
                      "decK API runtime diff did not return a valid JSON report") in
  check_report report.

(** ** The operations of an approval *)

Definition named_kinds (l : list identity) : list (option entity_kind * pystr) :=
  List.filter (fun kn => negb (bool_decide (fst kn = Some KCertificate)))
    (map (fun i => (canonical_entity_kind (id_kind i), id_name i)) l).

Definition certificate_count (l : list identity) : nat :=
  length (List.filter (fun i => bool_decide (canonical_entity_kind (id_kind i) = Some KCertificate)) l).

Definition approved_creates : list (option entity_kind * pystr * option pystr) :=
  map (fun ni => (alookup (fst ni) EXPECTED_RUNTIME_CREATE_KINDS, fst ni, Some (snd ni)))
    RUNTIME_ENTITY_IDS.

Definition approved_deletes : list (option entity_kind * pystr) :=
  map (fun knt => (Some (fst (fst knt)), snd (fst knt))) expected_named.

(** [validate_migration_approval_operations(summary, operations)]; the caller has
    checked the shape of the operations. *)
Definition validate_migration_approval_operations (summary : pyval) (ops : by_op (list identity))
    : res unit :=
  if negb (py_eq summary EXPECTED_RUNTIME_MIGRATION_SUMMARY)
  then raise ValueError
    "API runtime migration approval is not bound to the reviewed 6/0/13 change"
  else if negb (same_counts
              (map (fun i => (canonical_entity_kind (id_kind i), id_name i, id_id i)) (creating ops))
              approved_creates)
          || negb (bool_decide (updating ops = []))
  then raise ValueError "API runtime migration approval create/update identities changed"
  else if negb (same_counts (named_kinds (deleting ops)) approved_deletes)
          || negb (certificate_count (deleting ops) =? 2)%nat
          || negb (length (deleting ops) =? 13)%nat
  then raise ValueError "API runtime migration approval delete identities changed"
  else if has_dup (map id_id (creating ops ++ deleting ops))
  then raise ValueError "API runtime migration approval contains duplicate entity identities"
  else if existsb (fun i => is_protected (id_id i)) (deleting ops)
  then raise ValueError
    "API runtime migration approval attempts to delete a protected entity"
  else Ok tt.

(** ** What the deletions are *)

Definition change_of (p : identity * change) : option (entity_kind * pystr) :=
  match canonical_entity_kind (id_kind (fst p)), legacy_route_tag (ch_entity (snd p)) with
  | Some kind, Some tag => Some (kind, tag)
  | _, _ => None
  end.

(** The kind, name and Route tag of a change that is no certificate. *)
Definition named_of (p : identity * change) : list (entity_kind * pystr * pystr) :=
  match change_of p with
  | Some (kind, tag) => if bool_decide (kind = KCertificate) then [] else [(kind, id_name (fst p), tag)]
  | None => []
  end.

Definition row_of (p : identity * change) : list (identity * change * pystr) :=
  match change_of p with
  | Some (kind, tag) => if bool_decide (kind = KCertificate) then [(p, tag)] else []
  | None => []
  end.

Definition deletable (p : identity * change) : Prop :=
  is_protected (id_id (fst p)) = false /\ entity_has_id (ch_entity (snd p)) (id_id (fst p)) = true /\
  is_Some (change_of p).

Definition visited_deletes (l : change_list) (st : deleted) : Prop :=
  Forall deletable l /\ named_deletes st = flat_map named_of l /\
  certificate_rows st = flat_map row_of l /\
  forall tag id, alookup tag (services_by_route st) = Some id ->
    exists p, p ∈ l /\ change_of p = Some (KService, tag) /\ id_id (fst p) = id.

Lemma check_named_delete_ok st kind identity entry tag st' :
  check_named_delete st kind identity entry tag = Ok st' ->
  kind <> KCertificate /\
  named_deletes st' = named_deletes st ++ [(kind, id_name identity, tag)] /\
  certificate_rows st' = certificate_rows st /\
  services_by_route st' = (if bool_decide (kind = KService)
                           then ainsert tag (id_id identity) (services_by_route st)
                           else services_by_route st).
Proof.
  unfold check_named_delete. destruct kind; intros H.
  - destruct (_ || _); [discriminate H|]. by apply Ok_inj in H as <-.
  - destruct (negb _); [discriminate H|]. by apply Ok_inj in H as <-.
  - destruct (negb _); [discriminate H|]. destruct (legacy_service tag); [|discriminate H].
    destruct (negb _); [discriminate H|]. by apply Ok_inj in H as <-.
  - discriminate H.
Qed.

Lemma check_delete_visited l st p st' :
  visited_deletes l st -> check_delete st p = Ok st' -> visited_deletes (l ++ [p]) st'.
Proof.
  intros (Hd & Hn & Hr & Hs) H. destruct p as [identity entry]. unfold check_delete in H.
  destruct (canonical_entity_kind (id_kind identity)) as [kind|] eqn:Ek; [|discriminate H].
  destruct (is_protected (id_id identity)) eqn:Ep; [discriminate H|].
  destruct (entity_has_id (ch_entity entry) (id_id identity)) eqn:Ei; [|discriminate H].
  cbn [orb negb] in H.
  destruct (legacy_route_tag (ch_entity entry)) as [tag|] eqn:Et; [|discriminate H].
  assert (Hc : change_of (identity, entry) = Some (kind, tag)).
  { unfold change_of. cbn [fst snd]. by rewrite Ek, Et. }
  assert (Hdel : Forall deletable (l ++ [(identity, entry)])).
  { apply Forall_app. split; [done|]. constructor; [|constructor]. split_and!; [done|done|by rewrite Hc]. }
  unfold visited_deletes. rewrite !flat_map_app. cbn [flat_map]. rewrite !app_nil_r.
  unfold named_of at 2, row_of at 2. rewrite Hc.
  case_bool_decide as Hk.
  - apply Ok_inj in H as <-. cbn [named_deletes certificate_rows services_by_route].
    rewrite app_nil_r. split_and!; [done|done|by rewrite Hr|].
    intros t id Hl. destruct (Hs t id Hl) as (p & Hp & ?). exists p. split; [|done].
    apply elem_of_app. by left.
  - destruct (negb (py_eq _ _)); [discriminate H|].
    destruct (check_named_delete st kind identity entry tag) as [st1|] eqn:En; [|discriminate H].
    destruct (_ && _); [discriminate H|]. apply Ok_inj in H as <-.
    apply check_named_delete_ok in En as (_ & -> & -> & Hsv). rewrite app_nil_r.
    split_and!; [done|by rewrite Hn|done|]. rewrite Hsv. intros t id Hl.
    case_bool_decide as Hks; subst.
    + rewrite alookup_ainsert in Hl. case_decide as Ht.
      * injection Hl as <-. subst. exists (identity, entry). split; [apply elem_of_app; right; by left|done].
      * destruct (Hs t id Hl) as (p & Hp & ?). exists p. split; [apply elem_of_app; by left|done].
    + destruct (Hs t id Hl) as (p & Hp & ?). exists p. split; [apply elem_of_app; by left|done].
Qed.

(** The deleted entity a deletion depends on is itself deleted, and belongs to
    the same Route. *)
Definition linked (deletes : change_list) (p : identity * change) : Prop :=
  match change_of p with
  | Some (KService, tag) =>
      exists c, c ∈ deletes /\ change_of c = Some (KCertificate, tag) /\
        certificate_relation_id (ch_entity (snd p)) "client_certificate" = id_id (fst c)
  | Some (KRoute, tag) | Some (KPlugin, tag) =>
      exists s service, s ∈ deletes /\ change_of s = Some (KService, tag) /\
        legacy_service tag = Ok service /\
        relation_id (ch_entity (snd p)) "service" service = id_id (fst s)
  | _ => True
  end.

Lemma collect_certificates_spec rows certificates :
  foldM_res collect_certificate rows [] = Ok certificates ->
  (forall tag, tag ∈ map snd rows -> tag ∈ certificates.*1) /\
  forall tag id, alookup tag certificates = Some id ->
    exists p, (p, tag) ∈ rows /\ id_id (fst p) = id.
Proof.
  refine (foldM_res_visited (fun rows certificates =>
    (forall tag, tag ∈ map snd rows -> tag ∈ certificates.*1) /\
    forall tag id, alookup tag certificates = Some id ->
      exists p : identity * change, (p, tag) ∈ rows /\ id_id (fst p) = id) _ rows [] certificates _ _).
  - split; [by intros ? ?%elem_of_nil|done].
  - intros visited [p t] c c' [H1 H2] H. unfold collect_certificate in H. destruct p as [identity entry].
    destruct (_ || _); [discriminate H|]. apply Ok_inj in H as <-. split.
    + intros tag. rewrite map_app, elem_of_app, ainsert_keys. cbn [map snd].
      rewrite list_elem_of_singleton. intros Ht. case_decide as Hin.
      * destruct Ht as [Ht| ->]; [by apply H1|done].
      * apply elem_of_app. destruct Ht as [Ht| ->]; [left; by apply H1|right; by left].
    + intros tag id. rewrite alookup_ainsert. case_decide as Ht.
      * intros [= <-]. subst. exists (identity, entry). split; [apply elem_of_app; right; by left|done].
      * intros Hl. destruct (H2 tag id Hl) as (p & Hp & ?). exists p. split; [apply elem_of_app; by left|done].
Qed.

Lemma elem_of_rows p tag l : (p, tag) ∈ flat_map row_of l -> p ∈ l /\ change_of p = Some (KCertificate, tag).
Proof.
  rewrite list_elem_of_In, in_flat_map. intros (q & Hq%list_elem_of_In & Hin).
  unfold row_of in Hin. destruct (change_of q) as [[k t]|] eqn:E; [|done].
  case_bool_decide as Hk; [|done]. destruct Hin as [[= <- <-]|[]]. by subst.
Qed.

Lemma legacy_route_tag_cases entity tag :
  legacy_route_tag entity = Some tag -> tag = ROUTE_A \/ tag = ROUTE_B.
Proof.
  unfold legacy_route_tag. intros H.
  destruct (dict_get entity (u"tags")) as [| | | | |[|[| | | |s| |] [|[| | | |t| |] [|? ?]]]|]; try discriminate H.
  destruct (bool_decide (s = t)); [discriminate H|].
  destruct (if bool_decide (s = u"fapi2-demo") then _ else _) as [v|]; [|discriminate H].
  destruct (bool_decide (v ∈ [ROUTE_A; ROUTE_B])) eqn:E; [|discriminate H].
  injection H as ->. apply bool_decide_eq_true in E.
  rewrite !elem_of_cons in E. destruct E as [->|[->|[]%elem_of_nil]]; auto.
Qed.

Record deletes_reviewed (l : change_list) : Prop := {
  dr_deletable : Forall deletable l;
  dr_named : flat_map named_of l ≡ₚ expected_named;
  dr_certificates : map snd (flat_map row_of l) ≡ₚ [ROUTE_A; ROUTE_B];
  dr_linked : Forall (linked l) l
}.

Lemma check_relations_linked l services certificates p :
  (forall tag id, alookup tag services = Some id ->
     exists s, s ∈ l /\ change_of s = Some (KService, tag) /\ id_id (fst s) = id) ->
  (forall tag id, alookup tag certificates = Some id ->
     exists c, c ∈ l /\ change_of c = Some (KCertificate, tag) /\ id_id (fst c) = id) ->
  (forall tag, tag = ROUTE_A \/ tag = ROUTE_B -> tag ∈ services.*1 /\ tag ∈ certificates.*1) ->
  check_relations services certificates tt p = Ok tt -> linked l p.
Proof.
  intros Hs Hc Hin H. unfold linked, change_of. destruct p as [identity entry]. cbn [fst snd].
  unfold check_relations in H.
  destruct (canonical_entity_kind (id_kind identity)) as [kind|]; [|done].
  destruct (legacy_route_tag (ch_entity entry)) as [tag|] eqn:Et; [|by destruct kind].
  destruct (Hin tag (legacy_route_tag_cases _ _ Et)) as [Hi1 Hi2].
  apply alookup_is_Some in Hi1 as [sid Hsid], Hi2 as [cid Hcid].
  unfold get_id in H. rewrite ?Hsid, ?Hcid in H.
  assert (Hservice : (let* service_name := legacy_service tag in
     if negb (bool_decide (relation_id (ch_entity entry) "service" service_name = sid))
     then raise ValueError "legacy Route or plugin is not scoped to its matching legacy Service"
     else Ok tt) = Ok tt ->
     exists s service, s ∈ l /\ change_of s = Some (KService, tag) /\
       legacy_service tag = Ok service /\
       relation_id (ch_entity entry) "service" service = id_id (fst s)).
  { clear H. destruct (legacy_service tag) as [service|] eqn:El; [|done].
    destruct (bool_decide _) eqn:E; [|done]. intros _. apply bool_decide_eq_true in E.
    destruct (Hs tag sid Hsid) as (s & H1 & H2 & H3). exists s, service. by rewrite H3. }
  destruct kind; [|by apply Hservice..|done].
  destruct (bool_decide _) eqn:E; [|discriminate H]. apply bool_decide_eq_true in E.
  destruct (Hc tag cid Hcid) as (c & H1 & H2 & H3). exists c. by rewrite H3.
Qed.

Lemma check_deletes_reviewed l : check_deletes l = Ok tt -> deletes_reviewed l.
Proof.
  intros H. unfold check_deletes in H.
  destruct (foldM_res check_delete l (Deleted [] [] [])) as [st|] eqn:Est; [|discriminate H].
  assert (Hv : visited_deletes l st).
  { refine (foldM_res_visited visited_deletes _ l _ st _ _ Est).
    - by split_and!.
    - intros visited x c c' Hc Hx. by apply (check_delete_visited visited c x c'). }
  destruct Hv as (Hd & Hn & Hr & Hs).
  destruct (same_counts (named_deletes st) expected_named) eqn:E1; [|discriminate H].
  destruct (same_set (services_by_route st).*1 [ROUTE_A; ROUTE_B]) eqn:E2; [|discriminate H].
  destruct (same_counts (map snd (certificate_rows st)) [ROUTE_A; ROUTE_B]) eqn:E3; [|discriminate H].
  cbn [negb orb] in H. apply same_counts_perm in E1, E3. rewrite Hn in E1. rewrite Hr in E3.
  rewrite Hr in H. rewrite same_set_true in E2.
  destruct (foldM_res collect_certificate (flat_map row_of l) []) as [certificates|] eqn:Ec;
    [|discriminate H].
  apply collect_certificates_spec in Ec as [Hc1 Hc2].
  split; [done|done|done|]. apply foldM_res_unit in H.
  eapply Forall_impl; [exact H|]. intros p Hp.
  refine (check_relations_linked l (services_by_route st) certificates p Hs _ _ Hp).
  - intros tag id Ht. destruct (Hc2 tag id Ht) as (c & Hin & Hid).
    apply elem_of_rows in Hin as [? ?]. by exists c.
  - intros tag Ht. assert (tag ∈ [ROUTE_A; ROUTE_B]) as Hin.
    { destruct Ht as [->| ->]; [by left|right; by left]. }
    split; [by apply E2|]. apply Hc1. by rewrite E3.
Qed.

(** A migration: nothing is updated, exactly the six fixed entities are created,
    and the deletions are the reviewed ones, under identifiers that are all
    different. *)
Record migration_reviewed (changes : by_op change_list) : Prop := {
  mr_updates : updating changes = [];
  mr_creates : map (fun p => (id_name (fst p), id_id (fst p))) (creating changes) ≡ₚ expected_creates;
  mr_kinds : Forall (fun p => canonical_entity_kind (id_kind (fst p)) =
                              alookup (id_name (fst p)) EXPECTED_RUNTIME_CREATE_KINDS) (creating changes);
  mr_thirteen : length (deleting changes) = 13%nat;
  mr_deletes : deletes_reviewed (deleting changes);
  mr_ids : NoDup (map (fun p => id_id (fst p)) (creating changes ++ deleting changes))
}.

Lemma check_create_kind p :
  check_create tt p = Ok tt ->
  canonical_entity_kind (id_kind (fst p)) = alookup (id_name (fst p)) EXPECTED_RUNTIME_CREATE_KINDS.
Proof.
  destruct p as [identity entry]. unfold check_create. cbn [fst]. intros H.
  match type of H with match ?m with _ => _ end = _ => destruct m; [|discriminate H] end.
  destruct (_ && _); [discriminate H|].
  destruct (bool_decide (_ = alookup (id_name identity) EXPECTED_RUNTIME_CREATE_KINDS)) eqn:E;
    [|discriminate H].
  by apply bool_decide_eq_true in E.
Qed.

Lemma expected_creates_nodup : NoDup expected_creates.
Proof. apply (bool_decide_unpack _). by vm_compute. Qed.

(** A set of the right size that covers a list without repetitions is that list. *)
Lemma same_set_exact (l k : list (pystr * option pystr)) :
  NoDup k -> same_set l k = true -> length l = length k -> l ≡ₚ k.
Proof.
  intros Hk Hs Hl. rewrite same_set_true in Hs. symmetry.
  apply submseteq_length_Permutation; [|lia]. apply NoDup_submseteq; [done|]. intros x. apply Hs.
Qed.

Definition no_changes (changes : by_op change_list) : Prop :=
  creating changes = [] /\ updating changes = [] /\ deleting changes = [].

Lemma scope_reviewed changes :
  validate_runtime_diff_scope changes = Ok tt -> no_changes changes \/ migration_reviewed changes.
Proof.
  unfold validate_runtime_diff_scope. intros H.
  destruct (forallb (fun op => bool_decide (length (of_op changes op) = 0%nat)) operations) eqn:E0.
  { left. cbn [operations forallb of_op] in E0. bool_prop. repeat split; by apply nil_length_inv. }
  right. clear E0.
  destruct (forallb (fun op => (length (of_op changes op) =? of_op MIGRATION_COUNTS op)%nat) operations)
    eqn:El; [|discriminate H].
  cbn [operations forallb of_op MIGRATION_COUNTS creating updating deleting negb] in El, H. bool_prop.
  cbv zeta in H.
  destruct (same_set _ expected_creates) eqn:Es; [|discriminate H].
  destruct (length _ =? length expected_creates)%nat eqn:Elen in H; [|discriminate H]. cbn [negb orb] in H.
  destruct (foldM_res check_create (creating changes) tt) as [[]|] eqn:Ec; [|discriminate H].
  destruct (has_dup _) eqn:Ed in H; [discriminate H|].
  split.
  - by apply nil_length_inv.
  - apply same_set_exact; [exact expected_creates_nodup|done|]. by apply Nat.eqb_eq.
  - apply foldM_res_unit in Ec. eapply Forall_impl; [exact Ec|]. apply check_create_kind.
  - done.
  - by apply check_deletes_reviewed.
  - by apply has_dup_false.
Qed.

(** C21: A difference report that is accepted changes nothing at all, or is exactly
    the reviewed migration: no update, the six fixed entities created, and thirteen
    deletions that are the known legacy entities of the two Routes, none of them
    protected, each linked to a deleted service or certificate of the same Route. *)
Theorem accepted_report_reviewed report summary changes :
  parse_report report = Ok (summary, changes) ->
  py_eq (dict_get summary (u"total"))
    (VInt (Z.of_nat (length (creating changes) + length (updating changes) + length (deleting changes))))
    = true /\
  (no_changes changes \/ migration_reviewed changes).
Proof.
  intros H. unfold parse_report in H. destruct report as [| | | | | |d]; try discriminate H.
  destruct (negb _); [discriminate H|].
  destruct (dict_get d (u"changes")) as [| | | | | |ch]; try discriminate H.
  destruct (dict_get d (u"summary")) as [| | | | | |su]; try discriminate H.
  destruct (negb _); [discriminate H|].
  destruct (each_op (parse_operation ch su)) as [parsed|]; [|discriminate H].
  destruct (total_ok su parsed) eqn:Et; [|discriminate H]. cbn [negb] in H.
  destruct (validate_runtime_diff_scope parsed) as [[]|] eqn:Es; [|discriminate H].
  apply Ok_inj, pair_equal_spec in H as [-> ->].
  split; [|by apply scope_reviewed].
  unfold total_ok, count_is in Et. by destruct (dict_get summary (u"total")).
Qed.

(** ** The order of the entries *)

(** A report with the given entries. *)
Definition report_of (entries : by_op (list pyval)) (summary : pydict) : pyval :=
  obj [("changes", op_dict (map_op VList entries)); ("summary", VDict summary);
       ("warnings", VList []); ("errors", VList [])]%string.

Lemma parse_entry_id op entry identity c :
  parse_entry op entry = Ok (identity, c) -> id_id identity <> Some [].
Proof.
  unfold parse_entry, parse_bodies. intros H. destruct entry as [| | | | | |d]; try discriminate H.
  destruct (negb _); [discriminate H|].
  destruct (dict_get d (u"kind")) as [| | | |[|k kind]| |]; try discriminate H.
  destruct (dict_get d (u"name")) as [| | | |[|n name]| |]; try discriminate H.
  destruct (dict_get d (u"body")) as [| | | | | |body]; try discriminate H.
  destruct (negb _); [discriminate H|].
  destruct (if bool_decide (op = Updating) then _ else _) as [| | | | | |entity]; try discriminate H.
  destruct (negb _); [discriminate H|].
  destruct (entity_id_of op entity) as [id|] eqn:Eid; [|discriminate H].
  destruct (id_changed _ _ _); [discriminate H|]. destruct (identity_name_of _ _ _); [|discriminate H].
  apply Ok_inj, pair_equal_spec in H as [<- _]. cbn [id_id]. unfold entity_id_of in Eid.
  destruct (dict_get entity (u"id")) as [| | | |[|c0 s]| |]; try discriminate Eid.
  - destruct op; try discriminate Eid. by apply Ok_inj in Eid as <-.
  - by apply Ok_inj in Eid as <-.
Qed.

Lemma identity_key_inj i j :
  id_id i <> Some [] -> id_id j <> Some [] -> identity_key i = identity_key j -> i = j.
Proof.
  destruct i as [k n id], j as [k' n' id']. unfold identity_key. cbn [id_kind id_name id_id].
  intros H1 H2 [= -> -> H]. destruct id as [s|], id' as [s'|]; congruence.
Qed.

Lemma parse_operation_order changes changes' summary op l l' pairs :
  dict_get changes (op_name op) = VList l -> dict_get changes' (op_name op) = VList l' -> l ≡ₚ l' ->
  parse_operation changes summary op = Ok pairs -> parse_operation changes' summary op = Ok pairs.
Proof.
  intros Hl Hl' Hp. unfold parse_operation. rewrite Hl, Hl'.
  destruct (mapM_res (parse_entry op) l) as [ps|] eqn:E; [|done]. apply mapM_res_Ok in E.
  destruct (Forall2_perm _ _ _ _ E Hp) as (ps' & Hps & E'). apply mapM_res_Ok in E'. rewrite E'.
  destruct (has_dup (map fst (sort_key pair_key ps))) eqn:Ed; [done|].
  assert (sort_key pair_key ps' = sort_key pair_key ps) as ->; [|by rewrite Ed].
  symmetry. apply sort_key_unique; [|done]. apply has_dup_false in Ed.
  assert (Hnd : NoDup (map fst ps)).
  { rewrite <- (fmap_Permutation fst _ _ (sort_key_perm pair_key ps)). exact Ed. }
  assert (Hid : Forall (fun p : identity * change => id_id (fst p) <> Some []) ps).
  { apply Forall_forall. intros [i c] Hin. destruct (Forall2_in_r _ _ _ _ E Hin) as (e & _ & He).
    by apply (parse_entry_id _ _ _ _ He). }
  clear - Hnd Hid. replace (map pair_key ps) with (map identity_key (map fst ps)) by (by rewrite map_map).
  assert (Hid' : Forall (fun i => id_id i <> Some []) (map fst ps)) by (by apply Forall_map).
  revert Hnd Hid'. generalize (map fst ps) as ids. clear. intros ids. induction 1 as [|i ids Hi _ IH]; [constructor|].
  intros [H1 H2]%Forall_cons. constructor; [|by apply IH].
  intros (j & Hj & Hin)%list_elem_of_In%in_map_iff. apply list_elem_of_In in Hin.
  rewrite Forall_forall in H2. apply Hi. by rewrite <- (identity_key_inj j i (H2 j Hin) H1 Hj).
Qed.

Lemma parse_report_of entries summary :
  parse_report (report_of entries summary) =
  if negb (keys_are summary (op_names ++ [u"total"]))
  then raise ValueError "decK API runtime diff report operation structure changed"
  else
    let* parsed := each_op (parse_operation
      (map (fun op => (op_name op, VList (of_op entries op))) operations) summary) in
    if negb (total_ok summary parsed)
    then raise ValueError "decK API runtime diff report total does not match operation counts"
    else let* _ := validate_runtime_diff_scope parsed in Ok (summary, parsed).
Proof.
  unfold parse_report, report_of, obj. cbn [map fst snd].
  match goal with |- (if negb ?b then _ else _) = _ => replace b with true by (vm_compute; reflexivity) end.
  cbn [negb].
  match goal with |- match ?a with _ => _ end = _ =>
    replace a with (op_dict (map_op VList entries)) by (vm_compute; reflexivity) end.
  match goal with |- match _ with VNone => _ | _ => _ end = _ => idtac end.
  unfold op_dict at 1.
  match goal with |- match ?a with _ => _ end = _ =>
    replace a with (VDict summary) by (vm_compute; reflexivity) end.
  match goal with |- (if negb (?b && _) then _ else _) = _ => replace b with true by (vm_compute; reflexivity) end.
  done.
Qed.

(** C38: The result of the validation, and so the digest a receipt approves, does not
    depend on the order in which decK lists the changes of an operation. *)
Theorem report_order_irrelevant entries entries' summary result :
  (forall op, of_op entries op ≡ₚ of_op entries' op) ->
  check_report (report_of entries summary) = Ok result ->
  check_report (report_of entries' summary) = Ok result.
Proof.
  intros Hp. unfold check_report.
  enough (H : forall parsed, parse_report (report_of entries summary) = Ok parsed ->
    parse_report (report_of entries' summary) = Ok parsed).
  { destruct (parse_report (report_of entries summary)) as [parsed|]; [|done].
    by rewrite (H parsed eq_refl). }
  intros parsed H. rewrite parse_report_of in H |- *.
  destruct (negb (keys_are summary _)); [discriminate H|].
  assert (Hop : forall op pairs,
    parse_operation (map (fun op => (op_name op, VList (of_op entries op))) operations) summary op = Ok pairs ->
    parse_operation (map (fun op => (op_name op, VList (of_op entries' op))) operations) summary op = Ok pairs).
  { intros op pairs. apply (parse_operation_order _ _ _ _ (of_op entries op) (of_op entries' op));
      [by destruct op|by destruct op|apply Hp]. }
  unfold each_op in H |- *.
  destruct (parse_operation _ summary Creating) as [c|] eqn:E1 in H; [|discriminate H].
  destruct (parse_operation _ summary Updating) as [up|] eqn:E2 in H; [|discriminate H].
  destruct (parse_operation _ summary Deleting) as [d|] eqn:E3 in H; [|discriminate H].
  by rewrite (Hop _ _ E1), (Hop _ _ E2), (Hop _ _ E3).
Qed.

(** ** Approval of a reviewed migration *)

Lemma named_kinds_of l :
  Forall deletable l ->
  named_kinds (map fst l) = map (fun knt => (Some (fst (fst knt)), snd (fst knt))) (flat_map named_of l) /\
  certificate_count (map fst l) = length (flat_map row_of l).
Proof.
  induction 1 as [|[identity entry] l (_ & _ & Hc) _ [IH1 IH2]]; [done|].
  cbn [map fst flat_map]. unfold named_kinds, certificate_count in *. cbn [map List.filter fst].
  destruct Hc as [[kind tag] Hc]. unfold named_of, row_of. rewrite Hc. unfold change_of in Hc. cbn [fst snd] in Hc.
  destruct (canonical_entity_kind (id_kind identity)) as [k|]; [|discriminate Hc].
  destruct (legacy_route_tag _) as [t|]; [|discriminate Hc]. injection Hc as -> ->. cbn [fst].
  destruct (decide (kind = KCertificate)) as [->|Hk].
  - rewrite !bool_decide_true by done. cbn [negb app length]. by rewrite IH1, IH2.
  - rewrite !bool_decide_false by congruence. cbn [negb app map fst snd]. by rewrite IH1, IH2.
Qed.

(** A report with changes is the reviewed migration. *)
Lemma reviewed_migration changes :
  validate_runtime_diff_scope changes = Ok tt -> ~ no_changes changes -> migration_reviewed changes.
Proof. intros H Hno. by destruct (scope_reviewed _ H). Qed.

(** The checks the approval receipt makes on its operations accept the operations
    of a reviewed migration. *)
Lemma approval_ops_ok changes :
  migration_reviewed changes -> forall summary,
  py_eq summary EXPECTED_RUNTIME_MIGRATION_SUMMARY = true ->
  validate_migration_approval_operations summary (map_op (map fst) changes) = Ok tt.
Proof.
  intros [Hu Hc Hk H13 [Hd Hn Hr _] Hids] summary Hsum.
  unfold validate_migration_approval_operations, map_op. cbn [creating updating deleting].
  rewrite Hsum. cbn [negb].
  destruct (named_kinds_of (deleting changes) Hd) as [Hnk Hcc]. rewrite Hnk, Hcc, Hu.
  rewrite (proj2 (same_counts_perm _ approved_creates)).
  2: { replace (map _ (map fst (creating changes))) with
         (map (fun ni => (alookup (fst ni) EXPECTED_RUNTIME_CREATE_KINDS, fst ni, snd ni))
            (map (fun p => (id_name (fst p), id_id (fst p))) (creating changes))).
       - rewrite (fmap_Permutation (fun ni : pystr * option pystr =>
           (alookup (fst ni) EXPECTED_RUNTIME_CREATE_KINDS, fst ni, snd ni)) _ _ Hc). done.
       - rewrite !map_map. apply map_ext_in. intros p Hp%list_elem_of_In.
         rewrite Forall_forall in Hk. cbn [fst snd]. by rewrite <- (Hk p Hp). }
  rewrite (proj2 (same_counts_perm _ approved_deletes)) by
    (unfold approved_deletes; by apply fmap_Permutation).
  rewrite length_map, H13. replace (length (flat_map row_of (deleting changes))) with 2%nat.
  2: { rewrite <- (length_map snd), Hr. done. }
  rewrite <- map_app, map_map, (proj2 (has_dup_false _) Hids). cbn [negb orb map].
  replace (existsb _ _) with false; [done|]. symmetry. apply existsb_false, Forall_map.
  eapply Forall_impl; [exact Hd|]. intros p Hp. apply Hp.
Qed.

(** ** A sample migration *)

Module ApiDiffSample.

Definition relation (id name : string) : pyval := obj [("id", jstr id); ("name", jstr name)]%string.

Definition entry (kind name : string) (entity : list (string * pyval)) : pyval :=
  obj [("kind", jstr kind); ("name", jstr name);
       ("body", obj [("old", VNone); ("new", obj entity)])]%string.

Definition fixed (name : string) : list (string * pyval) :=
  [("name", jstr name); ("id", runtime_id (u name)); ("tags", API_TAGS)]%string.

Definition route_relation : string * pyval :=
  ("route"%string, obj [("id", runtime_id (u RUNTIME_ROUTE_NAME)); ("name", jstr RUNTIME_ROUTE_NAME)]%string).

Definition created_plugin (name : string) : pyval :=
  entry "plugin" (String.append name " for route fapi-api-resource-server-route")
    (route_relation :: fixed name).

Definition created : list pyval :=
  [entry "service" RUNTIME_SERVICE_NAME (fixed RUNTIME_SERVICE_NAME);
   entry "route" RUNTIME_ROUTE_NAME
     (("service"%string, obj [("id", runtime_id (u RUNTIME_SERVICE_NAME));
                              ("name", jstr RUNTIME_SERVICE_NAME)]%string) :: fixed RUNTIME_ROUTE_NAME);
   created_plugin "pre-function"; created_plugin "openid-connect";
   created_plugin "tls-handshake-modifier"; created_plugin "tls-metadata-headers"].

(** The legacy entities of one Route. *)
Definition legacy (tag service route : string) (plugins : list string) : list pyval :=
  let tags := ("tags", strs ["fapi2-demo"; tag])%string in
  let service_id := String.append "service-" tag in
  [entry "service" service
     [("id", jstr service_id); ("name", jstr service); tags;
      ("client_certificate", obj [("id", jstr (String.append "certificate-" tag))]);
      ("ca_certificates", strs [SHARED_API_CA_ID])]%string;
   entry "route" route
     [("id", jstr (String.append "route-" tag)); ("name", jstr route); tags;
      ("service", relation service_id service)]%string;
   entry "certificate" (String.append "certificate-" tag)
     [("id", jstr (String.append "certificate-" tag)); tags]%string]
  ++ map (fun plugin => entry "plugin" (String.append plugin (String.append " for service " service))
       [("id", jstr (String.append plugin tag)); ("name", jstr plugin); tags;
        ("service", relation service_id service)]%string) plugins.

Definition deleted_entries : list pyval :=
  legacy "route-a" "fapi-mtls-service" "fapi-mtls-route"
    ["cors"; "request-transformer"; "openid-connect"]
  ++ legacy "route-b" "fapi-pkj-mtls-service" "fapi-pkj-mtls-route"
    ["cors"; "request-transformer"; "openid-connect"; "fapi-client-auth-bridge"]%string.

Definition summary : pydict :=
  match EXPECTED_RUNTIME_MIGRATION_SUMMARY with VDict d => d | _ => [] end.

Definition report : pyval := report_of (ByOp created [] deleted_entries) summary.
Definition reversed : pyval := report_of (ByOp (rev created) [] (rev deleted_entries)) summary.

Definition changes : by_op change_list :=
  match parse_report report with Ok (_, changes) => changes | Err _ => ByOp [] [] [] end.

Lemma sample_report_accepted : parse_report report = Ok (summary, changes).
Proof. vm_compute. reflexivity. Qed.

(** With one deletion replaced by that of a protected entity the report is refused. *)
Definition protecting : pyval :=
  report_of (ByOp created [] (removelast deleted_entries ++
    [entry "certificate" "x" [("id", jstr SHARED_API_CA_ID); ("tags", strs ["fapi2-demo"; "route-a"])]%string]))
    summary.

Example protected_refused : is_ok (parse_report protecting) = false.
Proof. vm_compute. reflexivity. Qed.
End ApiDiffSample.

Lemma accepted_report_reviewed_witness :
  parse_report ApiDiffSample.report = Ok (ApiDiffSample.summary, ApiDiffSample.changes) /\
  (no_changes ApiDiffSample.changes \/ migration_reviewed ApiDiffSample.changes).
Proof.
  split; [exact ApiDiffSample.sample_report_accepted|].
  exact (proj2 (accepted_report_reviewed _ _ _ ApiDiffSample.sample_report_accepted)).
Defined.

Lemma report_order_irrelevant_witness :
  exists result, check_report ApiDiffSample.report = Ok result /\
    check_report ApiDiffSample.reversed = Ok result.
Proof.
  destruct (canonical_sha256_total (canonical_report ApiDiffSample.changes ApiDiffSample.summary))
    as [digest Hd]; [vm_compute; reflexivity|].
  assert (H : check_report ApiDiffSample.report =
    Ok ([(u"summary", VDict ApiDiffSample.summary);
         (u"operations", operations_val ApiDiffSample.changes)], digest)).
  { unfold check_report. rewrite ApiDiffSample.sample_report_accepted. unfold report_result.
    by rewrite Hd. }
  eexists. split; [exact H|].
  apply (report_order_irrelevant (ByOp ApiDiffSample.created [] ApiDiffSample.deleted_entries)); [|exact H].
  intros []; cbn [of_op creating updating deleting]; [apply Permutation_rev|done|apply Permutation_rev].
Defined.
