(* ===== verification/Sanitize.v ===== *)
(** What [src/scripts/run-deck.py] removes from the output of decK before it is
    shown ([sanitize_output]): PEM blocks and secret values. *)
From S2P Require Export DeckReport.

Local Open Scope Z_scope.

(** ** PEM blocks *)

Definition ends_label (c : Z) : bool := (c =? 45) || (c =? 13) || (c =? 10).

(** One label character or more and five dashes: what follows them. *)
Definition after_label (s : pystr) : option pystr :=
  match span_until ends_label s with
  | (_ :: _, r) => after (u"-----") r
  | _ => None
  end.

Definition after_begin (s : pystr) : option pystr :=
  match after (u"-----BEGIN ") s with Some r => after_label r | None => None end.
Definition after_end (s : pystr) : option pystr :=
  match after (u"-----END ") s with Some r => after_label r | None => None end.

(** The first end line: what follows it. *)
Fixpoint find_end (s : pystr) : option pystr :=
  match after_end s with
  | Some r => Some r
  | None => match s with [] => None | _ :: s' => find_end s' end
  end.

(** A PEM block at the head of the text: what follows it. *)
Definition match_pem (s : pystr) : option pystr :=
  match after_begin s with Some r => find_end r | None => None end.

(** [re.sub(pattern, "[REDACTED PEM]", text, flags=re.DOTALL)]; [skip] characters
    of the current match are still to be passed. *)
Fixpoint redact_pem (skip : nat) (s : pystr) : pystr :=
  match s with
  | [] => []
  | c :: s' =>
      match skip with
      | S k => redact_pem k s'
      | O =>
          match match_pem s with
          | Some r => u"[REDACTED PEM]" ++ redact_pem (length s - length r - 1) s'
          | None => c :: redact_pem 0 s'
          end
      end
  end.

(** ** Secrets *)

Definition REDACTED : pystr := u"[REDACTED]".

(** The order in which Python iterates over a set of texts. *)
Class SetOrder := { set_order : list pystr -> list pystr }.
Class SetOrderLaws `{SetOrder} := {
  set_order_elem : forall l s, s ∈ set_order l <-> s ∈ l
}.

(** [sorted(safe_secrets, key=len, reverse=True)]: equal lengths keep their order. *)
Definition longest_first (l : list pystr) : list pystr :=
  py_sort (fun s t => (length t <=? length s)%nat) l.

Definition is_secret (s : pystr) : bool := (4 <=? length s)%nat.

Definition redact (text secret : pystr) : pystr := replace_sub secret REDACTED text.

Definition sanitize_output `{SetOrder} (text : pystr) (secrets : list pystr) : pystr :=
  fold_left redact (longest_first (set_order (List.filter is_secret secrets)))
    (redact_pem 0 text).

(** ** Lemmas *)

Example redact_block :
  redact_pem 0 (u"a -----BEGIN X-----abc-----END X----- b -----BEGIN Y-----") =
  u"a [REDACTED PEM] b -----BEGIN Y-----".
Proof. vm_compute. reflexivity. Qed.

(** A secret that cannot be put together from the marker: it has no bracket and
    is no part of the marker's word. *)
Definition plain_secret (s : pystr) : bool :=
  forallb (fun c => negb ((c =? 91) || (c =? 93))) s && negb (is_infix s (u"REDACTED")).

Lemma starts_with_infix (s t : pystr) : starts_with s t = true -> is_infix s t = true.
Proof. intros H. destruct t; cbn [is_infix]; by rewrite H. Qed.

(** A character that the searched text does not have separates its occurrences. *)
Lemma infix_barrier (s a b : pystr) c :
  c ∉ s -> is_infix s (a ++ c :: b) = is_infix s a || is_infix s b.
Proof.
  intros Hc. apply eq_true_iff_eq. rewrite orb_true_iff, !is_infix_spec. split.
  - intros (l & r & H). destruct (decide (length (l ++ s) <= length a)%nat) as [Hl|Hl].
    + left. exists l, (drop (length (l ++ s)) a).
      rewrite <- (take_drop (length (l ++ s)) a) at 1. rewrite app_assoc. f_equal.
      rewrite app_assoc in H. apply (f_equal (take (length (l ++ s)))) in H.
      rewrite take_app_le in H by done. by rewrite take_app_length in H.
    + right. destruct (decide (length a < length l)%nat) as [Ha|Ha].
      * exists (drop (S (length a)) l), r. apply (f_equal (drop (S (length a)))) in H.
        rewrite (drop_app_le l) in H by lia. rewrite <- H, drop_app_ge by lia.
        by replace (S (length a) - length a)%nat with 1%nat by lia.
      * exfalso. apply Hc. rewrite length_app in Hl.
        assert (Hn : (l ++ s ++ r) !! length a = Some c) by (rewrite <- H; by rewrite list_lookup_middle).
        rewrite lookup_app_r, lookup_app_l in Hn by lia. by eapply list_elem_of_lookup_2.
  - intros [(l & r & ->)|(l & r & ->)].
    + exists l, (r ++ c :: b). by rewrite <- !app_assoc.
    + exists (a ++ c :: l), r. by rewrite <- !app_assoc.
Qed.

Lemma plain_secret_chars s : plain_secret s = true -> (91 ∉ s) /\ (93 ∉ s) /\ is_infix s (u"REDACTED") = false.
Proof.
  unfold plain_secret. intros [H1 H2%negb_true_iff]%andb_true_iff.
  rewrite forallb_Forall, Forall_forall in H1.
  split_and!; [intros Hi; by specialize (H1 _ Hi)..|done].
Qed.

Lemma infix_marker s rest :
  plain_secret s = true -> s <> [] -> is_infix s (REDACTED ++ rest) = is_infix s rest.
Proof.
  intros (H1 & H2 & H3)%plain_secret_chars Hs.
  change (REDACTED ++ rest) with ([] ++ 91 :: u"REDACTED" ++ 93 :: rest).
  rewrite !infix_barrier by done. rewrite H3. by destruct s.
Qed.

(** Up to the first marker the text is unchanged. *)
Lemma replace_prefix p s t :
  91 ∉ s -> starts_with s (replace_from 0 p REDACTED t) = true -> starts_with s t = true.
Proof.
  revert s. induction t as [|x t IH]; intros s Hs; [done|]. cbn [replace_from].
  destruct s as [|y s]; [done|]. apply not_elem_of_cons in Hs as [Hy Hs].
  destruct (starts_with p (x :: t)).
  - change (REDACTED ++ replace_from (length p - 1) p REDACTED t)
      with (91 :: u"REDACTED]" ++ replace_from (length p - 1) p REDACTED t).
    cbn [starts_with]. by rewrite bool_decide_false.
  - cbn [starts_with]. rewrite !andb_true_iff. intros [? H]. split; [done|]. by apply IH.
Qed.

Lemma redact_absent p s t skip :
  plain_secret s = true -> s <> [] -> p = s \/ is_infix s t = false ->
  is_infix s (replace_from skip p REDACTED t) = false.
Proof.
  intros Hp Hs. revert skip. induction t as [|x t IH]; intros skip Ha; [by destruct s|].
  assert (Ha' : p = s \/ is_infix s t = false).
  { destruct Ha as [Ha|Ha]; [by left|right]. cbn [is_infix] in Ha. by apply orb_false_iff in Ha as [_ ?]. }
  cbn [replace_from]. destruct skip as [|skip]; [|by apply IH].
  destruct (starts_with p (x :: t)) eqn:E; [rewrite infix_marker by done; by apply IH|].
  cbn [is_infix]. apply orb_false_iff. split; [|by apply IH].
  apply not_true_iff_false. intros H.
  assert (Hst : starts_with s (x :: t) = true).
  { apply (replace_prefix p); [by apply plain_secret_chars in Hp as [? _]|]. cbn [replace_from]. by rewrite E. }
  destruct Ha as [->|Ha]; [congruence|]. apply starts_with_infix in Hst. congruence.
Qed.

Lemma redact_all_absent s secrets text :
  plain_secret s = true -> s <> [] -> s ∈ secrets \/ is_infix s text = false ->
  is_infix s (fold_left redact secrets text) = false.
Proof.
  intros Hp Hs. revert text. induction secrets as [|p secrets IH]; intros text Ha; cbn [fold_left].
  - destruct Ha as [?%elem_of_nil|?]; done.
  - apply IH. destruct Ha as [[->|Hin]%elem_of_cons|Ha]; [right|by left|right].
    + apply redact_absent; [done|done|by left].
    + apply redact_absent; [done|done|by right].
Qed.

(** C40: Whatever decK printed, the sanitized output contains no secret of four
    characters or more, provided the secret has no square bracket and is no part of
    the word of the marker; the order in which the secrets are replaced does not
    matter. *)
Theorem sanitized_without_secrets `{SetOrderLaws} text secrets s :
  s ∈ secrets -> is_secret s = true -> plain_secret s = true ->
  is_infix s (sanitize_output text secrets) = false.
Proof.
  intros Hin Hs Hp. unfold sanitize_output. apply redact_all_absent; [done|by destruct s|left].
  unfold longest_first. rewrite elem_of_py_sort, set_order_elem, list_elem_of_In, filter_In.
  by rewrite <- list_elem_of_In.
Qed.

#[local] Instance sample_order : SetOrder := {| set_order := @rev pystr |}.
#[local] Instance sample_order_laws : SetOrderLaws.
Proof. split. intros l s. rewrite !list_elem_of_In. symmetry. apply in_rev. Qed.

Lemma sanitized_without_secrets_witness :
  let secrets := [u"kpat_1"; u"kpat_12"] in
  sanitize_output (u"token kpat_123 kpat_1") secrets = u"token [REDACTED]3 [REDACTED]" /\
  is_infix (u"kpat_1") (sanitize_output (u"token kpat_123 kpat_1") secrets) = false.
Proof.
  intros secrets. split; [vm_compute; reflexivity|].
  apply sanitized_without_secrets; [by left|reflexivity|vm_compute; reflexivity].
Defined.

(** Without the condition it can fail: replacing the longer secret produces the
    shorter one, which is then replaced inside the marker. *)
Example marker_word_replaced :
  sanitize_output (u"secret") [u"secret"; u"REDA"] = u"[[REDACTED]CTED]".
Proof. vm_compute. reflexivity. Qed.
