(* ===== verification/BackendDiff.v ===== *)
(** The decK difference report of the third-party runtime in
    [src/scripts/run-deck.py]: its validation and digest
    ([parse_sanitized_runtime_diff]) and the reviewed plans
    ([validate_wp5_additive_scope], [validate_backend_scope]). *)
From Stdlib Require Import SpecFloat.
From S2P Require Export Sanitize.

Local Open Scope Z_scope.

(** ** Fixed identities *)

(** A kind and a name. *)
Abbreviation identities := (list (pystr * pystr)).

Definition idents (l : list (string * string)) : identities :=
  map (fun kn => (u (fst kn), u (snd kn))) l.

Definition WP5_EXPECTED_CREATE_IDENTITIES : identities :=
  idents [("service", "third-party-route-a-api"); ("service", "third-party-route-b-api");
          ("route", "third-party-route-a"); ("route", "third-party-route-b");
          ("plugin", "cors for service third-party-route-a-api");
          ("plugin", "openid-connect for service third-party-route-a-api");
          ("plugin", "request-transformer for service third-party-route-a-api");
          ("plugin", "cors for service third-party-route-b-api");
          ("plugin", "fapi-client-auth-bridge for service third-party-route-b-api");
          ("plugin", "openid-connect for service third-party-route-b-api");
          ("plugin", "request-transformer for service third-party-route-b-api")]%string.

Definition WP5_EXPECTED_SUMMARY : pyval := counts (ByOp 11%nat 0%nat 0%nat).
(** [WP5_EXPECTED_CREATE_KINDS] as the list it counts. *)
Definition WP5_EXPECTED_CREATE_KINDS : list pystr :=
  replicate 2 (u"service") ++ replicate 2 (u"route") ++ replicate 7 (u"plugin").

Definition BACKEND_NEW_IDENTITIES : identities :=
  idents [("certificate", "742c3d79-850f-5761-9544-63864bab5cad");
          ("service", "third-party-static-ui"); ("route", "third-party-static-ui");
          ("plugin", "request-transformer for service third-party-static-ui")]%string.

Definition BACKEND_RECOVERY_UPDATE_IDENTITIES : identities :=
  idents [("plugin", "openid-connect for service third-party-route-a-api");
          ("plugin", "openid-connect for service third-party-route-b-api");
          ("plugin", "cors for service third-party-route-a-api");
          ("plugin", "cors for service third-party-route-b-api")]%string.

Definition BACKEND_UPDATED_IDENTITIES : identities :=
  idents [("service", "third-party-route-a-api"); ("service", "third-party-route-b-api")]%string
  ++ BACKEND_RECOVERY_UPDATE_IDENTITIES.

Definition BACKEND_RECOVERY_CREATE_IDENTITIES : identities :=
  idents [("route", "third-party-static-ui");
          ("plugin", "request-transformer for service third-party-static-ui")]%string.

Definition BACKEND_PLANS : list (pystr * by_op identities) :=
  [(u"migration", ByOp BACKEND_NEW_IDENTITIES BACKEND_UPDATED_IDENTITIES []);
   (u"bootstrap", ByOp (WP5_EXPECTED_CREATE_IDENTITIES ++ BACKEND_NEW_IDENTITIES) [] []);
   (u"noop", ByOp [] [] []);
   (u"migration-recovery",
    ByOp BACKEND_RECOVERY_CREATE_IDENTITIES BACKEND_RECOVERY_UPDATE_IDENTITIES [])].

(** ** The report *)

Definition REPORT_KINDS : list pystr :=
  names ["service"; "route"; "plugin"; "certificate"; "ca_certificate"].

(** The checks of an entry, but for its bodies. *)
Definition entry_ok (d : pydict) : bool :=
  keys_are d (names ["kind"; "name"; "body"]) &&
  match dict_get d (u"kind"), dict_get d (u"name"), dict_get d (u"body") with
  | VStr kind, VStr ((_ :: _) as name), VDict body =>
      bool_decide (kind ∈ REPORT_KINDS) && (length name <=? 256)%nat
      && negb (existsb is_control name) && keys_are body (names ["old"; "new"])
  | _, _, _ => false
  end.

(** [entry["body"][name]] *)
Definition entry_body (d : pydict) (name : string) : pyval :=
  match dict_get d (u"body") with VDict body => dict_get body (u name) | _ => VNone end.

Definition entry_bodies_ok (op : operation) (d : pydict) : bool :=
  let old := entry_body d "old" in
  let new := entry_body d "new" in
  match op with
  | Creating | Deleting => is_none old && is_dict new
  | Updating => is_dict old && is_dict new
  end.

Definition bodies_error (op : operation) : string :=
  match op with
  | Creating => "third-party runtime diff create body is malformed"
  | Updating => "third-party runtime diff update body is malformed"
  | Deleting => "third-party runtime diff delete body is malformed"
  end.

Definition text_of (v : pyval) : pystr := match v with VStr s => s | _ => [] end.

(** [(entry["kind"], entry["name"])] of an entry that has been checked. *)
Definition entry_identity (d : pydict) : pystr * pystr :=
  (text_of (dict_get d (u"kind")), text_of (dict_get d (u"name"))).

Definition identity_tuple (kn : pystr * pystr) : list pystr := [fst kn; snd kn].

Definition safe_entity (kn : pystr * pystr) : pyval :=
  obj [("kind", VStr (fst kn)); ("name", VStr (snd kn))]%string.

(** The reviewed part of an operation, and the full entries for the digest. *)
Record parsed_op := ParsedOp { safe_entities : identities; full_entries : list pydict }.

Section backend_diff.
Context `{SetOrder}.

Definition check_entry (secrets : list pystr) (op : operation)
    (seen : list ((pystr * pystr) * pydict)) (entry : pyval)
    : res (list ((pystr * pystr) * pydict)) :=
  match entry with
  | VDict d =>
      if negb (entry_ok d) then raise ValueError "third-party runtime diff entity is malformed"
      else if negb (entry_bodies_ok op d) then raise ValueError (bodies_error op)
      else
        let (kind, name) := entry_identity d in
        let identity := (kind, sanitize_output name secrets) in
        if bool_decide (identity ∈ seen.*1)
        then raise ValueError
          "third-party runtime diff contains duplicate operation identities"
        else Ok (seen ++ [(identity, d)])
  | _ => raise ValueError "third-party runtime diff entity is malformed"
  end.

Definition check_operation (secrets : list pystr) (changes summary : pydict) (op : operation)
    : res parsed_op :=
  match dict_get changes (op_name op) with
  | VList entries =>
      let* seen := foldM_res (check_entry secrets op) entries [] in
      let safe := sort_key identity_tuple seen.*1 in
      let full := sort_key (fun d => identity_tuple (entry_identity d)) seen.*2 in
      if negb (count_is (dict_get summary (op_name op)) (length safe))
      then raise ValueError
        "third-party runtime diff summary does not match its operation identities"
      else Ok (ParsedOp safe full)
  | _ => raise ValueError "third-party runtime diff operation list is malformed"
  end.

Definition parsed_counts (parsed : by_op parsed_op) : by_op nat :=
  map_op (fun p => length (safe_entities p)) parsed.

Definition safe_report (parsed : by_op parsed_op) : pyval :=
  obj [("changes", op_dict (map_op (fun p => VList (map VDict (full_entries p))) parsed));
       ("summary", counts (parsed_counts parsed)); ("warnings", VList []); ("errors", VList [])]%string.

Definition safe_operations (parsed : by_op parsed_op) : pyval :=
  op_dict (map_op (fun p => VList (map safe_entity (safe_entities p))) parsed).

Definition safe_view (parsed : by_op parsed_op) : pydict :=
  [(u"summary", counts (parsed_counts parsed)); (u"operations", safe_operations parsed)].

Definition total_of (parsed : by_op parsed_op) : nat :=
  let n := parsed_counts parsed in (creating n + updating n + deleting n)%nat.

(** The validation of a report that has been read. *)
Definition parse_runtime_report (secrets : list pystr) (report : pyval) : res (by_op parsed_op) :=
  match report with
  | VDict d =>
      if negb (keys_are d (names ["changes"; "summary"; "warnings"; "errors"])
               && py_eq (dict_get d (u"warnings")) (VList [])
               && py_eq (dict_get d (u"errors")) (VList []))
      then raise ValueError
        "third-party runtime diff report contains errors, warnings, or unexpected fields"
      else
        match dict_get d (u"changes"), dict_get d (u"summary") with
        | VDict changes, VDict summary =>
            if negb (keys_are changes op_names && keys_are summary (op_names ++ [u"total"]))
            then raise ValueError "third-party runtime diff report structure is malformed"
            else
              let* parsed := each_op (check_operation secrets changes summary) in
              if negb (count_is (dict_get summary (u"total")) (total_of parsed))
              then raise ValueError "third-party runtime diff total is malformed"
              else Ok parsed
        | _, _ => raise ValueError "third-party runtime diff report structure is malformed"
        end
  | _ => raise ValueError
      "third-party runtime diff report contains errors, warnings, or unexpected fields"
  end.

Definition duplicate_diff_field : exn := Exn ValueError (u"duplicate decK runtime diff report field").
(** [parse_constant=reject_constant] *)
Definition reject_constant (_ : spec_float) : res pyval :=
  raise ValueError "non-finite JSON number".

(** [parse_sanitized_runtime_diff(raw_output, secrets)] *)
Definition parse_sanitized_runtime_diff (depth : nat) (raw_output : pystr) (secrets : list pystr)
    : res (pydict * pystr) :=
  let* report := catch (loads (unique_pairs duplicate_diff_field []) reject_constant depth raw_output)
                   [JSONDecodeError; UnicodeError; ValueError]
                   (fun _ => raise ValueError "third-party runtime diff did not return valid JSON") in
  let* parsed := parse_runtime_report secrets report in
  let* digest := canonical_sha256 (safe_report parsed) in
  Ok (safe_view parsed, digest).
End backend_diff.

(** ** Scopes *)

(** An entry of a reviewed operation. *)
Definition reviewed_entry (entry : pyval) : res (pystr * pystr) :=
  match entry with
  | VDict d =>
      if negb (keys_are d (names ["kind"; "name"]))
      then raise ValueError "backend runtime operation identities are malformed"
      else match dict_get d (u"kind"), dict_get d (u"name") with
           | VStr kind, VStr name => Ok (kind, name)
           | _, _ => raise ValueError "backend runtime operation identities are malformed"
           end
  | _ => raise ValueError "backend runtime operation identities are malformed"
  end.

Definition identities_are (actual expected : identities) : bool :=
  (length actual =? length expected)%nat && same_set actual expected
  && bool_decide (actual = sort_key identity_tuple actual).

Definition check_plan_operation (actual : pydict) (expected : by_op identities) (_ : unit)
    (op : operation) : res unit :=
  match dict_get actual (op_name op) with
  | VList entries =>
      let* found := mapM_res reviewed_entry entries in
      if identities_are found (of_op expected op) then Ok tt
      else raise ValueError "backend runtime identities differ from the exact reviewed scope"
  | _ => raise ValueError "backend runtime operation identities are malformed"
  end.

Definition summary_is (summary : pyval) (expected : by_op identities) : bool :=
  match summary with
  | VDict d => py_eq summary (counts (map_op length expected)) && forallb is_int d.*2
  | _ => false
  end.

(** The plan of a name that is in the table. *)
Definition plan_of (plan_type : pyval) : option (by_op identities) :=
  match plan_type with VStr s => alookup s BACKEND_PLANS | _ => None end.

(** [validate_backend_scope(operations, plan_type)] *)
Definition validate_backend_scope (ops plan_type : pyval) : res unit :=
  match plan_of plan_type, ops with
  | Some expected, VDict d =>
      if negb (keys_are d (names ["summary"; "operations"]))
      then raise ValueError "backend runtime operation scope is invalid"
      else
        match dict_get d (u"operations") with
        | VDict actual =>
            if negb (keys_are actual op_names)
            then raise ValueError "backend runtime operation identities are malformed"
            else
              let* _ := foldM_res (check_plan_operation actual expected) operations tt in
              if summary_is (dict_get d (u"summary")) expected then Ok tt
              else raise ValueError
                "backend runtime summary differs from the exact reviewed scope"
        | _ => raise ValueError "backend runtime operation identities are malformed"
        end
  | _, _ => raise ValueError "backend runtime operation scope is invalid"
  end.

(** The first version of the scope: eleven creations. *)
Definition wp5_scope_error {A} : res A :=
  raise ValueError "third-party runtime diff is not the reviewed additive 11/0/0 change; inspect with read-only diff; sync was not attempted".

Definition dict_kinds (entries : list pyval) : list pyval :=
  flat_map (fun e => match e with VDict d => [dict_get d (u"kind")] | _ => [] end) entries.

(** [Counter(...) == WP5_EXPECTED_CREATE_KINDS] over values that can be hashed. *)
Definition kinds_are (kinds : list pyval) : res bool :=
  if negb (forallb hashable kinds) then raise TypeError "unhashable type"
  else Ok (forallb is_str kinds && same_counts (map text_of kinds) WP5_EXPECTED_CREATE_KINDS).

(** [(entry["kind"], entry["name"])] in a set. *)
Definition wp5_identity (entry : pyval) : res (pyval * pyval) :=
  let* kind := val_item entry (u"kind") in
  let* name := val_item entry (u"name") in
  if hashable kind && hashable name then Ok (kind, name) else raise TypeError "unhashable type".

Definition wp5_identities_are (actual : list (pyval * pyval)) : bool :=
  forallb (fun kn => is_str (fst kn) && is_str (snd kn)) actual
  && same_set (map (fun kn => (text_of (fst kn), text_of (snd kn))) actual)
       WP5_EXPECTED_CREATE_IDENTITIES.

(** [validate_wp5_additive_scope(operations)] *)
Definition validate_wp5_additive_scope (ops : pyval) : res unit :=
  let summary := match ops with VDict d => dict_get d (u"summary") | _ => VNone end in
  let changes := match ops with VDict d => dict_get d (u"operations") | _ => VNone end in
  match changes with
  | VDict ch =>
      if negb (py_eq summary WP5_EXPECTED_SUMMARY) || negb (keys_are ch op_names)
         || py_truthy (dict_get ch (u"updating")) || py_truthy (dict_get ch (u"deleting"))
      then wp5_scope_error
      else
        match dict_get ch (u"creating") with
        | VList entries =>
            let* kinds := kinds_are (dict_kinds entries) in
            if negb kinds || negb (length entries =? 11)%nat then wp5_scope_error
            else
              let* found := mapM_res wp5_identity entries in
              if wp5_identities_are found then Ok tt
              else raise ValueError "third-party runtime diff create identities differ from the reviewed fixed 11-entity scope; sync was not attempted"
        | _ => wp5_scope_error
        end
  | _ => wp5_scope_error
  end.

(** ** What a plan allows *)

Lemma elem_operations op : op ∈ operations.
Proof. apply (bool_decide_unpack _). by destruct op. Qed.

Lemma backend_plans_distinct :
  Forall (fun np => Forall (fun op => NoDup (of_op (snd np) op)) operations /\ deleting (snd np) = [])
    BACKEND_PLANS.
Proof. apply (bool_decide_unpack _). by vm_compute. Qed.

(** Identities that are sorted and cover a list without repetitions are that list,
    sorted. *)
Lemma identities_are_exact actual expected :
  NoDup expected -> identities_are actual expected = true <-> actual = sort_key identity_tuple expected.
Proof.
  intros Hn. unfold identities_are. rewrite !andb_true_iff, Nat.eqb_eq, bool_decide_eq_true. split.
  - intros [[Hl Hs] Ha]. rewrite Ha. apply sort_key_unique.
    + assert (Hp : actual ≡ₚ expected).
      { rewrite same_set_true in Hs. symmetry. apply submseteq_length_Permutation; [|lia].
        apply NoDup_submseteq; [done|]. intros x. apply Hs. }
      assert (Hna : NoDup actual) by (by rewrite Hp).
      apply NoDup_fmap_2; [|done]. intros [k n] [k' n'] [= -> ->]. done.
    + rewrite same_set_true in Hs. symmetry. apply submseteq_length_Permutation; [|lia].
      apply NoDup_submseteq; [done|]. intros x. apply Hs.
  - intros ->. split; [split|].
    + by rewrite (Permutation_length (sort_key_perm identity_tuple expected)).
    + apply same_set_true. intros x. by rewrite sort_key_perm.
    + by rewrite sort_key_idem.
Qed.

Lemma mapM_reviewed l : mapM_res reviewed_entry (map safe_entity l) = Ok l.
Proof.
  apply mapM_res_Ok, Forall2_map_l, Forall_Forall2_diag, Forall_forall. intros [k n] _.
  unfold reviewed_entry, safe_entity, obj. cbn [map fst snd].
  replace (keys_are _ _) with true by (vm_compute; reflexivity). done.
Qed.

(** The diff of a decK run is within a reviewed plan exactly when, for each
    operation, it lists the identities of that plan and no others; in every plan
    nothing is deleted. *)
Theorem backend_scope_exact parsed plan :
  validate_backend_scope (VDict (safe_view parsed)) (VStr plan) = Ok tt <->
  exists expected, alookup plan BACKEND_PLANS = Some expected /\ deleting expected = [] /\
    forall op, safe_entities (of_op parsed op) = sort_key identity_tuple (of_op expected op).
Proof.
  unfold validate_backend_scope, plan_of.
  destruct (alookup plan BACKEND_PLANS) as [expected|] eqn:Ep; [|by split; [|intros (? & ? & _)]].
  pose proof backend_plans_distinct as Hd. rewrite Forall_forall in Hd.
  destruct (Hd _ (alookup_Some_in _ _ _ Ep)) as [Hn Hdel]. clear Hd. cbn [snd] in Hn, Hdel.
  rewrite Forall_forall in Hn.
  assert (Hop : forall op, check_plan_operation
      (map (fun op => (op_name op, of_op (map_op (fun p => VList (map safe_entity (safe_entities p))) parsed) op))
         operations) expected tt op = Ok tt <->
    safe_entities (of_op parsed op) = sort_key identity_tuple (of_op expected op)).
  { intros op. unfold check_plan_operation.
    replace (dict_get _ (op_name op)) with (VList (map safe_entity (safe_entities (of_op parsed op))))
      by (by destruct op).
    rewrite mapM_reviewed, <- identities_are_exact by (apply Hn, elem_operations).
    by destruct (identities_are _ _). }
  set (actual := map _ operations) in Hop.
  assert (Hfold : foldM_res (check_plan_operation actual expected) operations tt = Ok tt <->
    forall op, safe_entities (of_op parsed op) = sort_key identity_tuple (of_op expected op)).
  { rewrite foldM_res_unit, Forall_forall. split.
    - intros H op. by apply Hop, H, elem_operations.
    - intros H op _. by apply Hop. }
  assert (Hsum : (forall op, safe_entities (of_op parsed op) = sort_key identity_tuple (of_op expected op)) ->
    summary_is (counts (parsed_counts parsed)) expected = true).
  { intros H. assert (Hl : forall op, length (safe_entities (of_op parsed op)) = length (of_op expected op)).
    { intros op. rewrite H. apply Permutation_length, sort_key_perm. }
    unfold parsed_counts. replace (map_op _ parsed) with (map_op length expected).
    - unfold summary_is, counts. rewrite py_eq_good; [done|].
      unfold good_val. cbn [no_float wf_val map operations of_op app op_name forallb snd fst andb].
      vm_compute. reflexivity.
    - unfold map_op. f_equal; symmetry; [apply (Hl Creating)|apply (Hl Updating)|apply (Hl Deleting)]. }
  unfold safe_view, safe_operations, op_dict.
  match goal with |- (if negb ?b then _ else _) = _ <-> _ => replace b with true by (vm_compute; reflexivity) end.
  cbn [negb].
  match goal with |- match ?a with _ => _ end = _ <-> _ => change a with (VDict actual) end.
  replace (keys_are actual op_names) with true by (vm_compute; reflexivity). cbn [negb].
  match goal with |- context [summary_is ?a expected] => change a with (counts (parsed_counts parsed)) end.
  split.
  - destruct (foldM_res (check_plan_operation actual expected) operations tt) as [[]|] eqn:Ef; [|done].
    intros _. exists expected. split_and!; [done|done|]. by apply Hfold.
  - intros (expected' & [= <-] & _ & H). rewrite (proj2 Hfold H), (Hsum H). done.
Qed.
