(* ===== verification/Manifest.v ===== *)
(** The target command of [src/scripts/wp1_target.py]: the local checks
    ([local_manifest]) and the command itself ([main]), which makes its requests
    only after them. *)
From S2P Require Export ApiState ThirdPartyState RoleInputs.

Local Open Scope Z_scope.

(** ** Configured names *)

Definition config_get (config : list (pystr * pystr)) (key default : string) : pystr :=
  match alookup (u key) config with Some v => v | None => u default end.

(** [expected_names(env)] *)
Definition expected_names (env : list (pystr * pystr)) : list (pystr * pystr) :=
  [(u"api", config_get env "TF_VAR_control_plane_name" "keycloak-fapi2-demo");
   (u"third-party", config_get env "TF_VAR_third_party_control_plane_name"
                      "keycloak-fapi2-third-party-demo")].

(** ** Local checks *)

Definition MANIFEST_PATH : pystr := u".generated/gateway_targets.json".
Definition MANIFEST_FIELDS : list pystr := names ["konnect_server_url"; "targets"].

(** [s.rstrip("/")] *)
Definition rstrip_slash (s : pystr) : pystr := rstrip_while (fun c => c =? 47) s.

(** The dictionary that is returned; the functions that return an empty one give
    [None]. *)
Record manifest_info := ManifestInfo {
  mi_url : pystr; mi_targets : pydict; mi_target : pyval
}.

Definition is_runtime (stage : option pystr) : bool := bool_decide (stage = Some (u"runtime")).
Definition is_foundation (stage : option pystr) : bool := bool_decide (stage = Some (u"foundation")).

Definition TARGET_OPERATIONS : list pystr := names ["diff"; "sync"; "schema-check"; "schema-sync"].

Section manifest.
Context `{Unicode} `{Yaml} (depth : nat).

(** The file with the state, if the stage selects one. *)
Definition stage_state (gateway : pystr) (stage : option pystr) : res (option pystr) :=
  if is_foundation stage then let* path := FOUNDATION_FILES gateway in Ok (Some path)
  else if is_runtime stage
       then Ok (match RUNTIME_FILES gateway with Ok path => Some path | Err _ => None end)
       else Ok None.

Definition validate_runtime (fs : fsys) (gateway : pystr) : res unit :=
  if bool_decide (gateway = u"api")
  then let* _ := validate_api_runtime_state fs in Ok tt
  else let* _ := validate_third_party_runtime_state fs in Ok tt.

(** The states the [validate] operation reads. *)
Definition check_validate (fs : fsys) (gateway : pystr) (stage : option pystr) (operation : pystr)
    : res unit :=
  if bool_decide (operation = u"validate") then
    if bool_decide (gateway = u"api") then
      if path_exists fs (u"kong/api-gateway.yaml")
      then let* _ := validate_api_runtime_state fs in Ok tt
      else Ok tt
    else if bool_decide (gateway = u"third-party") && is_runtime stage
    then let* _ := validate_third_party_runtime_state fs in Ok tt
    else Ok tt
  else Ok tt.

(** The state the [diff] and [sync] operations send. *)
Definition check_deployed (fs : fsys) (gateway : pystr) (stage : option pystr) (operation : pystr)
    (state : option pystr) : res unit :=
  if bool_decide (operation ∈ [u"diff"; u"sync"]) then
    let* _ := if is_runtime stage then validate_runtime fs gateway else Ok tt in
    match state with
    | None => raise TypeError "unsupported operand type(s) for /"
    | Some path =>
        if is_file fs path then Ok tt
        else Err (Exn ValueError
               (match stage with Some s => s | None => u"None" end ++ u" state is missing: " ++ path))
    end
  else Ok tt.

(** The manifest against the configuration. *)
Definition read_manifest (fs : fsys) (gateway : pystr) : res manifest_info :=
  if negb (is_file fs MANIFEST_PATH)
  then raise ValueError
    "generated gateway target manifest is missing; render it after provisioning"
  else
    let* text := read_text fs MANIFEST_PATH in
    let* manifest := loads_plain depth text in
    let* fields := val_set_is manifest MANIFEST_FIELDS in
    if negb fields then raise ValueError "gateway target manifest fields are malformed"
    else
      let* config := read_config fs (u".env") in
      let* rows := val_item manifest (u"targets") in
      let* targets := validate_targets rows (expected_names config) in
      let* region_url := val_item manifest (u"konnect_server_url") in
      let* region_host := endpoint_host region_url in
      let env_region := rstrip_slash
        (config_get config "KONNECT_SERVER_URL" "https://us.api.konghq.com") in
      let* env_host := endpoint_host (VStr env_region) in
      if negb (bool_decide (region_host = env_host))
      then raise ValueError "Konnect region URL does not match the rendered target manifest"
      else
        let* target := dict_item targets gateway in
        Ok (ManifestInfo (match region_url with VStr s => s | _ => [] end) targets target).

Definition selector_operation (operation : pystr) : pystr :=
  if starts_with (u"schema-") operation then u"schema" else operation.

(** [local_manifest(root, gateway, stage, operation)] *)
Definition local_manifest (fs : fsys) (gateway : pystr) (stage : option pystr) (operation : pystr)
    : res (option manifest_info) :=
  let* _ := validate_selector gateway stage (selector_operation operation) in
  let* _ := validate_foundation_state fs gateway in
  if is_runtime stage && negb (is_ok (RUNTIME_FILES gateway))
  then raise ValueError "runtime state is unavailable for the selected gateway"
  else
    let* state := stage_state gateway stage in
    let* _ := check_validate fs gateway stage operation in
    let* _ := check_deployed fs gateway stage operation state in
    if bool_decide (operation = u"validate") then Ok None
    else if bool_decide (operation ∈ TARGET_OPERATIONS)
    then let* info := read_manifest fs gateway in Ok (Some info)
    else Ok None.

(** ** The command *)

(** The target of a run that needs one. *)
Definition need_info (info : option manifest_info) : res manifest_info :=
  res_of_option (Exn KeyError (u"manifest")) info.

Definition target_dict (info : manifest_info) : res pydict :=
  match mi_target info with
  | VDict target => Ok target
  | _ => raise TypeError "string indices must be integers"
  end.

Definition TOKEN_NAME : pystr := u"KONNECT_TOKEN".

(** [env.get("KONNECT_TOKEN", "")] *)
Definition read_token (fs : fsys) : res pystr :=
  let* env := read_env fs (u".env") in
  match alookup TOKEN_NAME env with
  | Some ((_ :: _) as token) => Ok token
  | _ => raise ValueError "KONNECT_TOKEN is required after local target validation"
  end.

(** The operation after the remote control plane has been verified; [approved] is
    [os.environ.get("SCHEMA_SYNC_APPROVED")]. *)
Definition run_operation (fs : fsys) (approved : option pystr) (operation gateway base : pystr)
    (target : pydict) (token : pystr) : konnect unit :=
  if bool_decide (operation = u"diff") then pret tt
  else if bool_decide (operation = u"schema-check")
  then do* _ := check_schemas depth (read_text fs) gateway base target token in pret tt
  else if bool_decide (operation = u"schema-sync")
  then
    if negb (bool_decide (approved = Some (u"YES")))
    then lift (raise ValueError "schema sync is a separate Konnect write; set SCHEMA_SYNC_APPROVED=YES only after explicit approval")
    else do* _ := sync_schemas depth (read_text fs) base target token in pret tt
  else if bool_decide (operation = u"sync") then pret tt
  else lift (raise ValueError "unsupported WP1 operation").

(** [main()], with the operation as it is named on the command line. *)
Definition main (fs : fsys) (approved : option pystr) (argument gateway : pystr)
    (stage : option pystr) : konnect unit :=
  let operation := match after (u"deck-") argument with Some rest => rest | None => argument end in
  do* info := lift (local_manifest fs gateway stage operation) in
  if bool_decide (operation ∈ names ["preflight"; "validate"]) then pret tt
  else if bool_decide (gateway = u"api") && bool_decide (operation = u"schema-sync")
  then lift (raise ValueError "API foundation must not register custom schemas")
  else
    do* token := lift (read_token fs) in
    do* info := lift (need_info info) in
    do* target := lift (target_dict info) in
    let base := rstrip_slash (mi_url info) in
    do* _ := verify_remote_target depth base target token in
    run_operation fs approved operation gateway base target token.
End manifest.

(** ** What the command sends *)

Lemma calls_lift {Q R A B} (P : Q -> Prop) (r : res A) (f : A -> prog Q R B) :
  (forall a, r = Ok a -> calls P (f a)) -> calls P (pbind (lift r) f).
Proof. intros H. destruct r as [a|e]; [by apply H|done]. Qed.

Lemma calls_impl {Q R A} (P P' : Q -> Prop) (m : prog Q R A) :
  (forall q, P q -> P' q) -> calls P m -> calls P' m.
Proof.
  intros Hi H. apply (ensures_calls _ (fun _ => True)).
  apply (ensures_weaken P P' (fun _ => True) (fun _ => True)); [done|done|by apply calls_ensures].
Qed.

(** Calls below the control plane with the token; reads only, or writes too. *)
Definition plane_call (writes : bool) (base token : pystr) (q : konnect_call) : Prop :=
  kc_token q = token /\ starts_with (base ++ u"/v2/control-planes/") (kc_url q) = true /\
  (writes = false -> kc_method q = "GET"%string).

Lemma starts_with_extend (p s t : pystr) : starts_with p s = true -> starts_with p (s ++ t) = true.
Proof. rewrite !starts_with_spec. intros [r ->]. exists (r ++ t). by rewrite app_assoc. Qed.

Lemma plane_url_prefix base target url :
  plane_url base target = Ok url -> starts_with (base ++ u"/v2/control-planes/") url = true.
Proof.
  unfold plane_url. intros H. destruct (dict_item target _) as [id|]; [|discriminate H].
  destruct (scalar_text id) as [text|]; [|discriminate H]. apply Ok_inj in H as <-.
  rewrite app_assoc. apply starts_with_app.
Qed.

Lemma get_json_calls depth w base url token :
  starts_with (base ++ u"/v2/control-planes/") url = true ->
  calls (plane_call w base token) (get_json depth url token).
Proof. intros H. split; [|done]. by split_and!. Qed.

Section plane_calls.
Context (depth : nat) (w : bool) (base token : pystr) (target : pydict).

Lemma verify_remote_target_calls :
  calls (plane_call w base token) (verify_remote_target depth base target token).
Proof.
  apply calls_lift. intros url Hu. apply calls_bind.
  - by apply get_json_calls, (plane_url_prefix _ target).
  - intros [status response]. apply calls_lift. intros remote _. by destruct (negb _).
Qed.

Lemma schemas_url_prefix url :
  schemas_url base target = Ok url -> starts_with (base ++ u"/v2/control-planes/") url = true.
Proof.
  unfold schemas_url. destruct (plane_url base target) as [plane|] eqn:E; [|done]. intros <-%Ok_inj.
  by apply starts_with_extend, (plane_url_prefix _ target).
Qed.

Lemma request_schema_pages_calls url :
  schemas_url base target = Ok url ->
  calls (plane_call w base token) (request_schema_pages depth url token).
Proof.
  intros Hu. eapply calls_impl; [|eapply ensures_calls, list_loop_ensures, list_inv_init].
  intros q [query ->]. split_and!; [done| |done]. cbn [kc_url].
  by apply starts_with_extend, schemas_url_prefix.
Qed.

Lemma check_schemas_calls read gateway :
  calls (plane_call w base token) (check_schemas depth read gateway base target token).
Proof.
  unfold check_schemas. destruct (bool_decide (gateway = u"api")); [done|].
  apply calls_lift. intros expected _. apply calls_lift. intros url Hu.
  apply calls_bind; [by apply request_schema_pages_calls|]. intros pages. by apply calls_lift.
Qed.

Lemma sync_schemas_calls read :
  w = true -> calls (plane_call w base token) (sync_schemas depth read base target token).
Proof.
  intros Hw. apply calls_lift. intros expected _. apply calls_lift. intros url Hu.
  apply calls_bind; [by apply request_schema_pages_calls|]. intros pages. apply calls_lift.
  intros [present changed] _. apply calls_bind; [|done]. apply calls_pmap. intros ns _.
  split; [|intros reply; cbn; by destruct (read_reply depth reply)].
  pose proof (schemas_url_prefix url Hu) as Hp. unfold write_call.
  case_bool_decide; (split_and!; [done| |by rewrite Hw]); cbn [kc_url]; [|done].
  by apply starts_with_extend.
Qed.
End plane_calls.

(** May this run write to Konnect? *)
Definition may_write (operation gateway : pystr) (approved : option pystr) : bool :=
  bool_decide (operation = u"schema-sync") && negb (bool_decide (gateway = u"api"))
  && bool_decide (approved = Some (u"YES")).

Definition operation_of (argument : pystr) : pystr :=
  match after (u"deck-") argument with Some rest => rest | None => argument end.

(** C26: Nothing leaves the machine before the local checks have accepted the
    selection, the states and the manifest and a token is configured; all requests
    go below the control planes of the manifest's region, with that token, and they
    are reads unless an approved schema synchronization of the third-party gateway
    was asked for. *)
Theorem target_command_gated `{Unicode} `{Yaml} depth {S} (serve : S -> konnect_call -> konnect_reply * S)
    s fs approved argument gateway stage r s' t :
  run serve s (main depth fs approved argument gateway stage) = (r, s', t) ->
  t = [] \/
  exists info token,
    local_manifest depth fs gateway stage (operation_of argument) = Ok (Some info) /\
    read_token fs = Ok token /\
    Forall (plane_call (may_write (operation_of argument) gateway approved)
              (rstrip_slash (mi_url info)) token) t.
Proof.
  intros Hrun. unfold main in Hrun. fold (operation_of argument) in Hrun.
  set (operation := operation_of argument) in *.
  destruct (local_manifest depth fs gateway stage operation) as [info|] eqn:El;
    [|left; cbn in Hrun; by injection Hrun]. cbn [lift pbind] in Hrun.
  destruct (bool_decide (operation ∈ names ["preflight"; "validate"]%string));
    [left; cbn in Hrun; by injection Hrun|].
  destruct (bool_decide (gateway = u"api") && bool_decide (operation = u"schema-sync")) eqn:Eapi;
    [left; cbn in Hrun; by injection Hrun|].
  destruct (read_token fs) as [token|] eqn:Et; [|left; cbn in Hrun; by injection Hrun].
  destruct info as [info|]; [|left; cbn in Hrun; by injection Hrun].
  cbn [lift pbind need_info res_of_option] in Hrun.
  destruct (target_dict info) as [target|]; [|left; cbn in Hrun; by injection Hrun].
  cbn [lift pbind] in Hrun. right. exists info, token. split_and!; [done|done|].
  eapply calls_run; [|exact Hrun]. apply calls_bind; [apply verify_remote_target_calls|].
  intros _. unfold run_operation.
  destruct (bool_decide (operation = u"diff")); [exact I|].
  destruct (bool_decide (operation = u"schema-check"));
    [apply calls_bind; [apply check_schemas_calls|intros _; exact I]|].
  destruct (bool_decide (operation = u"schema-sync")) eqn:Hs;
    [|by destruct (bool_decide (operation = u"sync"))].
  destruct (bool_decide (approved = Some (u"YES"))) eqn:Ea; [|exact I]. cbn [negb].
  apply calls_bind; [|intros _; exact I]. apply sync_schemas_calls. unfold may_write.
  rewrite Ea, Hs in *. rewrite andb_true_r in Eapi. by rewrite Eapi.
Qed.

(** ** A sample run *)

Module ManifestSample.
#[local] Existing Instance Wp1Sample.ascii_unicode.

Definition certificate (c : pystr * (string * string)) : pyval :=
  obj [("id", VStr (fst c)); ("cert", template_text (fst (snd c)));
       ("key", jstr (snd (snd c))); ("tags", FOUNDATION_TAGS)]%string.

Definition foundation : pyval :=
  obj [("_format_version", jstr "3.0"); ("_info", obj [("select_tags", FOUNDATION_TAGS)]);
       ("certificates", VList (map certificate (expected_certs (u"api"))))]%string.

#[local] Instance yaml : Yaml := {| yaml_compose text := Some (node_of foundation) |}.

Definition manifest : pyval :=
  obj [("konnect_server_url", jstr "https://us.api.konghq.com");
       ("targets", Wp1Sample.manifest "0f45debe-a3a6-5207-aea3-637227fb96f2"
                     "754519ff-b0b9-5ed5-94c0-e453d260c6c4")]%string.

Definition text_of_json (v : pyval) : bytes :=
  match dumps canonical_opts v with Ok t => map byte_of_Z t | Err _ => [] end.

Definition env_file : bytes :=
  bs "KONNECT_TOKEN=kpat" ++ [byte_of_Z 10] ++ bs "TF_VAR_control_plane_name=api-plane"
  ++ [byte_of_Z 10] ++ bs "TF_VAR_third_party_control_plane_name='tp-plane'".

Definition files : fsys := {|
  node_at path :=
    if bool_decide (path = u"kong/foundation/api.yaml") then Some (FFile 420 (bs "api"))
    else if bool_decide (path = MANIFEST_PATH) then Some (FFile 384 (text_of_json manifest))
    else if bool_decide (path = u".env") then Some (FFile 384 env_file)
    else None;
  is_symlink _ := false; unreadable _ := false |}.

(** A service that refuses every request. *)
Definition refuse (s : unit) (q : konnect_call) : konnect_reply * unit := (HttpFailure 401, s).

Definition outcome : res unit * unit * list konnect_call :=
  run refuse tt (main 20 files None (u"schema-check") (u"api") None).
End ManifestSample.

Lemma target_command_gated_witness :
  ManifestSample.outcome.1.1 = raise ValueError "Konnect request failed with HTTP 401" /\
  length ManifestSample.outcome.2 = 1%nat /\
  Forall (plane_call false (u"https://us.api.konghq.com") (u"kpat")) ManifestSample.outcome.2.
Proof.
  split; [vm_compute; reflexivity|]. split; [vm_compute; reflexivity|].
  destruct (target_command_gated (H := Wp1Sample.ascii_unicode) (H0 := ManifestSample.yaml) 20 ManifestSample.refuse tt ManifestSample.files None (u"schema-check") (u"api")
    None ManifestSample.outcome.1.1 ManifestSample.outcome.1.2 ManifestSample.outcome.2) as [H|(info & token & H1 & H2 & H3)].
  - vm_compute. reflexivity.
  - revert H. vm_compute. discriminate.
  - assert (Hi : option_map (fun i => rstrip_slash (mi_url i)) (Some info) = Some (u"https://us.api.konghq.com")).
    { apply Ok_inj. change (Ok (option_map (fun i => rstrip_slash (mi_url i)) (Some info)))
        with (map_res (option_map (fun i => rstrip_slash (mi_url i))) (Ok (Some info))).
      rewrite <- H1. vm_compute. reflexivity. }
    apply (inj Some) in Hi. rewrite <- Hi.
    assert (Ht : Ok token = Ok (u"kpat")) by (rewrite <- H2; vm_compute; reflexivity).
    apply Ok_inj in Ht as <-. exact H3.
Defined.
