(* ===== verification/DemoForward.v ===== *)
(** The loopback relay of the local demo, [src/scripts/wp5-demo-forward.py]: its
    threads as a transition system.  The main thread serves and runs [stop], which a
    signal can start at any time on top of whatever the main thread does; every
    connection has a handler thread and two pump threads. *)
From stdpp Require Import gmap.
From S2P Require Export PyExn.

Local Open Scope Z_scope.

(** ** Configuration *)

Record endpoints := Endpoints { listen : pystr * Z; target : pystr * Z }.

(** [LocalForwarder.__init__] *)
Definition init (listen_host : pystr) (listen_port : Z) (target_host : pystr) (target_port : Z)
    : res endpoints :=
  if negb (bool_decide (listen_host = u"127.0.0.1")) || negb (bool_decide (target_host = u"127.0.0.1"))
  then raise ValueError "WP5 demo forwarding is loopback-only"
  else if negb (listen_port =? 8443) || negb (target_port =? 18443)
  then raise ValueError "WP5 demo forwarding ports are fixed"
  else Ok (Endpoints (listen_host, listen_port) (target_host, target_port)).

(** ** State *)

(** A pump copies in one direction.  [received] is what [recv] has returned and
    [delivered] what [sendall] has handed on; [eof] says that the loop ended with an
    empty [recv]. *)
Inductive pump_state :=
  | PumpNew
  | PumpCheck                        (* before [self.stopping.is_set()] *)
  | PumpRecv                         (* in [source.recv(65536)] *)
  | PumpSend (data : bytes)          (* in [destination.sendall(data)] *)
  | PumpShut (eof : bool)            (* in the [finally] block *)
  | PumpDone (eof : bool).

Record pump := Pump { pu_state : pump_state; received : bytes; delivered : bytes }.

Inductive side := Client | Upstream.

(** Where the handler thread of a connection is. *)
Inductive phase :=
  | Accepted                         (* before [create_connection] *)
  | Connected                        (* before the lock *)
  | Holding                          (* has the lock, before the test of [stopping] *)
  | Adding                           (* has the lock, before [connections.add] *)
  | Registered                       (* before the pumps are started *)
  | Started                          (* joining the pumps *)
  | Closing                          (* in the [finally] block *)
  | Discarding                       (* before the lock *)
  | Dropping                         (* has the lock, before [connections.discard] *)
  | Ended.

Record conn := Conn {
  co_phase : phase;
  client_open : bool;
  upstream_open : bool;
  upward : pump;                     (* client to upstream *)
  downward : pump
}.

(** Where a call of [stop] is. *)
Inductive stop_frame :=
  | StopFlag | StopListener | StopLock | StopSnapshot
  | StopClose (todo : list (nat * side)).

(** Where [serve] is, below the calls of [stop]. *)
Inductive serve_state := Binding | Serving | Leaving | Exited | Failed.

Inductive owner := OMain | OHandler (id : nat).

Record forwarder := Forwarder {
  stopping : bool;
  listening : bool;
  lock : option owner;
  connections : gset nat;
  conns : gmap nat conn;
  serve : serve_state;
  frames : list stop_frame;          (* the innermost call of [stop] first *)
  stops : nat                        (* calls of [stop] that have returned *)
}.

#[export] Instance side_eq_dec : EqDecision side.
Proof. solve_decision. Defined.
#[export] Instance owner_eq_dec : EqDecision owner.
Proof. solve_decision. Defined.
#[export] Instance phase_eq_dec : EqDecision phase.
Proof. solve_decision. Defined.
#[export] Instance serve_state_eq_dec : EqDecision serve_state.
Proof. solve_decision. Defined.

Definition initial : forwarder := Forwarder false false None ∅ ∅ Binding [] 0.

Definition new_pump : pump := Pump PumpNew [] [].

(** ** Updates *)

Definition set_main (sv : serve_state) (fr : list stop_frame) (s : forwarder) : forwarder :=
  Forwarder (stopping s) (listening s) (lock s) (connections s) (conns s) sv fr (stops s).
Definition set_frames (fr : list stop_frame) (s : forwarder) : forwarder := set_main (serve s) fr s.
Definition set_lock (l : option owner) (s : forwarder) : forwarder :=
  Forwarder (stopping s) (listening s) l (connections s) (conns s) (serve s) (frames s) (stops s).
Definition set_connections (c : gset nat) (s : forwarder) : forwarder :=
  Forwarder (stopping s) (listening s) (lock s) c (conns s) (serve s) (frames s) (stops s).
Definition set_conns (m : gmap nat conn) (s : forwarder) : forwarder :=
  Forwarder (stopping s) (listening s) (lock s) (connections s) m (serve s) (frames s) (stops s).
Definition set_conn (id : nat) (c : conn) (s : forwarder) : forwarder :=
  set_conns (<[id := c]> (conns s)) s.
Definition set_stopping (s : forwarder) : forwarder :=
  Forwarder true (listening s) (lock s) (connections s) (conns s) (serve s) (frames s) (stops s).
Definition set_listening (b : bool) (s : forwarder) : forwarder :=
  Forwarder (stopping s) b (lock s) (connections s) (conns s) (serve s) (frames s) (stops s).
Definition count_stop (s : forwarder) : forwarder :=
  Forwarder (stopping s) (listening s) (lock s) (connections s) (conns s) (serve s) (frames s)
    (S (stops s)).

Definition set_phase (p : phase) (c : conn) : conn :=
  Conn p (client_open c) (upstream_open c) (upward c) (downward c).
Definition close_both (c : conn) : conn :=
  Conn (co_phase c) false false (upward c) (downward c).
Definition close_side (sd : side) (c : conn) : conn :=
  match sd with
  | Client => Conn (co_phase c) false (upstream_open c) (upward c) (downward c)
  | Upstream => Conn (co_phase c) (client_open c) false (upward c) (downward c)
  end.
Definition side_open (sd : side) (c : conn) : bool :=
  match sd with Client => client_open c | Upstream => upstream_open c end.

(** The pump that reads from a side. *)
Definition pump_from (sd : side) (c : conn) : pump :=
  match sd with Client => upward c | Upstream => downward c end.
Definition other (sd : side) : side := match sd with Client => Upstream | Upstream => Client end.
Definition set_pump (sd : side) (p : pump) (c : conn) : conn :=
  match sd with
  | Client => Conn (co_phase c) (client_open c) (upstream_open c) p (downward c)
  | Upstream => Conn (co_phase c) (client_open c) (upstream_open c) (upward c) p
  end.

(** ** The pump threads *)

Definition CHUNK : Z := 65536.

Inductive pump_event :=
  | Check                            (* the loop condition *)
  | Recv (data : bytes)              (* [recv] returns; nothing at the end of the stream *)
  | RecvFails
  | Sent
  | SendSome (n : nat)               (* [sendall] has sent a part and goes on *)
  | SendFails
  | Shutdown.

Definition pump_step (stop source_open destination_open : bool) (e : pump_event) (p : pump)
    : option pump :=
  match pu_state p, e with
  | PumpCheck, Check => Some (Pump (if stop then PumpShut false else PumpRecv) (received p) (delivered p))
  | PumpRecv, Recv [] => Some (Pump (PumpShut true) (received p) (delivered p))
  | PumpRecv, Recv data =>
      if source_open && (Z.of_nat (length data) <=? CHUNK)
      then Some (Pump (PumpSend data) (received p ++ data) (delivered p)) else None
  | PumpRecv, RecvFails => Some (Pump (PumpShut false) (received p) (delivered p))
  | PumpSend data, Sent =>
      if destination_open then Some (Pump PumpCheck (received p) (delivered p ++ data)) else None
  | PumpSend data, SendSome n =>
      if destination_open
      then Some (Pump (PumpSend (drop n data)) (received p) (delivered p ++ take n data)) else None
  | PumpSend data, SendFails => Some (Pump (PumpShut false) (received p) (delivered p))
  | PumpShut eof, Shutdown => Some (Pump (PumpDone eof) (received p) (delivered p))
  | _, _ => None
  end.

Definition run_pump (p : pump) : pump := Pump PumpCheck (received p) (delivered p).
Definition pump_done (p : pump) : bool := match pu_state p with PumpDone _ => true | _ => false end.

(** ** The handler threads *)

(** The next step of [handle] after the connection to the target; [None] when the
    thread waits. *)
Definition handle_step (id : nat) (c : conn) (s : forwarder) : option forwarder :=
  let acquire p :=
    if bool_decide (lock s = None)
    then Some (set_lock (Some (OHandler id)) (set_conn id (set_phase p c) s)) else None in
  match co_phase c with
  | Connected => acquire Holding
  | Holding =>
      if stopping s
      then Some (set_lock None (set_conn id (set_phase Ended (close_both c)) s))
      else Some (set_conn id (set_phase Adding c) s)
  | Adding =>
      Some (set_lock None (set_connections ({[id]} ∪ connections s) (set_conn id (set_phase Registered c) s)))
  | Registered =>
      Some (set_conn id (Conn Started (client_open c) (upstream_open c)
                           (run_pump (upward c)) (run_pump (downward c))) s)
  | Started =>
      if pump_done (upward c) && pump_done (downward c)
      then Some (set_conn id (set_phase Closing c) s) else None
  | Closing => Some (set_conn id (set_phase Discarding (close_both c)) s)
  | Discarding => acquire Dropping
  | Dropping =>
      Some (set_lock None (set_connections (connections s ∖ {[id]}) (set_conn id (set_phase Ended c) s)))
  | Accepted | Ended => None
  end.

(** ** [stop] *)

(** The sockets of [list(self.connections)], pair by pair. *)
Definition snapshot (s : forwarder) : list (nat * side) :=
  concat (map (fun id => [(id, Client); (id, Upstream)]) (elements (connections s))).

Definition close_socket (id : nat) (sd : side) (s : forwarder) : forwarder :=
  match conns s !! id with
  | Some c => set_conn id (close_side sd c) s
  | None => s
  end.

(** The next step of the innermost call of [stop]. *)
Definition stop_step (s : forwarder) : option forwarder :=
  match frames s with
  | StopFlag :: fr => Some (set_frames (StopListener :: fr) (set_stopping s))
  | StopListener :: fr => Some (set_frames (StopLock :: fr) (set_listening false s))
  | StopLock :: fr =>
      if bool_decide (lock s = None)
      then Some (set_frames (StopSnapshot :: fr) (set_lock (Some OMain) s)) else None
  | StopSnapshot :: fr => Some (set_frames (StopClose (snapshot s) :: fr) (set_lock None s))
  | StopClose ((id, sd) :: todo) :: fr => Some (set_frames (StopClose todo :: fr) (close_socket id sd s))
  | StopClose [] :: fr => Some (set_frames fr (count_stop s))
  | [] => None
  end.

(** ** Transitions *)

Inductive event :=
  | Bind (ok : bool)
  | Accept (id : nat)
  | AcceptFails                      (* [accept] raises [OSError] *)
  | LoopEnds                         (* [self.stopping.is_set()] at the head of the loop *)
  | Leave
  | Signal                           (* [SIGINT] or [SIGTERM] *)
  | Stop
  | Connect (id : nat) (ok : bool)
  | Handle (id : nat)
  | StartFails (id : nat) (first : bool)  (* a pump cannot be started *)
  | Pumps (id : nat) (from : side) (e : pump_event).

Definition alive (s : forwarder) : bool :=
  match serve s with Exited | Failed => false | _ => true end.

(** The main thread is in [serve] itself. *)
Definition serving (s : forwarder) : bool :=
  bool_decide (serve s = Serving) && match frames s with [] => true | _ => false end.

(** [serve()], but for the calls of [stop]. *)
Definition serve_step (e : event) (s : forwarder) : option forwarder :=
  match e with
  | Bind ok =>
      match serve s, frames s with
      | Binding, [] => Some (if ok then set_main Serving [] (set_listening true s) else set_main Failed [] s)
      | _, _ => None
      end
  | Accept id =>
      if serving s && negb (stopping s) && listening s && bool_decide (conns s !! id = None)
      then Some (set_conn id (Conn Accepted true false new_pump new_pump) s) else None
  | AcceptFails =>
      if serving s
      then Some (if stopping s then set_main Leaving [StopFlag] s else set_main Failed [] s) else None
  | LoopEnds => if serving s && stopping s then Some (set_main Leaving [StopFlag] s) else None
  | Leave =>
      match serve s, frames s with Leaving, [] => Some (set_main Exited [] s) | _, _ => None end
  | _ => None
  end.

Definition step (e : event) (s : forwarder) : option forwarder :=
  match e with
  | Signal => if alive s then Some (set_frames (StopFlag :: frames s) s) else None
  | Stop => stop_step s
  | Connect id ok =>
      match conns s !! id with
      | Some c =>
          if bool_decide (co_phase c = Accepted)
          then Some (set_conn id (if ok then Conn Connected (client_open c) true (upward c) (downward c)
                                  else set_phase Ended (close_both c)) s)
          else None
      | None => None
      end
  | Handle id => match conns s !! id with Some c => handle_step id c s | None => None end
  | StartFails id first =>
      match conns s !! id with
      | Some c =>
          if bool_decide (co_phase c = Registered)
          then Some (set_conn id (Conn Closing (client_open c) (upstream_open c)
                 (if first then run_pump (upward c) else upward c) (downward c)) s)
          else None
      | None => None
      end
  | Pumps id from pe =>
      match conns s !! id with
      | Some c =>
          match pump_step (stopping s) (side_open from c) (side_open (other from) c) pe (pump_from from c) with
          | Some p => Some (set_conn id (set_pump from p c) s)
          | None => None
          end
      | None => None
      end
  | _ => serve_step e s
  end.

(** Events one after the other. *)
Fixpoint steps (es : list event) (s : forwarder) : option forwarder :=
  match es with
  | [] => Some s
  | e :: es' => match step e s with Some s' => steps es' s' | None => None end
  end.

Inductive reachable : forwarder -> Prop :=
  | reachable_initial : reachable initial
  | reachable_step s e s' : reachable s -> step e s = Some s' -> reachable s'.

(** ** Invariants *)

(** The handler has the lock. *)
Definition locked (p : phase) : bool :=
  match p with Holding | Adding | Dropping => true | _ => false end.
(** The connection is in the set. *)
Definition registered (p : phase) : bool :=
  match p with Registered | Started | Closing | Discarding | Dropping => true | _ => false end.
(** Its sockets may be open although it is in the set. *)
Definition relaying (p : phase) : bool :=
  match p with Registered | Started | Closing => true | _ => false end.

(** The pumps have not been started. *)
Definition unstarted (p : phase) : bool :=
  match p with Accepted | Connected | Holding | Adding | Registered => true | _ => false end.

Definition closed (c : conn) : Prop := forall sd, side_open sd c = false.

(** What a pump has not yet handed on. *)
Definition pump_inv (p : pump) : Prop :=
  match pu_state p with
  | PumpSend data => received p = delivered p ++ data
  | PumpShut false | PumpDone false => exists rest, received p = delivered p ++ rest
  | _ => received p = delivered p
  end.

(** A call of [stop] that closes sockets still has to close those of a connection. *)
Definition covers (id : nat) (c : conn) (f : stop_frame) : Prop :=
  match f with
  | StopClose todo => forall sd, side_open sd c = true -> (id, sd) ∈ todo
  | _ => True
  end.
Definition not_closing (f : stop_frame) : Prop :=
  match f with StopClose _ => False | _ => True end.
Definition is_snapshot (f : stop_frame) : bool :=
  match f with StopSnapshot => true | _ => false end.

Record conn_inv (s : forwarder) (id : nat) (c : conn) : Prop := {
  ci_lock : locked (co_phase c) = true -> lock s = Some (OHandler id);
  ci_set : registered (co_phase c) = true -> id ∈ connections s;
  ci_adding : co_phase c = Adding -> stops s = 0%nat /\ Forall not_closing (frames s);
  ci_todo : relaying (co_phase c) = true -> Forall (covers id c) (frames s);
  ci_stopped : relaying (co_phase c) = true -> stops s <> 0%nat -> closed c;
  ci_new sd : unstarted (co_phase c) = true -> pu_state (pump_from sd c) = PumpNew;
  ci_pump sd : pu_state (pump_from sd c) <> PumpNew -> relaying (co_phase c) = true \/ closed c;
  ci_data sd : pump_inv (pump_from sd c)
}.

Record main_inv (s : forwarder) : Prop := {
  mi_lock : length (List.filter is_snapshot (frames s)) =
            if bool_decide (lock s = Some OMain) then 1%nat else 0%nat;
  mi_flag : stopping s = false -> stops s = 0%nat /\ Forall (fun f => f = StopFlag) (frames s)
}.

Definition inv (s : forwarder) : Prop := main_inv s /\ map_Forall (conn_inv s) (conns s).

Lemma pump_step_inv stop so de e p p' : pump_step stop so de e p = Some p' -> pump_inv p -> pump_inv p'.
Proof.
  unfold pump_step, pump_inv. destruct p as [[| | |data|eof|eof] r d], e as [|[|x l]| | |n| |]; cbn; try done.
  - intros [= <-] ->. destruct stop; [by exists []; rewrite app_nil_r|done].
  - by intros [= <-].
  - destruct (_ && _); [|done]. by intros [= <-] ->.
  - intros [= <-] ->. exists []. by rewrite app_nil_r.
  - destruct de; [|done]. by intros [= <-] ->.
  - destruct de; [|done]. intros [= <-] ->. cbn. by rewrite <- app_assoc, take_drop.
  - intros [= <-] ->. by exists data.
  - by intros [= <-].
Qed.

(** A change of one connection, under new lock, set and frames that suit the others. *)
Lemma run_pump_inv p : pu_state p = PumpNew -> pump_inv p -> pump_inv (run_pump p).
Proof. unfold pump_inv. intros ->. done. Qed.

Lemma inv_update s s' id c :
  main_inv s' -> map_Forall (conn_inv s) (conns s) ->
  conns s' = <[id := c]> (conns s) ->
  (forall id', id' <> id -> forall c', conn_inv s id' c' -> conn_inv s' id' c') ->
  conn_inv s' id c -> inv s'.
Proof.
  intros Hm Hall Hc Hother Hid. split; [done|]. rewrite Hc. intros id' c' Hl.
  apply lookup_insert_Some in Hl as [[<- <-]|[Hne Hl]]; [done|]. by apply Hother, Hall.
Qed.

(** The frames and the set are kept, and a lock that others have is kept. *)
Lemma conn_inv_other s s' id' c :
  frames s' = frames s -> stops s' = stops s ->
  (lock s = Some (OHandler id') -> lock s' = lock s) ->
  (id' ∈ connections s -> id' ∈ connections s') ->
  conn_inv s id' c -> conn_inv s' id' c.
Proof. intros Hf Hs Hl Hc [? ? ? ? ? ? ? ?]. split; rewrite ?Hf, ?Hs; auto. intros Hp. rewrite Hl; auto. Qed.

(** Invariants of the main thread do not mention connections. *)
Lemma main_inv_same s s' :
  frames s' = frames s -> stops s' = stops s -> stopping s' = stopping s ->
  bool_decide (lock s' = Some OMain) = bool_decide (lock s = Some OMain) ->
  main_inv s -> main_inv s'.
Proof. intros Hf Hn Hs Hl [Hlock Hflag]. split; rewrite ?Hf, ?Hn, ?Hs, ?Hl; auto. Qed.

Lemma closed_both c : closed (close_both c).
Proof. by intros []. Qed.

Lemma covers_closed id c f : closed c -> covers id c f.
Proof. intros Hc. destruct f; try done. intros sd Ho. by rewrite Hc in Ho. Qed.

(** Fewer open sockets and the same or no relaying keep what covers a connection. *)
Lemma covers_fewer id c c' f :
  (forall sd, side_open sd c' = true -> side_open sd c = true) -> covers id c f -> covers id c' f.
Proof. intros Hs Hc. destruct f; try done. intros sd Ho. by apply Hc, Hs. Qed.

(** The connections other than the one whose handler takes a step. *)
Ltac others := intros id' Hne c' Hc'; refine (conn_inv_other _ _ id' c' _ _ _ _ Hc');
  cbn; first [done | congruence | intros; set_solver].

Ltac main_same s := apply (main_inv_same s); [done..| |done]; cbn; try congruence;
  repeat case_bool_decide; congruence.

Lemma acquire_inv s id c p s' :
  inv s -> conns s !! id = Some c -> locked p = true -> relaying p = false -> p <> Adding ->
  (unstarted p = true -> unstarted (co_phase c) = true) ->
  (registered p = true -> registered (co_phase c) = true) ->
  (relaying (co_phase c) = true -> closed c) ->
  (if bool_decide (lock s = None)
   then Some (set_lock (Some (OHandler id)) (set_conn id (set_phase p c) s)) else None) = Some s' ->
  inv s'.
Proof.
  intros [Hm Hall] Hl Hp Hr Ha Hun Hreg Hcl H. pose proof (Hall id c Hl) as [Hlock Hset _ _ _ Hnew Hpump Hdata].
  case_bool_decide as Hn; [|discriminate H]. apply (inj Some) in H as <-.
  apply (inv_update s _ id (set_phase p c)); [main_same s|done|done|others|].
  split; cbn; rewrite ?Hr; try done; auto.
  - intros sd Hu. apply Hnew, Hun, Hu.
  - intros sd Hs. right. destruct (Hpump sd Hs); [by apply Hcl|done].
Qed.

Lemma handle_inv s id c s' :
  inv s -> conns s !! id = Some c -> handle_step id c s = Some s' -> inv s'.
Proof.
  intros Hinv Hl H. pose proof Hinv as [Hm Hall].
  pose proof (Hall id c Hl) as [Hlock Hset Hadd Htodo Hstop Hnew Hpump Hdata].
  unfold handle_step in H.
  destruct (co_phase c) eqn:Ep; try discriminate H; cbn in Hlock, Hset, Hadd, Htodo, Hstop, Hnew, Hpump.
  - apply (acquire_inv s id c Holding); rewrite ?Ep; done.
  - specialize (Hlock eq_refl). destruct (stopping s) eqn:Es; apply (inj Some) in H as <-.
    + apply (inv_update s _ id (set_phase Ended (close_both c))); [main_same s|done|done|others|].
      split; cbn; try done. right. by apply closed_both.
    + apply (inv_update s _ id (set_phase Adding c)); [main_same s|done|done|others|].
      destruct (mi_flag s Hm Es) as [Hz Hf]. split; cbn; try done.
      intros _. split; [done|]. eapply Forall_impl; [exact Hf|]. by intros f ->.
  - specialize (Hlock eq_refl). specialize (Hadd eq_refl). destruct Hadd as [Hz Hf].
    apply (inj Some) in H as <-.
    apply (inv_update s _ id (set_phase Registered c)); [main_same s|done|done|others|].
    split; cbn; try done.
    + set_solver.
    + intros _. eapply Forall_impl; [exact Hf|]. by intros [].
    + intros sd Hs. by left.
  - apply (inj Some) in H as <-. eapply inv_update; [main_same s|done|done|others|].
    split; cbn; try done; auto.
    intros []; apply run_pump_inv; [apply (Hnew Client eq_refl)|apply (Hdata Client)
      |apply (Hnew Upstream eq_refl)|apply (Hdata Upstream)].
  - destruct (_ && _); [|discriminate H]. apply (inj Some) in H as <-.
    eapply inv_update; [main_same s|done|done|others|]. split; cbn; auto; done.
  - apply (inj Some) in H as <-. eapply inv_update; [main_same s|done|done|others|].
    split; cbn; auto; try done. right. by apply closed_both.
  - apply (acquire_inv s id c Dropping); rewrite ?Ep; done.
  - specialize (Hlock eq_refl). apply (inj Some) in H as <-.
    apply (inv_update s _ id (set_phase Ended c)); [main_same s|done|done|others|].
    split; cbn; done.
Qed.

(** Steps of the main thread: the connections and their set stay. *)
Lemma main_step_inv s s' :
  inv s -> conns s' = conns s -> connections s' = connections s -> main_inv s' ->
  (forall id c, conn_inv s id c -> locked (co_phase c) = true -> lock s' = Some (OHandler id)) ->
  (forall id c, conn_inv s id c -> co_phase c = Adding -> stops s' = 0%nat /\ Forall not_closing (frames s')) ->
  (forall id c, conn_inv s id c -> relaying (co_phase c) = true -> Forall (covers id c) (frames s')) ->
  (forall id c, conn_inv s id c -> relaying (co_phase c) = true -> stops s' <> 0%nat -> closed c) ->
  inv s'.
Proof.
  intros [Hm Hall] Hc Hs Hm' H1 H2 H3 H4. split; [done|]. rewrite Hc. intros id c Hl.
  pose proof (Hall id c Hl) as Hi. pose proof Hi as [? ? ? ? ? ? ? ?].
  split; rewrite ?Hs; eauto.
Qed.

Lemma elem_of_snapshot s id sd : id ∈ connections s -> (id, sd) ∈ snapshot s.
Proof.
  intros Hid. unfold snapshot. apply list_elem_of_In, in_concat. eexists.
  split; [apply in_map, list_elem_of_In, elem_of_elements, Hid|]. destruct sd; cbn; auto.
Qed.

(** The calls below the innermost one. *)
Lemma todo_tail s id c f fr : frames s = f :: fr ->
  conn_inv s id c -> relaying (co_phase c) = true -> Forall (covers id c) fr.
Proof. intros Hf Hi Hr. pose proof (ci_todo _ _ _ Hi Hr) as Hall. rewrite Hf in Hall. by inversion Hall. Qed.

Lemma adding_tail s id c f fr : frames s = f :: fr ->
  conn_inv s id c -> co_phase c = Adding -> not_closing f /\ stops s = 0%nat /\ Forall not_closing fr.
Proof.
  intros Hf Hi Ha. destruct (ci_adding _ _ _ Hi Ha) as [? Hall]. rewrite Hf in Hall.
  by apply Forall_cons_1 in Hall as [? ?].
Qed.

(** The innermost call goes on to a step that closes nothing. *)
Lemma stop_advance_inv s s' f f' fr :
  inv s -> frames s = f :: fr -> frames s' = f' :: fr -> conns s' = conns s ->
  connections s' = connections s -> stops s' = stops s -> main_inv s' ->
  not_closing f' ->
  (forall id, lock s = Some (OHandler id) -> lock s' = Some (OHandler id)) -> inv s'.
Proof.
  intros Hinv Hf Hf' Hc Hs Hn Hm Hnc Hl. apply (main_step_inv s); try done; rewrite ?Hf', ?Hn.
  - intros id c Hi Hp. apply Hl, (ci_lock _ _ _ Hi Hp).
  - intros id c Hi Ha. destruct (adding_tail _ _ _ _ _ Hf Hi Ha) as (_ & ? & ?).
    split; [done|by constructor].
  - intros id c Hi Hr. constructor; [by destruct f'|by apply (todo_tail s id c f fr)].
  - intros id c Hi. apply (ci_stopped _ _ _ Hi).
Qed.

Lemma close_side_open sd sd' c :
  side_open sd' (close_side sd c) = true -> side_open sd' c = true /\ sd' <> sd.
Proof. by destruct sd, sd'. Qed.

Lemma close_side_phase sd c : co_phase (close_side sd c) = co_phase c.
Proof. by destruct sd. Qed.

Lemma close_side_pump sd sd' c : pump_from sd' (close_side sd c) = pump_from sd' c.
Proof. by destruct sd, sd'. Qed.

Lemma close_side_closed sd c : closed c -> closed (close_side sd c).
Proof.
  intros Hc sd'. destruct (side_open sd' (close_side sd c)) eqn:E; [|done].
  apply close_side_open in E as [E _]. by rewrite Hc in E.
Qed.

(** Closing one socket: the call still covers what it covered, but for that socket. *)
Lemma close_step_inv s id sd todo fr :
  inv s -> frames s = StopClose ((id, sd) :: todo) :: fr ->
  inv (set_frames (StopClose todo :: fr) (close_socket id sd s)).
Proof.
  intros [[Hmlock Hmflag] Hall] Ef. rewrite Ef in Hmlock, Hmflag.
  set (s' := set_frames _ _).
  assert (Hs' : lock s' = lock s /\ connections s' = connections s /\ stops s' = stops s /\
                stopping s' = stopping s /\ frames s' = StopClose todo :: fr).
  { unfold s', close_socket. by destruct (conns s !! id). }
  destruct Hs' as (Hl & Hc & Hn & Hst & Hf).
  assert (Hm' : main_inv s').
  { split; rewrite Hf, ?Hl, ?Hn, ?Hst; [exact Hmlock|]. intros Hs. destruct (Hmflag Hs) as [_ Hfr].
    by inversion Hfr. }
  assert (Hconn : forall id' c c', conn_inv s id' c -> co_phase c' = co_phase c ->
    (forall sd, pump_from sd c' = pump_from sd c) -> (closed c -> closed c') ->
    (forall sd', side_open sd' c' = true -> side_open sd' c = true /\ (id', sd') <> (id, sd)) ->
    conn_inv s' id' c').
  { intros id' c c' Hi Hp Hpu Hcl Ho. pose proof Hi as [H1 H2 H3 H4 H5 H6 H7 H8].
    split; rewrite ?Hp, ?Hl, ?Hc, ?Hn, ?Hf; auto.
    - intros Ha. by destruct (adding_tail _ _ _ _ _ Ef Hi Ha).
    - intros Hr. pose proof (H4 Hr) as Hfr. rewrite Ef in Hfr. apply Forall_cons_1 in Hfr as [Hfirst Hrest].
      constructor.
      + intros sd' Ho'. destruct (Ho sd' Ho') as [Hopen Hne]. by apply Hfirst, elem_of_cons in Hopen as [|].
      + eapply Forall_impl; [exact Hrest|]. intros f. apply covers_fewer. intros sd' Ho'. by apply Ho.
    - intros sd' Hu. rewrite Hpu. by apply H6.
    - intros sd' Hs. rewrite Hpu in Hs. destruct (H7 sd' Hs); auto.
    - intros sd'. rewrite Hpu. apply H8. }
  split; [done|]. intros id' c' Hl'. unfold s', close_socket in Hl'.
  destruct (conns s !! id) as [c|] eqn:Eid; cbn in Hl'.
  - apply lookup_insert_Some in Hl' as [[<- <-]|[Hne Hl']].
    + apply (Hconn id c); [by apply Hall|apply close_side_phase|intros; apply close_side_pump|apply close_side_closed|].
      intros sd' Ho. apply close_side_open in Ho as [? ?]. split; congruence.
    + apply (Hconn id' c'); [by apply Hall|done..|]. intros sd' Ho. split; congruence.
  - apply (Hconn id' c'); [by apply Hall|done..|]. intros sd' Ho. split; congruence.
Qed.

Lemma stop_inv s s' : inv s -> stop_step s = Some s' -> inv s'.
Proof.
  intros Hinv H. pose proof Hinv as [[Hmlock Hmflag] Hall]. unfold stop_step in H.
  destruct (frames s) as [|f fr] eqn:Ef; [discriminate H|]. cbn in Hmlock.
  destruct f as [| | | |[|[id sd] todo]]; cbn in Hmlock.
  - apply (inj Some) in H as <-. eapply stop_advance_inv; [done|exact Ef|done..| |done|done].
    split; [exact Hmlock|]. cbn. intros Hf. discriminate Hf.
  - apply (inj Some) in H as <-. eapply stop_advance_inv; [done|exact Ef|done..| |done|done].
    split; [exact Hmlock|]. cbn. intros Hf. destruct (Hmflag Hf) as [_ Hfr]. by inversion Hfr.
  - destruct (bool_decide (lock s = None)) eqn:Hn; [apply bool_decide_eq_true in Hn|discriminate H]. apply (inj Some) in H as <-.
    eapply stop_advance_inv; [done|exact Ef|done..| |done|].
    + split; cbn; [|intros Hf; destruct (Hmflag Hf) as [_ Hfr]; by inversion Hfr].
      rewrite Hn in Hmlock. cbn in Hmlock. by rewrite Hmlock.
    + rewrite Hn. done.
  - apply (inj Some) in H as <-. destruct (bool_decide (lock s = Some OMain)) eqn:Hl; [|discriminate Hmlock].
    apply bool_decide_eq_true in Hl. injection Hmlock as Hmlock. apply (main_step_inv s); try done.
    + split; cbn; [done|]. intros Hf. destruct (Hmflag Hf) as [_ Hfr]. by inversion Hfr.
    + intros id c Hi Hp. pose proof (ci_lock _ _ _ Hi Hp). congruence.
    + intros id c Hi Ha. pose proof (ci_lock _ _ _ Hi) as Hp. rewrite Ha in Hp. specialize (Hp eq_refl). congruence.
    + intros id c Hi Hr. constructor; [|by apply (todo_tail s id c StopSnapshot fr)]. intros sd _.
      apply elem_of_snapshot, (ci_set _ _ _ Hi). by destruct (co_phase c).
    + intros id c Hi. apply (ci_stopped _ _ _ Hi).
  - apply (inj Some) in H as <-. apply (main_step_inv s); try done.
    + split; cbn; [exact Hmlock|]. intros Hf. destruct (Hmflag Hf) as [_ Hfr]. by inversion Hfr.
    + intros id c Hi. apply (ci_lock _ _ _ Hi).
    + intros id c Hi Ha. by destruct (adding_tail _ _ _ _ _ Ef Hi Ha).
    + intros id c Hi Hr. by apply (todo_tail s id c (StopClose []) fr).
    + intros id c Hi Hr _ sd. pose proof (ci_todo _ _ _ Hi Hr) as Hfr. rewrite Ef in Hfr.
      apply Forall_cons_1 in Hfr as [Hfr _]. destruct (side_open sd c) eqn:Eo; [|done].
      by apply Hfr, elem_of_nil in Eo.
  - apply (inj Some) in H as <-. by apply (close_step_inv s id sd todo fr).
Qed.

(** Steps that only move [serve], or push a new call of [stop]. *)
Lemma serve_only_inv s s' :
  inv s -> conns s' = conns s -> connections s' = connections s -> lock s' = lock s ->
  stops s' = stops s -> stopping s' = stopping s ->
  (frames s' = frames s \/ frames s' = StopFlag :: frames s) -> inv s'.
Proof.
  intros Hinv Hc Hs Hl Hn Hst Hf. pose proof Hinv as [[Hmlock Hmflag] _].
  apply (main_step_inv s); try done; rewrite ?Hl, ?Hn, ?Hst.
  - split; rewrite ?Hl, ?Hn, ?Hst; destruct Hf as [-> | ->]; [done|done|done|].
    intros Hs0. destruct (Hmflag Hs0) as [? ?]. split; [done|by constructor].
  - intros id c Hi. apply (ci_lock _ _ _ Hi).
  - intros id c Hi Ha. destruct (ci_adding _ _ _ Hi Ha) as [? Hfr]. split; [done|].
    destruct Hf as [-> | ->]; [done|by constructor].
  - intros id c Hi Hr. pose proof (ci_todo _ _ _ Hi Hr) as Hfr.
    destruct Hf as [-> | ->]; [done|by constructor].
  - intros id c Hi. apply (ci_stopped _ _ _ Hi).
Qed.

(** A connection that is new or changes outside of the critical sections. *)
Lemma conn_only_inv s id c' :
  inv s -> conn_inv s id c' -> inv (set_conn id c' s).
Proof.
  intros [Hm Hall] Hc'. split; [by apply (main_inv_same s)|]. intros id' c Hl.
  assert (Hi : conn_inv s id' c).
  { cbn in Hl. apply lookup_insert_Some in Hl as [[<- <-]|[_ Hl]]; [done|by apply Hall]. }
  by destruct Hi; split.
Qed.

Lemma serve_inv e s s' : inv s -> serve_step e s = Some s' -> inv s'.
Proof.
  intros Hinv H. destruct e as [ok|id| | | | | | | | |]; try discriminate H; cbn in H.
  - destruct (serve s); try discriminate H. destruct (frames s) eqn:Ef; [|discriminate H].
    apply (inj Some) in H as <-. destruct ok; (eapply serve_only_inv; [exact Hinv|..]; try done; by left).
  - destruct (_ && _) eqn:E; [|discriminate H]. apply (inj Some) in H as <-.
    apply conn_only_inv; [done|]. split; cbn; try done; by intros [].
  - destruct (serving s) eqn:E; [|discriminate H]. apply (inj Some) in H as <-.
    unfold serving in E. destruct (frames s) eqn:Ef; [|by rewrite andb_false_r in E].
    destruct (stopping s); (eapply serve_only_inv; [exact Hinv|..]; try done; rewrite Ef; auto).
  - destruct (serving s && stopping s) eqn:E; [|discriminate H]. apply (inj Some) in H as <-.
    unfold serving in E. destruct (frames s) eqn:Ef; [|by rewrite andb_false_r in E].
    eapply serve_only_inv; [exact Hinv|..]; try done. rewrite Ef. by right.
  - destruct (serve s); try discriminate H. destruct (frames s) eqn:Ef; [|discriminate H].
    apply (inj Some) in H as <-. eapply serve_only_inv; [exact Hinv|..]; try done. by left.
Qed.

Lemma pump_from_set sd sd' p c :
  pump_from sd' (set_pump sd p c) = if decide (sd' = sd) then p else pump_from sd' c.
Proof. by destruct sd, sd'. Qed.

Lemma set_pump_same sd p c :
  co_phase (set_pump sd p c) = co_phase c /\ forall sd', side_open sd' (set_pump sd p c) = side_open sd' c.
Proof. by destruct sd; split; intros. Qed.

Lemma pump_step_started stop so de e p p' :
  pump_step stop so de e p = Some p' -> pu_state p <> PumpNew /\ pu_state p' <> PumpNew.
Proof.
  unfold pump_step. destruct p as [[| | |data|eof|eof] r d], e as [|[|x l]| | |n| |]; cbn; try done.
  - intros [= <-]. by destruct stop.
  - by intros [= <-].
  - destruct (_ && _); [|done]. by intros [= <-].
  - by intros [= <-].
  - destruct de; [|done]. by intros [= <-].
  - destruct de; [|done]. by intros [= <-].
  - by intros [= <-].
  - by intros [= <-].
Qed.

Lemma pumps_inv s id c from e p :
  inv s -> conns s !! id = Some c ->
  pump_step (stopping s) (side_open from c) (side_open (other from) c) e (pump_from from c) = Some p ->
  inv (set_conn id (set_pump from p c) s).
Proof.
  intros Hinv Hl Hp. apply conn_only_inv; [done|].
  destruct (proj2 Hinv id c Hl) as [H1 H2 H3 H4 H5 H6 H7 H8].
  destruct (set_pump_same from p c) as [Eph Eop]. destruct (pump_step_started _ _ _ _ _ _ Hp) as [Hn _].
  assert (Hcl : closed c -> closed (set_pump from p c)) by (intros Hc sd; by rewrite Eop).
  split; rewrite ?Eph; auto.
  - intros Hr. eapply Forall_impl; [exact (H4 Hr)|]. intros f. apply covers_fewer. intros sd. by rewrite Eop.
  - intros sd Hu. by destruct Hn; apply H6.
  - intros sd _. destruct (H7 from Hn); auto.
  - intros sd. rewrite pump_from_set. case_decide; [|apply H8]. by eapply pump_step_inv.
Qed.

Lemma step_inv e s s' : inv s -> step e s = Some s' -> inv s'.
Proof.
  intros Hinv H. destruct e as [ok|id| | | | | |id ok|id|id first|id from pe];
    try exact (serve_inv _ _ _ Hinv H); cbn in H.
  - destruct (alive s); [|discriminate H]. apply (inj Some) in H as <-.
    eapply serve_only_inv; [exact Hinv|..]; try done. by right.
  - by eapply stop_inv.
  - destruct (conns s !! id) as [c|] eqn:Hl; [|discriminate H].
    destruct (bool_decide (co_phase c = Accepted)) eqn:Ep; [|discriminate H]. apply bool_decide_eq_true in Ep.
    apply (inj Some) in H as <-. apply conn_only_inv; [done|].
    destruct (proj2 Hinv id c Hl) as [H1 H2 H3 H4 H5 H6 H7 H8]. rewrite Ep in H6.
    destruct ok; split; cbn; try done; intros sd Hn; by destruct Hn; apply (H6 sd).
  - destruct (conns s !! id) as [c|] eqn:Hl; [|discriminate H]. by eapply handle_inv.
  - destruct (conns s !! id) as [c|] eqn:Hl; [|discriminate H].
    destruct (bool_decide (co_phase c = Registered)) eqn:Ep; [|discriminate H]. apply bool_decide_eq_true in Ep.
    apply (inj Some) in H as <-. apply conn_only_inv; [done|].
    destruct (proj2 Hinv id c Hl) as [H1 H2 H3 H4 H5 H6 H7 H8]. rewrite Ep in *. split; cbn; try done; auto.
    intros []; [|apply (H8 Upstream)]. destruct first; [|apply (H8 Client)].
    apply run_pump_inv; [by apply (H6 Client)|apply (H8 Client)].
  - destruct (conns s !! id) as [c|] eqn:Hl; [|discriminate H].
    destruct (pump_step _ _ _ _ _) as [p|] eqn:Hp; [|discriminate H]. apply (inj Some) in H as <-.
    by eapply pumps_inv.
Qed.

Lemma reachable_inv s : reachable s -> inv s.
Proof.
  induction 1 as [|s e s' _ IH Hs]; [|by eapply step_inv]. split; [by split|]. intros id c Hl.
  cbn in Hl. by rewrite lookup_empty in Hl.
Qed.

(** ** Opaque forwarding *)

(** C7: In every reachable state, whatever the interleaving of the threads, what a
    pump has delivered is a beginning of what it has received, in order; nothing is
    withheld but the chunk that is being sent; and a pump that ended with the end of
    its stream has delivered all of it. *)
Theorem relay_faithful s id c sd :
  reachable s -> conns s !! id = Some c ->
  exists rest, received (pump_from sd c) = delivered (pump_from sd c) ++ rest /\
    match pu_state (pump_from sd c) with
    | PumpSend data => rest = data
    | PumpShut false | PumpDone false => True
    | _ => rest = []
    end.
Proof.
  intros Hr Hl. pose proof (ci_data _ _ _ (proj2 (reachable_inv s Hr) id c Hl) sd) as Hp.
  unfold pump_inv in Hp. destruct (pu_state (pump_from sd c)) as [| | |data|[]|[]];
    try (exists []; by rewrite app_nil_r).
  - by exists data.
  - destruct Hp as [rest Hrest]. by exists rest.
  - destruct Hp as [rest Hrest]. by exists rest.
Qed.

(** ** Stopping *)

(** The bytes of a connection. *)
Definition traffic (c : conn) : bytes * bytes * bytes * bytes :=
  (received (upward c), delivered (upward c), received (downward c), delivered (downward c)).

Lemma stopped_closed s id c :
  inv s -> stops s <> 0%nat -> conns s !! id = Some c ->
  co_phase c <> Adding /\ (relaying (co_phase c) = true -> closed c) /\
  forall sd, pu_state (pump_from sd c) <> PumpNew -> closed c.
Proof.
  intros [_ Hall] Hs Hl. pose proof (Hall id c Hl) as Hi. split_and!.
  - intros Ha. by destruct (ci_adding _ _ _ Hi Ha).
  - intros Hr. by apply (ci_stopped _ _ _ Hi).
  - intros sd Hp. destruct (ci_pump _ _ _ Hi sd Hp) as [Hr|]; [|done]. by apply (ci_stopped _ _ _ Hi).
Qed.

Lemma pump_step_closed stop e p p' :
  pump_step stop false false e p = Some p' -> received p' = received p /\ delivered p' = delivered p.
Proof.
  unfold pump_step. destruct p as [[| | |data|eof|eof] r d], e as [|[|x l]| | |n| |]; cbn; try done;
    by intros [= <-].
Qed.

Lemma set_phase_traffic p c : traffic (set_phase p c) = traffic c.
Proof. done. Qed.
Lemma close_both_traffic c : traffic (close_both c) = traffic c.
Proof. done. Qed.
Lemma close_side_traffic sd c : traffic (close_side sd c) = traffic c.
Proof. by destruct sd. Qed.

(** Every connection keeps its bytes. *)
Definition silent (s s' : forwarder) : Prop :=
  forall id c, conns s !! id = Some c -> exists c', conns s' !! id = Some c' /\ traffic c' = traffic c.

Lemma silent_same s s' : conns s' = conns s -> silent s s'.
Proof. intros Hc id c Hl. exists c. by rewrite Hc. Qed.

Lemma silent_conn s s' id c c' :
  conns s !! id = Some c -> conns s' = <[id := c']> (conns s) -> traffic c' = traffic c -> silent s s'.
Proof.
  intros Hl Hc Ht id' c0 Hl'. rewrite Hc. destruct (decide (id' = id)) as [->|Hne].
  - rewrite Hl in Hl'. apply (inj Some) in Hl' as <-. exists c'. by rewrite lookup_insert_eq.
  - exists c0. by rewrite lookup_insert_ne.
Qed.

Lemma handle_silent s id c s' : conns s !! id = Some c -> handle_step id c s = Some s' -> silent s s'.
Proof.
  intros Hl H. unfold handle_step in H.
  destruct (co_phase c); try discriminate H; try case_match; try discriminate H;
    apply (inj Some) in H as <-; by eapply silent_conn.
Qed.

Lemma stop_silent s s' : stop_step s = Some s' -> silent s s'.
Proof.
  intros H. unfold stop_step in H.
  destruct (frames s) as [|[| | | |[|[id sd] todo]] fr]; try discriminate H; try case_match;
    try discriminate H; apply (inj Some) in H as <-; try by apply silent_same.
  unfold close_socket. destruct (conns s !! id) as [c|] eqn:E; [|by apply silent_same].
  eapply silent_conn; [exact E|done|apply close_side_traffic].
Qed.

Lemma serve_silent e s s' : serve_step e s = Some s' -> silent s s'.
Proof.
  intros H. destruct e as [ok|id| | | | | | | | |]; try discriminate H; cbn in H.
  - destruct (serve s), (frames s); try discriminate H. apply (inj Some) in H as <-.
    by destruct ok; apply silent_same.
  - destruct (serving s && _ && _ && _) eqn:E; [|discriminate H]. apply (inj Some) in H as <-.
    apply andb_true_iff in E as [_ E]. apply bool_decide_eq_true in E.
    intros id' c Hl. exists c. split; [|done]. cbn. rewrite lookup_insert_ne; [done|congruence].
  - destruct (serving s); [|discriminate H]. apply (inj Some) in H as <-.
    by destruct (stopping s); apply silent_same.
  - destruct (serving s && stopping s); [|discriminate H]. apply (inj Some) in H as <-. by apply silent_same.
  - destruct (serve s), (frames s); try discriminate H. apply (inj Some) in H as <-. by apply silent_same.
Qed.

Lemma step_silent e s s' : inv s -> stops s <> 0%nat -> step e s = Some s' -> silent s s'.
Proof.
  intros Hinv Hs H. destruct e as [ok|id| | | | | |id ok|id|id first|id from pe];
    try exact (serve_silent _ _ _ H); cbn in H.
  - destruct (alive s); [|discriminate H]. apply (inj Some) in H as <-. by apply silent_same.
  - by apply stop_silent.
  - destruct (conns s !! id) as [c|] eqn:Hl; [|discriminate H]. case_match; [|discriminate H].
    apply (inj Some) in H as <-. eapply silent_conn; [done|done|]. by destruct ok.
  - destruct (conns s !! id) as [c|] eqn:Hl; [|discriminate H]. by eapply handle_silent.
  - destruct (conns s !! id) as [c|] eqn:Hl; [|discriminate H]. case_match; [|discriminate H].
    apply (inj Some) in H as <-. eapply silent_conn; [done|done|]. by destruct first.
  - destruct (conns s !! id) as [c|] eqn:Hl; [|discriminate H].
    destruct (pump_step _ _ _ _ _) as [p|] eqn:Hp; [|discriminate H]. apply (inj Some) in H as <-.
    destruct (stopped_closed s id c Hinv Hs Hl) as (_ & _ & Hcl).
    specialize (Hcl from (proj1 (pump_step_started _ _ _ _ _ _ Hp))). rewrite !Hcl in Hp.
    apply pump_step_closed in Hp as [Hrec Hdel]. eapply silent_conn; [done|done|].
    destruct from; unfold traffic; cbn in *; congruence.
Qed.

Lemma stopped_connections e s s' :
  inv s -> stops s <> 0%nat -> step e s = Some s' -> connections s' ⊆ connections s.
Proof.
  intros Hinv Hs H.
  assert (Hserve : forall e, serve_step e s = Some s' -> connections s' ⊆ connections s).
  { intros e' He. destruct e'; try discriminate He; cbn in He; repeat case_match; try discriminate He;
      by apply (inj Some) in He as <-. }
  destruct e as [ok|id| | | | | |id ok|id|id first|id from pe]; try exact (Hserve _ H); cbn in H.
  - destruct (alive s); [|discriminate H]. by apply (inj Some) in H as <-.
  - unfold stop_step, close_socket in H. repeat case_match; try discriminate H; by apply (inj Some) in H as <-.
  - repeat case_match; try discriminate H; by apply (inj Some) in H as <-.
  - destruct (conns s !! id) as [c|] eqn:Hl; [|discriminate H].
    destruct (stopped_closed s id c Hinv Hs Hl) as (Hadd & _). unfold handle_step in H.
    destruct (co_phase c); try discriminate H; repeat case_match; try discriminate H; try done;
      apply (inj Some) in H as <-; cbn; set_solver.
  - repeat case_match; try discriminate H; by apply (inj Some) in H as <-.
  - repeat case_match; try discriminate H; by apply (inj Some) in H as <-.
Qed.

(** C6: Once a call of [stop] has returned, every registered connection has both
    sockets closed, no connection is added any more, and no thread moves a byte in
    any later step. *)
Theorem stop_silences s e s' :
  reachable s -> stops s <> 0%nat -> step e s = Some s' ->
  (forall id c, conns s !! id = Some c -> relaying (co_phase c) = true -> closed c) /\
  connections s' ⊆ connections s /\ silent s s'.
Proof.
  intros Hr Hs H. pose proof (reachable_inv s Hr) as Hinv. split_and!.
  - intros id c Hl. by apply (stopped_closed s id c).
  - by apply (stopped_connections e s s').
  - by apply (step_silent e s s').
Qed.

(** ** Shutting down *)

(** The handler that has the lock is in one of its critical sections. *)
Definition holder (s : forwarder) : Prop :=
  forall id, lock s = Some (OHandler id) ->
    exists c, conns s !! id = Some c /\ locked (co_phase c) = true.

Lemma holder_keep s s' :
  holder s -> lock s' = lock s ->
  (forall id c, conns s !! id = Some c -> locked (co_phase c) = true ->
     exists c', conns s' !! id = Some c' /\ locked (co_phase c') = true) ->
  holder s'.
Proof. intros Hh Hl Hc id Hid. rewrite Hl in Hid. destruct (Hh id Hid) as (c & ? & ?). by apply (Hc id c). Qed.

Lemma holder_same s s' : holder s -> lock s' = lock s -> conns s' = conns s -> holder s'.
Proof. intros Hh Hl Hc. apply (holder_keep s); [done|done|]. intros id c. rewrite Hc. by exists c. Qed.

Lemma holder_free s : lock s = None -> holder s.
Proof. intros Hl id Hid. congruence. Qed.

Lemma holder_conn s id c c' l :
  holder s -> conns s !! id = Some c ->
  (l = lock s -> locked (co_phase c) = true -> locked (co_phase c') = true) ->
  (l = lock s \/ l = Some (OHandler id) /\ locked (co_phase c') = true) ->
  forall s', conns s' = <[id := c']> (conns s) -> lock s' = l -> holder s'.
Proof.
  intros Hh Hl Hp Hlock s' Hc Hl' id' Hid. rewrite Hc.
  destruct (decide (id = id')) as [<-|Hne].
  - exists c'. rewrite lookup_insert_eq. split; [done|]. destruct Hlock as [Hlock|[_ Hlock]]; [|done].
    apply Hp; [done|]. destruct (Hh id) as (c0 & Hc0 & Hp0); [congruence|]. congruence.
  - rewrite lookup_insert_ne by done. destruct Hlock as [Hlock|[Hlock _]]; [|congruence].
    apply Hh. congruence.
Qed.

Lemma handle_holder s id c s' :
  holder s -> conns s !! id = Some c -> handle_step id c s = Some s' -> holder s'.
Proof.
  intros Hh Hl H. unfold handle_step in H.
  destruct (co_phase c) eqn:Ep; try discriminate H; repeat case_match; try discriminate H;
    apply (inj Some) in H as <-; try (by apply holder_free);
    first [ by eapply (holder_conn s id c); [done|done| |by left|done|done]; rewrite Ep
          | by eapply (holder_conn s id c); [done|done| |right|done|done]; rewrite ?Ep ].
Qed.

Lemma step_holder e s s' : holder s -> step e s = Some s' -> holder s'.
Proof.
  intros Hh H. destruct e as [ok|id| | | | | |id ok|id|id first|id from pe]; cbn in H.
  - destruct (serve s), (frames s); try discriminate H. apply (inj Some) in H as <-.
    by destruct ok; apply (holder_same s).
  - destruct (serving s && _ && _ && _) eqn:E; [|discriminate H]. apply (inj Some) in H as <-.
    apply andb_true_iff in E as [_ E]. apply bool_decide_eq_true in E.
    apply (holder_keep s); [done|done|]. intros id' c Hl Hp. exists c. split; [|done]. cbn.
    rewrite lookup_insert_ne; [done|congruence].
  - destruct (serving s); [|discriminate H]. apply (inj Some) in H as <-. by destruct (stopping s); apply (holder_same s).
  - destruct (serving s && stopping s); [|discriminate H]. apply (inj Some) in H as <-. by apply (holder_same s).
  - destruct (serve s), (frames s); try discriminate H. apply (inj Some) in H as <-. by apply (holder_same s).
  - destruct (alive s); [|discriminate H]. apply (inj Some) in H as <-. by apply (holder_same s).
  - unfold stop_step in H. destruct (frames s) as [|[| | | |[|[id sd] todo]] fr]; try discriminate H;
      try case_match; try discriminate H; apply (inj Some) in H as <-; try (by apply (holder_same s)).
    + intros id Hid. discriminate Hid.
    + intros id Hid. discriminate Hid.
    + unfold close_socket. destruct (conns s !! id) as [c|] eqn:E; [|by apply (holder_same s)].
      eapply (holder_conn s id c); [done|done|by rewrite close_side_phase|by left|done|done].
  - destruct (conns s !! id) as [c|] eqn:Hl; [|discriminate H].
    destruct (bool_decide (co_phase c = Accepted)) eqn:Ep; [|discriminate H]. apply bool_decide_eq_true in Ep.
    apply (inj Some) in H as <-. by eapply (holder_conn s id c); [done|done|rewrite Ep|by left|done|done].
  - destruct (conns s !! id) as [c|] eqn:Hl; [|discriminate H]. by eapply handle_holder.
  - destruct (conns s !! id) as [c|] eqn:Hl; [|discriminate H].
    destruct (bool_decide (co_phase c = Registered)) eqn:Ep; [|discriminate H]. apply bool_decide_eq_true in Ep.
    apply (inj Some) in H as <-. by eapply (holder_conn s id c); [done|done|rewrite Ep|by left|done|done].
  - destruct (conns s !! id) as [c|] eqn:Hl; [|discriminate H]. case_match; [|discriminate H].
    apply (inj Some) in H as <-.
    eapply (holder_conn s id c); [done|done|by rewrite (proj1 (set_pump_same from p c))|by left|done|done].
Qed.

Lemma reachable_holder s : reachable s -> holder s.
Proof. induction 1 as [|s e s' _ IH Hs]; [by intros id Hid|by eapply step_holder]. Qed.

Lemma steps_app es es' s s1 : steps es s = Some s1 -> steps (es ++ es') s = steps es' s1.
Proof.
  revert s. induction es as [|e es IH]; intros s H; cbn in *; [by apply (inj Some) in H as ->|].
  destruct (step e s); [by apply IH|done].
Qed.

Lemma steps_inv es s s' : inv s -> steps es s = Some s' -> inv s'.
Proof.
  revert s. induction es as [|e es IH]; intros s Hi H; cbn in H; [by apply (inj Some) in H as <-|].
  destruct (step e s) as [s1|] eqn:E; [|done]. apply (IH s1); [by eapply step_inv|done].
Qed.

(** The remaining steps of a call that closes sockets. *)
Lemma close_all todo fr s :
  frames s = StopClose todo :: fr ->
  exists s', steps (replicate (S (length todo)) Stop) s = Some s' /\ frames s' = fr /\
    stops s' = S (stops s) /\ serve s' = serve s /\ stopping s' = stopping s /\ lock s' = lock s.
Proof.
  revert s. induction todo as [|[id sd] todo IH]; intros s Hf.
  - cbn. unfold stop_step. rewrite Hf. eexists. split; [reflexivity|]. done.
  - cbn [length replicate steps step]. unfold stop_step at 1. rewrite Hf. cbv beta iota.
    set (s1 := set_frames _ _).
    destruct (IH s1 eq_refl) as (s' & Hs & H1 & H2 & H3 & H4 & H5). exists s'.
    split; [exact Hs|]. rewrite H1, H2, H3, H4, H5. unfold s1, close_socket. by destruct (conns s !! id).
Qed.

(** Two states that the main thread cannot tell apart. *)
Definition same_main (s s' : forwarder) : Prop :=
  frames s' = frames s /\ stops s' = stops s /\ serve s' = serve s /\ stopping s' = stopping s.

(** A handler that has the lock releases it within two steps of its own. *)
Lemma handler_releases s :
  holder s -> lock s <> Some OMain ->
  exists es s', steps es s = Some s' /\ Forall (fun e => exists id, e = Handle id) es /\
    lock s' = None /\ same_main s s' /\ (length es <= 2)%nat.
Proof.
  intros Hh Hl. destruct (lock s) as [[|id]|] eqn:El; [done| |exists [], s; split_and!; [done|done|done|done|cbn; lia]].
  destruct (Hh id El) as (c & Hc & Hp).
  assert (Hone : forall s c, conns s !! id = Some c -> co_phase c = Adding \/ co_phase c = Dropping ->
    exists s', step (Handle id) s = Some s' /\ lock s' = None /\ same_main s s').
  { intros s0 c0 Hc0 [Hp0|Hp0]; cbn; rewrite Hc0; unfold handle_step; rewrite Hp0; by eexists. }
  destruct (co_phase c) eqn:Ep; try discriminate Hp.
  - destruct (stopping s) eqn:Es.
    + exists [Handle id]. cbn. rewrite Hc. unfold handle_step. rewrite Ep, Es. eexists.
      split; [reflexivity|]. split_and!; [by repeat econstructor|done|done|lia].
    + set (s1 := set_conn id (set_phase Adding c) s).
      destruct (Hone s1 (set_phase Adding c)) as (s' & Hs & Hn & Hm); [apply lookup_insert_eq|by left|].
      exists [Handle id; Handle id], s'. split.
      { cbn [steps]. assert (step (Handle id) s = Some s1) as ->; [|by rewrite Hs].
        cbn. rewrite Hc. unfold handle_step. by rewrite Ep, Es. }
      split_and!; [by repeat econstructor|done|exact Hm|cbn; lia].
  - destruct (Hone s c Hc) as (s' & Hs & Hn & Hm); [by left|]. exists [Handle id], s'.
    cbn [steps]. rewrite Hs. split_and!; [done|by repeat econstructor|done|done|cbn; lia].
  - destruct (Hone s c Hc) as (s' & Hs & Hn & Hm); [by right|]. exists [Handle id], s'.
    cbn [steps]. rewrite Hs. split_and!; [done|by repeat econstructor|done|done|cbn; lia].
Qed.

(** Steps that need nothing from outside: no client, no data and no signal. *)
Definition internal (e : event) : Prop :=
  e = Stop \/ e = LoopEnds \/ e = Leave \/ exists id, e = Handle id.

Lemma stop_completes s fr :
  inv s -> holder s -> lock s <> Some OMain -> frames s = StopFlag :: fr ->
  exists es s', steps es s = Some s' /\ Forall internal es /\
    frames s' = fr /\ stops s' = S (stops s) /\ serve s' = serve s /\ stopping s' = true.
Proof.
  intros Hinv Hh Hl Hf.
  set (s2 := set_frames (StopLock :: fr) (set_listening false (set_frames (StopListener :: fr) (set_stopping s)))).
  assert (H2 : steps [Stop; Stop] s = Some s2).
  { cbn [steps step]. unfold stop_step at 1. by rewrite Hf. }
  destruct (handler_releases s2) as (es & s3 & H3 & Hes & Hn & (Hf3 & Hs3 & Hv3 & Hst3) & _);
    [by eapply holder_same|done|].
  destruct (close_all (snapshot (set_lock (Some OMain) s3)) fr
    (set_frames (StopClose (snapshot (set_lock (Some OMain) s3)) :: fr)
       (set_lock None (set_frames (StopSnapshot :: fr) (set_lock (Some OMain) s3)))))
    as (s6 & H6 & Hf6 & Hs6 & Hv6 & Hst6 & _); [done|].
  exists ([Stop; Stop] ++ es ++ [Stop; Stop] ++ replicate (S (length (snapshot (set_lock (Some OMain) s3)))) Stop), s6.
  split_and!.
  - rewrite (steps_app _ _ _ _ H2), (steps_app _ _ _ _ H3), <- H6. cbn [app steps step].
    unfold stop_step at 1. rewrite Hf3. cbn [frames s2 set_frames set_main]. rewrite Hn.
    rewrite bool_decide_eq_true_2 by done. done.
  - rewrite !Forall_app. split_and!.
    + by repeat constructor.
    + eapply Forall_impl; [exact Hes|]. intros e He. by do 3 right.
    + by repeat constructor.
    + apply Forall_replicate. by left.
  - done.
  - by rewrite Hs6; cbn; rewrite Hs3.
  - by rewrite Hv6; cbn; rewrite Hv3.
  - by rewrite Hst6; cbn; rewrite Hst3.
Qed.

Lemma no_call_no_lock s : inv s -> frames s = [] -> lock s <> Some OMain.
Proof. intros [[Hl _] _] Hf Hlock. rewrite Hf, Hlock in Hl. by rewrite bool_decide_eq_true_2 in Hl. Qed.

Lemma steps_holder es s s' : holder s -> steps es s = Some s' -> holder s'.
Proof.
  revert s. induction es as [|e es IH]; intros s Hi H; cbn in H; [by apply (inj Some) in H as <-|].
  destruct (step e s) as [s1|] eqn:E; [|done]. apply (IH s1); [by eapply step_holder|done].
Qed.

(** C8: While the main thread serves, one signal is enough: without any event from
    outside the threads can take the forwarder to its exit, with the sockets of every
    registered connection closed. *)
Theorem shutdown_possible s :
  reachable s -> serving s = true ->
  exists es s', steps (Signal :: es) s = Some s' /\ Forall internal es /\ serve s' = Exited /\
    forall id c, conns s' !! id = Some c -> relaying (co_phase c) = true -> closed c.
Proof.
  intros Hr Hserving. pose proof (reachable_inv s Hr) as Hinv. pose proof (reachable_holder s Hr) as Hh.
  unfold serving in Hserving. apply andb_true_iff in Hserving as [Hv Hf]. apply bool_decide_eq_true in Hv.
  destruct (frames s) eqn:Ef; [clear Hf|discriminate Hf].
  set (s1 := set_frames [StopFlag] s).
  assert (H1 : step Signal s = Some s1) by (cbn; unfold alive; by rewrite Hv, Ef).
  assert (Hi1 : inv s1) by by eapply step_inv.
  destruct (stop_completes s1 []) as (es2 & s2 & H2 & He2 & Hf2 & Hn2 & Hv2 & Hst2);
    [done|by eapply step_holder|exact (no_call_no_lock s Hinv Ef)|done|].
  assert (Hi2 : inv s2) by by eapply steps_inv.
  set (s3 := set_main Leaving [StopFlag] s2).
  assert (H3 : step LoopEnds s2 = Some s3).
  { cbn. unfold serving. rewrite Hf2, Hv2, Hst2. cbn. by rewrite Hv. }
  assert (Hi3 : inv s3) by by eapply step_inv.
  destruct (stop_completes s3 []) as (es4 & s4 & H4 & He4 & Hf4 & Hn4 & Hv4 & Hst4); [done| | |done|].
  { eapply step_holder; [|exact H3]. eapply steps_holder; [|exact H2]. by eapply step_holder. }
  { exact (no_call_no_lock s2 Hi2 Hf2). }
  exists (es2 ++ [LoopEnds] ++ es4 ++ [Leave]), (set_main Exited [] s4). split_and!.
  - cbn [steps]. rewrite H1, (steps_app _ _ _ _ H2). cbn [app steps]. rewrite H3, (steps_app _ _ _ _ H4).
    cbn. by rewrite Hv4, Hf4.
  - rewrite !Forall_app. split_and!; [done|by constructor; [right; left|]|done|].
    constructor; [by do 2 right; left|done].
  - done.
  - intros id c Hl. apply (stopped_closed s4 id c); [by eapply steps_inv|by rewrite Hn4|done].
Qed.

(** ** A second signal *)

(** The main thread has the lock, and the innermost call of [stop] still has to take it. *)
Definition self_locked (s : forwarder) : Prop :=
  lock s = Some OMain /\ exists f fr, frames s = f :: fr /\ f ∈ [StopFlag; StopListener; StopLock].

Lemma self_locked_step e s s' :
  inv s -> self_locked s -> step e s = Some s' -> self_locked s' /\ serve s' = serve s.
Proof.
  intros Hinv [Hl (f & fr & Hf & Hin)] H.
  assert (Hserving : serving s = false) by (unfold serving; by rewrite Hf, andb_false_r).
  assert (Hserve : forall e, serve_step e s = Some s' -> False).
  { intros e' He. destruct e'; try discriminate He; cbn in He; rewrite ?Hserving, ?Hf in He;
      try discriminate He; by destruct (serve s). }
  destruct e as [ok|id| | | | | |id ok|id|id first|id from pe]; try (by destruct (Hserve _ H)); cbn in H.
  - destruct (alive s); [|discriminate H]. apply (inj Some) in H as <-. split; [|done].
    split; [done|]. exists StopFlag, (frames s). split; [done|by left].
  - unfold stop_step in H. rewrite Hf in H. rewrite !elem_of_cons, elem_of_nil in Hin.
    destruct Hin as [->|[->|[->|[]]]].
    + apply (inj Some) in H as <-. split; [|done]. split; [done|]. exists StopListener, fr. split; [done|right; by left].
    + apply (inj Some) in H as <-. split; [|done]. split; [done|]. exists StopLock, fr. split; [done|by do 2 right; left].
    + rewrite Hl in H. by rewrite bool_decide_eq_false_2 in H.
  - destruct (conns s !! id) as [c|] eqn:Ec; [|discriminate H]. case_match; [|discriminate H].
    apply (inj Some) in H as <-. split; [|done]. split; [done|]. by exists f, fr.
  - destruct (conns s !! id) as [c|] eqn:Ec; [|discriminate H].
    pose proof (ci_lock _ _ _ (proj2 Hinv id c Ec)) as Hlock. unfold handle_step in H. rewrite Hl in H, Hlock.
    rewrite bool_decide_eq_false_2 in H by done.
    destruct (co_phase c) eqn:Ep; try discriminate H; try (by specialize (Hlock eq_refl));
      repeat case_match; try discriminate H; apply (inj Some) in H as <-; split; try done; (split; [done|]; by exists f, fr).
  - destruct (conns s !! id) as [c|] eqn:Ec; [|discriminate H]. case_match; [|discriminate H].
    apply (inj Some) in H as <-. split; [|done]. split; [done|]. by exists f, fr.
  - destruct (conns s !! id) as [c|] eqn:Ec; [|discriminate H]. case_match; [|discriminate H].
    apply (inj Some) in H as <-. split; [|done]. split; [done|]. by exists f, fr.
Qed.

(** A signal that arrives while [stop] has the lock: the call on top waits for a lock
    that its own thread has, whatever happens afterwards. *)
Theorem second_signal_deadlocks :
  exists s, reachable s /\ frames s = [StopFlag; StopSnapshot] /\
    forall es s', steps es s = Some s' -> serve s' = Serving /\ lock s' = Some OMain.
Proof.
  set (s := Forwarder true false (Some OMain) ∅ ∅ Serving [StopFlag; StopSnapshot] 0).
  assert (Hr : reachable s).
  { apply (reachable_step (Forwarder true false (Some OMain) ∅ ∅ Serving [StopSnapshot] 0) Signal); [|done].
    apply (reachable_step (Forwarder true false None ∅ ∅ Serving [StopLock] 0) Stop); [|done].
    apply (reachable_step (Forwarder true true None ∅ ∅ Serving [StopListener] 0) Stop); [|done].
    apply (reachable_step (Forwarder false true None ∅ ∅ Serving [StopFlag] 0) Stop); [|done].
    apply (reachable_step (Forwarder false true None ∅ ∅ Serving [] 0) Signal); [|done].
    apply (reachable_step initial (Bind true)); [constructor|done]. }
  exists s. split_and!; [done|done|]. intros es.
  assert (Hself : self_locked s /\ serve s = Serving).
  { split; [|done]. split; [done|]. exists StopFlag, [StopSnapshot]. split; [done|by left]. }
  pose proof (reachable_inv s Hr) as Hinv. clear Hr. revert Hinv Hself. generalize s. clear s.
  induction es as [|e es IH]; intros s Hinv [Hself Hv] s' H; cbn in H.
  - apply (inj Some) in H as <-. by destruct Hself.
  - destruct (step e s) as [s1|] eqn:E; [|done].
    destruct (self_locked_step e s s1 Hinv Hself E) as [Hself1 Hv1].
    apply (IH s1); [by eapply step_inv|split; congruence|done].
Qed.

(** ** A sample run *)

Lemma steps_reachable es s s' : reachable s -> steps es s = Some s' -> reachable s'.
Proof.
  revert s. induction es as [|e es IH]; intros s Hr H; cbn in H; [by apply (inj Some) in H as <-|].
  destruct (step e s) as [s1|] eqn:E; [|done]. apply (IH s1); [by eapply reachable_step|done].
Qed.

Module ForwardSample.
(** A connection that has relayed three bytes and is sending two more. *)
Definition relay : list event :=
  [Bind true; Accept 0; Connect 0 true; Handle 0; Handle 0; Handle 0; Handle 0;
   Pumps 0 Client Check; Pumps 0 Client (Recv (bs "abc")); Pumps 0 Client Sent;
   Pumps 0 Client Check; Pumps 0 Client (Recv (bs "de"))].
(** Then a signal, and the whole of [stop]. *)
Definition stopped : list event := relay ++ Signal :: replicate 7 Stop.

Definition state_after (es : list event) : forwarder :=
  match steps es initial with Some s => s | None => initial end.
Definition conn_of (s : forwarder) : conn :=
  match conns s !! 0%nat with Some c => c | None => Conn Ended false false new_pump new_pump end.

Lemma relay_reachable : reachable (state_after relay).
Proof. apply (steps_reachable relay initial); [constructor|vm_compute; reflexivity]. Qed.

Lemma stopped_reachable : reachable (state_after stopped).
Proof. apply (steps_reachable stopped initial); [constructor|vm_compute; reflexivity]. Qed.
End ForwardSample.

Import ForwardSample.

Lemma relay_faithful_witness :
  received (upward (conn_of (state_after relay))) = bs "abcde" /\
  delivered (upward (conn_of (state_after relay))) = bs "abc" /\
  exists rest, received (pump_from Client (conn_of (state_after relay))) =
               delivered (pump_from Client (conn_of (state_after relay))) ++ rest.
Proof.
  split; [vm_compute; reflexivity|]. split; [vm_compute; reflexivity|].
  destruct (relay_faithful (state_after relay) 0%nat (conn_of (state_after relay)) Client relay_reachable)
    as (rest & Hrest & _); [vm_compute; reflexivity|].
  exists rest. exact Hrest.
Defined.

Lemma stop_silences_witness :
  stops (state_after stopped) = 1%nat /\
  exists s', step (Pumps 0 Client SendFails) (state_after stopped) = Some s' /\
    silent (state_after stopped) s'.
Proof.
  split; [vm_compute; reflexivity|].
  destruct (step (Pumps 0 Client SendFails) (state_after stopped)) as [s'|] eqn:E.
  - exists s'. split; [reflexivity|].
    refine (proj2 (proj2 (stop_silences _ _ _ stopped_reachable _ E))). vm_compute. discriminate.
  - exfalso. revert E. vm_compute. discriminate.
Defined.

Lemma shutdown_possible_witness :
  serving (state_after relay) = true /\
  exists es s', steps (Signal :: es) (state_after relay) = Some s' /\ serve s' = Exited.
Proof.
  assert (Hs : serving (state_after relay) = true) by (vm_compute; reflexivity).
  split; [exact Hs|].
  destruct (shutdown_possible (state_after relay) relay_reachable Hs) as (es & s' & H1 & _ & H2 & _).
  exists es, s'. split; [exact H1|exact H2].
Defined.
