(* ===== verification/RsaJwk.v ===== *)
(** The export of an RSA key as a JWK, [src/scripts/export-rsa-jwk.py]: the DER
    reader, the members of the key, and the two files that are written.  The
    [openssl] commands are an interface. *)
From S2P Require Export LocalFiles.

Local Open Scope Z_scope.

(** ** Big-endian integers *)

(** [int.from_bytes(b, "big")] *)
Definition from_bytes (b : bytes) : Z := fold_left (fun acc x => acc * 256 + Z_of_byte x) b 0.

(** [value.bit_length()] *)
Definition bit_length (v : Z) : Z := if v =? 0 then 0 else Z.log2 v + 1.

(** ** DER *)

(** [data[offset]] *)
Definition byte_at (data : bytes) (offset : nat) : res Z :=
  match data !! offset with
  | Some b => Ok (Z_of_byte b)
  | None => raise IndexError "index out of range"
  end.

(** [data[start:end]] for [start <= end] *)
Definition slice (data : bytes) (start stop : nat) : bytes := take (stop - start) (drop start data).

(** [read_length(data, offset)] *)
Definition read_length (data : bytes) (offset : nat) : res (nat * nat) :=
  let* first := byte_at data offset in
  let offset := S offset in
  if first <? 128 then Ok (Z.to_nat first, offset)
  else
    let count := Z.land first 127 in
    if (count =? 0) || (4 <? count) then raise ValueError "unsupported DER length"
    else
      let stop := (offset + Z.to_nat count)%nat in
      Ok (Z.to_nat (from_bytes (slice data offset stop)), stop).

(** [read_value(data, offset, expected_tag)] *)
Definition read_value (data : bytes) (offset : nat) (expected_tag : Z) : res (bytes * nat) :=
  let unexpected :=
    Err (Exn ValueError (u"unexpected DER tag at offset " ++ dec_of_Z (Z.of_nat offset))) in
  match data !! offset with
  | None => unexpected
  | Some tag =>
      if negb (Z_of_byte tag =? expected_tag) then unexpected
      else
        let* (length_, start) := read_length data (S offset) in
        let stop := (start + length_)%nat in
        if (length data <? stop)%nat then raise ValueError "truncated DER value"
        else Ok (slice data start stop, stop)
  end.

(** The loop over the integers of a sequence. *)
Fixpoint read_integers (fuel : nat) (sequence : bytes) (offset : nat) (values : list Z) : res (list Z) :=
  if (offset <? length sequence)%nat then
    match fuel with
    | O => Err (Exn OutOfFuel [])
    | S fuel' =>
        let* (encoded, offset) := read_value sequence offset 2 in
        read_integers fuel' sequence offset (values ++ [from_bytes encoded])
    end
  else Ok values.

(** The rest of [read_rsa_private_key], on the output of [openssl]. *)
Definition parse_rsa_private_key (stdout : bytes) : res (list Z) :=
  let* (sequence, stop) := read_value stdout 0 48 in
  if negb (stop =? length stdout)%nat then raise ValueError "unexpected trailing DER data"
  else
    let* values := read_integers (length sequence) sequence 0 [] in
    match values with
    | version :: rest =>
        if negb (length values =? 9)%nat || negb ((version =? 0) || (version =? 1))
        then raise ValueError "unsupported RSA private key"
        else Ok rest
    | [] => raise ValueError "unsupported RSA private key"
    end.

(** ** The key *)

(** [base64url_uint(value)]; [to_bytes] refuses negative integers, which
    [from_bytes] does not give. *)
Definition uint_bytes (value : Z) : bytes :=
  bytes_be (Z.to_nat (Z.max 1 ((bit_length value + 7) / 8))) value.
Definition base64url_uint (value : Z) : pystr := b64url_nopad (uint_bytes value).

(** The outputs of [openssl rsa ... -outform DER] and
    [openssl pkey ... -pubout -outform DER] for a file, or the error of [subprocess.run]. *)
Class OpenSSLKeys := {
  openssl_rsa : pystr -> res bytes;
  openssl_pubout : pystr -> res bytes
}.

Section export.
Context `{OpenSSLKeys}.

Definition read_rsa_private_key (path : pystr) : res (list Z) :=
  let* stdout := openssl_rsa path in parse_rsa_private_key stdout.

Definition keycloak_key_id (path : pystr) : res pystr :=
  let* stdout := openssl_pubout path in Ok (b64url_nopad (sha256 stdout)).

(** The names of the integers, in the order of the sequence. *)
Definition JWK_INTEGERS : list pystr := map u ["n"; "e"; "d"; "p"; "q"; "dp"; "dq"; "qi"]%string.

Definition jwk_of (kid : pystr) (values : list Z) : pydict :=
  [(u"kty", jstr "RSA"); (u"kid", VStr kid); (u"use", jstr "sig"); (u"alg", jstr "PS256")]
  ++ zip JWK_INTEGERS (map (fun v => VStr (base64url_uint v)) values).

Definition compact_opts : dump_opts := {| sort_keys := false; allow_nan := true |}.

Definition jwk_text (d : pydict) (name : string) : pystr :=
  match dict_get d (u name) with VStr s => s | _ => [] end.

(** The contents of the JWK file and of the environment file. *)
Definition export (private_key : pystr) : res (pystr * pystr) :=
  let* values := read_rsa_private_key private_key in
  let* kid := keycloak_key_id private_key in
  let jwk := jwk_of kid values in
  let* compact := dumps compact_opts (VDict jwk) in
  Ok (compact ++ [10],
      u"DECK_ROUTE_B_JWK_KID=" ++ jwk_text jwk "kid" ++ [10] ++
      u"DECK_ROUTE_B_JWK_N=" ++ jwk_text jwk "n" ++ [10] ++
      u"DECK_ROUTE_B_JWK_E=" ++ jwk_text jwk "e" ++ [10] ++
      u"ROUTE_B_JWK='" ++ compact ++ u"'" ++ [10]).
End export.

(** ** The DER reader is exact *)

(** The octets of a length: the short form, or the long form of one to four octets. *)
Definition length_form (form : bytes) (n : nat) : Prop :=
  exists b l, form = b :: l /\
    (l = [] /\ Z_of_byte b < 128 /\ Z.of_nat n = Z_of_byte b \/
     (1 <= length l <= 4)%nat /\ Z_of_byte b = 128 + Z.of_nat (length l) /\ Z.of_nat n = from_bytes l).

(** The encoding of a value: tag, length and content. *)
Definition der (tag : Z) (content enc : bytes) : Prop :=
  exists t form, Z_of_byte t = tag /\ length_form form (length content) /\ enc = t :: form ++ content.

Lemma from_bytes_app a b : from_bytes (a ++ b) = fold_left (fun acc x => acc * 256 + Z_of_byte x) b (from_bytes a).
Proof. unfold from_bytes. by rewrite fold_left_app. Qed.

Lemma from_bytes_snoc a x : from_bytes (a ++ [x]) = from_bytes a * 256 + Z_of_byte x.
Proof. by rewrite from_bytes_app. Qed.

Lemma from_bytes_nonneg b : 0 <= from_bytes b.
Proof.
  induction b as [|x b IH] using rev_ind; [done|]. rewrite from_bytes_snoc.
  pose proof (Z_of_byte_range x). lia.
Qed.

Lemma drop_split {A} (data : list A) offset x rest :
  drop offset data = x :: rest <-> data !! offset = Some x /\ drop (S offset) data = rest.
Proof.
  revert offset. induction data as [|y data IH]; intros [|offset]; cbn; split; try done.
  - by intros [? ?].
  - by intros [? ?].
  - intros [= -> ->]. by rewrite drop_0.
  - intros [[= ->] <-]. by rewrite drop_0.
  - by apply IH.
  - by apply IH.
Qed.

Lemma byte_land_127 z : 128 <= z < 256 -> Z.land z 127 = z - 128.
Proof.
  intros Hz. change 127 with (Z.ones 7). rewrite Z.land_ones by lia. zdm.
Qed.

Lemma slice_app data start (content rest : bytes) :
  drop start data = content ++ rest -> slice data start (start + length content) = content.
Proof. intros H. unfold slice. rewrite H. by rewrite Nat.add_comm, Nat.add_sub, take_app_length. Qed.

Lemma drop_shorter {A} (data a b : list A) offset :
  drop offset data = a ++ b -> drop (offset + length a) data = b.
Proof. intros H. by rewrite <- drop_drop, H, drop_app_length. Qed.

(** Reading a length gives the number that its octets stand for; when the data end
    within the octets, what is read ends beyond the data. *)
Lemma read_length_spec data offset n stop :
  read_length data offset = Ok (n, stop) ->
  (length data < stop)%nat \/
  exists form, length_form form n /\ drop offset data = form ++ drop stop data /\
               stop = (offset + length form)%nat.
Proof.
  unfold read_length, byte_at. destruct (data !! offset) as [b|] eqn:Hb; [|discriminate]. cbn.
  pose proof (Z_of_byte_range b) as Hr. destruct (Z_of_byte b <? 128) eqn:Es.
  - intros [= <- <-]%Ok_inj. right. exists [b]. apply Z.ltb_lt in Es. split_and!.
    + exists b, []. split; [done|]. left. split_and!; [done|done|lia].
    + apply drop_split. done.
    + cbn. lia.
  - apply Z.ltb_ge in Es. rewrite byte_land_127 by lia. set (count := Z_of_byte b - 128).
    destruct ((count =? 0) || (4 <? count)) eqn:Ec; [discriminate|]. intros [= Hn Hstop]%Ok_inj.
    apply orb_false_iff in Ec as [Ec1 Ec2]. rewrite Z.eqb_neq in Ec1. rewrite Z.ltb_ge in Ec2.
    destruct (decide (length data < stop)%nat) as [|Hle]; [by left|]. right.
    set (l := slice data (S offset) (S offset + Z.to_nat count)).
    assert (Hl : length l = Z.to_nat count).
    { unfold l, slice. rewrite length_take, length_drop. lia. }
    exists (b :: l). split_and!.
    + exists b, l. split; [done|]. right. split_and!; [lia|lia|lia|]. rewrite <- Hn. fold l.
      rewrite Z2Nat.id; [done|apply from_bytes_nonneg].
    + rewrite <- app_comm_cons. apply drop_split. split; [done|]. rewrite <- Hstop. unfold l, slice.
      replace (S (offset + Z.to_nat count)) with (S offset + Z.to_nat count)%nat by lia.
      rewrite <- drop_drop. replace (S offset + Z.to_nat count - S offset)%nat with (Z.to_nat count) by lia.
      by rewrite take_drop.
    + change (length (b :: l)) with (S (length l)). rewrite Hl. lia.
Qed.

(** Conversely, the octets of a length are read as its number. *)
Lemma read_length_form data offset form n rest :
  length_form form n -> drop offset data = form ++ rest ->
  read_length data offset = Ok (n, (offset + length form)%nat).
Proof.
  intros (b & l & -> & Hform) Hd. cbn in Hd. apply drop_split in Hd as [Hb Hd].
  unfold read_length, byte_at. rewrite Hb. cbv beta iota zeta. destruct Hform as [(-> & Hlt & Hn)|(Hlen & Hb2 & Hn)].
  - rewrite (proj2 (Z.ltb_lt _ _) Hlt), <- Hn, Nat2Z.id. cbn [length]. by rewrite Nat.add_1_r.
  - rewrite (proj2 (Z.ltb_ge _ 128)) by lia. rewrite byte_land_127 by lia.
    replace (Z_of_byte b - 128) with (Z.of_nat (length l)) by lia.
    rewrite (proj2 (Z.eqb_neq _ 0)), (proj2 (Z.ltb_ge 4 _)) by lia. cbn [orb].
    rewrite Nat2Z.id, (slice_app data (S offset) l rest Hd), <- Hn, Nat2Z.id. cbn [length]. do 2 f_equal. lia.
Qed.

(** [read_value] accepts exactly the encodings with the tag. *)
Lemma read_value_exact data offset tag content stop :
  read_value data offset tag = Ok (content, stop) <->
  exists enc, der tag content enc /\ drop offset data = enc ++ drop stop data /\
              stop = (offset + length enc)%nat /\ (stop <= length data)%nat.
Proof.
  unfold read_value. split.
  - destruct (data !! offset) as [t|] eqn:Ht; [|discriminate].
    destruct (Z_of_byte t =? tag) eqn:Etag; [|discriminate]. apply Z.eqb_eq in Etag. cbn [negb].
    destruct (read_length data (S offset)) as [[n start]|] eqn:El; [|discriminate]. cbv beta iota.
    destruct (length data <? start + n)%nat eqn:Ee; [discriminate|]. apply Nat.ltb_ge in Ee.
    intros [Hc Hs]%Ok_inj%pair_equal_spec. apply read_length_spec in El as [|(form & Hform & Hd & ->)]; [lia|].
    assert (Hlen : length content = n).
    { rewrite <- Hc. unfold slice. rewrite length_take, length_drop. lia. }
    exists (t :: form ++ content). split_and!; [| | |lia].
    + exists t, form. by rewrite Hlen.
    + rewrite <- app_comm_cons. apply drop_split. split; [done|]. rewrite Hd, <- app_assoc. f_equal.
      rewrite <- Hs, <- (drop_drop data n (S offset + length form)), <- Hc. unfold slice.
      replace (S offset + length form + n - (S offset + length form))%nat with n by lia. by rewrite take_drop.
    + cbn. rewrite length_app. lia.
  - intros (enc & (t & form & Htag & Hform & ->) & Hd & -> & Hle).
    rewrite <- app_comm_cons in Hd. apply drop_split in Hd as [Ht Hd]. rewrite Ht, Htag, Z.eqb_refl. cbn [negb].
    rewrite <- app_assoc in Hd. rewrite (read_length_form _ _ form (length content) _ Hform Hd). cbv beta iota.
    cbn [length] in Hle. rewrite length_app in Hle.
    rewrite (proj2 (Nat.ltb_ge _ _)) by lia.
    rewrite (slice_app data _ content _ (drop_shorter _ _ _ _ Hd)). cbn [length].
    rewrite length_app. do 2 f_equal. lia.
Qed.

Lemma der_nonempty tag content enc : der tag content enc -> (0 < length enc)%nat.
Proof. intros (t & form & _ & _ & ->). cbn. lia. Qed.

(** The loop reads exactly the sequences of encoded integers, and never runs out
    of fuel. *)
Lemma read_integers_exact fuel sequence offset values result :
  (length sequence - offset <= fuel)%nat -> (offset <= length sequence)%nat ->
  read_integers fuel sequence offset values = Ok result <->
  exists contents encs, Forall2 (der 2) contents encs /\ drop offset sequence = concat encs /\
    result = values ++ map from_bytes contents.
Proof.
  revert offset values. induction fuel as [|fuel IH]; intros offset values Hfuel Hle; cbn [read_integers].
  - rewrite (proj2 (Nat.ltb_ge _ _)) by lia. rewrite drop_ge by lia. split.
    + intros <-%Ok_inj. exists [], []. by rewrite app_nil_r.
    + intros (contents & encs & Hall & Hd & ->). destruct Hall as [|c e cs es Hc _]; [by rewrite app_nil_r|].
      apply der_nonempty in Hc. destruct e; [cbn in Hc; lia|discriminate Hd].
  - destruct (offset <? length sequence)%nat eqn:Eo.
    2:{ apply Nat.ltb_ge in Eo. rewrite drop_ge by lia. split.
        - intros <-%Ok_inj. exists [], []. by rewrite app_nil_r.
        - intros (contents & encs & Hall & Hd & ->). destruct Hall as [|c e cs es Hc _]; [by rewrite app_nil_r|].
          apply der_nonempty in Hc. destruct e; [cbn in Hc; lia|discriminate Hd]. }
    apply Nat.ltb_lt in Eo. split.
    + destruct (read_value sequence offset 2) as [[content stop]|] eqn:Ev; [|discriminate]. cbn.
      apply read_value_exact in Ev as (enc & Henc & Hd & -> & Hs). pose proof (der_nonempty _ _ _ Henc).
      intros (contents & encs & Hall & Hd' & ->)%IH; [|lia|lia].
      exists (content :: contents), (enc :: encs). split_and!; [by constructor| |].
      * cbn. by rewrite Hd, Hd'.
      * cbn. by rewrite <- app_assoc.
    + intros (contents & encs & Hall & Hd & ->). destruct Hall as [|c e cs es Hc Hall].
      { apply (f_equal length) in Hd. rewrite length_drop in Hd. cbn in Hd. lia. }
      cbn in Hd. pose proof (der_nonempty _ _ _ Hc). pose proof (drop_shorter _ _ _ _ Hd) as Hd'.
      assert (Hlen : (offset + length e <= length sequence)%nat).
      { apply (f_equal length) in Hd. rewrite length_drop, length_app in Hd. lia. }
      assert (Hv : read_value sequence offset 2 = Ok (c, (offset + length e)%nat)).
      { apply read_value_exact. exists e. split_and!; [done|by rewrite Hd'|done|done]. }
      rewrite Hv. cbn. apply IH; [lia|lia|]. exists cs, es. split_and!; [done|done|].
      cbn. by rewrite <- app_assoc.
Qed.

(** C31: The key reader accepts exactly the outputs that are one DER sequence of nine
    integers with version zero or one, in every form of the lengths of at most four
    octets, with nothing after it; and it gives the other eight integers. *)
Theorem parse_rsa_private_key_exact stdout values :
  parse_rsa_private_key stdout = Ok values <->
  exists contents encs version,
    der 48 (concat encs) stdout /\ Forall2 (der 2) contents encs /\ length contents = 9%nat /\
    map from_bytes contents = version :: values /\ (version = 0 \/ version = 1).
Proof.
  unfold parse_rsa_private_key. split.
  - destruct (read_value stdout 0 48) as [[sequence stop]|] eqn:Ev; [|discriminate]. cbn.
    apply read_value_exact in Ev as (enc & Henc & Hd & -> & _). rewrite drop_0 in Hd. cbn [Nat.add].
    destruct (length enc =? length stdout)%nat eqn:El; [|discriminate]. apply Nat.eqb_eq in El. cbn [negb].
    destruct (read_integers _ sequence 0 []) as [vs|] eqn:Ei; [|discriminate]. cbn.
    apply read_integers_exact in Ei as (contents & encs & Hall & Hseq & ->); [|lia|lia].
    rewrite drop_0 in Hseq. subst sequence. cbn [app].
    destruct (map from_bytes contents) as [|version rest] eqn:Em; [discriminate|].
    destruct (length (version :: rest) =? 9)%nat eqn:E9; [|discriminate]. apply Nat.eqb_eq in E9.
    destruct ((version =? 0) || (version =? 1)) eqn:Ev; [|discriminate]. intros [= <-]%Ok_inj.
    exists contents, encs, version. split_and!; [|done| |done|].
    + change (0 + length enc)%nat with (length enc) in Hd. rewrite El, drop_all, app_nil_r in Hd. by rewrite Hd.
    + by rewrite <- (length_map from_bytes), Em.
    + apply orb_true_iff in Ev as [?%Z.eqb_eq|?%Z.eqb_eq]; auto.
  - intros (contents & encs & version & Hder & Hall & H9 & Hm & Hv).
    assert (Hread : read_value stdout 0 48 = Ok (concat encs, length stdout)).
    { apply read_value_exact. exists stdout. by rewrite drop_all, app_nil_r, drop_0. }
    rewrite Hread. cbn. rewrite Nat.eqb_refl. cbn [negb].
    assert (Hints : read_integers (length (concat encs)) (concat encs) 0 [] = Ok (version :: values)).
    { apply read_integers_exact; [lia|lia|]. exists contents, encs. by rewrite drop_0. }
    rewrite Hints. cbn [length]. rewrite <- (length_map from_bytes), Hm in H9. cbn in H9. rewrite H9.
    destruct Hv as [-> | ->]; done.
Qed.

(** ** Integers of the key *)

Lemma from_bytes_be n x : 0 <= x -> from_bytes (bytes_be n x) = x mod 256 ^ Z.of_nat n.
Proof.
  revert x. induction n as [|n IH]; intros x Hx; cbn [bytes_be].
  - cbn. by rewrite Z.mod_1_r.
  - rewrite from_bytes_snoc, IH by zdm. rewrite Z_of_byte_of_Z by zdm.
    rewrite Nat2Z.inj_succ, Z.pow_succ_r by lia.
    rewrite (Z.rem_mul_r x 256) by lia. lia.
Qed.

(** The number of octets that [base64url_uint] writes. *)
Definition uint_size (v : Z) : Z := Z.max 1 ((bit_length v + 7) / 8).

Lemma uint_size_bounds v : 0 <= v ->
  v < 256 ^ uint_size v /\ (uint_size v = 1 \/ 256 ^ (uint_size v - 1) <= v).
Proof.
  intros Hv. unfold uint_size, bit_length. destruct (v =? 0) eqn:E.
  - apply Z.eqb_eq in E as ->. split; [done|by left].
  - apply Z.eqb_neq in E. pose proof (Z.log2_spec v) as [Hlo Hhi]; [lia|]. pose proof (Z.log2_nonneg v).
    set (l := Z.log2 v) in *. set (k := (l + 1 + 7) / 8).
    assert (Hk : 8 * k - 8 <= l < 8 * k) by (unfold k; zdm).
    assert (H1 : 1 <= k) by lia. rewrite Z.max_r by lia.
    change 256 with (2 ^ 8). rewrite <- !Z.pow_mul_r by lia. split.
    + eapply Z.lt_le_trans; [exact Hhi|]. apply Z.pow_le_mono_r; lia.
    + right. etransitivity; [|exact Hlo]. apply Z.pow_le_mono_r; lia.
Qed.

(** What is written for an integer of the key stands for it, in as few octets as
    possible. *)
Lemma uint_bytes_exact v : 0 <= v ->
  from_bytes (uint_bytes v) = v /\
  (length (uint_bytes v) = 1%nat \/ 256 ^ (Z.of_nat (length (uint_bytes v)) - 1) <= v).
Proof.
  intros Hv. destruct (uint_size_bounds v Hv) as [Hhi Hlo]. unfold uint_bytes. fold (uint_size v).
  rewrite bytes_be_length, from_bytes_be by done. rewrite Z2Nat.id by (unfold uint_size; lia).
  split; [by apply Z.mod_small|]. destruct Hlo as [->|Hlo]; [by left|by right].
Qed.

Lemma base64url_uint_inj v w : 0 <= v -> 0 <= w -> base64url_uint v = base64url_uint w -> v = w.
Proof.
  intros Hv Hw H%b64url_nopad_inj. rewrite <- (proj1 (uint_bytes_exact v Hv)), H. by apply uint_bytes_exact.
Qed.

(** ** The two files *)

(** Visible ASCII characters other than the single quote. *)
Definition is_visible (c : Z) : bool := (33 <=? c) && (c <=? 126) && negb (c =? 39).
Definition visible (s : pystr) : Prop := Forall (fun c => is_visible c = true) s.
Definition b64_text (s : pystr) : Prop := Forall (fun c => is_b64url c = true) s.

Lemma is_b64url_range c : is_b64url c = true ->
  48 <= c <= 57 \/ 65 <= c <= 90 \/ 97 <= c <= 122 \/ c = 95 \/ c = 45.
Proof.
  unfold is_b64url, is_alnum, is_digit, is_upper, is_lower.
  rewrite !orb_true_iff, !andb_true_iff, !Z.leb_le, !Z.eqb_eq. lia.
Qed.

Lemma is_visible_range c : is_visible c = true <-> 33 <= c <= 126 /\ c <> 39.
Proof. unfold is_visible. rewrite !andb_true_iff, negb_true_iff, !Z.leb_le, Z.eqb_neq. lia. Qed.

Lemma b64_visible s : b64_text s -> visible s.
Proof.
  intros H. eapply Forall_impl; [exact H|]. intros c Hc%is_b64url_range. apply is_visible_range. lia.
Qed.

Lemma json_str_b64 s : b64_text s -> json_str s = 34 :: s ++ [34].
Proof.
  intros H. unfold json_str. cbn [app]. f_equal. f_equal.
  induction H as [|c s Hc _ IH]; [done|]. cbn [map concat]. rewrite IH. apply is_b64url_range in Hc.
  assert (json_char c = [c]) as ->; [|done]. unfold json_char.
  repeat match goal with |- context [c =? ?k] => rewrite (proj2 (Z.eqb_neq c k)) by lia end.
  by rewrite (proj2 (Z.leb_le 32 c)), (proj2 (Z.leb_le c 126)) by lia.
Qed.

Lemma join_visible sep parts : visible sep -> Forall visible parts -> visible (Json.join sep parts).
Proof.
  intros Hs. induction 1 as [|p ps Hp Hps IH]; [constructor|].
  destruct ps; [done|]. apply Forall_app. split; [done|]. by apply Forall_app.
Qed.

(** A dictionary of such texts is written in visible characters. *)
Lemma dumps_texts (d : list (pystr * pystr)) :
  Forall (fun kv => b64_text (fst kv) /\ b64_text (snd kv)) d ->
  exists body, visible body /\
    dumps compact_opts (VDict (map (fun kv => (fst kv, VStr (snd kv))) d)) = Ok (u"{" ++ body ++ u"}").
Proof.
  intros Hd. rewrite dumps_dict.
  assert (Hm : mapM_res (dump_member compact_opts) (map (fun kv => (fst kv, VStr (snd kv))) d)
               = Ok (map (fun kv => (fst kv, json_str (snd kv))) d)).
  { clear Hd. induction d as [|[k v] d IH]; [done|]. cbn [map mapM_res]. by rewrite IH. }
  rewrite Hm. eexists. split; [|reflexivity]. cbn [sort_keys compact_opts].
  apply join_visible; [by repeat constructor|]. rewrite map_map. apply Forall_map.
  eapply Forall_impl; [exact Hd|]. intros [k v] [Hk Hv]. unfold member_text. cbn [fst snd] in *.
  rewrite !json_str_b64 by done. apply b64_visible in Hk, Hv.
  repeat first [apply Forall_app; split | constructor | done].
Qed.

Lemma b64url_nopad_text b : b64_text (b64url_nopad b).
Proof. rewrite b64url_nopad_raw. eapply Forall_impl; [apply b64url_raw_class|]. by intros c []. Qed.

(** The members of a JWK as texts. *)
Definition jwk_texts (kid : pystr) (values : list Z) : list (pystr * pystr) :=
  [(u"kty", u"RSA"); (u"kid", kid); (u"use", u"sig"); (u"alg", u"PS256")]
  ++ zip JWK_INTEGERS (map base64url_uint values).

Lemma jwk_of_texts kid values :
  jwk_of kid values = map (fun kv => (fst kv, VStr (snd kv))) (jwk_texts kid values).
Proof.
  unfold jwk_of, jwk_texts. rewrite map_app. f_equal. generalize JWK_INTEGERS as ns.
  induction values as [|v vs IH]; intros [|n ns]; cbn; [done..|]. by rewrite IH.
Qed.

Lemma jwk_texts_b64 kid values : b64_text kid ->
  Forall (fun kv => b64_text (fst kv) /\ b64_text (snd kv)) (jwk_texts kid values).
Proof.
  intros Hk. unfold jwk_texts. apply Forall_app. split.
  - repeat constructor; done.
  - assert (Hn : Forall b64_text JWK_INTEGERS) by (repeat constructor; done).
    revert values. induction Hn as [|n ns Hn _ IH]; intros [|v vs]; cbn; constructor; [|apply IH].
    split; [done|apply b64url_nopad_text].
Qed.

(** ** Reading the environment file back *)

(** Characters of the lines that are written: visible ones and single quotes. *)
Definition in_line (c : Z) : Prop := 33 <= c <= 126.

Lemma in_line_break c : in_line c -> is_line_break c = false.
Proof.
  unfold in_line. intros Hc. unfold is_line_break.
  rewrite !orb_false_iff, !andb_false_iff, !Z.leb_gt, !Z.eqb_neq. lia.
Qed.

Lemma in_line_space c : in_line c -> py_isspace c = false.
Proof.
  unfold in_line. intros Hc. unfold py_isspace.
  rewrite !orb_false_iff, !andb_false_iff, !Z.leb_gt, !Z.eqb_neq. lia.
Qed.

Lemma in_line_strip s : Forall in_line s -> py_strip s = s.
Proof. intros H. apply strip_while_id. eapply Forall_impl; [exact H|]. apply in_line_space. Qed.

Lemma visible_in_line s : visible s -> Forall in_line s.
Proof. intros H. eapply Forall_impl; [exact H|]. intros c Hc%is_visible_range. unfold in_line. lia. Qed.

(** One line of the file. *)
Lemma config_line_assign key value :
  Forall in_line key -> Forall in_line value -> 61 ∉ key ->
  match key with c :: _ => c <> 35 | [] => False end ->
  config_line (key ++ 61 :: value) = Some (key, config_value value).
Proof.
  intros Hk Hv He H0. unfold config_line.
  rewrite in_line_strip by (apply Forall_app; split; [done|constructor; [unfold in_line; lia|done]]).
  rewrite partition_on_app by done. destruct key as [|c key]; [done|]. cbn [app].
  by rewrite (proj2 (Z.eqb_neq c 35)).
Qed.

Lemma config_value_plain value : visible value -> Forall (fun c => c <> 34) value -> config_value value = value.
Proof.
  intros Hv Hq. unfold config_value. rewrite in_line_strip by by apply visible_in_line.
  apply strip_while_id. apply Forall_forall. intros c Hc.
  unfold visible in Hv. rewrite Forall_forall in Hv, Hq. specialize (Hv c Hc). specialize (Hq c Hc). apply is_visible_range in Hv.
  unfold is_quote. rewrite orb_false_iff, !Z.eqb_neq. lia.
Qed.

Lemma strip_while_around (f : Z -> bool) q c m e :
  f q = true -> f c = false -> f e = false ->
  strip_while f (q :: (c :: m ++ [e]) ++ [q]) = c :: m ++ [e].
Proof.
  intros Hq Hc He. unfold strip_while. cbn [lstrip_while app]. rewrite Hq, Hc. unfold rstrip_while.
  replace (rev (c :: (m ++ [e]) ++ [q])) with (q :: e :: rev (c :: m)).
  - cbn [lstrip_while]. rewrite Hq, He. change (e :: rev (c :: m)) with ([e] ++ rev (c :: m)).
    rewrite rev_app_distr, rev_involutive. done.
  - rewrite app_comm_cons, rev_app_distr. cbn [rev app]. by rewrite rev_app_distr.
Qed.

Lemma config_value_quoted body :
  visible body -> config_value (39 :: (123 :: body ++ [125]) ++ [39]) = 123 :: body ++ [125].
Proof.
  intros Hb. unfold config_value. rewrite in_line_strip; [by apply strip_while_around|].
  apply visible_in_line in Hb. unfold in_line in *.
  repeat first [apply Forall_app; split | constructor | done | lia].
Qed.

Lemma b64_config_value s : b64_text s -> config_value s = s.
Proof.
  intros H. apply config_value_plain; [by apply b64_visible|].
  eapply Forall_impl; [exact H|]. intros c Hc%is_b64url_range. lia.
Qed.

Lemma parse_values_nonneg stdout values :
  parse_rsa_private_key stdout = Ok values -> length values = 8%nat /\ Forall (fun v => 0 <= v) values.
Proof.
  unfold parse_rsa_private_key. destruct (read_value stdout 0 48) as [[sequence stop]|]; [|discriminate].
  cbv beta iota. destruct (negb _); [discriminate|].
  destruct (read_integers _ sequence 0 []) as [vs|] eqn:Ei; [|discriminate]. cbv beta iota.
  apply read_integers_exact in Ei as (contents & encs & _ & _ & ->); [|lia|lia]. cbn [app].
  destruct contents as [|c cs]; [discriminate|]. cbn [map].
  destruct (length (from_bytes c :: map from_bytes cs) =? 9)%nat eqn:E9; [|discriminate].
  apply Nat.eqb_eq in E9. cbn [negb orb]. destruct (negb _); [discriminate|]. intros <-%Ok_inj.
  split; [by injection E9|]. apply Forall_map, Forall_true. intros x. apply from_bytes_nonneg.
Qed.

(** The lines of a file with names and texts. *)
Definition env_text (l : list (pystr * pystr)) : pystr :=
  concat (map (fun kv => fst kv ++ 61 :: snd kv ++ [10]) l).

Lemma env_text_lines (l : list (pystr * pystr)) :
  Forall (fun kv => Forall in_line (fst kv ++ 61 :: snd kv)) l ->
  splitlines (env_text l) = map (fun kv => fst kv ++ 61 :: snd kv) l.
Proof.
  unfold env_text. induction 1 as [|[k v] l Hkv _ IH]; [done|]. cbn [map concat fst snd] in *.
  rewrite <- app_assoc, <- app_comm_cons, <- app_assoc. change ([10] ++ ?x) with (10 :: x).
  rewrite app_comm_cons, app_assoc, splitlines_line; [by rewrite IH|].
  eapply Forall_impl; [exact Hkv|]. apply in_line_break.
Qed.

Lemma is_env_name_chars key : is_env_name key = true ->
  key <> [] /\ Forall (fun c => in_line c /\ c <> 61 /\ c <> 35) key.
Proof.
  assert (Hc : forall c, is_name_start c || is_digit c = true -> in_line c /\ c <> 61 /\ c <> 35).
  { intros c. unfold is_name_start, is_upper, is_lower, is_digit, in_line.
    rewrite !orb_true_iff, !andb_true_iff, !Z.leb_le, !Z.eqb_eq. lia. }
  destruct key as [|c r]; [done|]. cbn [is_env_name]. intros [H1 H2]%andb_true_iff. split; [done|].
  constructor; [by apply Hc; rewrite H1|]. apply forallb_Forall in H2. eapply Forall_impl; [exact H2|]. exact Hc.
Qed.

Lemma config_line_env key value :
  is_env_name key = true -> Forall in_line value ->
  config_line (key ++ 61 :: value) = Some (key, config_value value).
Proof.
  intros [Hne Hk]%is_env_name_chars Hv. apply config_line_assign; [|done| |].
  - eapply Forall_impl; [exact Hk|]. by intros c [].
  - intros Hin. rewrite Forall_forall in Hk. by apply Hk in Hin as (_ & ? & _).
  - destruct Hk as [|c r (_ & _ & ?)]; done.
Qed.

(** A file of distinct names is read as its names and texts, without quotes. *)
Lemma read_env_text (l : list (pystr * pystr)) :
  Forall (fun kv => is_env_name (fst kv) = true /\ Forall in_line (snd kv)) l -> NoDup l.*1 ->
  read_values is_env_name (splitlines (env_text l)) = map (fun kv => (fst kv, config_value (snd kv))) l.
Proof.
  intros Hl Hnd. rewrite env_text_lines.
  2:{ eapply Forall_impl; [exact Hl|]. intros [k v] [[_ Hk]%is_env_name_chars Hv]. cbn [fst snd] in *.
      apply Forall_app. split; [eapply Forall_impl; [exact Hk|]; by intros c []|].
      constructor; [unfold in_line; lia|done]. }
  unfold read_values.
  enough (H : forall values, NoDup (values.*1 ++ l.*1) ->
    fold_left (fun values line => match config_line line with
      | Some (key, value) => if is_env_name key then ainsert key value values else values
      | None => values end) (map (fun kv => fst kv ++ 61 :: snd kv) l) values =
    values ++ map (fun kv => (fst kv, config_value (snd kv))) l) by by apply (H []).
  clear Hnd. induction Hl as [|[k v] l [Hk Hv] _ IH]; intros values Hnd; [by rewrite app_nil_r|].
  cbn [map fold_left fst snd] in *. rewrite config_line_env, Hk by done.
  rewrite ainsert_new; [rewrite IH, <- app_assoc; [done|]|].
  - rewrite fmap_app, <- app_assoc. exact Hnd.
  - apply NoDup_app in Hnd as (_ & Hnd & _). intros Hin. apply (Hnd k Hin). by left.
Qed.

(** The JWK is a dictionary that survives writing and reading. *)
Lemma str_ok_b64 s : b64_text s -> str_ok s = true.
Proof.
  intros H. apply str_ok_ascii. eapply Forall_impl; [exact H|]. intros c Hc%is_b64url_range.
  unfold is_ascii. apply andb_true_iff. rewrite Z.leb_le, Z.ltb_lt. lia.
Qed.

Lemma texts_ok (d : list (pystr * pystr)) :
  NoDup d.*1 -> Forall (fun kv => b64_text (fst kv) /\ b64_text (snd kv)) d ->
  json_ok (VDict (map (fun kv => (fst kv, VStr (snd kv))) d)) = true.
Proof.
  intros Hnd Hd. cbn [json_ok]. apply andb_true_iff. split.
  - apply negb_true_iff, has_dup_false.
    rewrite <- (list_fmap_compose (fun kv => (fst kv, VStr (snd kv))) fst). exact Hnd.
  - apply forallb_Forall, Forall_map. eapply Forall_impl; [exact Hd|]. intros [k v] [Hk Hv]. cbn [fst snd json_ok] in *.
    by rewrite !str_ok_b64.
Qed.

Lemma texts_nesting (d : list (pystr * pystr)) :
  nesting (VDict (map (fun kv => (fst kv, VStr (snd kv))) d)) = 1%nat.
Proof. cbn [nesting]. f_equal. induction d as [|kv d IH]; [done|]. cbn [map foldr snd nesting]. by rewrite IH. Qed.

Lemma texts_norm (d : list (pystr * pystr)) :
  json_norm compact_opts (VDict (map (fun kv => (fst kv, VStr (snd kv))) d)) =
  VDict (map (fun kv => (fst kv, VStr (snd kv))) d).
Proof. cbn [json_norm sort_keys compact_opts]. f_equal. by rewrite map_map. Qed.

Lemma jwk_texts_keys kid values : length values = 8%nat ->
  (jwk_texts kid values).*1 = map u ["kty"; "kid"; "use"; "alg"; "n"; "e"; "d"; "p"; "q"; "dp"; "dq"; "qi"]%string.
Proof. intros H8. do 9 (destruct values as [|? values]; try done). Qed.

Lemma jwk_text_ne kid values name :
  length values = 8%nat -> name = "n"%string \/ name = "e"%string ->
  b64_text (jwk_text (jwk_of kid values) name).
Proof.
  intros H8 Hname. do 9 (destruct values as [|? values]; try done).
  destruct Hname as [-> | ->]; apply b64url_nopad_text.
Qed.

Lemma jwk_text_kid kid values : jwk_text (jwk_of kid values) "kid" = kid.
Proof. done. Qed.

Lemma jwk_read kid values compact depth :
  b64_text kid -> length values = 8%nat -> (1 <= depth)%nat ->
  dumps compact_opts (VDict (jwk_of kid values)) = Ok compact ->
  loads_plain depth (compact ++ [10]) = Ok (VDict (jwk_of kid values)).
Proof.
  intros Hkid H8 Hd Hdump. rewrite jwk_of_texts in Hdump |- *.
  transitivity (Ok (json_norm compact_opts (VDict (map (fun kv => (fst kv, VStr (snd kv))) (jwk_texts kid values)))));
    [|by rewrite texts_norm].
  unfold loads_plain. eapply loads_dumps_blank; try done.
  - intros d Hnd. apply plain_pairs_nodup. exact Hnd.
  - apply texts_ok; [|by apply jwk_texts_b64]. rewrite jwk_texts_keys by done.
    apply has_dup_false. vm_compute. done.
  - by rewrite texts_nesting.
Qed.

(** The four lines of the environment file. *)
Lemma env_file_read kid n e body :
  b64_text kid -> b64_text n -> b64_text e -> visible body ->
  read_values is_env_name (splitlines (
    u"DECK_ROUTE_B_JWK_KID=" ++ kid ++ [10] ++ u"DECK_ROUTE_B_JWK_N=" ++ n ++ [10] ++
    u"DECK_ROUTE_B_JWK_E=" ++ e ++ [10] ++ u"ROUTE_B_JWK='" ++ (u"{" ++ body ++ u"}") ++ u"'" ++ [10])) =
  [(u"DECK_ROUTE_B_JWK_KID", kid); (u"DECK_ROUTE_B_JWK_N", n); (u"DECK_ROUTE_B_JWK_E", e);
   (u"ROUTE_B_JWK", u"{" ++ body ++ u"}")].
Proof.
  intros Hk Hn He Hb.
  set (l := [(u"DECK_ROUTE_B_JWK_KID", kid); (u"DECK_ROUTE_B_JWK_N", n); (u"DECK_ROUTE_B_JWK_E", e);
    (u"ROUTE_B_JWK", 39 :: (123 :: body ++ [125]) ++ [39])]).
  transitivity (read_values is_env_name (splitlines (env_text l))).
  { f_equal. f_equal. unfold l, env_text. cbn [map concat fst snd].
    change (u"DECK_ROUTE_B_JWK_KID=") with (u"DECK_ROUTE_B_JWK_KID" ++ [61]).
    change (u"DECK_ROUTE_B_JWK_N=") with (u"DECK_ROUTE_B_JWK_N" ++ [61]).
    change (u"DECK_ROUTE_B_JWK_E=") with (u"DECK_ROUTE_B_JWK_E" ++ [61]).
    change (u"ROUTE_B_JWK='") with (u"ROUTE_B_JWK" ++ [61; 39]). change (u"{") with [123].
    change (u"}") with [125]. change (u"'") with [39].
    repeat rewrite <- ?app_assoc, <- ?app_comm_cons, ?app_nil_l. done. }
  assert (Hval : forall v, b64_text v -> Forall in_line v) by (intros v ?; by apply visible_in_line, b64_visible).
  rewrite read_env_text; unfold l.
  - cbn [map fst snd]. rewrite config_value_quoted by done. by rewrite !b64_config_value by done.
  - repeat apply Forall_cons_2; [| | | |constructor]; (split; [done|]); cbn [snd]; [by apply Hval..|].
    apply visible_in_line in Hb.
    repeat first [apply Forall_app; split | constructor | done | unfold in_line; lia].
  - apply has_dup_false. vm_compute. done.
Qed.

(** The parts of a successful export. *)
Lemma export_ok `{OpenSSLKeys} path jwk_file env_file :
  export path = Ok (jwk_file, env_file) ->
  exists stdout values kid body,
    (openssl_rsa path = Ok stdout /\ parse_rsa_private_key stdout = Ok values /\ keycloak_key_id path = Ok kid) /\
    (b64_text kid /\ kid <> [] /\ length values = 8%nat /\ Forall (fun v => 0 <= v) values /\ visible body) /\
    dumps compact_opts (VDict (jwk_of kid values)) = Ok (u"{" ++ body ++ u"}") /\
    jwk_file = (u"{" ++ body ++ u"}") ++ [10] /\
    read_values is_env_name (splitlines env_file) =
      [(u"DECK_ROUTE_B_JWK_KID", kid); (u"DECK_ROUTE_B_JWK_N", jwk_text (jwk_of kid values) "n");
       (u"DECK_ROUTE_B_JWK_E", jwk_text (jwk_of kid values) "e"); (u"ROUTE_B_JWK", u"{" ++ body ++ u"}")].
Proof.
  intros He. unfold export, read_rsa_private_key in He.
  destruct (openssl_rsa path) as [stdout|] eqn:Eo; [|discriminate]. cbv beta iota in He.
  destruct (parse_rsa_private_key stdout) as [values|] eqn:Ep; [|discriminate]. cbv beta iota in He.
  destruct (keycloak_key_id path) as [kid|] eqn:Ek; [|discriminate]. cbv beta iota zeta in He.
  assert (Hkid : b64_text kid /\ kid <> []).
  { unfold keycloak_key_id in Ek. destruct (openssl_pubout path) as [key|]; [|discriminate].
    apply Ok_inj in Ek as <-. split; [apply b64url_nopad_text|]. intros Hn%(f_equal length).
    rewrite b64url_nopad_raw, b64url_raw_length, sha256_length in Hn. discriminate Hn. }
  destruct Hkid as [Hkid Hne]. destruct (parse_values_nonneg _ _ Ep) as [H8 Hnn].
  destruct (dumps_texts (jwk_texts kid values)) as (body & Hbody & Hdump); [by apply jwk_texts_b64|].
  rewrite <- jwk_of_texts in Hdump. rewrite Hdump in He. cbv beta iota in He.
  apply Ok_inj, pair_equal_spec in He as [<- <-].
  exists stdout, values, kid, body. split_and!; try done. rewrite jwk_text_kid. apply env_file_read; [done| | |done].
  - by apply jwk_text_ne; [|left].
  - by apply jwk_text_ne; [|right].
Qed.


(** ** A key of nine small integers *)

#[local] Instance small_keys : OpenSSLKeys := {|
  openssl_rsa _ := Ok (map byte_of_Z
    [48; 29; 2; 1; 0; 2; 2; 12; 161; 2; 1; 17; 2; 2; 10; 193; 2; 1; 61; 2; 1; 53; 2; 1; 53; 2; 1; 49; 2; 1; 38]);
  openssl_pubout _ := Ok (map byte_of_Z [48; 0])
|}.

