(* ===== verification/Readiness.v ===== *)
(** Readiness and TLS set-up of the third-party backend,
    [src/third-party-backend/app.py]: the files of the identities, the TLS
    contexts, the digest of the public configuration, the readiness socket and
    its probe.  Loading certificates and keys into OpenSSL is an interface; the
    request handler is in [Backend]. *)
From S2P Require Export Backend LocalFiles.

Local Open Scope Z_scope.

(** ** PEM files: [ssl.PEM_cert_to_DER_cert] *)

Definition b64_value (c : Z) : option Z :=
  if is_upper c then Some (c - 65)
  else if is_lower c then Some (c - 71)
  else if is_digit c then Some (c + 4)
  else if c =? 43 then Some 62
  else if c =? 47 then Some 63
  else None.

(** [base64.decodebytes(s)]: characters outside the alphabet are skipped; [quad] is
    the position in the current group of four, [left] its pending bits and [pads]
    the number of padding characters just read. *)
Fixpoint b64_decode (s : pystr) (quad left pads : Z) : res bytes :=
  match s with
  | [] => if quad =? 0 then Ok [] else raise ValueError "Incorrect padding"
  | c :: r =>
      if c =? 61
      then
        if 2 <=? quad
        then if 4 <=? quad + pads + 1 then Ok [] else b64_decode r quad left (pads + 1)
        else b64_decode r quad left pads
      else
        match b64_value c with
        | None => b64_decode r quad left pads
        | Some v =>
            if quad =? 0 then b64_decode r 1 v 0
            else if quad =? 1 then
              let* out := b64_decode r 2 (v mod 16) 0 in Ok (byte_of_Z (left * 4 + v / 16) :: out)
            else if quad =? 2 then
              let* out := b64_decode r 3 (v mod 4) 0 in Ok (byte_of_Z (left * 16 + v / 4) :: out)
            else
              let* out := b64_decode r 0 0 0 in Ok (byte_of_Z (left * 64 + v) :: out)
        end
  end.

Definition PEM_HEADER : pystr := u"-----BEGIN CERTIFICATE-----".
Definition PEM_FOOTER : pystr := u"-----END CERTIFICATE-----".

Definition PEM_cert_to_DER_cert (pem : pystr) : res bytes :=
  if negb (starts_with PEM_HEADER pem)
  then raise ValueError "Invalid PEM encoding; must start with -----BEGIN CERTIFICATE-----"
  else
    let s := py_strip pem in
    if negb (ends_with PEM_FOOTER s)
    then raise ValueError "Invalid PEM encoding; must end with -----END CERTIFICATE-----"
    else b64_decode (drop (length PEM_HEADER) (take (length s - length PEM_FOOTER) s)) 0 0 0.

(** [Path(path).read_text(encoding="ascii")] *)
Definition read_ascii (fs : fsys) (path : pystr) : res pystr :=
  match node_at fs path with
  | None => raise FileNotFoundError "No such file or directory"
  | Some (FFile _ content) =>
      if unreadable fs path then raise OSError "Permission denied"
      else if forallb (fun b => Z_of_byte b <? 128) content
      then Ok (universal_newlines (ascii_decode content))
      else raise UnicodeError "'ascii' codec can't decode bytes"
  | Some _ => raise OSError "Is a directory"
  end.

Definition read_certificate (fs : fsys) (path : pystr) : res bytes :=
  let* pem := read_ascii fs path in PEM_cert_to_DER_cert pem.

(** ** TLS contexts *)

Record TLSFiles := TLSFilesOf {
  ca : pystr; certificate : pystr; key : pystr; gateway_pin : pystr;
  route_a_certificate : pystr; route_a_key : pystr;
  route_b_certificate : pystr; route_b_key : pystr
}.

(** [os.environ.get("BACKEND_TLS_" + name.upper(), default)] for every field. *)
Definition from_environment (environ : list (pystr * pystr)) : TLSFiles :=
  let get name default :=
    match alookup (u"BACKEND_TLS_" ++ u name) environ with Some v => v | None => u default end in
  TLSFilesOf (get "CA" "/etc/fapi/ca.crt")%string (get "CERTIFICATE" "/etc/fapi/tls.crt")%string
    (get "KEY" "/etc/fapi/tls.key")%string (get "GATEWAY_PIN" "/etc/fapi/third-party-backend-hop.crt")%string
    (get "ROUTE_A_CERTIFICATE" "/etc/fapi/route-a.crt")%string (get "ROUTE_A_KEY" "/etc/fapi/route-a.key")%string
    (get "ROUTE_B_CERTIFICATE" "/etc/fapi/route-b.crt")%string (get "ROUTE_B_KEY" "/etc/fapi/route-b.key")%string.

Inductive purpose := CLIENT_AUTH | SERVER_AUTH.

(** An [ssl.SSLContext]: what it is for, whose certificates it trusts, whether the
    peer must show a certificate, the strict flag, the least version and the own
    certificate with its key. *)
Record tls_context := TLSContext {
  ctx_purpose : purpose; ctx_ca : pystr; ctx_cert_required : bool; ctx_strict : bool;
  ctx_minimum_version : Z; ctx_chain : option (pystr * pystr)
}.

Definition TLSv1_2 : Z := 771.

(** What loading trusted certificates, and a certificate with its key, answers for
    the files as they are. *)
Class TLSLoader := {
  load_verify_locations : fsys -> pystr -> res unit;
  load_cert_chain : fsys -> pystr -> pystr -> res unit
}.

(** Both raise [OSError], [ssl.SSLError] among them, or [ValueError]. *)
Definition loader_exn {A} (m : res A) : Prop :=
  forall e, m = Err e -> existsb (is_a (exn_cls e)) [OSError; ValueError] = true.
Class TLSLoaderLaws `(TLSLoader) : Prop := {
  load_verify_exn : forall fs path, loader_exn (load_verify_locations fs path);
  load_chain_exn : forall fs certificate key, loader_exn (load_cert_chain fs certificate key)
}.

Section contexts.
Context `{TLSLoader}.

(** [ssl.create_default_context] requires a peer certificate of servers only. *)
Definition verified_context (fs : fsys) (p : purpose) (ca : pystr) : res tls_context :=
  let* _ := load_verify_locations fs ca in
  Ok (TLSContext p ca (match p with SERVER_AUTH => true | CLIENT_AUTH => false end) false TLSv1_2 None).

Definition with_chain (fs : fsys) (c : tls_context) (certificate key : pystr) : res tls_context :=
  let* _ := load_cert_chain fs certificate key in
  Ok (TLSContext (ctx_purpose c) (ctx_ca c) (ctx_cert_required c) (ctx_strict c)
        (ctx_minimum_version c) (Some (certificate, key))).

Definition require_certificate (c : tls_context) : tls_context :=
  TLSContext (ctx_purpose c) (ctx_ca c) true (ctx_strict c) (ctx_minimum_version c) (ctx_chain c).

Definition outbound_context (fs : fsys) (files : TLSFiles) (route : pystr * (pystr * pystr))
    : res (pystr * tls_context) :=
  let '(name, (certificate, key)) := route in
  let* context := verified_context fs SERVER_AUTH (ca files) in
  let* context := with_chain fs context certificate key in
  Ok (name, context).

(** The own certificate of each route. *)
Definition route_chains (files : TLSFiles) : list (pystr * (pystr * pystr)) :=
  [(u"route-a", (route_a_certificate files, route_a_key files));
   (u"route-b", (route_b_certificate files, route_b_key files))].

Definition create_contexts (fs : fsys) (files : TLSFiles)
    : res (tls_context * list (pystr * tls_context) * bytes) :=
  let* inbound := verified_context fs CLIENT_AUTH (ca files) in
  let* inbound := with_chain fs (require_certificate inbound) (certificate files) (key files) in
  let* outbound := mapM_res (outbound_context fs files) (route_chains files) in
  let* pin := read_certificate fs (gateway_pin files) in
  match pin with
  | [] => raise ValueError "missing gateway certificate pin"
  | _ => Ok (inbound, outbound, pin)
  end.
End contexts.

(** ** The public configuration *)

(** The names and paths of the certificates, without the keys. *)
Definition public_files (files : TLSFiles) : list (pystr * pystr) :=
  [(u"ca", ca files); (u"certificate", certificate files); (u"gateway_pin", gateway_pin files);
   (u"route_a_certificate", route_a_certificate files); (u"route_b_certificate", route_b_certificate files)].

Definition public_digest (fs : fsys) (np : pystr * pystr) : res (pystr * pyval) :=
  let* der := read_certificate fs (snd np) in Ok (fst np, VStr (hexlify (sha256 der))).

Definition routes_val : pyval :=
  VDict (map (fun pi => (fst pi, VList [VStr (id_route (snd pi)); VStr (id_azp (snd pi)); VStr (id_auth (snd pi))]))
    ROUTES).

(** The same dump and digest as [canonical_sha256] of [LocalFiles]. *)
Definition public_config_hash (fs : fsys) (files : TLSFiles) : res pystr :=
  let* digests := mapM_res (public_digest fs) (public_files files) in
  canonical_sha256 (VDict (digests ++
    [(u"target", VList [VStr API_HOST; VInt API_PORT; VStr API_PATH]); (u"routes", routes_val)])).

(** ** The readiness server *)

(** [uuid.uuid4().hex] from the sixteen octets of [os.urandom]. *)
Definition uuid4_hex (random : bytes) : pystr :=
  let version := alter (fun b => byte_of_Z (Z.land (Z_of_byte b) 15 + 64)) 6%nat random in
  hexlify (alter (fun b => byte_of_Z (Z.land (Z_of_byte b) 63 + 128)) 8%nat version).

(** What [lstat] answers for the directory of the socket. *)
Record dir_info := DirInfo { info_is_dir : bool; info_mode : Z; info_uid : Z }.

Definition MODE_DIR : Z := 448. (* 0o700 *)

Record ready_server := ReadyServerOf { srv_files : TLSFiles; config_hash : pystr; generation : pystr }.

(** [ReadyServer(files, path)]; [bind] is the outcome of binding the socket and of
    its [chmod]. *)
Definition ReadyServer (fs : fsys) (files : TLSFiles) (info : res dir_info) (getuid : Z) (random : bytes)
    (bind : res unit) : res ready_server :=
  let* info := info in
  if negb (info_is_dir info) || negb (mode_bits (info_mode info) =? MODE_DIR) || negb (info_uid info =? getuid)
  then raise ValueError "unsafe readiness directory"
  else
    let* hash := public_config_hash fs files in
    let server := ReadyServerOf files hash (uuid4_hex random) in
    let* _ := bind in
    Ok server.

Definition READY_REQUEST : bytes := bs "READY" ++ [byte_of_Z 10].

Definition status_val (server : ready_server) (pid : Z) : pyval :=
  VDict [(u"schema_version", VInt 1); (u"ready", VBool true); (u"generation", VStr (generation server));
         (u"config_sha256", VStr (config_hash server)); (u"pid", VInt pid)].

Section handler.
Context `{TLSLoader}.

(** [ReadyHandler.handle]: the octets it sends, if any.  [received] is the outcome of
    [recv(16)] and [send] that of [sendall]. *)
Definition handle (server : ready_server) (fs : fsys) (pid : Z) (received : res bytes) (send : bytes -> res unit)
    : res (option bytes) :=
  catch
    (let* request := received in
     if negb (bool_decide (request = READY_REQUEST)) then Ok None
     else
       let* _ := create_contexts fs (srv_files server) in
       let* hash := public_config_hash fs (srv_files server) in
       if negb (bool_decide (hash = config_hash server)) then Ok None
       else
         let* text := dumps canonical_opts (status_val server pid) in
         match utf8_encode text with
         | None => raise UnicodeError "surrogates not allowed"
         | Some data =>
             let data := data ++ [byte_of_Z 10] in
             let* _ := send data in Ok (Some data)
         end)
    [OSError; ValueError] (fun _ => Ok None).
End handler.

(** ** Octets as JSON text: [json.loads] of a [bytearray] *)

Inductive encoding := UTF8 | UTF8_SIG | UTF16 (big : bool) | UTF16_BOM | UTF32 (big : bool) | UTF32_BOM.

Definition has_prefix (p : list Z) (b : bytes) : bool := starts_with p (ascii_decode b).

(** [json.detect_encoding(b)] *)
Definition detect_encoding (b : bytes) : encoding :=
  if has_prefix [0; 0; 254; 255] b || has_prefix [255; 254; 0; 0] b then UTF32_BOM
  else if has_prefix [254; 255] b || has_prefix [255; 254] b then UTF16_BOM
  else if has_prefix [239; 187; 191] b then UTF8_SIG
  else
    match map Z_of_byte b with
    | b0 :: b1 :: b2 :: b3 :: _ =>
        if b0 =? 0 then if b1 =? 0 then UTF32 true else UTF16 true
        else if b1 =? 0 then if (b2 =? 0) && (b3 =? 0) then UTF32 false else UTF16 false
        else UTF8
    | [b0; b1] => if b0 =? 0 then UTF16 true else if b1 =? 0 then UTF16 false else UTF8
    | _ => UTF8
    end.

(** The decoders with [errors="surrogatepass"]: lone surrogates are kept. *)
Fixpoint utf8_decode_pass (b : bytes) : option pystr :=
  match b with
  | [] => Some []
  | b0 :: r0 =>
      let z := Z_of_byte b0 in
      if z <? 128 then cons z <$> utf8_decode_pass r0
      else if z <? 194 then None
      else if z <? 224 then
        match r0 with
        | b1 :: r1 =>
            if is_cont b1 then cons ((z - 192) * 64 + low6 b1) <$> utf8_decode_pass r1 else None
        | _ => None
        end
      else if z <? 240 then
        match r0 with
        | b1 :: b2 :: r2 =>
            let c := (z - 224) * 4096 + low6 b1 * 64 + low6 b2 in
            if is_cont b1 && is_cont b2 && (2048 <=? c) then cons c <$> utf8_decode_pass r2 else None
        | _ => None
        end
      else if z <? 245 then
        match r0 with
        | b1 :: b2 :: b3 :: r3 =>
            let c := (z - 240) * 262144 + low6 b1 * 4096 + low6 b2 * 64 + low6 b3 in
            if is_cont b1 && is_cont b2 && is_cont b3 && (65536 <=? c) && (c <=? 1114111)
            then cons c <$> utf8_decode_pass r3 else None
        | _ => None
        end
      else None
  end.

Fixpoint utf16_units (big : bool) (b : bytes) : option (list Z) :=
  match b with
  | [] => Some []
  | b0 :: b1 :: r =>
      cons (if big then Z_of_byte b0 * 256 + Z_of_byte b1 else Z_of_byte b1 * 256 + Z_of_byte b0)
        <$> utf16_units big r
  | _ => None
  end.

Fixpoint join_units (us : list Z) : pystr :=
  match us with
  | h :: (l :: r) as us' =>
      if is_high h && is_low l then join_surrogates h l :: join_units r else h :: join_units us'
  | _ => us
  end.

Fixpoint utf32_decode (big : bool) (b : bytes) : option pystr :=
  match b with
  | [] => Some []
  | b0 :: b1 :: b2 :: b3 :: r =>
      let c := if big then ((Z_of_byte b0 * 256 + Z_of_byte b1) * 256 + Z_of_byte b2) * 256 + Z_of_byte b3
               else ((Z_of_byte b3 * 256 + Z_of_byte b2) * 256 + Z_of_byte b1) * 256 + Z_of_byte b0 in
      if c <=? 1114111 then cons c <$> utf32_decode big r else None
  | _ => None
  end.

Definition decode_as (e : encoding) (b : bytes) : option pystr :=
  match e with
  | UTF8 => utf8_decode_pass b
  | UTF8_SIG => utf8_decode_pass (drop 3 b)
  | UTF16 big => join_units <$> utf16_units big b
  | UTF16_BOM => join_units <$> utf16_units (has_prefix [254] b) (drop 2 b)
  | UTF32 big => utf32_decode big b
  | UTF32_BOM => utf32_decode (has_prefix [0] b) (drop 4 b)
  end.

(** [json.loads(b, object_pairs_hook=unique_object)] *)
Definition loads_bytes (depth : nat) (b : bytes) : res pyval :=
  match decode_as (detect_encoding b) b with
  | None => raise UnicodeError "can't decode bytes"
  | Some text => loads unique_object default_constant depth text
  end.

(** ** The probe *)

Definition is_hex_text (n : nat) (v : pyval) : bool :=
  match v with VStr s => (length s =? n)%nat && forallb is_hex_lower s | _ => false end.

Definition STATUS_FIELDS : list pystr :=
  map u ["schema_version"; "ready"; "generation"; "config_sha256"; "pid"]%string.

(** The names are checked first, so that no subscript fails; [type(x) is int] refuses
    booleans. *)
Definition validate_ready_status (value : pyval) : res pyval :=
  match value with
  | VDict d =>
      if negb (keys_are d STATUS_FIELDS) then raise ValueError "invalid readiness status"
      else if negb (match dict_get d (u"schema_version") with VInt version => version =? 1 | _ => false end)
              || negb (is_true (dict_get d (u"ready")))
              || negb (match dict_get d (u"pid") with VInt pid => 0 <? pid | _ => false end)
              || negb (is_hex_text 32 (dict_get d (u"generation")))
              || negb (is_hex_text 64 (dict_get d (u"config_sha256")))
      then raise ValueError "invalid readiness status"
      else Ok value
  | _ => raise ValueError "invalid readiness status"
  end.

Definition MAX_STATUS : nat := Z.to_nat 4096.

(** [connection.recv(n)] on the pieces that arrive, or the error that interrupts
    them; no piece stands for the end of the stream. *)
Definition recv (n : nat) (stream : list (res bytes)) : res (bytes * list (res bytes)) :=
  match stream with
  | [] => Ok ([], [])
  | Err e :: _ => Err e
  | Ok piece :: rest =>
      Ok (take n piece, match drop n piece with [] => rest | more => Ok more :: rest end)
  end.

(** The receiving loop; every turn but the last adds an octet. *)
Fixpoint receive (fuel : nat) (chunks : bytes) (stream : list (res bytes)) : res bytes :=
  if (length chunks <=? MAX_STATUS)%nat then
    match fuel with
    | O => Err (Exn OutOfFuel [])
    | S fuel' =>
        let* (chunk, stream) := recv (S MAX_STATUS - length chunks) stream in
        match chunk with
        | [] => Ok chunks
        | _ => receive fuel' (chunks ++ chunk) stream
        end
    end
  else Ok chunks.

(** The outcome of [check_ready]; [connect] is that of connecting and sending. *)
Definition check_ready (depth : nat) (connect : res unit) (stream : list (res bytes)) : res pyval :=
  let* _ := connect in
  let* chunks := receive (S (S MAX_STATUS)) [] stream in
  if (MAX_STATUS <? length chunks)%nat then raise ValueError "invalid readiness status"
  else let* value := loads_bytes depth chunks in validate_ready_status value.

(** [main] with [--check-ready]: the exit code and what is printed. *)
Definition check_ready_main (depth : nat) (connect : res unit) (stream : list (res bytes)) : res (Z * pystr) :=
  catch (let* value := check_ready depth connect stream in
         let* text := dumps canonical_opts value in Ok (0, text ++ [10]))
    [OSError; ValueError] (fun _ => Ok (1, [])).

(** ** The errors of the parts *)

Section context_lemmas.
Context `{TLSLoaderLaws}.

Lemma loader_ok {A} (a : A) : loader_exn (Ok a).
Proof. intros e. discriminate. Qed.

Lemma loader_raise {A} c msg : existsb (is_a c) [OSError; ValueError] = true -> @loader_exn A (raise c msg).
Proof. by intros Hc e [= <-]. Qed.

Lemma loader_bind {A B} (m : res A) (k : A -> res B) :
  loader_exn m -> (forall a, loader_exn (k a)) -> loader_exn (let* a := m in k a).
Proof. intros Hm Hk e. destruct m as [a|e']; [apply Hk|]. intros [= <-]. by apply Hm. Qed.

Lemma mapM_res_exn {A B} (f : A -> res B) l : (forall x, loader_exn (f x)) -> loader_exn (mapM_res f l).
Proof.
  intros Hf. induction l as [|x l IH]; cbn [mapM_res]; [apply loader_ok|].
  apply loader_bind; [done|]. intros y. apply loader_bind; [done|]. intros ys. apply loader_ok.
Qed.

Create HintDb loader.

Ltac loader :=
  repeat first
    [ apply loader_ok | by apply loader_raise | solve [auto with loader] | apply load_verify_exn | apply load_chain_exn
    | apply loader_bind; [|intros ?] | apply mapM_res_exn; intros ? | done
    | match goal with
      | |- loader_exn (if ?b then _ else _) => destruct b
      | |- loader_exn (match ?x with _ => _ end) => destruct x
      end ].

Lemma b64_decode_exn s quad left pads : loader_exn (b64_decode s quad left pads).
Proof. revert quad left pads. induction s as [|c s IH]; intros quad left pads; cbn [b64_decode]; loader. Qed.
#[local] Hint Resolve b64_decode_exn : loader.

Lemma read_certificate_exn fs path : loader_exn (read_certificate fs path).
Proof.
  unfold read_certificate, read_ascii, PEM_cert_to_DER_cert. loader.
Qed.
#[local] Hint Resolve read_certificate_exn : loader.

(** Creating the contexts and the digest fail only with errors the handler expects. *)
Lemma create_contexts_exn fs files : loader_exn (create_contexts fs files).
Proof.
  unfold create_contexts, outbound_context, verified_context, with_chain.
  loader.
Qed.

(** The digest of the public configuration is one of sixty-four hexadecimal digits. *)
Lemma public_config_hash_digest fs files :
  loader_exn (public_config_hash fs files) /\
  (forall hash, public_config_hash fs files = Ok hash -> is_digest hash = true).
Proof.
  unfold public_config_hash. destruct (mapM_res _ _) as [digests|e] eqn:E.
  - apply mapM_res_Ok in E. destruct (canonical_sha256_writable (VDict (digests ++
      [(u"target", VList [VStr API_HOST; VInt API_PORT; VStr API_PATH]); (u"routes", routes_val)])))
      as (hash & -> & Hd); [|split; [apply loader_ok|by intros ? <-%Ok_inj]].
    cbn [writable]. rewrite forallb_app. apply andb_true_iff. split; [|by vm_compute].
    apply forallb_Forall, Forall_forall. intros [n v] Hin.
    destruct (Forall2_in_r _ _ _ _ E Hin) as ([name path] & _ & Hd). unfold public_digest in Hd.
    destruct (read_certificate _ _); [|discriminate]. by apply Ok_inj, pair_equal_spec in Hd as [_ <-].
  - split; [|discriminate]. intros e' [= <-]. eapply mapM_res_exn; [|exact E]. intros np. unfold public_digest.
    apply loader_bind; [apply read_certificate_exn|intros der; apply loader_ok].
Qed.
End context_lemmas.

(** ** The probe *)

(** ASCII text that does not begin with a NUL is read as UTF-8. *)
Lemma decode_ascii a b r :
  ascii_text (a :: b :: r) -> a <> 0 -> b <> 0 ->
  let bytes := map byte_of_Z (a :: b :: r) in decode_as (detect_encoding bytes) bytes = Some (a :: b :: r).
Proof.
  cbv zeta.
  intros Ht Ha Hb. assert (Hr : Forall (fun c => 0 <= c < 128) (a :: b :: r)).
  { eapply Forall_impl; [exact Ht|]. intros c. unfold is_ascii. rewrite andb_true_iff, Z.leb_le, Z.ltb_lt. done. }
  assert (Hmap : forall t, Forall (fun c => 0 <= c < 128) t -> map Z_of_byte (map byte_of_Z t) = t).
  { intros t. induction 1 as [|c t Hc _ IH]; [done|]. cbn [map]. rewrite IH, Z_of_byte_of_Z; [done|lia]. }
  assert (Hp : forall c p, c <> a -> has_prefix (c :: p) (map byte_of_Z (a :: b :: r)) = false).
  { intros c p Hc. unfold has_prefix, ascii_decode. rewrite Hmap by done. cbn [starts_with].
    by rewrite bool_decide_false. }
  assert (0 <= a < 128) by (by inversion Hr).
  assert (detect_encoding (map byte_of_Z (a :: b :: r)) = UTF8) as ->.
  { unfold detect_encoding. rewrite !Hp by lia. cbn [orb]. rewrite Hmap by done.
    pose proof (proj2 (Z.eqb_neq a 0) Ha) as ->. pose proof (proj2 (Z.eqb_neq b 0) Hb) as ->.
    by destruct r as [|c [|d r]]. }
  cbn [decode_as]. assert (forall t, Forall (fun c => 0 <= c < 128) t ->
    utf8_decode_pass (map byte_of_Z t) = Some t) as Hall; [|by apply Hall].
  induction 1 as [|c t Hc _ IH]; [done|]. cbn [map utf8_decode_pass].
  rewrite Z_of_byte_of_Z by lia. by rewrite (proj2 (Z.ltb_lt c 128)), IH by lia.
Qed.

Lemma loads_bytes_ascii depth a b r :
  ascii_text (a :: b :: r) -> a <> 0 -> b <> 0 ->
  loads_bytes depth (map byte_of_Z (a :: b :: r)) = loads unique_object default_constant depth (a :: b :: r).
Proof. intros Ht Ha Hb. unfold loads_bytes. by rewrite (decode_ascii a b r Ht Ha Hb). Qed.

(** The stream of non-empty pieces, ended by the peer or interrupted by an error. *)
Definition stream_of (pieces : list bytes) (interrupted : option exn) : list (res bytes) :=
  map Ok pieces ++ match interrupted with Some e => [Err e] | None => [] end.

(** However the octets are cut into pieces, at most one octet more than the bound is
    received, and the bound on the number of turns is not reached. *)
Lemma receive_spec fuel chunks pieces interrupted :
  Forall (fun p => p <> []) pieces -> (length chunks <= S MAX_STATUS)%nat ->
  (S MAX_STATUS - length chunks < fuel)%nat ->
  receive fuel chunks (stream_of pieces interrupted) =
    if (length (chunks ++ concat pieces) <=? MAX_STATUS)%nat
    then match interrupted with Some e => Err e | None => Ok (chunks ++ concat pieces) end
    else Ok (take (S MAX_STATUS) (chunks ++ concat pieces)).
Proof.
  revert chunks pieces. induction fuel as [|fuel IH]; intros chunks pieces Hp Hc Hf; [lia|].
  cbn [receive]. destruct (length chunks <=? MAX_STATUS)%nat eqn:El.
  2:{ apply Nat.leb_gt in El. rewrite (proj2 (Nat.leb_gt _ _)) by (rewrite length_app; lia).
      f_equal. rewrite take_app_le by lia. by rewrite take_ge by lia. }
  apply Nat.leb_le in El. set (n := (S MAX_STATUS - length chunks)%nat). assert (Hn : (0 < n)%nat) by lia.
  destruct Hp as [|p ps Hne Hps].
  - cbn [concat]. rewrite app_nil_r, (proj2 (Nat.leb_le _ _)) by done. by destruct interrupted.
  - set (pieces' := match drop n p with [] => ps | more => more :: ps end).
    assert (recv n (stream_of (p :: ps) interrupted) = Ok (take n p, stream_of pieces' interrupted)) as ->.
    { unfold stream_of, pieces'. cbn [map app recv]. by destruct (drop n p). }
    assert (Ht : exists b r, take n p = b :: r).
    { destruct p as [|b p]; [done|]. destruct n; [lia|]. by eexists _, _. }
    cbv beta iota. assert (Hlen : length (take n p) = Nat.min n (length p)) by apply length_take.
    assert (Hcat : take n p ++ concat pieces' = concat (p :: ps)).
    { unfold pieces'. transitivity (concat ((take n p ++ drop n p) :: ps)); [|by rewrite take_drop].
      cbn [concat]. rewrite <- app_assoc. f_equal. by destruct (drop n p). }
    destruct Ht as (b & r & Ht). rewrite <- Hcat, app_assoc. rewrite Ht in *. cbn [length] in Hlen. apply IH.
    + unfold pieces'. destruct (drop n p); [done|by constructor].
    + rewrite length_app. cbn [length]. lia.
    + rewrite length_app. cbn [length]. lia.
Qed.

(** ** The status document *)

Lemma is_hex_lower_ascii s : forallb is_hex_lower s = true -> ascii_text s.
Proof.
  intros H%forallb_Forall. eapply Forall_impl; [exact H|]. intros c. unfold is_hex_lower, is_digit, is_ascii.
  rewrite orb_true_iff, !andb_true_iff, !Z.leb_le, Z.ltb_lt. lia.
Qed.

(** A server as it is created, and the process it runs in. *)
Definition server_ok (server : ready_server) : Prop :=
  is_hex_text 32 (VStr (generation server)) = true /\ is_digest (config_hash server) = true.
Definition pid_ok (pid : Z) : Prop := 0 < pid < 2 ^ 31.

(** The members of the status in the order they are written. *)
Definition status_sorted (server : ready_server) (pid : Z) : pydict :=
  [(u"config_sha256", VStr (config_hash server)); (u"generation", VStr (generation server));
   (u"pid", VInt pid); (u"ready", VBool true); (u"schema_version", VInt 1)].

Definition status_text (server : ready_server) (pid : Z) : pystr :=
  u"{" ++ Json.join (u",") (map member_text
    [(u"config_sha256", json_str (config_hash server)); (u"generation", json_str (generation server));
     (u"pid", dec_of_Z pid); (u"ready", u"true"); (u"schema_version", u"1")]) ++ u"}".

Lemma pid_writable pid : pid_ok pid -> writable (VInt pid) = true.
Proof.
  intros [H1 H2]. cbn [writable]. apply Nat.leb_le. rewrite Z.abs_eq by lia.
  pose proof (dec_digits_length pid 10) as H.
  assert ((length (dec_digits pid) <= 10)%nat) by (apply H; change (10 ^ Z.of_nat 10) with 10000000000; lia).
  unfold int_max_digits. lia.
Qed.

Lemma status_dumps server pid : pid_ok pid ->
  dumps canonical_opts (status_val server pid) = Ok (status_text server pid) /\
  dumps canonical_opts (VDict (status_sorted server pid)) = Ok (status_text server pid).
Proof.
  intros Hpid%pid_writable. cbn [writable] in Hpid. apply Nat.leb_le in Hpid.
  assert (int_repr pid = Ok (dec_of_Z pid)) as Hi by (unfold int_repr; by rewrite (proj2 (Nat.ltb_ge _ _))).
  unfold status_val, status_sorted. rewrite !dumps_dict. unfold dump_member. cbn [mapM_res fst snd dumps]. rewrite Hi.
  split; reflexivity.
Qed.

(** What the handler sends is read back and accepted. *)
Lemma status_accepted server pid depth :
  server_ok server -> pid_ok pid -> (1 <= depth)%nat ->
  (let* value := loads_bytes depth (map byte_of_Z (status_text server pid ++ [10])) in validate_ready_status value)
  = Ok (VDict (status_sorted server pid)).
Proof.
  intros [Hg Hh] Hpid Hd. destruct (status_dumps server pid Hpid) as [Hdump _].
  cbn [is_hex_text] in Hg. apply andb_true_iff in Hg as [Hg1 Hg2]. apply andb_true_iff in Hh as [Hh1 Hh2].
  assert (Hascii : ascii_text (status_text server pid)).
  { destruct (dumps_writable canonical_opts (status_val server pid)) as (t & Ht & Ha).
    - unfold status_val. cbn [writable forallb snd]. fold (writable (VInt pid)). by rewrite pid_writable.
    - rewrite Hdump in Ht. by apply Ok_inj in Ht as <-. }
  assert (Hloads : loads unique_object default_constant depth (status_text server pid ++ [10])
    = Ok (VDict (status_sorted server pid))).
  { transitivity (Ok (json_norm canonical_opts (status_val server pid))); [|reflexivity].
    apply loads_dumps_blank; try done; [apply unique_object_nodup|].
    - unfold status_val. cbn [json_ok forallb fst snd].
      rewrite (str_ok_ascii (generation server)), (str_ok_ascii (config_hash server)) by by apply is_hex_lower_ascii.
      by vm_compute. }
  assert (Hhead : exists a b r, status_text server pid ++ [10] = a :: b :: r /\ a <> 0 /\ b <> 0).
  { unfold status_text. cbn [map Json.join]. unfold member_text at 1. cbn [fst snd]. unfold json_str at 1.
    cbn [app]. eexists _, _, _. split; [reflexivity|]. done. }
  destruct Hhead as (a & b & r & Hr & Ha & Hb). rewrite Hr in *. rewrite loads_bytes_ascii; try done.
  2:{ rewrite <- Hr. apply Forall_app. split; [done|by repeat constructor]. }
  rewrite Hloads. cbv beta iota. unfold validate_ready_status.
  assert (keys_are (status_sorted server pid) STATUS_FIELDS = true) as -> by (by vm_compute).
  set (d := status_sorted server pid).
  change (dict_get d (u"schema_version")) with (VInt 1). change (dict_get d (u"ready")) with (VBool true).
  change (dict_get d (u"pid")) with (VInt pid). change (dict_get d (u"generation")) with (VStr (generation server)).
  change (dict_get d (u"config_sha256")) with (VStr (config_hash server)). cbn [is_hex_text is_true].
  rewrite Hg1, Hg2, Hh1, Hh2, (proj2 (Z.ltb_lt 0 pid)) by apply Hpid. done.
Qed.

(** ** Properties *)

(** C32: The probe receives at most 4097 octets in at most 4098 turns, however the
    octets are cut into pieces; a reply of more than 4096 octets is refused, whatever it
    says, and a shorter one is judged as a whole, unless an error interrupts it. *)
Theorem check_ready_bounded depth pieces interrupted :
  Forall (fun p => p <> []) pieces ->
  (forall chunks, receive 4098 [] (stream_of pieces interrupted) = Ok chunks -> (length chunks <= 4097)%nat) /\
  check_ready depth (Ok tt) (stream_of pieces interrupted) =
    if (4096 <? length (concat pieces))%nat then raise ValueError "invalid readiness status"
    else match interrupted with
         | Some e => Err e
         | None => let* value := loads_bytes depth (concat pieces) in validate_ready_status value
         end.
Proof.
  intros Hp.
  pose proof (receive_spec 4098 [] pieces interrupted Hp (Nat.le_0_l _) (le_n _)) as Hr. cbn [app] in Hr.
  assert (Hlt : (4096 <? length (concat pieces))%nat = negb (length (concat pieces) <=? MAX_STATUS)%nat).
  { exact (Nat.ltb_antisym _ _). }
  split.
  - rewrite Hr. intros chunks. destruct (_ <=? _)%nat eqn:E.
    + apply Nat.leb_le in E. unfold MAX_STATUS in E. destruct interrupted; [done|]. intros <-%Ok_inj. lia.
    + intros <-%Ok_inj. rewrite length_take. unfold MAX_STATUS. lia.
  - unfold check_ready. cbv beta iota. change (S (S MAX_STATUS)) with 4098%nat. rewrite Hr, Hlt.
    destruct (length (concat pieces) <=? MAX_STATUS)%nat eqn:E; cbn [negb].
    + destruct interrupted; [done|]. apply Nat.leb_le in E. by rewrite (proj2 (Nat.ltb_ge _ _)).
    + apply Nat.leb_gt in E. rewrite length_take, (proj2 (Nat.ltb_lt _ _)); [done|lia].
Qed.

(** A created server: its directory is private, its digest is that of the files at
    its start, and its generation is thirty-two hexadecimal digits. *)
Lemma ReadyServer_ok fs files info uid random bind server :
  ReadyServer fs files info uid random bind = Ok server -> length random = 16%nat ->
  (exists i, info = Ok i /\ info_is_dir i = true /\ mode_bits (info_mode i) = MODE_DIR /\ info_uid i = uid) /\
  srv_files server = files /\ public_config_hash fs files = Ok (config_hash server) /\ server_ok server.
Proof.
  unfold ReadyServer. intros Hs Hr. destruct info as [i|]; [|discriminate]. cbv beta iota in Hs.
  destruct (negb (info_is_dir i) || _ || _) eqn:Ei; [discriminate|]. bool_prop.
  destruct (public_config_hash fs files) as [hash|] eqn:Eh; [|discriminate]. cbv beta iota zeta in Hs.
  destruct bind; [|discriminate]. apply Ok_inj in Hs as <-. split_and!; try done; [by exists i|].
  split; [|by apply (public_config_hash_digest fs files)].
  cbn [generation is_hex_text]. apply andb_true_iff. split; [|apply forallb_Forall, hexlify_class].
  unfold uuid4_hex. rewrite hexlify_length, !length_alter, Hr. done.
Qed.

Lemma status_length server pid :
  server_ok server -> pid_ok pid -> (length (status_text server pid ++ [10%Z]) <= MAX_STATUS)%nat.
Proof.
  intros [Hg Hh] [Hp1 Hp2]. cbn [is_hex_text] in Hg. apply andb_true_iff in Hg as [Hg1 Hg2].
  apply andb_true_iff in Hh as [Hh1 Hh2]. apply Nat.eqb_eq in Hg1, Hh1.
  assert (Hhex : forall s, forallb is_hex_lower s = true -> Forall (fun c => is_b64url c = true) s).
  { intros s Hs%forallb_Forall. eapply Forall_impl; [exact Hs|]. intros c.
    unfold is_hex_lower, is_b64url, is_alnum, is_digit, is_upper, is_lower.
    rewrite !orb_true_iff, !andb_true_iff, !Z.leb_le, !Z.eqb_eq. lia. }
  assert (Hpid : (length (dec_of_Z pid) <= 10)%nat).
  { unfold dec_of_Z. rewrite (proj2 (Z.ltb_ge pid 0)) by lia. apply dec_digits_length; [|lia].
    change (10 ^ Z.of_nat 10) with 10000000000. lia. }
  unfold status_text. cbn [map Json.join]. unfold member_text. cbn [fst snd]. rewrite !length_app.
  rewrite (json_str_plain (config_hash server)), (json_str_plain (generation server)), Hg1, Hh1 by auto.
  repeat match goal with
  | |- context [length (json_str (u ?s))] => let n := eval vm_compute in (length (json_str (u s))) in
      change (length (json_str (u s))) with n
  | |- context [length (u ?s)] => let n := eval vm_compute in (length (u s)) in change (length (u s)) with n
  end.
  change (length [10]) with 1%nat. transitivity 400%nat; [lia|]. by apply Nat.leb_le.
Qed.

Section readiness.
Context `{TLSLoaderLaws}.

(** The answer of the handler to the request. *)
Lemma handle_request server fs pid :
  pid_ok pid ->
  handle server fs pid (Ok READY_REQUEST) (fun _ => Ok tt) =
    Ok (if is_ok (create_contexts fs (srv_files server)) &&
           bool_decide (public_config_hash fs (srv_files server) = Ok (config_hash server))
        then Some (map byte_of_Z (status_text server pid ++ [10])) else None).
Proof.
  intros Hpid. unfold handle. cbv beta iota. rewrite bool_decide_true by done. cbn [negb].
  pose proof (create_contexts_exn fs (srv_files server)) as Hc.
  destruct (create_contexts fs (srv_files server)) as [contexts|e].
  2:{ unfold catch. by rewrite (Hc e eq_refl). }
  pose proof (proj1 (public_config_hash_digest fs (srv_files server))) as Hh. cbn [is_ok andb].
  destruct (public_config_hash fs (srv_files server)) as [hash|e].
  2:{ unfold catch. by rewrite (Hh e eq_refl), bool_decide_false. }
  destruct (decide (hash = config_hash server)) as [->|Hne].
  2:{ rewrite !bool_decide_false by congruence. done. }
  rewrite !bool_decide_true by done. cbn [negb].
  destruct (status_dumps server pid Hpid) as [Hd _]. rewrite Hd.
  destruct (dumps_writable canonical_opts (status_val server pid)) as (t & Ht & Ha).
  { unfold status_val. cbn [writable forallb snd]. fold (writable (VInt pid)). by rewrite pid_writable. }
  rewrite Hd in Ht. apply Ok_inj in Ht as <-. rewrite (utf8_encode_ascii _ Ha). cbn [catch].
  by rewrite map_app.
Qed.

(** C9: A backend that was started in a private directory answers the probe, at any later
    time and however the answer is cut into pieces, so that the probe ends with code 0
    exactly when its identities can still be loaded and the digest of its public
    configuration is that of its start; then the status is printed with the digest, the
    generation and the process number.  In every other case the probe ends with code 1. *)
Theorem readiness_exact fs0 files info uid random bind server fs pid depth :
  ReadyServer fs0 files info uid random bind = Ok server -> length random = 16%nat ->
  0 < pid < 2 ^ 31 -> (1 <= depth)%nat ->
  exists reply, handle server fs pid (Ok READY_REQUEST) (fun _ => Ok tt) = Ok reply /\
    forall pieces, Forall (fun p => p <> []) pieces ->
      concat pieces = match reply with Some data => data | None => [] end ->
      check_ready_main depth (Ok tt) (stream_of pieces None) =
        Ok (if is_ok (create_contexts fs files) &&
               bool_decide (public_config_hash fs files = public_config_hash fs0 files)
            then (0, status_text server pid ++ [10]) else (1, [])).
Proof.
  intros Hserver Hrandom Hpid Hdepth.
  destruct (ReadyServer_ok _ _ _ _ _ _ _ Hserver Hrandom) as (_ & Hf & Hh & Hok).
  eexists. split; [by apply handle_request|]. intros pieces Hp Hcat. rewrite Hf, Hh in *.
  pose proof (receive_spec 4098 [] pieces None Hp (Nat.le_0_l _) (le_n _)) as Hr. cbn [app] in Hr.
  unfold check_ready_main, check_ready. cbv beta iota. change (S (S MAX_STATUS)) with 4098%nat. rewrite Hr.
  destruct (_ && _).
  - assert (Hl : (length (concat pieces) <= MAX_STATUS)%nat).
    { rewrite Hcat, length_map. by apply status_length. }
    rewrite (proj2 (Nat.leb_le _ _) Hl), (proj2 (Nat.ltb_ge _ _) Hl), Hcat.
    rewrite (status_accepted server pid depth Hok Hpid Hdepth).
    destruct (status_dumps server pid Hpid) as [_ ->]. done.
  - rewrite Hcat. by vm_compute.
Qed.
End readiness.

(** ** The status check and the contexts *)

(** The probe accepts exactly the documents of the five names with version one, readiness
    [true] itself, a positive process number and two hexadecimal texts. *)
Theorem validate_ready_status_exact value v :
  validate_ready_status value = Ok v <->
  v = value /\ exists d pid gen hash, value = VDict d /\ keys_are d STATUS_FIELDS = true /\
    dict_get d (u"schema_version") = VInt 1 /\ dict_get d (u"ready") = VBool true /\
    dict_get d (u"pid") = VInt pid /\ 0 < pid /\
    dict_get d (u"generation") = VStr gen /\ is_hex_text 32 (VStr gen) = true /\
    dict_get d (u"config_sha256") = VStr hash /\ is_hex_text 64 (VStr hash) = true.
Proof.
  unfold validate_ready_status. split.
  - destruct value as [| | | | | |d]; try discriminate.
    destruct (keys_are d STATUS_FIELDS) eqn:Ek; [|discriminate]. cbn [negb].
    destruct (negb _ || _ || _ || _ || _) eqn:E; [discriminate|]. intros <-%Ok_inj.
    rewrite !orb_false_iff, !negb_false_iff in E. destruct E as ((((H1 & H2) & H3) & H4) & H5).
    split; [done|].
    destruct (dict_get d (u"schema_version")) as [| |version| | | |] eqn:E1; try discriminate.
    apply Z.eqb_eq in H1 as ->. apply is_true_true in H2.
    destruct (dict_get d (u"pid")) as [| |pid| | | |] eqn:E3; try discriminate. apply Z.ltb_lt in H3.
    destruct (dict_get d (u"generation")) as [| | | |gen| |] eqn:E4; try discriminate.
    destruct (dict_get d (u"config_sha256")) as [| | | |hash| |] eqn:E5; try discriminate.
    exists d, pid, gen, hash. split_and!; done.
  - intros (-> & d & pid & gen & hash & -> & -> & -> & -> & -> & Hp & -> & Hg & -> & Hh).
    rewrite (proj2 (Z.ltb_lt 0 pid) Hp), Hg, Hh. done.
Qed.

(** The context of a route: its own certificate and key, for servers whose certificate
    the development CA signed, with at least TLS 1.2. *)
Definition route_context (files : TLSFiles) (chain : pystr * pystr) : tls_context :=
  TLSContext SERVER_AUTH (ca files) true false TLSv1_2 (Some chain).

Section served.
Context `{TLSLoader}.

Lemma create_contexts_ok fs files inbound outbound pin :
  create_contexts fs files = Ok (inbound, outbound, pin) ->
  inbound = TLSContext CLIENT_AUTH (ca files) true false TLSv1_2 (Some (certificate files, key files)) /\
  outbound = map (fun rc => (fst rc, route_context files (snd rc))) (route_chains files) /\
  read_certificate fs (gateway_pin files) = Ok pin /\ pin <> [] /\
  Forall (fun rc => load_cert_chain fs (fst (snd rc)) (snd (snd rc)) = Ok tt) (route_chains files).
Proof.
  unfold create_contexts, verified_context, with_chain. intros Hc.
  destruct (load_verify_locations fs (ca files)) as [[]|] eqn:Ev; [|discriminate]. cbv beta iota in Hc.
  destruct (load_cert_chain fs (certificate files) _) as [[]|]; [|discriminate]. cbv beta iota in Hc.
  destruct (mapM_res _ _) as [out|] eqn:Em; [|discriminate]. cbv beta iota in Hc.
  destruct (read_certificate fs _) as [[|b pin']|] eqn:Er; [discriminate| |discriminate].
  apply Ok_inj, pair_equal_spec in Hc as [[<- <-]%pair_equal_spec <-].
  apply mapM_res_Ok in Em. assert (Hstep : Forall2 (fun rc nc =>
      nc = (fst rc, route_context files (snd rc)) /\ load_cert_chain fs (fst (snd rc)) (snd (snd rc)) = Ok tt)
      (route_chains files) out).
  { eapply Forall2_impl; [exact Em|]. intros [name [cert k]] nc. unfold outbound_context, verified_context, with_chain.
    rewrite Ev. cbv beta iota. destruct (load_cert_chain fs cert k) as [[]|] eqn:El; [|discriminate].
    by intros <-%Ok_inj. }
  clear Em. split_and!; [done| |done|done|].
  - induction Hstep as [|rc nc l l' [-> _] _ IH]; [done|]. cbn [map]. by rewrite IH.
  - induction Hstep as [|rc nc l l' [_ Hl] _ IH]; by constructor.
Qed.

(** The context of a forwarded request has the chain of the route in its path. *)
Lemma route_context_chain files pin peercert path hs expected token context :
  forwarded pin (map (fun rc => (fst rc, route_context files (snd rc))) (route_chains files))
    peercert path hs expected token context ->
  exists chain, (id_route expected, chain) ∈ route_chains files /\
    (path = u"/evidence/route-a" /\ chain = (route_a_certificate files, route_a_key files) \/
     path = u"/evidence/route-b" /\ chain = (route_b_certificate files, route_b_key files)) /\
    context = route_context files chain.
Proof.
  intros [_ _ Hr _ Hc]. apply alookup_Some_in in Hr. unfold ROUTES in Hr. rewrite !elem_of_cons in Hr.
  destruct Hr as [[= -> ->]|[[= -> ->]|[]%elem_of_nil]]; vm_compute in Hc; injection Hc as <-.
  - exists (route_a_certificate files, route_a_key files). split_and!; [by left|by left|done].
  - exists (route_b_certificate files, route_b_key files). split_and!; [by right; left|by right|done].
Qed.

(** C10: A server that was created demands certificates of its peers, and pins the one of
    the gateway.  Every request of any peer is answered without touching the network, or is
    forwarded over one connection whose TLS context is that of its own route: the certificate
    and key of that route, loaded together, and a verified upstream; the answer then depends on
    what came over that connection alone. *)
Theorem served_with_own_certificate fs files inbound outbound pin exchange depth peer path hs :
  create_contexts fs files = Ok (inbound, outbound, pin) ->
  ctx_cert_required inbound = true /\ ctx_ca inbound = ca files /\ ctx_minimum_version inbound = TLSv1_2 /\
  read_certificate fs (gateway_pin files) = Ok pin /\
  (trusted_peer peer pin = true <-> peer = Some pin) /\
  ((exists r, do_GET exchange depth pin outbound (Ok peer) path hs = (Ok r, [])) \/
   exists r token chain context mid,
     (path = u"/evidence/route-a" /\ chain = (route_a_certificate files, route_a_key files) \/
      path = u"/evidence/route-b" /\ chain = (route_b_certificate files, route_b_key files)) /\
     load_cert_chain fs (fst chain) (snd chain) = Ok tt /\
     context = TLSContext SERVER_AUTH (ca files) true false TLSv1_2 (Some chain) /\
     bearer_token hs = Some token /\ (mid = [] \/ mid = [BodyRead 16385]) /\
     do_GET exchange depth pin outbound (Ok peer) path hs =
       (r, Sent context (evidence_request token) :: mid ++ [Closed]) /\
     forall exchange', exchange' context (evidence_request token) = exchange context (evidence_request token) ->
       fst (do_GET exchange' depth pin outbound (Ok peer) path hs) = r).
Proof.
  intros (-> & -> & Hpin & Hne & Hall)%create_contexts_ok. do 3 (split; [done|]). split; [done|]. split.
  { rewrite trusted_peer_spec. naive_solver. }
  destruct (do_GET exchange depth pin
    (map (fun rc => (fst rc, route_context files (snd rc))) (route_chains files)) (Ok peer) path hs) as [r events] eqn:Eg.
  destruct (do_GET_local exchange depth pin
    (map (fun rc => (fst rc, route_context files (snd rc))) (route_chains files))) with (peer := peer) (path := path) (hs := hs)
    as [(expected & token & context & Hf)|(r' & Hr & _)].
  - intros p e. unfold ROUTES. cbn [alookup]. repeat case_decide; try discriminate;
      intros <-%(inj Some); eexists; reflexivity.
  - right. assert (Hev : events <> []).
    { rewrite (do_GET_forwarded _ _ _ _ _ _ _ _ _ _ Hf) in Eg. unfold fetch_evidence in Eg.
      destruct (match exchange _ _ with Ok _ => _ | Err _ => _ end) in Eg. by injection Eg as _ <-. }
    clear Hf. destruct (do_GET_contact _ _ _ _ _ _ _ _ _ Eg Hev)
      as (expected0 & token0 & context0 & mid & Hf & Hmid & He & Hx).
    destruct (route_context_chain _ _ _ _ _ _ _ _ Hf) as (chain & Hin & Hpath & ->).
    rewrite Forall_forall in Hall. exists r, token0, chain, (route_context files chain), mid.
    split_and!; [exact Hpath|by apply (Hall _ Hin)|done|by apply (fw_token _ _ _ _ _ _ _ _ Hf)|exact Hmid|by rewrite <- He|].
    intros exchange' Hsame. by rewrite (Hx exchange' Hsame).
  - left. exists r'. by rewrite <- Eg, Hr.
Qed.
End served.

(** ** A mounted development certificate *)

Lemma public_config_hash_total fs files :
  Forall (fun np => exists der, read_certificate fs (snd np) = Ok der) (public_files files) ->
  exists hash, public_config_hash fs files = Ok hash.
Proof.
  intros Hall. destruct (mapM_res_total (public_digest fs) (fun nv => writable (snd nv) = true) (public_files files))
    as (digests & Hd & Hw).
  { eapply Forall_impl; [exact Hall|]. intros [name path] [der Hder]. unfold public_digest. cbn [fst snd] in *.
    rewrite Hder. by eexists. }
  unfold public_config_hash. rewrite Hd. cbv beta iota.
  destruct (canonical_sha256_writable (VDict (digests ++
    [(u"target", VList [VStr API_HOST; VInt API_PORT; VStr API_PATH]); (u"routes", routes_val)])))
    as (hash & -> & _); [|by eexists].
  cbn [writable]. rewrite forallb_app. apply andb_true_iff. split; [by apply forallb_Forall|by vm_compute].
Qed.

Module ReadySample.
(** Every path holds a certificate of four octets, and everything loads. *)
Definition pem : bytes :=
  bs "-----BEGIN CERTIFICATE-----" ++ [byte_of_Z 10] ++ bs "MAJ/AA==" ++ [byte_of_Z 10]
  ++ bs "-----END CERTIFICATE-----" ++ [byte_of_Z 10].
Definition fs : fsys := Fsys (fun _ => Some (FFile 256 pem)) (fun _ => false) (fun _ => false).
Definition files : TLSFiles := from_environment [(u"BACKEND_TLS_CA", u"/ca.crt")].
#[local] Instance loader : TLSLoader := {| load_verify_locations _ _ := Ok tt; load_cert_chain _ _ _ := Ok tt |}.
#[local] Instance laws : TLSLoaderLaws loader.
Proof. split; intros; by intros e. Qed.
Definition random : bytes := map byte_of_Z (seqZ 240 16).

Example certificate_read : map_res (map Z_of_byte) (read_certificate fs (u"/ca.crt")) = Ok [48; 2; 127; 0].
Proof. vm_compute. reflexivity. Qed.

Example generation_version : uuid4_hex random = u"f0f1f2f3f4f546f7b8f9fafbfcfdfeff".
Proof. vm_compute. reflexivity. Qed.

Lemma started_ok : exists server,
  ReadyServer fs files (Ok (DirInfo true 448 10001)) 10001 random (Ok tt) = Ok server.
Proof.
  destruct (public_config_hash_total fs files) as [hash Hh].
  - repeat constructor; (eexists; vm_compute; reflexivity).
  - unfold ReadyServer. cbv beta iota. rewrite Hh. by eexists.
Qed.
End ReadySample.
#[local] Existing Instances ReadySample.loader ReadySample.laws.

Lemma check_ready_bounded_witness :
  check_ready 1 (Ok tt) (stream_of [bs "{"; bs "}"] None) = raise ValueError "invalid readiness status" /\
  check_ready 1 (Ok tt) (stream_of [bs "{"; bs "}"] (Some (Exn TimeoutError []))) = Err (Exn TimeoutError []).
Proof.
  assert (Hp : Forall (fun p => p <> []) [bs "{"; bs "}"]) by (repeat constructor; discriminate).
  split.
  - rewrite (proj2 (check_ready_bounded 1 _ None Hp)). vm_compute. reflexivity.
  - rewrite (proj2 (check_ready_bounded 1 _ (Some _) Hp)). vm_compute. reflexivity.
Defined.

Lemma readiness_exact_witness :
  exists server reply, is_digest (config_hash server) = true /\
    handle server ReadySample.fs 7 (Ok READY_REQUEST) (fun _ => Ok tt) = Ok reply /\
    forall data, reply = Some data -> data <> [] ->
      check_ready_main 1 (Ok tt) (stream_of [data] None) = Ok (0, status_text server 7 ++ [10]).
Proof.
  destruct ReadySample.started_ok as [server Hs].
  destruct (readiness_exact _ _ _ _ _ _ server ReadySample.fs 7 1 Hs eq_refl) as (reply & Hr & Hmain); [lia|lia|].
  exists server, reply. split; [exact (proj2 (proj2 (proj2 (proj2 (ReadyServer_ok _ _ _ _ _ _ server Hs eq_refl))))) |]. split; [exact Hr|]. intros data -> Hne. rewrite Hmain.
  - rewrite bool_decide_true by reflexivity. rewrite andb_true_r.
    assert (is_ok (create_contexts ReadySample.fs ReadySample.files) = true) as -> by (vm_compute; reflexivity).
    reflexivity.
  - repeat constructor. exact Hne.
  - cbn. apply app_nil_r.
Defined.

Lemma served_with_own_certificate_witness :
  exists inbound outbound pin context token mid,
    create_contexts ReadySample.fs ReadySample.files = Ok (inbound, outbound, pin) /\
    ctx_cert_required inbound = true /\
    snd (do_GET (fun _ _ => raise OSError "unreachable") 1 pin outbound (Ok (Some pin)) (u"/evidence/route-b")
      [(u"Authorization", u"Bearer abc")]) = Sent context (evidence_request token) :: mid ++ [Closed] /\
    ctx_chain context = Some (route_b_certificate ReadySample.files, route_b_key ReadySample.files).
Proof.
  destruct (create_contexts ReadySample.fs ReadySample.files) as [[[inbound outbound] pin]|] eqn:E;
    [|vm_compute in E; discriminate E].
  destruct (served_with_own_certificate _ _ _ _ _ (fun _ _ => raise OSError "unreachable") 1 (Some pin)
    (u"/evidence/route-b") [(u"Authorization", u"Bearer abc")] E)
    as (H1 & _ & _ & _ & _ & [[r Hr]|(r & token & chain & context & mid & Hpath & _ & -> & _ & _ & Hg & _)]).
  - exfalso. vm_compute in E. apply Ok_inj in E. injection E as <- <- <-. vm_compute in Hr. discriminate Hr.
  - destruct Hpath as [[Hp _]|[_ ->]]; [discriminate Hp|].
    exists inbound, outbound, pin. eexists _, token, mid. split; [reflexivity|]. split; [exact H1|].
    split; [rewrite Hg; reflexivity|reflexivity].
Defined.
