(* ===== verification/Layout.v ===== *)
(** JSON with separators and indentation, as [json.dumps] writes it by default and
    with [indent=2]: what is written is plain text that the reader of [Json] reads
    back as the same value. *)
From Stdlib Require Import Floats.SpecFloat.
From S2P Require Export LocalFiles.

Local Open Scope Z_scope.

(** ** The writer *)

Record layout := Layout { item_separator : pystr; key_separator : pystr; indent : option nat }.

(** [json.dumps(v)], [json.dumps(v, separators=(",", ":"))] and [json.dumps(v, indent=2)] *)
Definition default_layout : layout := Layout (u", ") (u": ") None.
Definition compact_layout : layout := Layout (u",") (u":") None.
Definition indent2_layout : layout := Layout (u",") (u": ") (Some 2%nat).

Section writer.
Context (L : layout).

(** The start of a line at a level of nesting. *)
Definition newline (level : nat) : pystr :=
  match indent L with None => [] | Some n => 10 :: replicate (n * level) 32 end.

Definition container (level : nat) (opening closing : Z) (texts : list pystr) : pystr :=
  match texts with
  | [] => [opening; closing]
  | _ => opening :: newline (S level) ++ Json.join (item_separator L ++ newline (S level)) texts
           ++ newline level ++ [closing]
  end.

Definition member_with (kt : pystr * pystr) : pystr := json_str (fst kt) ++ key_separator L ++ snd kt.

Fixpoint dumps_with (level : nat) (v : pyval) : res pystr :=
  match v with
  | VNone => Ok (u"null")
  | VBool b => Ok (if b then u"true" else u"false")
  | VInt z => int_repr z
  | VFloat f => Ok (float_repr f)
  | VStr s => Ok (json_str s)
  | VList l =>
      let* ts := (fix go l : res (list pystr) :=
        match l with
        | [] => Ok []
        | x :: l' => let* t := dumps_with (S level) x in let* ts := go l' in Ok (t :: ts)
        end) l in
      Ok (container level 91 93 ts)
  | VDict d =>
      let* ms := (fix go d : res (list (pystr * pystr)) :=
        match d with
        | [] => Ok []
        | (k, x) :: d' => let* t := dumps_with (S level) x in let* ms := go d' in Ok ((k, t) :: ms)
        end) d in
      Ok (container level 123 125 (map member_with ms))
  end.

Definition dump_member_with (level : nat) (kv : pystr * pyval) : res (pystr * pystr) :=
  let* t := dumps_with level (snd kv) in Ok (fst kv, t).

Lemma dumps_with_list level l :
  dumps_with level (VList l) =
    let* ts := mapM_res (dumps_with (S level)) l in Ok (container level 91 93 ts).
Proof.
  cbn [dumps_with]. set (k := fun m => let* ts := m in Ok (container level 91 93 ts)).
  change (k ((fix go l := match l with
      | [] => Ok [] | x :: l' => let* t := dumps_with (S level) x in let* ts := go l' in Ok (t :: ts)
      end) l) = k (mapM_res (dumps_with (S level)) l)).
  f_equal. induction l as [|x l IH]; [done|]. cbn [mapM_res]. by rewrite IH.
Qed.

Lemma dumps_with_dict level d :
  dumps_with level (VDict d) =
    let* ms := mapM_res (dump_member_with (S level)) d in Ok (container level 123 125 (map member_with ms)).
Proof.
  cbn [dumps_with]. set (k := fun m => let* ms := m in Ok (container level 123 125 (map member_with ms))).
  change (k ((fix go d := match d with
      | [] => Ok [] | (k, x) :: d' => let* t := dumps_with (S level) x in let* ms := go d' in Ok ((k, t) :: ms)
      end) d) = k (mapM_res (dump_member_with (S level)) d)).
  f_equal. induction d as [|[n x] d IH]; [done|]. cbn [mapM_res]. unfold dump_member_with at 1.
  cbn [fst snd]. destruct (dumps_with (S level) x); [|done]. by rewrite IH.
Qed.
End writer.

(** ** Plain text *)

(** Visible ASCII characters, spaces and line feeds. *)
Definition plain_text (t : pystr) : Prop := Forall (fun c => c = 10 \/ 32 <= c <= 126) t.

Lemma plain_ascii t : plain_text t -> ascii_text t.
Proof.
  intros H. eapply Forall_impl; [exact H|]. intros c Hc. cbv beta in Hc. unfold is_ascii.
  apply andb_true_iff. rewrite Z.leb_le, Z.ltb_lt. lia.
Qed.

Lemma hex_pad4_plain c : plain_text (hex_pad4 c).
Proof.
  assert (H : forall n, hex_digit (n mod 16) = 10 \/ 32 <= hex_digit (n mod 16) <= 126).
  { intros n. pose proof (hex_digit_range (n mod 16) (Z.mod_pos_bound n 16 ltac:(lia))). lia. }
  repeat (constructor; [apply H|]). constructor.
Qed.

Lemma json_char_plain c : plain_text (json_char c).
Proof.
  assert (Hesc : forall d, plain_text (92 :: 117 :: hex_pad4 d)).
  { intros d. do 2 (constructor; [lia|]). apply hex_pad4_plain. }
  unfold json_char, plain_text. repeat case_match; bool_prop; try apply Hesc.
  9: apply Forall_app; split; apply Hesc. all: repeat apply Forall_cons_2; try apply Forall_nil_2; lia.
Qed.

Lemma json_str_text_plain s : plain_text (json_str s).
Proof.
  unfold json_str, plain_text. constructor; [lia|]. apply Forall_app. split; [|constructor; [lia|constructor]].
  induction s as [|c s IH]; [constructor|]. cbn [map concat]. apply Forall_app. split; [apply json_char_plain|done].
Qed.

(** The text of a string is on one line. *)
Lemma json_str_one_line s : one_line (json_str s).
Proof.
  assert (Hhex : forall c, one_line (hex_pad4 c)).
  { intros c. assert (H : forall n, is_line_break (hex_digit (n mod 16)) = false).
    { intros n. pose proof (hex_digit_range (n mod 16) (Z.mod_pos_bound n 16 ltac:(lia))). unfold is_line_break. lia. }
    repeat (constructor; [apply H|]). constructor. }
  assert (Hesc : forall d, one_line (92 :: 117 :: hex_pad4 d)) by (intros d; do 2 (constructor; [done|]); apply Hhex).
  unfold json_str. constructor; [done|]. apply Forall_app. split; [|by repeat constructor].
  induction s as [|c s IH]; [constructor|]. cbn [map concat]. apply Forall_app. split; [|done]. clear s IH.
  unfold json_char, one_line. repeat case_match; bool_prop; try apply Hesc.
  9: apply Forall_app; split; apply Hesc.
  all: repeat apply Forall_cons_2; try apply Forall_nil_2; try done. all: unfold is_line_break; lia.
Qed.

Lemma spaces_plain n : plain_text (replicate n 32).
Proof. apply Forall_replicate. lia. Qed.

(** A layout whose separators are a comma and a colon with blanks. *)
Definition layout_ok (L : layout) : Prop :=
  exists b1 b2, item_separator L = 44 :: b1 /\ key_separator L = 58 :: b2 /\
    Forall (fun c => c = 32) b1 /\ Forall (fun c => c = 32) b2.

Lemma layouts_ok : layout_ok default_layout /\ layout_ok compact_layout /\ layout_ok indent2_layout.
Proof. split_and!; eexists _, _; split_and!; try done; by repeat constructor. Qed.

Lemma plain_u s : forallb (fun c => (c =? 10) || ((32 <=? c) && (c <=? 126))) (u s) = true -> plain_text (u s).
Proof.
  intros H%forallb_Forall. eapply Forall_impl; [exact H|]. intros c. cbv beta.
  rewrite orb_true_iff, andb_true_iff, !Z.leb_le, Z.eqb_eq. lia.
Qed.

Section layouts.
Context (L : layout) (HL : layout_ok L).

Lemma newline_plain level : plain_text (newline L level).
Proof. unfold newline. destruct (indent L); [|constructor]. constructor; [lia|apply spaces_plain]. Qed.

Lemma newline_blank level : blank (newline L level).
Proof.
  unfold newline. destruct (indent L); [|constructor]. constructor; [done|]. by apply Forall_replicate.
Qed.

Lemma join_plain sep ps : plain_text sep -> Forall plain_text ps -> plain_text (Json.join sep ps).
Proof.
  intros Hs. induction 1 as [|p ps Hp Hps IH]; [constructor|].
  destruct ps; [done|]. apply Forall_app. split; [done|]. by apply Forall_app.
Qed.

Lemma separators_plain : plain_text (item_separator L) /\ plain_text (key_separator L).
Proof.
  destruct HL as (b1 & b2 & -> & -> & H1 & H2).
  split; (constructor; [lia|]); (eapply Forall_impl; [eassumption|]); intros c ->; lia.
Qed.

Lemma container_plain level opening closing ts :
  32 <= opening <= 126 -> 32 <= closing <= 126 -> Forall plain_text ts ->
  plain_text (container L level opening closing ts).
Proof.
  intros Ho Hc Hts. destruct separators_plain as [Hi _]. unfold container. destruct ts as [|t ts].
  - repeat apply Forall_cons_2; try apply Forall_nil_2; lia.
  - constructor; [lia|]. repeat (apply Forall_app; split); try apply newline_plain.
    + apply join_plain; [|done]. apply Forall_app. split; [done|apply newline_plain].
    + constructor; [lia|constructor].
Qed.

(** Every value with short integers and no floats is written, as plain text. *)
Lemma dumps_with_writable level v :
  writable v = true -> exists t, dumps_with L level v = Ok t /\ plain_text t.
Proof.
  revert level. induction v as [|b|z| |s|l IH|d IH] using pyval_nested_ind; intros level Hw.
  - eexists. split; [done|]. by apply plain_u.
  - eexists. split; [done|]. destruct b; by apply plain_u.
  - exists (dec_of_Z z). cbn [dumps_with writable] in *. unfold int_repr. apply Nat.leb_le in Hw.
    split; [by rewrite (proj2 (Nat.ltb_ge _ _))|]. unfold dec_of_Z.
    assert (H : forall n, 0 <= n -> plain_text (dec_digits n)).
    { intros n Hn. eapply Forall_impl; [by apply dec_digits_digit|]. intros c. unfold is_digit.
      rewrite !andb_true_iff, !Z.leb_le. lia. }
    destruct (z <? 0) eqn:E; bool_prop; [constructor; [lia|]|]; apply H; lia.
  - done.
  - eexists. split; [done|]. apply json_str_text_plain.
  - cbn [writable] in Hw. rewrite forallb_Forall in Hw.
    destruct (mapM_res_total (dumps_with L (S level)) plain_text l) as (ts & Hts & Ha).
    { apply Forall_forall. intros x Hx. rewrite Forall_forall in IH, Hw. auto. }
    rewrite dumps_with_list, Hts. eexists. split; [done|]. apply container_plain; [lia|lia|done].
  - cbn [writable] in Hw. rewrite forallb_Forall in Hw.
    destruct (mapM_res_total (dump_member_with L (S level)) (fun kt => plain_text (snd kt)) d) as (ms & Hms & Ha).
    { apply Forall_forall. intros [k x] Hx. rewrite Forall_forall in IH, Hw.
      destruct (IH _ Hx (S level) (Hw _ Hx)) as (t & Ht & Hta). exists (k, t). unfold dump_member_with.
      cbn [fst snd] in *. by rewrite Ht. }
    rewrite dumps_with_dict, Hms. eexists. split; [done|]. apply container_plain; [lia|lia|].
    apply Forall_map. eapply Forall_impl; [exact Ha|]. intros kt Hkt. unfold member_with.
    apply Forall_app. split; [apply json_str_text_plain|]. apply Forall_app. split; [apply separators_plain|done].
Qed.

(** The first character of a written value. *)
Lemma dumps_with_head level v t :
  json_ok v = true -> dumps_with L level v = Ok t ->
  exists c r, t = c :: r /\ is_ws c = false /\ c <> 93 /\ c < 128.
Proof.
  intros Hok H. destruct v as [|b|z|f|s|l|d].
  1-3, 5: by eapply (dumps_head {| sort_keys := false; allow_nan := true |}).
  - done.
  - rewrite dumps_with_list in H. destruct (mapM_res _ _) as [ts|]; [|done]. apply Ok_inj in H as <-.
    unfold container. destruct ts; by eexists _, _.
  - rewrite dumps_with_dict in H. destruct (mapM_res _ _) as [ts|]; [|done]. apply Ok_inj in H as <-.
    unfold container. destruct (map _ _); by eexists _, _.
Qed.
End layouts.

(** ** Texts of files *)

Lemma utf8_decode_scalar n b s :
  (length b <= n)%nat -> utf8_decode b = Some s -> Forall (fun c => is_scalar c = true) s.
Proof.
  revert b s. induction n as [|n IH]; intros b s Hn.
  { destruct b; [|cbn in Hn; lia]. by intros [= <-]. }
  destruct b as [|b0 r0]; [by intros [= <-]|]. cbn [length] in Hn. cbn [utf8_decode].
  assert (Hcons : forall c r (o : option pystr), (length r <= n)%nat -> utf8_decode r = o -> is_scalar c = true ->
    cons c <$> o = Some s -> Forall (fun c => is_scalar c = true) s).
  { intros c r o Hr Ho Hc (s' & -> & ->)%fmap_Some. constructor; [done|]. by apply (IH r s'). }
  pose proof (Z_of_byte_range b0) as H0.
  destruct (Z_of_byte b0 <? 128) eqn:E1.
  { bool_prop. apply (Hcons _ r0); [lia|done|]. apply is_scalar_spec. lia. }
  destruct (Z_of_byte b0 <? 194) eqn:E2; [done|].
  destruct (Z_of_byte b0 <? 224) eqn:E3.
  { destruct r0 as [|b1 r1]; [done|]. destruct (is_cont b1) eqn:Ec; [|done].
    unfold is_cont in Ec. bool_prop. cbn [length] in Hn. apply (Hcons _ r1); [lia|done|].
    apply is_scalar_spec. unfold low6. lia. }
  destruct (Z_of_byte b0 <? 240) eqn:E4.
  { destruct r0 as [|b1 [|b2 r2]]; [done|done|]. destruct (_ && _ && _ && _) eqn:Ec; [|done].
    unfold is_cont, is_surrogate in Ec. bool_prop. cbn [length] in Hn. apply (Hcons _ r2); [lia|done|].
    apply is_scalar_spec. unfold low6 in *. lia. }
  destruct (Z_of_byte b0 <? 245); [|done].
  destruct r0 as [|b1 [|b2 [|b3 r3]]]; [done|done|done|]. destruct (_ && _ && _ && _ && _) eqn:Ec; [|done].
  unfold is_cont in Ec. bool_prop. cbn [length] in Hn. apply (Hcons _ r3); [lia|done|].
  apply is_scalar_spec. unfold low6 in *. lia.
Qed.

Lemma universal_newlines_scalar n s :
  (length s <= n)%nat -> Forall (fun c => is_scalar c = true) s ->
  Forall (fun c => is_scalar c = true) (universal_newlines s).
Proof.
  revert s. induction n as [|n IH]; intros s Hn Hs; destruct Hs as [|c s Hc Hs]; try constructor;
    [cbn in Hn; lia|]. cbn [universal_newlines length] in *.
  destruct (c =? 13); [|constructor; [done|apply IH; [lia|done]]]. constructor; [done|].
  destruct Hs as [|d s Hd Hs]; [constructor|]. cbn [length] in Hn.
  destruct (d =? 10); apply IH; try (cbn [length]; lia); [done|by constructor].
Qed.

Lemma read_text_scalar fs path text :
  read_text fs path = Ok text -> Forall (fun c => is_scalar c = true) text.
Proof.
  unfold read_text, decode_utf8. destruct (node_at fs path) as [[|mode content|]|]; try discriminate.
  destruct (unreadable fs path); [discriminate|].
  destruct (utf8_decode content) as [s|] eqn:E; [|discriminate]. intros <-%Ok_inj.
  eapply universal_newlines_scalar; [done|]. by eapply utf8_decode_scalar.
Qed.

Lemma scalar_str_ok s : Forall (fun c => is_scalar c = true) s -> str_ok s = true.
Proof.
  induction 1 as [|c s Hc _ IH]; [done|]. apply is_scalar_spec in Hc. cbn [str_ok]. rewrite IH, andb_true_r.
  assert (is_high c = false) as -> by (unfold is_high; apply andb_false_iff; rewrite !Z.leb_gt; lia).
  cbn [andb negb]. rewrite andb_true_r. apply andb_true_iff. rewrite !Z.leb_le. lia.
Qed.

(** A text without special characters is read as it was written. *)
Lemma universal_newlines_plain t : plain_text t -> universal_newlines t = t.
Proof.
  induction 1 as [|c t Hc _ IH]; [done|]. cbn [universal_newlines].
  rewrite (proj2 (Z.eqb_neq c 13)) by lia. by rewrite IH.
Qed.

(** What was written without floats has short integers, so it is plain text. *)
Lemma dumps_with_written L level v t : json_ok v = true -> dumps_with L level v = Ok t -> writable v = true.
Proof.
  revert level t. induction v as [|b|z| |s|l IH|d IH] using pyval_nested_ind; intros level t Hok Ht; try done.
  - cbn [dumps_with] in Ht. unfold int_repr in Ht. cbn [writable].
    destruct (int_max_digits <? _)%nat eqn:E; [discriminate|]. apply Nat.ltb_ge in E. by apply Nat.leb_le.
  - rewrite dumps_with_list in Ht. destruct (mapM_res _ l) as [ts|] eqn:E; [|discriminate]. clear Ht.
    apply mapM_res_Ok in E. cbn [json_ok writable] in *. rewrite forallb_Forall in *.
    induction E as [|x t' l ts Hx E IHE]; [constructor|]. rewrite !Forall_cons in *.
    destruct IH as [IHx IH], Hok as [Hokx Hok]. split; [by eapply IHx|by apply IHE].
  - rewrite dumps_with_dict in Ht. destruct (mapM_res _ d) as [ms|] eqn:E; [|discriminate]. clear Ht.
    apply mapM_res_Ok in E. cbn [json_ok writable] in *. apply andb_true_iff in Hok as [_ Hok]. rewrite forallb_Forall in *.
    induction E as [|[k x] m d ms Hx E IHE]; [constructor|]. rewrite !Forall_cons in *.
    destruct IH as [IHx IH], Hok as [Hokx Hok]. cbn [fst snd] in *. split; [|by apply IHE].
    apply andb_true_iff in Hokx as [_ Hv]. unfold dump_member_with in Hx. cbn [fst snd] in Hx.
    destruct (dumps_with L (S level) x) as [tx|] eqn:Ex; [|discriminate]. by eapply IHx.
Qed.

Lemma dumps_with_plain L level v t :
  layout_ok L -> json_ok v = true -> dumps_with L level v = Ok t -> plain_text t.
Proof.
  intros HL Hok Ht. destruct (dumps_with_writable L HL level v) as (t' & Ht' & Hp); [by eapply dumps_with_written|].
  rewrite Ht in Ht'. by apply Ok_inj in Ht' as ->.
Qed.

(** ** Round trip *)

Section layout_roundtrip.
Context (hook : pydict -> res pyval) (pc : spec_float -> res pyval).
Context (hook_nodup : forall d, NoDup d.*1 -> hook d = Ok (VDict d)).
Context (L : layout) (HL : layout_ok L).

Lemma spaces_blank b : Forall (fun c => c = 32) b -> blank b.
Proof. intros H. eapply Forall_impl; [exact H|]. by intros c ->. Qed.

Lemma container_elements level d ts ws :
  Forall2 (fun t w => reads hook pc d t w /\ exists c r, t = c :: r /\ is_ws c = false /\ c <> 93) ts ws ->
  reads hook pc (S d) (container L level 91 93 ts) (VList ws).
Proof.
  intros Hall. destruct HL as (b1 & b2 & H1 & _ & Hb1%spaces_blank & _). unfold container.
  destruct ts as [|t ts]; [inversion Hall; subst; by apply reads_empty_list|]. rewrite H1.
  apply (reads_elements_spaced hook pc (newline L (S level)) (b1 ++ newline L (S level)) (newline L level)); try done.
  - apply newline_blank.
  - apply Forall_app. split; [done|apply newline_blank].
  - apply newline_blank.
Qed.

Lemma container_members level d ms kvs :
  Forall2 (member_reads hook pc d) ms kvs -> NoDup kvs.*1 ->
  reads hook pc (S d) (container L level 123 125 (map (member_with L) ms)) (VDict kvs).
Proof.
  intros Hall Hnd. destruct HL as (b1 & b2 & H1 & H2 & Hb1%spaces_blank & Hb2%spaces_blank). unfold container.
  destruct ms as [|m ms]; [inversion Hall; subst; by apply reads_empty_dict|]. rewrite H1.
  assert (Hm : map (member_with L) (m :: ms) = map (spaced_member b2) (m :: ms)).
  { apply map_ext. intros kt. unfold member_with. by rewrite H2. }
  rewrite Hm. cbn [map].
  apply (reads_members_spaced hook pc hook_nodup (newline L (S level)) (b1 ++ newline L (S level)) b2
    (newline L level) d (m :: ms)); try done.
  - apply newline_blank.
  - apply Forall_app. split; [done|apply newline_blank].
  - apply newline_blank.
Qed.

Lemma dumps_with_reads level v t d :
  json_ok v = true -> dumps_with L level v = Ok t -> (nesting v <= d)%nat -> reads hook pc d t v.
Proof.
  revert level t d. induction v as [|b|z| |s|l IH|m IH] using pyval_nested_ind; intros level t d Hok Ht Hd.
  1-3, 5: match goal with |- reads _ _ _ _ ?v =>
    exact (dumps_reads hook pc hook_nodup {| sort_keys := false; allow_nan := true |} v t d Hok Ht Hd) end.
  - done.
  - apply nesting_list in Hd as (d' & -> & Hd). rewrite dumps_with_list in Ht.
    destruct (mapM_res _ l) as [ts|] eqn:E; [|done]. apply Ok_inj in Ht as <-.
    apply mapM_res_Ok in E. apply container_elements. cbn [json_ok] in Hok. rewrite forallb_Forall in Hok.
    induction E as [|x t l ts Hx E IHE]; [constructor|].
    rewrite !Forall_cons in IH, Hok, Hd. destruct IH, Hok, Hd. constructor; [|by apply IHE].
    split; [by eauto|]. destruct (dumps_with_head L (S level) x t) as (c & r & ? & ? & ? & ?); eauto 6.
  - apply nesting_dict in Hd as (d' & -> & Hd). rewrite dumps_with_dict in Ht.
    destruct (mapM_res _ m) as [ms|] eqn:E; [|done]. apply Ok_inj in Ht as <-.
    apply mapM_res_Ok in E. cbn [json_ok] in Hok. apply andb_true_iff in Hok as [Hnd Hok].
    apply negb_true_iff, has_dup_false in Hnd. rewrite forallb_Forall in Hok.
    apply container_members; [|done]. clear Hnd.
    induction E as [|kv kt m ms Hx E IHE]; [constructor|].
    rewrite !Forall_cons in IH, Hok, Hd. destruct IH as [IH1 IH2], Hok as [Hok1 Hok2], Hd as [Hd1 Hd2].
    apply andb_true_iff in Hok1 as [Hk Hv]. constructor; [|by apply IHE]. unfold dump_member_with in Hx.
    destruct (dumps_with L (S level) (snd kv)) as [t|] eqn:Et; [|done]. apply Ok_inj in Hx as <-.
    unfold member_reads. cbn [fst snd].
    destruct (dumps_with_head L (S level) (snd kv) t) as (c & r & ? & ? & ? & ?); eauto 8.
Qed.

(** Reading back what was written, with blanks after it. *)
Lemma loads_dumps_with level v t depth blanks :
  json_ok v = true -> dumps_with L level v = Ok t -> (nesting v <= depth)%nat ->
  delim blanks = true -> skip_ws blanks = [] ->
  loads hook pc depth (t ++ blanks) = Ok v.
Proof.
  intros Hok Ht Hd Hb Hs. unfold loads.
  destruct (dumps_with_head L level v t Hok Ht) as (c & r & -> & Hw & _ & Hc).
  pose proof (dumps_with_reads level v _ depth Hok Ht Hd blanks
    (S (2 * length (skip_ws ((c :: r) ++ blanks))))) as H.
  rewrite <- app_comm_cons in *. rewrite skip_ws_head in * by done.
  rewrite expect_ne by lia. rewrite H; [by rewrite Hs|done|]. cbn [length]. rewrite length_app. lia.
Qed.
End layout_roundtrip.

(** The compact layout is that of [dumps]. *)
Lemma dumps_with_compact o level v :
  sort_keys o = false -> allow_nan o = true -> dumps_with compact_layout level v = dumps o v.
Proof.
  intros Ho Hn. revert level. induction v as [|b|z|f|s|l IH|d IH] using pyval_nested_ind; intros level; try done.
  - cbn [dumps_with dumps]. unfold float_text. rewrite Hn. by destruct f.
  - rewrite dumps_with_list, dumps_list. assert (mapM_res (dumps_with compact_layout (S level)) l = mapM_res (dumps o) l) as ->.
    { induction IH as [|x l Hx _ IHl]; [done|]. cbn [mapM_res]. by rewrite Hx, IHl. }
    destruct (mapM_res (dumps o) l) as [[|t ts]|]; done.
  - rewrite dumps_with_dict, dumps_dict, Ho.
    assert (mapM_res (dump_member_with compact_layout (S level)) d = mapM_res (dump_member o) d) as ->.
    { induction IH as [|x d Hx _ IHl]; [done|]. cbn [mapM_res]. unfold dump_member_with at 1, dump_member at 1.
      by rewrite Hx, IHl. }
    destruct (mapM_res (dump_member o) d) as [[|m ms]|]; done.
Qed.

Example indented :
  dumps_with indent2_layout 0 (VDict [(u"a", VInt 1); (u"b", VList [VNone; VDict []])]) =
  Ok (u"{" ++ [10] ++ [32; 32; 34; 97; 34] ++ u": 1," ++ [10] ++ [32; 32; 34; 98; 34] ++ u": [" ++ [10]
      ++ u"    null," ++ [10] ++ u"    {}" ++ [10] ++ u"  ]" ++ [10] ++ u"}").
Proof. reflexivity. Qed.
