(* ===== verification/Writes.v ===== *)
(** What the rendering scripts do to files: the atomic replacement of one file,
    [safe_write] of [src/scripts/render-runtime-secrets.py], and scripts as sequences of
    steps that fail or go on, with the files written so far. *)
From stdpp Require Import gmap strings.
From S2P Require Export PyExn.

Local Open Scope Z_scope.

(** ** Replacing a file *)

(** The directory of a file by names, and the outcomes of the system calls of one
    replacement: creating the temporary file, what of the text has been written when
    writing ends, the outcome of writing and syncing, of renaming, and of removing. *)
Abbreviation directory := (gmap (list Z) pystr).
Record write_outcome := WriteOutcome {
  wo_create : res pystr; wo_written : pystr; wo_write : res unit; wo_replace : res unit; wo_unlink : res unit
}.

(** [safe_write(path, content)]; a failed removal replaces the exception, unless the
    temporary file is gone. *)
Definition safe_write (dir : directory) (name content : pystr) (o : write_outcome) : directory * res unit :=
  match wo_create o with
  | Err e => (dir, Err e)
  | Ok temporary_name =>
      let cleanup (dir : directory) (e : exn) : directory * res unit :=
        match wo_unlink o with
        | Ok _ => (delete temporary_name dir, Err e)
        | Err f => if is_a (exn_cls f) FileNotFoundError then (dir, Err e) else (dir, Err f)
        end in
      match wo_write o with
      | Err e => cleanup (<[temporary_name := wo_written o]> dir) e
      | Ok _ =>
          let dir := <[temporary_name := content]> dir in
          match wo_replace o with
          | Err e => cleanup dir e
          | Ok _ => (<[name := content]> (delete temporary_name dir), Ok tt)
          end
      end
  end.

(** A replacement either puts the whole text in place and leaves no temporary file, or
    leaves the file as it was; when it fails and the temporary file can be removed, the
    directory is as it was. *)
Theorem safe_write_atomic dir name content o :
  (forall temporary_name, wo_create o = Ok temporary_name -> dir !! temporary_name = None /\ temporary_name <> name) ->
  match safe_write dir name content o with
  | (dir', Ok _) => dir' = <[name := content]> dir
  | (dir', Err _) => dir' !! name = dir !! name /\ (is_ok (wo_unlink o) = true -> dir' = dir)
  end.
Proof.
  intros Hfresh. unfold safe_write. destruct (wo_create o) as [t|e]; [|done].
  destruct (Hfresh t eq_refl) as [Hnone Hne].
  assert (Hgone : forall text, delete t (<[t := text]> dir) = dir) by (intros text; by apply delete_insert_id).
  assert (Hname : forall text, (<[t := text]> dir : directory) !! name = dir !! name)
    by (intros text; by apply lookup_insert_ne).
  destruct (wo_write o).
  - destruct (wo_replace o).
    + by rewrite Hgone.
    + destruct (wo_unlink o) as [|f]; [by rewrite Hgone|]. by destruct (is_a _ _).
  - destruct (wo_unlink o) as [|f]; [by rewrite Hgone|]. by destruct (is_a _ _).
Qed.

Lemma safe_write_atomic_witness :
  exists dir : directory, dir !! u"a" = Some (u"old") /\
    match safe_write dir (u"a") (u"new")
      (WriteOutcome (Ok (u".a.tmp")) (u"n") (raise OSError "disk full") (Ok tt) (Ok tt)) with
    | (dir', Ok _) => dir' = <[u"a" := u"new"]> dir
    | (dir', Err _) => dir' !! u"a" = dir !! u"a" /\ (true = true -> dir' = dir)
    end.
Proof.
  exists {[ u"a" := u"old" ]}. split; [apply lookup_singleton_eq|].
  apply (safe_write_atomic {[ u"a" := u"old" ]} (u"a") (u"new")
    (WriteOutcome (Ok (u".a.tmp")) (u"n") (raise OSError "disk full") (Ok tt) (Ok tt))).
  intros t Ht. cbn in Ht. apply Ok_inj in Ht as <-. split; [apply lookup_singleton_ne|]; discriminate.
Defined.

(** ** Scripts that write files *)

(** A step of the script: what it wrote, in order, and its outcome. *)
Definition writes (A : Type) : Type := list (pystr * pystr) * res A.
Definition just {A} (m : res A) : writes A := ([], m).
Definition after {A B} (m : writes A) (k : A -> writes B) : writes B :=
  match m with
  | (w, Ok a) => let '(w', r) := k a in (w ++ w', r)
  | (w, Err e) => (w, Err e)
  end.
Definition put (write : pystr -> pystr -> res unit) (name : string) (content : pystr) : writes unit :=
  match write (u name) content with
  | Ok _ => ([(u name, content)], Ok tt)
  | Err e => ([], Err e)
  end.

Lemma after_ok {A B} (m : writes A) (k : A -> writes B) w b :
  after m k = (w, Ok b) -> exists w1 a w2, m = (w1, Ok a) /\ k a = (w2, Ok b) /\ w = w1 ++ w2.
Proof.
  destruct m as [w1 [a|e]]; cbn [after]; [|discriminate]. destruct (k a) as [w2 r] eqn:E.
  intros [<- ->]%pair_equal_spec. by exists w1, a, w2.
Qed.

Lemma put_ok write name content w : put write name content = (w, Ok tt) -> w = [(u name, content)].
Proof. unfold put. destruct (write _ _); [|discriminate]. by intros [<- _]%pair_equal_spec. Qed.

(** What a part of the script writes: a beginning of the names, and all of them when it
    succeeds. *)
Definition shape {A} (names : list pystr) (m : writes A) : Prop :=
  (fst m).*1 `prefix_of` names /\ (is_ok (snd m) = true -> (fst m).*1 = names).

Lemma shape_just {A} (m : res A) : shape [] (just m).
Proof. by split. Qed.

Lemma shape_put write name content : shape [u name] (put write name content).
Proof. unfold put. destruct (write _ _); split; try done. apply prefix_nil. Qed.

Lemma shape_after {A B} names more (m : writes A) (k : A -> writes B) :
  shape names m -> (forall a, shape more (k a)) -> shape (names ++ more) (after m k).
Proof.
  intros [Hp Ho] Hk. destruct m as [w [a|e]]; cbn [after fst snd] in *.
  - destruct (Hk a) as [Hp' Ho']. destruct (k a) as [w' r]. cbn [fst snd] in *. unfold shape. cbn [fst snd].
    rewrite fmap_app, (Ho eq_refl). split; [by apply prefix_app|]. intros Hr. by rewrite Ho'.
  - split; [by apply prefix_app_r|done].
Qed.
