(* ===== verification/RuntimeEnv.v ===== *)
(** The rendering of the gateway targets, [src/scripts/render-runtime-env.py]: the target
    manifest and the endpoints of [runtime.env], and how the manifest is accepted by the
    target command ([Manifest]).  [terraform] is a parameter. *)
From S2P Require Export Layout Manifest Writes.

Local Open Scope Z_scope.

(** ** The configuration *)

(** [read_env_file(path)], the function [read_config] of [wp1_target.py] once more. *)
Definition read_env_file (fs : fsys) (path : pystr) : res (list (pystr * pystr)) :=
  if path_exists fs path
  then let* text := read_text fs path in
       Ok (read_values (fun key => bool_decide (key ∈ CONFIG_KEYS)) (splitlines text))
  else Ok [].

(** [os.environ.get(key, config.get(key, default))] *)
Definition configured (environ config : list (pystr * pystr)) (key default : string) : pystr :=
  match alookup (u key) environ with Some v => v | None => config_get config key default end.

Definition region_of (environ config : list (pystr * pystr)) : pystr :=
  rstrip_slash (configured environ config "KONNECT_SERVER_URL" "https://us.api.konghq.com").

Definition names_of (environ config : list (pystr * pystr)) : list (pystr * pystr) :=
  [(u"api", configured environ config "TF_VAR_control_plane_name" "keycloak-fapi2-demo");
   (u"third-party", configured environ config "TF_VAR_third_party_control_plane_name"
                      "keycloak-fapi2-third-party-demo")].

(** ** The files *)

Definition manifest_val (region_url : pystr) (source_targets : pyval) : pyval :=
  VDict [(u"konnect_server_url", VStr region_url); (u"targets", source_targets)].

Definition manifest_text (region_url : pystr) (source_targets : pyval) : res pystr :=
  let* text := dumps_with indent2_layout 0 (manifest_val region_url source_targets) in Ok (text ++ [10]).

(** The names of the endpoint lines, old and new. *)
Definition endpoint_names : list pystr :=
  map u ["KONNECT_CP_HOST"; "KONNECT_TP_HOST"; "KONNECT_API_CP_HOST"; "KONNECT_API_TP_HOST";
         "KONNECT_THIRD_PARTY_CP_HOST"; "KONNECT_THIRD_PARTY_TP_HOST"; "KONNECT_SERVER_URL"]%string.

(** [line.partition("=")[0] not in names] *)
Definition is_kept (line : pystr) : bool :=
  negb (bool_decide (fst (fst (partition_on 61 line)) ∈ endpoint_names)).

(** [targets[gateway][field]] in an f-string. *)
Definition target_text (targets : pydict) (gateway field : string) : res pystr :=
  let* target := dict_item targets (u gateway) in
  let* value := val_item target (u field) in
  scalar_text value.

Definition rendered_lines (targets : pydict) (region_url : pystr) : res (list pystr) :=
  let* api_cp := target_text targets "api" "control_plane_host" in
  let* api_tp := target_text targets "api" "telemetry_host" in
  let* third_party_cp := target_text targets "third-party" "control_plane_host" in
  let* third_party_tp := target_text targets "third-party" "telemetry_host" in
  Ok [u"KONNECT_API_CP_HOST=" ++ api_cp; u"KONNECT_API_TP_HOST=" ++ api_tp;
      u"KONNECT_THIRD_PARTY_CP_HOST=" ++ third_party_cp; u"KONNECT_THIRD_PARTY_TP_HOST=" ++ third_party_tp;
      u"KONNECT_SERVER_URL=" ++ region_url].

Definition runtime_text (prior rendered : list pystr) : pystr :=
  Json.join [10] (List.filter is_kept prior ++ rendered) ++ [10].

Section render_env.
Context `{Unicode} (depth : nat) (fs : fsys) (environ : list (pystr * pystr)) (terraform : res pystr).

(** What precedes the first write: the region, the validated and the original targets.
    The output is decoded twice, so that the second value is not the one that was
    validated, but an equal one. *)
Definition read_targets : res (pystr * pydict * pyval) :=
  let* config := read_env_file fs (u".env") in
  let region_url := region_of environ config in
  let expected_names := names_of environ config in
  let* stdout := terraform in
  let* output := loads_plain depth stdout in
  let* targets := validate_targets output expected_names in
  let* source_targets := loads_plain depth stdout in
  Ok (region_url, targets, source_targets).

Definition read_prior : res (list pystr) :=
  if path_exists fs (u".generated/runtime.env")
  then let* text := read_text fs (u".generated/runtime.env") in Ok (splitlines text)
  else Ok [].

(** [main]; the directory can be made, and [write] is the outcome of writing a file with
    its [chmod]. *)
Definition render_main (write : pystr -> pystr -> res unit) : writes unit :=
  after (just read_targets) (fun '(region_url, targets, source_targets) =>
  after (just (manifest_text region_url source_targets)) (fun text =>
  after (put write ".generated/gateway_targets.json" text) (fun _ =>
  after (just read_prior) (fun prior =>
  after (just (rendered_lines targets region_url)) (fun rendered =>
  put write ".generated/runtime.env" (runtime_text prior rendered)))))).
End render_env.

(** ** Lemmas *)

(** Validated targets have both gateways. *)
Lemma validate_targets_keys `{Unicode} source names targets :
  validate_targets source names = Ok targets ->
  is_Some (alookup (u"api") targets) /\ is_Some (alookup (u"third-party") targets).
Proof.
  unfold validate_targets. destruct (val_set_is _ _) as [[]|]; [|discriminate|discriminate].
  cbn [negb foldM_res GATEWAYS]. intros Hv.
  destruct (validate_target source names _ (u"api")) as [st1|] eqn:E1; [|discriminate].
  destruct (validate_target source names st1 (u"third-party")) as [st2|] eqn:E2; [|discriminate].
  apply Ok_inj in Hv as <-.
  apply validate_target_exact in E1 as (da & ida & na & ca & ta & _ & _ & _ & _ & ->).
  apply validate_target_exact in E2 as (dt & idt & nt & ct & tt & _ & _ & _ & _ & ->).
  split; eexists; reflexivity.
Qed.

(** The text of the manifest is read back. *)
Lemma manifest_read region_url source depth text :
  str_ok region_url = true -> json_ok source = true -> (S (nesting source) <= depth)%nat ->
  manifest_text region_url source = Ok text ->
  loads_plain depth text = Ok (manifest_val region_url source) /\ universal_newlines text = text.
Proof.
  intros Hr Hs Hd Ht. unfold manifest_text in Ht.
  destruct (dumps_with indent2_layout 0 _) as [t|] eqn:Et; [|discriminate]. apply Ok_inj in Ht as <-.
  assert (Hok : json_ok (manifest_val region_url source) = true).
  { unfold manifest_val. cbn [json_ok forallb fst snd]. rewrite Hr, Hs. by vm_compute. }
  split.
  - apply (loads_dumps_with plain_pairs default_constant plain_pairs_nodup indent2_layout
      (proj2 (proj2 layouts_ok)) 0 (manifest_val region_url source) t depth [10]); try done.
    unfold manifest_val. cbn [nesting foldr snd]. lia.
  - apply universal_newlines_plain. apply Forall_app. split; [|constructor; [by left|constructor]].
    by apply (dumps_with_plain _ _ _ _ (proj2 (proj2 layouts_ok)) Hok Et).
Qed.

(** A rendering that succeeds. *)
Lemma render_main_ok `{Unicode} depth fs environ terraform write w :
  render_main depth fs environ terraform write = (w, Ok tt) ->
  exists region_url targets source text prior rendered,
    read_targets depth fs environ terraform = Ok (region_url, targets, source) /\
    manifest_text region_url source = Ok text /\ read_prior fs = Ok prior /\
    rendered_lines targets region_url = Ok rendered /\
    w = [(u".generated/gateway_targets.json", text); (u".generated/runtime.env", runtime_text prior rendered)].
Proof.
  unfold render_main. intros H0.
  repeat match goal with
  | H : after _ _ = _ |- _ => apply after_ok in H as (? & ? & ? & ? & H & ->)
  | H : (let '(_, _) := ?p in _) = _ |- _ => destruct p
  | H : just _ = (_, Ok _) |- _ => unfold just in H; apply pair_equal_spec in H as [<- H]
  | H : put write _ _ = (_, Ok ?x) |- _ => destruct x; apply put_ok in H as ->
  end.
  do 6 eexists. split_and!; try eassumption. reflexivity.
Qed.

(** C17: The manifest that the rendering writes is accepted by the target command: when the
    environment does not override the configuration file, the command reads back the region,
    the validated targets and the selected one, without any further condition than that the
    region is an endpoint. *)
Theorem rendered_manifest_accepted `{Unicode} depth fs environ config terraform write w fs' depth' gateway :
  render_main depth fs environ terraform write = (w, Ok tt) ->
  read_env_file fs (u".env") = Ok config -> read_config fs' (u".env") = Ok config ->
  (forall key, key ∈ CONFIG_KEYS -> alookup key environ = None) ->
  (forall stdout source, terraform = Ok stdout -> loads_plain depth stdout = Ok source ->
     json_ok source = true /\ (S (nesting source) <= depth')%nat) ->
  (forall text, (MANIFEST_PATH, text) ∈ w ->
     exists mode content, node_at fs' MANIFEST_PATH = Some (FFile mode content) /\
       unreadable fs' MANIFEST_PATH = false /\ utf8_encode text = Some content) ->
  is_ok (endpoint_host (VStr (region_of environ config))) = true -> str_ok (region_of environ config) = true ->
  gateway = u"api" \/ gateway = u"third-party" ->
  exists source targets target,
    (let* stdout := terraform in loads_plain depth stdout) = Ok source /\
    validate_targets source (names_of environ config) = Ok targets /\
    dict_item targets gateway = Ok target /\
    read_manifest depth' fs' gateway = Ok (ManifestInfo (region_of environ config) targets target).
Proof.
  intros Hrender Hconfig Hconfig' Henv Hsource Hat Hregion Hstr Hg.
  destruct (render_main_ok _ _ _ _ _ _ Hrender) as (region & targets & source & text & prior & rendered & Hread & Htext & _ & _ & ->).
  unfold read_targets in Hread. rewrite Hconfig in Hread. cbv beta iota zeta in Hread.
  destruct terraform as [stdout|]; [|discriminate]. cbv beta iota in Hread.
  destruct (loads_plain depth stdout) as [output|] eqn:Eo; [|discriminate]. cbv beta iota in Hread.
  destruct (validate_targets output _) as [targets'|] eqn:Ev; [|discriminate].
  apply Ok_inj, pair_equal_spec in Hread as [[<- <-]%pair_equal_spec <-].
  destruct (Hsource stdout output eq_refl Eo) as [Hok Hnest].
  destruct (manifest_read _ _ _ _ Hstr Hok Hnest Htext) as [Hloads Hnl].
  destruct (Hat text) as (mode & content & Hnode & Hun & Henc); [by left|].
  assert (Hitem : exists target, dict_item targets' gateway = Ok target).
  { apply validate_targets_keys in Ev as [[t1 H1] [t2 H2]]. unfold dict_item.
    destruct Hg as [-> | ->]; [rewrite H1|rewrite H2]; by eexists. }
  destruct Hitem as [target Hitem]. exists output, targets', target. split_and!; try done.
  unfold read_manifest. unfold is_file, read_text. rewrite Hnode, Hun. cbn [negb]. unfold decode_utf8.
  rewrite (utf8_decode_encode _ _ Henc), Hnl, Hloads. cbv beta iota.
  unfold manifest_val at 1. rewrite val_set_is_dict.
  assert (keys_are [(u"konnect_server_url", VStr (region_of environ config)); (u"targets", output)] MANIFEST_FIELDS = true)
    as -> by (by vm_compute).
  rewrite Hconfig'. cbv beta iota. cbn [negb].
  assert (Hnames : names_of environ config = expected_names config).
  { unfold names_of, configured, expected_names. rewrite !Henv; [done|..]; apply (bool_decide_unpack _); by vm_compute. }
  assert (Hurl : rstrip_slash (config_get config "KONNECT_SERVER_URL" "https://us.api.konghq.com") = region_of environ config).
  { unfold region_of, configured. rewrite Henv; [done|]. apply (bool_decide_unpack _). by vm_compute. }
  rewrite Hurl, <- Hnames. unfold manifest_val.
  change (val_item (VDict _) (u"targets")) with (Ok output : res pyval).
  change (val_item (VDict _) (u"konnect_server_url")) with (Ok (VStr (region_of environ config)) : res pyval).
  cbv beta iota. rewrite Ev. cbv beta iota zeta.
  destruct (endpoint_host (VStr (region_of environ config))) as [host|]; [|discriminate Hregion].
  cbv beta iota. rewrite bool_decide_true by done. cbn [negb]. by rewrite Hitem.
Qed.

(** The rendered lines are endpoints. *)
Lemma rendered_lines_endpoints targets region_url rendered :
  rendered_lines targets region_url = Ok rendered ->
  rendered <> [] /\ Forall (fun line => is_kept line = false) rendered.
Proof.
  unfold rendered_lines. intros Hr.
  repeat match type of Hr with
  | match ?m with Ok _ => _ | Err _ => _ end = _ => destruct m; [|discriminate Hr]; cbv beta iota in Hr
  end.
  apply Ok_inj in Hr as <-. split; [discriminate|].
  assert (Hline : forall name value, u name ∈ endpoint_names -> 61 ∉ u name ->
    is_kept (u name ++ 61 :: value) = false).
  { intros name value Hin Hn. unfold is_kept. rewrite partition_on_app by done. cbn [fst].
    by rewrite bool_decide_true. }
  repeat apply Forall_cons_2; try apply Forall_nil_2.
  - apply (Hline "KONNECT_API_CP_HOST"%string); apply (bool_decide_unpack _); by vm_compute.
  - apply (Hline "KONNECT_API_TP_HOST"%string); apply (bool_decide_unpack _); by vm_compute.
  - apply (Hline "KONNECT_THIRD_PARTY_CP_HOST"%string); apply (bool_decide_unpack _); by vm_compute.
  - apply (Hline "KONNECT_THIRD_PARTY_TP_HOST"%string); apply (bool_decide_unpack _); by vm_compute.
  - apply (Hline "KONNECT_SERVER_URL"%string); apply (bool_decide_unpack _); by vm_compute.
Qed.

Lemma filter_kept prior rendered :
  Forall (fun line => is_kept line = false) rendered ->
  List.filter is_kept (List.filter is_kept prior ++ rendered) = List.filter is_kept prior.
Proof.
  intros Hr. rewrite List.filter_app.
  assert (List.filter is_kept rendered = []) as -> by (induction Hr as [|l ls Hl _ IH]; [done|]; cbn; by rewrite Hl).
  rewrite app_nil_r. induction prior as [|l ls IH]; [done|]. cbn [List.filter].
  destruct (is_kept l) eqn:E; [|done]. cbn [List.filter]. by rewrite E, IH.
Qed.

Lemma runtime_text_lines prior rendered :
  Forall one_line prior -> Forall one_line rendered -> rendered <> [] ->
  splitlines (runtime_text prior rendered) = List.filter is_kept prior ++ rendered.
Proof.
  intros Hp Hr Hne. unfold runtime_text. apply splitlines_join.
  - apply Forall_app. split; [|done]. apply Forall_forall. intros line Hin%list_elem_of_In%filter_In.
    destruct Hin as [Hin%list_elem_of_In _]. rewrite Forall_forall in Hp. by apply Hp.
  - by intros [_ ?]%app_eq_nil.
Qed.

(** Rendering again with the same inputs writes the same two files, and the lines that are
    not endpoints, the credentials among them, stay in the endpoints file in their order. *)
Theorem rendering_stable `{Unicode} depth fs environ terraform write w fs2 w2 :
  render_main depth fs environ terraform write = (w, Ok tt) ->
  render_main depth fs2 environ terraform write = (w2, Ok tt) ->
  read_env_file fs2 (u".env") = read_env_file fs (u".env") ->
  (forall text, (u".generated/runtime.env", text) ∈ w ->
     path_exists fs2 (u".generated/runtime.env") = true /\ read_text fs2 (u".generated/runtime.env") = Ok text) ->
  (forall region_url targets source rendered, read_targets depth fs environ terraform = Ok (region_url, targets, source) ->
     rendered_lines targets region_url = Ok rendered -> Forall one_line rendered) ->
  w2 = w /\
  exists prior text rendered, read_prior fs = Ok prior /\ (u".generated/runtime.env", text) ∈ w /\
    splitlines text = List.filter is_kept prior ++ rendered.
Proof.
  intros H1 H2 Hconfig Hat Hlines.
  destruct (render_main_ok _ _ _ _ _ _ H1) as (region & targets & source & text & prior & rendered & Hr & Ht & Hp & Hl & ->).
  destruct (render_main_ok _ _ _ _ _ _ H2) as (region2 & targets2 & source2 & text2 & prior2 & rendered2 & Hr2 & Ht2 & Hp2 & Hl2 & ->).
  assert (Hsame : read_targets depth fs2 environ terraform = read_targets depth fs environ terraform)
    by (unfold read_targets; by rewrite Hconfig).
  rewrite Hsame, Hr in Hr2. apply Ok_inj, pair_equal_spec in Hr2 as [[<- <-]%pair_equal_spec <-].
  rewrite Ht in Ht2. apply Ok_inj in Ht2 as <-. rewrite Hl in Hl2. apply Ok_inj in Hl2 as <-.
  destruct (rendered_lines_endpoints _ _ _ Hl) as [Hne Hk].
  assert (Hone : Forall one_line prior).
  { unfold read_prior in Hp. destruct (path_exists fs _); [|apply Ok_inj in Hp as <-; constructor].
    destruct (read_text fs _); [|discriminate]. apply Ok_inj in Hp as <-. apply splitlines_lines. }
  pose proof (runtime_text_lines prior rendered Hone (Hlines _ _ _ _ Hr Hl) Hne) as Hsplit.
  destruct (Hat (runtime_text prior rendered)) as [Hex Hread]; [right; by left|].
  unfold read_prior in Hp2. rewrite Hex, Hread in Hp2. apply Ok_inj in Hp2 as <-.
  split.
  - unfold runtime_text at 1. rewrite Hsplit, filter_kept by done. done.
  - exists prior, (runtime_text prior rendered), rendered. split_and!; [done|right; by left|done].
Qed.

(** ** A rendered environment *)

Module EnvSample.
Import Wp1Sample.
Definition line (s : string) : pystr := u s ++ [10].
Definition targets_val : pyval :=
  Wp1Sample.manifest "0f45debe-a3a6-5207-aea3-637227fb96f2" "754519ff-b0b9-5ed5-94c0-e453d260c6c4".
Definition terraform : res pystr := dumps_with default_layout 0 targets_val.

(** The configuration names both control planes; the endpoints file, when it is there, holds
    [prior]. *)
Definition env_text : pystr :=
  line "TF_VAR_control_plane_name='api-plane'" ++ line "TF_VAR_third_party_control_plane_name=tp-plane".
Definition fs (manifest prior : pystr) : fsys :=
  Fsys (fun p => if bool_decide (p = u".env") then Some (FFile 420 (map byte_of_Z env_text))
                 else if bool_decide (p = u".generated/runtime.env") then Some (FFile 384 (map byte_of_Z prior))
                 else if bool_decide (p = MANIFEST_PATH) then Some (FFile 384 (map byte_of_Z manifest)) else None)
    (fun _ => false) (fun _ => false).
Definition prior : pystr :=
  line "KEYCLOAK_ADMIN_PASSWORD=secret" ++ line "KONNECT_CP_HOST=old.example.com" ++ line "# kept".
Abbreviation run fs := (@render_main Wp1Sample.ascii_unicode 5 fs [] terraform (fun _ _ => Ok tt)).
Definition text_at (n : nat) : pystr := match fst (run (fs [] prior)) !! n with Some (_, t) => t | None => [] end.

Lemma run_ok : run (fs [] prior) =
  ([(u".generated/gateway_targets.json", text_at 0); (u".generated/runtime.env", text_at 1)], Ok tt).
Proof. vm_compute. reflexivity. Qed.

Lemma run_again_ok : snd (run (fs [] (text_at 1))) = Ok tt.
Proof. vm_compute. reflexivity. Qed.

Example endpoints_text : text_at 1 =
  line "KEYCLOAK_ADMIN_PASSWORD=secret" ++ line "# kept" ++ line "KONNECT_API_CP_HOST=cp1.example.com" ++
  line "KONNECT_API_TP_HOST=tp1.example.com" ++ line "KONNECT_THIRD_PARTY_CP_HOST=cp2.example.com" ++
  line "KONNECT_THIRD_PARTY_TP_HOST=tp2.example.com" ++ line "KONNECT_SERVER_URL=https://us.api.konghq.com".
Proof. vm_compute. reflexivity. Qed.
End EnvSample.

Lemma rendered_manifest_accepted_witness :
  exists targets target,
    @read_manifest Wp1Sample.ascii_unicode 5 (EnvSample.fs (EnvSample.text_at 0) []) (u"api") =
    Ok (ManifestInfo (u"https://us.api.konghq.com") targets target).
Proof.
  destruct (read_env_file (EnvSample.fs [] EnvSample.prior) (u".env")) as [config|] eqn:Ec; [|vm_compute in Ec; discriminate Ec].
  destruct (@rendered_manifest_accepted Wp1Sample.ascii_unicode 5 (EnvSample.fs [] EnvSample.prior) [] config
    EnvSample.terraform (fun _ _ => Ok tt) _ (EnvSample.fs (EnvSample.text_at 0) []) 5 (u"api") EnvSample.run_ok Ec)
    as (source & targets & target & _ & _ & _ & H).
  - rewrite <- Ec. vm_compute. reflexivity.
  - reflexivity.
  - intros stdout source Ht Hl. vm_compute in Ht. apply Ok_inj in Ht. subst stdout. vm_compute in Hl.
    apply Ok_inj in Hl. subst source. split; [vm_compute; reflexivity|]. apply Nat.leb_le. vm_compute. reflexivity.
  - intros text Hin. apply elem_of_cons in Hin as [Hin|Hin].
    + apply pair_equal_spec in Hin as [_ ->]. eexists _, _. split; [reflexivity|]. split; [reflexivity|].
      vm_compute. reflexivity.
    + exfalso. revert Hin. apply (bool_decide_unpack (_ ∉ _)). vm_compute. done.
  - vm_compute in Ec. apply Ok_inj in Ec. subst config. vm_compute. reflexivity.
  - vm_compute in Ec. apply Ok_inj in Ec. subst config. vm_compute. reflexivity.
  - by left.
  - exists targets, target. rewrite H. f_equal. f_equal. vm_compute in Ec. apply Ok_inj in Ec. subst config.
    vm_compute. reflexivity.
Defined.

Lemma rendering_stable_witness :
  fst (@render_main Wp1Sample.ascii_unicode 5 (EnvSample.fs [] (EnvSample.text_at 1)) [] EnvSample.terraform (fun _ _ => Ok tt)) =
  [(u".generated/gateway_targets.json", EnvSample.text_at 0); (u".generated/runtime.env", EnvSample.text_at 1)].
Proof.
  assert (E : EnvSample.run (EnvSample.fs [] (EnvSample.text_at 1)) =
    (fst (EnvSample.run (EnvSample.fs [] (EnvSample.text_at 1))), Ok tt))
    by (rewrite <- EnvSample.run_again_ok; apply surjective_pairing).
  apply (@rendering_stable Wp1Sample.ascii_unicode 5 _ [] EnvSample.terraform (fun _ _ => Ok tt) _ _ _ EnvSample.run_ok E).
  - reflexivity.
  - intros text Hin. apply elem_of_cons in Hin as [Hin|Hin].
    + exfalso. apply pair_equal_spec in Hin as [Hin _]. revert Hin. apply (bool_decide_unpack (_ <> _)). vm_compute. done.
    + apply elem_of_cons in Hin as [Hin|[]%elem_of_nil]. apply pair_equal_spec in Hin as [_ ->].
      split; vm_compute; reflexivity.
  - intros region targets source rendered Hr Hl. vm_compute in Hr. apply Ok_inj, pair_equal_spec in Hr as [Hr _].
    apply pair_equal_spec in Hr as [<- <-]. vm_compute in Hl. apply Ok_inj in Hl. subst rendered.
    apply (bool_decide_unpack _). vm_compute. done.
Defined.
