(* ===== verification/RealmTemplate.v ===== *)
(** The rendering of the Keycloak realm, [src/scripts/render-keycloak-realm.py]: the
    substitution of markers in a JSON template and the realm file. *)
From S2P Require Export Layout.

Local Open Scope Z_scope.

(** ** Substitution *)

(** The replacements, one after the other. *)
Definition replace_text (substitutions : list (pystr * pystr)) (s : pystr) : pystr :=
  fold_left (fun s mr => replace_sub (fst mr) (snd mr) s) substitutions s.

Fixpoint replace (substitutions : list (pystr * pystr)) (value : pyval) : pyval :=
  match value with
  | VDict d => VDict (map (fun kv => (fst kv, replace substitutions (snd kv))) d)
  | VList l => VList (map (replace substitutions) l)
  | VStr s => VStr (replace_text substitutions s)
  | _ => value
  end.

(** ** The script *)

(** [os.environ[key]] *)
Definition environ_item (environ : list (pystr * pystr)) (key : string) : res pystr :=
  res_of_option (Exn KeyError (u key)) (alookup (u key) environ).

Definition markers : list pystr :=
  map u ["__SALES_PASSWORD__"; "__ENGINEERING_PASSWORD__"; "__ROUTE_B_PUBLIC_KEY__"; "__ROUTE_B_JWK_KID__"]%string.

Definition read_substitutions (environ : list (pystr * pystr)) (public_key : pystr)
    : res (list (pystr * pystr)) :=
  let* sales := environ_item environ "SALES_PASSWORD" in
  let* engineering := environ_item environ "ENGINEERING_PASSWORD" in
  let* kid := environ_item environ "DECK_ROUTE_B_JWK_KID" in
  Ok (zip markers [sales; engineering; public_key; kid]).

(** The rotation setting; [lower] of a text is one of the two words only when the ASCII
    letters of the text are. *)
Definition rotation_setting (environ : list (pystr * pystr)) : pystr :=
  py_lower (match alookup (u"KEYCLOAK_REFRESH_TOKEN_ROTATION") environ with Some v => v | None => u"true" end).

(** The text of the realm file; [SystemExit] is an error of no class that is caught. *)
Definition render_realm (depth : nat) (fs : fsys) (environ : list (pystr * pystr)) (template public_key_path : pystr)
    : res pystr :=
  let* public_key := read_text fs public_key_path in
  let* substitutions := read_substitutions environ public_key in
  let* text := read_text fs template in
  let* value := loads_plain depth text in
  let rotation := rotation_setting environ in
  if negb (bool_decide (rotation ∈ [u"true"; u"false"]))
  then raise BaseError "KEYCLOAK_REFRESH_TOKEN_ROTATION must be true or false"
  else
    match replace substitutions value with
    | VDict realm =>
        let realm := ainsert (u"revokeRefreshToken") (VBool (bool_decide (rotation = u"true"))) realm in
        let* text := dumps_with indent2_layout 0 (VDict realm) in
        Ok (text ++ [10])
    | _ => raise TypeError "object does not support item assignment"
    end.

(** ** What the substitution means *)

(** A string is a marker, or has none. *)
Definition marked_text (ms : list pystr) (s : pystr) : Prop :=
  s ∈ ms \/ forall m, m ∈ ms -> is_infix m s = false.

(** Two values of the same shape: keys, order and everything that is not a text are the same,
    and the texts are related. *)
Inductive same_shape (texts : pystr -> pystr -> Prop) : pyval -> pyval -> Prop :=
  | shape_text s s' : texts s s' -> same_shape texts (VStr s) (VStr s')
  | shape_other v : match v with VStr _ | VList _ | VDict _ => False | _ => True end -> same_shape texts v v
  | shape_list l l' : Forall2 (same_shape texts) l l' -> same_shape texts (VList l) (VList l')
  | shape_dict d d' : Forall2 (fun kv kv' => fst kv = fst kv' /\ same_shape texts (snd kv) (snd kv')) d d' ->
      same_shape texts (VDict d) (VDict d').

(** A text that is a marker stands for the value of the marker, one without markers for itself. *)
Definition marker_filled (substitutions : list (pystr * pystr)) (s s' : pystr) : Prop :=
  alookup s substitutions = Some s' \/ (forall m, m ∈ substitutions.*1 -> is_infix m s = false) /\ s' = s.

Fixpoint marked (ms : list pystr) (v : pyval) : Prop :=
  match v with
  | VStr s => marked_text ms s
  | VList l => foldr (fun x P => marked ms x /\ P) True l
  | VDict d => foldr (fun kv P => marked ms (snd kv) /\ P) True d
  | _ => True
  end.

Lemma replace_sub_self (m r : pystr) : m <> [] -> replace_sub m r m = r.
Proof.
  intros Hm. destruct m as [|x m]; [done|]. unfold replace_sub. cbn [replace_from].
  pose proof (starts_with_app (x :: m) []) as Hs. rewrite app_nil_r in Hs. rewrite Hs.
  change (length (x :: m) - 1)%nat with (length m - 0)%nat. rewrite Nat.sub_0_r.
  enough (forall k s, (length s <= k)%nat -> replace_from k (x :: m) r s = []) as H by (rewrite H; [apply app_nil_r|done]).
  induction k as [|k IH]; intros [|y s] Hl; try done; cbn in *; [lia|]. apply IH. lia.
Qed.

Lemma replace_text_free substitutions s :
  (forall m, m ∈ substitutions.*1 -> is_infix m s = false) -> replace_text substitutions s = s.
Proof.
  unfold replace_text. induction substitutions as [|[m r] subs IH]; intros Hs; [done|]. cbn [fold_left fst snd].
  unfold replace_sub. rewrite replace_from_none by (apply Hs; by left). apply IH. intros m' Hm'. apply Hs. by right.
Qed.

(** No marker is in another one, and no replacement has a marker. *)
Definition substitutions_ok (substitutions : list (pystr * pystr)) : Prop :=
  NoDup substitutions.*1 /\ ([] ∉ substitutions.*1) /\
  (forall m m', m ∈ substitutions.*1 -> m' ∈ substitutions.*1 -> m <> m' -> is_infix m m' = false) /\
  (forall m m' r, m ∈ substitutions.*1 -> (m', r) ∈ substitutions -> is_infix m r = false).

Lemma replace_text_marker substitutions m r :
  substitutions_ok substitutions -> alookup m substitutions = Some r -> replace_text substitutions m = r.
Proof.
  intros (Hnd & Hne & Hm & Hr). assert (Hall : forall m', m' ∈ substitutions.*1 -> is_infix m' r = false \/
    alookup m substitutions <> Some r).
  { intros m' Hin. destruct (decide (alookup m substitutions = Some r)) as [He|]; [left|by right].
    apply alookup_Some_in in He. by eapply Hr. }
  intros Hl. assert (Hfree : forall m', m' ∈ substitutions.*1 -> is_infix m' r = false).
  { intros m' Hin. by destruct (Hall m' Hin). }
  clear Hall Hr. unfold replace_text. induction substitutions as [|[m0 r0] subs IH]; [done|].
  cbn [fold_left fst snd alookup] in *. destruct (decide (m = m0)) as [->|Hneq].
  - apply (inj Some) in Hl as ->. rewrite replace_sub_self by (intros ->; apply Hne; by left).
    apply replace_text_free. intros m' Hin. apply Hfree. by right.
  - assert (m ∈ subs.*1) as Hin by (by apply alookup_is_Some; rewrite Hl).
    unfold replace_sub. rewrite replace_from_none by (apply Hm; [by left|by right|done]).
    apply IH; try done.
    + by inversion Hnd.
    + intros H. apply Hne. by right.
    + intros x y Hx Hy. apply Hm; by right.
    + intros x Hx. apply Hfree. by right.
Qed.

Lemma replace_same_shape texts substitutions ms v :
  (forall s, marked_text ms s -> texts s (replace_text substitutions s)) ->
  marked ms v -> same_shape texts v (replace substitutions v).
Proof.
  intros Ht. induction v as [|b|z|f|s|l IH|d IH] using pyval_nested_ind; intros Hv; try by constructor.
  - cbn [replace]. constructor. by apply Ht.
  - cbn [marked replace] in *. constructor. induction IH as [|x l Hx _ IHl]; cbn [map foldr] in *; constructor.
    + by apply Hx, Hv.
    + by apply IHl, Hv.
  - cbn [marked replace] in *. constructor. induction IH as [|x d Hx _ IHd]; cbn [map foldr] in *; constructor.
    + split; [done|]. by apply Hx, Hv.
    + by apply IHd, Hv.
Qed.

(** When the markers of a template are whole values, and neither a replacement nor
    another marker contains a marker, the substitution gives exactly the template with every
    marker replaced by its own text: no key, order or other value changes. *)
Lemma replace_filled substitutions v :
  substitutions_ok substitutions -> marked substitutions.*1 v ->
  same_shape (marker_filled substitutions) v (replace substitutions v).
Proof.
  intros Hs. apply replace_same_shape. intros s [Hin|Hfree].
  - apply alookup_is_Some in Hin as [r Hr]. left. by rewrite (replace_text_marker _ _ r).
  - right. split; [done|]. by apply replace_text_free.
Qed.

(** In general the four markers are replaced one after the other. *)
Lemma marked_none v : marked [] v.
Proof.
  induction v as [|b|z|f|s|l IH|d IH] using pyval_nested_ind; try done.
  - right. intros m Hm. by inversion Hm.
  - cbn [marked]. induction IH; cbn [foldr]; by split_and?.
  - cbn [marked]. induction IH; cbn [foldr]; by split_and?.
Qed.

(** Values whose texts are scalar values, without floats and repeated keys. *)
Fixpoint text_val (v : pyval) : bool :=
  match v with
  | VFloat _ => false
  | VStr s => forallb is_scalar s
  | VList l => forallb text_val l
  | VDict d => negb (has_dup d.*1) && forallb (fun kv => forallb is_scalar (fst kv) && text_val (snd kv)) d
  | _ => true
  end.

Lemma replace_text_scalar substitutions s :
  Forall (fun mr => forallb is_scalar (snd mr) = true) substitutions -> forallb is_scalar s = true ->
  forallb is_scalar (replace_text substitutions s) = true.
Proof.
  unfold replace_text. intros Hs. revert s. induction Hs as [|[m r] subs Hr _ IH]; intros s H; [done|].
  cbn [fold_left fst snd] in *. apply IH. unfold replace_sub. generalize 0%nat as k.
  induction s as [|c s IHs]; intros k; [done|]. cbn [forallb] in H. apply andb_true_iff in H as [Hc H].
  cbn [replace_from]. destruct k as [|k]; [|by apply IHs].
  destruct (starts_with m (c :: s)).
  - rewrite forallb_app, Hr. by apply IHs.
  - cbn [forallb]. rewrite Hc. by apply IHs.
Qed.

Lemma replace_text_val substitutions v :
  Forall (fun mr => forallb is_scalar (snd mr) = true) substitutions -> text_val v = true ->
  text_val (replace substitutions v) = true /\ nesting (replace substitutions v) = nesting v.
Proof.
  intros Hs. induction v as [|b|z|f|s|l IH|d IH] using pyval_nested_ind; intros Hv; try done.
  - split; [|done]. by apply replace_text_scalar.
  - cbn [text_val replace nesting] in *. rewrite forallb_Forall in Hv.
    assert (Forall (fun x => text_val (replace substitutions x) = true /\
      nesting (replace substitutions x) = nesting x) l) as Hall.
    { apply Forall_forall. intros x Hx. rewrite Forall_forall in IH, Hv. auto. }
    split; [apply forallb_Forall, Forall_map; eapply Forall_impl; [exact Hall|]; by intros x []|].
    f_equal. clear -Hall. induction Hall as [|x l [_ Hx] _ IH]; [done|]. cbn [map foldr]. by rewrite Hx, IH.
  - cbn [text_val replace nesting] in *. apply andb_true_iff in Hv as [Hnd Hv]. rewrite forallb_Forall in Hv.
    assert (Forall (fun kv => (forallb is_scalar (fst kv) && text_val (replace substitutions (snd kv)) = true) /\
      nesting (replace substitutions (snd kv)) = nesting (snd kv)) d) as Hall.
    { apply Forall_forall. intros kv Hkv. rewrite Forall_forall in IH, Hv. specialize (Hv kv Hkv).
      apply andb_true_iff in Hv as [Hk Hv]. destruct (IH kv Hkv Hv) as [H1 H2]. by rewrite Hk, H1. }
    split.
    + apply andb_true_iff. split.
      * rewrite <- (list_fmap_compose (fun kv => (fst kv, replace substitutions (snd kv))) fst). exact Hnd.
      * apply forallb_Forall, Forall_map. eapply Forall_impl; [exact Hall|]. by intros kv [].
    + f_equal. clear -Hall. induction Hall as [|x l [_ Hx] _ IH]; [done|]. cbn [map foldr snd]. by rewrite Hx, IH.
Qed.

Lemma text_val_json_ok v : text_val v = true -> json_ok v = true.
Proof.
  assert (Hstr : forall s, forallb is_scalar s = true -> str_ok s = true)
    by (intros s H%forallb_Forall; by apply scalar_str_ok).
  induction v as [|b|z|f|s|l IH|d IH] using pyval_nested_ind; intros Hv; try done; cbn [text_val json_ok] in *.
  - by apply Hstr.
  - rewrite forallb_Forall in *. apply Forall_forall. intros x Hx. rewrite Forall_forall in IH, Hv. auto.
  - apply andb_true_iff in Hv as [-> Hv]. cbn [andb]. rewrite forallb_Forall in *. apply Forall_forall.
    intros kv Hkv. rewrite Forall_forall in IH, Hv. specialize (Hv kv Hkv). apply andb_true_iff in Hv as [Hk Hv].
    rewrite (Hstr _ Hk). cbn [andb]. auto.
Qed.

Lemma read_text_scalars fs path text : read_text fs path = Ok text -> forallb is_scalar text = true.
Proof. intros H. by apply forallb_Forall, (read_text_scalar fs path). Qed.

Lemma ainsert_members (P : pystr * pyval -> Prop) k v (d : pydict) :
  P (k, v) -> Forall P d -> Forall P (ainsert k v d).
Proof.
  intros Hkv. induction 1 as [|[k' v'] d Hp Hd IH]; cbn [ainsert]; [by constructor|].
  case_decide as Hk; [subst; by constructor|by constructor].
Qed.

(** The realm with one more setting is as deep and as plain as before. *)
Lemma with_setting k b (realm : pydict) n :
  forallb is_scalar k = true -> text_val (VDict realm) = true -> (nesting (VDict realm) <= n)%nat ->
  text_val (VDict (ainsert k (VBool b) realm)) = true /\ (nesting (VDict (ainsert k (VBool b) realm)) <= n)%nat.
Proof.
  intros Hk Hv Hn. cbn [text_val] in *. apply andb_true_iff in Hv as [Hnd Hv]. split.
  - apply andb_true_iff. split.
    + apply negb_true_iff, has_dup_false, ainsert_NoDup. by apply has_dup_false, negb_true_iff.
    + rewrite forallb_Forall in *. apply ainsert_members; [|done]. cbn. by rewrite Hk.
  - apply nesting_dict in Hn as (n' & -> & Hn). cbn [nesting]. apply le_n_S.
    assert (Forall (fun kv : pystr * pyval => (nesting (snd kv) <= n')%nat) (ainsert k (VBool b) realm)) as H
      by (apply ainsert_members; [cbn; lia|done]).
    clear -H. induction H as [|kv d Hkv _ IH]; cbn [foldr]; lia.
Qed.

(** What is read back from the text of the realm file. *)
Lemma realm_text_read depth fs environ template public_key_path text depth' :
  render_realm depth fs environ template public_key_path = Ok text ->
  (forall t value, read_text fs template = Ok t -> loads_plain depth t = Ok value ->
     text_val value = true /\ (nesting value <= depth')%nat) ->
  (forall key value, alookup key environ = Some value -> forallb is_scalar value = true) ->
  exists t value public_key substitutions realm,
    read_text fs template = Ok t /\ loads_plain depth t = Ok value /\
    read_text fs public_key_path = Ok public_key /\ read_substitutions environ public_key = Ok substitutions /\
    substitutions.*1 = markers /\ replace substitutions value = VDict realm /\
    rotation_setting environ ∈ [u"true"; u"false"] /\
    loads_plain depth' text = Ok (VDict (ainsert (u"revokeRefreshToken")
      (VBool (bool_decide (rotation_setting environ = u"true"))) realm)).
Proof.
  unfold render_realm. intros Hr Hvalue Henv.
  destruct (read_text fs public_key_path) as [public_key|] eqn:Ek; [|discriminate]. cbv beta iota in Hr.
  destruct (read_substitutions environ public_key) as [subs|] eqn:Es; [|discriminate]. cbv beta iota in Hr.
  destruct (read_text fs template) as [t|] eqn:Et; [|discriminate]. cbv beta iota in Hr.
  destruct (loads_plain depth t) as [value|] eqn:El; [|discriminate]. cbv beta iota zeta in Hr.
  destruct (bool_decide (rotation_setting environ ∈ _)) eqn:Erot; [|discriminate]. cbn [negb] in Hr.
  apply bool_decide_eq_true in Erot.
  assert (Hsubs : Forall (fun mr => forallb is_scalar (snd mr) = true) subs /\ subs.*1 = markers).
  { unfold read_substitutions, environ_item, res_of_option in Es.
    destruct (alookup (u"SALES_PASSWORD") environ) as [s1|] eqn:E1; [|discriminate].
    destruct (alookup (u"ENGINEERING_PASSWORD") environ) as [s2|] eqn:E2; [|discriminate].
    destruct (alookup (u"DECK_ROUTE_B_JWK_KID") environ) as [s3|] eqn:E3; [|discriminate].
    apply Ok_inj in Es as <-. split; [|done]. unfold markers. cbn [zip_with map].
    repeat apply Forall_cons_2; try apply Forall_nil_2; cbn [snd];
      [by eapply Henv|by eapply Henv|by eapply read_text_scalars|by eapply Henv]. }
  destruct Hsubs as [Hscalar Hkeys]. destruct (Hvalue t value eq_refl El) as [Hv Hn].
  destruct (replace_text_val subs value Hscalar Hv) as [Hrv Hrn].
  destruct (replace subs value) as [| | | | | |realm] eqn:Er; try discriminate. rewrite <- Hrn in Hn.
  destruct (dumps_with indent2_layout 0 _) as [out|] eqn:Ed; [|discriminate]. apply Ok_inj in Hr as <-.
  destruct (with_setting (u"revokeRefreshToken") (bool_decide (rotation_setting environ = u"true")) realm depth')
    as [Hok Hdepth]; [by vm_compute|done|lia|].
  exists t, value, public_key, subs, realm. split_and!; try done.
  apply (loads_dumps_with plain_pairs default_constant plain_pairs_nodup indent2_layout
    (proj2 (proj2 layouts_ok)) 0 _ out depth' [10]); try done. by apply text_val_json_ok.
Qed.

(** The values of the markers. *)
Definition marker_values (sales engineering public_key kid : pystr) : list (pystr * pystr) :=
  [(u"__SALES_PASSWORD__", sales); (u"__ENGINEERING_PASSWORD__", engineering);
   (u"__ROUTE_B_PUBLIC_KEY__", public_key); (u"__ROUTE_B_JWK_KID__", kid)].

(** One replacement after the other. *)
Definition filled_in_order (sales engineering public_key kid s s' : pystr) : Prop :=
  s' = replace_sub (u"__ROUTE_B_JWK_KID__") kid
         (replace_sub (u"__ROUTE_B_PUBLIC_KEY__") public_key
            (replace_sub (u"__ENGINEERING_PASSWORD__") engineering (replace_sub (u"__SALES_PASSWORD__") sales s))).

(** Rotation is on unless the environment says false; nothing else than the two words is
    allowed. *)
Definition rotation_chosen (environ : list (pystr * pystr)) (rotation : bool) : Prop :=
  match alookup (u"KEYCLOAK_REFRESH_TOKEN_ROTATION") environ with
  | None => rotation = true
  | Some word => py_lower word = if rotation then u"true" else u"false"
  end.

Lemma rotation_setting_chosen environ :
  rotation_setting environ ∈ [u"true"; u"false"] ->
  rotation_chosen environ (bool_decide (rotation_setting environ = u"true")).
Proof.
  unfold rotation_setting, rotation_chosen. intros Hin.
  destruct (alookup _ environ) as [word|]; [|by apply bool_decide_eq_true].
  apply elem_of_cons in Hin as [-> | Hin]; [done|]. by apply list_elem_of_singleton in Hin as ->.
Qed.

Lemma marker_values_ok sales engineering public_key kid :
  let values := marker_values sales engineering public_key kid in
  (forall m r, m ∈ values.*1 -> r ∈ values.*2 -> is_infix m r = false) -> substitutions_ok values.
Proof.
  cbv zeta. intros Hfree.
  assert (Hall : forallb (fun m => forallb (fun m' => bool_decide (m = m') || negb (is_infix m m')) markers) markers = true)
    by (vm_compute; reflexivity).
  split_and!; [by apply (bool_decide_unpack _); vm_compute..| |].
  - intros m m' Hm Hm' Hne. change ((marker_values sales engineering public_key kid).*1) with markers in Hm, Hm'.
    rewrite forallb_Forall, Forall_forall in Hall. specialize (Hall m Hm). cbv beta in Hall.
    rewrite forallb_Forall, Forall_forall in Hall. specialize (Hall m' Hm'). cbv beta in Hall.
    rewrite bool_decide_false in Hall by done. by apply negb_true_iff.
  - intros m m' r Hm Hr. apply Hfree; [done|]. by apply (list_elem_of_fmap_2 snd) in Hr.
Qed.

(** The realm file is read back as the template with its markers replaced and the rotation
    setting put in, whatever the texts of the environment and of the public key hold. *)
Lemma rendered_realm_faithful depth fs environ template public_key_path text depth' :
  render_realm depth fs environ template public_key_path = Ok text ->
  (forall t value, read_text fs template = Ok t -> loads_plain depth t = Ok value ->
     text_val value = true /\ (nesting value <= depth')%nat) ->
  (forall key value, alookup key environ = Some value -> forallb is_scalar value = true) ->
  exists t value public_key sales engineering kid realm rotation,
    read_text fs template = Ok t /\ loads_plain depth t = Ok value /\
    read_text fs public_key_path = Ok public_key /\
    alookup (u"SALES_PASSWORD") environ = Some sales /\
    alookup (u"ENGINEERING_PASSWORD") environ = Some engineering /\
    alookup (u"DECK_ROUTE_B_JWK_KID") environ = Some kid /\
    same_shape (filled_in_order sales engineering public_key kid) value (VDict realm) /\
    (let values := marker_values sales engineering public_key kid in
     marked values.*1 value -> (forall m r, m ∈ values.*1 -> r ∈ values.*2 -> is_infix m r = false) ->
     same_shape (marker_filled values) value (VDict realm)) /\
    rotation_chosen environ rotation /\
    loads_plain depth' text = Ok (VDict (ainsert (u"revokeRefreshToken") (VBool rotation) realm)).
Proof.
  intros Hr Hvalue Henv.
  destruct (realm_text_read _ _ _ _ _ _ _ Hr Hvalue Henv)
    as (t & value & public_key & subs & realm & Ht & Hl & Hk & Hs & _ & Hrealm & Hrot & Hloads).
  unfold read_substitutions, environ_item, res_of_option in Hs.
  destruct (alookup (u"SALES_PASSWORD") environ) as [sales|] eqn:E1; [|discriminate].
  destruct (alookup (u"ENGINEERING_PASSWORD") environ) as [engineering|] eqn:E2; [|discriminate].
  destruct (alookup (u"DECK_ROUTE_B_JWK_KID") environ) as [kid|] eqn:E3; [|discriminate].
  apply Ok_inj in Hs. change (marker_values sales engineering public_key kid = subs) in Hs. subst subs.
  exists t, value, public_key, sales, engineering, kid, realm, (bool_decide (rotation_setting environ = u"true")).
  split_and!; try done.
  - rewrite <- Hrealm. apply (replace_same_shape _ _ []); [done|]. apply marked_none.
  - cbv zeta. intros Hm Hfree. rewrite <- Hrealm. apply replace_filled; [|done]. by apply marker_values_ok.
  - by apply rotation_setting_chosen.
Qed.

(** ** A small realm *)

Module RealmSample.
Definition environ : list (pystr * pystr) :=
  [(u"SALES_PASSWORD", u"s3cret"); (u"ENGINEERING_PASSWORD", u"pa_ss"); (u"DECK_ROUTE_B_JWK_KID", u"kid-1");
   (u"KEYCLOAK_REFRESH_TOKEN_ROTATION", u"False")].
Definition template : pyval :=
  VDict [(u"realm", jstr "fapi-demo"); (u"revokeRefreshToken", VBool true);
         (u"clients", VList [VDict [(u"kid", jstr "__ROUTE_B_JWK_KID__"); (u"key", jstr "__ROUTE_B_PUBLIC_KEY__")]]);
         (u"users", VList [VDict [(u"value", jstr "__SALES_PASSWORD__")]; VDict [(u"value", jstr "__ENGINEERING_PASSWORD__")]])].
Definition substitutions : list (pystr * pystr) := zip markers [u"s3cret"; u"pa_ss"; u"MII" ++ [10]; u"kid-1"].
Definition template_text : pystr := match dumps_with indent2_layout 0 template with Ok t => t | Err _ => [] end.
Definition fs : fsys :=
  Fsys (fun p => if bool_decide (p = u"template.json") then Some (FFile 420 (map byte_of_Z template_text))
                 else if bool_decide (p = u"route-b.pub") then Some (FFile 420 (map byte_of_Z (u"MII" ++ [10]))) else None)
    (fun _ => false) (fun _ => false).

Example replaced :
  replace substitutions template =
  VDict [(u"realm", jstr "fapi-demo"); (u"revokeRefreshToken", VBool true);
         (u"clients", VList [VDict [(u"kid", jstr "kid-1"); (u"key", VStr (u"MII" ++ [10]))]]);
         (u"users", VList [VDict [(u"value", jstr "s3cret")]; VDict [(u"value", jstr "pa_ss")]])].
Proof. vm_compute. reflexivity. Qed.

(** The replacements are made one after the other, so that a password that contains a later
    marker is itself changed. *)
Example replaced_twice :
  replace_text [(u"__SALES_PASSWORD__", u"x__ENGINEERING_PASSWORD__"); (u"__ENGINEERING_PASSWORD__", u"y")]
    (u"__SALES_PASSWORD__") = u"xy".
Proof. vm_compute. reflexivity. Qed.
End RealmSample.
