(* ===== verification/Pki.v ===== *)
(** The development certificates, [src/scripts/generate-pki.py]: the certificate authority
    and the identities as files of a directory.  The [openssl] program is an interface whose
    laws say which files a command may touch. *)
From stdpp Require Import gmap.
From S2P Require Export PyExn.

Local Open Scope Z_scope.

(** ** The directory *)

Inductive node := PFile (content : pystr) | POther.
Abbreviation pki := (gmap (list Z) node).

(** [path.exists()] and [path.is_file()] *)
Definition exists_at (s : pki) (path : pystr) : bool := bool_decide (is_Some (s !! path)).
Definition file_at (s : pki) (path : pystr) : bool := match s !! path with Some (PFile _) => true | _ => false end.

(** What a step does to the directory, and its outcome. *)
Definition step (A : Type) : Type := pki -> pki * res A.
Definition bind {A B} (m : step A) (k : A -> step B) : step B :=
  fun s => match m s with (s', Ok a) => k a s' | (s', Err e) => (s', Err e) end.
Definition done_ : step unit := fun s => (s, Ok tt).
Notation "m ;> k" := (bind m (fun _ => k)) (at level 60, right associativity) : py_scope.

(** Running [openssl], writing a text and removing a file. *)
Class PkiTools := {
  run : list pystr -> step unit;
  write_text : pystr -> pystr -> step unit;
  unlink : pystr -> step unit
}.

(** The files a command writes: the values of its options [-out] and [-keyout]. *)
Fixpoint outputs (args : list pystr) : list pystr :=
  match args with
  | option :: ((value :: _) as rest) =>
      if bool_decide (option = u"-out") || bool_decide (option = u"-keyout") then value :: outputs rest else outputs rest
  | _ => []
  end.

(** [dir / name] in the directory of the certificates. *)
Definition in_pki (dir name : pystr) : pystr := dir ++ u"/" ++ name.

(** The serial number that [-CAcreateserial] keeps next to the authority. *)
Definition serial (dir : pystr) : pystr := in_pki dir (u"ca.srl").

(** Only the named files are touched; they are there after a success, and a file that could
    not be removed is as it was. *)
Class PkiLaws `(PkiTools) (dir : pystr) : Prop := {
  run_touches : forall args s path, path ∉ outputs args -> path <> serial dir -> fst (run args s) !! path = s !! path;
  run_writes : forall args s s' path, run args s = (s', Ok tt) -> path ∈ outputs args -> file_at s' path = true;
  write_touches : forall path text s other, other <> path -> fst (write_text path text s) !! other = s !! other;
  write_writes : forall path text s s', write_text path text s = (s', Ok tt) -> s' !! path = Some (PFile text);
  unlink_touches : forall path s other, other <> path -> fst (unlink path s) !! other = s !! other;
  unlink_removes : forall path s s', unlink path s = (s', Ok tt) -> s' !! path = None
}.

Section pki.
Context `{PkiTools} (dir : pystr).

(** ** The certificate authority *)

Definition CA_OPTIONS : list pystr :=
  map u ["openssl"; "req"; "-x509"; "-newkey"; "rsa:4096"; "-sha256"; "-nodes"; "-days"; "30";
         "-addext"; "basicConstraints=critical,CA:TRUE";
         "-addext"; "keyUsage=critical,keyCertSign,cRLSign";
         "-addext"; "subjectKeyIdentifier=hash";
         "-subj"; "/CN=FAPI demo development CA"]%string.

Definition ensure_ca : step unit := fun s =>
  let key := in_pki dir (u"ca.key") in
  let cert := in_pki dir (u"ca.crt") in
  if exists_at s key || exists_at s cert
  then if file_at s key && file_at s cert then (s, Ok tt)
       else (s, raise ValueError "refusing to overwrite incomplete development CA")
  else run (CA_OPTIONS ++ [u"-keyout"; key; u"-out"; cert]) s.

(** ** An identity *)

Definition genpkey_args (key : pystr) : list pystr :=
  map u ["openssl"; "genpkey"; "-algorithm"; "RSA"; "-pkeyopt"; "rsa_keygen_bits:3072"; "-out"]%string ++ [key].
Definition request_args (key common_name csr : pystr) : list pystr :=
  map u ["openssl"; "req"; "-new"; "-key"]%string ++ [key; u"-subj"; u"/CN=" ++ common_name; u"-out"; csr].
Definition sign_args (csr extension cert : pystr) : list pystr :=
  map u ["openssl"; "x509"; "-req"; "-in"]%string
  ++ [csr; u"-CA"; in_pki dir (u"ca.crt"); u"-CAkey"; in_pki dir (u"ca.key")]
  ++ map u ["-CAcreateserial"; "-days"; "30"; "-sha256"; "-extfile"]%string ++ [extension; u"-out"; cert].

(** The lines of the extension file, each with its line feed. *)
Definition extension_text (usage san : pystr) : pystr :=
  let lines := [u"basicConstraints=critical,CA:FALSE"; u"keyUsage=critical,digitalSignature,keyEncipherment";
                u"extendedKeyUsage=" ++ usage]
               ++ match san with [] => [] | _ => [u"subjectAltName=" ++ san] end in
  concat (map (fun line => line ++ [10]) lines).

Definition issue (name common_name usage san : pystr) : step unit := fun s =>
  let cert := in_pki dir (name ++ u".crt") in
  let key := in_pki dir (name ++ u".key") in
  let csr := in_pki dir (name ++ u".csr") in
  let extension := in_pki dir (name ++ u".ext") in
  if exists_at s cert || exists_at s key || exists_at s csr || exists_at s extension
  then if file_at s cert && file_at s key && negb (exists_at s csr) && negb (exists_at s extension)
       then (s, Ok tt)
       else (s, Err (Exn ValueError (u"refusing to overwrite incomplete certificate identity: " ++ name)))
  else
    (run (genpkey_args key) ;>
     run (request_args key common_name csr) ;>
     write_text extension (extension_text usage san) ;>
     run (sign_args csr extension cert) ;>
     unlink csr ;>
     unlink extension) s.

(** ** The script *)

Definition identities : list (pystr * (pystr * (pystr * pystr))) :=
  map (fun '(n, (c, (e, a))) => (u n, (u c, (u e, u a))))
  [("keycloak", ("keycloak", ("serverAuth", "DNS:keycloak,DNS:localhost,IP:127.0.0.1")));
   ("kong-proxy", ("localhost", ("serverAuth", "DNS:localhost,IP:127.0.0.1")));
   ("ui", ("localhost", ("serverAuth", "DNS:localhost,IP:127.0.0.1")));
   ("pop-verifier", ("pop-verifier", ("serverAuth", "DNS:pop-verifier,DNS:localhost,IP:127.0.0.1")));
   ("route-a", ("kong-fapi-mtls", ("clientAuth", EmptyString)));
   ("route-b", ("kong-fapi-pkj-mtls", ("clientAuth", EmptyString)));
   ("third-party-backend", ("third-party-backend", ("serverAuth", "DNS:third-party-backend")));
   ("third-party-backend-hop", ("third-party-backend-hop", ("clientAuth", EmptyString)));
   ("third-party-metadata", ("third-party-metadata", ("clientAuth", EmptyString)));
   ("api-gateway", ("kong-api", ("serverAuth", "DNS:kong-api,DNS:localhost,IP:127.0.0.1")));
   ("api-introspection", ("api-gateway-introspection", ("clientAuth", EmptyString)));
   ("api-upstream", ("api-gateway-upstream", ("clientAuth", EmptyString)))]%string.

Fixpoint issue_all (l : list (pystr * (pystr * (pystr * pystr)))) : step unit :=
  match l with
  | [] => done_
  | (name, (common_name, (usage, san))) :: rest => issue name common_name usage san ;> issue_all rest
  end.

(** [main], once the directory is there. *)
Definition generate : step unit := ensure_ca ;> issue_all identities.
End pki.

(** ** Paths *)

Section paths.
Context (dir : pystr).

(** The file of an identity with a suffix of four characters. *)
Definition part (name : pystr) (suffix : string) : pystr := in_pki dir (name ++ u suffix).

Lemma part_inj name name' suffix suffix' :
  length (u suffix) = length (u suffix') -> part name suffix = part name' suffix' ->
  name = name' /\ u suffix = u suffix'.
Proof. unfold part, in_pki. intros Hl Hp%app_inv_head%app_inv_head. by apply app_inj_2. Qed.

Lemma part_ne name name' suffix suffix' :
  length (u suffix) = length (u suffix') -> name <> name' \/ u suffix <> u suffix' ->
  part name suffix <> part name' suffix'.
Proof. intros Hl Hne [? ?]%part_inj; [|done]. by destruct Hne. Qed.

Lemma serial_part : serial dir = part (u"ca") ".srl".
Proof. done. Qed.
End paths.

(** ** What the steps touch *)

Section touches.
Context `{PkiLaws}.

(** The step leaves a path alone. *)
Definition leaves {A} (path : pystr) (m : step A) : Prop := forall s, fst (m s) !! path = s !! path.

Lemma leaves_bind {A B} path (m : step A) (k : A -> step B) :
  leaves path m -> (forall a, leaves path (k a)) -> leaves path (bind m k).
Proof.
  intros Hm Hk s. unfold bind. specialize (Hm s). destruct (m s) as [s' [a|e]]; cbn [fst] in *; [|done].
  by rewrite Hk.
Qed.

Lemma leaves_run path args : path ∉ outputs args -> path <> serial dir -> leaves path (run args).
Proof. intros Ho Hs s. by apply run_touches. Qed.

(** What a sequence does when it succeeds. *)
Lemma bind_ok {A B} (m : step A) (k : A -> step B) s s' b :
  bind m k s = (s', Ok b) -> exists s1 a, m s = (s1, Ok a) /\ k a s1 = (s', Ok b).
Proof.
  unfold bind. destruct (m s) as [s1 [a|e]]; [by exists s1, a|discriminate].
Qed.

(** The arguments before the outputs are no options for outputs. *)
Definition plain_arg (a : pystr) : Prop := a <> u"-out" /\ a <> u"-keyout".

Lemma outputs_plain args rest : Forall plain_arg args -> rest <> [] -> outputs (args ++ rest) = outputs rest.
Proof.
  intros Ha Hr. induction Ha as [|a args [Ho Hk] Ha IH]; [done|]. cbn [app outputs].
  destruct (args ++ rest) as [|b l] eqn:E; [by apply app_eq_nil in E as [_ ?]|].
  by rewrite !bool_decide_false.
Qed.

Lemma outputs_out x : outputs [u"-out"; x] = [x].
Proof. reflexivity. Qed.

Lemma plain_slash a : 47 ∈ a -> plain_arg a.
Proof. intros Ha. split; intros ->; revert Ha; apply (bool_decide_unpack (_ ∉ _)); by vm_compute. Qed.

Lemma plain_path name : plain_arg (in_pki dir name).
Proof. apply plain_slash. unfold in_pki. rewrite !elem_of_app. right. left. by left. Qed.

Lemma plain_words l : forallb (fun s => negb (bool_decide (u s = u"-out")) && negb (bool_decide (u s = u"-keyout"))) l = true ->
  Forall plain_arg (map u l).
Proof.
  intros Hw%forallb_Forall. apply Forall_map. eapply Forall_impl; [exact Hw|]. intros s.
  rewrite andb_true_iff, !negb_true_iff, !bool_decide_eq_false. done.
Qed.

Lemma genpkey_outputs key : outputs (genpkey_args key) = [key].
Proof. reflexivity. Qed.

Lemma ca_outputs : outputs (CA_OPTIONS ++ [u"-keyout"; in_pki dir (u"ca.key"); u"-out"; in_pki dir (u"ca.crt")]) =
  [in_pki dir (u"ca.key"); in_pki dir (u"ca.crt")].
Proof.
  rewrite outputs_plain; [|by apply plain_words; vm_compute|done]. cbn [outputs].
  destruct (plain_path (u"ca.key")) as [Ho Hk]. rewrite (bool_decide_false (in_pki dir (u"ca.key") = _)) by done.
  rewrite (bool_decide_false (in_pki dir (u"ca.key") = _)) by done. reflexivity.
Qed.

Lemma request_outputs name common_name csr :
  outputs (request_args (in_pki dir name) common_name csr) = [csr].
Proof.
  unfold request_args. change ([in_pki dir name; u"-subj"; u"/CN=" ++ common_name; u"-out"; csr])
    with ([in_pki dir name; u"-subj"; u"/CN=" ++ common_name] ++ [u"-out"; csr]).
  rewrite app_assoc, outputs_plain; [apply outputs_out| |done]. apply Forall_app. split; [by apply plain_words; vm_compute|].
  repeat apply Forall_cons_2; try apply Forall_nil_2; [apply plain_path|split; discriminate|].
  apply plain_slash. apply elem_of_app. left. by left.
Qed.

Lemma sign_outputs name name' cert : outputs (sign_args dir (in_pki dir name) (in_pki dir name') cert) = [cert].
Proof.
  unfold sign_args. change ([in_pki dir name'; u"-out"; cert]) with ([in_pki dir name'] ++ [u"-out"; cert]).
  rewrite !app_assoc, outputs_plain; [apply outputs_out| |done].
  repeat (apply Forall_app; split); try (by apply plain_words; vm_compute);
    repeat apply Forall_cons_2; try apply Forall_nil_2; try apply plain_path; split; discriminate.
Qed.

(** Creating an identity touches its own four files and the serial number only. *)
Definition suffixes : list string := [".crt"; ".key"; ".csr"; ".ext"]%string.

Lemma create_leaves name common_name usage san path :
  (forall suffix, suffix ∈ suffixes -> path <> part dir name suffix) -> path <> serial dir ->
  leaves path
    (run (genpkey_args (part dir name ".key")) ;>
     run (request_args (part dir name ".key") common_name (part dir name ".csr")) ;>
     write_text (part dir name ".ext") (extension_text usage san) ;>
     run (sign_args dir (part dir name ".csr") (part dir name ".ext") (part dir name ".crt")) ;>
     unlink (part dir name ".csr") ;>
     unlink (part dir name ".ext")).
Proof.
  intros Hp Hs. assert (Hin : forall suffix, suffix ∈ suffixes -> path ∉ [part dir name suffix]).
  { intros suffix Hsuf [Heq|[]%elem_of_nil]%elem_of_cons. by eapply Hp. }
  repeat (apply leaves_bind; [|intros _]).
  - apply leaves_run; [|done]. rewrite genpkey_outputs. apply Hin. set_solver.
  - apply leaves_run; [|done]. unfold part at 1. rewrite request_outputs. apply Hin. set_solver.
  - intros s. apply write_touches. apply Hp. set_solver.
  - apply leaves_run; [|done]. unfold part at 1 2. rewrite sign_outputs. apply Hin. set_solver.
  - intros s. apply unlink_touches. apply Hp. set_solver.
  - intros s. apply unlink_touches. apply Hp. set_solver.
Qed.

(** A file that is there stays as it is. *)
Definition preserves {A} (m : step A) : Prop :=
  forall s path, exists_at s path = true -> path <> serial dir -> fst (m s) !! path = s !! path.

Lemma preserves_bind {A B} (m : step A) (k : A -> step B) :
  preserves m -> (forall a, preserves (k a)) -> preserves (bind m k).
Proof.
  intros Hm Hk s path He Hs. unfold bind. specialize (Hm s path He Hs). destruct (m s) as [s' [a|e]]; cbn [fst] in *; [|done].
  rewrite Hk; [done| |done]. unfold exists_at in *. by rewrite Hm.
Qed.

Lemma issue_preserves name common_name usage san : preserves (issue dir name common_name usage san).
Proof.
  intros s path He Hs. unfold issue. destruct (_ || _ || _ || _) eqn:Ex.
  - by destruct (_ && _ && _ && _).
  - rewrite !orb_false_iff in Ex. destruct Ex as [[[E1 E2] E3] E4]. apply create_leaves; [|done].
    assert (Hne : forall p, exists_at s p = false -> path <> p) by (intros p Hp ->; congruence).
    intros suffix Hin. unfold suffixes in Hin. rewrite !elem_of_cons in Hin.
    destruct Hin as [->|[->|[->|[->|[]%elem_of_nil]]]]; by apply Hne.
Qed.

Lemma ensure_ca_preserves : preserves (ensure_ca dir).
Proof.
  intros s path He Hs. unfold ensure_ca. destruct (_ || _) eqn:Ex.
  - by destruct (_ && _).
  - apply orb_false_iff in Ex as [E1 E2]. apply run_touches; [|done]. rewrite ca_outputs.
    intros [->|[->|[]%elem_of_nil]%elem_of_cons]%elem_of_cons; congruence.
Qed.

Lemma issue_all_preserves l : preserves (issue_all dir l).
Proof.
  induction l as [|[name [common_name [usage san]]] l IH]; [done|]. cbn [issue_all].
  apply preserves_bind; [apply issue_preserves|intros _; apply IH].
Qed.

(** C19: No run, successful or not, changes a file that was there before, the serial number
    apart: an authority or identity that is complete is kept, and nothing of an incomplete
    one is overwritten. *)
Theorem generate_preserves s path :
  exists_at s path = true -> path <> serial dir -> fst (generate dir s) !! path = s !! path.
Proof.
  apply (preserves_bind (ensure_ca dir) (fun _ => issue_all dir identities)).
  - apply ensure_ca_preserves.
  - intros _. apply issue_all_preserves.
Qed.
End touches.

(** ** Complete directories *)

(** Certificate and key are there, and nothing is left over. *)
Definition complete (dir : pystr) (s : pki) (name : pystr) : Prop :=
  file_at s (part dir name ".crt") = true /\ file_at s (part dir name ".key") = true /\
  exists_at s (part dir name ".csr") = false /\ exists_at s (part dir name ".ext") = false.

Definition all_complete (dir : pystr) (s : pki) (names : list pystr) : Prop :=
  file_at s (part dir (u"ca") ".crt") = true /\ file_at s (part dir (u"ca") ".key") = true /\
  Forall (complete dir s) names.

Lemma file_exists s path : file_at s path = true -> exists_at s path = true.
Proof.
  unfold file_at, exists_at. by destruct (s !! path) as [[]|].
Qed.

Section completes.
Context `{PkiLaws}.

(** An identity that could be created is complete. *)
Lemma issue_completes name common_name usage san s s' :
  name <> u"ca" -> issue dir name common_name usage san s = (s', Ok tt) -> complete dir s' name.
Proof.
  intros Hca Hi. unfold issue in Hi.
  change (in_pki dir (name ++ u".crt")) with (part dir name ".crt") in Hi.
  change (in_pki dir (name ++ u".key")) with (part dir name ".key") in Hi.
  change (in_pki dir (name ++ u".csr")) with (part dir name ".csr") in Hi.
  change (in_pki dir (name ++ u".ext")) with (part dir name ".ext") in Hi.
  destruct (_ || _ || _ || _) eqn:Ex.
  { destruct (_ && _ && _ && _) eqn:Ef; [|discriminate]. apply pair_equal_spec in Hi as [<- _].
    rewrite !andb_true_iff, !negb_true_iff in Ef. unfold complete. tauto. }
  clear Ex.
  apply bind_ok in Hi as (s1 & [] & Hkey & Hi). apply bind_ok in Hi as (s2 & [] & Hreq & Hi).
  apply bind_ok in Hi as (s3 & [] & Hext & Hi). apply bind_ok in Hi as (s4 & [] & Hsign & Hi).
  apply bind_ok in Hi as (s5 & [] & Hcsr & Hlast).
  assert (Hne : forall a b, length (u a) = length (u b) -> u a <> u b -> part dir name a <> part dir name b).
  { intros a b Hl Hab. apply part_ne; [done|by right]. }
  assert (Hns : forall a, length (u a) = 4%nat -> part dir name a <> serial dir).
  { intros a Hl. rewrite serial_part. apply part_ne; [done|by left]. }
  assert (Hstep : forall (m : step unit) path x y, m x = (y, Ok tt) -> leaves path m -> y !! path = x !! path).
  { intros m path x y Hm Hl. specialize (Hl x). by rewrite Hm in Hl. }
  assert (Hlr : forall path args o, outputs args = [o] -> path <> o -> path <> serial dir -> leaves path (run args)).
  { intros path args o Ho Hp Hs. apply leaves_run; [|done]. rewrite Ho. by intros [?|[]%elem_of_nil]%elem_of_cons. }
  pose proof (request_outputs (dir := dir) (name ++ u".key") common_name (part dir name ".csr")) as Hro.
  pose proof (sign_outputs (dir := dir) (name ++ u".csr") (name ++ u".ext") (part dir name ".crt")) as Hso.
  assert (Hcert : file_at s4 (part dir name ".crt") = true).
  { eapply run_writes; [exact Hsign|]. unfold part at 2 3. rewrite Hso. by left. }
  assert (Hk1 : file_at s1 (part dir name ".key") = true) by (eapply run_writes; [exact Hkey|]; rewrite genpkey_outputs; by left).
  assert (Hcsr5 : s5 !! part dir name ".csr" = None) by (by eapply unlink_removes).
  assert (Hext6 : s' !! part dir name ".ext" = None) by (by eapply unlink_removes).
  assert (H65 : forall path, path <> part dir name ".ext" -> s' !! path = s5 !! path).
  { intros path Hp. eapply Hstep; [exact Hlast|]. intros x. by apply unlink_touches. }
  assert (H54 : forall path, path <> part dir name ".csr" -> s5 !! path = s4 !! path).
  { intros path Hp. eapply Hstep; [exact Hcsr|]. intros x. by apply unlink_touches. }
  unfold complete, file_at, exists_at in *. split_and!.
  - by rewrite H65, H54 by by apply Hne.
  - rewrite H65, H54 by by apply Hne.
    rewrite (Hstep _ _ _ _ Hsign) by (eapply Hlr; [exact Hso|by apply Hne|by apply Hns]).
    rewrite (Hstep _ _ _ _ Hext) by (intros x; apply write_touches; by apply Hne).
    rewrite (Hstep _ _ _ _ Hreq) by (eapply Hlr; [exact Hro|by apply Hne|by apply Hns]). done.
  - rewrite H65 by by apply Hne. rewrite Hcsr5. apply bool_decide_eq_false. by intros [].
  - rewrite Hext6. apply bool_decide_eq_false. by intros [].
Qed.

(** Creating another identity keeps an identity complete. *)
Lemma issue_keeps name name' common_name usage san s :
  name <> name' -> name <> u"ca" -> complete dir s name ->
  complete dir (fst (issue dir name' common_name usage san s)) name.
Proof.
  intros Hne Hca (Hc & Hk & Hr & He).
  assert (Hns : forall a, length (u a) = 4%nat -> part dir name a <> serial dir).
  { intros a Hl. rewrite serial_part. apply part_ne; [done|by left]. }
  assert (Hsame : forall a, length (u a) = 4%nat ->
    fst (issue dir name' common_name usage san s) !! part dir name a = s !! part dir name a).
  { intros a Hl. unfold issue. destruct (_ || _ || _ || _) eqn:Ex; [by destruct (_ && _ && _ && _)|].
    apply create_leaves; [|by apply Hns]. intros suffix Hin. apply part_ne; [|by left].
    unfold suffixes in Hin. rewrite !elem_of_cons in Hin. by destruct Hin as [->|[->|[->|[->|[]%elem_of_nil]]]]. }
  unfold complete, file_at, exists_at in *. by rewrite !Hsame.
Qed.

Lemma issue_all_keeps l name s :
  (name ∉ l.*1) -> name <> u"ca" -> complete dir s name -> complete dir (fst (issue_all dir l s)) name.
Proof.
  revert s. induction l as [|[name' [common_name [usage san]]] l IH]; intros s Hn Hca Hc; [done|].
  cbn [issue_all]. unfold bind. apply not_elem_of_cons in Hn as [Hne Hn].
  pose proof (issue_keeps name name' common_name usage san s Hne Hca Hc) as Hk.
  destruct (issue dir name' _ _ _ s) as [s' [[]|e]]; [|done]. by apply IH.
Qed.

Lemma issue_all_completes l s s' :
  NoDup l.*1 -> (u"ca" ∉ l.*1) -> issue_all dir l s = (s', Ok tt) -> Forall (complete dir s') l.*1.
Proof.
  revert s. induction l as [|[name [common_name [usage san]]] l IH]; intros s Hnd Hca Hi; [constructor|].
  cbn [issue_all] in Hi. apply bind_ok in Hi as (s1 & [] & H1 & H2). csimpl in *.
  apply NoDup_cons in Hnd as [Hn Hnd]. apply not_elem_of_cons in Hca as [Hne Hca]. constructor; [|by eapply IH].
  pose proof (issue_all_keeps l name s1 Hn (not_eq_sym Hne)) as Hk. rewrite H2 in Hk. apply Hk.
  eapply issue_completes; [|exact H1]. by apply not_eq_sym.
Qed.
End completes.

Section generated.
Context `{PkiLaws}.

Lemma ensure_ca_completes s s' :
  ensure_ca dir s = (s', Ok tt) ->
  file_at s' (part dir (u"ca") ".crt") = true /\ file_at s' (part dir (u"ca") ".key") = true.
Proof.
  unfold ensure_ca. change (in_pki dir (u"ca.key")) with (part dir (u"ca") ".key").
  change (in_pki dir (u"ca.crt")) with (part dir (u"ca") ".crt"). destruct (_ || _).
  - destruct (file_at s _ && file_at s _) eqn:Ef; [|discriminate]. intros [<- _]%pair_equal_spec.
    by apply andb_true_iff in Ef as [? ?].
  - intros Hr. pose proof (run_writes _ _ _ (part dir (u"ca") ".crt") Hr) as H1.
    pose proof (run_writes _ _ _ (part dir (u"ca") ".key") Hr) as H2.
    pose proof (ca_outputs (dir := dir)) as Ho.
    change (in_pki dir (u"ca.key")) with (part dir (u"ca") ".key") in Ho.
    change (in_pki dir (u"ca.crt")) with (part dir (u"ca") ".crt") in Ho. rewrite Ho in H1, H2.
    split; [apply H1; right; by left|apply H2; by left].
Qed.

Lemma complete_issue s name common_name usage san :
  complete dir s name -> issue dir name common_name usage san s = (s, Ok tt).
Proof.
  intros (Hc & Hk & Hr & He). unfold issue.
  change (in_pki dir (name ++ u".crt")) with (part dir name ".crt").
  change (in_pki dir (name ++ u".key")) with (part dir name ".key").
  change (in_pki dir (name ++ u".csr")) with (part dir name ".csr").
  change (in_pki dir (name ++ u".ext")) with (part dir name ".ext").
  by rewrite (file_exists _ _ Hc), Hc, Hk, Hr, He.
Qed.

Lemma complete_issue_all s l : Forall (complete dir s) l.*1 -> issue_all dir l s = (s, Ok tt).
Proof.
  induction l as [|[name [common_name [usage san]]] l IH]; [done|]. csimpl. intros [Hc Hl]%Forall_cons.
  cbn [issue_all]. unfold bind. rewrite complete_issue by done. by apply IH.
Qed.

(** C18: A run that succeeds leaves a complete authority and twelve complete identities, with no
    request or extension file left over, and running again changes nothing. *)
Theorem generate_completes s s' :
  generate dir s = (s', Ok tt) ->
  all_complete dir s' identities.*1 /\ generate dir s' = (s', Ok tt).
Proof.
  intros Hg. unfold generate in Hg. apply bind_ok in Hg as (s1 & [] & Hca & Hall).
  destruct (ensure_ca_completes _ _ Hca) as [Hcrt Hkey].
  assert (Hids : Forall (complete dir s') identities.*1).
  { eapply issue_all_completes; [..|exact Hall]; apply (bool_decide_unpack _); by vm_compute. }
  assert (Hsame : forall a, length (u a) = 4%nat -> file_at s1 (part dir (u"ca") a) = true ->
    u a <> u".srl" -> file_at s' (part dir (u"ca") a) = true).
  { intros a Hl Hf Ha. pose proof (issue_all_preserves identities s1 (part dir (u"ca") a) (file_exists _ _ Hf)) as Hp.
    rewrite Hall in Hp. cbn [fst] in Hp. unfold file_at in *. rewrite Hp; [done|]. rewrite serial_part. apply part_ne; [done|by right]. }
  assert (Hcrt' : file_at s' (part dir (u"ca") ".crt") = true) by by apply Hsame.
  assert (Hkey' : file_at s' (part dir (u"ca") ".key") = true) by by apply Hsame.
  split; [done|]. unfold generate, bind. 
  assert (ensure_ca dir s' = (s', Ok tt)) as ->; [|by apply complete_issue_all].
  unfold ensure_ca. change (in_pki dir (u"ca.key")) with (part dir (u"ca") ".key").
  change (in_pki dir (u"ca.crt")) with (part dir (u"ca") ".crt").
  by rewrite (file_exists _ _ Hkey'), Hkey', Hcrt'.
Qed.
End generated.

(** ** Tools that always succeed *)

Module PkiSample.
Definition dir : pystr := u"pki".
#[local] Instance tools : PkiTools := {|
  run args s := (foldr (fun path s => <[path := PFile []]> s) s (outputs args), Ok tt);
  write_text path text s := (<[path := PFile text]> s, Ok tt);
  unlink path s := (delete path s, Ok tt)
|}.

Lemma written s paths path :
  foldr (fun path (s : pki) => <[path := PFile []]> s) s paths !! path =
  if bool_decide (path ∈ paths) then Some (PFile []) else s !! path.
Proof.
  induction paths as [|p paths IH]; [done|]. cbn [foldr]. destruct (decide (path = p)) as [->|Hne].
  - rewrite lookup_insert_eq. by rewrite bool_decide_true by by left.
  - rewrite lookup_insert_ne by done. rewrite IH. apply (f_equal (fun b : bool => if b then _ else _)).
    apply bool_decide_ext. rewrite elem_of_cons. naive_solver.
Qed.

#[local] Instance laws : PkiLaws tools dir.
Proof.
  split.
  - intros args s path Hp _. cbn [run tools fst]. rewrite written. by rewrite bool_decide_false.
  - intros args s s' path [<- _]%pair_equal_spec Hp. unfold file_at. rewrite written. by rewrite bool_decide_true.
  - intros path text s other Ho. by apply lookup_insert_ne.
  - intros path text s s' [<- _]%pair_equal_spec. apply lookup_insert_eq.
  - intros path s other Ho. by apply lookup_delete_ne.
  - intros path s s' [<- _]%pair_equal_spec. apply lookup_delete_eq.
Qed.

(** A directory with a complete authority. *)
Definition start : pki := <[u"pki/ca.key" := PFile (u"KEY")]> (<[u"pki/ca.crt" := PFile (u"CERT")]> ∅).

Lemma generated_ok : snd (generate dir start) = Ok tt.
Proof. vm_compute. reflexivity. Qed.

(** A left-over request stops the script. *)
Example left_over :
  snd (generate dir (<[u"pki/ui.csr" := PFile []]> start)) =
  Err (Exn ValueError (u"refusing to overwrite incomplete certificate identity: ui")).
Proof. vm_compute. reflexivity. Qed.
End PkiSample.
#[local] Existing Instances PkiSample.tools PkiSample.laws.

Lemma generate_preserves_witness :
  fst (generate PkiSample.dir PkiSample.start) !! u"pki/ca.key" = Some (PFile (u"KEY")).
Proof.
  rewrite (generate_preserves (dir := PkiSample.dir) PkiSample.start (u"pki/ca.key"));
    [vm_compute; reflexivity|vm_compute; reflexivity|discriminate].
Defined.

Lemma generate_completes_witness :
  exists s', generate PkiSample.dir PkiSample.start = (s', Ok tt) /\
    all_complete PkiSample.dir s' identities.*1 /\ generate PkiSample.dir s' = (s', Ok tt).
Proof.
  destruct (generate PkiSample.dir PkiSample.start) as [s' r] eqn:E.
  assert (r = Ok tt) as -> by (rewrite <- PkiSample.generated_ok, E; reflexivity).
  exists s'. split; [reflexivity|]. apply (generate_completes (dir := PkiSample.dir) PkiSample.start s' E).
Defined.
