(* ===== verification/Reconcile.v ===== *)
(** The command [src/scripts/sync-keycloak-demo-data.py] around [KeycloakSync.main]: its input
    files, the HTTP message of a call and the value of its reply, the summary of the key
    provider plan, and what the command prints. *)
From S2P Require Import Readiness RuntimeSecrets RealmTemplate.
From S2P Require Export KeycloakSync LocalFiles.

Local Open Scope Z_scope.

(** ** One request *)

Record http_request := HttpRequest {
  rq_method : string; rq_url : pystr; rq_headers : list (pystr * pystr); rq_data : option bytes
}.

(** What the network answers to a message: a reply with its status, its [Location] header and
    its body, or an exception. *)
Inductive reply := Reply (status : Z) (location : option pystr) (payload : bytes) | NoReply (e : exn).

(** [NoRedirectHandler.redirect_request]: no message for the target of a redirection. *)
Definition redirect_request (request : http_request) (code : Z) (new_url : pystr) : option http_request := None.

(** What the opener returns or raises. *)
Inductive opened := Payload (payload : bytes) | HTTPError (status : Z) | Raised (e : exn).

(** [urllib.parse.urlencode(form)] *)
Definition form_field (kv : pystr * pystr) : res pystr :=
  let* name := quote_plus (fst kv) in
  let* value := quote_plus (snd kv) in
  Ok (name ++ u"=" ++ value).
Definition urlencode (form : list (pystr * pystr)) : res pystr :=
  let* fields := mapM_res form_field form in Ok (Json.join (u"&") fields).

(** The bodies: both texts are ASCII, so that [encode()] is the list of their bytes. *)
Definition request_data (call : http_call) : res (option bytes) :=
  match call_body call, call_form call with
  | Some body, _ => let* text := dumps_with default_layout 0 body in Ok (Some (map byte_of_Z text))
  | None, Some form => let* text := urlencode form in Ok (Some (map byte_of_Z text))
  | None, None => Ok None
  end.

Definition request_headers (call : http_call) : list (pystr * pystr) :=
  [(u"Accept", u"application/json")]
  ++ match call_token call with
     | Some (c :: token) => [(u"Authorization", u"Bearer " ++ (c :: token))]
     | _ => []
     end
  ++ match call_body call, call_form call with
     | Some _, _ => [(u"Content-Type", u"application/json")]
     | None, Some _ => [(u"Content-Type", u"application/x-www-form-urlencoded")]
     | None, None => []
     end.

(** [json.loads(payload) if payload else None] *)
Definition loads_payload (depth : nat) (payload : bytes) : res pyval :=
  match payload with
  | [] => Ok VNone
  | _ =>
      match decode_as (detect_encoding payload) payload with
      | None => raise UnicodeError "can't decode bytes"
      | Some text => loads_plain depth text
      end
  end.

Definition is_success (status : Z) : bool := (200 <=? status) && (status <? 300).
Definition REDIRECTIONS : list Z := [301; 302; 303; 307; 308].

Section transport.
Context (depth : nat) (BASE_URL : pystr).

Definition request_message (call : http_call) : res http_request :=
  let* data := request_data call in
  Ok (HttpRequest (call_method call) (BASE_URL ++ call_path call) (request_headers call) data).

Definition reply_value (call : http_call) (o : opened) : res pyval :=
  match o with
  | Payload payload => loads_payload depth payload
  | HTTPError status =>
      Err (Exn RuntimeError (u (call_method call) ++ u" " ++ call_path call ++ u" returned HTTP " ++ dec_of_Z status))
  | Raised e => Err e
  end.

(** The service of a run: the network answers a message and moves to another state. *)
Context {S : Type} (net : S -> http_request -> reply * S).

(** [opener.open]: the handler of a redirection asks [redirect_request] for another message,
    at most ten times; everything else that is not a success is an [HTTPError].  The messages
    sent are recorded, oldest first. *)
Fixpoint open_url (redirections : nat) (s : S) (message : http_request) : opened * S * list http_request :=
  let '(r, s) := net s message in
  match r with
  | NoReply e => (Raised e, s, [message])
  | Reply status location payload =>
      if is_success status then (Payload payload, s, [message])
      else
        let next := match location with
                    | Some url => if bool_decide (status ∈ REDIRECTIONS) then redirect_request message status url else None
                    | None => None
                    end in
        match redirections, next with
        | Datatypes.S redirections, Some message' =>
            let '(o, s, sent) := open_url redirections s message' in (o, s, message :: sent)
        | _, _ => (HTTPError status, s, [message])
        end
  end.

Definition serve_http (s : S * list http_request) (call : http_call) : res pyval * (S * list http_request) :=
  let '(s, sent) := s in
  match request_message call with
  | Err e => (Err e, (s, sent))
  | Ok message => let '(o, s', messages) := open_url 10 s message in (reply_value call o, (s', sent ++ messages))
  end.
End transport.

(** ** The inputs *)

Definition env_line (values : list (pystr * pystr)) (line : pystr) : res (list (pystr * pystr)) :=
  if bool_decide (line = []) || starts_with (u"#") line then Ok values
  else match partition_on 61 line with
       | (_, [], _) => raise ValueError "not enough values to unpack (expected 2, got 1)"
       | (key, _, value) => Ok (ainsert key value values)
       end.
Definition read_env (fs : fsys) (path : pystr) : res (list (pystr * pystr)) :=
  let* text := read_text fs path in foldM_res env_line (splitlines text) [].

Definition read_json (depth : nat) (fs : fsys) (path : pystr) : res pyval :=
  let* text := read_text fs path in loads_plain depth text.

Definition SECRETS_PATH : pystr := u".generated/secrets.env".
Definition REALM_PATH : pystr := u".generated/keycloak/realm.json".
Definition PROFILE_PATH : pystr := u"keycloak/user-profile.json".
Definition CA_PATH : pystr := u".generated/pki/ca.crt".

Section command.
Context `{TLSLoader} (depth : nat) (fs : fsys).

(** Everything before the first request; the trusted certificate is loaded last. *)
Definition read_inputs : res (list (pystr * pystr) * pyval * pyval) :=
  let* secrets := read_env fs SECRETS_PATH in
  let* desired_realm := read_json depth fs REALM_PATH in
  let* desired_profile := read_json depth fs PROFILE_PATH in
  let* _ := key_provider_admin_payload desired_realm in
  let* _ := load_verify_locations fs CA_PATH in
  Ok (secrets, desired_realm, desired_profile).

(** [main]; the payload of the key provider is computed a second time inside, with the same
    result. *)
Definition reconcile : admin summary :=
  do* inputs := lift read_inputs in
  let '(secrets, desired_realm, desired_profile) := inputs in
  KeycloakSync.main desired_realm desired_profile secrets.
End command.

(** ** What is printed *)

Definition matched (changed : bool) : pystr := if changed then u"updated" else u"already matched".
Definition summary_text (s : summary) : pystr :=
  u"Synced " ++ dec_of_Z (profile_attributes s) ++ u" Keycloak profile attributes, "
  ++ dec_of_Z (demo_users s) ++ u" demo users, " ++ dec_of_Z (synced_clients s) ++ u" clients, and "
  ++ dec_of_Z (synced_mappers s) ++ u" protocol mappers. Realm WP2 settings " ++ matched (realm_changed s)
  ++ u". Managed PS256 key provider " ++ matched (key_provider_changed s)
  ++ u". Legacy clients were left untouched." ++ [10].

(** The summary with code 0, a message about the exception with code 1, or an exception that
    is not caught. *)
Inductive outcome := Synced (text : pystr) | Failed (e : exn) | Uncaught (e : exn).
Definition command_outcome (r : res summary) : outcome :=
  match r with
  | Ok s => Synced (summary_text s)
  | Err e =>
      if existsb (is_a (exn_cls e)) [KeyError; OSError; RuntimeError]
      then Failed e else Uncaught e
  end.

(** ** The key provider plan *)

(** The plan as the value the script builds. *)
Definition provider_plan (action : provider_action) : pyval :=
  VList [VDict match action with
               | ProviderCreate payload => [(u"operation", jstr "create"); (u"payload", VDict payload)]
               | ProviderUpdate i payload =>
                   [(u"operation", jstr "update"); (u"component_id", VStr i); (u"payload", VDict payload)]
               | ProviderNoop i => [(u"operation", jstr "noop"); (u"component_id", VStr i)]
               end].

Definition bad_provider_plan {A} : res A := fail "Keycloak managed key provider plan is malformed".

Definition safe_key_provider_plan_summary (plan : pyval) : res pyval :=
  match plan with
  | VList [VDict action] =>
      match dict_get action (u"operation") with
      | VStr operation =>
          if bool_decide (operation ∈ [u"create"; u"update"; u"noop"])
          then Ok (VList [VDict [(u"operation", VStr operation); (u"provider", VStr MANAGED_KEY_PROVIDER_NAME);
                                 (u"algorithm", jstr "PS256")]])
          else bad_provider_plan
      | VList _ | VDict _ => raise TypeError "unhashable type"
      | _ => bad_provider_plan
      end
  | _ => bad_provider_plan
  end.

(** ** Messages *)

(** The header of a request with a token. *)
Definition bearer (token : pystr) : list (pystr * pystr) :=
  match token with [] => [] | _ => [(u"Authorization", u"Bearer " ++ token)] end.

(** What may leave the machine after the calls of a history: the sign-in without a token, with
    the credentials of the secrets file, or a managed call that carries the token which the
    sign-in gave, with a JSON body when it changes something. *)
Inductive managed_message (secrets : list (pystr * pystr)) (BASE_URL : pystr) (h : history http_call (res pyval))
    : http_request -> Prop :=
  | message_login user password data :
      alookup (u"KEYCLOAK_ADMIN_USERNAME") secrets = Some user ->
      alookup (u"KEYCLOAK_ADMIN_PASSWORD") secrets = Some password ->
      urlencode [(u"grant_type", u"password"); (u"client_id", u"admin-cli"); (u"username", user); (u"password", password)]
        = Ok data ->
      managed_message secrets BASE_URL h
        (HttpRequest "POST" (BASE_URL ++ u"/realms/master/protocol/openid-connect/token")
           [(u"Accept", u"application/json"); (u"Content-Type", u"application/x-www-form-urlencoded")]
           (Some (map byte_of_Z data)))
  | message_read path token :
      signed_in secrets h token -> managed_path (user_listed h) path ->
      managed_message secrets BASE_URL h
        (HttpRequest "GET" (BASE_URL ++ path) ((u"Accept", u"application/json") :: bearer token) None)
  | message_write method path token body text :
      signed_in secrets h token -> method <> "GET"%string ->
      managed_call (user_listed h) token (HttpCall method path (Some token) (Some body) None) ->
      dumps_with default_layout 0 body = Ok text ->
      managed_message secrets BASE_URL h
        (HttpRequest method (BASE_URL ++ path)
           ((u"Accept", u"application/json") :: bearer token ++ [(u"Content-Type", u"application/json")])
           (Some (map byte_of_Z text))).

Lemma managed_call_message secrets BASE_URL h call message :
  managed_after secrets h call -> request_message BASE_URL call = Ok message -> managed_message secrets BASE_URL h message.
Proof.
  unfold request_message, request_data. intros [(user & password & Hu & Hp & ->)|(token & Hs & Hcall)] Hm.
  - cbn [call_body call_form call_method call_path] in Hm.
    destruct (urlencode _) as [data|] eqn:Ed; [|discriminate]. apply Ok_inj in Hm as <-.
    by apply (message_login _ _ _ user password data).
  - assert (Hheaders : forall method path body, request_headers (HttpCall method path (Some token) body None) =
      (u"Accept", u"application/json") :: bearer token
        ++ match body with Some _ => [(u"Content-Type", u"application/json")] | None => [] end).
    { intros method path [body|]; by destruct token. }
    destruct (call_body call) as [body|] eqn:Eb.
    + destruct (dumps_with default_layout 0 body) as [text|] eqn:Et; [|discriminate]. apply Ok_inj in Hm as <-.
      assert (exists method path, call = HttpCall method path (Some token) (Some body) None /\ method <> "GET"%string)
        as (method & path & -> & Hg).
      { destruct Hcall; cbn [call_body] in Eb; try discriminate Eb; injection Eb as <-; by eexists _, _. }
      rewrite Hheaders. cbn [call_method call_path]. by eapply message_write.
    + destruct Hcall; try discriminate Eb. cbn [call_form call_method call_path] in Hm. apply Ok_inj in Hm as <-.
      rewrite Hheaders, app_nil_r. by apply message_read.
Qed.

(** The messages of a run are those of its calls, in order: a redirection is not followed. *)
Definition message_of (BASE_URL : pystr) (call : http_call) : list http_request :=
  match request_message BASE_URL call with Ok message => [message] | Err _ => [] end.

Section runs.
Context {S : Type} (depth : nat) (BASE_URL : pystr) (net : S -> http_request -> reply * S).

Lemma open_url_once redirections s message o s' sent :
  open_url net redirections s message = (o, s', sent) -> sent = [message].
Proof.
  assert (Hnext : forall status location, match location with
    | Some url => if bool_decide (status ∈ REDIRECTIONS) then redirect_request message status url else None
    | None => None
    end = None) by (intros status [url|]; [by destruct (bool_decide _)|done]).
  destruct redirections; cbn [open_url]; destruct (net s message) as [[status location payload|e] s1];
    try rewrite Hnext; try destruct (is_success status); intros Ho; by repeat apply pair_equal_spec in Ho as [Ho <-].
Qed.

Lemma run_messages {A} (m : admin A) s sent r s' sent' t :
  run (serve_http depth BASE_URL net) (s, sent) m = (r, (s', sent'), t) ->
  sent' = sent ++ concat (map (message_of BASE_URL) t).
Proof.
  revert s sent t. induction m as [o|q k IH]; intros s sent t Hrun; cbn [run] in Hrun.
  - injection Hrun as <- <- <- <-. symmetry. apply app_nil_r.
  - destruct (serve_http depth BASE_URL net (s, sent) q) as [answer [s1 sent1]] eqn:Es.
    destruct (run (serve_http depth BASE_URL net) (s1, sent1) (k answer)) as [[a [s2 sent2]] t2] eqn:Er.
    injection Hrun as <- <- <- <-. apply IH in Er as ->. cbn [map concat].
    unfold serve_http in Es. unfold message_of at 2. destruct (request_message BASE_URL q) as [message|e] eqn:Em.
    + destruct (open_url net 10 s message) as [[o s3] messages] eqn:Eo. apply open_url_once in Eo as ->.
      injection Es as <- <- <-. by rewrite <- app_assoc.
    + by injection Es as <- <- <-.
Qed.
End runs.

Section reconcile.
Context `{TLSLoader}.

Lemma reconcile_managed depth fs h q :
  reaches (reconcile depth fs) h q ->
  exists secrets, read_env fs SECRETS_PATH = Ok secrets /\ managed_after secrets h q.
Proof.
  unfold reconcile, read_inputs. destruct (read_env fs SECRETS_PATH) as [secrets|]; [|by inversion 1].
  destruct (read_json depth fs REALM_PATH) as [realm|]; [|by inversion 1].
  destruct (read_json depth fs PROFILE_PATH) as [profile|]; [|by inversion 1].
  destruct (key_provider_admin_payload realm); [|by inversion 1].
  destruct (load_verify_locations fs CA_PATH); [|by inversion 1].
  cbn [lift pbind]. intros Hr. exists secrets. split; [done|].
  exact (during_reaches _ _ [] _ _ _ (sync_main_during secrets realm profile) Hr).
Qed.

(** C12: Whatever the network answers, redirections included, exactly the messages of the
    calls are sent, each of them once and to the configured server; and a call is the sign-in
    with the credentials of the secrets file, without a token, or a read, creation or update
    on one of the paths of the managed realm, with the token that the sign-in gave in its
    [Authorization] header.  An identifier in a path is one quoted segment, except that of a
    user, which is the one the server has listed. *)
Theorem messages_managed {S} depth BASE_URL (net : S -> http_request -> reply * S) s loads_depth fs r s' sent t :
  let serve := serve_http loads_depth BASE_URL net in
  run serve (s, []) (reconcile depth fs) = (r, (s', sent), t) ->
  let past := answered serve (s, []) (reconcile depth fs) in
  past.*1 = t /\
  sent = concat (map (fun q => match request_message BASE_URL q with Ok message => [message] | Err _ => [] end) t) /\
  forall h q answer h', past = h ++ (q, answer) :: h' ->
    exists secrets, read_env fs SECRETS_PATH = Ok secrets /\
      forall message, request_message BASE_URL q = Ok message -> managed_message secrets BASE_URL h message.
Proof.
  cbv zeta. intros Hrun. split_and!.
  - by rewrite answered_calls, Hrun.
  - by apply run_messages in Hrun as ->.
  - intros h q answer h' Ha%answered_reaches. destruct (reconcile_managed _ _ _ _ Ha) as (secrets & Hs & Hm).
    exists secrets. split; [done|]. intros message. by apply managed_call_message.
Qed.

(** Nothing is sent before all inputs are in order: the first call is the sign-in with the
    credentials of the secrets file, and there is one only if the secrets, the realm and the
    profile could be read, the realm asks for the managed key provider, and the trusted
    certificate could be loaded. *)
Theorem reconcile_local_first {S} (serve : S -> http_call -> res pyval * S) s depth fs r s' q t :
  run serve s (reconcile depth fs) = (r, s', q :: t) ->
  exists secrets desired_realm desired_profile user password,
    read_env fs SECRETS_PATH = Ok secrets /\ read_json depth fs REALM_PATH = Ok desired_realm /\
    read_json depth fs PROFILE_PATH = Ok desired_profile /\
    key_provider_admin_payload desired_realm = Ok managed_provider_payload /\
    load_verify_locations fs CA_PATH = Ok tt /\
    alookup (u"KEYCLOAK_ADMIN_USERNAME") secrets = Some user /\
    alookup (u"KEYCLOAK_ADMIN_PASSWORD") secrets = Some password /\
    q = HttpCall "POST" login_path None None
          (Some [(u"grant_type", u"password"); (u"client_id", u"admin-cli"); (u"username", user); (u"password", password)]).
Proof.
  unfold reconcile, read_inputs. intros Hrun.
  destruct (read_env fs SECRETS_PATH) as [secrets|]; [|discriminate].
  destruct (read_json depth fs REALM_PATH) as [realm|]; [|discriminate].
  destruct (read_json depth fs PROFILE_PATH) as [profile|]; [|discriminate]. cbv beta iota in Hrun.
  destruct (key_provider_admin_payload realm) as [payload|] eqn:Ep; [|discriminate]. cbv beta iota in Hrun.
  destruct (load_verify_locations fs CA_PATH) as [[]|]; [|discriminate]. cbn [lift pbind] in Hrun.
  unfold KeycloakSync.main, prepare_all, wait_for_keycloak in Hrun. rewrite Ep in Hrun. cbn [lift pbind] in Hrun.
  change 30%nat with (Datatypes.S 29) in Hrun. cbn [wait_attempts] in Hrun. unfold admin_token at 1 in Hrun.
  destruct (alookup (u"KEYCLOAK_ADMIN_USERNAME") secrets) as [user|] eqn:Eu; [|discriminate].
  destruct (alookup (u"KEYCLOAK_ADMIN_PASSWORD") secrets) as [password|] eqn:Ew; [|discriminate].
  exists secrets, realm, profile, user, password. split_and!; try done.
  - rewrite Ep. f_equal. by eapply key_provider_payload_managed.
  - cbn [res_of_option lift pbind request retry run] in Hrun.
    destruct (serve s _) as [answer s1]. destruct (run serve s1 _) as [[a s2] t2].
    by injection Hrun.
Qed.
End reconcile.

(** ** What is received *)

(** The text of an object has at least two characters, none of them NUL. *)
Lemma object_text L d t :
  layout_ok L -> json_ok (VDict d) = true -> dumps_with L 0 (VDict d) = Ok t ->
  exists a b r, t = a :: b :: r /\ a <> 0 /\ b <> 0 /\ ascii_text t.
Proof.
  intros HL Hok Ht. pose proof (dumps_with_plain L 0 _ t HL Hok Ht) as Hp.
  rewrite dumps_with_dict in Ht. destruct (mapM_res _ d) as [ms|]; [|discriminate]. apply Ok_inj in Ht.
  assert (exists b r, t = 123 :: b :: r) as (b & r & ->).
  { subst t. unfold container. destruct (map _ ms) as [|x xs]; [by eexists _, _|].
    assert (Hlast : forall l : pystr, exists b r, l ++ [125] = b :: r) by (intros [|c l]; by eexists _, _).
    rewrite !app_assoc. edestruct Hlast as (b & r & E). exists b, r. by rewrite E. }
  exists 123, b, r. split; [done|]. pose proof (plain_ascii _ Hp).
  apply Forall_cons in Hp as [_ [Hb _]%Forall_cons]. split_and!; [done|lia|done].
Qed.

(** The body of every creation and update is received as the value that was planned. *)
Theorem message_body_read BASE_URL depth call body message :
  call_body call = Some (VDict body) -> json_ok (VDict body) = true -> (nesting (VDict body) <= depth)%nat ->
  request_message BASE_URL call = Ok message ->
  exists data, rq_data message = Some data /\ loads_payload depth data = Ok (VDict body).
Proof.
  intros Hbody Hok Hd Hm. unfold request_message, request_data in Hm. rewrite Hbody in Hm.
  destruct (dumps_with default_layout 0 (VDict body)) as [text|] eqn:Et; [|discriminate].
  apply Ok_inj in Hm as <-. cbn [rq_data]. eexists. split; [done|].
  destruct (object_text _ _ _ (proj1 layouts_ok) Hok Et) as (a & b & r & -> & Ha & Hb & Hascii).
  pose proof (decode_ascii a b r Hascii Ha Hb) as Hdec. cbv zeta in Hdec. unfold loads_payload.
  destruct (map byte_of_Z (a :: b :: r)) as [|c l] eqn:Em; [discriminate|]. rewrite Hdec.
  rewrite <- (app_nil_r (a :: b :: r)).
  by apply (loads_dumps_with plain_pairs default_constant plain_pairs_nodup default_layout (proj1 layouts_ok) 0
    (VDict body) (a :: b :: r)).
Qed.

(** With its inputs in order the command is [KeycloakSync.main]: the key provider payload that is
    computed first is what [main] computes first, with the same error. *)
Lemma reconcile_inputs `{TLSLoader} depth fs secrets realm desired_profile :
  read_env fs SECRETS_PATH = Ok secrets -> read_json depth fs REALM_PATH = Ok realm ->
  read_json depth fs PROFILE_PATH = Ok desired_profile -> load_verify_locations fs CA_PATH = Ok tt ->
  reconcile depth fs = KeycloakSync.main realm desired_profile secrets.
Proof.
  intros Hsecrets Hrealm Hprofile Hca. unfold reconcile, read_inputs. rewrite Hsecrets, Hrealm, Hprofile, Hca.
  cbv beta iota. destruct (key_provider_admin_payload realm) as [payload|e] eqn:Ep; [done|].
  unfold KeycloakSync.main, prepare_all. by rewrite Ep.
Qed.

(** C15: The command reconciles what the rendering wrote.  When the realm file holds the text
    rendered from a template, the run is that of the template in which the markers of the
    passwords, of the public key and of its identifier are replaced, one after the other, by
    the values of [SALES_PASSWORD], [ENGINEERING_PASSWORD], the key file and
    [DECK_ROUTE_B_JWK_KID], with the rotation of refresh tokens on unless the environment
    says false.  When the markers are whole texts of the template and no value contains a
    marker, every marker stands for exactly its own value and nothing else is changed. *)
Theorem rendered_realm_reconciled `{TLSLoader} depth fs template_depth template_fs environ template public_key_path
    text secrets desired_profile :
  render_realm template_depth template_fs environ template public_key_path = Ok text ->
  (forall t value, read_text template_fs template = Ok t -> loads_plain template_depth t = Ok value ->
     text_val value = true /\ (nesting value <= depth)%nat) ->
  (forall key value, alookup key environ = Some value -> forallb is_scalar value = true) ->
  read_text fs REALM_PATH = Ok text ->
  read_env fs SECRETS_PATH = Ok secrets -> read_json depth fs PROFILE_PATH = Ok desired_profile ->
  load_verify_locations fs CA_PATH = Ok tt ->
  exists value public_key sales engineering kid realm rotation,
    read_json template_depth template_fs template = Ok value /\
    read_text template_fs public_key_path = Ok public_key /\
    alookup (u"SALES_PASSWORD") environ = Some sales /\
    alookup (u"ENGINEERING_PASSWORD") environ = Some engineering /\
    alookup (u"DECK_ROUTE_B_JWK_KID") environ = Some kid /\
    same_shape (filled_in_order sales engineering public_key kid) value (VDict realm) /\
    (let values := marker_values sales engineering public_key kid in
     marked values.*1 value -> (forall m r, m ∈ values.*1 -> r ∈ values.*2 -> is_infix m r = false) ->
     same_shape (marker_filled values) value (VDict realm)) /\
    rotation_chosen environ rotation /\
    reconcile depth fs =
      KeycloakSync.main (VDict (ainsert (u"revokeRefreshToken") (VBool rotation) realm)) desired_profile secrets.
Proof.
  intros Hrender Hvalue Henviron Htext Hsecrets Hprofile Hca.
  destruct (rendered_realm_faithful _ _ _ _ _ _ depth Hrender Hvalue Henviron)
    as (t & value & public_key & sales & engineering & kid & realm & rotation & Ht & Hl & Hk & H1 & H2 & H3 & Hin & Hf & Hrot & Hloads).
  exists value, public_key, sales, engineering, kid, realm, rotation. split_and!; try done.
  { unfold read_json. by rewrite Ht. }
  apply reconcile_inputs; [done| |done..]. unfold read_json. by rewrite Htext.
Qed.

(** ** The summary of the key provider plan *)

(** The summary accepts every plan, and shows neither the component nor the payload: two
    plans of the same operation have the same summary. *)
Lemma plan_summary_closed action :
  exists operation, safe_key_provider_plan_summary (provider_plan action) =
    Ok (VList [VDict [(u"operation", VStr operation); (u"provider", VStr MANAGED_KEY_PROVIDER_NAME);
                      (u"algorithm", jstr "PS256")]]) /\
    operation = match action with
                | ProviderCreate _ => u"create" | ProviderUpdate _ _ => u"update" | ProviderNoop _ => u"noop"
                end.
Proof. destruct action; eexists; (split; [|reflexivity]); reflexivity. Qed.

(** ** The secrets file *)

(** The file is also read by the rendering of the runtime secrets, which skips lines with
    blanks before the [#] as well; on files without such lines the two readers give the same
    values. *)
Theorem readers_agree fs path (secrets : list (pystr * pystr)) :
  (forall text, read_text fs path = Ok text ->
     Forall (fun line => starts_with (u"#") (lstrip_while py_isspace line) = starts_with (u"#") line) (splitlines text)) ->
  read_env fs path = Ok secrets <-> read_simple_env fs path = Ok secrets.
Proof.
  intros Hlines. unfold read_env, read_simple_env. destruct (read_text fs path) as [text|]; [|done].
  specialize (Hlines text eq_refl). generalize (@nil (pystr * pystr)) as values.
  induction Hlines as [|line lines Hl _ IH]; intros values; [done|]. cbn [foldM_res].
  unfold env_line at 1, simple_line at 1. destruct line as [|c line]; [apply IH|]. rewrite Hl.
  rewrite bool_decide_false by done. cbn [orb]. clear Hl. destruct (starts_with (u"#") (c :: line)); [apply IH|].
  destruct (partition_on 61 (c :: line)) as [[key separator] value]. destruct separator; [done|apply IH].
Qed.

(** ** A rendered workspace *)

Module SyncSample.
#[local] Instance loader : TLSLoader := {| load_verify_locations _ _ := Ok tt; load_cert_chain _ _ _ := Ok tt |}.

Definition template : pyval :=
  VDict (Sample.realm_dict ++ [(u"displayName", jstr "__SALES_PASSWORD__")]).
Definition text_of (v : pyval) : pystr := match dumps_with indent2_layout 0 v with Ok t => t | Err _ => [] end.
Definition files_of (l : list (pystr * pystr)) : fsys :=
  Fsys (fun p => match alookup p l with Some t => Some (FFile 384 (map byte_of_Z t)) | None => None end)
    (fun _ => false) (fun _ => false).
Definition template_fs : fsys :=
  files_of [(u"template.json", text_of template); (u"route-b.pub", u"MII" ++ [10])].
Definition rendered : pystr :=
  match render_realm 8 template_fs RealmSample.environ (u"template.json") (u"route-b.pub") with Ok t => t | Err _ => [] end.
Definition secrets_text : pystr :=
  u"# generated" ++ [10] ++ u"KEYCLOAK_ADMIN_USERNAME=admin" ++ [10; 10] ++ u"KEYCLOAK_ADMIN_PASSWORD=secret" ++ [10].
Definition fs : fsys :=
  files_of [(SECRETS_PATH, secrets_text); (REALM_PATH, rendered); (PROFILE_PATH, text_of Sample.profile)].

(** Signs in, and redirects everything else. *)
Definition net (s : unit) (message : http_request) : reply * unit :=
  (if bool_decide (rq_method message = "POST"%string)
   then Reply 200 None (map byte_of_Z (text_of (VDict [(u"access_token", jstr "t")])))
   else Reply 302 (Some (u"https://elsewhere.example/")) [], tt).

Definition session : res summary * (unit * list http_request) * list http_call :=
  run (serve_http 8 (u"https://localhost:8444") net) (tt, []) (reconcile 8 fs).

(** The redirection of the first read ends the run. *)
Example redirected : command_outcome (fst (fst session)) = Failed (Exn RuntimeError (u"GET /admin/realms/fapi-demo returned HTTP 302")).
Proof. vm_compute. reflexivity. Qed.

Example sent_messages :
  map rq_url (snd (snd (fst session))) =
    [u"https://localhost:8444/realms/master/protocol/openid-connect/token";
     u"https://localhost:8444/admin/realms/fapi-demo"].
Proof. vm_compute. reflexivity. Qed.

(** A file that is not JSON is not reported, it ends the script with a traceback. *)
Example unreadable_realm : exists msg,
  command_outcome (fst (fst (run (serve_http 8 [] net) (tt, [])
    (reconcile 8 (files_of [(SECRETS_PATH, secrets_text); (REALM_PATH, u"{")]))))) =
  Uncaught (Exn JSONDecodeError msg).
Proof. eexists. vm_compute. reflexivity. Qed.
End SyncSample.
#[local] Existing Instance SyncSample.loader.

Lemma messages_managed_witness :
  exists login read secrets h,
    snd (snd (fst SyncSample.session)) = [login; read] /\ read_env SyncSample.fs SECRETS_PATH = Ok secrets /\
    rq_headers read = [(u"Accept", u"application/json"); (u"Authorization", u"Bearer t")] /\
    managed_message secrets (u"https://localhost:8444") h read.
Proof.
  destruct SyncSample.session as [[r [s' sent]] t] eqn:E.
  destruct (messages_managed 8 (u"https://localhost:8444") SyncSample.net tt 8 SyncSample.fs r s' sent t E) as (_ & Hsent & Hm).
  assert (t = snd SyncSample.session) as Ht by (rewrite E; reflexivity).
  destruct (answered (serve_http 8 (u"https://localhost:8444") SyncSample.net) (tt, []) (reconcile 8 SyncSample.fs))
    as [|[q1 a1] [|[q2 a2] [|]]] eqn:Ea; [vm_compute in Ea; discriminate Ea..| |vm_compute in Ea; discriminate Ea].
  destruct (Hm [(q1, a1)] q2 a2 [] eq_refl) as (secrets & Hs & Hq). vm_compute in Ea. injection Ea as <- <- <- <-.
  vm_compute in Ht. rewrite Ht in Hsent. vm_compute in Hsent.
  eexists _, _, secrets, _. split; [exact Hsent|]. split; [exact Hs|].
  split; [reflexivity|]. apply Hq. vm_compute. reflexivity.
Defined.

Lemma reconcile_local_first_witness :
  exists secrets user, read_env SyncSample.fs SECRETS_PATH = Ok secrets /\
    alookup (u"KEYCLOAK_ADMIN_USERNAME") secrets = Some user.
Proof.
  destruct (run (serve_http 8 (u"https://localhost:8444") SyncSample.net) (tt, []) (reconcile 8 SyncSample.fs))
    as [[r s'] [|q t]] eqn:E.
  - assert (snd SyncSample.session = []) as Hs by (unfold SyncSample.session; rewrite E; reflexivity).
    vm_compute in Hs. discriminate Hs.
  - destruct (reconcile_local_first _ (tt, []) 8 SyncSample.fs r s' q t E)
      as (secrets & realm & profile & user & password & H1 & _ & _ & _ & _ & H2 & _).
    exists secrets, user. split; [exact H1|exact H2].
Defined.

Lemma message_body_read_witness :
  exists data, loads_payload 8 data = Ok (VDict Sample.realm_dict).
Proof.
  destruct (request_message [] (HttpCall "PUT" realm_path (Some (u"t")) (Some (VDict Sample.realm_dict)) None))
    as [message|] eqn:E; [|vm_compute in E; discriminate E].
  destruct (message_body_read [] 8 (HttpCall "PUT" realm_path (Some (u"t")) (Some (VDict Sample.realm_dict)) None)
    Sample.realm_dict message) as (data & _ & H); [reflexivity|vm_compute; reflexivity| |exact E|].
  - apply Nat.leb_le. vm_compute. reflexivity.
  - exists data. exact H.
Defined.

Lemma rendered_realm_reconciled_witness :
  exists realm, reconcile 8 SyncSample.fs =
    KeycloakSync.main (VDict (ainsert (u"revokeRefreshToken") (VBool false) realm)) Sample.profile SampleService.secrets /\
    same_shape (filled_in_order (u"s3cret") (u"pa_ss") (u"MII" ++ [10]) (u"kid-1")) SyncSample.template (VDict realm).
Proof.
  destruct (render_realm 8 SyncSample.template_fs RealmSample.environ (u"template.json") (u"route-b.pub")) as [text|] eqn:E;
    [|vm_compute in E; discriminate E].
  destruct (rendered_realm_reconciled 8 SyncSample.fs 8 SyncSample.template_fs RealmSample.environ (u"template.json")
    (u"route-b.pub") text SampleService.secrets Sample.profile E)
    as (value & key & sales & engineering & kid & realm & rotation & H1 & H2 & H3 & H4 & H5 & H6 & _ & H7 & H8).
  - intros t value Ht Hl. vm_compute in Ht. apply Ok_inj in Ht. subst t. vm_compute in Hl. apply Ok_inj in Hl. subst value.
    split; [vm_compute; reflexivity|]. apply Nat.leb_le. vm_compute. reflexivity.
  - intros key value Hl. apply alookup_Some_in in Hl.
    assert (forallb (fun kv => forallb is_scalar (snd kv)) RealmSample.environ = true) as Ha by (vm_compute; reflexivity).
    rewrite forallb_Forall, Forall_forall in Ha. exact (Ha _ Hl).
  - vm_compute in E. apply Ok_inj in E. subst text. vm_compute. reflexivity.
  - vm_compute. reflexivity.
  - vm_compute. reflexivity.
  - reflexivity.
  - exists realm. split.
    + destruct rotation; [|exact H8]. vm_compute in H7. discriminate H7.
    + assert (read_json 8 SyncSample.template_fs (u"template.json") = Ok SyncSample.template) as Ht by (vm_compute; reflexivity).
      rewrite H1 in Ht. apply Ok_inj in Ht. subst value. vm_compute in H2. apply Ok_inj in H2. subst key.
      vm_compute in H3. injection H3 as <-. vm_compute in H4. injection H4 as <-. vm_compute in H5. injection H5 as <-.
      exact H6.
Defined.

Lemma readers_agree_witness : read_simple_env SyncSample.fs SECRETS_PATH = Ok SampleService.secrets.
Proof.
  apply readers_agree.
  - intros text Ht. vm_compute in Ht. apply Ok_inj in Ht. subst text.
    apply (bool_decide_unpack _). vm_compute. exact I.
  - vm_compute. reflexivity.
Defined.
