(* ===== verification/Servers.v ===== *)
(** The start of the two services: the TLS context and the server of the verifier
    ([create_server_context], [create_server] and the module body of [src/pop-verifier/app.py]),
    and the life of the backend's process, from [create_server] to the removal of its readiness
    socket ([create_server] and [main] of [src/third-party-backend/app.py]). *)
From S2P Require PopVerifier.
From S2P Require Export Prog Readiness.

Local Open Scope Z_scope.

(** ** The verifier *)

(** An [ssl.SSLContext]: what it is for, the files of trusted certificates that were loaded,
    whether the peer must show a certificate, the strict flag, and the own certificate with
    its key.  A context for servers trusts the certificates of the system from the start. *)
Record verifier_context := VerifierContext {
  vc_purpose : purpose; vc_trusted : list pystr; vc_cert_required : bool; vc_strict : bool;
  vc_chain : option (pystr * pystr)
}.

Definition verified_ssl_context (p : purpose) : verifier_context :=
  VerifierContext p [] (match p with SERVER_AUTH => true | CLIENT_AUTH => false end) false None.

(** [jwt.PyJWKClient(JWKS_URL, cache_keys=True, lifespan=300, ssl_context=...)] *)
Record jwk_client := JwkClient {
  jc_url : pystr; jc_cache_keys : bool; jc_lifespan : Z; jc_context : verifier_context
}.

Record verifier_server := VerifierServer {
  vs_host : pystr; vs_port : Z; vs_daemon_threads : bool; vs_pin : bytes; vs_context : verifier_context
}.

(** [Path(path).read_bytes()] *)
Definition read_bytes (fs : fsys) (path : pystr) : res bytes :=
  match node_at fs path with
  | None => raise FileNotFoundError "No such file or directory"
  | Some (FFile _ content) => if unreadable fs path then raise OSError "Permission denied" else Ok content
  | Some _ => raise OSError "Is a directory"
  end.

Section verifier.
Context `{TLSLoader} `{X509} (fs : fsys) (environ : list (pystr * pystr)).
(** The outcomes of binding an address and of wrapping the socket. *)
Context (bind : pystr -> Z -> res unit) (wrap_socket : verifier_context -> res unit).

Definition API_UPSTREAM_CERT_FILE : pystr :=
  PopVerifier.environ_get environ (u"API_UPSTREAM_CERT_FILE") (u"/etc/fapi/api-upstream.crt").

Definition JWK_CLIENT (conf : PopVerifier.config) : jwk_client :=
  JwkClient (PopVerifier.JWKS_URL conf) true 300 (verified_ssl_context SERVER_AUTH).

Definition create_server_context : res verifier_context :=
  let context := verified_ssl_context CLIENT_AUTH in
  let ca := PopVerifier.environ_get environ (u"TLS_CA_FILE") (u"/etc/fapi/ca.crt") in
  let* _ := load_verify_locations fs ca in
  let cert := PopVerifier.environ_get environ (u"TLS_CERT_FILE") (u"/etc/fapi/tls.crt") in
  let key := PopVerifier.environ_get environ (u"TLS_KEY_FILE") (u"/etc/fapi/tls.key") in
  let* _ := load_cert_chain fs cert key in
  Ok (VerifierContext (vc_purpose context) [ca] true (vc_strict context) (Some (cert, key))).

(** [create_server(host, port, context, pinned_peer_der)] *)
Definition create_verifier (host : pystr) (port : Z) (context : option verifier_context)
    (pinned_peer_der : option bytes) : res verifier_server :=
  let* peer_pin := match pinned_peer_der with
                   | Some der => Ok der
                   | None => PopVerifier.load_pinned_gateway_certificate (read_bytes fs API_UPSTREAM_CERT_FILE)
                   end in
  let* server_context := match context with Some context => Ok context | None => create_server_context end in
  let* _ := bind host port in
  let* _ := wrap_socket server_context in
  Ok (VerifierServer host port true peer_pin server_context).

(** Loading the module, and [main] up to [serve_forever]. *)
Definition start_verifier : res (PopVerifier.config * jwk_client * verifier_server) :=
  let* conf := PopVerifier.load_config environ in
  let* server := create_verifier (u"0.0.0.0") 9443 None None in
  Ok (conf, JWK_CLIENT conf, server).
End verifier.

(** ** The process of the backend *)

(** What [main] does outside its own memory. *)
Inductive act :=
  | BindServer | WrapSocket | BindReadiness | StartReadiness | Serve
  | ShutdownReadiness | CloseReadiness | CloseServer | UnlinkSocket.
#[export] Instance act_eq_dec : EqDecision act.
Proof. solve_decision. Defined.

Abbreviation process A := (prog act (res unit) A).
Definition perform (a : act) : process unit := Call a (fun answer => Done answer).

(** [try: m finally: h] *)
Fixpoint pfinally {A} (m : process A) (h : process unit) : process A :=
  match m with
  | Done r => do* _ := h in Done r
  | Call q k => Call q (fun answer => pfinally (k answer) h)
  end.

Record backend_server := BackendServer {
  bs_host : pystr; bs_port : Z; bs_context : tls_context; bs_routes : list (pystr * tls_context); bs_pin : bytes
}.

Section backend.
Context `{TLSLoader} (fs : fsys) (environ : list (pystr * pystr)).

(** [create_server(host, port, files)] *)
Definition create_backend (host : pystr) (port : Z) (files : TLSFiles) : process backend_server :=
  do* contexts := lift (create_contexts fs files) in
  let '(context, routes, pin) := contexts in
  do* _ := perform BindServer in
  do* _ := perform WrapSocket in
  pret (BackendServer host port context routes pin).

(** [ReadyServer(files)], whose last step binds the socket. *)
Definition create_readiness (files : TLSFiles) (info : res dir_info) (getuid : Z) (random : bytes)
    : process ready_server :=
  do* server := lift (ReadyServer fs files info getuid random (Ok tt)) in
  do* _ := perform BindReadiness in
  pret server.

Definition cleanup : process unit :=
  do* _ := perform ShutdownReadiness in
  do* _ := perform CloseReadiness in
  do* _ := perform CloseServer in
  perform UnlinkSocket.

(** [main] without [--check-ready]: the value is the exit code. *)
Definition backend_main (info : res dir_info) (getuid : Z) (random : bytes) : process Z :=
  let files := from_environment environ in
  do* server := create_backend (u"0.0.0.0") 9444 files in
  do* readiness := create_readiness files info getuid random in
  do* _ := perform StartReadiness in
  do* _ := pfinally (perform Serve) cleanup in
  pret 0.
End backend.

(** ** What a started verifier demands *)

Section started.
Context `{TLSLoader} `{X : X509} `{!X509Laws X} `{J : PopVerifier.PyJWT}.

Lemma pin_loaded contents pin :
  PopVerifier.load_pinned_gateway_certificate contents = Ok pin ->
  exists pem certificate usages, contents = Ok pem /\ load_pem_x509_certificate pem = Ok certificate /\
    PopVerifier.certificate_common_name certificate = Ok PopVerifier.API_UPSTREAM_COMMON_NAME /\
    extended_key_usage certificate = Ok usages /\ PopVerifier.CLIENT_AUTH ∈ usages /\ pin = public_bytes_der certificate.
Proof.
  unfold PopVerifier.load_pinned_gateway_certificate. intros Hpin.
  destruct contents as [pem|e]; [|by destruct (existsb _ _)]. cbv beta iota in Hpin.
  destruct (load_pem_x509_certificate pem) as [c|e] eqn:Ec; [|by destruct (existsb _ _)]. cbv beta iota in Hpin.
  destruct (PopVerifier.certificate_common_name c) as [n|e] eqn:En; [|by destruct (existsb _ _)]. cbv beta iota in Hpin.
  destruct (extended_key_usage c) as [usages|e] eqn:Eu; [|by destruct (existsb _ _)]. cbv beta iota in Hpin.
  case_bool_decide as Hn; [|discriminate]. case_bool_decide as Hu; [|discriminate]. apply Ok_inj in Hpin as <-.
  exists pem, c, usages. rewrite <- Hn. by split_and!.
Qed.

(** C13: A verifier that has started checks tokens with the fixed audience, scope and algorithm
    and verifies the server of the key set; it demands certificates that the development CA
    signed, and answers 401 to every peer other than the one whose certificate is in the pin
    file, which carries the name of the gateway and is meant for clients. *)
Theorem verifier_started fs environ bind wrap_socket conf client server :
  start_verifier fs environ bind wrap_socket = Ok (conf, client, server) ->
  (PopVerifier.AUDIENCE conf = u"fapi-demo-api" /\ PopVerifier.ALLOWED_ALGORITHMS conf = [u"PS256"] /\
   u"openid" ∈ PopVerifier.REQUIRED_SCOPES conf) /\
  client = JwkClient (PopVerifier.JWKS_URL conf) true 300 (VerifierContext SERVER_AUTH [] true false None) /\
  (exists cert key, vs_context server =
     VerifierContext CLIENT_AUTH [PopVerifier.environ_get environ (u"TLS_CA_FILE") (u"/etc/fapi/ca.crt")] true false
       (Some (cert, key)) /\ load_cert_chain fs cert key = Ok tt) /\
  (exists pem certificate usages, read_bytes fs (API_UPSTREAM_CERT_FILE environ) = Ok pem /\
     load_pem_x509_certificate pem = Ok certificate /\
     PopVerifier.certificate_common_name certificate = Ok PopVerifier.API_UPSTREAM_COMMON_NAME /\
     extended_key_usage certificate = Ok usages /\ PopVerifier.CLIENT_AUTH ∈ usages /\
     vs_pin server = public_bytes_der certificate) /\
  (forall peer path hs, peer <> Some (vs_pin server) ->
     PopVerifier.do_GET conf (vs_pin server) (Ok peer) path hs =
       PopVerifier.invalid_token (u"untrusted API Gateway peer")) /\
  is_ok (PopVerifier.verify_api_gateway_peer (Some (vs_pin server)) (vs_pin server)) = true.
Proof.
  unfold start_verifier, create_verifier. intros Hs.
  destruct (PopVerifier.load_config environ) as [conf'|] eqn:Ec; [|discriminate]. cbv beta iota in Hs.
  destruct (PopVerifier.load_pinned_gateway_certificate _) as [pin|] eqn:Ep; [|discriminate]. cbv beta iota in Hs.
  destruct (create_server_context fs environ) as [context|] eqn:Ex; [|discriminate]. cbv beta iota in Hs.
  destruct (bind _ _) as [[]|]; [|discriminate]. cbv beta iota in Hs.
  destruct (wrap_socket context) as [[]|]; [|discriminate].
  apply Ok_inj, pair_equal_spec in Hs as [[<- <-]%pair_equal_spec <-]. cbn [vs_context vs_pin].
  destruct (PopVerifier.load_config_fixed _ _ Ec) as (Haud & Hscope & Halg).
  split_and!; [done|done|done|done| |by apply pin_loaded| |].
  - unfold create_server_context in Ex. destruct (load_verify_locations fs _) as [[]|]; [|discriminate].
    cbv beta iota in Ex. destruct (load_cert_chain fs _ _) as [[]|] eqn:El; [|discriminate].
    apply Ok_inj in Ex as <-. by eexists _, _.
  - intros peer path hs Hne.
    destruct (PopVerifier.untrusted_peer_rejected conf' pin (Ok peer) path hs 400) as [Hr _]; [|left|exact Hr].
    + by intros e [=].
    + by intros [= ->].
  - by apply (PopVerifier.pinned_gateway_accepted _ _ Ep).
Qed.
End started.

(** ** The life of the backend *)

(** The acts of a full life, in order. *)
Definition life : list act :=
  [BindServer; WrapSocket; BindReadiness; StartReadiness; Serve;
   ShutdownReadiness; CloseReadiness; CloseServer; UnlinkSocket].

Definition safe_readiness_dir (info : res dir_info) (getuid : Z) : Prop :=
  exists i, info = Ok i /\ info_is_dir i = true /\ mode_bits (info_mode i) = MODE_DIR /\ info_uid i = getuid.

(** One act of a run. *)
Ltac act serve Hrun :=
  match type of Hrun with
  | context [serve ?s ?a] => destruct (serve s a) as [[[]|?] ?] eqn:?; cbn [run pbind pret pfinally perform lift] in Hrun
  end.

(** The end of a run: what has been done is known, and an act that was taken to succeed has
    not failed. *)
Ltac ended Hrun :=
  injection Hrun as <- <- <-;
  let Hok := fresh "Hok" in let Hf := fresh "Hf" in
  split; [by eexists|intros Hok];
  first
    [ match goal with
      | E : _ ?s ?a = (Err _, _) |- _ =>
          assert (fst (Err _, _) = Ok tt) as Hf
            by (rewrite <- E; apply Hok, (bool_decide_unpack _); exact I);
          discriminate Hf
      end
    | split; done ].

(** A run from serving on. *)
Lemma serve_run {S} (serve : S -> act -> res unit * S) s r s' t :
  run serve s (pbind (pfinally (perform Serve) cleanup) (fun _ => pret 0)) = (r, s', t) ->
  t `prefix_of` drop 4 life /\
  ((forall s a, a ∈ drop 5 life -> fst (serve s a) = Ok tt) ->
   t = drop 4 life /\ r = match fst (serve s Serve) with Ok _ => Ok 0 | Err e => Err e end).
Proof.
  unfold cleanup. cbn [pbind perform pfinally run]. destruct (serve s Serve) as [[[]|e] s1]; cbn [fst];
    cbn [run pbind pret pfinally perform lift]; intros Hrun; repeat act serve Hrun; ended Hrun.
Qed.

Lemma ready_server_dir `{TLSLoader} fs files info getuid random bind server :
  ReadyServer fs files info getuid random bind = Ok server -> safe_readiness_dir info getuid.
Proof.
  unfold ReadyServer. destruct info as [i|]; [|discriminate]. cbv beta iota.
  destruct (negb _ || _ || _) eqn:E; [discriminate|]. intros _.
  rewrite !orb_false_iff, !negb_false_iff, !Z.eqb_eq in E. exists i. tauto.
Qed.

(** C14: A backend process goes through the acts of its life in their order: it binds its
    address only after its certificates and keys have been loaded, and the readiness socket
    only in a private directory of its own; and once it has served, however serving ended,
    the readiness server is stopped, both servers are closed and the readiness socket is
    removed, provided that these acts succeed, and the outcome is that of serving. *)
Theorem backend_life `{TLSLoader} {S} (serve : S -> act -> res unit * S) s fs environ info getuid random r s' t :
  run serve s (backend_main fs environ info getuid random) = (r, s', t) ->
  t `prefix_of` life /\
  (t <> [] -> exists contexts, create_contexts fs (from_environment environ) = Ok contexts) /\
  (BindReadiness ∈ t -> safe_readiness_dir info getuid) /\
  (Serve ∈ t ->
   (forall s a, a ∈ drop 5 life -> fst (serve s a) = Ok tt) ->
   t = life /\ exists s1, r = match fst (serve s1 Serve) with Ok _ => Ok 0 | Err e => Err e end).
Proof.
  unfold backend_main, create_backend, create_readiness. intros Hrun.
  remember (pbind (pfinally (perform Serve) cleanup) (fun _ => pret 0)) as rest eqn:Erest.
  assert (Hskip : forall l, t = l -> Serve ∉ l ->
    Serve ∈ t -> (forall s a, a ∈ drop 5 life -> fst (serve s a) = Ok tt) ->
    t = life /\ exists s1, r = match fst (serve s1 Serve) with Ok _ => Ok 0 | Err e => Err e end).
  { intros l -> Hn Hin. by destruct Hn. }
  destruct (create_contexts fs _) as [[[context routes] pin]|e] eqn:Ec.
  2:{ cbn in Hrun. injection Hrun as <- <- <-. split_and!; [apply prefix_nil|done|by intros ?%elem_of_nil|].
      by apply (Hskip []); [|apply not_elem_of_nil]. }
  cbn [run pbind pret perform lift] in Hrun. act serve Hrun.
  2:{ injection Hrun as <- <- <-. split_and!; [by eexists|by eexists|set_solver|]. apply (Hskip [BindServer]); [done|set_solver]. }
  act serve Hrun.
  2:{ injection Hrun as <- <- <-. split_and!; [by eexists|by eexists|set_solver|]. apply (Hskip [BindServer; WrapSocket]); [done|set_solver]. }
  destruct (ReadyServer _ _ _ _ _ _) as [readiness|e] eqn:Er.
  2:{ cbn [run pbind] in Hrun. injection Hrun as <- <- <-. split_and!; [by eexists|by eexists|set_solver|].
      apply (Hskip [BindServer; WrapSocket]); [done|set_solver]. }
  assert (Hdir : safe_readiness_dir info getuid) by by eapply ready_server_dir.
  cbn [run pbind] in Hrun. act serve Hrun.
  2:{ injection Hrun as <- <- <-. split_and!; [by eexists|by eexists|done|].
      apply (Hskip [BindServer; WrapSocket; BindReadiness]); [done|set_solver]. }
  act serve Hrun.
  2:{ injection Hrun as <- <- <-. split_and!; [by eexists|by eexists|done|].
      apply (Hskip [BindServer; WrapSocket; BindReadiness; StartReadiness]); [done|set_solver]. }
  match type of Hrun with context [run serve ?s2 rest] => destruct (run serve s2 rest) as [[r2 s9] t2] eqn:E2 end.
  injection Hrun as <- <- <-. rewrite Erest in E2. destruct (serve_run _ _ _ _ _ E2) as [[more Hp] Hall].
  split_and!; [exists more; by rewrite <- !app_comm_cons, <- Hp|by eexists|done|].
  intros _ Hok. destruct (Hall Hok) as [-> Hr]. split; [done|]. by eexists.
Qed.

(** ** A start of each service *)

Module ServerSample.
#[local] Instance loader : TLSLoader := {| load_verify_locations _ _ := Ok tt; load_cert_chain _ _ _ := Ok tt |}.
#[local] Existing Instance PopVerifier.Sample.x509.
#[local] Existing Instance PopVerifier.Sample.x509_laws.
#[local] Existing Instance PopVerifier.Sample.pyjwt.
Definition fs : fsys :=
  Fsys (fun p => if bool_decide (p = u"/etc/fapi/api-upstream.crt") then Some (FFile 420 (PopVerifier.PEM_CERTIFICATE_BEGIN ++ PopVerifier.Sample.pin)) else None)
    (fun _ => false) (fun _ => false).
End ServerSample.
#[local] Existing Instance ServerSample.loader.
#[local] Existing Instance PopVerifier.Sample.x509.
#[local] Existing Instance PopVerifier.Sample.x509_laws.
#[local] Existing Instance PopVerifier.Sample.pyjwt.

Lemma verifier_started_witness :
  exists conf client server,
    start_verifier ServerSample.fs [] (fun _ _ => Ok tt) (fun _ => Ok tt) = Ok (conf, client, server) /\
    PopVerifier.ALLOWED_ALGORITHMS conf = [u"PS256"].
Proof.
  destruct (start_verifier ServerSample.fs [] (fun _ _ => Ok tt) (fun _ => Ok tt)) as [[[conf client] server]|] eqn:E;
    [|vm_compute in E; discriminate E].
  exists conf, client, server. split; [reflexivity|].
  exact (proj1 (proj2 (proj1 (verifier_started ServerSample.fs [] (fun _ _ => Ok tt) (fun _ => Ok tt) conf client server E)))).
Defined.

(** Every act succeeds, but serving ends with an exception. *)
Lemma backend_life_witness :
  exists r t, run (fun (s : unit) a => (if bool_decide (a = Serve) then raise OSError "interrupted" else Ok tt, s)) tt
    (backend_main ReadySample.fs [] (Ok (DirInfo true MODE_DIR 1000)) 1000 []) = (r, tt, t) /\ t = life.
Proof.
  destruct (run (fun (s : unit) a => (if bool_decide (a = Serve) then raise OSError "interrupted" else Ok tt, s)) tt
    (backend_main ReadySample.fs [] (Ok (DirInfo true MODE_DIR 1000)) 1000 [])) as [[r []] t] eqn:E.
  exists r, t. split; [reflexivity|].
  destruct (backend_life _ tt ReadySample.fs [] (Ok (DirInfo true MODE_DIR 1000)) 1000 [] r tt t E) as (_ & _ & _ & H).
  destruct H as [Ht _]; [| |exact Ht].
  - vm_compute in E. injection E as _ <-. apply (bool_decide_unpack _). vm_compute. exact I.
  - intros s a Ha. cbn [fst]. rewrite bool_decide_false; [reflexivity|]. intros ->.
    apply (bool_decide_eq_true_2 _) in Ha. vm_compute in Ha. discriminate Ha.
Defined.
